(* ===== verification/_CoqProject ===== *)
-Q . S2P
Prelude.v
Python.v
Values.v
Exceptions.v
Amounts.v
Redaction.v
Errors.v
Addresses.v
Chains.v
Models.v
SwapModels.v
Policy.v
Idempotency.v
Prog.v
Effects.v
Erc20.v
Graph.v
State.v
Intents.v
Networks.v
ReadIntents.v
ReadIntentSpec.v
Alchemy.v
TokenTransactions.v
TokenSpec.v
Swaps.v
SwapSpec.v
Transactions.v
Pipeline.v
Preparation.v
Protocol.v
PipelineSpec.v
PreparationSpec.v
Execution.v
Guarantees.v
EndToEnd.v
Concurrency.v
Io.v
Custody.v
CustodySpec.v
Backend.v
BackendSpec.v
Deployment.v
Web.v
Ens.v
InvokeIntent.v
InvokeIntentSpec.v
ReadGraph.v
ReadGraphSpec.v
Runtime.v
RuntimeSpec.v
Http.v
AlchemyClients.v
Tools.v
Floats.v
SwapAdapters.v
HttpSpec.v
ToolsSpec.v
AdapterSpec.v
Service.v
SwapCalls.v
ServiceSpec.v
Sha256.v
Webhooks.v
WebhookSpec.v
Invoke.v
InvokeSpec.v
Juno.v
JunoSpec.v
