(* ===== verification/Prelude.v ===== *)
(** Verification of the Mercury wallet agent ([src/mercury/]).

    Mercury turns a structured request into an on-chain transaction: it parses an intent, prepares calldata, fills
    nonce and gas, simulates, applies a policy, asks a human, reserves an idempotency key, signs with a key kept in a
    secret store, broadcasts and waits for the receipt.  It also answers read-only requests (balances, prices, transfers)
    with one tool per kind, and receives webhooks of address activity.  The development models these paths from the request
    to the answer, down to the HTTP requests and the calls of the nodes, and proves what may be signed and sent.

    * How the program is modelled

    Pure Python code is a Rocq function; a raised exception is [Err] of [Prelude.result].  Code that calls the outside
    (a node, the secret store, a human, a swap provider, a clock, the shared idempotency store) is a finite tree of
    calls, [Prog.prog]; its traces [Prog.may] range over every answer the outside may give, so a theorem over traces
    holds for any behaviour of it.  Pydantic models are records with a [make_...] constructor that runs the
    validators of the class in order and collects the errors of the fields.  Third-party code is a type class:
    [Addresses.Web3] (address checksums), [Errors.PydanticText], [Intents.PydanticLax] (lax conversions), [Io.EthAccount]
    (eth_account), [Graph.LangGraph] (how langgraph runs the graphs, whose nodes and edges are data of [Graph]),
    [Floats.IsoFormat] (the dates [datetime.fromisoformat] reads), [Invoke.StateDump] (pydantic's dump of a final state),
    [Juno.JsonLoads] ([json.loads]) and [Juno.PydanticErrors] (what pydantic tells of a refused body).  Laws
    the theorems need are classes of their own, each with a reference instance that the witnesses use.

    * Parts, files and sources

    - [Prelude], [Python], [Values], [Exceptions]: results, Python strings, numbers and JSON-like values, exceptions and
      pydantic validation.
    - [Amounts] (models/amounts.py), [Redaction] (service/logging.py, custody/redaction.py), [Errors] (models/errors.py),
      [Addresses] (models/addresses.py and the address parts of the models), [Chains] (chains/, known_addresses/book.py,
      config.py, data/known_addresses.json).
    - [Models], [SwapModels], [Intents]: the data of models/ with its validators.
    - [Policy] (policy/rules.py, swap_rules.py, risk.py), [Idempotency] (policy/idempotency.py).
    - [Prog], [Effects]: programs and the calls of the wallet graphs: the transaction backend, signer, approver,
      idempotency store, contract reads, swap providers, clock.
    - [Erc20] (tools/erc20.py), [TokenTransactions] (tools/erc20_transactions.py, native_transactions.py), [Swaps]
      (swaps/router.py, tools/swaps.py), [Transactions] (approvers and requests of tools/transactions.py).
    - [Graph] (langgraph's run loop), [State] (graph/state.py, responses.py, request_metadata.py), [Pipeline]
      (graph/nodes_transaction.py, router.py and the transaction part of agent.py), [Preparation] (graph/nodes_erc20.py,
      nodes_native.py, nodes_swaps.py).
    - [Io], [Custody] (custody/, chains/rpc.py, providers/web3.py), [Backend] (the Web3 backend of
      tools/transactions.py): the boundaries of the graphs implemented over the calls of the web3 client and the secret
      store; [Prog.interp] runs a graph over them.
    - [Networks], [Alchemy] (alchemy/): networks, request parameters, rows and displays of the Alchemy clients;
      [ReadIntents] (graph/intents.py); [ReadGraph] (tools/registry.py, graph/nodes.py, graph/responses.py, the read
      routes of graph/router.py, [build_graph] of graph/agent.py).
    - [Web] (calls of the service beyond those of the graphs), [Ens] (providers/ens.py), [InvokeIntent]
      (graph/intent_validation.py), [Runtime] (graph/runtime.py): a request is validated, its names resolved, and its
      canonical form run by the graph of its kind.
    - [Http] (swaps/base.py, the client of custody/oneclaw.py), [AlchemyClients] (the clients of alchemy/), [Tools]
      (tools/schemas.py, evm.py, erc20.py, token_prices.py, portfolio_tokens.py, transfer_history.py, registry.py), [Floats]
      (the floats and time stamps the adapters use), [SwapAdapters] (swaps/lifi.py, cowswap.py, uniswap.py, a Module each):
      everything that is sent over HTTP, with [Web.HttpRequest] the one call below it.
    - [Service] (service/dependencies.py): the runtime built from settings and environment, and [Service.service_invoke], a
      request to it with every call answered by the parts above: [Prog.interp] twice, from the graphs to the backend, signer
      and clients, and from those to HTTP requests, node calls, contract reads, the clock and the idempotency store.
    - [Sha256] (hashlib and hmac of the standard library), [Webhooks] (webhooks/, graph/webhook_graph.py, the endpoint of
      service/api.py), [Invoke] (invoke.py, service/models.py).
    - [Juno] (subagent.py, runners.py, assistant_turn.py and tool_text.py of juno/): the tool a host's language model calls, the
      turn it runs in the process, and the text it answers.

    * Theorems

    - [TokenSpec], [SwapSpec], [PreparationSpec]: what a prepared transaction is, from its intent.
    - [Protocol], [PipelineSpec], [Execution], [Guarantees]: the phase machine of a run, that every node and every run
      of the four wallet graphs refines it, and what follows for signing, broadcasting and the idempotency store.
    - [EndToEnd]: from the intent to the signature, per graph.
    - [Concurrency]: any interleaving of any number of requests over one store.
    - [CustodySpec], [BackendSpec], [Deployment]: wallet paths, the signer, the backend, and the wallet over a node.
    - [ReadIntentSpec], [ReadGraphSpec]: what a parsed read-only intent is, that its dump parses to itself, and what a run
      of the read-only graph calls and answers.
    - [InvokeIntentSpec], [RuntimeSpec]: what an accepted request carries, that a signature asked for in a run of the
      runtime is for the intent the request validates to, and what becomes of a value-moving request in an envelope.
    - [HttpSpec]: where the secret client sends its key and tokens, and where a secret comes from.  [ToolsSpec]: the tools
      and the resolver only read, and what the registry answers can be printed.  [AdapterSpec]: the adapters are swap
      providers as the pipeline assumes them.
    - [SwapCalls], [ServiceSpec]: the composition: what the whole service sends, down to HTTP and the nodes.
    - [WebhookSpec]: the dedupe store against the list of the recently accepted keys, which deliveries are processed, and
      what is answered.  [InvokeSpec]: what of the request envelope reaches the runtime.
    - [JunoSpec]: what a call of the model's tool asks the runtime for, and what the host is told of the run.
    - In the component files: the policy engine against a declarative policy, amounts, calldata, registry.

    * Bounds and fuel

    A graph run takes at most 11 steps and is modelled with langgraph's [recursion_limit], assumed at least 25, its
    default ([Execution] shows that the limit is never reached).  [Backend.confirmations_loop] has fuel 121: every round
    sleeps a second and the deadline is 120 seconds away ([BackendSpec.confirmation_wait_ends]).  [Sha256.sha_blocks] has a
    unit of fuel per byte of the padded message and consumes 64 bytes a step.  Every other recursion is structural.

    * Not modelled

    What is logged: the structured-log setup of service/logging.py, graph/log_summaries.py and the fields invoke.py logs;
    no answer depends on them.  Of service/ also FastAPI's routes but the webhook's, the exception handlers of errors.py and
    http_logging.py.  Of juno/ the plugin, its specs and its manifest, which only register the tool with its host.
    Characters are those of Latin-1, one [ascii] each. *)
From stdpp Require Import base tactics option list strings gmap.
From Stdlib Require Import ZArith Lia Ascii String.

Create HintDb mercury.

(** * Results: Python code either returns or raises *)

Inductive result (E A : Type) : Type :=
| Ok (a : A)
| Err (e : E).
Arguments Ok {E A} a.
Arguments Err {E A} e.

#[export] Instance result_ret E : MRet (result E) := fun A a => Ok a.
#[export] Instance result_bind E : MBind (result E) :=
  fun A B f r => match r with Ok a => f a | Err e => Err e end.
#[export] Instance result_fmap E : FMap (result E) :=
  fun A B f r => match r with Ok a => Ok (f a) | Err e => Err e end.

Definition is_ok {E A} (r : result E A) : bool :=
  match r with Ok _ => true | Err _ => false end.

(** A guarded [raise]: [if b: raise e]. *)
Definition raise_if {E} (b : bool) (e : E) : result E unit :=
  if b then Err e else Ok tt.

(** [try: r except h]. *)
Definition catch {E F A} (r : result E A) (h : E -> result F A) : result F A :=
  match r with Ok a => Ok a | Err e => h e end.

Lemma result_bind_ok {E A B} (r : result E A) (f : A -> result E B) b :
  r ≫= f = Ok b <-> exists a, r = Ok a /\ f a = Ok b.
Proof.
  split.
  - destruct r as [a|e]; [intros H; exists a; done | discriminate].
  - by intros (a & -> & H).
Qed.

Lemma result_bind_err {E A B} (r : result E A) (f : A -> result E B) e :
  r ≫= f = Err e <-> r = Err e \/ exists a, r = Ok a /\ f a = Err e.
Proof.
  split.
  - destruct r as [a|e']; [intros H; right; exists a; done | intros H; left; unfold mbind, result_bind in H; congruence].
  - by intros [-> | (a & -> & H)].
Qed.

Lemma result_fmap_ok {E A B} (f : A -> B) (r : result E A) b :
  f <$> r = Ok b <-> exists a, r = Ok a /\ b = f a.
Proof.
  split.
  - destruct r as [a|]; [intros H; exists a; split; [done|] | discriminate].
    unfold fmap, result_fmap in H. congruence.
  - by intros (a & -> & ->).
Qed.

Lemma raise_if_ok {E} (b : bool) (e : E) u : raise_if b e = Ok u <-> b = false.
Proof. unfold raise_if. destruct b, u; split; congruence. Qed.

(** * State and exceptions

    The effectful code (a call on the RPC provider, the signer, the idempotency store)
    is a function of a state [S] that is kept when the call raises, as Python keeps it. *)

Definition SE (S E A : Type) : Type := S -> S * result E A.

#[export] Instance se_ret S E : MRet (SE S E) := fun A a s => (s, Ok a).
#[export] Instance se_bind S E : MBind (SE S E) :=
  fun A B f m s =>
    match m s with
    | (s', Ok a) => f a s'
    | (s', Err e) => (s', Err e)
    end.

Definition lift_result {S E A} (r : result E A) : SE S E A := fun s => (s, r).
Definition raise {S E A} (e : E) : SE S E A := fun s => (s, Err e).
Definition get_state {S E} : SE S E S := fun s => (s, Ok s).
Definition modify_state {S E} (f : S -> S) : SE S E unit := fun s => (f s, Ok tt).

(** [try: m except e: h e]: the state reached when [m] raised is kept. *)
Definition try_catch {S E F A} (m : SE S E A) (h : E -> SE S F A) : SE S F A :=
  fun s =>
    match m s with
    | (s', Ok a) => (s', Ok a)
    | (s', Err e) => h e s'
    end.

Lemma se_bind_ok {S E A B} (m : SE S E A) (f : A -> SE S E B) s s' b :
  (m ≫= f) s = (s', Ok b) <->
  exists s1 a, m s = (s1, Ok a) /\ f a s1 = (s', Ok b).
Proof.
  unfold mbind, se_bind. destruct (m s) as [s1 [a|e]]; split.
  - intros H. by exists s1, a.
  - by intros (? & ? & [= -> ->] & ?).
  - done.
  - by intros (? & ? & ? & ?).
Qed.

Lemma se_bind_run {S E A B} (m : SE S E A) (f : A -> SE S E B) s s1 a :
  m s = (s1, Ok a) -> (m ≫= f) s = f a s1.
Proof. intros H. unfold mbind, se_bind. by rewrite H. Qed.

Lemma se_bind_err {S E A B} (m : SE S E A) (f : A -> SE S E B) s s1 e :
  m s = (s1, Err e) -> (m ≫= f) s = (s1, Err e).
Proof. intros H. unfold mbind, se_bind. by rewrite H. Qed.

(** * Options *)

(** Python's [a or b] on an optional object. *)
Definition opt_or {A} (a b : option A) : option A :=
  match a with Some _ => a | None => b end.

Definition isSome {A} (o : option A) : bool :=
  match o with Some _ => true | None => false end.

Lemma isSome_true {A} (o : option A) : isSome o = true <-> exists a, o = Some a.
Proof. destruct o; simpl; split; eauto; [done | intros [? ?]; done]. Qed.

Lemma isSome_false {A} (o : option A) : isSome o = false <-> o = None.
Proof. destruct o; simpl; split; done. Qed.

(** The first reason of a list of optional reasons (a [for ... if reason is not None] loop). *)
Fixpoint first_some {A} (l : list (option A)) : option A :=
  match l with
  | [] => None
  | Some a :: _ => Some a
  | None :: l' => first_some l'
  end.

Lemma first_some_None {A} (l : list (option A)) :
  first_some l = None <-> Forall (fun o => o = None) l.
Proof.
  induction l as [|[a|] l IH]; simpl; rewrite ?Forall_cons, ?Forall_nil; [done | naive_solver | tauto].
Qed.

(** Searching a list whose keys are distinct finds the element with the key. *)
Lemma find_by_key {A K} (key : A -> K) (eqb : K -> K -> bool) (l : list A) (a : A) :
  (forall x y, eqb x y = true <-> x = y) -> NoDup (map key l) -> a ∈ l ->
  List.find (fun x => eqb (key x) (key a)) l = Some a.
Proof.
  intros Heq. induction l as [|b l IH]; intros Hd Ha; [by apply not_elem_of_nil in Ha|].
  simpl in *. apply NoDup_cons in Hd as [Hb Hd]. apply elem_of_cons in Ha as [<-|Ha].
  - by rewrite (proj2 (Heq _ _) eq_refl).
  - destruct (eqb (key b) (key a)) eqn:E; [|by apply IH]. apply Heq in E. exfalso. apply Hb. rewrite E.
    by apply list_elem_of_fmap_2.
Qed.

(** * Labelled transitions *)

(** [R] from state to state along a list of labels. *)
Inductive steps {A B} (R : A -> B -> A -> Prop) : A -> list B -> A -> Prop :=
| steps_nil a : steps R a [] a
| steps_cons a b a1 l a2 : R a b a1 -> steps R a1 l a2 -> steps R a (b :: l) a2.

Lemma steps_app {A B} (R : A -> B -> A -> Prop) a l1 a1 l2 a2 :
  steps R a l1 a1 -> steps R a1 l2 a2 -> steps R a (l1 ++ l2) a2.
Proof. induction 1; intros Hs; simpl; [done|]. econstructor; eauto. Qed.

Lemma steps_one {A B} (R : A -> B -> A -> Prop) a b a1 : R a b a1 -> steps R a [b] a1.
Proof. intros. by eapply steps_cons; [|constructor]. Qed.

Lemma steps_app_inv {A B} (R : A -> B -> A -> Prop) a l1 l2 a2 :
  steps R a (l1 ++ l2) a2 -> exists a1, steps R a l1 a1 /\ steps R a1 l2 a2.
Proof.
  revert a. induction l1 as [|b l1 IH]; intros a H; simpl in *; [exists a; split; [constructor | done]|].
  inversion H; subst. destruct (IH _ H5) as (a1' & ? & ?). exists a1'. split; [|done]. by econstructor.
Qed.

(** What one step preserves along with the labels seen so far holds after any number. *)
Lemma steps_history {A B} (R : A -> B -> A -> Prop) (I : A -> list B -> Prop) :
  (forall a b a1 l, I a l -> R a b a1 -> I a1 (l ++ [b])) ->
  forall a l0 l a1, I a l0 -> steps R a l a1 -> I a1 (l0 ++ l).
Proof.
  intros Hstep a l0 l a1 HI H. revert l0 HI.
  induction H as [a|a b a1 l a2 HR H IH]; intros l0 HI; [by rewrite app_nil_r|].
  rewrite (cons_middle b l0 l), (assoc_L (++)). apply IH. by eapply Hstep.
Qed.

#[export] Hint Constructors steps : mercury.

(** * Automation *)

#[export] Hint Resolve -> isSome_true : mercury.

(** Split a successful chain of [≫=] in a hypothesis into its steps. *)
Ltac inv_ok :=
  repeat match goal with
  | H : _ ≫= _ = Ok _ |- _ =>
      apply result_bind_ok in H; let a := fresh "v" in let H1 := fresh "E" in
      destruct H as (a & H1 & H)
  | H : _ <$> _ = Ok _ |- _ =>
      apply result_fmap_ok in H; let a := fresh "v" in let H1 := fresh "E" in
      destruct H as (a & H & H1)
  | H : raise_if _ _ = Ok _ |- _ => apply raise_if_ok in H
  | H : Ok _ = Ok _ |- _ => injection H as H
  | H : mret _ = Ok _ |- _ => unfold mret, result_ret in H
  | H : Err _ = Ok _ |- _ => discriminate H
  | H : Ok _ = Err _ |- _ => discriminate H
  end.

(** Case analysis on the scrutinee of a [match] or [if] of the goal or of a hypothesis. *)
Ltac case_match_hyp H :=
  match type of H with
  | context [match ?x with _ => _ end] => let E := fresh "Ecase" in destruct x eqn:E
  end.

(** Find an element, up to existential variables, in a list built from [::] and [++]. *)
Ltac find_in :=
  match goal with
  | |- _ ∈ _ :: _ => first [apply elem_of_cons; left; reflexivity | apply elem_of_cons; right; find_in]
  | |- _ ∈ _ ++ _ => first [apply elem_of_app; left; find_in | apply elem_of_app; right; find_in]
  | |- _ => eassumption
  end.
