(* ===== verification/Python.v ===== *)
(** Python text, integers and dynamic values: the part of the language the source uses.

    Text is a [string] of code points 0 to 255 (Latin-1); [py_strip], [py_lower] and
    [py_isdigit] are exact on that range.  [pyval] is the universe of JSON-like values the
    graph state, the intent payloads and the transaction metadata carry; a float is its
    [repr] text. *)
From stdpp Require Import base tactics option list sets strings.
From Stdlib Require Import ZArith Lia Ascii String.
From S2P Require Import Prelude.

Local Open Scope string_scope.
Local Open Scope Z_scope.

(** * Characters *)

Definition code (c : ascii) : Z := Z.of_N (N_of_ascii c).
Definition chr (z : Z) : ascii := ascii_of_N (Z.to_N z).

Definition is_space (c : ascii) : bool :=
  let z := code c in
  ((9 <=? z) && (z <=? 13)) || ((28 <=? z) && (z <=? 32)) || (z =? 133) || (z =? 160).

Definition is_ascii_digit (c : ascii) : bool := (48 <=? code c) && (code c <=? 57).

Definition is_hex_digit (c : ascii) : bool :=
  is_ascii_digit c || ((97 <=? code c) && (code c <=? 102)) || ((65 <=? code c) && (code c <=? 70)).

Definition is_ascii_upper (c : ascii) : bool := (65 <=? code c) && (code c <=? 90).
Definition is_ascii_lower (c : ascii) : bool := (97 <=? code c) && (code c <=? 122).
Definition is_ascii_alpha (c : ascii) : bool := is_ascii_upper c || is_ascii_lower c.

(** [str.isdigit] also holds of the superscripts two, three and one. *)
Definition is_unicode_digit (c : ascii) : bool :=
  is_ascii_digit c || (code c =? 178) || (code c =? 179) || (code c =? 185).

Definition lower_char (c : ascii) : ascii :=
  if is_ascii_upper c || ((192 <=? code c) && (code c <=? 222) && negb (code c =? 215))
  then chr (code c + 32) else c.

Definition upper_char (c : ascii) : ascii :=
  if is_ascii_lower c then chr (code c - 32) else c.

(** * Strings *)

Fixpoint str_map (f : ascii -> ascii) (s : string) : string :=
  match s with EmptyString => EmptyString | String c s' => String (f c) (str_map f s') end.

Fixpoint str_forall (p : ascii -> bool) (s : string) : bool :=
  match s with EmptyString => true | String c s' => p c && str_forall p s' end.

Definition str_exists (p : ascii -> bool) (s : string) : bool := negb (str_forall (fun c => negb (p c)) s).

Definition str_empty (s : string) : bool := match s with EmptyString => true | _ => false end.

Definition str_len (s : string) : Z := Z.of_nat (String.length s).

Definition py_lower : string -> string := str_map lower_char.
(** Used on ticker symbols only; exact on ASCII text. *)
Definition py_upper : string -> string := str_map upper_char.

Fixpoint lstrip_if (p : ascii -> bool) (s : string) : string :=
  match s with
  | EmptyString => EmptyString
  | String c s' => if p c then lstrip_if p s' else s
  end.

Fixpoint rstrip_if (p : ascii -> bool) (s : string) : string :=
  match s with
  | EmptyString => EmptyString
  | String c s' =>
      let r := rstrip_if p s' in
      if str_empty r && p c then EmptyString else String c r
  end.

Definition py_strip (s : string) : string := lstrip_if is_space (rstrip_if is_space s).

(** [s.startswith(p)] *)
Fixpoint py_startswith (s p : string) : bool :=
  match p, s with
  | EmptyString, _ => true
  | String a p', String b s' => Ascii.eqb a b && py_startswith s' p'
  | String _ _, EmptyString => false
  end.

(** [s[n:]] *)
Fixpoint str_drop (n : nat) (s : string) : string :=
  match n, s with
  | O, _ => s
  | S n', String _ s' => str_drop n' s'
  | S _, EmptyString => EmptyString
  end.

Definition py_isdigit (s : string) : bool := negb (str_empty s) && str_forall is_unicode_digit s.

(** [sub in s] *)
Fixpoint py_contains (sub s : string) : bool :=
  py_startswith s sub ||
  match s with EmptyString => false | String _ s' => py_contains sub s' end.

Fixpoint py_join (sep : string) (l : list string) : string :=
  match l with
  | [] => ""
  | [s] => s
  | s :: l' => s ++ sep ++ py_join sep l'
  end%string.

(** [s.split(sep)] for a one-character separator. *)
Fixpoint py_split (sep : ascii) (s : string) : list string :=
  match s with
  | EmptyString => [EmptyString]
  | String c s' =>
      if Ascii.eqb c sep then EmptyString :: py_split sep s'
      else match py_split sep s' with
           | [] => [String c EmptyString]
           | w :: l => String c w :: l
           end
  end.

(** Code-point order of [sorted] on strings. *)
Definition str_leb (a b : string) : bool :=
  match String.compare a b with Gt => false | _ => true end.

Fixpoint insert_sorted (x : string) (l : list string) : list string :=
  match l with
  | [] => [x]
  | y :: l' => if str_leb x y then x :: l else y :: insert_sorted x l'
  end.
Definition py_sorted (l : list string) : list string := foldr insert_sorted [] l.

(** * Integers and decimal text *)

Definition digit_char (d : Z) : ascii := chr (48 + d).
Definition digit_value (c : ascii) : Z := code c - 48.

(** The value of a string of ASCII digits, most significant first. *)
Fixpoint digits_value_from (acc : Z) (s : string) : Z :=
  match s with
  | EmptyString => acc
  | String c s' => digits_value_from (10 * acc + digit_value c) s'
  end.
Definition digits_value (s : string) : Z := digits_value_from 0 s.

Fixpoint digits_of (fuel : nat) (n : Z) (acc : string) : string :=
  match fuel with
  | O => acc
  | S f =>
      let acc' := String (digit_char (n mod 10)) acc in
      if n / 10 =? 0 then acc' else digits_of f (n / 10) acc'
  end.

(** [str(n)] of a nonnegative integer; [Z.log2 n + 1] steps are enough for its digits. *)
Definition string_of_nonneg (n : Z) : string := digits_of (S (Z.to_nat (Z.log2 n))) n "".

Definition py_str_int (z : Z) : string :=
  if z <? 0 then String "-" (string_of_nonneg (- z)) else string_of_nonneg z.

(** [len(str(n))] of a nonnegative integer. *)
Definition num_digits (n : Z) : Z := str_len (string_of_nonneg n).

(** Hexadecimal text. *)
Definition hex_char (d : Z) : ascii := if d <? 10 then chr (48 + d) else chr (87 + d).
Fixpoint hex_fixed (width : nat) (n : Z) (acc : string) : string :=
  match width with
  | O => acc
  | S w => hex_fixed w (n / 16) (String (hex_char (n mod 16)) acc)
  end.

(** * Lemmas on digits *)

Lemma digit_cases c :
  is_ascii_digit c = true ->
  c ∈ ["0";"1";"2";"3";"4";"5";"6";"7";"8";"9"]%char.
Proof.
  destruct c as [[] [] [] [] [] [] [] []]; intros H; try discriminate H; clear H;
    rewrite list_elem_of_In; simpl; tauto.
Qed.

Lemma digit_char_value d : 0 <= d < 10 -> digit_value (digit_char d) = d /\ is_ascii_digit (digit_char d) = true.
Proof.
  intros H.
  assert (d = 0 \/ d = 1 \/ d = 2 \/ d = 3 \/ d = 4 \/ d = 5 \/ d = 6 \/ d = 7 \/ d = 8 \/ d = 9)
    as Hd by lia.
  destruct_or! Hd; subst; split; reflexivity.
Qed.

Lemma digit_value_bound c : is_ascii_digit c = true -> 0 <= digit_value c <= 9.
Proof. unfold is_ascii_digit, digit_value. rewrite andb_true_iff, !Z.leb_le. lia. Qed.

Lemma digits_value_from_acc acc s :
  digits_value_from acc s = acc * 10 ^ str_len s + digits_value s.
Proof.
  unfold digits_value, str_len. revert acc. induction s as [|c s IH]; intros acc; cbn [digits_value_from String.length].
  - lia.
  - rewrite IH, (IH (10 * 0 + digit_value c)).
    rewrite Nat2Z.inj_succ, Z.pow_succ_r by lia. ring.
Qed.

Lemma str_len_app a b : str_len (a ++ b) = str_len a + str_len b.
Proof.
  unfold str_len. rewrite <- Nat2Z.inj_add. f_equal.
  induction a as [|c a IH]; [done | exact (f_equal S IH)].
Qed.

Lemma str_len_cons c s : str_len (String c s) = 1 + str_len s.
Proof. unfold str_len. cbn [String.length]. lia. Qed.

Lemma str_len_nonneg s : 0 <= str_len s.
Proof. unfold str_len. lia. Qed.

Lemma digits_value_app a b :
  digits_value (a ++ b) = digits_value a * 10 ^ str_len b + digits_value b.
Proof.
  unfold digits_value at 1 2. generalize 0. induction a as [|c a IH]; intros n; simpl.
  - by rewrite digits_value_from_acc.
  - apply IH.
Qed.

Lemma digits_value_cons c s :
  digits_value (String c s) = digit_value c * 10 ^ str_len s + digits_value s.
Proof. unfold digits_value at 1. cbn [digits_value_from]. rewrite digits_value_from_acc. f_equal. Qed.

Lemma digits_value_bound s :
  str_forall is_ascii_digit s = true -> 0 <= digits_value s < 10 ^ str_len s.
Proof.
  induction s as [|c s IH]; intros H.
  - unfold digits_value, str_len. simpl. lia.
  - cbn in H. apply andb_true_iff in H as [Hc Hs]. specialize (IH Hs).
    pose proof (digit_value_bound c Hc). rewrite digits_value_cons, str_len_cons.
    rewrite Z.pow_add_r by (try apply str_len_nonneg; lia). nia.
Qed.

Lemma str_forall_app p a b : str_forall p (a ++ b) = str_forall p a && str_forall p b.
Proof. induction a as [|c a IH]; simpl; [done | rewrite IH; apply andb_assoc]. Qed.

(** What [digits_of] prints, whenever its fuel covers the digits. *)
Lemma digits_of_spec fuel n acc :
  0 <= n < 10 ^ Z.of_nat fuel -> (0 < fuel)%nat ->
  exists p, digits_of fuel n acc = p ++ acc /\ p <> EmptyString /\
    str_forall is_ascii_digit p = true /\ digits_value p = n /\
    (0 < n -> 10 ^ (str_len p - 1) <= n) /\ (n = 0 -> str_len p = 1).
Proof.
  revert n acc. induction fuel as [|f IH]; intros n acc Hn Hf; [lia|].
  pose proof (Z.mod_pos_bound n 10 ltac:(lia)) as Hm.
  pose proof (Z.div_mod n 10 ltac:(lia)) as Hdm.
  destruct (digit_char_value (n mod 10) Hm) as [Hv Hd].
  cbn [digits_of]. destruct (Z.eqb_spec (n / 10) 0) as [Hz|Hz].
  - exists (String (digit_char (n mod 10)) ""). repeat split; try done.
    + cbn. by rewrite Hd.
    + rewrite digits_value_cons. unfold digits_value, str_len. cbn. lia.
    + intros. unfold str_len. cbn. lia.
  - assert (0 <= n / 10) by (apply Z.div_pos; lia).
    rewrite Nat2Z.inj_succ, Z.pow_succ_r in Hn by lia.
    destruct (IH (n / 10) (String (digit_char (n mod 10)) acc)) as (p & -> & Hne & Hall & Hval & Hlow & _).
    { split; [lia|]. apply Z.div_lt_upper_bound; lia. }
    { destruct f; [simpl in Hn; lia | lia]. }
    exists (p ++ String (digit_char (n mod 10)) ""). repeat split.
    + clear. induction p as [|c p IH]; [done | exact (f_equal (String c) IH)].
    + by destruct p.
    + rewrite str_forall_app, Hall. cbn. by rewrite Hd.
    + rewrite digits_value_app, Hval. unfold digits_value, str_len. cbn. lia.
    + intros _. rewrite str_len_app. change (str_len (String _ "")) with 1.
      specialize (Hlow ltac:(lia)).
      replace (str_len p + 1 - 1) with (Z.succ (str_len p - 1)) by lia.
      assert (1 <= str_len p).
      { destruct p; [done|]. rewrite str_len_cons. pose proof (str_len_nonneg p). lia. }
      rewrite Z.pow_succ_r by lia. lia.
    + intros ->. done.
Qed.

Lemma log2_fuel n : 0 <= n -> n < 10 ^ Z.of_nat (S (Z.to_nat (Z.log2 n))).
Proof.
  intros Hn. destruct (Z.eq_dec n 0) as [->|Hz]; [done|].
  rewrite Nat2Z.inj_succ, Z2Nat.id by apply Z.log2_nonneg.
  pose proof (Z.log2_spec n ltac:(lia)) as [_ H].
  pose proof (Z.log2_nonneg n).
  eapply Z.lt_le_trans; [exact H|]. apply Z.pow_le_mono_l. lia.
Qed.

Lemma string_of_nonneg_spec n :
  0 <= n ->
  string_of_nonneg n <> EmptyString /\
  str_forall is_ascii_digit (string_of_nonneg n) = true /\
  digits_value (string_of_nonneg n) = n.
Proof.
  intros Hn. unfold string_of_nonneg.
  destruct (digits_of_spec (S (Z.to_nat (Z.log2 n))) n "") as (p & -> & Hne & Hall & Hval & _).
  { split; [done | by apply log2_fuel]. }
  { lia. }
  assert (p ++ "" = p) as -> by (clear; induction p as [|c p IH]; [done | exact (f_equal (String c) IH)]).
  done.
Qed.

(** [len(str(n))] is the number of decimal digits. *)
Lemma num_digits_spec n :
  0 < n -> 1 <= num_digits n /\ 10 ^ (num_digits n - 1) <= n < 10 ^ num_digits n.
Proof.
  intros Hn. unfold num_digits, string_of_nonneg.
  destruct (digits_of_spec (S (Z.to_nat (Z.log2 n))) n "") as (p & -> & Hne & Hall & Hval & Hlow & _).
  { split; [lia | apply log2_fuel; lia]. }
  { lia. }
  assert (p ++ "" = p) as -> by (clear; induction p as [|c p IH]; [done | exact (f_equal (String c) IH)]).
  pose proof (digits_value_bound p Hall) as Hb. rewrite Hval in Hb. repeat split; [| |lia].
  - destruct p; [done|]. rewrite str_len_cons. pose proof (str_len_nonneg p). lia.
  - apply Hlow. lia.
Qed.

Lemma num_digits_0 : num_digits 0 = 1.
Proof. reflexivity. Qed.

Lemma num_digits_pos n : 0 <= n -> 1 <= num_digits n.
Proof.
  intros H. destruct (Z.eq_dec n 0) as [->|]; [by rewrite num_digits_0|].
  apply num_digits_spec. lia.
Qed.

(** A number below [10^k] has at most [k] digits. *)
Lemma num_digits_le n k : 0 <= n < 10 ^ k -> 1 <= k -> num_digits n <= k.
Proof.
  intros Hn Hk. destruct (Z.eq_dec n 0) as [->|Hz]; [by rewrite num_digits_0|].
  destruct (num_digits_spec n ltac:(lia)) as (H1 & Hlo & _).
  destruct (Z.le_gt_cases (num_digits n) k) as [|Hgt]; [done|].
  assert (10 ^ k <= 10 ^ (num_digits n - 1)) by (apply Z.pow_le_mono_r; lia). lia.
Qed.

Lemma num_digits_ge n k : 10 ^ k <= n -> 0 <= k -> k < num_digits n.
Proof.
  intros Hn Hk. assert (0 < 10 ^ k) by (apply Z.pow_pos_nonneg; lia).
  destruct (num_digits_spec n ltac:(lia)) as (H1 & _ & Hhi).
  apply (Z.pow_lt_mono_r_iff 10); lia.
Qed.

Lemma num_digits_mono m n : 0 <= m <= n -> num_digits m <= num_digits n.
Proof.
  intros H. destruct (Z.eq_dec n 0) as [->|Hz]; [by replace m with 0 by lia|].
  destruct (num_digits_spec n ltac:(lia)) as (H1 & _ & Hhi).
  apply num_digits_le; lia.
Qed.

Lemma digits_forall_nospace s : str_forall is_ascii_digit s = true -> str_forall (fun c => negb (is_space c)) s = true.
Proof.
  induction s as [|c s IH]; simpl; [done|]. rewrite !andb_true_iff. intros [Hc Hs].
  split; [|by apply IH]. apply digit_cases in Hc.
  repeat (apply elem_of_cons in Hc as [->|Hc]; [done|]). set_solver.
Qed.

(** Text whose first and last characters are not spaces is its own [strip()]. *)
Lemma rstrip_nospace s : str_forall (fun c => negb (is_space c)) s = true -> rstrip_if is_space s = s.
Proof.
  induction s as [|c s IH]; simpl; [done|]. rewrite andb_true_iff, negb_true_iff. intros [Hc Hs].
  rewrite IH, Hc, andb_false_r by done. done.
Qed.

Lemma py_strip_nospace s : str_forall (fun c => negb (is_space c)) s = true -> py_strip s = s.
Proof.
  intros H. unfold py_strip. rewrite rstrip_nospace by done.
  destruct s as [|c s]; [done|]. simpl in *. apply andb_true_iff in H as [Hc _].
  apply negb_true_iff in Hc. by rewrite Hc.
Qed.

Lemma string_app_nil_r s : (s ++ "")%string = s.
Proof. induction s as [|c s IH]; [done | exact (f_equal (String c) IH)]. Qed.

Lemma string_app_assoc a b c : (a ++ (b ++ c) = (a ++ b) ++ c)%string.
Proof. induction a as [|x a IH]; [done | exact (f_equal (String x) IH)]. Qed.

Lemma str_empty_true s : str_empty s = true <-> s = EmptyString.
Proof. by destruct s. Qed.

Lemma str_empty_false s : str_empty s = false <-> s <> EmptyString.
Proof. by destruct s. Qed.

(** * [strip] and [lower] *)

Lemma lower_char_facts c : is_space (lower_char c) = is_space c /\ lower_char (lower_char c) = lower_char c.
Proof. destruct c as [[] [] [] [] [] [] [] []]; split; reflexivity. Qed.

Lemma py_lower_idem s : py_lower (py_lower s) = py_lower s.
Proof.
  unfold py_lower. induction s as [|c s IH]; [done|]. cbn [str_map].
  by rewrite (proj2 (lower_char_facts c)), IH.
Qed.

Lemma rstrip_idem s : rstrip_if is_space (rstrip_if is_space s) = rstrip_if is_space s.
Proof.
  induction s as [|c s IH]; [done|]. cbn [rstrip_if].
  destruct (str_empty (rstrip_if is_space s) && is_space c) eqn:E; [done|].
  cbn [rstrip_if]. by rewrite IH, E.
Qed.

Lemma lstrip_idem s : lstrip_if is_space (lstrip_if is_space s) = lstrip_if is_space s.
Proof.
  induction s as [|c s IH]; [done|]. cbn [lstrip_if]. destruct (is_space c) eqn:E; [done|]. cbn [lstrip_if]. by rewrite E.
Qed.

Lemma rstrip_lstrip s : rstrip_if is_space s = s -> rstrip_if is_space (lstrip_if is_space s) = lstrip_if is_space s.
Proof.
  induction s as [|c s IH]; intros H; [done|]. cbn [lstrip_if]. destruct (is_space c) eqn:E; [|done].
  apply IH. cbn [rstrip_if] in H. rewrite E, andb_true_r in H.
  destruct (str_empty (rstrip_if is_space s)); [discriminate|]. by injection H.
Qed.

Lemma py_strip_idem s : py_strip (py_strip s) = py_strip s.
Proof. unfold py_strip. by rewrite (rstrip_lstrip (rstrip_if is_space s)), lstrip_idem by apply rstrip_idem. Qed.

Lemma py_strip_lower s : py_strip (py_lower s) = py_lower (py_strip s).
Proof.
  assert (forall t, rstrip_if is_space (py_lower t) = py_lower (rstrip_if is_space t)) as Hr.
  { unfold py_lower. induction t as [|c t IH]; [done|]. cbn [str_map rstrip_if].
    rewrite IH, (proj1 (lower_char_facts c)).
    assert (str_empty (str_map lower_char (rstrip_if is_space t)) = str_empty (rstrip_if is_space t)) as ->
      by (by destruct (rstrip_if is_space t)).
    by destruct (str_empty (rstrip_if is_space t) && is_space c). }
  assert (forall t, lstrip_if is_space (py_lower t) = py_lower (lstrip_if is_space t)) as Hl.
  { unfold py_lower. induction t as [|c t IH]; [done|]. cbn [str_map lstrip_if].
    rewrite (proj1 (lower_char_facts c)). by destruct (is_space c). }
  unfold py_strip. by rewrite Hr, Hl.
Qed.

(** [s.strip().lower()]: what a chain name is compared by. *)
Definition py_fold (s : string) : string := py_lower (py_strip s).

Lemma py_fold_idem s : py_fold (py_fold s) = py_fold s.
Proof. unfold py_fold. by rewrite py_strip_lower, py_strip_idem, py_lower_idem. Qed.
