(* ===== verification/Values.v ===== *)
(** Dynamic Python values: the JSON-like objects that [dict[str, Any]] fields hold, with
    truthiness, [str()], and the dict operations the source uses.  A dict is the list of its
    items in insertion order, with distinct keys. *)
From stdpp Require Import base tactics option list sets strings.
From Stdlib Require Import ZArith Lia Ascii String.
From S2P Require Import Prelude Python.

Local Open Scope string_scope.
Local Open Scope Z_scope.

Inductive pyval : Type :=
| VNone
| VBool (b : bool)
| VInt (z : Z)
| VFloat (repr : string)
| VStr (s : string)
| VList (l : list pyval)
| VDict (d : list (string * pyval)).

Abbreviation dict := (list (string * pyval)).

(** * Dictionaries *)

(** [d.get(k)] for a key that may be absent. *)
Fixpoint dict_get {A} (d : list (string * A)) (k : string) : option A :=
  match d with
  | [] => None
  | (k', v) :: d' => if String.eqb k k' then Some v else dict_get d' k
  end.

(** [d[k] = v]: a present key keeps its place. *)
Fixpoint dict_set {A} (d : list (string * A)) (k : string) (v : A) : list (string * A) :=
  match d with
  | [] => [(k, v)]
  | (k', v') :: d' => if String.eqb k k' then (k', v) :: d' else (k', v') :: dict_set d' k v
  end.

(** [d.setdefault(k, v)] *)
Definition dict_setdefault {A} (d : list (string * A)) (k : string) (v : A) : list (string * A) :=
  match dict_get d k with Some _ => d | None => d ++ [(k, v)] end%list.

(** [{**d, **e}] and [d.update(e)] *)
Definition dict_update {A} (d e : list (string * A)) : list (string * A) :=
  foldl (fun acc kv => dict_set acc kv.1 kv.2) d e.

Definition dict_mem {A} (d : list (string * A)) (k : string) : bool := isSome (dict_get d k).

(** [d.get(k)] on a dynamic dict: a missing key and a [None] value read the same. *)
Definition get (d : dict) (k : string) : pyval :=
  match dict_get d k with Some v => v | None => VNone end.

(** [d.get(k, default)] *)
Definition get_default (d : dict) (k : string) (dflt : pyval) : pyval :=
  match dict_get d k with Some v => v | None => dflt end.

(** * Type tests *)

Definition is_none (v : pyval) : bool := match v with VNone => true | _ => false end.
Definition as_str (v : pyval) : option string := match v with VStr s => Some s | _ => None end.
Definition as_dict (v : pyval) : option dict := match v with VDict d => Some d | _ => None end.
Definition as_list (v : pyval) : option (list pyval) := match v with VList l => Some l | _ => None end.
(** [isinstance(v, int)]: a [bool] is an [int]. *)
Definition as_int (v : pyval) : option Z :=
  match v with VInt z => Some z | VBool true => Some 1 | VBool false => Some 0 | _ => None end.

(** [v is True], [v is False] *)
Definition is_true (v : pyval) : bool := match v with VBool true => true | _ => false end.
Definition is_false (v : pyval) : bool := match v with VBool false => true | _ => false end.

(** [v == n] for an integer [n] that no float equals exactly. *)
Definition eq_int (v : pyval) (n : Z) : bool :=
  match as_int v with Some z => z =? n | None => false end.

(** [v == s] for a string [s]. *)
Definition eq_str (v : pyval) (s : string) : bool :=
  match v with VStr t => String.eqb t s | _ => false end.

Definition truthy (v : pyval) : bool :=
  match v with
  | VNone => false
  | VBool b => b
  | VInt z => negb (z =? 0)
  | VFloat r => negb (String.eqb r "0.0" || String.eqb r "-0.0")
  | VStr s => negb (str_empty s)
  | VList l => match l with [] => false | _ => true end
  | VDict d => match d with [] => false | _ => true end
  end.

(** [a or b] *)
Definition py_or (a b : pyval) : pyval := if truthy a then a else b.

Definition of_opt_str (o : option string) : pyval := match o with Some s => VStr s | None => VNone end.
Definition of_opt_int (o : option Z) : pyval := match o with Some z => VInt z | None => VNone end.

(** * [repr] and [str] *)

Definition quote_char : ascii := "'".
Definition dquote_char : ascii := chr 34.
Definition backslash : ascii := chr 92.

(** [repr] of a character inside a string delimited by [q]. *)
Definition repr_char (q c : ascii) : string :=
  let z := code c in
  if Ascii.eqb c q || Ascii.eqb c backslash then String backslash (String c "")
  else if z =? 9 then String backslash "t"
  else if z =? 10 then String backslash "n"
  else if z =? 13 then String backslash "r"
  else if (z <? 32) || ((127 <=? z) && (z <=? 160)) || (z =? 173)
  then String backslash ("x" ++ hex_fixed 2 z "")
  else String c "".

Fixpoint repr_body (q : ascii) (s : string) : string :=
  match s with EmptyString => "" | String c s' => repr_char q c ++ repr_body q s' end.

Definition py_repr_str (s : string) : string :=
  let q := if str_exists (Ascii.eqb quote_char) s && negb (str_exists (Ascii.eqb dquote_char) s)
           then dquote_char else quote_char in
  String q (repr_body q s ++ String q "").

Fixpoint py_repr (v : pyval) : string :=
  match v with
  | VNone => "None"
  | VBool true => "True"
  | VBool false => "False"
  | VInt z => py_str_int z
  | VFloat r => r
  | VStr s => py_repr_str s
  | VList l => "[" ++ py_join ", " (map py_repr l) ++ "]"
  | VDict d => "{" ++ py_join ", " (map (fun kv => py_repr_str kv.1 ++ ": " ++ py_repr kv.2) d) ++ "}"
  end.

Definition py_str (v : pyval) : string :=
  match v with VStr s => s | _ => py_repr v end.

(** * Lemmas on dictionaries *)

Lemma dict_get_set {A} (d : list (string * A)) k v k' :
  dict_get (dict_set d k v) k' = if String.eqb k' k then Some v else dict_get d k'.
Proof.
  induction d as [|[k0 v0] d IH]; simpl; [done|].
  destruct (String.eqb_spec k k0) as [->|Hne]; simpl.
  - by destruct (String.eqb_spec k' k0).
  - destruct (String.eqb_spec k' k0) as [->|]; [|done].
    by destruct (String.eqb_spec k0 k).
Qed.

Lemma dict_get_update_notin {A} (e d : list (string * A)) k :
  dict_get e k = None -> dict_get (dict_update d e) k = dict_get d k.
Proof.
  unfold dict_update. revert d. induction e as [|[k0 v0] e IH]; intros d H; simpl; [done|].
  simpl in H. destruct (String.eqb_spec k k0) as [->|Hne]; [done|].
  rewrite IH by done. simpl. rewrite dict_get_set.
  by destruct (String.eqb_spec k k0).
Qed.

Lemma dict_get_update_in {A} (e d : list (string * A)) k v :
  NoDup e.*1 -> dict_get e k = Some v -> dict_get (dict_update d e) k = Some v.
Proof.
  unfold dict_update. revert d. induction e as [|[k0 v0] e IH]; intros d Hnd H; simpl; [done|].
  simpl in H. apply NoDup_cons in Hnd as [Hni Hnd].
  destruct (String.eqb_spec k k0) as [->|Hne].
  - injection H as ->.
    assert (dict_get e k0 = None) as Hno.
    { clear -Hni. induction e as [|[k1 v1] e IH]; simpl; [done|].
      destruct (String.eqb_spec k0 k1) as [->|]; [set_solver|].
      apply IH. set_solver. }
    pose proof (dict_get_update_notin e (dict_set d k0 v) k0 Hno) as Hu.
    unfold dict_update in Hu. simpl in *. rewrite Hu, dict_get_set.
    by rewrite String.eqb_refl.
  - by apply IH.
Qed.

Lemma get_dict_get (d : dict) k v : dict_get d k = Some v -> get d k = v.
Proof. unfold get. by intros ->. Qed.

#[export] Hint Rewrite @dict_get_set : mercury.

(** * Dumps inside larger payloads *)

(** [d] gives the keys of [e] the values they have in [e]. *)
Definition carries_dict (d e : dict) : Prop := forall k v, dict_get e k = Some v -> dict_get d k = Some v.

Lemma carries_dict_refl d : carries_dict d d.
Proof. by intros k v. Qed.

Lemma carries_dict_update d e : NoDup e.*1 -> carries_dict (dict_update d e) e.
Proof. intros Hd k v H. by apply dict_get_update_in. Qed.

Lemma carries_dict_set d e k v : dict_get e k = Some v \/ dict_get e k = None -> carries_dict d e -> carries_dict (dict_set d k v) e.
Proof.
  intros He Hd k' v' H. rewrite dict_get_set. destruct (String.eqb_spec k' k) as [->|]; [|by apply Hd].
  destruct He as [He|He]; rewrite He in H; congruence.
Qed.
