(* ===== verification/Exceptions.v ===== *)
(** Python exceptions as values: the classes the source raises or catches, the [isinstance]
    relation between them, and pydantic's [ValidationError] with its error list. *)
From stdpp Require Import base tactics option list sets strings.
From Stdlib Require Import ZArith Lia Ascii String.
From S2P Require Import Prelude Python.

Inductive exn_class : Type :=
| ExceptionC            (** any other exception of a third-party client *)
| ValueErrorC
| KeyErrorC
| OSErrorC
| ConnectionErrorC
| TimeoutErrorC
| DecimalOverflowC      (** [decimal.Overflow], an [ArithmeticError] *)
| InvalidEVMAddressErrorC
| InvalidTokenDecimalsErrorC
| UnsupportedChainErrorC
| UnsupportedIntentErrorC
| DuplicateTransactionErrorC
| KnownAddressMissingErrorC
| SwapProviderErrorC
| SecretNotFoundErrorC
| EmptySecretValueErrorC
| SecretStoreUnavailableErrorC
| WalletIdValidationErrorC
| WalletPrivateKeyErrorC
| SigningRequestErrorC
| SigningFailedErrorC
| UnknownAlchemyNetworkErrorC
| EnsResolutionErrorC
| AlchemyValidationErrorC  (** the validation errors of the Alchemy clients *)
| DependencyUnavailableErrorC | GraphInvocationErrorC  (** of the service *)
| EnsExceptionC          (** the exceptions of web3's ens module *)
| GraphRecursionErrorC  (** langgraph's step-limit error *).

#[export] Instance exn_class_eq_dec : EqDecision exn_class.
Proof. solve_decision. Defined.

(** One entry of [ValidationError.errors()]. *)
Record pyd_error := PydError { pe_loc : list string; pe_msg : string }.

Inductive exn : Type :=
| Exn (cls : exn_class) (text : string)                       (** [text] is [str(exc)] *)
| ValidationError (title : string) (errors : list pyd_error).

Definition ValueError (text : string) : exn := Exn ValueErrorC text.

(** [isinstance(exc, ValueError)]: the source's own error classes that derive from it, and
    pydantic's [ValidationError]. *)
Definition class_is_value_error (c : exn_class) : bool :=
  match c with
  | ValueErrorC | InvalidEVMAddressErrorC | InvalidTokenDecimalsErrorC | UnsupportedChainErrorC
  | UnsupportedIntentErrorC | DuplicateTransactionErrorC | SwapProviderErrorC
  | UnknownAlchemyNetworkErrorC | EnsResolutionErrorC | AlchemyValidationErrorC => true
  | _ => false
  end.

Definition is_value_error (e : exn) : bool :=
  match e with Exn c _ => class_is_value_error c | ValidationError _ _ => true end.

(** [isinstance(exc, (ConnectionError, TimeoutError, OSError))] *)
Definition is_os_error (e : exn) : bool :=
  match e with
  | Exn (OSErrorC | ConnectionErrorC | TimeoutErrorC) _ => true
  | _ => false
  end.

Definition has_class (c : exn_class) (e : exn) : bool :=
  match e with Exn c' _ => bool_decide (c' = c) | ValidationError _ _ => false end.

(** * Pydantic models

    A model is validated field by field; the errors of every field are collected before the
    [mode="after"] validators run.  [V A] is a field that validated to [A] or its errors. *)

Abbreviation V := (result (list pyd_error)).

Definition verr {A} (loc msg : string) : V A := Err [PydError [loc] msg].

(** Both fields, with the errors of both. *)
Definition vboth {A B} (a : V A) (b : V B) : V (A * B) :=
  match a, b with
  | Ok x, Ok y => Ok (x, y)
  | Err e, Ok _ => Err e
  | Ok _, Err f => Err f
  | Err e, Err f => Err (e ++ f)
  end.

Declare Scope validation_scope.
Delimit Scope validation_scope with validation.
Notation "a ⊛ b" := (vboth a b) (at level 50, left associativity) : validation_scope.

(** A validator that raises [ValueError(msg)] becomes the error ["Value error, msg"]. *)
Definition exn_text (e : exn) : string :=
  match e with
  | Exn _ t => t
  | ValidationError title _ => "validation error for " ++ title
  end%string.

Definition vfield {A} (loc : string) (r : result exn A) : V A :=
  match r with Ok a => Ok a | Err e => verr loc ("Value error, " ++ exn_text e)%string end.

Definition v_min_length (loc : string) (n : Z) (s : string) : V string :=
  if (str_len s <? n)%Z
  then verr loc (if (n =? 1)%Z then "String should have at least 1 character"
                 else "String should have at least " ++ py_str_int n ++ " characters")%string
  else Ok s.

Definition v_gt (loc : string) (n z : Z) : V Z :=
  if (n <? z)%Z then Ok z else verr loc ("Input should be greater than " ++ py_str_int n)%string.
Definition v_ge (loc : string) (n z : Z) : V Z :=
  if (n <=? z)%Z then Ok z
  else verr loc ("Input should be greater than or equal to " ++ py_str_int n)%string.
Definition v_le (loc : string) (n z : Z) : V Z :=
  if (z <=? n)%Z then Ok z
  else verr loc ("Input should be less than or equal to " ++ py_str_int n)%string.

(** An optional field: [None] passes. *)
Definition v_opt {A B} (f : A -> V B) (o : option A) : V (option B) :=
  match o with None => Ok None | Some a => match f a with Ok b => Ok (Some b) | Err e => Err e end end.

(** A model: its fields, then the model validator; a [ValueError] of the latter has no location. *)
Definition v_model {A} (title : string) (fields : V A) (after : A -> result string unit) : result exn A :=
  match fields with
  | Err es => Err (ValidationError title es)
  | Ok a =>
      match after a with
      | Ok _ => Ok a
      | Err msg => Err (ValidationError title [PydError [] ("Value error, " ++ msg)%string])
      end
  end.

(** A model whose [mode="after"] validator computes: a [ValueError] is an error of the model, any
    other exception leaves pydantic as it is. *)
Definition v_model_with {A B} (title : string) (fields : V A) (after : A -> result exn B) : result exn B :=
  match fields with
  | Err es => Err (ValidationError title es)
  | Ok a =>
      match after a with
      | Ok b => Ok b
      | Err e => if is_value_error e
                 then Err (ValidationError title [PydError [] ("Value error, " ++ exn_text e)%string])
                 else Err e
      end
  end.

Definition no_after {A} (_ : A) : result string unit := Ok tt.

Lemma vboth_ok {A B} (a : V A) (b : V B) x y :
  vboth a b = Ok (x, y) <-> a = Ok x /\ b = Ok y.
Proof. destruct a, b; simpl; split; intuition congruence. Qed.

Lemma v_model_ok {A} title (f : V A) after a :
  v_model title f after = Ok a <-> f = Ok a /\ after a = Ok tt.
Proof.
  unfold v_model. split.
  - destruct f as [x|]; [|discriminate]. destruct (after x) as [[]|] eqn:E; [|discriminate].
    intros [= <-]. done.
  - intros [-> ->]. done.
Qed.

Lemma v_model_with_ok {A B} title (f : V A) (after : A -> result exn B) b :
  v_model_with title f after = Ok b <-> exists a, f = Ok a /\ after a = Ok b.
Proof.
  unfold v_model_with. split.
  - destruct f as [x|]; [|discriminate]. destruct (after x) as [b'|e] eqn:E.
    + intros [= <-]. by exists x.
    + by destruct (is_value_error e).
  - by intros (a & -> & ->).
Qed.

Lemma v_min_length_ok loc s t : v_min_length loc 1 s = Ok t <-> s = t /\ s <> EmptyString.
Proof.
  unfold v_min_length, verr. destruct s as [|c s].
  - change (str_len "" <? 1)%Z with true. cbn. split; [done | by intros [_ []]].
  - assert ((str_len (String c s) <? 1)%Z = false) as ->.
    { apply Z.ltb_ge. unfold str_len. cbn [String.length]. lia. }
    split; [intros [= <-] | intros [<- _]]; done.
Qed.

Lemma v_gt_ok loc n z w : v_gt loc n z = Ok w <-> z = w /\ (n < z)%Z.
Proof. unfold v_gt, verr. destruct (Z.ltb_spec n z); split; intuition (congruence || lia). Qed.

Lemma v_ge_ok loc n z w : v_ge loc n z = Ok w <-> z = w /\ (n <= z)%Z.
Proof. unfold v_ge, verr. destruct (Z.leb_spec n z); split; intuition (congruence || lia). Qed.

Lemma v_le_ok loc n z w : v_le loc n z = Ok w <-> z = w /\ (z <= n)%Z.
Proof. unfold v_le, verr. destruct (Z.leb_spec z n); split; intuition (congruence || lia). Qed.

Lemma vfield_ok {A} loc (r : result exn A) a : vfield loc r = Ok a <-> r = Ok a.
Proof. unfold vfield, verr. destruct r; split; congruence. Qed.

Lemma v_opt_ok {A B} (f : A -> V B) o ob :
  v_opt f o = Ok ob <->
  (o = None /\ ob = None) \/ exists a b, o = Some a /\ ob = Some b /\ f a = Ok b.
Proof.
  split.
  - destruct o as [a|]; simpl; [|intros [= <-]; by left].
    destruct (f a) as [b|] eqn:E; [|discriminate]. intros [= <-]. right. eauto.
  - intros [[-> ->] | (a & b & -> & -> & H)]; simpl; [done | by rewrite H].
Qed.

(** The same facts as introduction rules: a field that meets its constraint is kept. *)
Lemma v_min_length_intro loc s : s <> EmptyString -> v_min_length loc 1 s = Ok s.
Proof. intros H. by apply v_min_length_ok. Qed.
Lemma v_gt_intro loc n z : (n < z)%Z -> v_gt loc n z = Ok z.
Proof. intros H. by apply v_gt_ok. Qed.
Lemma v_ge_intro loc n z : (n <= z)%Z -> v_ge loc n z = Ok z.
Proof. intros H. by apply v_ge_ok. Qed.
Lemma v_le_intro loc n z : (z <= n)%Z -> v_le loc n z = Ok z.
Proof. intros H. by apply v_le_ok. Qed.
Lemma v_opt_intro {A} (f : A -> V A) o : (forall a, o = Some a -> f a = Ok a) -> v_opt f o = Ok o.
Proof. intros H. destruct o as [a|]; simpl; [|done]. by rewrite H. Qed.
Lemma vboth_intro {A B} (a : V A) (b : V B) x y : a = Ok x -> b = Ok y -> vboth a b = Ok (x, y).
Proof. by intros -> ->. Qed.
Lemma v_model_intro {A} title (f : V A) after a : f = Ok a -> after a = Ok tt -> v_model title f after = Ok a.
Proof. intros. by apply v_model_ok. Qed.
Lemma v_model_fmap {A B} title (g : A -> B) (f : V A) after a b :
  f = Ok a -> g a = b -> after b = Ok tt -> v_model title (g <$> f) after = Ok b.
Proof. intros -> <- H. by apply v_model_intro. Qed.

#[export] Hint Resolve v_min_length_intro v_gt_intro v_ge_intro v_le_intro v_opt_intro vboth_intro : mercury.

(** Split a validated model into its fields. *)
Ltac inv_valid :=
  repeat match goal with
  | H : v_model _ _ _ = Ok _ |- _ => apply v_model_ok in H; destruct H as [H ?]
  | H : v_model_with _ _ _ = Ok _ |- _ =>
      apply v_model_with_ok in H; let a := fresh "v" in let H1 := fresh "E" in
      destruct H as (a & H1 & H)
  | H : _ <$> _ = Ok _ |- _ =>
      apply result_fmap_ok in H; let a := fresh "v" in let H1 := fresh "E" in
      destruct H as (a & H & H1)
  | H : vboth _ _ = Ok (_, _) |- _ => apply vboth_ok in H; destruct H as [H ?]
  | H : vboth _ _ = Ok ?a |- _ => is_var a; destruct a
  | H : v_min_length _ 1 _ = Ok _ |- _ => apply v_min_length_ok in H; destruct H as [? H]; subst
  | H : v_gt _ _ _ = Ok _ |- _ => apply v_gt_ok in H; destruct H as [? H]; subst
  | H : v_ge _ _ _ = Ok _ |- _ => apply v_ge_ok in H; destruct H as [? H]; subst
  | H : v_le _ _ _ = Ok _ |- _ => apply v_le_ok in H; destruct H as [? H]; subst
  | H : vfield _ _ = Ok _ |- _ => apply vfield_ok in H
  end.
