(* ===== verification/Amounts.v ===== *)
(** Amount parsing and formatting ([mercury/models/amounts.py]).

    [decimal.Decimal] is the standard library's: a sign, a coefficient and an exponent, with
    the context operations the source calls ([normalize], product, division, [to_integral_value])
    rounding half-even to the context's precision inside [Emin, Emax]. *)
From stdpp Require Import base tactics option list sets strings.
From Stdlib Require Import ZArith Lia Ascii String.
From S2P Require Import Prelude Python Exceptions.

Local Open Scope string_scope.
Local Open Scope Z_scope.

(** * The standard library's [decimal] *)

Inductive decimal : Type :=
| Fin (neg : bool) (coeff exp : Z)
| Inf (neg : bool)
| NaN.

Definition EMAX : Z := 999999.
Definition EMIN : Z := -999999.
(** Bounds of exactly representable literals. *)
Definition MAX_EMAX : Z := 999999999999999999.
Definition MIN_ETINY : Z := -1999999999999999997.
Definition DEFAULT_PREC : Z := 28.

Definition Overflow : exn := Exn DecimalOverflowC "[<class 'decimal.Overflow'>]".

(** The longest prefix of ASCII digits, and the rest. *)
Fixpoint span_digits (s : string) : string * string :=
  match s with
  | String c s' =>
      if is_ascii_digit c then let (a, b) := span_digits s' in (String c a, b) else (EmptyString, s)
  | EmptyString => (EmptyString, EmptyString)
  end.

Fixpoint remove_underscores (s : string) : string :=
  match s with
  | EmptyString => EmptyString
  | String c s' => if Ascii.eqb c "_" then remove_underscores s' else String c (remove_underscores s')
  end.

(** An optional sign and the rest. *)
Definition take_sign (s : string) : bool * string :=
  match s with
  | String c s' => if Ascii.eqb c "-" then (true, s') else if Ascii.eqb c "+" then (false, s') else (false, s)
  | EmptyString => (false, s)
  end.

(** [digits [. digits]] with at least one digit; the integer and fraction digits and the rest. *)
Definition take_mantissa (s : string) : option (string * string * string) :=
  let (i, r) := span_digits s in
  let '(f, r') := match r with
                  | String c r' => if Ascii.eqb c "." then span_digits r' else (EmptyString, r)
                  | EmptyString => (EmptyString, EmptyString)
                  end in
  if str_empty i && str_empty f then None else Some (i, f, r').

(** [E [sign] digits], or nothing. *)
Definition take_exponent (s : string) : option Z :=
  match s with
  | EmptyString => Some 0
  | String c s' =>
      if Ascii.eqb (lower_char c) "e" then
        let (neg, r) := take_sign s' in
        let (d, r') := span_digits r in
        if str_empty d || negb (str_empty r') then None
        else Some (if neg then - digits_value d else digits_value d)
      else None
  end.

(** A literal outside the representable exponents is an [InvalidOperation]. *)
Definition representable (c e : Z) : bool :=
  (MIN_ETINY <=? e) && (if c =? 0 then e <=? MAX_EMAX else e + num_digits c - 1 <=? MAX_EMAX).

(** [Decimal(s)]; [None] is [InvalidOperation]. *)
Definition decimal_of_string (s : string) : option decimal :=
  let (neg, r) := take_sign (remove_underscores (py_strip s)) in
  let l := py_lower r in
  if String.eqb l "inf" || String.eqb l "infinity" then Some (Inf neg)
  else if py_startswith l "nan" && str_forall is_ascii_digit (str_drop 3 l) then Some NaN
  else if py_startswith l "snan" && str_forall is_ascii_digit (str_drop 4 l) then Some NaN
  else
    match take_mantissa r with
    | None => None
    | Some (i, f, r') =>
        match take_exponent r' with
        | None => None
        | Some x =>
            let c := digits_value (i ++ f) in
            let e := x - str_len f in
            if representable c e then Some (Fin neg c e) else None
        end
    end.

(** [c / 10^k] rounded half to even; [0] when [c] has fewer than [k] digits. *)
Definition round_half_even (c k : Z) : Z :=
  if num_digits c <? k then 0
  else
    let q := c / 10 ^ k in
    let r := c mod 10 ^ k in
    if 2 * r <? 10 ^ k then q
    else if 10 ^ k <? 2 * r then q + 1
    else if Z.even q then q else q + 1.

(** [_fix]: a finite result brought into the context. *)
Definition dec_fix (prec : Z) (neg : bool) (c e : Z) : result exn decimal :=
  let etiny := EMIN - prec + 1 in
  if c =? 0 then Ok (Fin neg 0 (Z.min (Z.max e etiny) EMAX))
  else
    let n := num_digits c in
    if EMAX <? e + n - 1 then Err Overflow
    else
      let e' := Z.max (e + n - prec) etiny in
      if e <? e' then
        let c' := round_half_even c (e' - e) in
        if num_digits c' <=? prec then Ok (Fin neg c' e')
        else if EMAX - prec + 1 <? e' + 1 then Err Overflow
        else Ok (Fin neg (c' / 10) (e' + 1))
      else Ok (Fin neg c e).

(** Drop trailing zeros of the coefficient while the exponent is below [emax]. *)
Fixpoint strip_zeros (fuel : nat) (emax c e : Z) : Z * Z :=
  match fuel with
  | O => (c, e)
  | S f => if (c mod 10 =? 0) && (e <? emax) then strip_zeros f emax (c / 10) (e + 1) else (c, e)
  end.

(** Drop every trailing zero; a zero has exponent 0. *)
Definition dec_reduce (d : decimal) : decimal :=
  match d with
  | Fin n c e =>
      if c =? 0 then Fin n 0 0
      else let (c', e') := strip_zeros (Z.to_nat (num_digits c)) EMAX c e in Fin n c' e'
  | d => d
  end.

(** [Decimal.normalize()] in the default context. *)
Definition dec_normalize (neg : bool) (c e : Z) : result exn decimal :=
  dec_reduce <$> dec_fix DEFAULT_PREC neg c e.

(** [Decimal(10) ** n], exact when the precision has room for its [n + 1] digits. *)
Definition dec_pow10 (n : Z) : Z := 10 ^ n.

(** [x * y] for finite operands. *)
Definition dec_mul (prec : Z) (nx : bool) (cx ex : Z) (ny : bool) (cy ey : Z) : result exn decimal :=
  dec_fix prec (xorb nx ny) (cx * cy) (ex + ey).

(** [x / y] for finite nonnegative operands, [y] not zero (the algorithm of the specification). *)
Definition dec_div (prec cx ex cy ey : Z) : result exn decimal :=
  if cx =? 0 then dec_fix prec false 0 (ex - ey)
  else
    let shift := num_digits cy - num_digits cx + prec + 1 in
    let e := ex - ey - shift in
    let n := if 0 <=? shift then cx * 10 ^ shift else cx in
    let d := if 0 <=? shift then cy else cy * 10 ^ (- shift) in
    let q := n / d in
    if n mod d =? 0 then
      let (c', e') := strip_zeros (Z.to_nat (num_digits q)) (ex - ey) q e in dec_fix prec false c' e'
    else dec_fix prec false (if q mod 5 =? 0 then q + 1 else q) e.

(** [x != x.to_integral_value()] for a finite [x]. *)
Definition dec_is_integral (c e : Z) : bool :=
  if 0 <=? e then true
  else if c =? 0 then true
  else if num_digits c <? - e then false
  else c mod 10 ^ (- e) =? 0.

(** [int(x)] *)
Definition dec_int (neg : bool) (c e : Z) : Z :=
  let m := if c =? 0 then 0 else if 0 <=? e then c * 10 ^ e else c / 10 ^ (- e) in
  if neg then - m else m.

(** The fractional digits of width [k] of [c * 10^-k], as ["f"] formatting prints them. *)
Fixpoint digits_fixed (width : nat) (n : Z) (acc : string) : string :=
  match width with
  | O => acc
  | S w => digits_fixed w (n / 10) (String (digit_char (n mod 10)) acc)
  end.

(** [format(x, "f")] of a finite nonnegative [x]. *)
Definition format_f (c e : Z) : string :=
  if 0 <=? e then string_of_nonneg (c * 10 ^ e)
  else string_of_nonneg (c / 10 ^ (- e)) ++ "." ++
       digits_fixed (Z.to_nat (- e)) (c mod 10 ^ (- e)) "".

(** * amounts.py *)

Definition MAX_DECIMALS : Z := 77.

Definition validate_token_decimals (decimals : Z) : result exn Z :=
  if (decimals <? 0) || (MAX_DECIMALS <? decimals)
  then Err (Exn InvalidTokenDecimalsErrorC ("Token decimals must be between 0 and " ++ py_str_int MAX_DECIMALS ++ "."))
  else Ok decimals.

(** CPython refuses to convert between [int] and decimal text beyond this many digits. *)
Definition MAX_STR_DIGITS : Z := 4300.
Definition int_str_limit : exn :=
  ValueError "Exceeds the limit (4300 digits) for integer string conversion".

Definition format_units (raw_amount decimals : Z) : result exn string :=
  _ ← validate_token_decimals decimals;
  if raw_amount <? 0 then Err (ValueError "Raw amount must not be negative.")
  else if MAX_STR_DIGITS <? num_digits raw_amount then Err int_str_limit
  else if decimals =? 0 then Ok (py_str_int raw_amount)
  else
    let prec := Z.max (num_digits raw_amount) decimals + 2 in
    formatted ← dec_div prec raw_amount 0 (dec_pow10 decimals) 0;
    match formatted with
    | Fin _ c e => Ok (format_f c e)
    | _ => Err Overflow
    end.

Definition too_many_places : exn := ValueError "Amount has too many decimal places for token decimals.".

Definition parse_units (amount : string) (decimals : Z) : result exn Z :=
  _ ← validate_token_decimals decimals;
  let candidate := py_strip amount in
  if str_empty candidate then Err (ValueError "Amount must not be empty.")
  else
    let candidate := if py_startswith candidate "+" then str_drop 1 candidate else candidate in
    match decimal_of_string candidate with
    | None => Err (ValueError "Amount must be a valid decimal string.")
    | Some (Inf _ | NaN) => Err (ValueError "Amount must be finite.")
    | Some (Fin neg c e) =>
        if neg && negb (c =? 0) then Err (ValueError "Amount must not be negative.")
        else
          normalized ← dec_normalize neg c e;
          let exponent := match normalized with Fin _ _ x => x | _ => 0 end in
          let fractional_digits := Z.max (- exponent) 0 in
          if decimals <? fractional_digits then Err too_many_places
          else
            let prec := Z.max (str_len candidate) decimals + decimals + 4 in
            raw ← dec_mul prec neg c e false (dec_pow10 decimals) 0;
            match raw with
            | Fin n c' e' =>
                if negb (dec_is_integral c' e') then Err too_many_places else Ok (dec_int n c' e')
            | _ => Err Overflow
            end
    end.

Definition parse_integer_raw_amount (amount : string) : result exn Z :=
  let candidate := py_strip amount in
  if str_empty candidate then Err (ValueError "Amount must not be empty.")
  else
    let candidate := if py_startswith candidate "+" then str_drop 1 candidate else candidate in
    if negb (py_isdigit candidate)
    then Err (ValueError "Raw amount must be a nonnegative integer decimal string without fractional digits.")
    else if str_forall is_ascii_digit candidate then
      if MAX_STR_DIGITS <? str_len candidate then Err int_str_limit else Ok (digits_value candidate)
    else Err (ValueError ("invalid literal for int() with base 10: '" ++ candidate ++ "'")).

(** The pair a read tool returns. *)
Record FormattedAmount := { fa_raw : Z; fa_formatted : string; fa_decimals : Z }.

Definition make_FormattedAmount (raw : Z) (formatted : string) (decimals : Z) : result exn FormattedAmount :=
  f ← v_model "FormattedAmount"
        (v_ge "raw" 0 raw ⊛ v_min_length "formatted" 1 formatted ⊛
         (d ← v_ge "decimals" 0 decimals; d ← v_le "decimals" MAX_DECIMALS d;
          vfield "decimals" (validate_token_decimals d)))%validation no_after;
  let '(r, s, d) := f in Ok {| fa_raw := r; fa_formatted := s; fa_decimals := d |}.

Example parse_1 : parse_units " 1.5 " 6 = Ok 1500000. Proof. vm_compute. reflexivity. Qed.
Example parse_2 : parse_units "+1e3" 2 = Ok 100000. Proof. vm_compute. reflexivity. Qed.
Example parse_3 : parse_units "0.0000001" 6 = Err too_many_places. Proof. vm_compute. reflexivity. Qed.
Example parse_4 : parse_units "-0" 6 = Ok 0. Proof. vm_compute. reflexivity. Qed.
Example format_1 : format_units 1500000 6 = Ok "1.5". Proof. vm_compute. reflexivity. Qed.
Example format_2 : format_units (10 ^ 18) 18 = Ok "1". Proof. vm_compute. reflexivity. Qed.
Example format_3 : format_units (2 ^ 256 - 1) 77 =
  Ok "1.15792089237316195423570985008687907853269984665640564039457584007913129639935".
Proof. vm_compute. reflexivity. Qed.
Example format_4 : format_units 20000000 6 = Ok "20". Proof. vm_compute. reflexivity. Qed.
Example parse_5 : parse_units "1.15792089237316195423570985008687907853269984665640564039457584007913129639935" 77
  = Ok (2 ^ 256 - 1). Proof. vm_compute. reflexivity. Qed.

(** * Lemmas: the context operations *)

Lemma dec_fix_exact prec neg c e :
  0 < c -> num_digits c <= prec -> e + num_digits c - 1 <= EMAX -> EMIN - prec + 1 <= e ->
  dec_fix prec neg c e = Ok (Fin neg c e).
Proof.
  intros Hc Hn Hmax Hmin. unfold dec_fix.
  destruct (Z.eqb_spec c 0); [lia|].
  destruct (Z.ltb_spec EMAX (e + num_digits c - 1)); [lia|].
  destruct (Z.ltb_spec e (Z.max (e + num_digits c - prec) (EMIN - prec + 1))); [lia | done].
Qed.

Lemma pow10_pos k : 0 <= k -> 0 < 10 ^ k.
Proof. intros. apply Z.pow_pos_nonneg; lia. Qed.

(** Stripping zeros keeps the value. *)
Lemma strip_zeros_value fuel emax c e c' e' :
  strip_zeros fuel emax c e = (c', e') -> e <= e' /\ c = c' * 10 ^ (e' - e) /\ (e <= emax -> e' <= emax).
Proof.
  revert c e. induction fuel as [|f IH]; intros c e; cbn [strip_zeros].
  - intros [= <- <-]. rewrite Z.sub_diag. lia.
  - destruct (Z.eqb_spec (c mod 10) 0) as [Hm|Hm]; simpl; [destruct (Z.ltb_spec e emax)|].
    + intros (H1 & H2 & H3)%IH. repeat split; [lia| |lia].
      replace (e' - e) with (Z.succ (e' - (e + 1))) by lia.
      rewrite Z.pow_succ_r by lia.
      pose proof (Z.div_mod c 10 ltac:(lia)). nia.
    + intros [= <- <-]. rewrite Z.sub_diag. lia.
    + intros [= <- <-]. rewrite Z.sub_diag. lia.
Qed.

(** It strips every zero it may: [j] known factors of ten raise the exponent by [j]. *)
Lemma strip_zeros_progress fuel emax c e c' e' j :
  strip_zeros fuel emax c e = (c', e') ->
  0 <= j -> j <= Z.of_nat fuel -> c mod 10 ^ j = 0 -> e + j <= emax -> e + j <= e'.
Proof.
  revert c e j. induction fuel as [|f IH]; intros c e j; cbn [strip_zeros].
  - intros [= <- <-]. lia.
  - intros H Hj Hf Hm He.
    destruct (Z.eq_dec j 0) as [->|Hj0].
    { destruct (_ && _) eqn:Eb; [apply strip_zeros_value in H; lia | injection H as <- <-; lia]. }
    assert (c mod 10 = 0 /\ (c / 10) mod 10 ^ (j - 1) = 0) as [Hm1 Hm2].
    { replace j with (Z.succ (j - 1)) in Hm by lia. rewrite Z.pow_succ_r in Hm by lia.
      pose proof (pow10_pos (j - 1) ltac:(lia)).
      apply Z.mod_divide in Hm as [q ->]; [|lia].
      replace (q * (10 * 10 ^ (j - 1))) with (q * 10 ^ (j - 1) * 10) by ring.
      rewrite Z.mod_mul, Z.div_mul, Z.mod_mul by lia. done. }
    rewrite Hm1 in H. simpl in H. destruct (Z.ltb_spec e emax); [|lia].
    specialize (IH _ _ (j - 1) H). lia.
Qed.

(** It stops at the ideal exponent or at a last nonzero digit. *)
Lemma strip_zeros_stop fuel emax c e c' e' :
  strip_zeros fuel emax c e = (c', e') -> 0 < c -> num_digits c <= Z.of_nat fuel -> e <= emax ->
  e' = emax \/ c' mod 10 <> 0.
Proof.
  revert c e. induction fuel as [|f IH]; intros c e; cbn [strip_zeros]; intros H Hc Hf He.
  - pose proof (num_digits_pos c). lia.
  - destruct (Z.eqb_spec (c mod 10) 0) as [Hm|Hm]; simpl in H.
    2: { injection H as <- <-. by right. }
    destruct (Z.ltb_spec e emax); [|injection H as <- <-; left; lia].
    pose proof (Z.div_mod c 10 ltac:(lia)).
    assert (0 < c / 10) by lia.
    apply (IH _ _ H); [lia| |lia].
    destruct (num_digits_spec c Hc) as (Hn1 & Hlo & Hhi).
    assert (10 <= c) by lia.
    pose proof (num_digits_ge c 1 ltac:(lia) ltac:(lia)).
    assert (num_digits (c / 10) <= num_digits c - 1); [|lia].
    apply num_digits_le; [|lia]. split; [lia|].
    apply Z.div_lt_upper_bound; [lia|]. rewrite <- Z.pow_succ_r by lia.
    by replace (Z.succ (num_digits c - 1)) with (num_digits c) by lia.
Qed.

Lemma mod_pow_digits c k :
  0 < c -> 0 <= k -> c mod 10 ^ k = 0 -> k < num_digits c.
Proof.
  intros Hc Hk Hm. pose proof (pow10_pos k Hk).
  apply num_digits_ge; [|done].
  apply Z.mod_divide in Hm as [q ->]; [|lia].
  assert (0 < q) by (apply (Z.mul_pos_cancel_r q (10 ^ k)); lia). nia.
Qed.

(** Rounding a coefficient that ends in enough zeros is exact. *)
Lemma round_half_even_exact c k :
  0 < c -> 0 <= k -> c mod 10 ^ k = 0 -> round_half_even c k = c / 10 ^ k.
Proof.
  intros Hc Hk Hm. unfold round_half_even.
  pose proof (mod_pow_digits c k Hc Hk Hm).
  destruct (Z.ltb_spec (num_digits c) k); [lia|].
  rewrite Hm. pose proof (pow10_pos k Hk). by destruct (Z.ltb_spec (2 * 0) (10 ^ k)); [|lia].
Qed.

Lemma mod_pow_split c a b :
  0 <= a -> 0 <= b -> c mod 10 ^ (a + b) = 0 -> c mod 10 ^ a = 0 /\ (c / 10 ^ a) mod 10 ^ b = 0.
Proof.
  intros Ha Hb Hm. pose proof (pow10_pos a Ha). pose proof (pow10_pos b Hb).
  rewrite Z.pow_add_r in Hm by done.
  apply Z.mod_divide in Hm as [q ->]; [|nia].
  replace (q * (10 ^ a * 10 ^ b)) with (q * 10 ^ b * 10 ^ a) by ring.
  rewrite Z.mod_mul, Z.div_mul, Z.mod_mul by lia. done.
Qed.

Lemma round_half_even_bounds c s :
  0 < c -> 0 <= s -> num_digits c = DEFAULT_PREC + s -> 10 ^ 27 <= round_half_even c s <= 10 ^ 28.
Proof.
  unfold DEFAULT_PREC. intros Hc Hs Hn.
  destruct (num_digits_spec c Hc) as (_ & Hlo & Hhi). rewrite Hn in Hlo, Hhi.
  replace (28 + s - 1) with (27 + s) in Hlo by lia.
  rewrite Z.pow_add_r in Hlo, Hhi by lia. pose proof (pow10_pos s Hs).
  assert (10 ^ 27 <= c / 10 ^ s < 10 ^ 28).
  { split; [apply Z.div_le_lower_bound; lia | apply Z.div_lt_upper_bound; lia]. }
  unfold round_half_even. destruct (Z.ltb_spec (num_digits c) s); [lia|].
  destruct (_ <? _); [lia|]. destruct (_ <? _); [lia|]. destruct (Z.even _); lia.
Qed.

(** [c * 10^e] is a multiple of [10^-d]. *)
Definition has_places (c e d : Z) : Prop := d < - e -> c mod 10 ^ (- e - d) = 0.

Lemma dec_reduce_places neg c e d :
  0 < c -> e <= EMAX -> 0 <= d -> has_places c e d ->
  exists c' e', dec_reduce (Fin neg c e) = Fin neg c' e' /\ - e' <= d.
Proof.
  intros Hc He Hd Hp. unfold dec_reduce. destruct (Z.eqb_spec c 0); [lia|].
  destruct (strip_zeros _ _ _ _) as [c' e'] eqn:E. exists c', e'. split; [done|].
  destruct (Z.lt_ge_cases d (- e)) as [Hlt|Hge].
  - specialize (Hp Hlt). pose proof (mod_pow_digits c (- e - d) Hc ltac:(lia) Hp).
    unfold EMAX in *. pose proof (strip_zeros_progress _ _ _ _ _ _ (- e - d) E). lia.
  - apply strip_zeros_value in E. lia.
Qed.

(** A rounding that drops [s] digits keeps the places, a carry included. *)
Lemma round_half_even_places c e s d :
  0 < c -> 0 < s -> has_places c e d -> has_places (round_half_even c s) (e + s) d.
Proof.
  intros Hc Hs Hp Hlt. specialize (Hp ltac:(lia)).
  replace (- e - d) with (s + (- (e + s) - d)) in Hp by lia.
  apply mod_pow_split in Hp as [Hp1 Hp2]; [|lia..].
  rewrite round_half_even_exact; [done | lia | lia | done].
Qed.

Lemma div10_places c e d : 0 <= d -> has_places c e d -> has_places (c / 10) (e + 1) d.
Proof.
  intros Hd Hp Hlt. specialize (Hp ltac:(lia)).
  replace (- e - d) with (1 + (- (e + 1) - d)) in Hp by lia.
  apply mod_pow_split in Hp as [_ Hp]; [done | lia..].
Qed.

(** [normalize] never leaves more places than the value has, although it rounds. *)
Lemma dec_normalize_places neg c e d :
  0 <= c -> 0 <= d -> -100000 <= e <= 0 -> num_digits c <= 100000 -> has_places c e d ->
  exists c' e', dec_normalize neg c e = Ok (Fin neg c' e') /\ - e' <= d.
Proof.
  intros Hc Hd He Hn Hp. unfold dec_normalize, dec_fix.
  destruct (Z.eqb_spec c 0) as [->|Hc0]; [exists 0, 0; split; [done|lia]|].
  pose proof (num_digits_pos c Hc). unfold EMIN, EMAX.
  destruct (Z.ltb_spec 999999 (e + num_digits c - 1)); [lia|].
  replace (Z.max (e + num_digits c - DEFAULT_PREC) (-999999 - DEFAULT_PREC + 1))
    with (e + (num_digits c - DEFAULT_PREC)) by (unfold DEFAULT_PREC; lia).
  set (s := num_digits c - DEFAULT_PREC).
  assert (Hred : forall c1 e1, 0 < c1 -> e1 <= EMAX -> has_places c1 e1 d ->
    exists c' e', dec_reduce <$> (Ok (Fin neg c1 e1) : result exn decimal) = Ok (Fin neg c' e') /\ - e' <= d).
  { intros c1 e1 Hc1 He1 Hp1. destruct (dec_reduce_places neg c1 e1 d Hc1 He1 Hd Hp1) as (c' & e' & Hr & Hle).
    exists c', e'. split; [unfold fmap, result_fmap; by rewrite Hr | done]. }
  destruct (Z.ltb_spec e (e + s)); [|apply Hred; unfold EMAX; lia || done].
  replace (e + s - e) with s by lia.
  pose proof (round_half_even_bounds c s ltac:(lia) ltac:(lia) ltac:(lia)) as Hb.
  pose proof (round_half_even_places c e s d ltac:(lia) ltac:(lia) Hp) as Hp'.
  destruct (Z.leb_spec (num_digits (round_half_even c s)) DEFAULT_PREC).
  - apply Hred; [lia | unfold EMAX, s, DEFAULT_PREC in *; lia | done].
  - unfold DEFAULT_PREC at 1. destruct (Z.ltb_spec (999999 - 28 + 1) (e + s + 1)).
    { unfold s, DEFAULT_PREC in *; lia. }
    apply Hred; [|unfold EMAX; lia|by apply div10_places].
    apply Z.div_str_pos. lia.
Qed.

(** * Lemmas: plain decimal literals *)

Definition frac_text (f : string) : string := if str_empty f then "" else String "." f.

Definition plain_char (c : ascii) : bool := is_ascii_digit c || Ascii.eqb c ".".

Lemma plain_char_props c :
  plain_char c = true -> is_space c = false /\ Ascii.eqb c "_" = false /\ lower_char c = c.
Proof.
  unfold plain_char. rewrite orb_true_iff. intros [H|H].
  - apply digit_cases in H.
    repeat (apply elem_of_cons in H as [->|H]; [done|]). set_solver.
  - apply Ascii.eqb_eq in H as ->. done.
Qed.

Lemma plain_strip s : str_forall plain_char s = true -> py_strip s = s.
Proof.
  intros H. apply py_strip_nospace. induction s as [|c s IH]; simpl in *; [done|].
  apply andb_true_iff in H as [Hc Hs]. apply plain_char_props in Hc as (-> & _). by rewrite IH.
Qed.

Lemma plain_underscores s : str_forall plain_char s = true -> remove_underscores s = s.
Proof.
  induction s as [|c s IH]; simpl; [done|]. intros [Hc Hs]%andb_true_iff.
  apply plain_char_props in Hc as (_ & -> & _). by rewrite IH.
Qed.

Lemma plain_lower s : str_forall plain_char s = true -> py_lower s = s.
Proof.
  unfold py_lower. induction s as [|c s IH]; simpl; [done|]. intros [Hc Hs]%andb_true_iff.
  apply plain_char_props in Hc as (_ & _ & ->). by rewrite IH.
Qed.

Lemma digits_plain s : str_forall is_ascii_digit s = true -> str_forall plain_char s = true.
Proof.
  induction s as [|c s IH]; simpl; [done|]. intros [Hc Hs]%andb_true_iff.
  unfold plain_char at 1. by rewrite Hc, IH.
Qed.

Lemma plain_literal i f :
  str_forall is_ascii_digit i = true -> str_forall is_ascii_digit f = true ->
  str_forall plain_char (i ++ frac_text f) = true.
Proof.
  intros Hi Hf. rewrite str_forall_app, digits_plain by done. unfold frac_text.
  destruct (str_empty f); [done|]. cbn [str_forall]. by rewrite digits_plain.
Qed.

Lemma span_digits_app a r :
  str_forall is_ascii_digit a = true ->
  match r with EmptyString => True | String c _ => is_ascii_digit c = false end ->
  span_digits (a ++ r) = (a, r).
Proof.
  intros Ha Hr. induction a as [|c a IH]; simpl in *.
  - destruct r as [|c r]; simpl; [done|]. by rewrite Hr.
  - apply andb_true_iff in Ha as [-> Ha]. by rewrite IH.
Qed.

Lemma take_mantissa_plain i f :
  str_forall is_ascii_digit i = true -> str_forall is_ascii_digit f = true -> i <> EmptyString ->
  take_mantissa (i ++ frac_text f) = Some (i, f, EmptyString).
Proof.
  intros Hi Hf Hne. unfold take_mantissa, frac_text. destruct f as [|c f]; simpl str_empty; cbn match.
  - rewrite span_digits_app by done. by destruct i.
  - rewrite span_digits_app by done.
    change (Ascii.eqb "." ".") with true. cbn match.
    pose proof (span_digits_app (String c f) "" Hf I) as Hs. rewrite string_app_nil_r in Hs.
    rewrite Hs. by destruct i.
Qed.

(** The prefix tests of [decimal_of_string] fail on a literal that starts with a digit. *)
Lemma digit_head_special c s :
  is_ascii_digit c = true ->
  take_sign (String c s) = (false, String c s) /\
  (String.eqb (String c s) "inf" || String.eqb (String c s) "infinity") = false /\
  py_startswith (String c s) "nan" = false /\ py_startswith (String c s) "snan" = false /\
  py_startswith (String c s) "+" = false.
Proof.
  intros H. apply digit_cases in H.
  repeat (apply elem_of_cons in H as [->|H]; [done|]). set_solver.
Qed.

Lemma decimal_of_string_plain i f :
  str_forall is_ascii_digit i = true -> str_forall is_ascii_digit f = true -> i <> EmptyString ->
  str_len i + str_len f <= 100000 ->
  decimal_of_string (i ++ frac_text f) = Some (Fin false (digits_value (i ++ f)) (- str_len f)).
Proof.
  intros Hi Hf Hne Hlen. unfold decimal_of_string.
  pose proof (plain_literal i f Hi Hf) as Hp.
  rewrite plain_strip, plain_underscores by done.
  assert (exists c s, i ++ frac_text f = String c s /\ is_ascii_digit c = true) as (c & s & Heq & Hc).
  { destruct i as [|c i]; [done|]. simpl in Hi. apply andb_true_iff in Hi as [Hc _].
    by exists c, (i ++ frac_text f). }
  destruct (digit_head_special c s Hc) as (Hsign & Hinf & Hnan & Hsnan & _).
  rewrite Heq, Hsign. rewrite plain_lower by (by rewrite <- Heq).
  rewrite Hinf, Hnan, Hsnan. cbn [andb]. rewrite <- Heq, take_mantissa_plain by done.
  cbn [take_exponent]. rewrite Z.sub_0_l.
  assert (representable (digits_value (i ++ f)) (- str_len f) = true) as ->; [|done].
  pose proof (str_len_nonneg f). pose proof (str_len_nonneg i).
  assert (Hd : str_forall is_ascii_digit (i ++ f) = true) by (by rewrite str_forall_app, Hi, Hf).
  pose proof (digits_value_bound _ Hd) as Hb.
  unfold representable, MIN_ETINY, MAX_EMAX. apply andb_true_iff. split; [lia|].
  destruct (Z.eqb_spec (digits_value (i ++ f)) 0); [lia|].
  assert (num_digits (digits_value (i ++ f)) <= str_len (i ++ f)).
  { apply num_digits_le; [done|]. destruct i; [done|]. rewrite str_len_app, str_len_cons in *.
    pose proof (str_len_nonneg i). lia. }
  rewrite str_len_app in *. lia.
Qed.

(** The value of a plain literal scaled to [decimals] places, or the error. *)
Definition scaled (v f decimals : Z) : result exn Z :=
  if (v * 10 ^ decimals) mod 10 ^ f =? 0 then Ok (v * 10 ^ decimals / 10 ^ f) else Err too_many_places.

Lemma validate_token_decimals_ok d : 0 <= d <= MAX_DECIMALS -> validate_token_decimals d = Ok d.
Proof.
  unfold validate_token_decimals, MAX_DECIMALS. intros H.
  destruct (Z.ltb_spec d 0), (Z.ltb_spec 77 d); simpl; (lia || done).
Qed.

Lemma has_places_iff v f d : 0 <= f -> 0 <= d -> (v * 10 ^ d) mod 10 ^ f = 0 -> has_places v (- f) d.
Proof.
  intros Hf Hd Hm Hlt. rewrite Z.opp_involutive in *.
  pose proof (pow10_pos d Hd). pose proof (pow10_pos (f - d) ltac:(lia)).
  replace f with (d + (f - d)) in Hm by lia.
  rewrite (Z.mul_comm v), Z.pow_add_r, Z.mul_mod_distr_l in Hm by lia. nia.
Qed.

(** The arithmetic after the literal: two checks that agree with [scaled]. *)
Lemma parse_units_arith v f d p :
  0 <= v -> 0 <= f <= 50000 -> 0 <= d <= MAX_DECIMALS -> num_digits v <= p <= 100000 ->
  (normalized ← dec_normalize false v (- f);
   let exponent := match normalized with Fin _ _ x => x | _ => 0 end in
   if d <? Z.max (- exponent) 0 then Err too_many_places
   else
     raw ← dec_mul (p + d + 4) false v (- f) false (dec_pow10 d) 0;
     match raw with
     | Fin n c' e' => if negb (dec_is_integral c' e') then Err too_many_places else Ok (dec_int n c' e')
     | _ => Err Overflow
     end) = scaled v f d.
Proof.
  unfold MAX_DECIMALS, dec_pow10. intros Hv Hf Hd Hp.
  pose proof (pow10_pos d ltac:(lia)). pose proof (pow10_pos f ltac:(lia)).
  assert (Hnorm : exists c' e', dec_normalize false v (- f) = Ok (Fin false c' e')).
  { destruct (dec_normalize_places false v (- f) (Z.max f 0)) as (c' & e' & ? & _); [lia|lia|lia|lia| |by eauto].
    intros ?. lia. }
  destruct Hnorm as (c' & e' & Hn). rewrite Hn. cbn [mbind result_bind].
  assert (Hmul : v <> 0 -> num_digits (v * 10 ^ d) <= p + d + 4 /\ num_digits (v * 10 ^ d) <= 200000).
  { intros Hv0. destruct (num_digits_spec v ltac:(lia)) as (Hn1 & _ & Hhi).
    assert (num_digits (v * 10 ^ d) <= num_digits v + d); [|lia].
    apply num_digits_le; [|lia]. rewrite Z.pow_add_r by lia. nia. }
  assert (Hfix : exists e0, dec_mul (p + d + 4) false v (- f) false (10 ^ d) 0 = Ok (Fin false (v * 10 ^ d) e0)
                  /\ (v <> 0 -> e0 = - f)).
  { unfold dec_mul. rewrite Z.add_0_r. destruct (Z.eq_dec v 0) as [->|Hv0].
    - rewrite Z.mul_0_l. eexists. split; [reflexivity | done].
    - specialize (Hmul Hv0). pose proof (num_digits_pos v Hv). exists (- f). split; [|done].
      apply dec_fix_exact; unfold EMAX, EMIN; [nia | lia..]. }
  destruct Hfix as (e0 & -> & He0). cbn [mbind result_bind]. unfold scaled.
  destruct (Z.ltb_spec d (Z.max (- e') 0)) as [Hlt|Hge].
  - destruct (Z.eqb_spec ((v * 10 ^ d) mod 10 ^ f) 0) as [Hm|]; [|done].
    apply has_places_iff in Hm; [|lia..].
    destruct (dec_normalize_places false v (- f) d) as (c2 & e2 & Hn2 & Hle); [lia..|done|].
    rewrite Hn in Hn2. injection Hn2 as -> ->. lia.
  - destruct (Z.eq_dec v 0) as [->|Hv0].
    + rewrite Z.mul_0_l, Z.mod_0_l, Z.div_0_l by lia. unfold dec_is_integral, dec_int.
      cbn [Z.eqb]. by destruct (0 <=? e0).
    + rewrite He0 by done. unfold dec_is_integral, dec_int. rewrite Z.opp_involutive.
      destruct (Z.eqb_spec (v * 10 ^ d) 0); [nia|].
      destruct (Z.leb_spec 0 (- f)).
      * assert (f = 0) as -> by lia. cbn [negb]. by rewrite Z.mod_1_r, Z.div_1_r, Z.mul_1_r.
      * destruct (Z.eqb_spec ((v * 10 ^ d) mod 10 ^ f) 0) as [Hm|].
        -- pose proof (mod_pow_digits (v * 10 ^ d) f ltac:(nia) ltac:(lia) Hm).
           destruct (Z.ltb_spec (num_digits (v * 10 ^ d)) f); [lia | done].
        -- by destruct (num_digits (v * 10 ^ d) <? f).
Qed.

Lemma parse_units_literal i f d :
  str_forall is_ascii_digit i = true -> str_forall is_ascii_digit f = true -> i <> EmptyString ->
  str_len i <= 40000 -> str_len f <= 40000 -> 0 <= d <= MAX_DECIMALS ->
  parse_units (i ++ frac_text f) d = scaled (digits_value (i ++ f)) (str_len f) d.
Proof.
  intros Hi Hf Hne Hli Hlf Hd. unfold parse_units.
  rewrite validate_token_decimals_ok by done. cbn [mbind result_bind].
  rewrite plain_strip by (by apply plain_literal).
  pose proof (str_len_nonneg f). pose proof (str_len_nonneg i).
  assert (exists c s, i ++ frac_text f = String c s /\ is_ascii_digit c = true) as (c & s & Heq & Hc).
  { destruct i as [|c i]; [done|]. simpl in Hi. apply andb_true_iff in Hi as [Hc _].
    by exists c, (i ++ frac_text f). }
  destruct (digit_head_special c s Hc) as (_ & _ & _ & _ & Hplus).
  assert (str_empty (i ++ frac_text f) = false) as -> by (by rewrite Heq).
  assert (py_startswith (i ++ frac_text f) "+" = false) as -> by (by rewrite Heq).
  cbn zeta.
  rewrite decimal_of_string_plain by (done || lia).
  cbn [andb]. apply parse_units_arith; [|lia|done|].
  - assert (Hall : str_forall is_ascii_digit (i ++ f) = true) by (by rewrite str_forall_app, Hi, Hf).
    pose proof (digits_value_bound _ Hall). lia.
  - assert (Hall : str_forall is_ascii_digit (i ++ f) = true) by (by rewrite str_forall_app, Hi, Hf).
    pose proof (digits_value_bound _ Hall) as Hb.
    assert (1 <= str_len i).
    { destruct i; [done|]. rewrite str_len_cons. pose proof (str_len_nonneg i). lia. }
    assert (num_digits (digits_value (i ++ f)) <= str_len (i ++ f)).
    { apply num_digits_le; [done|]. rewrite str_len_app. lia. }
    assert (str_len f <= str_len (frac_text f) <= 1 + str_len f).
    { unfold frac_text. destruct (str_empty f) eqn:Ef.
      - apply str_empty_true in Ef as ->. change (str_len "") with 0. lia.
      - rewrite str_len_cons. lia. }
    rewrite str_len_app in *. unfold MAX_DECIMALS in *. lia.
Qed.

(** * Lemmas: formatting *)

Lemma digits_fixed_spec w n acc :
  0 <= n < 10 ^ Z.of_nat w ->
  exists p, digits_fixed w n acc = p ++ acc /\ str_len p = Z.of_nat w /\
    str_forall is_ascii_digit p = true /\ digits_value p = n.
Proof.
  revert n acc. induction w as [|w IH]; intros n acc Hn.
  - exists "". cbn in *. repeat split. unfold digits_value. simpl. lia.
  - rewrite Nat2Z.inj_succ, Z.pow_succ_r in Hn by lia. cbn [digits_fixed].
    pose proof (Z.mod_pos_bound n 10 ltac:(lia)) as Hm. pose proof (Z.div_mod n 10 ltac:(lia)).
    destruct (digit_char_value (n mod 10) Hm) as [Hv Hdig].
    destruct (IH (n / 10) (String (digit_char (n mod 10)) acc)) as (p & -> & Hl & Hall & Hval).
    { split; [apply Z.div_pos; lia | apply Z.div_lt_upper_bound; lia]. }
    exists (p ++ String (digit_char (n mod 10)) ""). repeat split.
    + by rewrite <- string_app_assoc.
    + rewrite str_len_app, Hl. change (str_len (String _ "")) with 1. lia.
    + rewrite str_forall_app, Hall. cbn. by rewrite Hdig.
    + rewrite digits_value_app, Hval. unfold digits_value, str_len. cbn. lia.
Qed.

Lemma format_f_spec c e :
  0 <= c -> e <= 0 ->
  exists i f, format_f c e = i ++ frac_text f /\ i <> EmptyString /\ str_len f = - e /\
    str_forall is_ascii_digit i = true /\ str_forall is_ascii_digit f = true /\
    digits_value (i ++ f) = c /\ str_len i <= num_digits c.
Proof.
  intros Hc He. unfold format_f. destruct (Z.leb_spec 0 e) as [Hz|Hz].
  - assert (e = 0) as -> by lia. rewrite Z.pow_0_r, Z.mul_1_r.
    destruct (string_of_nonneg_spec c Hc) as (Hne & Hall & Hval).
    exists (string_of_nonneg c), "". by rewrite !string_app_nil_r.
  - pose proof (pow10_pos (- e) ltac:(lia)) as Hp. pose proof (Z.div_mod c (10 ^ (- e)) ltac:(lia)).
    destruct (string_of_nonneg_spec (c / 10 ^ (- e))) as (Hne & Hall & Hval); [apply Z.div_pos; lia|].
    destruct (digits_fixed_spec (Z.to_nat (- e)) (c mod 10 ^ (- e)) "") as (p & -> & Hl & Hpall & Hpval).
    { rewrite Z2Nat.id by lia. apply Z.mod_pos_bound. lia. }
    rewrite Z2Nat.id in Hl by lia. rewrite string_app_nil_r.
    exists (string_of_nonneg (c / 10 ^ (- e))), p. repeat split; try done.
    + unfold frac_text. destruct p; [unfold str_len in Hl; simpl in Hl; lia | done].
    + rewrite digits_value_app, Hval, Hpval, Hl. lia.
    + change (num_digits (c / 10 ^ (- e)) <= num_digits c). apply num_digits_mono.
      split; [apply Z.div_pos; lia | apply Z.div_le_upper_bound; [lia | nia]].
Qed.

(** The quotient by a power of ten is exact, with at most [d] places. *)
Lemma dec_div_pow10 raw d :
  0 <= raw -> num_digits raw <= MAX_STR_DIGITS -> 0 <= d <= MAX_DECIMALS ->
  exists c e, dec_div (Z.max (num_digits raw) d + 2) raw 0 (10 ^ d) 0 = Ok (Fin false c e) /\
    0 <= c /\ - d <= e <= 0 /\ c * 10 ^ (d + e) = raw.
Proof.
  unfold MAX_STR_DIGITS, MAX_DECIMALS. intros Hr Hlen Hd. pose proof (num_digits_pos raw Hr).
  pose proof (pow10_pos d ltac:(lia)) as Hpd. unfold dec_div.
  destruct (Z.eqb_spec raw 0) as [->|Hr0].
  { exists 0, 0. split; [|lia]. unfold dec_fix, EMIN, EMAX. cbn [Z.eqb]. do 2 f_equal.
    rewrite num_digits_0. lia. }
  assert (num_digits (10 ^ d) = d + 1) as ->.
  { pose proof (num_digits_ge (10 ^ d) d ltac:(lia) ltac:(lia)).
    pose proof (num_digits_le (10 ^ d) (d + 1) ltac:(rewrite Z.pow_add_r by lia; lia) ltac:(lia)). lia. }
  set (shift := d + 1 - num_digits raw + (Z.max (num_digits raw) d + 2) + 1).
  assert (Hs : d + 1 <= shift) by (unfold shift; lia).
  destruct (Z.leb_spec 0 shift) as [_|]; [|lia].
  assert (Hq : raw * 10 ^ shift = raw * 10 ^ (shift - d) * 10 ^ d).
  { rewrite <- Z.mul_assoc, <- Z.pow_add_r by lia. do 2 f_equal. lia. }
  rewrite Hq, Z.mod_mul, Z.div_mul by lia. cbn [Z.eqb].
  pose proof (pow10_pos (shift - d) ltac:(lia)).
  destruct (strip_zeros _ _ _ _) as [c e] eqn:E.
  pose proof (strip_zeros_value _ _ _ _ _ _ E) as (He1 & Hv & He2).
  pose proof (num_digits_pos (raw * 10 ^ (shift - d)) ltac:(nia)).
  pose proof (strip_zeros_stop _ _ _ _ _ _ E ltac:(nia) ltac:(lia) ltac:(lia)) as Hstop.
  assert (Hc : 0 < c).
  { pose proof (pow10_pos (e - (0 - 0 - shift)) ltac:(lia)). nia. }
  assert (Hed : - d <= e).
  { destruct Hstop as [->|Hstop]; [lia|]. destruct (Z.le_gt_cases (- d) e); [done|]. exfalso.
    replace (shift - d) with (Z.succ (- d - e - 1) + (e - (0 - 0 - shift))) in Hv by lia.
    rewrite Z.pow_add_r, Z.mul_assoc, Z.pow_succ_r in Hv by lia.
    pose proof (pow10_pos (e - (0 - 0 - shift)) ltac:(lia)).
    apply Z.mul_cancel_r in Hv; [|lia]. apply Hstop. rewrite <- Hv.
    replace (raw * (10 * 10 ^ (- d - e - 1))) with (raw * 10 ^ (- d - e - 1) * 10) by ring.
    by apply Z.mod_mul. }
  assert (Hval : c * 10 ^ (d + e) = raw).
  { replace (e - (0 - 0 - shift)) with ((d + e) + (shift - d)) in Hv by lia.
    rewrite Z.pow_add_r, Z.mul_assoc in Hv by lia. apply Z.mul_cancel_r in Hv; lia. }
  exists c, e. split; [|lia].
  pose proof (pow10_pos (d + e) ltac:(lia)).
  pose proof (num_digits_mono c raw ltac:(nia)). pose proof (num_digits_pos c ltac:(lia)).
  apply dec_fix_exact; unfold EMAX, EMIN; lia.
Qed.

Lemma format_units_spec raw d :
  0 <= raw -> num_digits raw <= MAX_STR_DIGITS -> 0 <= d <= MAX_DECIMALS ->
  exists i f, format_units raw d = Ok (i ++ frac_text f) /\ i <> EmptyString /\
    str_forall is_ascii_digit i = true /\ str_forall is_ascii_digit f = true /\
    str_len i <= num_digits raw /\ str_len f <= d /\
    digits_value (i ++ f) * 10 ^ d = raw * 10 ^ str_len f.
Proof.
  intros Hr Hlen Hd. unfold format_units. rewrite validate_token_decimals_ok by done.
  cbn [mbind result_bind]. destruct (Z.ltb_spec raw 0); [lia|].
  destruct (Z.ltb_spec MAX_STR_DIGITS (num_digits raw)); [lia|].
  destruct (Z.eqb_spec d 0) as [->|Hd0].
  - destruct (string_of_nonneg_spec raw Hr) as (Hne & Hall & Hval).
    exists (string_of_nonneg raw), "". unfold py_str_int. destruct (Z.ltb_spec raw 0); [lia|].
    rewrite !string_app_nil_r. repeat split; [done..|]. rewrite Hval. done.
  - unfold dec_pow10. destruct (dec_div_pow10 raw d Hr Hlen Hd) as (c & e & -> & Hc & He & Hval).
    cbn [mbind result_bind]. destruct (format_f_spec c e Hc ltac:(lia)) as (i & f & -> & Hne & Hl & Hi & Hf & Hv & Hil).
    exists i, f. pose proof (pow10_pos (d + e) ltac:(lia)).
    pose proof (num_digits_mono c raw ltac:(nia)).
    repeat split; try done; [lia..|]. rewrite Hv, Hl, <- Hval.
    rewrite <- Z.mul_assoc, <- Z.pow_add_r by lia. do 2 f_equal. lia.
Qed.

Lemma scaled_iff v f d n :
  0 <= f -> scaled v f d = Ok n <-> v * 10 ^ d = n * 10 ^ f.
Proof.
  intros Hf. pose proof (pow10_pos f Hf). unfold scaled.
  destruct (Z.eqb_spec ((v * 10 ^ d) mod 10 ^ f) 0) as [Hm|Hm]; split; intros H1.
  - injection H1 as <-. apply Z.mod_divide in Hm as [q ->]; [|lia]. by rewrite Z.div_mul by lia.
  - rewrite H1, Z.div_mul by lia. done.
  - discriminate.
  - exfalso. apply Hm. rewrite H1. apply Z.mod_mul. lia.
Qed.

(** * Properties *)

(** C38: [parse_units] undoes [format_units]: a raw amount that CPython can print is recovered
    exactly from its formatted text, for every number of decimals the models accept. *)
Theorem format_parse_roundtrip (raw decimals : Z) :
  0 <= raw -> num_digits raw <= MAX_STR_DIGITS -> 0 <= decimals <= MAX_DECIMALS ->
  exists text, format_units raw decimals = Ok text /\ parse_units text decimals = Ok raw.
Proof.
  intros Hr Hlen Hd. destruct (format_units_spec raw decimals Hr Hlen Hd)
    as (i & f & Hfmt & Hne & Hi & Hf & Hli & Hlf & Hv).
  exists (i ++ frac_text f). split; [done|]. unfold MAX_DECIMALS, MAX_STR_DIGITS in *.
  rewrite parse_units_literal by (done || lia || (unfold MAX_DECIMALS; lia)).
  apply scaled_iff; [apply str_len_nonneg | done].
Qed.

Lemma format_parse_roundtrip_witness :
  exists text, format_units (2 ^ 256 - 1) 18 = Ok text /\ parse_units text 18 = Ok (2 ^ 256 - 1).
Proof. apply (format_parse_roundtrip (2 ^ 256 - 1) 18); [lia | vm_compute; discriminate | unfold MAX_DECIMALS; lia]. Defined.

(** C39: On a plain decimal literal, [parse_units] is exact arithmetic: it returns [n] exactly when
    the literal's value times [10^decimals] is the integer [n], and otherwise reports too many
    decimal places.  The rounding of [normalize] to 28 digits never changes the outcome. *)
Theorem parse_units_exact (i f : string) (decimals : Z) :
  str_forall is_ascii_digit i = true -> str_forall is_ascii_digit f = true -> i <> EmptyString ->
  str_len i <= 40000 -> str_len f <= 40000 -> 0 <= decimals <= MAX_DECIMALS ->
  (forall n, parse_units (i ++ frac_text f) decimals = Ok n <->
     digits_value (i ++ f) * 10 ^ decimals = n * 10 ^ str_len f) /\
  ((forall n, digits_value (i ++ f) * 10 ^ decimals <> n * 10 ^ str_len f) ->
     parse_units (i ++ frac_text f) decimals = Err too_many_places).
Proof.
  intros. rewrite parse_units_literal by done. pose proof (str_len_nonneg f). split.
  - intros n. by apply scaled_iff.
  - intros Hno. destruct (scaled _ _ _) eqn:E.
    + apply scaled_iff in E; [by apply Hno in E | done].
    + unfold scaled in E. destruct (_ =? 0); congruence.
Qed.

Lemma parse_units_exact_witness :
  parse_units "1.50" 6 = Ok 1500000 /\ parse_units "0.0000001" 6 = Err too_many_places.
Proof.
  split.
  - refine (proj2 (proj1 (parse_units_exact "1" "50" 6 _ _ _ _ _ _) 1500000) _);
      first [reflexivity | discriminate | vm_compute; split; discriminate].
  - refine (proj2 (parse_units_exact "0" "0000001" 6 _ _ _ _ _ _) _);
      try first [reflexivity | discriminate | vm_compute; split; discriminate].
    intros n. change (1 * 1000000 <> n * 10000000). lia.
Defined.

(** A raw amount printed in decimal is read back by [parse_integer_raw_amount], and whatever
    it returns is never negative. *)
Theorem parse_integer_raw_roundtrip (n : Z) :
  0 <= n -> num_digits n <= MAX_STR_DIGITS ->
  parse_integer_raw_amount (py_str_int n) = Ok n /\
  (forall s m, parse_integer_raw_amount s = Ok m -> 0 <= m).
Proof.
  intros Hn Hlen. split.
  - unfold py_str_int. destruct (Z.ltb_spec n 0); [lia|].
    destruct (string_of_nonneg_spec n Hn) as (Hne & Hall & Hval).
    unfold parse_integer_raw_amount. rewrite plain_strip by (by apply digits_plain).
    unfold num_digits in Hlen.
    destruct (string_of_nonneg n) as [|c s] eqn:Es; [done|]. rewrite <- Es in *.
    assert (Hc : is_ascii_digit c = true) by (rewrite Es in Hall; simpl in Hall; by apply andb_true_iff in Hall as [? _]).
    destruct (digit_head_special c s Hc) as (_ & _ & _ & _ & Hplus). rewrite <- Es in Hplus.
    rewrite Hplus, Hall, Hval. assert (str_empty (string_of_nonneg n) = false) as -> by (by rewrite Es).
    assert (py_isdigit (string_of_nonneg n) = true) as ->.
    { unfold py_isdigit. rewrite Es. cbn [str_empty negb andb]. rewrite <- Es.
      clear -Hall. induction (string_of_nonneg n) as [|a t IH]; simpl in *; [done|].
      apply andb_true_iff in Hall as [Ha Ht]. unfold is_unicode_digit at 1. rewrite Ha. by apply IH. }
    cbn [negb]. destruct (Z.ltb_spec MAX_STR_DIGITS (str_len (string_of_nonneg n))); [lia | done].
  - intros s m. unfold parse_integer_raw_amount. destruct (str_empty _); [done|].
    destruct (negb _); [done|]. destruct (str_forall is_ascii_digit _) eqn:E; [|done].
    destruct (_ <? _); [done|]. intros [= <-]. by apply digits_value_bound.
Qed.

Lemma parse_integer_raw_roundtrip_witness :
  parse_integer_raw_amount (py_str_int 1000000) = Ok 1000000.
Proof. exact (proj1 (parse_integer_raw_roundtrip 1000000 ltac:(lia) ltac:(vm_compute; discriminate))). Defined.

(** A literal far below the decimal context's range underflows to zero and is accepted, although
    it has more places than any token: the place check sees the rounded value. *)
Theorem parse_units_underflow : parse_units "1e-2000000" 18 = Ok 0.
Proof. vm_compute. reflexivity. Qed.
