(* ===== verification/Redaction.v ===== *)
(** Redaction of public text ([mercury/service/logging.py] and [mercury/custody/redaction.py]).

    The standard library's [re] is modelled by a backtracking matcher for the constructs the
    patterns use: character classes, sequence, alternation, option, greedy repetition of a class,
    and the word boundary.  A match is the first end in backtracking order. *)
From stdpp Require Import base tactics option list sets strings.
From Stdlib Require Import ZArith Lia Ascii String.
From S2P Require Import Prelude Python Values Exceptions.

Local Open Scope string_scope.
Local Open Scope Z_scope.

(** * Regular expressions *)

Inductive regex : Type :=
| REps
| RChar (p : ascii -> bool)
| RSeq (a b : regex)
| RAlt (a b : regex)
| RRepeat (p : ascii -> bool) (min : nat)   (** [p{min,}], greedy *)
| RBoundary.                                (** the word-boundary assertion *)

(** [str.isalnum] or underscore, on code points 0 to 255. *)
Definition is_word (c : ascii) : bool :=
  let z := code c in
  is_ascii_digit c || is_ascii_alpha c || (z =? 95) || (z =? 170) || (z =? 178) || (z =? 179) ||
  (z =? 181) || (z =? 185) || (z =? 186) || ((188 <=? z) && (z <=? 190)) ||
  ((192 <=? z) && (z <=? 214)) || ((216 <=? z) && (z <=? 246)) || (248 <=? z).

Definition word_opt (o : option ascii) : bool := match o with Some c => is_word c | None => false end.
Definition head_opt (s : string) : option ascii := match s with String c _ => Some c | EmptyString => None end.

(** The ends of the matches that start at [s] with [prev] before it, best first. *)
Fixpoint repeat_ends (p : ascii -> bool) (min : nat) (prev : option ascii) (s : string)
  : list (option ascii * string) :=
  let longer := match s with
                | String c s' => if p c then repeat_ends p (Nat.pred min) (Some c) s' else []
                | EmptyString => []
                end in
  match min with O => longer ++ [(prev, s)] | S _ => longer end%list.

Fixpoint rmatch (r : regex) (prev : option ascii) (s : string) : list (option ascii * string) :=
  match r with
  | REps => [(prev, s)]
  | RChar p => match s with String c s' => if p c then [(Some c, s')] else [] | EmptyString => [] end
  | RSeq a b => mjoin (map (fun ps => rmatch b ps.1 ps.2) (rmatch a prev s))
  | RAlt a b => rmatch a prev s ++ rmatch b prev s
  | RRepeat p min => repeat_ends p min prev s
  | RBoundary => if xorb (word_opt prev) (word_opt (head_opt s)) then [(prev, s)] else []
  end%list.

(** [pattern.sub(rep, s)]: leftmost matches, not overlapping; no pattern here matches nothing. *)
Fixpoint sub_from (fuel : nat) (r : regex) (rep : string) (prev : option ascii) (s : string) : string :=
  match fuel with
  | O => s
  | S f =>
      match rmatch r prev s with
      | (prev', s') :: _ => rep ++ sub_from f r rep prev' s'
      | [] => match s with
              | EmptyString => EmptyString
              | String c s' => String c (sub_from f r rep (Some c) s')
              end
      end
  end.

Definition re_sub (r : regex) (rep s : string) : string := sub_from (S (String.length s)) r rep None s.

(** Builders for the patterns. *)
Definition rlit_char (c : ascii) : regex := RChar (Ascii.eqb c).
Fixpoint rlit (s : string) : regex :=
  match s with EmptyString => REps | String c s' => RSeq (rlit_char c) (rlit s') end.
(** A literal under [(?i)]. *)
Fixpoint rlit_i (s : string) : regex :=
  match s with
  | EmptyString => REps
  | String c s' => RSeq (RChar (fun d => Ascii.eqb (lower_char c) (lower_char d))) (rlit_i s')
  end.
Definition ropt (r : regex) : regex := RAlt r REps.
Fixpoint ralts (l : list regex) : regex :=
  match l with [] => RChar (fun _ => false) | [r] => r | r :: l' => RAlt r (ralts l') end.
Fixpoint rseqs (l : list regex) : regex :=
  match l with [] => REps | r :: l' => RSeq r (rseqs l') end.
Definition in_str (s : string) (c : ascii) : bool := str_exists (Ascii.eqb c) s.
Definition ascii_alnum (c : ascii) : bool := is_ascii_digit c || is_ascii_alpha c.

(** * service/logging.py *)

Definition REDACTION : string := "<redacted>".

Definition _SENSITIVE_KEY_PARTS : list string :=
  ["api_key"; "apikey"; "authorization"; "bearer"; "credential"; "private_key"; "raw_transaction";
   "rpc_url"; "secret"; "signature"; "token"].

Definition _URL_PATTERN : regex :=
  rseqs [rlit "http"; ropt (rlit "s"); rlit "://";
         RRepeat (fun c => negb (is_space c || in_str (String dquote_char "'<>") c)) 1].

Definition _SECRET_PATH_PATTERN : regex :=
  rseqs [RBoundary; rlit "mercury/"; ralts [rlit "rpc"; rlit "apis"; rlit "wallets"]; rlit "/";
         RRepeat (fun c => ascii_alnum c || in_str "_./-" c) 1; RBoundary].

Definition _ONECLAW_TOKEN_PATTERN : regex :=
  rseqs [RBoundary;
         ralts [rlit_i "oneclaw"; rlit_i "1claw";
                rseqs [rlit_i "api"; ropt (RChar (in_str "_-")); rlit_i "key"]; rlit_i "bearer"];
         RRepeat is_space 0; RChar (in_str ":="); RRepeat is_space 0;
         RRepeat (fun c => negb (is_space c)) 1].

Definition _LONG_HEX_PATTERN : regex :=
  rseqs [RBoundary; rlit "0x"; RRepeat is_hex_digit 96; RBoundary].

Definition _redact_text (text : string) : string :=
  foldl (fun acc p => re_sub p REDACTION acc) text
    [_URL_PATTERN; _SECRET_PATH_PATTERN; _ONECLAW_TOKEN_PATTERN; _LONG_HEX_PATTERN].

(** [s.replace("-", "_")] *)
Definition dash_to_underscore (s : string) : string :=
  str_map (fun c => if Ascii.eqb c "-" then "_"%char else c) s.

Definition _is_sensitive_key (key : string) : bool :=
  let normalized := dash_to_underscore (py_lower key) in
  existsb (fun part => py_contains part normalized) _SENSITIVE_KEY_PARTS.

Fixpoint redact_value (value : pyval) : pyval :=
  match value with
  | VDict d =>
      VDict (map (fun kv => (kv.1, if _is_sensitive_key kv.1 then VStr REDACTION else redact_value kv.2)) d)
  | VStr s => VStr (_redact_text s)
  | VList l => VList (map redact_value l)
  | v => v
  end.

(** [message] is [str(error)]. *)
Definition redact_error_message (message : string) : string :=
  _redact_text (if str_empty message then "Mercury request failed." else message).

(** * custody/redaction.py *)

Definition _HEX_PRIVATE_KEY_PATTERN : regex :=
  (* exactly 64 hex digits between word boundaries, an optional 0x before them *)
  rseqs [RBoundary; ropt (rlit "0x");
         rseqs (List.repeat (RChar is_hex_digit) 64); RBoundary].

Definition _WALLET_PRIVATE_KEY_PATH_PATTERN : regex :=
  rseqs [RBoundary; rlit "mercury/wallets/"; RRepeat (fun c => ascii_alnum c || in_str "_.-" c) 1;
         rlit "/private_key"; RBoundary].

Definition redact_secret_text (text : string) : string :=
  foldl (fun acc p => re_sub p REDACTION acc) text
    [_HEX_PRIVATE_KEY_PATTERN; _WALLET_PRIVATE_KEY_PATH_PATTERN; _ONECLAW_TOKEN_PATTERN].

Definition secret_text_leaked (text : string) (secret_values : list string) : bool :=
  existsb (fun secret => negb (str_empty secret) && py_contains secret text) secret_values.

Example redact_url : _redact_text "POST https://rpc.example/v2/key failed" = "POST <redacted> failed".
Proof. vm_compute. reflexivity. Qed.
Example redact_path : _redact_text "at 'mercury/wallets/primary/private_key'." = "at '<redacted>'.".
Proof. vm_compute. reflexivity. Qed.
Example redact_key : _redact_text "Api-Key = abc def" = "<redacted> def".
Proof. vm_compute. reflexivity. Qed.
Example redact_plain : _redact_text "Recipient address is invalid." = "Recipient address is invalid.".
Proof. vm_compute. reflexivity. Qed.

(** * Redaction never erases a message *)

Lemma re_sub_nonempty r rep s : rep <> "" -> s <> "" -> re_sub r rep s <> "".
Proof.
  intros Hr Hs. unfold re_sub. simpl. destruct (rmatch r None s) as [|[prev s'] l].
  - by destruct s.
  - intros H. destruct rep; [done | discriminate].
Qed.

Lemma redact_text_nonempty s : s <> "" -> _redact_text s <> "".
Proof. intros Hs. unfold _redact_text. simpl. repeat (apply re_sub_nonempty; [done|]). done. Qed.

Lemma redact_error_message_nonempty s : redact_error_message s <> "".
Proof. unfold redact_error_message. destruct s; by apply redact_text_nonempty. Qed.
