(* ===== verification/Errors.v ===== *)
(** Structured errors ([mercury/models/errors.py]): the constructors of [MercuryErrorInfo] and the
    mapping from exceptions to it. *)
From stdpp Require Import base tactics option list sets strings.
From Stdlib Require Import ZArith Lia Ascii String.
From S2P Require Import Prelude Python Values Exceptions Redaction.

Local Open Scope string_scope.

Record MercuryErrorInfo := {
  ei_code : string;
  ei_category : string;
  ei_message : string;
  ei_retryable : bool;
  ei_recoverable : bool;
  ei_user_action : option string;
  ei_llm_action : option string;
  ei_details : dict
}.

(** [_redact_error_message] and [_redact_value] are lazy imports of the service helpers. *)
Definition _redact_error_message (error : string) : string := redact_error_message error.
Definition _redact_value (v : pyval) : pyval := redact_value v.

Definition _with_stage (details : dict) (stage : option string) : dict :=
  match stage with
  | Some s => dict_setdefault details "stage" (VStr s)
  | None => details
  end.

Definition unsupported_intent (message : option string) (details : dict) (stage : option string) : MercuryErrorInfo :=
  let text := _redact_error_message
                match message with
                | Some m => if str_empty m then "This wallet intent is not supported." else m
                | None => "This wallet intent is not supported."
                end in
  {| ei_code := "unsupported_intent"; ei_category := "intent"; ei_message := text;
     ei_retryable := false; ei_recoverable := true;
     ei_user_action := Some "Provide a supported wallet intent in the expected shape.";
     ei_llm_action := Some "Ask the user for a supported read-only or structured transaction intent.";
     ei_details := _with_stage details stage |}.

Definition validation_failed (message : string) (details : dict) (stage : option string) : MercuryErrorInfo :=
  {| ei_code := "validation_failed"; ei_category := "validation"; ei_message := _redact_error_message message;
     ei_retryable := false; ei_recoverable := true;
     ei_user_action := Some "Fix the invalid fields and try again.";
     ei_llm_action := Some "Inspect validation details, correct the payload, and retry.";
     ei_details := _with_stage details stage |}.

Definition missing_chain_config (message : string) (chain : option string) (details : dict)
    (stage : option string) : MercuryErrorInfo :=
  let d := _with_stage details stage in
  let d := match chain with Some c => dict_setdefault d "chain" (VStr c) | None => d end in
  {| ei_code := "missing_chain_config"; ei_category := "config"; ei_message := _redact_error_message message;
     ei_retryable := false; ei_recoverable := true;
     ei_user_action := Some "Choose a supported chain name.";
     ei_llm_action := Some "Retry with a supported chain; list configured chains if unsure.";
     ei_details := d |}.

Definition rpc_unavailable (message : string) (chain : option string) (details : dict)
    (stage : option string) : MercuryErrorInfo :=
  let d := _with_stage details stage in
  let d := match chain with Some c => dict_setdefault d "chain" (VStr c) | None => d end in
  {| ei_code := "rpc_unavailable"; ei_category := "rpc"; ei_message := _redact_error_message message;
     ei_retryable := true; ei_recoverable := true;
     ei_user_action := Some "Try again later or choose another supported chain.";
     ei_llm_action := Some "Retry once with backoff. If it fails again, ask about another supported chain.";
     ei_details := d |}.

Definition policy_rejected (message : string) (details : dict) (stage : option string) : MercuryErrorInfo :=
  {| ei_code := "policy_rejected"; ei_category := "policy"; ei_message := _redact_error_message message;
     ei_retryable := false; ei_recoverable := true;
     ei_user_action := Some "Adjust the transaction or policy inputs.";
     ei_llm_action := Some "Explain the policy outcome and what the user can change.";
     ei_details := _with_stage details stage |}.

Definition idempotency_conflict (details : dict) (stage : option string) : MercuryErrorInfo :=
  {| ei_code := "idempotency_conflict"; ei_category := "policy";
     ei_message := _redact_error_message
       "Duplicate transaction: this idempotency key is already in flight or completed.";
     ei_retryable := false; ei_recoverable := true;
     ei_user_action := Some "Use a new idempotency key or wait for the in-flight request.";
     ei_llm_action := Some "Do not retry blindly; check idempotency and prior execution state.";
     ei_details := _with_stage details stage |}.

Definition approval_required (message : string) (details : dict) (stage : option string) : MercuryErrorInfo :=
  {| ei_code := "approval_required"; ei_category := "approval"; ei_message := _redact_error_message message;
     ei_retryable := true; ei_recoverable := true;
     ei_user_action := Some "Approve the transaction in your wallet or approval channel.";
     ei_llm_action := Some "Request explicit human approval with clear risk summary before continuing.";
     ei_details := _with_stage details stage |}.

Definition approval_denied (message : string) (details : dict) (stage : option string) : MercuryErrorInfo :=
  {| ei_code := "approval_denied"; ei_category := "approval"; ei_message := _redact_error_message message;
     ei_retryable := false; ei_recoverable := true;
     ei_user_action := Some "Approval was not granted; change the request or try again if appropriate.";
     ei_llm_action := Some "Report denial and offer to revise amount, recipient, or safety checks.";
     ei_details := _with_stage details stage |}.

Definition simulation_failed (message : string) (details : dict) (stage : option string) : MercuryErrorInfo :=
  {| ei_code := "simulation_failed"; ei_category := "simulation"; ei_message := _redact_error_message message;
     ei_retryable := true; ei_recoverable := true;
     ei_user_action := Some "Adjust the transaction; simulation indicated it may fail on-chain.";
     ei_llm_action := Some "Analyze simulation failure, suggest calldata, gas, or balance fixes.";
     ei_details := _with_stage details stage |}.

Definition signing_failed (message : string) (details : dict) (stage : option string) : MercuryErrorInfo :=
  {| ei_code := "signing_failed"; ei_category := "signing"; ei_message := _redact_error_message message;
     ei_retryable := true; ei_recoverable := true;
     ei_user_action := Some "Retry signing with an unlocked key or a valid wallet session.";
     ei_llm_action := Some "If signing failed repeatedly, stop and ask the user to verify custody setup.";
     ei_details := _with_stage details stage |}.

Definition broadcast_failed (message : string) (details : dict) (stage : option string) : MercuryErrorInfo :=
  {| ei_code := "broadcast_failed"; ei_category := "rpc"; ei_message := _redact_error_message message;
     ei_retryable := true; ei_recoverable := true;
     ei_user_action := Some "Retry the broadcast; check network and RPC availability.";
     ei_llm_action := Some "Retry once; if the error persists, consider gas, nonce, and chain health.";
     ei_details := _with_stage details stage |}.

Definition internal_error (message : string) (details : dict) (stage : option string) (code : string)
    : MercuryErrorInfo :=
  {| ei_code := code; ei_category := "internal"; ei_message := _redact_error_message message;
     ei_retryable := true; ei_recoverable := true;
     ei_user_action := Some "Try again; contact support if the problem continues.";
     ei_llm_action := Some "Retry once; if it still fails, stop and report an internal error without exposing secrets.";
     ei_details := _with_stage details stage |}.

(** pydantic's rendering of a whole [ValidationError] is the library's; the source only prints it
    when the first error has no location. *)
Class PydanticText := validation_error_str : string -> list pyd_error -> string.

Section normalize.
Context {PT : PydanticText}.

(** [str(exc)] *)
Definition str_exn (e : exn) : string :=
  match e with
  | Exn _ text => text
  | ValidationError title errors => validation_error_str title errors
  end.

(** The entries of [exc.errors()] the source redacts (location and message). *)
Definition errors_value (errors : list pyd_error) : pyval :=
  VList (map (fun e => VDict [("loc", VList (map VStr (pe_loc e))); ("msg", VStr (pe_msg e))]) errors).

Definition validation_failed_from_pydantic (title : string) (errors : list pyd_error)
    (stage : option string) : MercuryErrorInfo :=
  let '(loc, msg) := match errors with
                     | e :: _ => (py_join "." (pe_loc e), pe_msg e)
                     | [] => ("", "Validation failed.")
                     end in
  let summary := if str_empty loc then _redact_error_message (validation_error_str title errors)
                 else "Invalid field '" ++ loc ++ "': " ++ msg ++ "." in
  validation_failed (_redact_error_message summary)
    [("errors", _redact_value (errors_value errors))] stage.

(** [normalize_exception(exc, stage=..., code=...)] for an exception. *)
Definition normalize_exception (exc : exn) (stage : option string) (code : option string) : MercuryErrorInfo :=
  match exc with
  | ValidationError title errors => validation_failed_from_pydantic title errors stage
  | Exn UnsupportedIntentErrorC t => unsupported_intent (if str_empty t then None else Some t) [] stage
  | Exn DuplicateTransactionErrorC _ => idempotency_conflict [] stage
  | Exn UnsupportedChainErrorC t => missing_chain_config t None [] stage
  | Exn _ text =>
      let message := _redact_error_message text in
      let message := if str_empty message then "Mercury request failed." else message in
      let code_is c := match code with Some c' => String.eqb c' c | None => false end in
      if code_is "simulation_failed" then simulation_failed message [] stage
      else if code_is "signing_failed" then signing_failed message [] stage
      else if code_is "broadcast_failed" then broadcast_failed message [] stage
      else if code_is "rpc_unavailable" then rpc_unavailable message None [] stage
      else if code_is "policy_rejected" then policy_rejected message [] stage
      else if code_is "internal_error" then internal_error message [] stage "internal_error"
      else if is_os_error exc then rpc_unavailable message None [] stage
      else if is_value_error exc && py_contains "nonce" (py_lower text)
      then rpc_unavailable message None [] stage
      else if is_value_error exc && py_contains "chain" (py_lower text)
      then missing_chain_config message None [] stage
      else match code with
           | Some c => internal_error message [] stage c
           | None => internal_error message [] stage "internal_error"
           end
  end.

(** [normalize_exception] of an error that is already structured. *)
Definition normalize_error_info (info : MercuryErrorInfo) (stage : option string) : MercuryErrorInfo :=
  match stage with
  | Some s =>
      if dict_mem (ei_details info) "stage" then info
      else {| ei_code := ei_code info; ei_category := ei_category info; ei_message := ei_message info;
              ei_retryable := ei_retryable info; ei_recoverable := ei_recoverable info;
              ei_user_action := ei_user_action info; ei_llm_action := ei_llm_action info;
              ei_details := dict_set (ei_details info) "stage" (VStr s) |}
  | None => info
  end.
End normalize.

(** Every normalised error has a message. *)
Lemma normalize_exception_message `{PydanticText} exc stage code :
  ei_message (normalize_exception exc stage code) <> "".
Proof.
  assert (forall m, _redact_error_message m <> "") as Hm by exact redact_error_message_nonempty.
  unfold normalize_exception, validation_failed_from_pydantic, unsupported_intent, idempotency_conflict,
    missing_chain_config, rpc_unavailable, simulation_failed, signing_failed, broadcast_failed, policy_rejected,
    internal_error, validation_failed.
  destruct exc as [cls text|title errors]; [destruct cls|]; repeat case_match; simpl; apply Hm.
Qed.
