(* ===== verification/Addresses.v ===== *)
(** EVM addresses and the token constants ([mercury/models/addresses.py],
    [mercury/models/native_tokens.py], the constants of [mercury/models/erc20.py]).

    Address recognition, the EIP-55 checksum, keccak selectors and ABI encoding are web3's and
    eth-abi's: the class [Web3] takes them as functions and [Web3Laws] states what their
    documentation promises. *)
From stdpp Require Import base tactics option list sets strings.
From Stdlib Require Import ZArith Lia Ascii String.
From S2P Require Import Prelude Python Exceptions.

Local Open Scope string_scope.
Local Open Scope Z_scope.

Class Web3 := {
  is_address : string -> bool;
  to_checksum_address : string -> string;
  (** the first four bytes of [keccak(text=signature)], as hex *)
  keccak_selector : string -> string;
  (** [encode(["address", "uint256"], [address, n])], as hex *)
  abi_encode_address_uint256 : string -> Z -> string
}.

Definition ZERO_ADDRESS : string := "0x0000000000000000000000000000000000000000".
Definition NATIVE_FROM_TOKEN_SENTINEL : string := "0xEeeeeEeeeEeEeeEeEeEeeEEEeeeeEeeeeeeeEEeE".
Definition MAX_UINT256 : Z := 2 ^ 256 - 1.

(** [0x] and forty hex digits. *)
Definition address_shape (s : string) : bool :=
  py_startswith s "0x" && (String.length s =? 42)%nat && str_forall is_hex_digit (str_drop 2 s).

Class Web3Laws `(W : Web3) := {
  (** the result of [to_checksum_address] is a canonical, prefixed hex address *)
  checksum_shape a : is_address a = true -> address_shape (to_checksum_address a) = true;
  checksum_is_address a : is_address a = true -> is_address (to_checksum_address a) = true;
  checksum_idem a :
    is_address a = true -> to_checksum_address (to_checksum_address a) = to_checksum_address a;
  (** an address without letters is its own checksum *)
  zero_is_address : is_address ZERO_ADDRESS = true;
  zero_checksum : to_checksum_address ZERO_ADDRESS = ZERO_ADDRESS;
  (** the well-known ERC-20 selectors *)
  selector_transfer : keccak_selector "transfer(address,uint256)" = "a9059cbb";
  selector_approve : keccak_selector "approve(address,uint256)" = "095ea7b3";
  (** two 32-byte words: the address and the number, left-padded with zeros *)
  abi_encode_words a n :
    is_address a = true -> 0 <= n <= MAX_UINT256 ->
    abi_encode_address_uint256 (to_checksum_address a) n =
      hex_fixed 24 0 "" ++ py_lower (str_drop 2 (to_checksum_address a)) ++ hex_fixed 64 n ""
}.

Section addresses.
Context `{W : Web3}.

Definition normalize_evm_address (address : string) : result exn string :=
  let candidate := py_strip address in
  if str_empty candidate then Err (Exn InvalidEVMAddressErrorC "EVM address must not be empty.")
  else if negb (is_address candidate) then Err (Exn InvalidEVMAddressErrorC "Invalid EVM address.")
  else Ok (to_checksum_address candidate).

Definition NATIVE_FROM_TOKEN_SENTINEL_ALIAS : string := to_checksum_address NATIVE_FROM_TOKEN_SENTINEL.

Definition normalize_swap_input_from_token (value : string) : result exn string :=
  let stripped := py_strip value in
  let lower := py_lower stripped in
  if String.eqb lower (py_lower ZERO_ADDRESS) || String.eqb lower (py_lower NATIVE_FROM_TOKEN_SENTINEL_ALIAS)
  then normalize_evm_address ZERO_ADDRESS
  else normalize_evm_address stripped.

(** A field validated by [normalize_evm_address]. *)
Definition v_address (loc : string) (s : string) : V string := vfield loc (normalize_evm_address s).

(** A required address field: [min_length=1], then the validator. *)
Definition v_address_field (loc : string) (s : string) : V string :=
  s ← v_min_length loc 1 s; v_address loc s.

(** The result of a successful normalisation. *)
Definition normalized (a : string) : Prop := exists s, normalize_evm_address s = Ok a.

Lemma normalize_ok s a :
  normalize_evm_address s = Ok a -> is_address (py_strip s) = true /\ a = to_checksum_address (py_strip s).
Proof.
  unfold normalize_evm_address. destruct (str_empty _); [done|].
  destruct (is_address _); [|done]. by intros [= <-].
Qed.

Lemma normalize_error s e : normalize_evm_address s = Err e -> is_value_error e = true.
Proof.
  unfold normalize_evm_address. destruct (str_empty _); [by intros [= <-]|].
  destruct (is_address _); [done | by intros [= <-]].
Qed.

Context {L : Web3Laws W}.

Lemma hex_digit_nospace c : is_hex_digit c = true -> is_space c = false.
Proof.
  unfold is_hex_digit, is_ascii_digit, is_space.
  rewrite !orb_true_iff, !andb_true_iff, !Z.leb_le, !orb_false_iff, !andb_false_iff, !Z.leb_gt, !Z.eqb_neq.
  lia.
Qed.

Lemma address_shape_split s :
  address_shape s = true ->
  exists h, s = "0x" ++ h /\ str_len h = 40 /\ str_forall is_hex_digit h = true.
Proof.
  unfold address_shape. rewrite !andb_true_iff. intros [[Hp Hl] Hh].
  destruct s as [|c1 [|c2 h]]; [done | cbn [py_startswith] in Hp; by rewrite andb_false_r in Hp |].
  cbn [py_startswith] in Hp. rewrite !andb_true_iff, !Ascii.eqb_eq in Hp. destruct Hp as (<- & <- & _).
  exists h. repeat split; [|done]. apply Nat.eqb_eq in Hl. cbn in Hl. unfold str_len. lia.
Qed.

Lemma address_strip s : address_shape s = true -> py_strip s = s.
Proof.
  intros (h & -> & _ & Hh)%address_shape_split. apply py_strip_nospace.
  cbn. induction h as [|c h IH]; [done|]. simpl in *. apply andb_true_iff in Hh as [Hc Hh].
  rewrite hex_digit_nospace by done. by apply IH.
Qed.

Lemma normalized_shape a : normalized a -> address_shape a = true.
Proof. intros [s [H ->]%normalize_ok]. by apply checksum_shape. Qed.

(** Normalisation is idempotent: a stored address is accepted again unchanged. *)
Lemma normalize_idem a : normalized a -> normalize_evm_address a = Ok a.
Proof.
  intros Ha. pose proof (normalized_shape a Ha) as Hs. unfold normalize_evm_address.
  rewrite address_strip by done. destruct Ha as [s [H ->]%normalize_ok].
  rewrite checksum_is_address, checksum_idem by done.
  apply address_shape_split in Hs as (h & -> & _). done.
Qed.

Lemma normalize_normalized s a : normalize_evm_address s = Ok a -> normalized a.
Proof. by exists s. Qed.

Lemma normalize_zero : normalize_evm_address ZERO_ADDRESS = Ok ZERO_ADDRESS.
Proof.
  unfold normalize_evm_address. change (py_strip ZERO_ADDRESS) with ZERO_ADDRESS.
  by rewrite zero_is_address, zero_checksum.
Qed.

Lemma normalized_nonempty a : normalized a -> a <> EmptyString.
Proof. intros (h & -> & _)%normalized_shape%address_shape_split. done. Qed.
End addresses.

#[export] Hint Resolve normalize_normalized normalize_zero normalized_nonempty : mercury.

(** * A concrete instance

    Lower-case hex stands for the checksum, the selectors and the encoding are the real ones: it
    shows that the laws can hold together and lets the examples compute. *)
Definition reference_is_address (s : string) : bool := address_shape (py_lower s).

#[export] Instance reference_web3 : Web3 := {
  is_address := reference_is_address;
  to_checksum_address := py_lower;
  keccak_selector := fun sig =>
    if String.eqb sig "transfer(address,uint256)" then "a9059cbb"
    else if String.eqb sig "approve(address,uint256)" then "095ea7b3" else "00000000";
  abi_encode_address_uint256 := fun a n =>
    hex_fixed 24 0 "" ++ py_lower (str_drop 2 a) ++ hex_fixed 64 n ""
}.

#[export] Instance reference_web3_laws : Web3Laws reference_web3.
Proof.
  split; simpl; unfold reference_is_address; intros; rewrite ?py_lower_idem; try done.
Qed.
