(* ===== verification/Chains.v ===== *)
(** The supported chains and the bundled address catalog
    ([mercury/chains/], [mercury/known_addresses/book.py], [mercury/data/known_addresses.json],
    the chain part of [mercury/config.py]). *)
From stdpp Require Import base tactics option list sets strings.
From Stdlib Require Import ZArith Lia Ascii String.
From S2P Require Import Prelude Python Values Exceptions Addresses.

Local Open Scope string_scope.
Local Open Scope Z_scope.

(** [MercurySettings]; the base URL and the key source of the secret client are strings of the environment. *)
Record MercurySettings := {
  ms_app_name : string;
  ms_default_chain : string;
  ms_graph_node_logging : bool;
  ms_log_level : string;
  ms_ethereum_rpc_secret_path : string;
  ms_base_rpc_secret_path : string;
  ms_arbitrum_rpc_secret_path : string;
  ms_optimism_rpc_secret_path : string;
  ms_monad_rpc_secret_path : string;
  ms_lifi_api_secret_path : string;
  ms_cowswap_api_secret_path : string;
  ms_uniswap_api_secret_path : string;
  ms_alchemy_api_secret_path : string;
  ms_alchemy_webhook_signing_key_secret_path : string;
  ms_oneclaw_base_url : string;
  ms_oneclaw_vault_id : string;
  ms_oneclaw_api_key_secret_source : string;
  ms_oneclaw_agent_id : option string
}.

Definition default_settings : MercurySettings := {|
  ms_app_name := "Mercury Wallet Agent";
  ms_default_chain := "ethereum";
  ms_graph_node_logging := true;
  ms_log_level := "DEBUG";
  ms_ethereum_rpc_secret_path := "mercury/rpc/ethereum";
  ms_base_rpc_secret_path := "mercury/rpc/base";
  ms_arbitrum_rpc_secret_path := "mercury/rpc/arbitrum";
  ms_optimism_rpc_secret_path := "mercury/rpc/optimism";
  ms_monad_rpc_secret_path := "mercury/rpc/monad";
  ms_lifi_api_secret_path := "mercury/apis/lifi";
  ms_cowswap_api_secret_path := "mercury/apis/cowswap";
  ms_uniswap_api_secret_path := "mercury/apis/uniswap";
  ms_alchemy_api_secret_path := "mercury/apis/alchemy";
  ms_alchemy_webhook_signing_key_secret_path := "mercury/apis/alchemy_webhook_signing_key";
  ms_oneclaw_base_url := "http://localhost:8080";
  ms_oneclaw_vault_id := "mercury";
  ms_oneclaw_api_key_secret_source := "MERCURY_ONECLAW_API_KEY";
  ms_oneclaw_agent_id := None |}.

Record ChainConfig := {
  cc_name : string;
  cc_chain_id : Z;
  cc_native_symbol : string;
  cc_rpc_secret_path : string;
  cc_block_explorer_url : string;
  cc_wrapped_native_token_address : option string
}.

Record ChainReference := { cr_name : string; cr_chain_id : Z }.

Definition to_reference (c : ChainConfig) : ChainReference :=
  {| cr_name := cc_name c; cr_chain_id := cc_chain_id c |}.

Definition DEFAULT_CHAIN_NAME : string := "ethereum".

(** ENSIP-11 coin type of an EVM chain. *)
Definition evm_chain_id_to_ens_coin_type (chain_id : Z) : Z :=
  if chain_id =? 1 then 60 else Z.lor 2147483648 chain_id.

(** * [int()] *)

(** Digits with single underscores between them. *)
Fixpoint int_digits (s : string) : option string :=
  match s with
  | EmptyString => None
  | String c s' =>
      if is_ascii_digit c then
        match s' with
        | EmptyString => Some (String c "")
        | String u s'' =>
            if Ascii.eqb u "_" then
              match int_digits s'' with Some d => Some (String c d) | None => None end
            else match int_digits s' with Some d => Some (String c d) | None => None end
        end
      else None
  end.

(** [int(s)]; [None] is the [ValueError]. *)
Definition py_int_str (s : string) : option Z :=
  let t := py_strip s in
  let '(neg, r) := match t with
                   | String c r => if Ascii.eqb c "-" then (true, r)
                                   else if Ascii.eqb c "+" then (false, r) else (false, t)
                   | EmptyString => (false, t)
                   end in
  match int_digits r with
  | Some d => if 4300 <? str_len d then None
              else Some (if neg then - digits_value d else digits_value d)
  | None => None
  end.

(** [int(v)] of a JSON value. *)
Definition py_int (v : pyval) : result exn Z :=
  match v with
  | VStr s => match py_int_str s with
              | Some z => Ok z
              | None => Err (ValueError ("invalid literal for int() with base 10: " ++ py_repr_str s))
              end
  | _ => match as_int v with
         | Some z => Ok z
         | None => Err (Exn ExceptionC "int() argument must be a string, a bytes-like object or a real number")
         end
  end.

(** * The catalog document *)

Definition known_addresses_json : dict := [
  ("version", VInt 1);
  ("notes", VStr "MORPHO.morpho_blue is a placeholder (zero address) on all chains until curated deployments are added. Verify token addresses before mainnet use; omit or correct any entry you distrust.");
  ("chain_name_to_id", VDict [
    ("ethereum", VInt 1);
    ("base", VInt 8453);
    ("arbitrum", VInt 42161);
    ("optimism", VInt 10);
    ("monad", VInt 143)]);
  ("chains", VDict [
    ("1", VDict [
      ("tokens", VDict [
        ("USDC", VStr "0xA0b86991c6218b36c1d19D4a2e9Eb0cE3606eB48");
        ("USDT", VStr "0xdAC17F958D2ee523a2206206994597C13D831ec7");
        ("DAI", VStr "0x6B175474E89094C44Da98b954EedeAC495271d0F");
        ("WBTC", VStr "0x2260FAC5E5542a773Aa44fBCfeDf7C193bc2C599");
        ("WETH", VStr "0xC02aaA39b223FE8D0A0e5C4F27eAD9083C756Cc2");
        ("LINK", VStr "0x514910771AF9Ca656af840dff83E8264EcF986CA");
        ("GHO", VStr "0x40D16FC0246aD3160Ccc09B8D0D3A2cD28aE6C2f");
        ("stkGHO", VStr "0x1a88Df1cFe15Af22B3c4c783D4e6F7F9e0C1885d");
        ("wstETH", VStr "0x7f39C581F595B53c5cb19bD0b3f8dA6c935E2Ca0");
        ("rETH", VStr "0xae78736Cd615f374D3085123A210448E74Fc6393");
        ("crvUSD", VStr "0xf939E0A03FB07F59A73314E73794Be0E57ac1b4E");
        ("EURC", VStr "0x1aBaEA1f7C830bD89Acc67eC4af516284b1bC33c");
        ("cbETH", VStr "0xBe9895146f7AF43049ca1c1AE358B0541Ea49704");
        ("SOL", VStr "0xD31a59c85aE9D8edEFeC411D448f90841571b89c")]);
      ("protocols", VDict [
        ("AAVE_V3", VDict [
          ("pool_addresses_provider", VStr "0x2f39d218133AFaB8F2B819B1066c7E434Ad94E9e");
          ("pool", VStr "0x87870Bca3F3fD6335C3F4ce8392D69350B4fA4E2")]);
        ("MORPHO", VDict [
          ("morpho_blue", VStr "0x0000000000000000000000000000000000000000")])])]);
    ("8453", VDict [
      ("tokens", VDict [
        ("USDC", VStr "0x833589fCD6eDb6E08f4c7C32D4f71b54bdA02913");
        ("USDT", VStr "0xfde4C96c8593536E31F229EA8f37b2ADa2699bb2");
        ("DAI", VStr "0x50c5725949A6F0c72E6C4a641F24049A917DB0Cb");
        ("WBTC", VStr "0x0555E30da8f98308EdB960aa94C0Db47230d2B9c");
        ("WETH", VStr "0x4200000000000000000000000000000000000006");
        ("LINK", VStr "0x88Fb150BDc53A65fe94Dea0c9BA0a6dAf8C6e196");
        ("SOL", VStr "0x311935Cd80B76769bF2ecC9D8Ab7635b2139cf82");
        ("GHO", VStr "0x6Bb7a212910682DCFdbd5BCBb3e28FB4E8da10Ee");
        ("wstETH", VStr "0xc1CBa3fCea344f92D9239c08C0568f6F2F0ee452");
        ("rETH", VStr "0xB6fe221Fe9EeF5aBa221c348bA20A1Bf5e73624c");
        ("EURC", VStr "0x60a3E35Cc302bFA44Cb288Bc5a4F316Fdb1adb42");
        ("cbETH", VStr "0x2Ae3F1Ec7F1F5012CFEab0185bfc7aa3cf0DEc22");
        ("sparkUSDC", VStr "0x7BfA7C4f149E7415b73bdeDfe609237e29CBF34A")]);
      ("protocols", VDict [
        ("AAVE_V3", VDict [
          ("pool_addresses_provider", VStr "0xe20fCBdBfFC4Dd138cE8b2E6FBb6CB49777ad64D");
          ("pool", VStr "0xa238dD80C259A72E81D25c0dfF3B6D9c19B8c6f3")]);
        ("MORPHO", VDict [
          ("sparkUSDC", VStr "0x7BfA7C4f149E7415b73bdeDfe609237e29CBF34A")])])]);
    ("42161", VDict [
      ("tokens", VDict [
        ("USDC", VStr "0xaf88d065e77c8cC2239327C5EDb3A432268e5831");
        ("USDT", VStr "0xFd086bC7CD5C481DCC9C85ebE478A1C0b69FCbb9");
        ("DAI", VStr "0xDA10009cBd5D07dd0CeCc66161FC93D7c9000da1");
        ("WBTC", VStr "0x2f2a2543B76A4166549F7aaB2e75Bef0aefC5B0f");
        ("WETH", VStr "0x82aF49447D8a07e3bd95BD0d56f35241523fBab1");
        ("LINK", VStr "0xf97f4df75117a78c1A5a0DBb814Af92458539FB4");
        ("GHO", VStr "0x7dfF72693f6A4149b17e7C6314655f6A9F7c8B33");
        ("SY-wstETH", VStr "0x80c12D5b6Cc494632Bf11b03F09436c8B61Cc5Df");
        ("rETH", VStr "0xEC70Dcb4A1EFa46b8F2D97C310C9c4790ba5ffA8");
        ("SNX", VStr "0xCbA56e55248D38DaA7D874c08426f65921484704");
        ("crvUSD", VStr "0x498Bf2B1e120FeD3ad3D42EA2165E9b73f99C1e5");
        ("ARB", VStr "0x912CE59144191C1204E64559FE8253a0e49E6548")]);
      ("protocols", VDict [
        ("AAVE_V3", VDict [
          ("pool_addresses_provider", VStr "0xa97684ead0e402dC232d5A977953DF7ECBaB3CDb");
          ("pool", VStr "0x794a61358D6845594F94dc1DB02A252b5b4814aD")]);
        ("MORPHO", VDict [
          ("morpho_blue", VStr "0x0000000000000000000000000000000000000000")])])]);
    ("10", VDict [
      ("tokens", VDict [
        ("USDC", VStr "0x0b2c639c533813AB4FCa6D36533e9365af3daf6f");
        ("USDT", VStr "0x94B008AA00579C13Bf263a176c224c74aAf5ffAd");
        ("DAI", VStr "0xDA10009cBd5D07dd0CeCc66161FC93D7c9000da1");
        ("WBTC", VStr "0x68F180FCcEe6836688fcD8da20ffA843874bC260");
        ("WETH", VStr "0x4200000000000000000000000000000000000006");
        ("LINK", VStr "0x350a791BFC2c21FbC9D897b05D054C893992A557");
        ("SNX", VStr "0x8700dAe30Bc7Bf4aFEC867BFd00A79dd32ccBd76");
        ("rETH", VStr "0x9BceF72Be871E1C4A82d0653F02e34B733d9b47f");
        ("OP", VStr "0x4200000000000000000000000000000000000042")]);
      ("protocols", VDict [
        ("AAVE_V3", VDict [
          ("pool_addresses_provider", VStr "0xa97684ead0e402dC232d5A977953DF7ECBaB3CDb");
          ("pool", VStr "0x794a61358D6845594F94dc1DB02A252b5b4814aD")]);
        ("MORPHO", VDict [
          ("morpho_blue", VStr "0x0000000000000000000000000000000000000000")])])]);
    ("143", VDict [
      ("tokens", VDict []);
      ("protocols", VDict [
        ("AAVE_V3", VDict []);
        ("MORPHO", VDict [
          ("morpho_blue", VStr "0x0000000000000000000000000000000000000000")])])])])].

Section catalog.
Context `{W : Web3}.

Definition KnownAddressMissingError (msg : string) : exn :=
  Exn KnownAddressMissingErrorC (py_repr_str msg).

(** Tokens: symbols upper-cased, addresses checksummed. *)
Fixpoint normalize_tokens (cid : string) (toks acc : dict) : result exn dict :=
  match toks with
  | [] => Ok acc
  | (symbol, VStr addr) :: toks' =>
      a ← normalize_evm_address addr;
      normalize_tokens cid toks' (dict_set acc (py_upper symbol) (VStr a))
  | (symbol, _) :: _ =>
      Err (ValueError ("Chain " ++ cid ++ " token " ++ symbol ++ ": address must be a string."))
  end.

(** One protocol group: its address-like fields checksummed in place. *)
Fixpoint normalize_group (mapping : dict) : result exn dict :=
  match mapping with
  | [] => Ok []
  | (pk, v) :: m' =>
      v' ← match v with
           | VStr addr => if py_startswith addr "0x" && (42 <=? str_len addr)
                          then VStr <$> normalize_evm_address addr else Ok v
           | _ => Ok v
           end;
      m'' ← normalize_group m'; Ok ((pk, v') :: m'')
  end.

Fixpoint normalize_protocols (protos : dict) : result exn dict :=
  match protos with
  | [] => Ok []
  | (g, VDict mapping) :: p' =>
      m ← normalize_group mapping; r ← normalize_protocols p'; Ok ((g, VDict m) :: r)
  | gv :: p' => r ← normalize_protocols p'; Ok (gv :: r)
  end.

Definition normalize_block (cid : string) (block : dict) : result exn dict :=
  b1 ← match get block "tokens" with
       | VDict toks => t ← normalize_tokens cid toks []; Ok (dict_set block "tokens" (VDict t))
       | _ => Ok block
       end;
  match get b1 "protocols" with
  | VDict protos => p ← normalize_protocols protos; Ok (dict_set b1 "protocols" (VDict p))
  | _ => Ok b1
  end.

Fixpoint normalize_chains (chains : dict) : result exn dict :=
  match chains with
  | [] => Ok []
  | (cid, VDict block) :: cs =>
      b ← normalize_block cid block; r ← normalize_chains cs; Ok ((cid, VDict b) :: r)
  | cv :: cs => r ← normalize_chains cs; Ok (cv :: r)
  end.

Definition _validate_and_normalize (doc : dict) : result exn dict :=
  match get doc "chains" with
  | VDict chains => cs ← normalize_chains chains; Ok (dict_set doc "chains" (VDict cs))
  | _ => Err (ValueError "known_addresses.json: missing chains object.")
  end.

Definition _cached_document : result exn dict := _validate_and_normalize known_addresses_json.

(** A chain is named by a string or an integer id. *)
Inductive chain_ref : Type := ChainName (s : string) | ChainId (z : Z).

Definition chain_repr (c : chain_ref) : string :=
  match c with ChainName s => py_repr_str s | ChainId z => py_str_int z end.

Definition _chain_id_string (chain : chain_ref) (chain_name_to_id : dict) : result exn string :=
  match chain with
  | ChainId z => Ok (py_str_int z)
  | ChainName s =>
      let normalized := py_lower (py_strip s) in
      match get chain_name_to_id normalized with
      | VNone =>
          match py_int_str normalized with
          | Some as_int => Ok (py_str_int as_int)
          | None =>
              let supported := py_join ", " (py_sorted (map fst chain_name_to_id)) in
              Err (KnownAddressMissingError
                     ("Unknown chain " ++ chain_repr chain ++ ". Known chains from known_addresses.json: " ++
                      supported ++ ". Use known_address after selecting a supported chain, or Mercury's chain registry."))
          end
      | mapped => z ← py_int mapped; Ok (py_str_int z)
      end
  end.

(** [cast(dict, v)] followed by an item access: a missing object raises. *)
Definition item_dict (d : dict) (k : string) : result exn dict :=
  match get d k with VDict x => Ok x | _ => Err (Exn KeyErrorC (py_repr_str k)) end.

Fixpoint first_name_for (items : dict) (cid_str : string) : result exn (option string) :=
  match items with
  | [] => Ok None
  | (name, value) :: items' =>
      z ← py_int value;
      if String.eqb (py_str_int z) cid_str then Ok (Some name) else first_name_for items' cid_str
  end.

(** [sorted(name_map.items())]: by name, the keys being distinct. *)
Definition sorted_items (d : dict) : dict :=
  omap (fun k => match dict_get d k with Some v => Some (k, v) | None => None end) (py_sorted (map fst d)).

Definition resolve_chain_catalog_ref (chain : chain_ref) (doc : option dict) : result exn (string * string) :=
  payload ← match doc with Some d => Ok d | None => _cached_document end;
  name_map ← item_dict payload "chain_name_to_id";
  cid_str ← _chain_id_string chain name_map;
  found ← first_name_for (sorted_items name_map) cid_str;
  match found with
  | Some name => Ok (name, cid_str)
  | None => Ok (cid_str, cid_str)
  end.

Inductive KnownCategory : Type := CatToken | CatProtocol.

Definition or_empty_dict (v : pyval) : dict := match v with VDict d => d | _ => [] end.
Definition or_none (s : string) : string := if str_empty s then "(none)" else s.

(** [key.partition(".")]: the text before the first dot and the text after it. *)
Fixpoint partition_dot (s : string) : string * string :=
  match s with
  | EmptyString => (EmptyString, EmptyString)
  | String c s' => if Ascii.eqb c "." then (EmptyString, s')
                   else let (a, b) := partition_dot s' in (String c a, b)
  end.

Definition lookup_protocol (cid key : string) (protos : dict) : result exn string :=
  let (group, field) := partition_dot (py_strip key) in
  let group := py_strip group in
  let field := py_strip field in
  if str_empty group || str_empty field then
    Err (KnownAddressMissingError
           ("Protocol keys must look like PROTO.field (got " ++ py_repr_str key ++ "); e.g. AAVE_V3.pool or MORPHO.morpho_blue."))
  else
    match get protos group with
    | VDict subtree =>
        match get subtree field with
        | VStr addr_any =>
            if py_startswith addr_any "0x" then normalize_evm_address addr_any
            else Err (KnownAddressMissingError
                        ("No field " ++ py_repr_str field ++ " under " ++ py_repr_str group ++ " on chain_id=" ++ cid ++ "."))
        | _ => Err (KnownAddressMissingError
                      ("No field " ++ py_repr_str field ++ " under " ++ py_repr_str group ++ " on chain_id=" ++ cid ++ "."))
        end
    | _ => Err (KnownAddressMissingError
                  ("No protocol group " ++ py_repr_str group ++ " on chain_id=" ++ cid ++ ". Groups: " ++
                   or_none (py_join ", " (py_sorted (map fst protos))) ++ "."))
    end.

Definition lookup_token (cid key : string) (symbols : dict) : result exn string :=
  let symbol := py_upper (py_strip key) in
  match get symbols symbol with
  | VStr addr => Ok addr
  | _ => Err (KnownAddressMissingError
                ("No token '" ++ symbol ++ "' on chain_id=" ++ cid ++ ". Known tokens: " ++
                 or_none (py_join ", " (py_sorted (map fst symbols))) ++ "."))
  end.

Definition lookup_address (chain : chain_ref) (category : KnownCategory) (key : string) : result exn string :=
  doc ← _cached_document;
  chains ← item_dict doc "chains";
  name_map ← item_dict doc "chain_name_to_id";
  cid ← _chain_id_string chain name_map;
  match get chains cid with
  | VDict block =>
      match category with
      | CatToken => lookup_token cid key (or_empty_dict (get block "tokens"))
      | CatProtocol => lookup_protocol cid key (or_empty_dict (get block "protocols"))
      end
  | _ => Err (KnownAddressMissingError
                ("No known_addresses bundle for chain_id=" ++ cid ++ ". Available chain ids: " ++
                 py_join ", " (py_sorted (map fst chains)) ++ "."))
  end.

Definition list_token_symbols (chain : chain_ref) : result exn (list string) :=
  doc ← _cached_document;
  name_map ← item_dict doc "chain_name_to_id";
  cid ← _chain_id_string chain name_map;
  chains ← item_dict doc "chains";
  match get chains cid with
  | VDict block => match get block "tokens" with
                   | VDict toks => Ok (py_sorted (map fst toks))
                   | _ => Ok []
                   end
  | _ => Ok []
  end.

Definition list_protocol_keys (chain : chain_ref) : result exn (list string) :=
  doc ← _cached_document;
  name_map ← item_dict doc "chain_name_to_id";
  cid ← _chain_id_string chain name_map;
  chains ← item_dict doc "chains";
  match get chains cid with
  | VDict block =>
      match get block "protocols" with
      | VDict protos =>
          Ok (py_sorted (mjoin (map (fun gm =>
               match gm.2 with
               | VDict mapping => map (fun fv => gm.1 ++ "." ++ fv.1) mapping
               | _ => []
               end) protos)))
      | _ => Ok []
      end
  | _ => Ok []
  end.

(** [tools/known_address_tools.py] *)
Definition resolve_known_address (chain : string) (category : KnownCategory) (key : string) : result exn dict :=
  cr ← resolve_chain_catalog_ref (ChainName chain) None;
  address ← lookup_address (ChainName chain) category key;
  cid ← py_int (VStr cr.2);
  Ok [("chain", VStr cr.1); ("chain_id", VInt cid);
      ("category", VStr match category with CatToken => "token" | CatProtocol => "protocol" end);
      ("key", VStr (py_strip key)); ("address", VStr address)].
End catalog.

(** * The registry *)

Section registry.
Context `{W : Web3} (settings : MercurySettings).

Definition UnsupportedChainError (msg : string) : exn := Exn UnsupportedChainErrorC msg.

Definition _wrapped_native_token_address (chain_name : string) : result exn (option string) :=
  match lookup_address (ChainName chain_name) CatToken "WETH" with
  | Ok a => Ok (Some a)
  | Err e => if has_class KnownAddressMissingErrorC e then Ok None else Err e
  end.

Definition chain_row (name : string) (chain_id : Z) (symbol rpc explorer : string) : result exn ChainConfig :=
  w ← _wrapped_native_token_address name;
  Ok {| cc_name := name; cc_chain_id := chain_id; cc_native_symbol := symbol;
        cc_rpc_secret_path := rpc; cc_block_explorer_url := explorer;
        cc_wrapped_native_token_address := w |}.

Definition _chain_configs : result exn (list ChainConfig) :=
  ethereum ← chain_row "ethereum" 1 "ETH" (ms_ethereum_rpc_secret_path settings) "https://etherscan.io";
  base ← chain_row "base" 8453 "ETH" (ms_base_rpc_secret_path settings) "https://basescan.org";
  arbitrum ← chain_row "arbitrum" 42161 "ETH" (ms_arbitrum_rpc_secret_path settings) "https://arbiscan.org";
  optimism ← chain_row "optimism" 10 "ETH" (ms_optimism_rpc_secret_path settings) "https://optimistic.etherscan.io";
  monad ← chain_row "monad" 143 "MON" (ms_monad_rpc_secret_path settings) "https://monadvision.com";
  Ok [ethereum; base; arbitrum; optimism; monad].

Definition _supported_chains_text : result exn string :=
  cs ← _chain_configs; Ok (py_join ", " (py_sorted (map cc_name cs))).

Definition get_chain_by_name (name : string) : result exn ChainConfig :=
  let normalized_name := py_lower (py_strip name) in
  chains ← _chain_configs;
  match List.find (fun c => String.eqb (cc_name c) normalized_name) (rev chains) with
  | Some c => Ok c
  | None =>
      txt ← _supported_chains_text;
      Err (UnsupportedChainError ("Unsupported chain name '" ++ name ++ "'. Supported chains: " ++ txt ++ "."))
  end.

Definition get_chain_by_id (chain_id : Z) : result exn ChainConfig :=
  chains ← _chain_configs;
  match List.find (fun c => cc_chain_id c =? chain_id) chains with
  | Some c => Ok c
  | None =>
      txt ← _supported_chains_text;
      Err (UnsupportedChainError
             ("Unsupported chain ID '" ++ py_str_int chain_id ++ "'. Supported chains: " ++ txt ++ "."))
  end.

Definition get_default_chain : result exn ChainConfig := get_chain_by_name DEFAULT_CHAIN_NAME.
Definition list_chains : result exn (list ChainConfig) := _chain_configs.

(** The rows, whatever the settings and the catalog: names and ids. *)
Lemma chain_configs_rows cs :
  _chain_configs = Ok cs ->
  map (fun c => (cc_name c, cc_chain_id c)) cs =
    [("ethereum", 1); ("base", 8453); ("arbitrum", 42161); ("optimism", 10); ("monad", 143)].
Proof.
  unfold _chain_configs, chain_row. intros H. inv_ok. by subst.
Qed.

(** A chain found by name is found by its id, and conversely. *)
Lemma chain_configs_nodup cs :
  _chain_configs = Ok cs -> NoDup (map cc_name cs) /\ NoDup (map cc_chain_id cs).
Proof.
  intros H%chain_configs_rows.
  replace (map cc_name cs) with (map fst (map (fun c => (cc_name c, cc_chain_id c)) cs))
    by (rewrite List.map_map; done).
  replace (map cc_chain_id cs) with (map snd (map (fun c => (cc_name c, cc_chain_id c)) cs))
    by (rewrite List.map_map; done).
  rewrite H. split; apply (bool_decide_unpack _); vm_compute; exact I.
Qed.

Lemma chain_config_name cs c :
  _chain_configs = Ok cs -> c ∈ cs -> py_lower (py_strip (cc_name c)) = cc_name c.
Proof.
  intros H%chain_configs_rows Hc. apply (list_elem_of_fmap_2 (fun c => (cc_name c, cc_chain_id c))) in Hc.
  change (fmap ?f ?l) with (map f l) in Hc. rewrite H in Hc.
  repeat (apply elem_of_cons in Hc as [Hc|Hc]; [injection Hc as -> _; reflexivity|]).
  by apply not_elem_of_nil in Hc.
Qed.

Lemma registered_found cs c :
  _chain_configs = Ok cs -> c ∈ cs ->
  get_chain_by_name (cc_name c) = Ok c /\ get_chain_by_id (cc_chain_id c) = Ok c.
Proof.
  intros H Hc. pose proof (chain_configs_nodup cs H) as [Hn Hi].
  unfold get_chain_by_name, get_chain_by_id. rewrite H. cbn [mbind result_bind].
  rewrite (chain_config_name cs c H Hc). split.
  - rewrite (find_by_key cc_name String.eqb); [done | apply String.eqb_eq | |].
    + rewrite List.map_rev. apply NoDup_ListNoDup, List.NoDup_rev. by apply NoDup_ListNoDup.
    + apply list_elem_of_In. apply List.in_rev. rewrite rev_involutive. by apply list_elem_of_In.
  - by rewrite (find_by_key cc_chain_id Z.eqb); [| apply Z.eqb_eq | |].
Qed.

Lemma by_name_registered name c :
  get_chain_by_name name = Ok c ->
  exists cs, _chain_configs = Ok cs /\ c ∈ cs /\ cc_name c = py_lower (py_strip name).
Proof.
  unfold get_chain_by_name. intros H. apply result_bind_ok in H as (cs & Hcs & H).
  destruct (List.find _ (rev cs)) as [c'|] eqn:E.
  - injection H as ->. apply List.find_some in E as [Hin Heq]. exists cs. split_and!; [done | |by apply String.eqb_eq].
    apply List.in_rev in Hin. by apply list_elem_of_In.
  - apply result_bind_ok in H as (? & _ & [=]).
Qed.

Lemma by_id_registered i c :
  get_chain_by_id i = Ok c -> exists cs, _chain_configs = Ok cs /\ c ∈ cs /\ cc_chain_id c = i.
Proof.
  unfold get_chain_by_id. intros H. apply result_bind_ok in H as (cs & Hcs & H).
  destruct (List.find _ cs) as [c'|] eqn:E.
  - injection H as ->. apply List.find_some in E as [Hin Heq]. exists cs. split_and!; [done | |by apply Z.eqb_eq].
    by apply list_elem_of_In.
  - apply result_bind_ok in H as (? & _ & [=]).
Qed.

(** A chain that was found is found again by its own name and by its id. *)
Lemma by_name_again name c :
  get_chain_by_name name = Ok c ->
  get_chain_by_name (cc_name c) = Ok c /\ get_chain_by_id (cc_chain_id c) = Ok c.
Proof. intros (cs & H & Hc & _)%by_name_registered. by eapply registered_found. Qed.

(** The registry is a bijection between names and ids: a chain found by a name, however it is spelled
    or spaced, has that name in canonical form and is found again by its name and by its id, and a
    chain found by id is found again by its name. *)
Theorem registry_names_and_ids (c : ChainConfig) :
  (forall name, get_chain_by_name name = Ok c ->
     cc_name c = py_lower (py_strip name) /\ get_chain_by_name (cc_name c) = Ok c /\
     get_chain_by_id (cc_chain_id c) = Ok c) /\
  (forall i, get_chain_by_id i = Ok c -> cc_chain_id c = i /\ get_chain_by_name (cc_name c) = Ok c).
Proof.
  split.
  - intros name H. pose proof (by_name_again name c H) as [? ?].
    apply by_name_registered in H as (? & _ & _ & Hn). by split_and!.
  - intros i (cs & H & Hc & Hi)%by_id_registered. split; [done|]. by eapply registered_found.
Qed.
End registry.

Lemma registry_names_and_ids_witness :
  exists c, get_chain_by_name default_settings " Base " = Ok c /\
  cc_name c = "base" /\ get_chain_by_name default_settings (cc_name c) = Ok c /\
  get_chain_by_id default_settings (cc_chain_id c) = Ok c.
Proof.
  destruct (get_chain_by_name default_settings " Base ") as [c|] eqn:E; [|vm_compute in E; discriminate E].
  exists c. split; [reflexivity|]. exact (proj1 (registry_names_and_ids default_settings c) " Base " E).
Defined.

Example reference_catalog_loads : is_ok _cached_document = true.
Proof. vm_compute. reflexivity. Qed.
Example base_chain : cc_chain_id <$> get_chain_by_name default_settings " Base " = Ok 8453.
Proof. vm_compute. reflexivity. Qed.
Example monad_no_weth : cc_wrapped_native_token_address <$> get_chain_by_id default_settings 143 = Ok None.
Proof. vm_compute. reflexivity. Qed.
Example unsupported_chain_text :
  get_chain_by_name default_settings "polygon" =
  Err (UnsupportedChainError "Unsupported chain name 'polygon'. Supported chains: arbitrum, base, ethereum, monad, optimism.").
Proof. vm_compute. reflexivity. Qed.
