(* ===== verification/Models.v ===== *)
(** The frozen pydantic models of the transaction pipeline ([mercury/models]: gas, simulation,
    policy, approval, execution, transactions, signing, wallets).  A model is a record together
    with the smart constructor [make_<Model>] that runs its validators in order; code that builds a
    model goes through it, [model_copy] (which does not validate) does not. *)
From stdpp Require Import base tactics option list sets strings.
From Stdlib Require Import ZArith Lia Ascii String.
From S2P Require Import Prelude Python Values Exceptions Redaction Errors Addresses.

Local Open Scope string_scope.
Local Open Scope Z_scope.
Local Open Scope validation_scope.

(** * Enumerations *)

Inductive SimulationStatus : Type := SIM_PASSED | SIM_FAILED.
Inductive PolicyDecisionStatus : Type := ALLOWED | NEEDS_APPROVAL | POLICY_REJECTED.
Inductive ApprovalStatus : Type := APPROVED | DENIED | REQUIRED.
Inductive ExecutionStatus : Type := PENDING | CONFIRMED | FAILED | REJECTED | APPROVAL_DENIED.

#[export] Instance SimulationStatus_eq_dec : EqDecision SimulationStatus.
Proof. solve_decision. Defined.
#[export] Instance PolicyDecisionStatus_eq_dec : EqDecision PolicyDecisionStatus.
Proof. solve_decision. Defined.
#[export] Instance ApprovalStatus_eq_dec : EqDecision ApprovalStatus.
Proof. solve_decision. Defined.
#[export] Instance ExecutionStatus_eq_dec : EqDecision ExecutionStatus.
Proof. solve_decision. Defined.

Definition ApprovalStatus_value (s : ApprovalStatus) : string :=
  match s with APPROVED => "approved" | DENIED => "denied" | REQUIRED => "required" end.

Definition ExecutionStatus_value (s : ExecutionStatus) : string :=
  match s with
  | PENDING => "pending" | CONFIRMED => "confirmed" | FAILED => "failed"
  | REJECTED => "rejected" | APPROVAL_DENIED => "approval_denied"
  end.

(** * HexData *)

(** The pattern [^0x[a-fA-F0-9]*$]. *)
Definition is_hex_data (s : string) : bool :=
  py_startswith s "0x" && str_forall is_hex_digit (str_drop 2 s).

Definition v_hex (loc s : string) : V string :=
  if is_hex_data s then Ok s
  else verr loc "String should match pattern '^0x[a-fA-F0-9]*$'".

Definition v_nonempty_dict (loc : string) (d : dict) : V dict :=
  match d with
  | [] => verr loc "Dictionary should have at least 1 item after validation, not 0"
  | _ => Ok d
  end.

Definition v_any {A} (a : A) : V A := Ok a.

(** * Gas *)

Record GasFees := {
  gf_gas_limit : Z;
  gf_max_fee_per_gas : option Z;
  gf_max_priority_fee_per_gas : option Z;
  gf_gas_price : option Z
}.

Definition validate_fee_mode (g : GasFees) : result string unit :=
  let has_eip1559 := isSome (gf_max_fee_per_gas g) || isSome (gf_max_priority_fee_per_gas g) in
  if has_eip1559 && isSome (gf_gas_price g)
  then Err "Gas fees cannot mix EIP-1559 and legacy gas price fields."
  else if has_eip1559 && (negb (isSome (gf_max_fee_per_gas g)) || negb (isSome (gf_max_priority_fee_per_gas g)))
  then Err "EIP-1559 fees require max fee and priority fee."
  else if negb has_eip1559 && negb (isSome (gf_gas_price g))
  then Err "Gas fees require either EIP-1559 fees or legacy gas price."
  else Ok tt.

Definition make_GasFees (gas_limit : Z) (max_fee_per_gas max_priority_fee_per_gas gas_price : option Z)
    : result exn GasFees :=
  v_model "GasFees"
    ((fun '(a, b, c, d) => {| gf_gas_limit := a; gf_max_fee_per_gas := b;
                              gf_max_priority_fee_per_gas := c; gf_gas_price := d |}) <$>
       (v_gt "gas_limit" 0 gas_limit ⊛ v_opt (v_gt "max_fee_per_gas" 0) max_fee_per_gas
        ⊛ v_opt (v_gt "max_priority_fee_per_gas" 0) max_priority_fee_per_gas
        ⊛ v_opt (v_gt "gas_price" 0) gas_price))
    validate_fee_mode.

Definition to_transaction_fields (g : GasFees) : dict :=
  [("gas", VInt (gf_gas_limit g))] ++
  match gf_gas_price g with
  | Some p => [("gasPrice", VInt p)]
  | None => [("maxFeePerGas", VInt (default 0 (gf_max_fee_per_gas g)));
             ("maxPriorityFeePerGas", VInt (default 0 (gf_max_priority_fee_per_gas g)))]
  end%list.

(** * Simulation and policy results *)

Record SimulationResult := {
  sr_status : SimulationStatus;
  sr_gas_estimate : option Z;
  sr_reason : option string
}.

Definition make_SimulationResult (status : SimulationStatus) (gas_estimate : option Z) (reason : option string)
    : result exn SimulationResult :=
  v_model "SimulationResult"
    ((fun '(a, b, c) => {| sr_status := a; sr_gas_estimate := b; sr_reason := c |}) <$>
       (v_any status ⊛ v_opt (v_gt "gas_estimate" 0) gas_estimate ⊛ v_any reason))
    no_after.

Definition passed (s : SimulationResult) : bool := bool_decide (sr_status s = SIM_PASSED).

Record PolicyDecision := { pd_status : PolicyDecisionStatus; pd_reason : string }.

Definition make_PolicyDecision (status : PolicyDecisionStatus) (reason : string) : result exn PolicyDecision :=
  v_model "PolicyDecision"
    ((fun '(a, b) => {| pd_status := a; pd_reason := b |}) <$> (v_any status ⊛ v_min_length "reason" 1 reason))
    no_after.

(** * Approval *)

Record ApprovalRequest := {
  aq_wallet_id : string;
  aq_chain : string;
  aq_chain_id : Z;
  aq_from_address : option string;
  aq_to : string;
  aq_value_wei : Z;
  aq_data : string;
  aq_idempotency_key : string;
  aq_metadata : dict
}.

Definition make_ApprovalRequest (wallet_id chain : string) (chain_id : Z) (from_address : option string)
    (to : string) (value_wei : Z) (data idempotency_key : string) (metadata : dict) : result exn ApprovalRequest :=
  v_model "ApprovalRequest"
    ((fun '(a, b, c, d, e, f, g, h, i) =>
        {| aq_wallet_id := a; aq_chain := b; aq_chain_id := c; aq_from_address := d; aq_to := e;
           aq_value_wei := f; aq_data := g; aq_idempotency_key := h; aq_metadata := i |}) <$>
       (v_min_length "wallet_id" 1 wallet_id ⊛ v_min_length "chain" 1 chain ⊛ v_gt "chain_id" 0 chain_id
        ⊛ v_any from_address ⊛ v_min_length "to" 1 to ⊛ v_ge "value_wei" 0 value_wei
        ⊛ v_min_length "data" 2 data ⊛ v_min_length "idempotency_key" 1 idempotency_key ⊛ v_any metadata))
    no_after.

Record ApprovalResult := {
  ar_status : ApprovalStatus;
  ar_reason : string;
  ar_approved_by : option string
}.

Definition make_ApprovalResult (status : ApprovalStatus) (reason : string) (approved_by : option string)
    : result exn ApprovalResult :=
  v_model "ApprovalResult"
    ((fun '(a, b, c) => {| ar_status := a; ar_reason := b; ar_approved_by := c |}) <$>
       (v_any status ⊛ v_min_length "reason" 1 reason ⊛ v_any approved_by))
    no_after.

Definition approved (a : ApprovalResult) : bool := bool_decide (ar_status a = APPROVED).

(** * Signer payload *)

Record PreparedEVMTransaction := { pe_chain_id : Z; pe_transaction : dict }.

Definition PreparedEVMTransaction_validate_chain_id (t : PreparedEVMTransaction) : result string unit :=
  let tx_chain_id := get (pe_transaction t) "chainId" in
  if is_none tx_chain_id then Err "Prepared transaction must include chainId."
  else match as_int tx_chain_id with
       | None => Err "Prepared transaction chainId must be an integer."
       | Some c => if negb (c =? pe_chain_id t)
                   then Err "Prepared transaction chainId must match request chain_id."
                   else Ok tt
       end.

Definition make_PreparedEVMTransaction (chain_id : Z) (transaction : dict) : result exn PreparedEVMTransaction :=
  v_model "PreparedEVMTransaction"
    ((fun '(a, b) => {| pe_chain_id := a; pe_transaction := b |}) <$>
       (v_gt "chain_id" 0 chain_id ⊛ v_nonempty_dict "transaction" transaction))
    PreparedEVMTransaction_validate_chain_id.

(** The dict is immutable here, so the copy is the dict. *)
Definition as_signable_dict (t : PreparedEVMTransaction) : dict := pe_transaction t.

(** * Structured results that carry errors *)

Record TransactionReceipt := {
  rc_tx_hash : string;
  rc_status : ExecutionStatus;
  rc_block_number : option Z;
  rc_gas_used : option Z
}.

Definition validate_receipt_status (r : TransactionReceipt) : result string unit :=
  match rc_status r with
  | CONFIRMED | FAILED | PENDING => Ok tt
  | _ => Err "Receipt status must be confirmed, failed, or pending."
  end.

Definition make_TransactionReceipt (tx_hash : string) (status : ExecutionStatus) (block_number gas_used : option Z)
    : result exn TransactionReceipt :=
  v_model "TransactionReceipt"
    ((fun '(a, b, c, d) => {| rc_tx_hash := a; rc_status := b; rc_block_number := c; rc_gas_used := d |}) <$>
       (v_hex "tx_hash" tx_hash ⊛ v_any status ⊛ v_opt (v_ge "block_number" 0) block_number
        ⊛ v_opt (v_ge "gas_used" 0) gas_used))
    validate_receipt_status.

(** * Transactions *)

Record PreparedTransaction := {
  pt_wallet_id : string;
  pt_chain : string;
  pt_chain_id : option Z;
  pt_from_address : option string;
  pt_to : string;
  pt_value_wei : Z;
  pt_data : string;
  pt_nonce : option Z;
  pt_gas : option GasFees;
  pt_idempotency_key : option string;
  pt_metadata : dict
}.

Record ExecutableTransaction := {
  et_wallet_id : string;
  et_chain : string;
  et_chain_id : Z;
  et_from_address : option string;
  et_to : string;
  et_value_wei : Z;
  et_data : string;
  et_nonce : Z;
  et_gas : GasFees;
  et_idempotency_key : option string;
  et_metadata : dict
}.

Record ExecutionResult := {
  er_chain : string;
  er_chain_id : Z;
  er_wallet_id : string;
  er_wallet_address : option string;
  er_tx_hash : option string;
  er_status : ExecutionStatus;
  er_block_number : option Z;
  er_gas_used : option Z;
  er_policy_decision : option PolicyDecision;
  er_error : option MercuryErrorInfo
}.

Record WalletRef := { wr_wallet_id : string; wr_expected_address : option string }.

Record WalletAddressResult := { wa_wallet_id : string; wa_address : string }.

Record SignTransactionRequest := {
  st_wallet : WalletRef;
  st_chain_id : Z;
  st_prepared_transaction : PreparedEVMTransaction
}.

Record SignedTransactionResult := {
  sg_wallet_id : string;
  sg_chain_id : Z;
  sg_signer_address : string;
  sg_raw_transaction_hex : string;
  sg_tx_hash : string
}.

Record SignTypedDataRequest := {
  sd_wallet : WalletRef;
  sd_chain_id : Z;
  sd_typed_data : dict
}.

Record SignedTypedDataResult := {
  ss_wallet_id : string;
  ss_chain_id : Z;
  ss_signer_address : string;
  ss_signature : string;
  ss_message_hash : string
}.

Definition pt_is_value_moving (t : PreparedTransaction) : bool :=
  (0 <? pt_value_wei t) || negb (String.eqb (pt_data t) "0x").

Definition et_is_value_moving (t : ExecutableTransaction) : bool :=
  (0 <? et_value_wei t) || negb (String.eqb (et_data t) "0x").

Definition validate_sign_chain_id (r : SignTransactionRequest) : result string unit :=
  if negb (pe_chain_id (st_prepared_transaction r) =? st_chain_id r)
  then Err "Prepared transaction chain_id must match request chain_id." else Ok tt.

Definition make_SignTransactionRequest (wallet : WalletRef) (chain_id : Z) (prepared : PreparedEVMTransaction)
    : result exn SignTransactionRequest :=
  v_model "SignTransactionRequest"
    ((fun '(a, b, c) => {| st_wallet := a; st_chain_id := b; st_prepared_transaction := c |}) <$>
       (v_any wallet ⊛ v_gt "chain_id" 0 chain_id ⊛ v_any prepared))
    validate_sign_chain_id.

(** [domain_chain_id != self.chain_id]: an integer (or [bool]) may be equal to it, nothing else.
    A float equal to the chain id is compared by its [repr]. *)
Definition py_neq_int (v : pyval) (n : Z) : bool :=
  match v with
  | VFloat r => negb (String.eqb r (py_str_int n ++ ".0"))
  | _ => negb (eq_int v n)
  end.

Definition validate_domain_chain_id (r : SignTypedDataRequest) : result string unit :=
  match get (sd_typed_data r) "domain" with
  | VDict domain =>
      let domain_chain_id := get domain "chainId" in
      if negb (is_none domain_chain_id) && py_neq_int domain_chain_id (sd_chain_id r)
      then Err "Typed-data domain chainId must match request chain_id."
      else Ok tt
  | _ => Ok tt
  end.

Definition make_SignTypedDataRequest (wallet : WalletRef) (chain_id : Z) (typed_data : dict)
    : result exn SignTypedDataRequest :=
  v_model "SignTypedDataRequest"
    ((fun '(a, b, c) => {| sd_wallet := a; sd_chain_id := b; sd_typed_data := c |}) <$>
       (v_any wallet ⊛ v_gt "chain_id" 0 chain_id ⊛ v_nonempty_dict "typed_data" typed_data))
    validate_domain_chain_id.

Section models.
Context {W : Web3}.

Definition make_PreparedTransaction (wallet_id chain : string) (chain_id : option Z)
    (from_address : option string) (to : string) (value_wei : Z) (data : string) (nonce : option Z)
    (gas : option GasFees) (idempotency_key : option string) (metadata : dict)
    : result exn PreparedTransaction :=
  v_model "PreparedTransaction"
    ((fun '(a, b, c, d, e, f, g, h, i, j, k) =>
        {| pt_wallet_id := a; pt_chain := b; pt_chain_id := c; pt_from_address := d; pt_to := e;
           pt_value_wei := f; pt_data := g; pt_nonce := h; pt_gas := i; pt_idempotency_key := j;
           pt_metadata := k |}) <$>
       (v_min_length "wallet_id" 1 wallet_id ⊛ v_min_length "chain" 1 chain
        ⊛ v_opt (v_gt "chain_id" 0) chain_id ⊛ v_opt (v_address "from_address") from_address
        ⊛ v_address_field "to" to ⊛ v_ge "value_wei" 0 value_wei ⊛ v_hex "data" data
        ⊛ v_opt (v_ge "nonce" 0) nonce ⊛ v_any gas ⊛ v_any idempotency_key ⊛ v_any metadata))
    no_after.

Definition make_ExecutableTransaction (wallet_id chain : string) (chain_id : Z)
    (from_address : option string) (to : string) (value_wei : Z) (data : string) (nonce : Z)
    (gas : GasFees) (idempotency_key : option string) (metadata : dict)
    : result exn ExecutableTransaction :=
  v_model "ExecutableTransaction"
    ((fun '(a, b, c, d, e, f, g, h, i, j, k) =>
        {| et_wallet_id := a; et_chain := b; et_chain_id := c; et_from_address := d; et_to := e;
           et_value_wei := f; et_data := g; et_nonce := h; et_gas := i; et_idempotency_key := j;
           et_metadata := k |}) <$>
       (v_min_length "wallet_id" 1 wallet_id ⊛ v_min_length "chain" 1 chain
        ⊛ v_gt "chain_id" 0 chain_id ⊛ v_opt (v_address "from_address") from_address
        ⊛ v_address_field "to" to ⊛ v_ge "value_wei" 0 value_wei ⊛ v_hex "data" data
        ⊛ v_ge "nonce" 0 nonce ⊛ v_any gas
        ⊛ v_opt (v_min_length "idempotency_key" 1) idempotency_key ⊛ v_any metadata))
    no_after.

Definition to_prepared_evm_transaction (t : ExecutableTransaction) : result exn PreparedEVMTransaction :=
  let transaction :=
    dict_update [("chainId", VInt (et_chain_id t)); ("nonce", VInt (et_nonce t)); ("to", VStr (et_to t));
                 ("value", VInt (et_value_wei t)); ("data", VStr (et_data t))]
                (to_transaction_fields (et_gas t)) in
  let transaction := match et_from_address t with
                     | Some a => dict_set transaction "from" (VStr a)
                     | None => transaction
                     end in
  make_PreparedEVMTransaction (et_chain_id t) transaction.

Definition make_ExecutionResult (chain : string) (chain_id : Z) (wallet_id : string)
    (wallet_address tx_hash : option string) (status : ExecutionStatus) (block_number gas_used : option Z)
    (policy_decision : option PolicyDecision) (error : option MercuryErrorInfo) : result exn ExecutionResult :=
  v_model "ExecutionResult"
    ((fun '(a, b, c, d, e, f, g, h, i, j) =>
        {| er_chain := a; er_chain_id := b; er_wallet_id := c; er_wallet_address := d; er_tx_hash := e;
           er_status := f; er_block_number := g; er_gas_used := h; er_policy_decision := i; er_error := j |}) <$>
       (v_min_length "chain" 1 chain ⊛ v_gt "chain_id" 0 chain_id ⊛ v_min_length "wallet_id" 1 wallet_id
        ⊛ v_opt (v_address "wallet_address") wallet_address ⊛ v_opt (v_hex "tx_hash") tx_hash
        ⊛ v_any status ⊛ v_opt (v_ge "block_number" 0) block_number ⊛ v_opt (v_ge "gas_used" 0) gas_used
        ⊛ v_any policy_decision ⊛ v_any error))
    no_after.

Definition make_WalletRef (wallet_id : string) (expected_address : option string) : result exn WalletRef :=
  v_model "WalletRef"
    ((fun '(a, b) => {| wr_wallet_id := a; wr_expected_address := b |}) <$>
       (v_min_length "wallet_id" 1 wallet_id ⊛ v_opt (v_address "expected_address") expected_address))
    no_after.

Definition make_WalletAddressResult (wallet_id address : string) : result exn WalletAddressResult :=
  v_model "WalletAddressResult"
    ((fun '(a, b) => {| wa_wallet_id := a; wa_address := b |}) <$>
       (v_min_length "wallet_id" 1 wallet_id ⊛ v_address_field "address" address))
    no_after.

Definition make_SignedTransactionResult (wallet_id : string) (chain_id : Z)
    (signer_address raw_transaction_hex tx_hash : string) : result exn SignedTransactionResult :=
  v_model_with "SignedTransactionResult"
    ((fun '(a, b, c, d, e) =>
        {| sg_wallet_id := a; sg_chain_id := b; sg_signer_address := c; sg_raw_transaction_hex := d;
           sg_tx_hash := e |}) <$>
       (v_min_length "wallet_id" 1 wallet_id ⊛ v_gt "chain_id" 0 chain_id
        ⊛ v_min_length "signer_address" 1 signer_address ⊛ v_hex "raw_transaction_hex" raw_transaction_hex
        ⊛ v_hex "tx_hash" tx_hash))
    (fun r => a ← normalize_evm_address (sg_signer_address r);
       Ok {| sg_wallet_id := sg_wallet_id r; sg_chain_id := sg_chain_id r; sg_signer_address := a;
             sg_raw_transaction_hex := sg_raw_transaction_hex r; sg_tx_hash := sg_tx_hash r |}).

Definition make_SignedTypedDataResult (wallet_id : string) (chain_id : Z)
    (signer_address signature message_hash : string) : result exn SignedTypedDataResult :=
  v_model_with "SignedTypedDataResult"
    ((fun '(a, b, c, d, e) =>
        {| ss_wallet_id := a; ss_chain_id := b; ss_signer_address := c; ss_signature := d;
           ss_message_hash := e |}) <$>
       (v_min_length "wallet_id" 1 wallet_id ⊛ v_gt "chain_id" 0 chain_id
        ⊛ v_min_length "signer_address" 1 signer_address ⊛ v_hex "signature" signature
        ⊛ v_hex "message_hash" message_hash))
    (fun r => a ← normalize_evm_address (ss_signer_address r);
       Ok {| ss_wallet_id := ss_wallet_id r; ss_chain_id := ss_chain_id r; ss_signer_address := a;
             ss_signature := ss_signature r; ss_message_hash := ss_message_hash r |}).
End models.

(** * What a validated model guarantees *)

Section wf.
Context `{W : Web3}.

Definition wf_GasFees (g : GasFees) : Prop :=
  0 < gf_gas_limit g /\
  ((exists m p, gf_max_fee_per_gas g = Some m /\ gf_max_priority_fee_per_gas g = Some p /\
                gf_gas_price g = None /\ 0 < m /\ 0 < p) \/
   (exists p, gf_gas_price g = Some p /\ gf_max_fee_per_gas g = None /\
              gf_max_priority_fee_per_gas g = None /\ 0 < p)).

Definition wf_address_opt (o : option string) : Prop := forall a, o = Some a -> normalized a.

Definition wf_PreparedTransaction (t : PreparedTransaction) : Prop :=
  pt_wallet_id t <> "" /\ pt_chain t <> "" /\ (forall c, pt_chain_id t = Some c -> 0 < c) /\
  wf_address_opt (pt_from_address t) /\ normalized (pt_to t) /\ 0 <= pt_value_wei t /\
  is_hex_data (pt_data t) = true /\ (forall n, pt_nonce t = Some n -> 0 <= n).

Definition wf_ExecutableTransaction (t : ExecutableTransaction) : Prop :=
  et_wallet_id t <> "" /\ et_chain t <> "" /\ 0 < et_chain_id t /\
  wf_address_opt (et_from_address t) /\ normalized (et_to t) /\ 0 <= et_value_wei t /\
  is_hex_data (et_data t) = true /\ 0 <= et_nonce t /\ et_idempotency_key t <> Some "".

Definition wf_ExecutionResult (r : ExecutionResult) : Prop :=
  er_chain r <> "" /\ 0 < er_chain_id r /\ er_wallet_id r <> "" /\
  wf_address_opt (er_wallet_address r) /\ (forall h, er_tx_hash r = Some h -> is_hex_data h = true) /\
  (forall n, er_block_number r = Some n -> 0 <= n) /\ (forall n, er_gas_used r = Some n -> 0 <= n).

Definition wf_TransactionReceipt (r : TransactionReceipt) : Prop :=
  is_hex_data (rc_tx_hash r) = true /\ rc_status r ∈ [CONFIRMED; FAILED; PENDING] /\
  (forall n, rc_block_number r = Some n -> 0 <= n) /\ (forall n, rc_gas_used r = Some n -> 0 <= n).

Lemma v_hex_ok loc s t : v_hex loc s = Ok t <-> s = t /\ is_hex_data s = true.
Proof. unfold v_hex, verr. destruct (is_hex_data s); split; intuition congruence. Qed.

Lemma v_hex_intro loc s : is_hex_data s = true -> v_hex loc s = Ok s.
Proof. intros H. by apply v_hex_ok. Qed.

Lemma v_address_field_ok loc s a :
  v_address_field loc s = Ok a -> normalize_evm_address s = Ok a.
Proof.
  unfold v_address_field. intros H. apply result_bind_ok in H as (s' & H1 & H2).
  apply v_min_length_ok in H1 as [<- _]. by apply vfield_ok in H2.
Qed.

Lemma v_opt_id_ok {A} (f : A -> V A) (P : A -> Prop) o o' :
  (forall a b, f a = Ok b -> a = b /\ P a) ->
  v_opt f o = Ok o' -> o' = o /\ (forall a, o = Some a -> P a).
Proof.
  intros Hf [[-> ->] | (a & b & -> & -> & H)]%v_opt_ok; [done|].
  apply Hf in H as [-> H]. split; [done | by intros ? [= <-]].
Qed.

Context {L : Web3Laws W}.

Lemma v_address_intro loc a : normalized a -> v_address loc a = Ok a.
Proof. intros H. apply vfield_ok. by apply normalize_idem. Qed.

Lemma v_address_field_intro loc a : normalized a -> v_address_field loc a = Ok a.
Proof.
  intros H. unfold v_address_field. rewrite v_min_length_intro by by apply normalized_nonempty.
  by apply v_address_intro.
Qed.
Lemma v_opt_address_ok loc o o' :
  v_opt (v_address loc) o = Ok o' ->
  wf_address_opt o' /\ (forall a, o = Some a -> normalized a -> o' = Some a) /\ (o = None -> o' = None).
Proof.
  intros [[-> ->] | (s & a & -> & -> & H)]%v_opt_ok; [by split|].
  split_and!; [|intros ? [= <-] Hn; by rewrite v_address_intro in H; simplify_eq | done].
  apply vfield_ok in H. intros ? [= <-]. by exists s.
Qed.
End wf.

#[export] Hint Resolve v_hex_intro v_address_intro v_address_field_intro : mercury.

(** Build a validated model: every field passes its own rule. *)
Ltac intro_valid :=
  unfold v_any;
  eapply v_model_fmap;
    [ repeat apply vboth_intro;
      repeat (match goal with |- v_opt _ _ = Ok _ => apply v_opt_intro; intros; simplify_eq | |- Ok _ = Ok _ => reflexivity end);
      eauto with mercury lia
    | first [reflexivity | by match goal with |- _ = ?t => destruct t end]
    | try reflexivity ].

(** Read a validated model back: which input each field is, and what it satisfies. *)
Ltac inv_fields :=
  inv_valid; unfold v_any in *;
  repeat match goal with
  | H : Ok _ = Ok _ |- _ => injection H as H; subst
  | H : v_hex _ _ = Ok _ |- _ => apply v_hex_ok in H as [<- ?]
  | H : v_address_field _ _ = Ok _ |- _ => apply v_address_field_ok in H
  | H : v_opt (v_address _) _ = Ok _ |- _ => apply v_opt_address_ok in H as (? & ? & ?)
  | H : v_opt (v_gt _ ?n) _ = Ok _ |- _ =>
      apply (v_opt_id_ok _ (fun z => n < z)) in H as [-> ?]; [|by intros ? ? [-> ?]%v_gt_ok]
  | H : v_opt (v_ge _ ?n) _ = Ok _ |- _ =>
      apply (v_opt_id_ok _ (fun z => n <= z)) in H as [-> ?]; [|by intros ? ? [-> ?]%v_ge_ok]
  | H : v_opt (v_hex _) _ = Ok _ |- _ =>
      apply (v_opt_id_ok _ (fun z => is_hex_data z = true)) in H as [-> ?]; [|by intros ? ? [-> ?]%v_hex_ok]
  | H : v_opt (v_min_length _ 1) _ = Ok _ |- _ =>
      apply (v_opt_id_ok _ (fun z => z <> EmptyString)) in H as [-> ?];
      [|by intros ? ? [-> ?]%v_min_length_ok]
  end; subst; simpl in *.

Section constructors.
Context `{W : Web3} {L : Web3Laws W}.

Lemma make_GasFees_ok gl m p g r :
  make_GasFees gl m p g = Ok r <->
  r = {| gf_gas_limit := gl; gf_max_fee_per_gas := m; gf_max_priority_fee_per_gas := p; gf_gas_price := g |}
  /\ wf_GasFees r.
Proof.
  unfold make_GasFees. split.
  - intros H. inv_fields.
    split; [done|]. unfold validate_fee_mode, wf_GasFees in *; simpl in *.
    destruct m as [m|], p as [p|], g as [g|]; simpl in *; try done; split; try done;
      [left | right]; eauto 10.
  - intros [-> [Hl Hm]]; simpl in *.
    destruct Hm as [(m' & p' & -> & -> & -> & ? & ?) | (p' & -> & -> & -> & ?)];
      intro_valid.
Qed.

Lemma make_ExecutionResult_ok ch ci wi wa tx st bn gu pd er r :
  make_ExecutionResult ch ci wi wa tx st bn gu pd er = Ok r -> 
  wf_ExecutionResult r /\ er_status r = st /\ er_tx_hash r = tx /\ er_error r = er /\
  er_policy_decision r = pd /\ er_chain r = ch /\ er_chain_id r = ci /\ er_wallet_id r = wi /\
  er_block_number r = bn /\ er_gas_used r = gu.
Proof. unfold make_ExecutionResult. intros H. inv_fields. unfold wf_ExecutionResult; simpl. tauto. Qed.

Lemma make_PreparedTransaction_ok wi ch ci fa to v d n g ik md t :
  make_PreparedTransaction wi ch ci fa to v d n g ik md = Ok t ->
  wf_PreparedTransaction t /\ normalize_evm_address to = Ok (pt_to t) /\
  pt_wallet_id t = wi /\ pt_chain t = ch /\ pt_chain_id t = ci /\ pt_value_wei t = v /\ pt_data t = d /\
  pt_nonce t = n /\ pt_gas t = g /\ pt_idempotency_key t = ik /\ pt_metadata t = md /\
  (forall a, fa = Some a -> normalized a -> pt_from_address t = Some a) /\
  (fa = None -> pt_from_address t = None).
Proof.
  unfold make_PreparedTransaction. intros H. inv_fields.
  unfold wf_PreparedTransaction; simpl. split_and!; eauto with mercury.
Qed.

Lemma make_PreparedTransaction_from wi ch ci a to v d n g ik md t :
  make_PreparedTransaction wi ch ci (Some a) to v d n g ik md = Ok t ->
  exists b, normalize_evm_address a = Ok b /\ pt_from_address t = Some b.
Proof.
  unfold make_PreparedTransaction. intros H. inv_valid. subst. simpl.
  match goal with H : v_opt _ (Some a) = Ok _ |- _ =>
    apply v_opt_ok in H as [[[=] _]|(? & b & [= <-] & -> & H)]; apply vfield_ok in H; by exists b end.
Qed.

Lemma make_ExecutableTransaction_from wi ch ci a to v d n g ik md t :
  make_ExecutableTransaction wi ch ci (Some a) to v d n g ik md = Ok t ->
  exists b, normalize_evm_address a = Ok b /\ et_from_address t = Some b.
Proof.
  unfold make_ExecutableTransaction. intros H. inv_valid. subst. simpl.
  match goal with H : v_opt _ (Some a) = Ok _ |- _ =>
    apply v_opt_ok in H as [[[=] _]|(? & b & [= <-] & -> & H)]; apply vfield_ok in H; by exists b end.
Qed.

Lemma make_ExecutableTransaction_ok wi ch ci fa to v d n g ik md t :
  make_ExecutableTransaction wi ch ci fa to v d n g ik md = Ok t ->
  wf_ExecutableTransaction t /\ normalize_evm_address to = Ok (et_to t) /\
  et_wallet_id t = wi /\ et_chain t = ch /\ et_chain_id t = ci /\ et_value_wei t = v /\ et_data t = d /\
  et_nonce t = n /\ et_gas t = g /\ et_idempotency_key t = ik /\ et_metadata t = md.
Proof.
  unfold make_ExecutableTransaction. intros H. inv_fields.
  unfold wf_ExecutableTransaction; simpl. split_and!; eauto with mercury.
  intros E. match goal with H : forall a, _ = Some a -> a <> EmptyString |- _ => by apply (H _ E) end.
Qed.

(** A well-formed prepared transaction is executable as it is. *)
Lemma make_ExecutableTransaction_intro wi ch ci fa to v d n g ik md :
  wi <> "" -> ch <> "" -> 0 < ci -> wf_address_opt fa -> normalized to -> 0 <= v ->
  is_hex_data d = true -> 0 <= n -> ik <> Some "" ->
  make_ExecutableTransaction wi ch ci fa to v d n g ik md =
    Ok {| et_wallet_id := wi; et_chain := ch; et_chain_id := ci; et_from_address := fa; et_to := to;
          et_value_wei := v; et_data := d; et_nonce := n; et_gas := g; et_idempotency_key := ik;
          et_metadata := md |}.
Proof.
  intros. unfold make_ExecutableTransaction. intro_valid.
  apply v_min_length_intro. by intros ->.
Qed.

Lemma make_ExecutionResult_intro ch ci wi wa tx st bn gu pd er :
  ch <> "" -> 0 < ci -> wi <> "" -> wf_address_opt wa ->
  (forall h, tx = Some h -> is_hex_data h = true) ->
  (forall n, bn = Some n -> 0 <= n) -> (forall n, gu = Some n -> 0 <= n) ->
  make_ExecutionResult ch ci wi wa tx st bn gu pd er =
    Ok {| er_chain := ch; er_chain_id := ci; er_wallet_id := wi; er_wallet_address := wa; er_tx_hash := tx;
          er_status := st; er_block_number := bn; er_gas_used := gu; er_policy_decision := pd; er_error := er |}.
Proof. intros. unfold make_ExecutionResult. intro_valid. Qed.
End constructors.
