(* ===== verification/SwapModels.v ===== *)
(** Swap intents, quotes, routes and executions ([mercury/models/swaps.py]). *)
From stdpp Require Import base tactics option list sets strings.
From Stdlib Require Import ZArith Lia Ascii String.
From S2P Require Import Prelude Python Values Exceptions Redaction Errors Addresses Chains Models.

Local Open Scope string_scope.
Local Open Scope Z_scope.
Local Open Scope validation_scope.

Inductive SwapProviderName : Type := LIFI | COWSWAP | UNISWAP.
Inductive SwapRouteKind : Type := SWAP | BRIDGE.
Inductive SwapExecutionType : Type := EVM_TRANSACTION | EIP712_ORDER | UNSUPPORTED_EXECUTION.

#[export] Instance SwapProviderName_eq_dec : EqDecision SwapProviderName.
Proof. solve_decision. Defined.
#[export] Instance SwapRouteKind_eq_dec : EqDecision SwapRouteKind.
Proof. solve_decision. Defined.
#[export] Instance SwapExecutionType_eq_dec : EqDecision SwapExecutionType.
Proof. solve_decision. Defined.

Definition SwapProviderName_value (p : SwapProviderName) : string :=
  match p with LIFI => "lifi" | COWSWAP => "cowswap" | UNISWAP => "uniswap" end.

(** [SwapProviderName(s)] *)
Definition SwapProviderName_of (s : string) : option SwapProviderName :=
  List.find (fun p => String.eqb s (SwapProviderName_value p)) [LIFI; COWSWAP; UNISWAP].

Definition SwapRouteKind_value (k : SwapRouteKind) : string :=
  match k with SWAP => "swap" | BRIDGE => "bridge" end.

Definition SwapExecutionType_value (t : SwapExecutionType) : string :=
  match t with EVM_TRANSACTION => "evm_transaction" | EIP712_ORDER => "eip712_order"
  | UNSUPPORTED_EXECUTION => "unsupported" end.

(** A [datetime]: its instant in microseconds since the epoch when it has a zone, the same reading
    of its fields when it has none. *)
Inductive datetime : Type :=
| Aware (instant : Z)
| Naive (reading : Z).

Definition v_bps (loc : string) (z : Z) : V Z := x ← v_ge loc 0 z; v_le loc 10000 x.

Record SwapIntent := {
  si_wallet_id : string;
  si_chain : string;
  si_from_token : string;
  si_to_token : string;
  si_amount_in : string;
  si_min_amount_out : option string;
  si_max_slippage_bps : option Z;
  si_provider_preference : option SwapProviderName;
  si_recipient_address : option string;
  si_idempotency_key : string;
  si_to_chain : option string;
  si_to_chain_id : option Z
}.

Record SwapQuoteRequest := {
  sq_wallet_id : string;
  sq_wallet_address : string;
  sq_chain : string;
  sq_chain_id : Z;
  sq_from_token : string;
  sq_to_token : string;
  sq_amount_in : string;
  sq_amount_in_raw : Z;
  sq_max_slippage_bps : option Z;
  sq_min_amount_out : option string;
  sq_recipient_address : option string;
  sq_idempotency_key : string;
  sq_to_chain : option string;
  sq_to_chain_id : option Z;
  sq_from_token_is_native : bool;
  sq_wrapped_from_token : option string
}.

Record SwapRoute := {
  ro_provider : SwapProviderName;
  ro_route_id : string;
  ro_route_kind : SwapRouteKind;
  ro_from_chain_id : Z;
  ro_to_chain_id : Z;
  ro_from_token : string;
  ro_to_token : string;
  ro_spender_address : option string;
  ro_steps : list string
}.

Record SwapQuote := {
  qu_provider : SwapProviderName;
  qu_request : SwapQuoteRequest;
  qu_route : SwapRoute;
  qu_amount_in_raw : Z;
  qu_expected_amount_out_raw : Z;
  qu_min_amount_out_raw : option Z;
  qu_slippage_bps : option Z;
  qu_expires_at : option datetime;
  qu_recipient_address : string;
  qu_raw_quote : dict
}.

Record SwapEVMTransaction := { sx_chain_id : Z; sx_to : string; sx_data : string; sx_value_wei : Z }.

Record SwapTypedOrder := { so_chain_id : Z; so_typed_data : dict; so_submit_url : option string }.

Record SwapExecution := {
  se_provider : SwapProviderName;
  se_execution_type : SwapExecutionType;
  se_quote : SwapQuote;
  se_transaction : option SwapEVMTransaction;
  se_order : option SwapTypedOrder;
  se_unsupported_reason : option string;
  se_raw_execution : dict
}.

(** ** tools/swaps.py *)

Record SwapAllowanceCheck := {
  sa_spender_address : string;
  sa_required_amount_raw : Z;
  sa_current_allowance_raw : Z;
  sa_allowance_sufficient : bool
}.

Record PreparedSwap := {
  ps_quote : SwapQuote;
  ps_execution : option SwapExecution;
  ps_quote_policy_decision : PolicyDecision;
  ps_execution_policy_decision : option PolicyDecision;
  ps_allowance : option SwapAllowanceCheck;
  ps_approval_transaction : option PreparedTransaction;
  ps_swap_transaction : option PreparedTransaction;
  ps_order_submission_idempotency_key : option string
}.

(** [approval_transaction or swap_transaction] *)
Definition next_transaction (p : PreparedSwap) : option PreparedTransaction :=
  opt_or (ps_approval_transaction p) (ps_swap_transaction p).

(** [recipient_address or wallet_address] *)
Definition effective_recipient (r : SwapQuoteRequest) : string :=
  match sq_recipient_address r with
  | Some a => if str_empty a then sq_wallet_address r else a
  | None => sq_wallet_address r
  end.

Definition normalize_expiry (v : datetime) : datetime :=
  match v with Naive t => Aware t | Aware t => Aware t end.

Section swap_models.
Context {W : Web3} (settings : MercurySettings).

(** [min_length=1], then [value.strip().lower()] *)
Definition v_chain (loc s : string) : V string := t ← v_min_length loc 1 s; Ok (py_lower (py_strip t)).

Definition v_from_token (loc s : string) : V string :=
  t ← v_min_length loc 1 s; vfield loc (normalize_swap_input_from_token t).

Definition validate_tokens (i : SwapIntent) : result exn unit :=
  raise_if (String.eqb (si_from_token i) (si_to_token i)) (ValueError "Swap tokens must be different.").

(** [validate_bridge_fields] and [validate_request_destination] *)
Definition validate_destination (to_chain : option string) (to_chain_id : option Z) : result exn unit :=
  match to_chain, to_chain_id with
  | Some name, Some cid =>
      chain ← get_chain_by_name settings name;
      raise_if (negb (cc_chain_id chain =? cid))
               (ValueError "to_chain and to_chain_id must refer to the same network.")
  | _, _ => Ok tt
  end.

Definition make_SwapIntent (wallet_id chain from_token to_token amount_in : string)
    (min_amount_out : option string) (max_slippage_bps : option Z)
    (provider_preference : option SwapProviderName) (recipient_address : option string)
    (idempotency_key : string) (to_chain : option string) (to_chain_id : option Z) : result exn SwapIntent :=
  v_model_with "SwapIntent"
    ((fun '(a, b, c, d, e, f, g, h, i, j, k, l) =>
        {| si_wallet_id := a; si_chain := b; si_from_token := c; si_to_token := d; si_amount_in := e;
           si_min_amount_out := f; si_max_slippage_bps := g; si_provider_preference := h;
           si_recipient_address := i; si_idempotency_key := j; si_to_chain := k; si_to_chain_id := l |}) <$>
       (v_min_length "wallet_id" 1 wallet_id ⊛ v_chain "chain" chain ⊛ v_from_token "from_token" from_token
        ⊛ v_address_field "to_token" to_token ⊛ v_min_length "amount_in" 1 amount_in
        ⊛ v_opt (v_min_length "min_amount_out" 1) min_amount_out
        ⊛ v_opt (v_bps "max_slippage_bps") max_slippage_bps ⊛ v_any provider_preference
        ⊛ v_opt (v_address_field "recipient_address") recipient_address
        ⊛ v_min_length "idempotency_key" 1 idempotency_key
        ⊛ v_opt (v_chain "to_chain") to_chain ⊛ v_opt (v_gt "to_chain_id" 0) to_chain_id))
    (fun i => _ ← validate_tokens i;
              _ ← validate_destination (si_to_chain i) (si_to_chain_id i); Ok i).

Definition validate_native_sell_fields (r : SwapQuoteRequest) : result exn unit :=
  canonical_native ← normalize_evm_address ZERO_ADDRESS;
  if String.eqb (sq_from_token r) canonical_native then
    _ ← raise_if (negb (sq_from_token_is_native r))
          (ValueError "from_token_is_native must be True when from_token is the canonical native placeholder.");
    raise_if (negb (isSome (sq_wrapped_from_token r)))
      (ValueError "wrapped_from_token is required when selling native currency.")
  else
    _ ← raise_if (sq_from_token_is_native r)
          (ValueError "from_token_is_native cannot be True for ERC-20 sell tokens.");
    raise_if (isSome (sq_wrapped_from_token r))
      (ValueError "wrapped_from_token must be omitted for ERC-20 sell tokens.").

Definition make_SwapQuoteRequest (wallet_id wallet_address chain : string) (chain_id : Z)
    (from_token to_token amount_in : string) (amount_in_raw : Z) (max_slippage_bps : option Z)
    (min_amount_out recipient_address : option string) (idempotency_key : string)
    (to_chain : option string) (to_chain_id : option Z) (from_token_is_native : bool)
    (wrapped_from_token : option string) : result exn SwapQuoteRequest :=
  v_model_with "SwapQuoteRequest"
    ((fun '(a, b, c, d, e, f, g, h, i, j, k, l, m, n, o, p) =>
        {| sq_wallet_id := a; sq_wallet_address := b; sq_chain := c; sq_chain_id := d; sq_from_token := e;
           sq_to_token := f; sq_amount_in := g; sq_amount_in_raw := h; sq_max_slippage_bps := i;
           sq_min_amount_out := j; sq_recipient_address := k; sq_idempotency_key := l; sq_to_chain := m;
           sq_to_chain_id := n; sq_from_token_is_native := o; sq_wrapped_from_token := p |}) <$>
       (v_min_length "wallet_id" 1 wallet_id ⊛ v_address_field "wallet_address" wallet_address
        ⊛ v_chain "chain" chain ⊛ v_gt "chain_id" 0 chain_id ⊛ v_from_token "from_token" from_token
        ⊛ v_address_field "to_token" to_token ⊛ v_min_length "amount_in" 1 amount_in
        ⊛ v_gt "amount_in_raw" 0 amount_in_raw ⊛ v_opt (v_bps "max_slippage_bps") max_slippage_bps
        ⊛ v_opt (v_min_length "min_amount_out" 1) min_amount_out
        ⊛ v_opt (v_address_field "recipient_address") recipient_address
        ⊛ v_min_length "idempotency_key" 1 idempotency_key
        ⊛ v_opt (v_chain "to_chain") to_chain ⊛ v_opt (v_gt "to_chain_id" 0) to_chain_id
        ⊛ v_any from_token_is_native ⊛ v_opt (v_address_field "wrapped_from_token") wrapped_from_token))
    (fun r => _ ← validate_destination (sq_to_chain r) (sq_to_chain_id r);
              _ ← validate_native_sell_fields r; Ok r).

Definition make_SwapRoute (provider : SwapProviderName) (route_id : string) (route_kind : SwapRouteKind)
    (from_chain_id to_chain_id : Z) (from_token to_token : string) (spender_address : option string)
    (steps : list string) : result exn SwapRoute :=
  v_model "SwapRoute"
    ((fun '(a, b, c, d, e, f, g, h, i) =>
        {| ro_provider := a; ro_route_id := b; ro_route_kind := c; ro_from_chain_id := d; ro_to_chain_id := e;
           ro_from_token := f; ro_to_token := g; ro_spender_address := h; ro_steps := i |}) <$>
       (v_any provider ⊛ v_min_length "route_id" 1 route_id ⊛ v_any route_kind
        ⊛ v_gt "from_chain_id" 0 from_chain_id ⊛ v_gt "to_chain_id" 0 to_chain_id
        ⊛ v_address_field "from_token" from_token ⊛ v_address_field "to_token" to_token
        ⊛ v_opt (v_address_field "spender_address") spender_address ⊛ v_any steps))
    no_after.

Definition validate_quote_consistency (q : SwapQuote) : result string unit :=
  let r := qu_request q in
  let ro := qu_route q in
  if negb (bool_decide (qu_provider q = ro_provider ro)) then Err "Quote provider must match route provider."
  else if negb (qu_amount_in_raw q =? sq_amount_in_raw r)
  then Err "Quote amount_in_raw must match the request amount."
  else if negb (ro_from_chain_id ro =? sq_chain_id r)
  then Err "Route source chain must match the request chain."
  else match sq_to_chain_id r with
       | None => if negb (ro_to_chain_id ro =? sq_chain_id r)
                 then Err "Route destination chain must match the request chain for same-chain quotes."
                 else Ok tt
       | Some c => if negb (ro_to_chain_id ro =? c)
                   then Err "Route destination chain must match the request destination chain." else Ok tt
       end ≫= fun _ : unit =>
  if negb (String.eqb (ro_from_token ro) (sq_from_token r))
  then Err "Route source token must match the request token."
  else if negb (String.eqb (ro_to_token ro) (sq_to_token r))
  then Err "Route destination token must match the request token."
  else if negb (String.eqb (qu_recipient_address q) (effective_recipient r))
  then Err "Quote recipient must match the request recipient."
  else Ok tt.

Definition make_SwapQuote (provider : SwapProviderName) (request : SwapQuoteRequest) (route : SwapRoute)
    (amount_in_raw expected_amount_out_raw : Z) (min_amount_out_raw slippage_bps : option Z)
    (expires_at : option datetime) (recipient_address : string) (raw_quote : dict) : result exn SwapQuote :=
  v_model "SwapQuote"
    ((fun '(a, b, c, d, e, f, g, h, i, j) =>
        {| qu_provider := a; qu_request := b; qu_route := c; qu_amount_in_raw := d;
           qu_expected_amount_out_raw := e; qu_min_amount_out_raw := f; qu_slippage_bps := g;
           qu_expires_at := h; qu_recipient_address := i; qu_raw_quote := j |}) <$>
       (v_any provider ⊛ v_any request ⊛ v_any route ⊛ v_gt "amount_in_raw" 0 amount_in_raw
        ⊛ v_gt "expected_amount_out_raw" 0 expected_amount_out_raw
        ⊛ v_opt (v_ge "min_amount_out_raw" 0) min_amount_out_raw ⊛ v_opt (v_bps "slippage_bps") slippage_bps
        ⊛ v_any (normalize_expiry <$> expires_at) ⊛ v_address_field "recipient_address" recipient_address
        ⊛ v_any raw_quote))
    validate_quote_consistency.

Definition make_SwapEVMTransaction (chain_id : Z) (to data : string) (value_wei : Z)
    : result exn SwapEVMTransaction :=
  v_model "SwapEVMTransaction"
    ((fun '(a, b, c, d) => {| sx_chain_id := a; sx_to := b; sx_data := c; sx_value_wei := d |}) <$>
       (v_gt "chain_id" 0 chain_id ⊛ v_address_field "to" to ⊛ v_hex "data" data
        ⊛ v_ge "value_wei" 0 value_wei))
    no_after.

Definition make_SwapTypedOrder (chain_id : Z) (typed_data : dict) (submit_url : option string)
    : result exn SwapTypedOrder :=
  v_model "SwapTypedOrder"
    ((fun '(a, b, c) => {| so_chain_id := a; so_typed_data := b; so_submit_url := c |}) <$>
       (v_gt "chain_id" 0 chain_id ⊛ v_nonempty_dict "typed_data" typed_data
        ⊛ v_opt (v_min_length "submit_url" 1) submit_url))
    no_after.

Definition validate_execution_payload (e : SwapExecution) : result string unit :=
  if negb (bool_decide (se_provider e = qu_provider (se_quote e)))
  then Err "Execution provider must match quote provider."
  else match se_execution_type e with
       | EVM_TRANSACTION =>
           match se_transaction e with
           | None => Err "EVM swap execution requires a transaction."
           | Some t => if negb (sx_chain_id t =? sq_chain_id (qu_request (se_quote e)))
                       then Err "Swap transaction chain_id must match the quote chain." else Ok tt
           end
       | EIP712_ORDER =>
           match se_order e with
           | None => Err "Typed order swap execution requires an order payload."
           | Some o => if negb (so_chain_id o =? sq_chain_id (qu_request (se_quote e)))
                       then Err "Swap order chain_id must match the quote chain." else Ok tt
           end
       | UNSUPPORTED_EXECUTION =>
           match se_unsupported_reason e with
           | Some r => if str_empty r then Err "Unsupported swap execution requires a reason." else Ok tt
           | None => Err "Unsupported swap execution requires a reason."
           end
       end.

Definition make_SwapExecution (provider : SwapProviderName) (execution_type : SwapExecutionType)
    (quote : SwapQuote) (transaction : option SwapEVMTransaction) (order : option SwapTypedOrder)
    (unsupported_reason : option string) (raw_execution : dict) : result exn SwapExecution :=
  v_model "SwapExecution"
    ((fun '(a, b, c, d, e, f, g) =>
        {| se_provider := a; se_execution_type := b; se_quote := c; se_transaction := d; se_order := e;
           se_unsupported_reason := f; se_raw_execution := g |}) <$>
       (v_any provider ⊛ v_any execution_type ⊛ v_any quote ⊛ v_any transaction ⊛ v_any order
        ⊛ v_opt (v_min_length "unsupported_reason" 1) unsupported_reason ⊛ v_any raw_execution))
    validate_execution_payload.

(** What a validated quote guarantees, whatever the provider answered. *)
Lemma make_SwapQuote_ok p r ro ai eo mo sb ex ra rq q :
  make_SwapQuote p r ro ai eo mo sb ex ra rq = Ok q ->
  qu_request q = r /\ qu_route q = ro /\ qu_provider q = ro_provider ro /\
  qu_amount_in_raw q = sq_amount_in_raw r /\ 0 < qu_expected_amount_out_raw q /\
  ro_from_chain_id ro = sq_chain_id r /\
  ro_to_chain_id ro = default (sq_chain_id r) (sq_to_chain_id r) /\
  ro_from_token ro = sq_from_token r /\ ro_to_token ro = sq_to_token r /\
  qu_recipient_address q = effective_recipient r.
Proof.
  unfold make_SwapQuote. intros H. inv_valid. unfold v_any in *. simplify_eq.
  match goal with H : validate_quote_consistency _ = _ |- _ => rename H into Hq end.
  unfold validate_quote_consistency in Hq; simpl in Hq.
  repeat match type of Hq with
         | (if negb (bool_decide ?P) then _ else _) = _ =>
             destruct (bool_decide_reflect P); simpl in Hq; [|discriminate]
         | (if negb (?a =? ?b) then _ else _) = _ =>
             destruct (Z.eqb_spec a b); simpl in Hq; [|discriminate]
         end.
  apply result_bind_ok in Hq as (u & Hd & Hq).
  repeat match type of Hq with
         | (if negb (String.eqb ?a ?b) then _ else _) = _ =>
             destruct (String.eqb_spec a b); simpl in Hq; [|discriminate]
         end.
  simpl. split_and!; try done.
  match goal with |- _ = default _ ?o => destruct o end; simpl;
    match type of Hd with (if negb (?a =? ?b) then _ else _) = _ => destruct (Z.eqb_spec a b) end;
    done.
Qed.
End swap_models.
