(* ===== verification/Policy.v ===== *)
(** Transaction policy ([mercury/policy/rules.py], [swap_rules.py], [risk.py]): the rejection
    rules, the engine, and the declarative policy it implements. *)
From stdpp Require Import base tactics option list sets strings.
From Stdlib Require Import ZArith Lia Ascii String.
From S2P Require Import Prelude Python Values Exceptions Redaction Errors Addresses Chains Models SwapModels.

Local Open Scope string_scope.
Local Open Scope Z_scope.

Definition ERC20_TRANSFER_SELECTOR_PREFIX : string := "0xa9059cbb".
Definition ERC20_APPROVAL_SELECTOR_PREFIX : string := "0x095ea7b3".
Definition MIN_STANDARD_ERC20_CALLDATA_LENGTH : Z := 138.
Definition NATIVE_TRANSFER_ACTION : string := "native_transfer".

Inductive ERC20Action : Type := TRANSFER | APPROVAL.
Definition ERC20Action_value (a : ERC20Action) : string :=
  match a with TRANSFER => "erc20_transfer" | APPROVAL => "erc20_approval" end.

(** [try: r except ValueError: v] *)
Definition except_value_error {A} (r : result exn A) (v : A) : result exn A :=
  catch r (fun e => if is_value_error e then Ok v else Err e).

Record SwapPolicyConfig := {
  sp_allowed_providers : list SwapProviderName;
  sp_max_slippage_bps : Z;
  sp_allow_bridges : bool
}.

Definition default_swap_policy : SwapPolicyConfig :=
  {| sp_allowed_providers := [LIFI; COWSWAP; UNISWAP]; sp_max_slippage_bps := 100; sp_allow_bridges := true |}.

Record TransactionPolicyEngine := {
  pe_max_gas_limit : option Z;
  pe_reject_unlimited_erc20_approvals : bool;
  pe_reject_erc20_self_transfers : bool;
  pe_swap_policy_config : SwapPolicyConfig
}.

(** [TransactionPolicyEngine()] *)
Definition default_policy_engine : TransactionPolicyEngine :=
  {| pe_max_gas_limit := None; pe_reject_unlimited_erc20_approvals := true;
     pe_reject_erc20_self_transfers := true; pe_swap_policy_config := default_swap_policy |}.

Definition swap_execution_type_unsupported_reason (e : SwapExecution) : string :=
  match se_unsupported_reason e with
  | Some r => if str_empty r then "Swap execution is unsupported." else r
  | None => "Swap execution is unsupported."
  end.

Section policy.
Context `{W : Web3} (settings : MercurySettings).

(** * rules.py *)

Definition unsupported_chain_reason (t : ExecutableTransaction) : result exn (option string) :=
  match get_chain_by_name settings (et_chain t) with
  | Err e => if has_class UnsupportedChainErrorC e then Ok (Some (exn_text e)) else Err e
  | Ok chain =>
      Ok (if negb (cc_chain_id chain =? et_chain_id t)
          then Some "Prepared transaction chain_id does not match resolved chain." else None)
  end.

Definition invalid_transaction_reason (t : ExecutableTransaction) : result exn (option string) :=
  if str_empty (et_wallet_id t) then Ok (Some "Wallet ID is required.") else
  except_value_error
    (_ ← normalize_evm_address (et_to t);
     Ok (if et_is_value_moving t && str_empty (default "" (et_idempotency_key t))
         then Some "Idempotency key is required for value-moving transactions." else None))
    (Some "Recipient address is invalid.").

Definition simulation_failure_reason (simulation : option SimulationResult) : option string :=
  match simulation with
  | None => Some "Simulation result is required."
  | Some s =>
      if negb (passed s)
      then Some (match sr_reason s with
                 | Some r => if str_empty r then "Transaction simulation failed." else r
                 | None => "Transaction simulation failed."
                 end)
      else None
  end.

Definition excessive_gas_reason (t : ExecutableTransaction) (max_gas_limit : option Z) : option string :=
  match max_gas_limit with
  | Some m => if m <? gf_gas_limit (et_gas t) then Some "Estimated gas exceeds configured maximum." else None
  | None => None
  end.

Definition _metadata_address (t : ExecutableTransaction) (key : string) : result exn string :=
  match get (et_metadata t) key with
  | VStr s => normalize_evm_address s
  | _ => Err (ValueError ("Transaction metadata missing " ++ key ++ "."))
  end.

Definition standard_calldata (prefix data : string) : bool :=
  py_startswith (py_lower data) prefix && negb (str_len data <? MIN_STANDARD_ERC20_CALLDATA_LENGTH).

Definition erc20_transfer_reason (t : ExecutableTransaction) (reject_self_transfers : bool)
    : result exn (option string) :=
  match _metadata_address t "token_address" with
  | Err e => if is_value_error e then Ok (Some "ERC20 transfer metadata is missing token_address.") else Err e
  | Ok token =>
      to ← normalize_evm_address (et_to t);
      if negb (String.eqb to token)
      then Ok (Some "ERC20 transfer `to` must be the token contract address.") else
      if negb (et_value_wei t =? 0) then Ok (Some "ERC20 transfer must not send native token value.") else
      if negb (standard_calldata ERC20_TRANSFER_SELECTOR_PREFIX (et_data t))
      then Ok (Some "ERC20 transfer calldata must be a standard transfer(address,uint256) call.") else
      recipient ← _metadata_address t "recipient_address";
      zero ← normalize_evm_address ZERO_ADDRESS;
      if String.eqb recipient zero
      then Ok (Some "ERC20 transfer recipient must not be the zero address.") else
      match et_from_address t with
      | Some from =>
          if reject_self_transfers then
            owner ← normalize_evm_address from;
            Ok (if String.eqb recipient owner then Some "ERC20 self-transfer is not allowed." else None)
          else Ok None
      | None => Ok None
      end
  end.

Definition erc20_approval_rejection (t : ExecutableTransaction) (reject_unlimited_approvals : bool)
    : result exn (option string) :=
  match _metadata_address t "token_address" with
  | Err e => if is_value_error e then Ok (Some "ERC20 approval metadata is missing token_address.") else Err e
  | Ok token =>
      to ← normalize_evm_address (et_to t);
      if negb (String.eqb to token)
      then Ok (Some "ERC20 approval `to` must be the token contract address.") else
      if negb (et_value_wei t =? 0) then Ok (Some "ERC20 approval must not send native token value.") else
      if negb (standard_calldata ERC20_APPROVAL_SELECTOR_PREFIX (et_data t))
      then Ok (Some "ERC20 approval calldata must be a standard approve(address,uint256) call.") else
      spender ← _metadata_address t "spender_address";
      zero ← normalize_evm_address ZERO_ADDRESS;
      if String.eqb spender zero
      then Ok (Some "ERC20 approval spender must not be the zero address.") else
      let amount_raw := get (et_metadata t) "amount_raw" in
      let unlimited := is_true (get (et_metadata t) "unlimited_approval") || eq_int amount_raw MAX_UINT256 in
      Ok (if reject_unlimited_approvals && unlimited
          then Some "Unlimited ERC20 approvals are rejected by default." else None)
  end.

Definition erc20_policy_reason (t : ExecutableTransaction)
    (reject_unlimited_approvals reject_self_transfers : bool) : result exn (option string) :=
  let action := get (et_metadata t) "action" in
  if eq_str action (ERC20Action_value TRANSFER) then erc20_transfer_reason t reject_self_transfers
  else if eq_str action (ERC20Action_value APPROVAL) then erc20_approval_rejection t reject_unlimited_approvals
  else Ok None.

Definition native_transfer_policy_reason (t : ExecutableTransaction) : result exn (option string) :=
  if negb (eq_str (get (et_metadata t) "action") NATIVE_TRANSFER_ACTION) then Ok None else
  if et_value_wei t <=? 0 then Ok (Some "Native transfer amount must be greater than zero.") else
  if negb (String.eqb (et_data t) "0x")
  then Ok (Some "Native transfer must not include contract calldata.") else
  match _metadata_address t "recipient_address" with
  | Err e =>
      if is_value_error e then Ok (Some "Native transfer metadata is missing recipient_address.") else Err e
  | Ok recipient =>
      to ← normalize_evm_address (et_to t);
      if negb (String.eqb to recipient)
      then Ok (Some "Native transfer `to` must match the recipient address.") else
      zero ← normalize_evm_address ZERO_ADDRESS;
      if String.eqb recipient zero
      then Ok (Some "Native transfer recipient must not be the zero address.") else
      match et_from_address t with
      | Some from =>
          owner ← normalize_evm_address from;
          Ok (if String.eqb recipient owner then Some "Native self-transfer is not allowed." else None)
      | None => Ok None
      end
  end.

Definition erc20_approval_reason (t : ExecutableTransaction) : option string :=
  let action := get (et_metadata t) "action" in
  if eq_str action (ERC20Action_value TRANSFER)
  then Some "Human approval is required for ERC20 transfers."
  else if eq_str action (ERC20Action_value APPROVAL)
  then Some (if is_false (get (et_metadata t) "spender_known")
             then "Human approval is required for ERC20 approvals; spender is unknown."
             else "Human approval is required for ERC20 approvals.")
  else None.

Definition native_transfer_approval_reason (t : ExecutableTransaction) : option string :=
  if eq_str (get (et_metadata t) "action") NATIVE_TRANSFER_ACTION
  then Some "Human approval is required for native token transfers." else None.

(** * swap_rules.py *)

Definition swap_transaction_policy_reason (metadata : dict) (to : string) (policy : SwapPolicyConfig)
    : result exn (option string) :=
  if negb (eq_str (get metadata "action") "swap") then Ok None else
  match SwapProviderName_of (py_str (get metadata "provider")) with
  | None => Ok (Some "Swap transaction provider is not recognized.")
  | Some provider =>
      if negb (bool_decide (provider ∈ sp_allowed_providers policy))
      then Ok (Some "Swap provider is not in the allowlist.") else
      match get metadata "spender_address" with
      | VStr spender =>
          if str_empty (py_strip spender) then Ok (Some "Swap transaction spender is missing.") else
          except_value_error
            (_ ← normalize_evm_address spender;
             _ ← normalize_evm_address to;
             _ ← match get metadata "recipient_address" with
                 | VStr recipient => normalize_evm_address recipient
                 | _ => Ok ""
                 end;
             Ok match as_int (get metadata "slippage_bps") with
                | Some slippage => if sp_max_slippage_bps policy <? slippage
                                   then Some "Swap slippage exceeds configured maximum." else None
                | None => None
                end)
            (Some "Swap transaction contains an invalid address.")
      | _ => Ok (Some "Swap transaction spender is missing.")
      end
  end.

Definition swap_approval_reason (t : ExecutableTransaction) : option string :=
  if eq_str (get (et_metadata t) "action") "swap"
  then Some "Human approval is required for swap execution." else None.

(** [quote.expires_at <= now]: comparing a naive datetime with an aware one raises. *)
Definition expired (expires_at : option datetime) (now : Z) : result exn bool :=
  match expires_at with
  | None => Ok false
  | Some (Aware t) => Ok (t <=? now)
  | Some (Naive _) => Err (Exn ExceptionC "can't compare offset-naive and offset-aware datetimes")
  end.

(** The rejection message of an unsupported chain is the exception's. *)
Definition except_unsupported_chain (r : result exn (option string)) : result exn (option string) :=
  catch r (fun e => if has_class UnsupportedChainErrorC e then Ok (Some (exn_text e)) else Err e).

Definition swap_quote_rejection_reason (quote : SwapQuote) (policy : SwapPolicyConfig) (now : Z)
    : result exn (option string) :=
  let request := qu_request quote in
  let route := qu_route quote in
  if negb (bool_decide (qu_provider quote ∈ sp_allowed_providers policy))
  then Ok (Some "Swap provider is not in the allowlist.") else
  if match qu_slippage_bps quote with Some s => sp_max_slippage_bps policy <? s | None => false end
  then Ok (Some "Swap slippage exceeds configured maximum.") else
  exp ← expired (qu_expires_at quote) now;
  if (exp : bool) then Ok (Some "Swap quote is expired.") else
  except_unsupported_chain
    (chain ← get_chain_by_name settings (sq_chain request);
     if negb (cc_chain_id chain =? sq_chain_id request)
     then Ok (Some "Swap request chain_id does not match resolved chain.") else
     if negb (ro_from_chain_id route =? sq_chain_id request)
     then Ok (Some "Swap route source chain does not match requested chain.") else
     let bridge := bool_decide (ro_route_kind route = BRIDGE) in
     if negb (ro_to_chain_id route =? sq_chain_id request) && negb bridge
     then Ok (Some "Swap route destination chain mismatch is not marked as a bridge.") else
     b ← (if bridge then
            _ ← get_chain_by_id settings (ro_to_chain_id route);
            Ok (negb (sp_allow_bridges policy))
          else Ok false);
     if (b : bool)
     then Ok (Some "Bridge routes require explicit user approval and are disabled by default.") else
     if negb (isSome (ro_spender_address route)) then Ok (Some "Swap route spender is missing.") else
     if match qu_min_amount_out_raw quote with
        | Some m => qu_expected_amount_out_raw quote <? m | None => false end
     then Ok (Some "Swap quote expected output is below the minimum output.") else
     if isSome (sq_min_amount_out request) && negb (isSome (qu_min_amount_out_raw quote))
     then Ok (Some "Swap quote is missing minimum output protection.") else
     if negb (String.eqb (qu_recipient_address quote) (sq_wallet_address request))
     then except_value_error (_ ← normalize_evm_address (qu_recipient_address quote); Ok None)
                             (Some "Swap recipient address is invalid.")
     else Ok None).

Definition evaluate_swap_quote_policy (quote : SwapQuote) (policy : SwapPolicyConfig) (now : Z)
    : result exn PolicyDecision :=
  reason ← swap_quote_rejection_reason quote policy now;
  match reason with
  | Some r => make_PolicyDecision POLICY_REJECTED r
  | None => make_PolicyDecision ALLOWED "Swap quote passed policy checks."
  end.

Definition _swap_cow_typed_order_rejection_reason (execution : SwapExecution) : option string :=
  if negb (bool_decide (se_provider execution = COWSWAP))
  then Some "Swap typed order execution requires a dedicated signer approval path." else
  match se_order execution with
  | None => Some "CoW typed order execution is missing order metadata."
  | Some order =>
      if negb (so_chain_id order =? sq_chain_id (qu_request (se_quote execution)))
      then Some "CoW typed order chain_id does not match the quote request." else
      match so_typed_data order with
      | [] => Some "CoW typed order is missing signing payload (typed data)."
      | _ =>
          if str_empty (py_strip (default "" (so_submit_url order)))
          then Some "CoW typed order is missing a submission URL." else None
      end
  end.

Definition swap_execution_rejection_reason (execution : SwapExecution) : option string :=
  match se_execution_type execution with
  | UNSUPPORTED_EXECUTION => Some (swap_execution_type_unsupported_reason execution)
  | EIP712_ORDER => _swap_cow_typed_order_rejection_reason execution
  | EVM_TRANSACTION =>
      match se_transaction execution with
      | None => Some "Swap execution is missing an EVM transaction."
      | Some t => if negb (sx_chain_id t =? sq_chain_id (qu_request (se_quote execution)))
                  then Some "Swap execution chain_id does not match quote chain." else None
      end
  end.

Definition evaluate_swap_execution_policy (execution : SwapExecution) (policy : SwapPolicyConfig) (now : Z)
    : result exn PolicyDecision :=
  quote_reason ← swap_quote_rejection_reason (se_quote execution) policy now;
  match quote_reason with
  | Some r => make_PolicyDecision POLICY_REJECTED r
  | None =>
      match swap_execution_rejection_reason execution with
      | Some r => make_PolicyDecision POLICY_REJECTED r
      | None => make_PolicyDecision NEEDS_APPROVAL "Human approval is required for swap execution."
      end
  end.

(** * risk.py *)

Definition rejection_reasons (eng : TransactionPolicyEngine) (t : ExecutableTransaction)
    (simulation : option SimulationResult) : result exn (list (option string)) :=
  r1 ← unsupported_chain_reason t;
  r2 ← invalid_transaction_reason t;
  let r3 := simulation_failure_reason simulation in
  let r4 := excessive_gas_reason t (pe_max_gas_limit eng) in
  r5 ← erc20_policy_reason t (pe_reject_unlimited_erc20_approvals eng) (pe_reject_erc20_self_transfers eng);
  r6 ← native_transfer_policy_reason t;
  r7 ← swap_transaction_policy_reason (et_metadata t) (et_to t) (pe_swap_policy_config eng);
  Ok [r1; r2; r3; r4; r5; r6; r7].

Definition evaluate (eng : TransactionPolicyEngine) (t : ExecutableTransaction)
    (simulation : option SimulationResult) : result exn PolicyDecision :=
  reasons ← rejection_reasons eng t simulation;
  match first_some reasons with
  | Some reason => make_PolicyDecision POLICY_REJECTED reason
  | None =>
      match erc20_approval_reason t with
      | Some r => make_PolicyDecision NEEDS_APPROVAL r
      | None =>
          match native_transfer_approval_reason t with
          | Some r => make_PolicyDecision NEEDS_APPROVAL r
          | None =>
              match swap_approval_reason t with
              | Some r => make_PolicyDecision NEEDS_APPROVAL r
              | None =>
                  if et_is_value_moving t
                  then make_PolicyDecision NEEDS_APPROVAL
                         "Human approval is required for value-moving transactions."
                  else make_PolicyDecision ALLOWED "Transaction passed MVP policy checks."
              end
          end
      end
  end.
End policy.

(** * The policy these rules implement *)

Section policy_spec.
Context `{W : Web3} (settings : MercurySettings) (eng : TransactionPolicyEngine).
Implicit Types t : ExecutableTransaction.

Definition has_action (t : ExecutableTransaction) (a : string) : Prop :=
  get (et_metadata t) "action" = VStr a.

(** The metadata names the address [a] under [key]. *)
Definition metadata_names (t : ExecutableTransaction) (key a : string) : Prop :=
  exists s, get (et_metadata t) key = VStr s /\ normalize_evm_address s = Ok a.

Definition chain_allowed (t : ExecutableTransaction) : Prop :=
  exists c, get_chain_by_name settings (et_chain t) = Ok c /\ cc_chain_id c = et_chain_id t.

Definition key_present (t : ExecutableTransaction) : Prop :=
  et_is_value_moving t = true -> exists k, et_idempotency_key t = Some k /\ k <> "".

Definition gas_allowed (t : ExecutableTransaction) : Prop :=
  forall m, pe_max_gas_limit eng = Some m -> gf_gas_limit (et_gas t) <= m.

Definition erc20_transfer_allowed (t : ExecutableTransaction) : Prop :=
  metadata_names t "token_address" (et_to t) /\ et_value_wei t = 0 /\
  standard_calldata ERC20_TRANSFER_SELECTOR_PREFIX (et_data t) = true /\
  exists r, metadata_names t "recipient_address" r /\ r <> ZERO_ADDRESS /\
            (pe_reject_erc20_self_transfers eng = true -> et_from_address t <> Some r).

Definition erc20_approval_allowed (t : ExecutableTransaction) : Prop :=
  metadata_names t "token_address" (et_to t) /\ et_value_wei t = 0 /\
  standard_calldata ERC20_APPROVAL_SELECTOR_PREFIX (et_data t) = true /\
  (exists r, metadata_names t "spender_address" r /\ r <> ZERO_ADDRESS) /\
  (pe_reject_unlimited_erc20_approvals eng = true ->
   get (et_metadata t) "unlimited_approval" <> VBool true /\
   eq_int (get (et_metadata t) "amount_raw") MAX_UINT256 = false).

Definition native_transfer_allowed (t : ExecutableTransaction) : Prop :=
  0 < et_value_wei t /\ et_data t = "0x" /\ metadata_names t "recipient_address" (et_to t) /\
  et_to t <> ZERO_ADDRESS /\ et_from_address t <> Some (et_to t).

Definition swap_allowed (t : ExecutableTransaction) : Prop :=
  exists p spender,
    SwapProviderName_of (py_str (get (et_metadata t) "provider")) = Some p /\
    p ∈ sp_allowed_providers (pe_swap_policy_config eng) /\
    get (et_metadata t) "spender_address" = VStr spender /\
    is_ok (normalize_evm_address spender) = true /\
    (forall r, get (et_metadata t) "recipient_address" = VStr r -> is_ok (normalize_evm_address r) = true) /\
    (forall z, as_int (get (et_metadata t) "slippage_bps") = Some z ->
               z <= sp_max_slippage_bps (pe_swap_policy_config eng)).

(** A transaction that may proceed to approval and signing. *)
Definition policy_allows (t : ExecutableTransaction) (simulation : option SimulationResult) : Prop :=
  chain_allowed t /\ key_present t /\
  (exists s, simulation = Some s /\ sr_status s = SIM_PASSED) /\ gas_allowed t /\
  (has_action t "erc20_transfer" -> erc20_transfer_allowed t) /\
  (has_action t "erc20_approval" -> erc20_approval_allowed t) /\
  (has_action t "native_transfer" -> native_transfer_allowed t) /\
  (has_action t "swap" -> swap_allowed t).

Definition known_action (t : ExecutableTransaction) : bool :=
  let a := get (et_metadata t) "action" in
  eq_str a "erc20_transfer" || eq_str a "erc20_approval" || eq_str a "native_transfer" || eq_str a "swap".

(** A human has to approve it. *)
Definition needs_human (t : ExecutableTransaction) : bool := known_action t || et_is_value_moving t.

Lemma has_action_iff t a : eq_str (get (et_metadata t) "action") a = true <-> has_action t a.
Proof.
  unfold has_action, eq_str. destruct (get (et_metadata t) "action"); try (split; congruence).
  rewrite String.eqb_eq. split; congruence.
Qed.

Lemma metadata_address_ok t key a : _metadata_address t key = Ok a <-> metadata_names t key a.
Proof.
  unfold _metadata_address, metadata_names. destruct (get (et_metadata t) key); split;
    try discriminate; try (by intros (? & ? & ?)).
  - by exists s.
  - by intros (? & [= <-] & ?).
Qed.

Lemma metadata_address_err t key e : _metadata_address t key = Err e -> is_value_error e = true.
Proof.
  unfold _metadata_address. destruct (get (et_metadata t) key); try (by intros [= <-]).
  apply normalize_error.
Qed.

Lemma metadata_names_fun t key a b : metadata_names t key a -> metadata_names t key b -> a = b.
Proof. intros (s & H1 & H2) (s' & H3 & H4). congruence. Qed.

Lemma except_value_error_ok {A} (r : result exn A) v a :
  v <> a -> (except_value_error r v = Ok a <-> r = Ok a).
Proof.
  intros Hne. unfold except_value_error, catch. destruct r as [x|e]; [done|].
  destruct (is_value_error e); split; congruence.
Qed.

Lemma chain_rule t : unsupported_chain_reason settings t = Ok None <-> chain_allowed t.
Proof.
  unfold unsupported_chain_reason, chain_allowed.
  destruct (get_chain_by_name settings (et_chain t)) as [c|e].
  - destruct (Z.eqb_spec (cc_chain_id c) (et_chain_id t)); simpl; split; [eauto | done | done |].
    by intros (c' & [= <-] & ?).
  - destruct (has_class _ e); split; try discriminate; by intros (? & ? & ?).
Qed.

Lemma simulation_rule simulation :
  simulation_failure_reason simulation = None <-> exists s, simulation = Some s /\ sr_status s = SIM_PASSED.
Proof.
  unfold simulation_failure_reason, passed. destruct simulation as [s|].
  - destruct (bool_decide_reflect (sr_status s = SIM_PASSED)); simpl; split; eauto; [discriminate|].
    by intros (? & [= <-] & ?).
  - split; [discriminate | by intros (? & ? & ?)].
Qed.

Lemma gas_rule t : excessive_gas_reason t (pe_max_gas_limit eng) = None <-> gas_allowed t.
Proof.
  unfold excessive_gas_reason, gas_allowed. destruct (pe_max_gas_limit eng) as [m|]; [|by split].
  destruct (Z.ltb_spec m (gf_gas_limit (et_gas t))); split; try done.
  - intros H'. specialize (H' m eq_refl). lia.
  - by intros _ ? [= <-].
Qed.

Context {L : Web3Laws W}.
Context (t : ExecutableTransaction) (Hto : normalized (et_to t)) (Hfrom : wf_address_opt (et_from_address t)).

Lemma identity_rule :
  et_wallet_id t <> "" -> (invalid_transaction_reason t = Ok None <-> key_present t).
Proof.
  intros Hw. unfold invalid_transaction_reason, key_present.
  destruct (et_wallet_id t); [done|]. simpl.
  rewrite except_value_error_ok by done. rewrite normalize_idem by done. simpl.
  destruct (et_is_value_moving t); simpl; [|by split].
  destruct (et_idempotency_key t) as [k|]; simpl.
  - destruct k; simpl; split; try done; [by intros H; destruct (H eq_refl) as (? & [= <-] & ?) | eauto].
  - split; [done | by intros H; destruct (H eq_refl) as (? & ? & ?)].
Qed.

(** The common shape of the rules' checks. *)
Ltac rule_step :=
  match goal with
  | |- context [if negb (String.eqb ?a ?b) then _ else _] => destruct (String.eqb_spec a b); simpl
  | |- context [if negb (?a =? ?b) then _ else _] => destruct (Z.eqb_spec a b); simpl
  | |- context [if String.eqb ?a ?b then _ else _] => destruct (String.eqb_spec a b); simpl
  | |- context [if ?a <=? ?b then _ else _] => destruct (Z.leb_spec a b); simpl
  | |- context [if negb (standard_calldata ?p ?d) then _ else _] =>
      destruct (standard_calldata p d) eqn:?; simpl
  | |- context [_metadata_address ?x ?k] =>
      destruct (_metadata_address x k) eqn:?; simpl;
      [ match goal with H : _metadata_address _ _ = Ok _ |- _ => apply metadata_address_ok in H end
      | try match goal with H : _metadata_address _ _ = Err ?e |- _ =>
            pose proof (metadata_address_err _ _ _ H); simplify_eq end ]
  end.

Lemma erc20_transfer_rule :
  erc20_transfer_reason t (pe_reject_erc20_self_transfers eng) = Ok None <-> erc20_transfer_allowed t.
Proof.
  unfold erc20_transfer_reason, erc20_transfer_allowed. rewrite normalize_zero, (normalize_idem (et_to t)) by done.
  split.
  - repeat rule_step; try discriminate; subst;
      try (match goal with H : is_value_error _ = true |- _ => rewrite H end; discriminate).
    intros Hfin. split_and!; eauto. eexists; split_and!; [done | done |].
    intros Hs. rewrite Hs in Hfin. destruct (et_from_address t) as [from|] eqn:Ef; [|done].
    rewrite normalize_idem in Hfin by auto. simpl in Hfin. intros [= ->].
    by rewrite String.eqb_refl in Hfin.
  - intros (Htok & Hv & Hd & r & Hr & Hz & Hself).
    apply metadata_address_ok in Htok as ->. apply metadata_address_ok in Hr.
    simpl. rewrite String.eqb_refl, Hv, Hd, Hr. simpl.
    destruct (String.eqb_spec r ZERO_ADDRESS); [done|].
    destruct (et_from_address t) as [from|] eqn:Ef; [|done].
    destruct (pe_reject_erc20_self_transfers eng); [|done].
    rewrite normalize_idem by auto. simpl. destruct (String.eqb_spec r from) as [->|]; [|done].
    by destruct Hself.
Qed.
Lemma erc20_approval_rule :
  erc20_approval_rejection t (pe_reject_unlimited_erc20_approvals eng) = Ok None <-> erc20_approval_allowed t.
Proof.
  unfold erc20_approval_rejection, erc20_approval_allowed.
  rewrite normalize_zero, (normalize_idem (et_to t)) by done.
  split.
  - repeat rule_step; try discriminate; subst;
      try (match goal with H : is_value_error _ = true |- _ => rewrite H end; discriminate).
    intros Hfin. split_and!; eauto. intros Hr. rewrite Hr in Hfin. simpl in Hfin.
    destruct (eq_int _ _); [by rewrite orb_true_r in Hfin|]. split; [|done].
    intros E. by rewrite E in Hfin.
  - intros (Htok & Hv & Hd & (r & Hr & Hz) & Hun).
    apply metadata_address_ok in Htok as ->. apply metadata_address_ok in Hr.
    simpl. rewrite String.eqb_refl, Hv, Hd, Hr. simpl.
    destruct (String.eqb_spec r ZERO_ADDRESS); [done|].
    destruct (pe_reject_unlimited_erc20_approvals eng); [|done].
    destruct (Hun eq_refl) as [Hu ->]. rewrite orb_false_r.
    destruct (get (et_metadata t) "unlimited_approval") as [|[]| | | | |]; done.
Qed.

Lemma native_transfer_rule :
  native_transfer_policy_reason t = Ok None <->
  (has_action t "native_transfer" -> native_transfer_allowed t).
Proof.
  unfold native_transfer_policy_reason, native_transfer_allowed, NATIVE_TRANSFER_ACTION.
  pose proof (has_action_iff t "native_transfer") as Ha.
  destruct (eq_str (get (et_metadata t) "action") "native_transfer"); simpl; last first.
  { split; [|done]. intros _ H. by apply Ha in H. }
  assert (has_action t "native_transfer") as Hact by by apply Ha.
  rewrite normalize_zero, (normalize_idem (et_to t)) by done.
  split.
  - repeat rule_step; try discriminate; subst;
      try (match goal with H : is_value_error _ = true |- _ => rewrite H end; discriminate).
    intros Hfin _. split_and!; eauto; try congruence.
    intros Hf. rewrite Hf in Hfin. simpl in Hfin.
    rewrite (normalize_idem (et_to t)) in Hfin by done. simpl in Hfin. by rewrite String.eqb_refl in Hfin.
  - intros H. destruct (H Hact) as (Hv & Hd & Hr & Hz & Hs).
    apply metadata_address_ok in Hr. rewrite Hd, Hr. simpl. rewrite String.eqb_refl. simpl.
    destruct (Z.leb_spec (et_value_wei t) 0); [lia|].
    destruct (String.eqb_spec (et_to t) ZERO_ADDRESS); [done|].
    destruct (et_from_address t) as [from|] eqn:Ef; [|done].
    rewrite normalize_idem by auto. simpl.
    destruct (String.eqb_spec (et_to t) from) as [Heq|]; [destruct Hs; congruence | done].
Qed.

Lemma swap_rule :
  swap_transaction_policy_reason (et_metadata t) (et_to t) (pe_swap_policy_config eng) = Ok None <->
  (has_action t "swap" -> swap_allowed t).
Proof.
  unfold swap_transaction_policy_reason, swap_allowed.
  pose proof (has_action_iff t "swap") as Ha.
  destruct (eq_str (get (et_metadata t) "action") "swap"); simpl; last first.
  { split; [|done]. intros _ H. by apply Ha in H. }
  assert (has_action t "swap") as Hact by by apply Ha.
  split.
  - intros H _. destruct (SwapProviderName_of _) as [p|] eqn:Ep; [|discriminate].
    destruct (bool_decide_reflect (p ∈ sp_allowed_providers (pe_swap_policy_config eng))); [|discriminate].
    simpl in H. destruct (get (et_metadata t) "spender_address") as [| | | |spender| |] eqn:Es; try discriminate.
    destruct (str_empty (py_strip spender)); [discriminate|].
    apply except_value_error_ok in H; [|done]. inv_ok.
    exists p, spender. rewrite E. split_and!; try done.
    + intros r Hr. rewrite Hr in E1. by rewrite E1.
    + intros z Hz. rewrite Hz in H. destruct (Z.ltb_spec (sp_max_slippage_bps (pe_swap_policy_config eng)) z);
        [discriminate | lia].
  - intros H. destruct (H Hact) as (p & sp & -> & Hin & -> & Hsp & Hrec & Hsl).
    rewrite bool_decide_true by done. simpl.
    destruct (normalize_evm_address sp) as [a|] eqn:En; [|discriminate].
    destruct (str_empty (py_strip sp)) eqn:Ee;
      [unfold normalize_evm_address in En; by rewrite Ee in En|].
    apply except_value_error_ok; [done|]. rewrite normalize_idem by done. simpl.
    destruct (get (et_metadata t) "recipient_address") as [| | | |rec| |]; simpl;
      try (destruct (normalize_evm_address rec) eqn:Er;
           [|specialize (Hrec rec eq_refl); by rewrite Er in Hrec]); simpl;
      (destruct (as_int _) as [sl|]; [|done]); specialize (Hsl sl eq_refl);
      (destruct (Z.ltb_spec (sp_max_slippage_bps (pe_swap_policy_config eng)) sl); [lia | done]).
Qed.

Lemma erc20_rule :
  erc20_policy_reason t (pe_reject_unlimited_erc20_approvals eng) (pe_reject_erc20_self_transfers eng) = Ok None <->
  (has_action t "erc20_transfer" -> erc20_transfer_allowed t) /\
  (has_action t "erc20_approval" -> erc20_approval_allowed t).
Proof.
  unfold erc20_policy_reason, ERC20Action_value.
  pose proof (has_action_iff t "erc20_transfer") as H1. pose proof (has_action_iff t "erc20_approval") as H2.
  destruct (eq_str _ "erc20_transfer").
  - rewrite erc20_transfer_rule. assert (has_action t "erc20_transfer") by by apply H1.
    split; [|tauto]. intros Ha. split; [done|]. unfold has_action in *. congruence.
  - assert (~ has_action t "erc20_transfer") by (intros Hx; by apply H1 in Hx).
    destruct (eq_str _ "erc20_approval").
    + rewrite erc20_approval_rule. assert (has_action t "erc20_approval") by by apply H2. tauto.
    + assert (~ has_action t "erc20_approval") by (intros Hx; by apply H2 in Hx). tauto.
Qed.

Lemma rejection_reasons_none simulation :
  et_wallet_id t <> "" ->
  ((exists rs, rejection_reasons settings eng t simulation = Ok rs /\ first_some rs = None) <->
   policy_allows t simulation).
Proof.
  intros Hw. unfold policy_allows.
  rewrite <- chain_rule, <- identity_rule, <- simulation_rule, <- gas_rule, <- native_transfer_rule,
    <- swap_rule by done.
  rewrite (and_assoc (has_action t "erc20_transfer" -> _)), <- erc20_rule.
  unfold rejection_reasons. split.
  - intros (rs & H & Hn). inv_ok. subst rs. apply first_some_None in Hn.
    rewrite !Forall_cons in Hn. destruct Hn as (-> & -> & -> & -> & -> & -> & -> & _). done.
  - intros (-> & -> & -> & -> & -> & -> & ->). eexists; split; [reflexivity | done].
Qed.
Lemma make_PolicyDecision_ok st r d :
  make_PolicyDecision st r = Ok d -> pd_status d = st /\ pd_reason d = r /\ r <> "".
Proof. unfold make_PolicyDecision. intros H. inv_fields. done. Qed.

Lemma make_PolicyDecision_intro st r :
  r <> "" -> make_PolicyDecision st r = Ok {| pd_status := st; pd_reason := r |}.
Proof. intros. unfold make_PolicyDecision. intro_valid. Qed.

(** Past the rejections, the approval rules and the value test decide the status. *)
Lemma decision_status d rs simulation :
  rejection_reasons settings eng t simulation = Ok rs -> first_some rs = None ->
  evaluate settings eng t simulation = Ok d ->
  pd_status d = if needs_human t then NEEDS_APPROVAL else ALLOWED.
Proof.
  intros Hr Hn. unfold evaluate. rewrite Hr. simpl. rewrite Hn.
  unfold erc20_approval_reason, native_transfer_approval_reason, swap_approval_reason, needs_human,
    known_action, ERC20Action_value, NATIVE_TRANSFER_ACTION.
  destruct (eq_str _ "erc20_transfer"); [by intros [? _]%make_PolicyDecision_ok|].
  destruct (eq_str _ "erc20_approval"); [by intros [? _]%make_PolicyDecision_ok|].
  destruct (eq_str _ "native_transfer"); [by intros [? _]%make_PolicyDecision_ok|].
  destruct (eq_str _ "swap"); [by intros [? _]%make_PolicyDecision_ok|]. simpl.
  destruct (et_is_value_moving t); by intros [? _]%make_PolicyDecision_ok.
Qed.

Lemma evaluate_accepts rs simulation :
  rejection_reasons settings eng t simulation = Ok rs -> first_some rs = None ->
  exists d, evaluate settings eng t simulation = Ok d.
Proof.
  intros Hr Hn. unfold evaluate. rewrite Hr. simpl. rewrite Hn.
  unfold erc20_approval_reason, native_transfer_approval_reason, swap_approval_reason.
  repeat case_match; simplify_eq; eexists; by apply make_PolicyDecision_intro.
Qed.

Lemma evaluate_rejects rs r simulation :
  rejection_reasons settings eng t simulation = Ok rs -> first_some rs = Some r ->
  evaluate settings eng t simulation = make_PolicyDecision POLICY_REJECTED r.
Proof. intros Hr Hn. unfold evaluate. rewrite Hr. simpl. by rewrite Hn. Qed.

Lemma evaluate_not_rejected simulation d :
  evaluate settings eng t simulation = Ok d -> pd_status d <> POLICY_REJECTED ->
  exists rs, rejection_reasons settings eng t simulation = Ok rs /\ first_some rs = None.
Proof.
  intros He Hs. destruct (rejection_reasons settings eng t simulation) as [rs|e] eqn:Hr.
  - exists rs. split; [done|]. destruct (first_some rs) eqn:Hn; [|done].
    rewrite (evaluate_rejects _ _ _ Hr Hn) in He. by apply make_PolicyDecision_ok in He as [? _].
  - unfold evaluate in He. by rewrite Hr in He.
Qed.
End policy_spec.

(** The engine implements the policy: it lets a transaction through exactly when [policy_allows]
    it, and what it lets through needs a human unless it moves no value and has no known action. *)
Lemma evaluate_refines `{W : Web3} {L : Web3Laws W} (settings : MercurySettings) (eng : TransactionPolicyEngine)
    (t : ExecutableTransaction) (simulation : option SimulationResult) :
  wf_ExecutableTransaction t ->
  match evaluate settings eng t simulation with
  | Ok d =>
      (pd_status d <> POLICY_REJECTED <-> policy_allows settings eng t simulation) /\
      (pd_status d <> POLICY_REJECTED -> pd_status d = if needs_human t then NEEDS_APPROVAL else ALLOWED)
  | Err _ => ~ policy_allows settings eng t simulation
  end.
Proof.
  intros (Hw & _ & _ & Hfrom & Hto & _).
  pose proof (rejection_reasons_none settings eng t Hto Hfrom simulation Hw) as Hiff.
  destruct (evaluate settings eng t simulation) as [d|e] eqn:He.
  - split; [split|].
    + intros Hs. apply Hiff. by eapply evaluate_not_rejected.
    + intros (rs & Hr & Hn)%Hiff. erewrite decision_status by done. by destruct (needs_human t).
    + intros Hs. edestruct evaluate_not_rejected as (rs & Hr & Hn); [done..|]. by eapply decision_status.
  - intros (rs & Hr & Hn)%Hiff. edestruct evaluate_accepts as [d Hd]; [done..|]. congruence.
Qed.

(** What the swap rules require of a provider's quote. *)
Definition quote_allowed `{W : Web3} (settings : MercurySettings) (policy : SwapPolicyConfig) (now : Z)
    (q : SwapQuote) : Prop :=
  let r := qu_request q in
  let route := qu_route q in
  qu_provider q ∈ sp_allowed_providers policy /\
  (forall s, qu_slippage_bps q = Some s -> s <= sp_max_slippage_bps policy) /\
  (forall e, qu_expires_at q = Some e -> exists i, e = Aware i /\ now < i) /\
  (exists c, get_chain_by_name settings (sq_chain r) = Ok c /\ cc_chain_id c = sq_chain_id r) /\
  ro_from_chain_id route = sq_chain_id r /\
  (ro_route_kind route = SWAP -> ro_to_chain_id route = sq_chain_id r) /\
  (ro_route_kind route = BRIDGE ->
   sp_allow_bridges policy = true /\ exists c, get_chain_by_id settings (ro_to_chain_id route) = Ok c) /\
  ro_spender_address route <> None /\
  (forall m, qu_min_amount_out_raw q = Some m -> m <= qu_expected_amount_out_raw q) /\
  (sq_min_amount_out r <> None -> qu_min_amount_out_raw q <> None) /\
  (qu_recipient_address q <> sq_wallet_address r -> is_ok (normalize_evm_address (qu_recipient_address q)) = true).

Lemma except_unsupported_chain_ok r : except_unsupported_chain r = Ok None <-> r = Ok None.
Proof.
  unfold except_unsupported_chain, catch. destruct r as [o|e]; [done|].
  destruct (has_class _ e); split; discriminate.
Qed.

Lemma expired_false o now : expired o now = Ok false <-> forall e, o = Some e -> exists i, e = Aware i /\ now < i.
Proof.
  unfold expired. destruct o as [[i|i]|]; split; try done.
  - intros [= H%Z.leb_gt] ? [= <-]. eauto.
  - intros H. destruct (H _ eq_refl) as (j & [= <-] & Hj). f_equal. by apply Z.leb_gt.
  - intros H. by destruct (H _ eq_refl) as (j & ? & Hj).
Qed.

(** Walk down a chain of rejections that found no reason. *)
Ltac no_reason H :=
  repeat match type of H with
  | (if ?b then Ok (Some _) else _) = Ok None => destruct b eqn:?; [discriminate|]
  | _ ≫= _ = Ok None => let a := fresh "x" in let E := fresh "Hx" in
      apply result_bind_ok in H as (a & E & H)
  end.

Lemma swap_quote_reason_none `{W : Web3} settings quote policy now :
  swap_quote_rejection_reason settings quote policy now = Ok None -> quote_allowed settings policy now quote.
Proof.
  unfold swap_quote_rejection_reason, quote_allowed. intros H. no_reason H. subst.
  rewrite except_unsupported_chain_ok in H. no_reason H. subst.
  repeat match goal with
  | H : negb _ = false |- _ => apply negb_false_iff in H
  | H : negb _ && negb _ = false |- _ => rewrite <- negb_orb in H
  | H : bool_decide _ = true |- _ => apply bool_decide_eq_true in H
  | H : (_ =? _) = true |- _ => apply Z.eqb_eq in H
  | H : expired _ _ = Ok false |- _ => rewrite expired_false in H
  end.
  split_and!; try done; try congruence.
  - intros s Hs. rewrite Hs in *. by apply Z.ltb_ge.
  - eauto.
  - intros Hk. rewrite Hk in *. rewrite orb_false_r in *. by apply Z.eqb_eq.
  - intros Hk. rewrite Hk in *. rewrite bool_decide_true in * by done. inv_ok.
    match goal with H : negb _ = false |- _ => apply negb_false_iff in H end. eauto.
  - intros Hn. by rewrite Hn in *.
  - intros m Hm. rewrite Hm in *. by apply Z.ltb_ge.
  - intros Hm Hn. rewrite Hn in *. destruct (sq_min_amount_out (qu_request quote)); done.
  - intros Hr. destruct (String.eqb_spec (qu_recipient_address quote) (sq_wallet_address (qu_request quote)));
      [done|]. simpl in H. unfold except_value_error, catch in H.
    destruct (normalize_evm_address (qu_recipient_address quote)) as [|e] eqn:En; [done|]. simpl in H.
    by rewrite (normalize_error _ _ En) in H.
Qed.

(** A quote that is not rejected is allowed, an execution that is not rejected waits for a human. *)
Lemma swap_quote_decision `{W : Web3} settings q policy now d :
  evaluate_swap_quote_policy settings q policy now = Ok d -> pd_status d <> POLICY_REJECTED ->
  quote_allowed settings policy now q /\ pd_status d = ALLOWED.
Proof.
  unfold evaluate_swap_quote_policy. intros He Hn. apply result_bind_ok in He as ([r|] & Ho & He);
    apply make_PolicyDecision_ok in He as [Hs _]; [congruence|]. split; [by apply swap_quote_reason_none | done].
Qed.

Lemma swap_execution_decision `{W : Web3} settings e policy now d :
  evaluate_swap_execution_policy settings e policy now = Ok d -> pd_status d <> POLICY_REJECTED ->
  quote_allowed settings policy now (se_quote e) /\ swap_execution_rejection_reason e = None /\
  pd_status d = NEEDS_APPROVAL.
Proof.
  unfold evaluate_swap_execution_policy. intros He Hn. apply result_bind_ok in He as ([r|] & Ho & He).
  { apply make_PolicyDecision_ok in He as [Hs _]. congruence. }
  destruct (swap_execution_rejection_reason e) eqn:E; apply make_PolicyDecision_ok in He as [Hs _]; [congruence|].
  split_and!; [by apply swap_quote_reason_none | done | done].
Qed.

(** * Properties *)

(** C36. The policy engine implements the declarative policy: for a validated transaction it returns a
    decision other than "rejected" exactly when [policy_allows] holds (supported chain with the
    right id, idempotency key, passed simulation, gas cap, and the ERC-20, native and swap rules),
    and such a decision is "needs approval" unless the transaction moves no value and carries no
    known action; when a rule raises, the policy does not hold. *)
Theorem policy_engine_refines `{W : Web3} {L : Web3Laws W} (settings : MercurySettings)
    (eng : TransactionPolicyEngine) (t : ExecutableTransaction) (simulation : option SimulationResult)
    (Hwf : wf_ExecutableTransaction t) :
  match evaluate settings eng t simulation with
  | Ok d =>
      (pd_status d <> POLICY_REJECTED <-> policy_allows settings eng t simulation) /\
      (pd_status d <> POLICY_REJECTED -> pd_status d = if needs_human t then NEEDS_APPROVAL else ALLOWED)
  | Err _ => ~ policy_allows settings eng t simulation
  end.
Proof. by apply evaluate_refines. Qed.

(** No transaction that moves value or carries calldata is ever plainly allowed: whatever the engine's
    configuration, the simulation and the metadata, it is rejected or sent to a human. *)
Theorem value_moving_never_allowed `{W : Web3} (settings : MercurySettings)
    (eng : TransactionPolicyEngine) (t : ExecutableTransaction) (simulation : option SimulationResult)
    (d : PolicyDecision) (Hmv : et_is_value_moving t = true)
    (He : evaluate settings eng t simulation = Ok d) :
  pd_status d <> ALLOWED.
Proof.
  destruct (decide (pd_status d = POLICY_REJECTED)) as [->|Hne]; [done|].
  edestruct evaluate_not_rejected as (rs & Hr & Hn); [done..|].
  erewrite decision_status by done. unfold needs_human. by rewrite Hmv, orb_true_r.
Qed.

(** C37. A quote the swap policy allows satisfies every swap rule: allow-listed provider, capped slippage,
    not expired, source chain supported and equal on request and route, a bridge only when bridges
    are enabled and the destination is supported, a spender, an expected output no lower than the
    minimum, a minimum whenever the user asked for one, and a valid recipient. *)
Theorem swap_quote_policy_sound `{W : Web3} (settings : MercurySettings) (q : SwapQuote)
    (policy : SwapPolicyConfig) (now : Z) (d : PolicyDecision)
    (He : evaluate_swap_quote_policy settings q policy now = Ok d) (Ha : pd_status d = ALLOWED) :
  quote_allowed settings policy now q.
Proof.
  apply (swap_quote_decision settings q policy now d He). congruence.
Qed.

(** Concrete values for the witnesses. *)
Definition sample_wallet : string := "0x1111111111111111111111111111111111111111".
Definition sample_peer : string := "0x2222222222222222222222222222222222222222".
Definition sample_gas : GasFees :=
  {| gf_gas_limit := 21000; gf_max_fee_per_gas := Some 100; gf_max_priority_fee_per_gas := Some 2; gf_gas_price := None |}.
Definition sample_transfer : ExecutableTransaction :=
  {| et_wallet_id := "w1"; et_chain := "base"; et_chain_id := 8453; et_from_address := Some sample_wallet;
     et_to := sample_peer; et_value_wei := 7; et_data := "0x"; et_nonce := 0; et_gas := sample_gas;
     et_idempotency_key := Some "k1";
     et_metadata := [("action", VStr "native_transfer"); ("recipient_address", VStr sample_peer)] |}.
Definition sample_simulation : SimulationResult :=
  {| sr_status := SIM_PASSED; sr_gas_estimate := Some 21000; sr_reason := None |}.

Lemma sample_transfer_wf : wf_ExecutableTransaction sample_transfer.
Proof.
  unfold wf_ExecutableTransaction. simpl. split_and!; try done; try lia.
  - intros a [= <-]. exists sample_wallet. by vm_compute.
  - exists sample_peer. by vm_compute.
Qed.

Lemma policy_engine_refines_witness :
  wf_ExecutableTransaction sample_transfer /\
  match evaluate default_settings default_policy_engine sample_transfer (Some sample_simulation) with
  | Ok d =>
      (pd_status d <> POLICY_REJECTED <->
       policy_allows default_settings default_policy_engine sample_transfer (Some sample_simulation)) /\
      (pd_status d <> POLICY_REJECTED ->
       pd_status d = if needs_human sample_transfer then NEEDS_APPROVAL else ALLOWED)
  | Err _ => ~ policy_allows default_settings default_policy_engine sample_transfer (Some sample_simulation)
  end.
Proof.
  split; [exact sample_transfer_wf|].
  exact (policy_engine_refines default_settings default_policy_engine sample_transfer (Some sample_simulation)
           sample_transfer_wf).
Defined.

Lemma value_moving_never_allowed_witness :
  pd_status {| pd_status := NEEDS_APPROVAL; pd_reason := "Human approval is required for native token transfers." |}
    <> ALLOWED.
Proof.
  apply (value_moving_never_allowed default_settings default_policy_engine sample_transfer
           (Some sample_simulation)); vm_compute; reflexivity.
Defined.

Definition sample_request : SwapQuoteRequest :=
  {| sq_wallet_id := "w1"; sq_wallet_address := sample_wallet; sq_chain := "base"; sq_chain_id := 8453;
     sq_from_token := sample_peer; sq_to_token := sample_wallet; sq_amount_in := "1"; sq_amount_in_raw := 1000;
     sq_max_slippage_bps := Some 50; sq_min_amount_out := None; sq_recipient_address := None;
     sq_idempotency_key := "k1"; sq_to_chain := None; sq_to_chain_id := None; sq_from_token_is_native := false;
     sq_wrapped_from_token := None |}.
Definition sample_quote : SwapQuote :=
  {| qu_provider := LIFI; qu_request := sample_request;
     qu_route := {| ro_provider := LIFI; ro_route_id := "r"; ro_route_kind := SWAP; ro_from_chain_id := 8453;
                    ro_to_chain_id := 8453; ro_from_token := sample_peer; ro_to_token := sample_wallet;
                    ro_spender_address := Some sample_peer; ro_steps := [] |};
     qu_amount_in_raw := 1000; qu_expected_amount_out_raw := 990; qu_min_amount_out_raw := Some 980;
     qu_slippage_bps := Some 50; qu_expires_at := Some (Aware 100); qu_recipient_address := sample_wallet;
     qu_raw_quote := [] |}.

Lemma swap_quote_policy_sound_witness : quote_allowed default_settings default_swap_policy 99 sample_quote.
Proof.
  apply (swap_quote_policy_sound default_settings sample_quote default_swap_policy 99
           {| pd_status := ALLOWED; pd_reason := "Swap quote passed policy checks." |});
    vm_compute; reflexivity.
Defined.

Example sample_needs_approval :
  evaluate default_settings default_policy_engine sample_transfer (Some sample_simulation) =
  Ok {| pd_status := NEEDS_APPROVAL; pd_reason := "Human approval is required for native token transfers." |}.
Proof. vm_compute. reflexivity. Qed.
