(* ===== verification/Idempotency.v ===== *)
(** The idempotency store ([mercury/policy/idempotency.py]): the in-memory store over a finite map,
    the interface the execution graph uses, and the per-key life cycle both follow.

    Every method of [InMemoryIdempotencyStore] holds one lock from its first read to its last
    write, so a method is one atomic step: a function from the store to the store. *)
From stdpp Require Import base tactics option list strings gmap.
From Stdlib Require Import ZArith Lia Ascii String.
From S2P Require Import Prelude Python Values Exceptions Redaction Errors Addresses Models.

Local Open Scope string_scope.
Local Open Scope validation_scope.

Inductive IdempotencyStatus : Type := IN_FLIGHT | COMPLETED.
#[export] Instance IdempotencyStatus_eq_dec : EqDecision IdempotencyStatus.
Proof. solve_decision. Defined.

Definition IdempotencyStatus_value (s : IdempotencyStatus) : string :=
  match s with IN_FLIGHT => "in_flight" | COMPLETED => "completed" end.

Record IdempotencyRecord := {
  ir_key : string;
  ir_status : IdempotencyStatus;
  ir_result : option ExecutionResult
}.

Definition make_IdempotencyRecord (key : string) (status : IdempotencyStatus) (res : option ExecutionResult)
    : result exn IdempotencyRecord :=
  v_model "IdempotencyRecord"
    ((fun '(a, b, c) => {| ir_key := a; ir_status := b; ir_result := c |}) <$>
       (v_min_length "key" 1 key ⊛ v_any status ⊛ v_any res))
    no_after.

(** [reserve] raises [DuplicateTransactionError], which carries the record found, or another exception. *)
Inductive reserve_error : Type :=
| DuplicateTransactionError (record : IdempotencyRecord)
| OtherError (e : exn).

(** [str(DuplicateTransactionError(record))] *)
Definition duplicate_message (record : IdempotencyRecord) : string :=
  "Duplicate transaction idempotency key '" ++ ir_key record ++ "' is " ++
  IdempotencyStatus_value (ir_status record) ++ ".".

(** * The in-memory store *)

Abbreviation InMemoryIdempotencyStore := (gmap string IdempotencyRecord).

Module InMemory.
Definition get (key : string) (s : InMemoryIdempotencyStore) : option IdempotencyRecord := s !! key.

Definition reserve (key : string) (s : InMemoryIdempotencyStore)
    : InMemoryIdempotencyStore * result reserve_error IdempotencyRecord :=
  match s !! key with
  | Some existing => (s, Err (DuplicateTransactionError existing))
  | None =>
      match make_IdempotencyRecord key IN_FLIGHT None with
      | Ok record => (<[key := record]> s, Ok record)
      | Err e => (s, Err (OtherError e))
      end
  end.

Definition release (key : string) (s : InMemoryIdempotencyStore) : InMemoryIdempotencyStore :=
  match s !! key with
  | Some existing => if bool_decide (ir_status existing = IN_FLIGHT) then delete key s else s
  | None => s
  end.

Definition complete (key : string) (r : ExecutionResult) (s : InMemoryIdempotencyStore)
    : InMemoryIdempotencyStore * result exn IdempotencyRecord :=
  match make_IdempotencyRecord key COMPLETED (Some r) with
  | Ok record => (<[key := record]> s, Ok record)
  | Err e => (s, Err e)
  end.
End InMemory.

(** * The life cycle of a key *)

Inductive key_state : Type :=
| Free
| InFlight
| Completed (r : ExecutionResult).

(** What the graph needs from a store: its methods, and a reading [key_state_of] of every key under
    which they are the transitions [Free -> InFlight -> Completed] and [InFlight -> Free]. *)
Class IdempotencyStore (S : Type) := {
  store_reserve : string -> S -> S * result reserve_error IdempotencyRecord;
  store_release : string -> S -> S;
  store_complete : string -> ExecutionResult -> S -> S * result exn IdempotencyRecord;
  key_state_of : S -> string -> key_state;
  store_ok : S -> Prop
}.

(** Only [key] may have changed. *)
Definition only_key {St} `{IdempotencyStore St} (key : string) (s s' : St) : Prop :=
  forall k, k <> key -> key_state_of s' k = key_state_of s k.

Class IdempotencyStoreLaws (St : Type) `{IdempotencyStore St} := {
  reserve_free key s :
    store_ok s -> key <> "" -> key_state_of s key = Free ->
    exists s' r, store_reserve key s = (s', Ok r) /\ store_ok s' /\ key_state_of s' key = InFlight /\ only_key key s s';
  reserve_in_flight key s :
    store_ok s -> key_state_of s key = InFlight ->
    exists r, store_reserve key s = (s, Err (DuplicateTransactionError r)) /\ ir_result r = None;
  reserve_completed key s res :
    store_ok s -> key_state_of s key = Completed res ->
    exists r, store_reserve key s = (s, Err (DuplicateTransactionError r)) /\ ir_result r = Some res;
  release_spec key s :
    store_ok s ->
    store_ok (store_release key s) /\ only_key key s (store_release key s) /\
    key_state_of (store_release key s) key =
      match key_state_of s key with InFlight => Free | st => st end;
  complete_spec key res s :
    store_ok s -> key <> "" ->
    exists s' r, store_complete key res s = (s', Ok r) /\ store_ok s' /\
                 key_state_of s' key = Completed res /\ only_key key s s'
}.

(** * The in-memory store implements the life cycle *)

Definition in_memory_state (s : InMemoryIdempotencyStore) (key : string) : key_state :=
  match s !! key with
  | None => Free
  | Some r => match ir_result r with Some res => Completed res | None => InFlight end
  end.

(** Each record is under its own key, and is completed exactly when it has a result. *)
Definition in_memory_ok (s : InMemoryIdempotencyStore) : Prop :=
  map_Forall (fun key r => ir_key r = key /\ (ir_status r = COMPLETED <-> ir_result r <> None)) s.

#[export] Instance in_memory_store : IdempotencyStore InMemoryIdempotencyStore := {
  store_reserve := InMemory.reserve;
  store_release := InMemory.release;
  store_complete := InMemory.complete;
  key_state_of := in_memory_state;
  store_ok := in_memory_ok
}.

Lemma make_IdempotencyRecord_intro key st res :
  key <> "" -> make_IdempotencyRecord key st res = Ok {| ir_key := key; ir_status := st; ir_result := res |}.
Proof. intros. unfold make_IdempotencyRecord. intro_valid. Qed.

Lemma in_memory_ok_empty : in_memory_ok ∅.
Proof. apply map_Forall_empty. Qed.

Lemma in_memory_state_insert (s : InMemoryIdempotencyStore) key r k :
  in_memory_state (<[key := r]> s) k =
    if decide (k = key) then match ir_result r with Some res => Completed res | None => InFlight end
    else in_memory_state s k.
Proof.
  unfold in_memory_state. destruct (decide (k = key)) as [->|].
  - by rewrite lookup_insert_eq.
  - by rewrite lookup_insert_ne.
Qed.

Lemma in_memory_insert_ok (s : InMemoryIdempotencyStore) key r :
  in_memory_ok s -> ir_key r = key -> (ir_status r = COMPLETED <-> ir_result r <> None) ->
  in_memory_ok (<[key := r]> s).
Proof. intros. by apply map_Forall_insert_2. Qed.

Lemma in_memory_in_flight (s : InMemoryIdempotencyStore) key r :
  in_memory_ok s -> s !! key = Some r -> (ir_status r = IN_FLIGHT <-> ir_result r = None).
Proof.
  intros Hok Hr. destruct (Hok _ _ Hr) as [_ Hst].
  destruct (ir_status r), (ir_result r); naive_solver.
Qed.

#[export] Instance in_memory_store_laws : IdempotencyStoreLaws InMemoryIdempotencyStore.
Proof.
  split; simpl.
  - intros key s Hok Hne Hf. unfold in_memory_state in Hf. unfold InMemory.reserve.
    destruct (s !! key) as [r|] eqn:Hr; [by destruct (ir_result r)|].
    rewrite make_IdempotencyRecord_intro by done.
    eexists _, _; split_and!; [reflexivity | by apply in_memory_insert_ok | |].
    + rewrite in_memory_state_insert. by rewrite decide_True.
    + intros k Hk. simpl. rewrite in_memory_state_insert. by rewrite decide_False.
  - intros key s Hok Hf. unfold in_memory_state in Hf. unfold InMemory.reserve.
    destruct (s !! key) as [r|]; [|done]. exists r. by destruct (ir_result r).
  - intros key s res Hok Hf. unfold in_memory_state in Hf. unfold InMemory.reserve.
    destruct (s !! key) as [r|]; [|done]. exists r. split; [done|]. destruct (ir_result r); congruence.
  - intros key s Hok. unfold InMemory.release, only_key; simpl. unfold in_memory_state.
    destruct (s !! key) as [r|] eqn:Hr; [|by rewrite Hr].
    pose proof (in_memory_in_flight _ _ _ Hok Hr) as Hif.
    destruct (bool_decide_reflect (ir_status r = IN_FLIGHT)) as [Hs|Hs].
    + rewrite lookup_delete_eq. apply Hif in Hs as ->. split_and!; [|intros; by rewrite lookup_delete_ne | done].
      by apply map_Forall_delete.
    + rewrite Hr. split_and!; [done | done |]. destruct (ir_result r); [done|]. tauto.
  - intros key res s Hok Hne. unfold InMemory.complete. rewrite make_IdempotencyRecord_intro by done.
    eexists _, _; split_and!; [reflexivity | by apply in_memory_insert_ok | |].
    + rewrite in_memory_state_insert. by rewrite decide_True.
    + intros k Hk. simpl. rewrite in_memory_state_insert. by rewrite decide_False.
Qed.
