(* ===== verification/Prog.v ===== *)
(** Effectful programs: finite trees of calls to the outside.

    A handler of the source talks to RPC nodes, the signer, a human approver and a store shared by
    concurrent requests.  It is modelled as a tree whose nodes are calls and whose branches are the
    possible answers, so that a theorem about its traces holds for every behaviour of the outside
    and the same program can be run alone or interleaved with others. *)
From stdpp Require Import base tactics option list.
From S2P Require Import Prelude Python Exceptions.

(** The calls, and the type of the answer to each. *)
Class Effects (E : Type) := ans : E -> Type.

Section prog.
Context {E : Type} `{!Effects E}.

Inductive prog (A : Type) : Type :=
| Ret (a : A)
| Call (e : E) (k : ans e -> prog A).

(** A call together with the answer it got. *)
Record event := Ev { ev_call : E; ev_answer : ans ev_call }.
End prog.
Arguments prog E {_} A.
Arguments Ret {E _ A} a.
Arguments Call {E _ A} e k.
Arguments event E {_}.
Arguments Ev {E _} ev_call ev_answer.

Section monad.
Context {E : Type} `{!Effects E}.

Fixpoint prog_bind {A B} (p : prog E A) (f : A -> prog E B) : prog E B :=
  match p with
  | Ret a => f a
  | Call e k => Call e (fun b => prog_bind (k b) f)
  end.

(** Programs that may raise. *)
Definition bind_exn {A B} (p : prog E (result exn A)) (f : A -> prog E (result exn B)) : prog E (result exn B) :=
  prog_bind p (fun r => match r with Ok a => f a | Err e => Ret (Err e) end).

Definition ret_ok {A} (a : A) : prog E (result exn A) := Ret (Ok a).
Definition pure {A} (r : result exn A) : prog E (result exn A) := Ret r.

(** [try: p except Exception as e: h e] *)
Definition try_except {A} (p : prog E (result exn A)) (h : exn -> prog E (result exn A)) : prog E (result exn A) :=
  prog_bind p (fun r => match r with Ok a => Ret (Ok a) | Err e => h e end).

(** The complete traces of a program, and the value each ends with. *)
Fixpoint may {A} (p : prog E A) (tr : list (event E)) (a : A) : Prop :=
  match p with
  | Ret a' => tr = [] /\ a = a'
  | Call e k => exists b tr', tr = Ev e b :: tr' /\ may (k b) tr' a
  end.

(** Run a program against an outside that answers from a state. *)
Fixpoint run_prog {S A} (h : forall e : E, S -> S * ans e) (p : prog E A) (s : S) : S * A :=
  match p with
  | Ret a => (s, a)
  | Call e k => let '(s', b) := h e s in run_prog h (k b) s'
  end.

(** The trace that run leaves. *)
Fixpoint run_trace {S A} (h : forall e : E, S -> S * ans e) (p : prog E A) (s : S) : list (event E) :=
  match p with
  | Ret a => []
  | Call e k => let '(s', b) := h e s in Ev e b :: run_trace h (k b) s'
  end.

(** The same traces with the same values. *)
Definition prog_equiv {A} (p q : prog E A) : Prop := forall tr a, may p tr a <-> may q tr a.

#[global] Instance prog_equiv_equivalence A : Equivalence (@prog_equiv A).
Proof.
  split.
  - by intros p tr a.
  - intros p q H tr a. by rewrite (H tr a).
  - intros p q r H1 H2 tr a. by rewrite (H1 tr a).
Qed.

#[global] Instance may_proper A : Proper (prog_equiv ==> eq ==> eq ==> iff) (@may A).
Proof. intros p q H tr ? <- a ? <-. apply H. Qed.

Lemma may_bind {A B} (p : prog E A) (f : A -> prog E B) tr b :
  may (prog_bind p f) tr b <->
  exists tr1 tr2 a, tr = tr1 ++ tr2 /\ may p tr1 a /\ may (f a) tr2 b.
Proof.
  revert tr. induction p as [a|e k IH]; intros tr; simpl.
  - split.
    + intros H. by exists [], tr, a.
    + by intros (? & ? & ? & -> & [-> ->] & ?).
  - split.
    + intros (r & tr' & -> & H). apply IH in H as (tr1 & tr2 & a & -> & H1 & H2).
      exists (Ev e r :: tr1), tr2, a. split_and!; [done | by eauto | done].
    + intros (tr1 & tr2 & a & -> & (r & tr' & -> & H1) & H2). exists r, (tr' ++ tr2).
      split; [done|]. apply (IH r). by exists tr', tr2, a.
Qed.

Lemma may_bind_exn {A B} (p : prog E (result exn A)) (f : A -> prog E (result exn B)) tr r :
  may (bind_exn p f) tr r ->
  (exists e, may p tr (Err e) /\ r = Err e) \/
  (exists tr1 tr2 a, tr = tr1 ++ tr2 /\ may p tr1 (Ok a) /\ may (f a) tr2 r).
Proof.
  unfold bind_exn. rewrite may_bind.
  intros (tr1 & tr2 & [a|e] & -> & H1 & H2); [right; by exists tr1, tr2, a|].
  destruct H2 as [-> ->]. rewrite app_nil_r. left. by exists e.
Qed.

Lemma may_bind_ok {A B} (p : prog E (result exn A)) (f : A -> prog E (result exn B)) tr b :
  may (bind_exn p f) tr (Ok b) ->
  exists tr1 tr2 a, tr = tr1 ++ tr2 /\ may p tr1 (Ok a) /\ may (f a) tr2 (Ok b).
Proof. intros [(e & _ & [=])|H]%may_bind_exn. exact H. Qed.

Lemma may_pure_ok {A} (r : result exn A) tr a : may (pure r) tr (Ok a) -> tr = [] /\ r = Ok a.
Proof. by intros [-> <-]. Qed.

Lemma may_guard_ok {A} (b : bool) e (p : prog E (result exn A)) tr a :
  may (if b then Ret (Err e) else p) tr (Ok a) -> b = false /\ may p tr (Ok a).
Proof. destruct b; [by intros [_ [=]] | done]. Qed.

Lemma may_try_except {A} (p : prog E (result exn A)) (h : exn -> prog E (result exn A)) tr r :
  may (try_except p h) tr r ->
  (exists a, may p tr (Ok a) /\ r = Ok a) \/
  (exists tr1 tr2 e, tr = tr1 ++ tr2 /\ may p tr1 (Err e) /\ may (h e) tr2 r).
Proof.
  unfold try_except. rewrite may_bind.
  intros (tr1 & tr2 & [a|e] & -> & H1 & H2); [|right; by exists tr1, tr2, e].
  destruct H2 as [-> ->]. rewrite app_nil_r. left. by exists a.
Qed.

(** Every call of a program satisfies [P]. *)
Definition calls (P : E -> Prop) {A} (p : prog E A) : Prop :=
  forall tr a, may p tr a -> Forall (fun ev => P (ev_call ev)) tr.

Lemma calls_ret P {A} (a : A) : calls P (Ret a).
Proof. intros tr b [-> _]. constructor. Qed.
Lemma calls_ret_ok P {A} (a : A) : calls P (ret_ok a).
Proof. apply calls_ret. Qed.
Lemma calls_pure P {A} (r : result exn A) : calls P (pure r).
Proof. apply calls_ret. Qed.
Lemma calls_call (P : E -> Prop) {A} e (k : ans e -> prog E A) : P e -> (forall b, calls P (k b)) -> calls P (Call e k).
Proof. intros He Hk tr a (b & tr' & -> & H). constructor; [done | by eapply Hk]. Qed.
Lemma calls_bind P {A B} (p : prog E A) (f : A -> prog E B) :
  calls P p -> (forall a, calls P (f a)) -> calls P (prog_bind p f).
Proof.
  intros Hp Hf tr b (tr1 & tr2 & a & -> & H1 & H2)%may_bind. apply Forall_app.
  split; [by eapply Hp | by eapply Hf].
Qed.
Lemma calls_bind_exn P {A B} (p : prog E (result exn A)) (f : A -> prog E (result exn B)) :
  calls P p -> (forall a, calls P (f a)) -> calls P (bind_exn p f).
Proof. intros Hp Hf. apply calls_bind; [done|]. intros [a|e]; [done | apply calls_ret]. Qed.
Lemma calls_try P {A} (p : prog E (result exn A)) h :
  calls P p -> (forall e, calls P (h e)) -> calls P (try_except p h).
Proof. intros Hp Hh. apply calls_bind; [done|]. intros [a|e]; [apply calls_ret | done]. Qed.

#[global] Instance prog_bind_proper A B :
  Proper (prog_equiv ==> pointwise_relation A prog_equiv ==> prog_equiv) (@prog_bind A B).
Proof.
  intros p q Hp f g Hf tr b. rewrite !may_bind.
  split; intros (tr1 & tr2 & a & -> & H1 & H2); exists tr1, tr2, a; (split_and!; [done | by apply Hp | by apply Hf]).
Qed.

(** Every outside leads a program to its end: the run is one of the traces. *)
Lemma run_may {S A} (h : forall e : E, S -> S * ans e) (p : prog E A) (s : S) :
  may p (run_trace h p s) (run_prog h p s).2.
Proof.
  revert s. induction p as [a|e k IH]; intros s; simpl; [done|].
  destruct (h e s) as [s' b]. eauto.
Qed.
End monad.

Declare Scope prog_scope.
Delimit Scope prog_scope with prog.
Notation "x <- p ;; q" := (bind_exn p (fun x => q))
  (at level 100, p at next level, q at level 200, right associativity) : prog_scope.
#[export] Hint Resolve calls_ret calls_ret_ok calls_pure calls_call calls_bind calls_bind_exn calls_try : mercury.

(** Prove [calls P p] by following [p]; [known] proves the parts that have a lemma. *)
Ltac follow_calls known :=
  repeat (intros; first
    [ solve [known]
    | apply calls_ret | apply calls_ret_ok | apply calls_pure
    | apply calls_bind_exn | apply calls_try | apply calls_bind
    | apply calls_call; [first [reflexivity | exact I]|]
    | case_match ]).
Ltac solve_calls := follow_calls fail.

(** Decompose a trace of a program into the traces of its parts: the statements of a [try] body or
    of a handler that returned or raised. *)
Ltac inv_may :=
  repeat match goal with
  | H : may (Ret _) _ _ |- _ => let E := fresh "Er" in destruct H as [-> E]
  | H : may (ret_ok _) _ _ |- _ => let E := fresh "Er" in destruct H as [-> E]
  | H : may (pure _) _ _ |- _ => let E := fresh "Er" in destruct H as [-> E]
  | H : may (Call _ _) _ _ |- _ =>
      let b := fresh "b" in let tr := fresh "tr" in destruct H as (b & tr & -> & H); cbn beta in H
  | H : may (bind_exn _ _) _ _ |- _ =>
      let tr1 := fresh "tr" in let tr2 := fresh "tr" in let a := fresh "a" in let e := fresh "e" in
      let H1 := fresh "Hm" in let E := fresh "Er" in
      apply may_bind_exn in H; destruct H as [(e & H & E) | (tr1 & tr2 & a & -> & H1 & H)]
  | H : may (try_except _ _) _ _ |- _ =>
      let tr1 := fresh "tr" in let tr2 := fresh "tr" in let a := fresh "a" in let e := fresh "e" in
      let H1 := fresh "Hm" in let E := fresh "Er" in
      apply may_try_except in H; destruct H as [(a & H & E) | (tr1 & tr2 & e & -> & H1 & H)]
  end.

(** The same for a trace that returned: only the path without exceptions is left. *)
Ltac inv_run :=
  repeat match goal with
  | H : may (bind_exn _ _) _ (Ok _) |- _ =>
      let tr1 := fresh "tr" in let tr2 := fresh "tr" in let a := fresh "a" in let H1 := fresh "Hr" in
      apply may_bind_ok in H; destruct H as (tr1 & tr2 & a & -> & H1 & H)
  | H : may (pure _) _ (Ok _) |- _ => let E := fresh "Er" in apply may_pure_ok in H; destruct H as [-> E]
  | H : may (ret_ok _) _ (Ok _) |- _ => let E := fresh "Er" in destruct H as [-> E]
  | H : may (if _ then Ret (Err _) else _) _ (Ok _) |- _ =>
      let E := fresh "Eg" in apply may_guard_ok in H; destruct H as [E H]
  end.

(** * Programs over an implementation *)

Section interpretation.
Context {E F : Type} `{!Effects E, !Effects F} (h : forall e : E, prog F (ans e)).

Fixpoint interp {A} (p : prog E A) : prog F A :=
  match p with
  | Ret a => Ret a
  | Call e k => prog_bind (h e) (fun b => interp (k b))
  end.

(** The calls below are the ones made to answer the calls above. *)
Inductive realises : list (event E) -> list (event F) -> Prop :=
| realises_nil : realises [] []
| realises_cons e a tr above below : may (h e) tr a -> realises above below -> realises (Ev e a :: above) (tr ++ below).

Lemma may_interp {A} (p : prog E A) below r :
  may (interp p) below r -> exists above, may p above r /\ realises above below.
Proof.
  revert below. induction p as [a|e k IH]; intros below; simpl.
  - intros [-> ->]. exists []. by split; [|constructor].
  - intros (tr1 & tr2 & a & -> & H1 & (above & Ha & Hr)%IH)%may_bind.
    exists (Ev e a :: above). split; [by eauto | by constructor].
Qed.

(** A call below belongs to one call above. *)
Lemma realises_in above below ev : realises above below -> ev ∈ below ->
  exists e a tr, Ev e a ∈ above /\ may (h e) tr a /\ ev ∈ tr.
Proof.
  induction 1 as [|e a tr above below Hm _ IH]; [by intros ?%elem_of_nil|].
  intros [Hin|Hin]%elem_of_app.
  - exists e, a, tr. split; [apply elem_of_cons; by left | done].
  - destruct (IH Hin) as (e' & a' & tr' & ? & ? & ?). exists e', a', tr'. split; [apply elem_of_cons; by right | done].
Qed.

(** ... and the calls around it to the calls around that one. *)
Lemma realises_split above below ev l1 l2 : realises above below -> below = (l1 ++ ev :: l2)%list ->
  exists a1 e a tr1 tr2 a2 b1 b2, above = (a1 ++ Ev e a :: a2)%list /\ may (h e) (tr1 ++ ev :: tr2) a /\
    realises a1 b1 /\ realises a2 b2 /\ l1 = (b1 ++ tr1)%list /\ l2 = (tr2 ++ b2)%list.
Proof.
  intros H. revert l1. induction H as [|e a tr above below Hm Hr IH]; intros l1 Eq; [by destruct l1|].
  apply app_eq_inv in Eq as [(k & E1 & E2)|(k & E1 & E2)].
  - destruct k as [|ev' k]; simpl in *.
    + rewrite app_nil_r in E1. subst. destruct (IH [] eq_refl) as (a1 & e' & a' & tr1 & tr2 & a2 & b1 & b2 & -> & ? & ? & ? & E0 & ->).
      symmetry in E0. apply app_eq_nil in E0 as [-> ->].
      exists (Ev e a :: a1), e', a', [], tr2, a2, l1, b2. split_and!; try done.
      * rewrite <- (app_nil_r l1). by constructor.
      * by rewrite app_nil_r.
    + injection E2 as <- E2. subst. exists [], e, a, l1, k, above, [], below. split_and!; try done. constructor.
  - subst l1. destruct (IH _ E2) as (a1 & e' & a' & tr1 & tr2 & a2 & b1 & b2 & -> & ? & ? & ? & -> & ->).
    exists (Ev e a :: a1), e', a', tr1, tr2, a2, (tr ++ b1)%list, b2. split_and!; try done.
    + by constructor.
    + by rewrite (assoc_L (++)).
Qed.
End interpretation.
