(* ===== verification/Effects.v ===== *)
(** The outside of the wallet: the protocols the source declares ([TransactionBackend],
    [TransactionSigner] and [PublicAddressResolver], [TransactionApprover], [ProviderFactoryLike],
    [SwapProvider]) and the shared idempotency store, as calls with typed answers. *)
From stdpp Require Import base tactics option list sets strings.
From Stdlib Require Import ZArith Lia Ascii String.
From S2P Require Import Prelude Python Values Exceptions Redaction Errors Addresses Chains Models SwapModels.
From S2P Require Import Idempotency Prog.

(** What a contract call decodes to, as far as the source inspects it. *)
Inductive abi_value : Type :=
| AInt (z : Z)
| AStr (s : string)
| ABytes (b : string)
| AOther (text : string)     (** any other object, with its [str] *).

Inductive effect : Type :=
(* TransactionBackend *)
| ResolveChainId (t : PreparedTransaction)
| LookupNonce (t : PreparedTransaction) (wallet_address : string)
| PopulateGas (t : PreparedTransaction)
| Simulate (t : ExecutableTransaction)
| Broadcast (s : SignedTransactionResult)
| WaitForReceipt (chain tx_hash : string) (timeout_seconds confirmations : Z)
(* TransactionSigner, PublicAddressResolver *)
| GetWalletAddress (wallet_id : string)
| SignTransaction (r : SignTransactionRequest)
(* TransactionApprover *)
| RequestApproval (r : ApprovalRequest)
(* InMemoryIdempotencyStore *)
| Reserve (key : string)
| Release (key : string)
| Complete (key : string) (r : ExecutionResult)
(* ProviderFactoryLike.create, contract.functions.<f>(args).call() *)
| CreateProvider (chain_name : string)
| ContractCall (chain : ChainConfig) (address function_name : string) (args : list string)
(* SwapProvider *)
| GetQuote (provider : SwapProviderName) (r : SwapQuoteRequest)
| BuildExecution (provider : SwapProviderName) (q : SwapQuote)
(* datetime.now(tz=UTC) *)
| Now.

#[export] Instance wallet_effects : Effects effect := fun e =>
  match e with
  | ResolveChainId _ => result exn Z
  | LookupNonce _ _ => result exn Z
  | PopulateGas _ => result exn GasFees
  | Simulate _ => result exn SimulationResult
  | Broadcast _ => result exn string
  | WaitForReceipt _ _ _ _ => result exn TransactionReceipt
  | GetWalletAddress _ => result exn WalletAddressResult
  | SignTransaction _ => result exn SignedTransactionResult
  | RequestApproval _ => result exn ApprovalResult
  | Reserve _ => result reserve_error IdempotencyRecord
  | Release _ => unit
  | Complete _ _ => result exn IdempotencyRecord
  | CreateProvider _ => result exn ChainConfig
  | ContractCall _ _ _ _ => result exn abi_value
  | GetQuote _ _ => result exn SwapQuote
  | BuildExecution _ _ => result exn SwapExecution
  | Now => Z
  end.

Abbreviation wallet := (prog effect).
Abbreviation wevent := (event effect).

(** A call whose answer may be an exception. *)
Definition resolve_chain_id (t : PreparedTransaction) : wallet (result exn Z) := Call (ResolveChainId t) Ret.
Definition lookup_nonce (t : PreparedTransaction) (a : string) : wallet (result exn Z) := Call (LookupNonce t a) Ret.
Definition populate_gas (t : PreparedTransaction) : wallet (result exn GasFees) := Call (PopulateGas t) Ret.
Definition simulate (t : ExecutableTransaction) : wallet (result exn SimulationResult) := Call (Simulate t) Ret.
Definition broadcast (s : SignedTransactionResult) : wallet (result exn string) := Call (Broadcast s) Ret.
Definition wait_for_receipt (chain tx_hash : string) (timeout_seconds confirmations : Z)
    : wallet (result exn TransactionReceipt) :=
  Call (WaitForReceipt chain tx_hash timeout_seconds confirmations) Ret.
Definition get_wallet_address (wallet_id : string) : wallet (result exn WalletAddressResult) :=
  Call (GetWalletAddress wallet_id) Ret.
Definition sign_transaction (r : SignTransactionRequest) : wallet (result exn SignedTransactionResult) :=
  Call (SignTransaction r) Ret.
Definition request_approval (r : ApprovalRequest) : wallet (result exn ApprovalResult) :=
  Call (RequestApproval r) Ret.
Definition release (key : string) : wallet (result exn unit) := Call (Release key) (fun _ => Ret (Ok tt)).
Definition complete (key : string) (r : ExecutionResult) : wallet (result exn IdempotencyRecord) :=
  Call (Complete key r) Ret.
Definition create_provider (chain_name : string) : wallet (result exn ChainConfig) := Call (CreateProvider chain_name) Ret.
Definition contract_call (chain : ChainConfig) (address function_name : string) (args : list string)
    : wallet (result exn abi_value) := Call (ContractCall chain address function_name args) Ret.
Definition provider_get_quote (p : SwapProviderName) (r : SwapQuoteRequest) : wallet (result exn SwapQuote) :=
  Call (GetQuote p r) Ret.
Definition provider_build_execution (p : SwapProviderName) (q : SwapQuote) : wallet (result exn SwapExecution) :=
  Call (BuildExecution p q) Ret.
Definition utc_now : wallet (result exn Z) := Call Now (fun t => Ret (Ok t)).
