(* ===== verification/Erc20.v ===== *)
(** The ERC-20 read tools ([mercury/tools/erc20.py]) with their outputs ([mercury/tools/schemas.py]) and the
    native balance ([mercury/tools/evm.py]): checked addresses, one provider, and view calls. *)
From stdpp Require Import base tactics option list sets strings.
From Stdlib Require Import ZArith Lia Ascii String.
From S2P Require Import Prelude Python Values Exceptions Amounts Redaction Errors Addresses Chains Models SwapModels.
From S2P Require Import Idempotency Prog Effects.

Local Open Scope string_scope.
Local Open Scope Z_scope.
Local Open Scope prog_scope.

(** * What a view call returned *)

(** [int(v)] of a decoded value. *)
Definition int_of_abi (v : abi_value) : result exn Z :=
  match v with
  | AInt z => Ok z
  | AStr s => py_int (VStr s)
  | ABytes b => match py_int_str b with
                | Some z => Ok z
                | None => Err (ValueError "invalid literal for int() with base 10")
                end
  | AOther _ => Err (Exn ExceptionC "int() argument must be a string, a bytes-like object or a real number")
  end.

(** [bytes.decode("utf-8")]; a code point above 255 has no text in the model and counts as an error. *)
Fixpoint utf8_decode (b : string) : option string :=
  match b with
  | EmptyString => Some EmptyString
  | String c r =>
      if code c <? 128 then String c <$> utf8_decode r
      else if (194 <=? code c) && (code c <=? 195) then
        match r with
        | String d r' =>
            if (128 <=? code d) && (code d <=? 191)
            then String (chr ((code c - 192) * 64 + (code d - 128))) <$> utf8_decode r'
            else None
        | EmptyString => None
        end
      else None
  end.

Definition is_nul (c : ascii) : bool := code c =? 0.

Definition text_of_abi (v : abi_value) : result exn string :=
  match v with
  | ABytes b => match utf8_decode (rstrip_if is_nul b) with
                | Some s => Ok s
                | None => Err (ValueError "'utf-8' codec can't decode byte")
                end
  | AStr s => Ok s
  | AInt z => Ok (py_str_int z)
  | AOther text => Ok text
  end.

(** A failed call is [None]; only the decoding can still raise. *)
Definition _optional_text_call (chain : ChainConfig) (address function_name : string)
    : wallet (result exn (option string)) :=
  Call (ContractCall chain address function_name []) (fun r =>
    match r with
    | Err _ => ret_ok None
    | Ok value => pure (Some <$> text_of_abi value)
    end).

(** * Outputs *)

Record ERC20MetadataOutput := {
  em_chain : string; em_chain_id : Z; em_token_address : string; em_decimals : Z;
  em_symbol : option string; em_name : option string
}.

Record ERC20BalanceOutput := {
  eb_chain : string; eb_chain_id : Z; eb_token_address : string; eb_wallet_address : string;
  eb_raw_amount : Z; eb_formatted : string; eb_decimals : Z; eb_symbol : option string; eb_name : option string
}.

Record ERC20AllowanceOutput := {
  el_chain : string; el_chain_id : Z; el_token_address : string; el_owner_address : string;
  el_spender_address : string; el_raw_amount : Z; el_formatted : string; el_decimals : Z;
  el_symbol : option string; el_name : option string
}.

(** * The reads *)

Section reads.
Context {W : Web3}.

Definition read_decimals (chain : ChainConfig) (token : string) : wallet (result exn Z) :=
  v <- contract_call chain token "decimals" [];;
  z <- pure (int_of_abi v);;
  pure (validate_token_decimals z).

Definition get_erc20_metadata (chain token_address : string) : wallet (result exn ERC20MetadataOutput) :=
  normalized_token <- pure (normalize_evm_address token_address);;
  provider <- create_provider chain;;
  decimals <- read_decimals provider normalized_token;;
  symbol <- _optional_text_call provider normalized_token "symbol";;
  name <- _optional_text_call provider normalized_token "name";;
  ret_ok {| em_chain := cc_name provider; em_chain_id := cc_chain_id provider;
            em_token_address := normalized_token; em_decimals := decimals; em_symbol := symbol; em_name := name |}.

Definition get_erc20_balance (chain token_address wallet_address : string) : wallet (result exn ERC20BalanceOutput) :=
  normalized_token <- pure (normalize_evm_address token_address);;
  normalized_wallet <- pure (normalize_evm_address wallet_address);;
  provider <- create_provider chain;;
  decimals <- read_decimals provider normalized_token;;
  v <- contract_call provider normalized_token "balanceOf" [normalized_wallet];;
  raw_amount <- pure (int_of_abi v);;
  formatted <- pure (format_units raw_amount decimals);;
  symbol <- _optional_text_call provider normalized_token "symbol";;
  name <- _optional_text_call provider normalized_token "name";;
  ret_ok {| eb_chain := cc_name provider; eb_chain_id := cc_chain_id provider;
            eb_token_address := normalized_token; eb_wallet_address := normalized_wallet;
            eb_raw_amount := raw_amount; eb_formatted := formatted; eb_decimals := decimals;
            eb_symbol := symbol; eb_name := name |}.

Definition get_erc20_allowance (chain token_address owner_address spender_address : string)
    : wallet (result exn ERC20AllowanceOutput) :=
  normalized_token <- pure (normalize_evm_address token_address);;
  normalized_owner <- pure (normalize_evm_address owner_address);;
  normalized_spender <- pure (normalize_evm_address spender_address);;
  provider <- create_provider chain;;
  decimals <- read_decimals provider normalized_token;;
  v <- contract_call provider normalized_token "allowance" [normalized_owner; normalized_spender];;
  raw_amount <- pure (int_of_abi v);;
  formatted <- pure (format_units raw_amount decimals);;
  symbol <- _optional_text_call provider normalized_token "symbol";;
  name <- _optional_text_call provider normalized_token "name";;
  ret_ok {| el_chain := cc_name provider; el_chain_id := cc_chain_id provider;
            el_token_address := normalized_token; el_owner_address := normalized_owner;
            el_spender_address := normalized_spender; el_raw_amount := raw_amount; el_formatted := formatted;
            el_decimals := decimals; el_symbol := symbol; el_name := name |}.
End reads.

Example utf8_bytes32 : text_of_abi (ABytes ("MKR" ++ String (chr 0) (String (chr 0) ""))) = Ok "MKR".
Proof. reflexivity. Qed.
