(* ===== verification/Graph.v ===== *)
(** State graphs ([langgraph.graph.StateGraph], as the source builds them).

    The builder is the data the source gives it: named nodes and one outgoing edge per node.  The
    engine that runs a compiled graph is langgraph's: [LangGraph] takes [invoke] as it is, and
    [LangGraphLaws] states its documented behaviour on graphs whose nodes have one successor: run a
    node, merge the dict it returns into the state, follow the edge (asking the router on the merged
    state), stop at [END], and raise [GraphRecursionError] past the step limit. *)
From stdpp Require Import base tactics option list sets strings.
From Stdlib Require Import ZArith Lia Ascii String.
From S2P Require Import Prelude Python Values Exceptions Prog.

Local Open Scope string_scope.

Definition START : string := "__start__".
Definition END : string := "__end__".

Section graph.
Context {E : Type} `{!Effects E} {St : Type} (merge : St -> St -> St).

Definition node_fn : Type := St -> prog E (result exn St).

Inductive edge : Type :=
| Edge (target : string)
| Conditional (router : St -> string) (mapping : list (string * string)).

Record StateGraph := { sg_nodes : list (string * node_fn); sg_edges : list (string * edge) }.

(** [StateGraph(MercuryState)] *)
Definition new_graph : StateGraph := {| sg_nodes := []; sg_edges := [] |}.
Definition add_node (name : string) (f : node_fn) (g : StateGraph) : StateGraph :=
  {| sg_nodes := sg_nodes g ++ [(name, f)]; sg_edges := sg_edges g |}.
Definition add_edge (source target : string) (g : StateGraph) : StateGraph :=
  {| sg_nodes := sg_nodes g; sg_edges := sg_edges g ++ [(source, Edge target)] |}.
Definition add_conditional_edges (source : string) (router : St -> string) (mapping : list (string * string))
    (g : StateGraph) : StateGraph :=
  {| sg_nodes := sg_nodes g; sg_edges := sg_edges g ++ [(source, Conditional router mapping)] |}.

(** Every node has at most one outgoing edge, so a run is a sequence of nodes. *)
Definition sequential (g : StateGraph) : Prop := NoDup (sg_edges g).*1.

Definition successor (g : StateGraph) (name : string) (s : St) : option string :=
  match dict_get (sg_edges g) name with
  | Some (Edge target) => Some target
  | Some (Conditional router mapping) => dict_get mapping (router s)
  | None => None
  end.

Definition recursion_error (limit : nat) : exn :=
  Exn GraphRecursionErrorC
    ("Recursion limit of " ++ py_str_int (Z.of_nat limit) ++ " reached without hitting a stop condition.").

(** The run of a graph that is about to execute [name], with [fuel] steps left of [limit]. *)
Fixpoint run_from (limit fuel : nat) (g : StateGraph) (name : string) (s : St) : prog E (result exn St) :=
  match fuel with
  | O => Ret (Err (recursion_error limit))
  | S fuel' =>
      match dict_get (sg_nodes g) name with
      | None => Ret (Err (Exn KeyErrorC name))
      | Some f =>
          bind_exn (f s) (fun p =>
            let s' := merge s p in
            match successor g name s' with
            | Some next => if String.eqb next END then Ret (Ok s') else run_from limit fuel' g next s'
            | None => Ret (Err (Exn KeyErrorC name))
            end)
      end
  end.

Definition run_graph (limit : nat) (g : StateGraph) (s : St) : prog E (result exn St) :=
  match successor g START s with
  | Some first => run_from limit limit g first s
  | None => Ret (Err (Exn KeyErrorC START))
  end.

Class LangGraph := {
  recursion_limit : nat;
  invoke : StateGraph -> St -> prog E (result exn St)
}.

Class LangGraphLaws (G : LangGraph) := {
  recursion_limit_default : 25 <= recursion_limit;
  invoke_runs g s : sequential g -> prog_equiv (invoke g s) (run_graph recursion_limit g s)
}.

(** More fuel does not change a run that did not reach the limit: one step of a run. *)
Lemma run_from_step limit fuel g name f s :
  dict_get (sg_nodes g) name = Some f ->
  run_from limit (S fuel) g name s =
    bind_exn (f s) (fun p =>
      match successor g name (merge s p) with
      | Some next => if String.eqb next END then Ret (Ok (merge s p)) else run_from limit fuel g next (merge s p)
      | None => Ret (Err (Exn KeyErrorC name))
      end).
Proof. intros H. simpl. by rewrite H. Qed.

Lemma dict_get_in {A} (d : list (string * A)) k a : dict_get d k = Some a -> (k, a) ∈ d.
Proof.
  induction d as [|[k' a'] d IH]; [done|]. simpl. destruct (String.eqb_spec k k') as [<-|_].
  - intros [= <-]. apply list_elem_of_here.
  - intros H. apply elem_of_cons. right. by apply IH.
Qed.

(** A run makes only calls that its nodes make. *)
Lemma run_graph_calls (P : E -> Prop) limit g s :
  Forall (fun nf => forall s, calls P (nf.2 s)) (sg_nodes g) -> calls P (run_graph limit g s).
Proof.
  intros Hn. unfold run_graph. destruct (successor g START s) as [first|]; [|apply calls_ret].
  rewrite Forall_forall in Hn. generalize limit at 2. intros fuel. revert first s.
  induction fuel as [|fuel IH]; intros name s; simpl; [apply calls_ret|].
  destruct (dict_get (sg_nodes g) name) as [f|] eqn:Ef; [|apply calls_ret].
  apply calls_bind_exn; [by apply (Hn (name, f)), dict_get_in|]. intros p.
  destruct (successor g name (merge s p)) as [next|]; [|apply calls_ret].
  destruct (String.eqb next END); [apply calls_ret | apply IH].
Qed.

Lemma invoke_calls (P : E -> Prop) {G : LangGraph} {GL : LangGraphLaws G} g s :
  sequential g -> Forall (fun nf => forall s, calls P (nf.2 s)) (sg_nodes g) -> calls P (invoke g s).
Proof. intros Hseq Hn tr a Hm. apply (invoke_runs g s Hseq) in Hm. by eapply run_graph_calls. Qed.

(** The invariant rule: [Inv name φ s] holds when [name] is about to run in [s] and the calls made so
    far lead the machine [R] to phase [φ].  Nodes go down in [rank], so the limit is never reached. *)
Section invariant.
Context {Ph : Type} (R : Ph -> event E -> Ph -> Prop) (good : event E -> Prop) (g : StateGraph).
Context (Inv : string -> Ph -> St -> Prop) (Post : Ph -> St -> Prop) (rank : string -> nat).

(** One node: it returns, its calls are steps of [R], and it hands over to its successor. *)
Definition node_ok (name : string) : Prop :=
  exists f, dict_get (sg_nodes g) name = Some f /\
  forall φ s tr r, Inv name φ s -> may (f s) tr r -> Forall good tr ->
    exists p φ' next, r = Ok p /\ steps R φ tr φ' /\ successor g name (merge s p) = Some next /\
      (if String.eqb next END then Post φ' (merge s p)
       else Inv next φ' (merge s p) /\ rank next < rank name).

Context (Hnodes : forall name φ s, Inv name φ s -> node_ok name).

Lemma run_from_inv limit fuel name φ s tr r :
  Inv name φ s -> rank name < fuel -> may (run_from limit fuel g name s) tr r -> Forall good tr ->
  exists φ' s', r = Ok s' /\ steps R φ tr φ' /\ Post φ' s'.
Proof.
  revert name φ s tr r. induction fuel as [|fuel IH]; intros name φ s tr r HI Hr Hm Hg; [lia|].
  destruct (Hnodes name φ s HI) as (f & Hf & Hnode).
  rewrite (run_from_step limit fuel g name f s Hf) in Hm. unfold bind_exn in Hm.
  apply may_bind in Hm as (tr1 & tr2 & a & -> & H1 & H2). apply Forall_app in Hg as [Hg1 Hg2].
  destruct (Hnode φ s tr1 a HI H1 Hg1) as (p & φ' & next & -> & Hs & Hn & Hp). rewrite Hn in H2.
  destruct (String.eqb next END).
  - destruct H2 as [-> ->]. exists φ', (merge s p). rewrite app_nil_r. done.
  - destruct Hp as [HI' Hrk]. destruct (IH next φ' (merge s p) tr2 r) as (φ2 & s' & -> & Hs2 & Hp);
      [done | lia | done | done |].
    exists φ2, s'. split_and!; [done | by eapply steps_app | done].
Qed.

Lemma run_graph_inv limit first φ s tr r :
  successor g START s = Some first -> Inv first φ s -> rank first < limit ->
  may (run_graph limit g s) tr r -> Forall good tr ->
  exists φ' s', r = Ok s' /\ steps R φ tr φ' /\ Post φ' s'.
Proof. intros Hf HI Hr. unfold run_graph. rewrite Hf. by apply run_from_inv. Qed.
End invariant.
End graph.
Arguments StateGraph E {_} St.
Arguments LangGraph E {_} St.

(** The engine that does exactly what the laws say. *)
Definition reference_langgraph {E} `{!Effects E} {St} (merge : St -> St -> St) : LangGraph E St :=
  {| recursion_limit := 25; invoke := run_graph merge 25 |}.

Lemma reference_langgraph_laws {E} `{!Effects E} {St} (merge : St -> St -> St) :
  LangGraphLaws merge (reference_langgraph merge).
Proof. split; [done|]. intros g s _. reflexivity. Qed.
