(* ===== verification/State.v ===== *)
(** The state the graphs share ([mercury/graph/state.py]), its merge, and the response formatting
    of errors ([mercury/graph/responses.py], [unsupported_response] of [nodes.py]).

    [MercuryState] is a [TypedDict(total=False)]: a field is [None] here when the key is absent.  A
    node returns a partial state; the engine overwrites the fields present and appends messages. *)
From stdpp Require Import base tactics option list sets strings.
From Stdlib Require Import ZArith Lia Ascii String.
From S2P Require Import Prelude Python Values Exceptions Redaction Errors Addresses Chains Models SwapModels.
From S2P Require Import Idempotency Prog Effects Graph.

Local Open Scope string_scope.

(** An [Any] of the state: a dynamic value, or a prepared transaction. *)
Inductive any_value : Type :=
| AnyValue (v : pyval)
| AnyPrepared (t : PreparedTransaction).

Record MercuryState := {
  messages : list string;                     (** the contents of the messages *)
  request_id : option string;
  raw_input : option any_value;
  parsed_intent : option pyval;
  chain_name : option string;
  chain_config : option ChainConfig;
  chain_reference : option ChainReference;
  selected_tool_name : option string;
  tool_input : option dict;
  tool_result : option dict;
  response_text : option string;
  read_result : option dict;
  policy_decision : option PolicyDecision;
  prepared_transaction : option any_value;
  prepared_swap : option PreparedSwap;
  executable_transaction : option ExecutableTransaction;
  simulation_result : option SimulationResult;
  approval_result : option ApprovalResult;
  signed_transaction : option SignedTransactionResult;
  tx_hash : option string;
  execution_result : option ExecutionResult;
  wallet_address : option string;
  error : option MercuryErrorInfo
}.

(** [{}] *)
Definition empty_state : MercuryState :=
  {| messages := []; request_id := None; raw_input := None; parsed_intent := None; chain_name := None;
     chain_config := None; chain_reference := None; selected_tool_name := None; tool_input := None;
     tool_result := None; response_text := None; read_result := None; policy_decision := None;
     prepared_transaction := None; prepared_swap := None; executable_transaction := None;
     simulation_result := None; approval_result := None; signed_transaction := None; tx_hash := None;
     execution_result := None; wallet_address := None; error := None |}.

(** The state after a node returned the partial state [p]. *)
Definition merge_state (s p : MercuryState) : MercuryState :=
  {| messages := messages s ++ messages p;
     request_id := opt_or (request_id p) (request_id s);
     raw_input := opt_or (raw_input p) (raw_input s);
     parsed_intent := opt_or (parsed_intent p) (parsed_intent s);
     chain_name := opt_or (chain_name p) (chain_name s);
     chain_config := opt_or (chain_config p) (chain_config s);
     chain_reference := opt_or (chain_reference p) (chain_reference s);
     selected_tool_name := opt_or (selected_tool_name p) (selected_tool_name s);
     tool_input := opt_or (tool_input p) (tool_input s);
     tool_result := opt_or (tool_result p) (tool_result s);
     response_text := opt_or (response_text p) (response_text s);
     read_result := opt_or (read_result p) (read_result s);
     policy_decision := opt_or (policy_decision p) (policy_decision s);
     prepared_transaction := opt_or (prepared_transaction p) (prepared_transaction s);
     prepared_swap := opt_or (prepared_swap p) (prepared_swap s);
     executable_transaction := opt_or (executable_transaction p) (executable_transaction s);
     simulation_result := opt_or (simulation_result p) (simulation_result s);
     approval_result := opt_or (approval_result p) (approval_result s);
     signed_transaction := opt_or (signed_transaction p) (signed_transaction s);
     tx_hash := opt_or (tx_hash p) (tx_hash s);
     execution_result := opt_or (execution_result p) (execution_result s);
     wallet_address := opt_or (wallet_address p) (wallet_address s);
     error := opt_or (error p) (error s) |}%list.

Lemma merge_empty s : merge_state s empty_state = s.
Proof. destruct s. unfold merge_state; simpl. by rewrite app_nil_r. Qed.

(** [{<field>: v, ...}]: the partial states the nodes return are built from [empty_state]. *)
Definition with_request_id (v : string) (s : MercuryState) : MercuryState :=
  let '(Build_MercuryState ms _ ra pi cn cc cr sn ti tr rt rr pd pt ps et sr ar sg th er wa ei) := s in
  Build_MercuryState ms (Some v) ra pi cn cc cr sn ti tr rt rr pd pt ps et sr ar sg th er wa ei.
Definition with_raw_input (v : any_value) (s : MercuryState) : MercuryState :=
  let '(Build_MercuryState ms ri _ pi cn cc cr sn ti tr rt rr pd pt ps et sr ar sg th er wa ei) := s in
  Build_MercuryState ms ri (Some v) pi cn cc cr sn ti tr rt rr pd pt ps et sr ar sg th er wa ei.
Definition with_parsed_intent (v : pyval) (s : MercuryState) : MercuryState :=
  let '(Build_MercuryState ms ri ra _ cn cc cr sn ti tr rt rr pd pt ps et sr ar sg th er wa ei) := s in
  Build_MercuryState ms ri ra (Some v) cn cc cr sn ti tr rt rr pd pt ps et sr ar sg th er wa ei.
Definition with_chain_name (v : string) (s : MercuryState) : MercuryState :=
  let '(Build_MercuryState ms ri ra pi _ cc cr sn ti tr rt rr pd pt ps et sr ar sg th er wa ei) := s in
  Build_MercuryState ms ri ra pi (Some v) cc cr sn ti tr rt rr pd pt ps et sr ar sg th er wa ei.
Definition with_chain_config (v : ChainConfig) (s : MercuryState) : MercuryState :=
  let '(Build_MercuryState ms ri ra pi cn _ cr sn ti tr rt rr pd pt ps et sr ar sg th er wa ei) := s in
  Build_MercuryState ms ri ra pi cn (Some v) cr sn ti tr rt rr pd pt ps et sr ar sg th er wa ei.
Definition with_chain_reference (v : ChainReference) (s : MercuryState) : MercuryState :=
  let '(Build_MercuryState ms ri ra pi cn cc _ sn ti tr rt rr pd pt ps et sr ar sg th er wa ei) := s in
  Build_MercuryState ms ri ra pi cn cc (Some v) sn ti tr rt rr pd pt ps et sr ar sg th er wa ei.
Definition with_selected_tool_name (v : string) (s : MercuryState) : MercuryState :=
  let '(Build_MercuryState ms ri ra pi cn cc cr _ ti tr rt rr pd pt ps et sr ar sg th er wa ei) := s in
  Build_MercuryState ms ri ra pi cn cc cr (Some v) ti tr rt rr pd pt ps et sr ar sg th er wa ei.
Definition with_tool_input (v : dict) (s : MercuryState) : MercuryState :=
  let '(Build_MercuryState ms ri ra pi cn cc cr sn _ tr rt rr pd pt ps et sr ar sg th er wa ei) := s in
  Build_MercuryState ms ri ra pi cn cc cr sn (Some v) tr rt rr pd pt ps et sr ar sg th er wa ei.
Definition with_tool_result (v : dict) (s : MercuryState) : MercuryState :=
  let '(Build_MercuryState ms ri ra pi cn cc cr sn ti _ rt rr pd pt ps et sr ar sg th er wa ei) := s in
  Build_MercuryState ms ri ra pi cn cc cr sn ti (Some v) rt rr pd pt ps et sr ar sg th er wa ei.
Definition with_response_text (v : string) (s : MercuryState) : MercuryState :=
  let '(Build_MercuryState ms ri ra pi cn cc cr sn ti tr _ rr pd pt ps et sr ar sg th er wa ei) := s in
  Build_MercuryState ms ri ra pi cn cc cr sn ti tr (Some v) rr pd pt ps et sr ar sg th er wa ei.
Definition with_read_result (v : dict) (s : MercuryState) : MercuryState :=
  let '(Build_MercuryState ms ri ra pi cn cc cr sn ti tr rt _ pd pt ps et sr ar sg th er wa ei) := s in
  Build_MercuryState ms ri ra pi cn cc cr sn ti tr rt (Some v) pd pt ps et sr ar sg th er wa ei.
Definition with_policy_decision (v : PolicyDecision) (s : MercuryState) : MercuryState :=
  let '(Build_MercuryState ms ri ra pi cn cc cr sn ti tr rt rr _ pt ps et sr ar sg th er wa ei) := s in
  Build_MercuryState ms ri ra pi cn cc cr sn ti tr rt rr (Some v) pt ps et sr ar sg th er wa ei.
Definition with_prepared_transaction (v : any_value) (s : MercuryState) : MercuryState :=
  let '(Build_MercuryState ms ri ra pi cn cc cr sn ti tr rt rr pd _ ps et sr ar sg th er wa ei) := s in
  Build_MercuryState ms ri ra pi cn cc cr sn ti tr rt rr pd (Some v) ps et sr ar sg th er wa ei.
Definition with_prepared_swap (v : PreparedSwap) (s : MercuryState) : MercuryState :=
  let '(Build_MercuryState ms ri ra pi cn cc cr sn ti tr rt rr pd pt _ et sr ar sg th er wa ei) := s in
  Build_MercuryState ms ri ra pi cn cc cr sn ti tr rt rr pd pt (Some v) et sr ar sg th er wa ei.
Definition with_executable_transaction (v : ExecutableTransaction) (s : MercuryState) : MercuryState :=
  let '(Build_MercuryState ms ri ra pi cn cc cr sn ti tr rt rr pd pt ps _ sr ar sg th er wa ei) := s in
  Build_MercuryState ms ri ra pi cn cc cr sn ti tr rt rr pd pt ps (Some v) sr ar sg th er wa ei.
Definition with_simulation_result (v : SimulationResult) (s : MercuryState) : MercuryState :=
  let '(Build_MercuryState ms ri ra pi cn cc cr sn ti tr rt rr pd pt ps et _ ar sg th er wa ei) := s in
  Build_MercuryState ms ri ra pi cn cc cr sn ti tr rt rr pd pt ps et (Some v) ar sg th er wa ei.
Definition with_approval_result (v : ApprovalResult) (s : MercuryState) : MercuryState :=
  let '(Build_MercuryState ms ri ra pi cn cc cr sn ti tr rt rr pd pt ps et sr _ sg th er wa ei) := s in
  Build_MercuryState ms ri ra pi cn cc cr sn ti tr rt rr pd pt ps et sr (Some v) sg th er wa ei.
Definition with_signed_transaction (v : SignedTransactionResult) (s : MercuryState) : MercuryState :=
  let '(Build_MercuryState ms ri ra pi cn cc cr sn ti tr rt rr pd pt ps et sr ar _ th er wa ei) := s in
  Build_MercuryState ms ri ra pi cn cc cr sn ti tr rt rr pd pt ps et sr ar (Some v) th er wa ei.
Definition with_tx_hash (v : string) (s : MercuryState) : MercuryState :=
  let '(Build_MercuryState ms ri ra pi cn cc cr sn ti tr rt rr pd pt ps et sr ar sg _ er wa ei) := s in
  Build_MercuryState ms ri ra pi cn cc cr sn ti tr rt rr pd pt ps et sr ar sg (Some v) er wa ei.
Definition with_execution_result (v : ExecutionResult) (s : MercuryState) : MercuryState :=
  let '(Build_MercuryState ms ri ra pi cn cc cr sn ti tr rt rr pd pt ps et sr ar sg th _ wa ei) := s in
  Build_MercuryState ms ri ra pi cn cc cr sn ti tr rt rr pd pt ps et sr ar sg th (Some v) wa ei.
Definition with_wallet_address (v : string) (s : MercuryState) : MercuryState :=
  let '(Build_MercuryState ms ri ra pi cn cc cr sn ti tr rt rr pd pt ps et sr ar sg th er _ ei) := s in
  Build_MercuryState ms ri ra pi cn cc cr sn ti tr rt rr pd pt ps et sr ar sg th er (Some v) ei.
Definition with_error (v : MercuryErrorInfo) (s : MercuryState) : MercuryState :=
  let '(Build_MercuryState ms ri ra pi cn cc cr sn ti tr rt rr pd pt ps et sr ar sg th er wa _) := s in
  Build_MercuryState ms ri ra pi cn cc cr sn ti tr rt rr pd pt ps et sr ar sg th er wa (Some v).
Definition with_message (v : string) (s : MercuryState) : MercuryState :=
  let '(Build_MercuryState ms ri ra pi cn cc cr sn ti tr rt rr pd pt ps et sr ar sg th er wa ei) := s in
  Build_MercuryState (ms ++ [v])%list ri ra pi cn cc cr sn ti tr rt rr pd pt ps et sr ar sg th er wa ei.

(** * responses.py, for errors *)

(** [_error_text] and the two formatters of a structured error. *)
Definition format_error_response (e : MercuryErrorInfo) : string :=
  "I could not complete the read-only request: " ++ ei_message e.

Definition format_unsupported_response (reason : string + MercuryErrorInfo) : string :=
  "Unsupported operation: " ++
  match reason with inl text => redact_error_message text | inr e => ei_message e end.

(** [unsupported_response] of nodes.py *)
Definition unsupported_response (s : MercuryState) : wallet (result exn MercuryState) :=
  let reason := match error s with
                | Some e => inr e
                | None => match parsed_intent s with
                          | Some (VDict d) =>
                              match get d "reason" with VStr r => inl r | _ => inl "Unsupported wallet intent." end
                          | _ => inl "Unsupported wallet intent."
                          end
                end in
  let text := format_unsupported_response reason in
  ret_ok (with_response_text text (with_message text empty_state)).

(** The parsed intent, or the raw input when there is none, unwrapped of its "intent" envelope:
    the payload of the ERC-20, native and swap graphs. *)
Definition payload_from_state (msg : string) (s : MercuryState) : result exn dict :=
  let raw := match parsed_intent s with Some v => Some (AnyValue v) | None => raw_input s end in
  match raw with
  | Some (AnyValue (VDict d)) =>
      match get d "intent" with VDict intent => Ok intent | _ => Ok d end
  | _ => Err (ValueError msg)
  end.

(** [str(payload.get(kind, empty)).lower()] *)
Definition payload_kind (payload : dict) : string := py_lower (py_str (get_default payload "kind" (VStr ""))).

(** * preparation_helpers.py, request_metadata.py *)

Definition state_for_preparation_error `{PydanticText} (exc : exn) (stage : string) : MercuryState :=
  match exc with
  | ValidationError title errors =>
      with_error (validation_failed_from_pydantic title errors (Some stage)) empty_state
  | _ => with_error (normalize_exception exc (Some stage) None) empty_state
  end.

(** [model_copy(update={metadata})]: no validation. *)
Definition pt_with_metadata (t : PreparedTransaction) (md : dict) : PreparedTransaction :=
  {| pt_wallet_id := pt_wallet_id t; pt_chain := pt_chain t; pt_chain_id := pt_chain_id t;
     pt_from_address := pt_from_address t; pt_to := pt_to t; pt_value_wei := pt_value_wei t; pt_data := pt_data t;
     pt_nonce := pt_nonce t; pt_gas := pt_gas t; pt_idempotency_key := pt_idempotency_key t; pt_metadata := md |}.

(** The intent's metadata overrides the prepared transaction's, key by key. *)
Definition merge_intent_metadata_into_prepared (prepared : PreparedTransaction) (intent_payload : dict)
    : PreparedTransaction :=
  match get intent_payload "metadata" with
  | VDict raw =>
      match raw with
      | [] => prepared
      | _ => pt_with_metadata prepared (dict_update (pt_metadata prepared) raw)
      end
  | _ => prepared
  end.
