(* ===== verification/Intents.v ===== *)
(** Transaction intents ([mercury/models/erc20.py], [native_tx.py], and [SwapIntent] of [swaps.py]) and
    their [model_validate] from request dicts.

    pydantic's lax coercion of a dynamic value to [int] or [bool] is the library's: [PydanticLax]
    takes it as functions, with the law that a value of the right type is kept. *)
From stdpp Require Import base tactics option list sets strings.
From Stdlib Require Import ZArith Lia Ascii String.
From S2P Require Import Prelude Python Values Exceptions Amounts Redaction Errors Addresses Chains Models SwapModels.

Local Open Scope string_scope.
Local Open Scope Z_scope.
Local Open Scope validation_scope.

Class PydanticLax := {
  lax_int : pyval -> result string Z;        (** the error is pydantic's message *)
  lax_bool : pyval -> result string bool
}.

Class PydanticLaxLaws (P : PydanticLax) := {
  lax_int_int z : lax_int (VInt z) = Ok z;
  lax_bool_bool b : lax_bool (VBool b) = Ok b
}.

(** * Reading a field of the input dict *)

Section fields.
Context {P : PydanticLax}.

Definition conv_str (loc : string) (v : pyval) : V string :=
  match v with VStr s => Ok s | _ => verr loc "Input should be a valid string" end.
Definition conv_int (loc : string) (v : pyval) : V Z :=
  match lax_int v with Ok z => Ok z | Err m => verr loc m end.
Definition conv_bool (loc : string) (v : pyval) : V bool :=
  match lax_bool v with Ok b => Ok b | Err m => verr loc m end.
Definition conv_dict (loc : string) (v : pyval) : V dict :=
  match v with VDict d => Ok d | _ => verr loc "Input should be a valid dictionary" end.

(** A required field, a field with a default, an optional field that may be [None]. *)
Definition req {A} (d : dict) (key : string) (conv : pyval -> V A) : V A :=
  match dict_get d key with Some v => conv v | None => verr key "Field required" end.
Definition dflt {A} (d : dict) (key : string) (conv : pyval -> V A) (a : A) : V A :=
  match dict_get d key with Some v => conv v | None => Ok a end.
Definition optional {A} (d : dict) (key : string) (conv : pyval -> V A) : V (option A) :=
  match dict_get d key with
  | Some VNone | None => Ok None
  | Some v => Some <$> conv v
  end.

Definition str_field (d : dict) (key : string) (v : string -> string -> V string) : V string :=
  req d key (fun x => conv_str key x ≫= v key).
Definition opt_str_field (d : dict) (key : string) (v : string -> string -> V string) : V (option string) :=
  optional d key (fun x => conv_str key x ≫= v key).
Definition nonempty (loc s : string) : V string := v_min_length loc 1 s.
End fields.

(** The errors of a nested model carry its field name first. *)
Definition nest (loc : string) {A} (r : result exn A) : V A :=
  match r with
  | Ok a => Ok a
  | Err (ValidationError _ es) => Err (map (fun e => PydError (loc :: pe_loc e) (pe_msg e)) es)
  | Err (Exn _ msg) => verr loc ("Value error, " ++ msg)
  end.

(** * ERC-20 amounts and intents *)

Record ERC20Amount := { ea_human_amount : string; ea_decimals : Z; ea_raw_amount : Z }.

Definition validate_amount_pair (a : ERC20Amount) : result exn ERC20Amount :=
  parsed ← parse_units (ea_human_amount a) (ea_decimals a);
  if negb (parsed =? ea_raw_amount a) then Err (ValueError "Human amount does not match raw amount.") else Ok a.

Definition v_decimals (loc : string) (decimals : Z) : V Z :=
  x ← v_ge loc 0 decimals; y ← v_le loc MAX_DECIMALS x; vfield loc (validate_token_decimals y).

Definition make_ERC20Amount (human_amount : string) (decimals raw_amount : Z) : result exn ERC20Amount :=
  v_model_with "ERC20Amount"
    ((fun '(a, b, c) => {| ea_human_amount := a; ea_decimals := b; ea_raw_amount := c |}) <$>
       (v_min_length "human_amount" 1 human_amount ⊛ v_decimals "decimals" decimals ⊛ v_ge "raw_amount" 0 raw_amount))
    validate_amount_pair.

Definition ERC20Amount_from_human (human_amount : string) (decimals : Z) : result exn ERC20Amount :=
  raw_amount ← parse_units human_amount decimals;
  make_ERC20Amount human_amount decimals raw_amount.

Record ERC20TransferIntent := {
  ti_chain : string;
  ti_wallet_id : string;
  ti_token_address : string;
  ti_recipient_address : string;
  ti_amount : string;
  ti_amount_in_smallest_units : bool;
  ti_idempotency_key : option string
}.

Record ERC20ApprovalIntent := {
  ai_chain : string;
  ai_wallet_id : string;
  ai_token_address : string;
  ai_spender_address : string;
  ai_amount : string;
  ai_amount_in_smallest_units : bool;
  ai_idempotency_key : option string;
  ai_spender_known : bool;
  ai_allow_unlimited : bool
}.

Record NativeTransferIntent := {
  ni_chain : string;
  ni_wallet_id : string;
  ni_recipient_address : string;
  ni_amount : string;
  ni_idempotency_key : option string
}.

Section intents.
Context {W : Web3} {P : PydanticLax}.

Definition ERC20TransferIntent_validate (d : dict) : result exn ERC20TransferIntent :=
  v_model "ERC20TransferIntent"
    ((fun '(a, b, c, e, f, g, h) =>
        {| ti_chain := a; ti_wallet_id := b; ti_token_address := c; ti_recipient_address := e;
           ti_amount := f; ti_amount_in_smallest_units := g; ti_idempotency_key := h |}) <$>
       (str_field d "chain" v_chain ⊛ str_field d "wallet_id" nonempty
        ⊛ str_field d "token_address" v_address_field ⊛ str_field d "recipient_address" v_address_field
        ⊛ str_field d "amount" nonempty
        ⊛ dflt d "amount_in_smallest_units" (conv_bool "amount_in_smallest_units") false
        ⊛ opt_str_field d "idempotency_key" nonempty))
    no_after.

Definition ERC20ApprovalIntent_validate (d : dict) : result exn ERC20ApprovalIntent :=
  v_model "ERC20ApprovalIntent"
    ((fun '(a, b, c, e, f, g, h, i, j) =>
        {| ai_chain := a; ai_wallet_id := b; ai_token_address := c; ai_spender_address := e; ai_amount := f;
           ai_amount_in_smallest_units := g; ai_idempotency_key := h; ai_spender_known := i;
           ai_allow_unlimited := j |}) <$>
       (str_field d "chain" v_chain ⊛ str_field d "wallet_id" nonempty
        ⊛ str_field d "token_address" v_address_field ⊛ str_field d "spender_address" v_address_field
        ⊛ str_field d "amount" nonempty
        ⊛ dflt d "amount_in_smallest_units" (conv_bool "amount_in_smallest_units") false
        ⊛ opt_str_field d "idempotency_key" nonempty
        ⊛ dflt d "spender_known" (conv_bool "spender_known") false
        ⊛ dflt d "allow_unlimited" (conv_bool "allow_unlimited") false))
    no_after.

Definition NativeTransferIntent_validate (d : dict) : result exn NativeTransferIntent :=
  v_model "NativeTransferIntent"
    ((fun '(a, b, c, e, f) =>
        {| ni_chain := a; ni_wallet_id := b; ni_recipient_address := c; ni_amount := e;
           ni_idempotency_key := f |}) <$>
       (str_field d "chain" v_chain ⊛ str_field d "wallet_id" nonempty
        ⊛ str_field d "recipient_address" v_address_field ⊛ str_field d "amount" nonempty
        ⊛ opt_str_field d "idempotency_key" nonempty))
    no_after.

(** [model_validate] of the nested fees and of a prepared transaction given as a dict. *)
Definition GasFees_validate (v : pyval) : result exn GasFees :=
  match v with
  | VDict d =>
      v_model "GasFees"
        ((fun '(a, b, c, e) => {| gf_gas_limit := a; gf_max_fee_per_gas := b;
                                  gf_max_priority_fee_per_gas := c; gf_gas_price := e |}) <$>
           (req d "gas_limit" (fun x => conv_int "gas_limit" x ≫= v_gt "gas_limit" 0)
            ⊛ optional d "max_fee_per_gas" (fun x => conv_int "max_fee_per_gas" x ≫= v_gt "max_fee_per_gas" 0)
            ⊛ optional d "max_priority_fee_per_gas"
                (fun x => conv_int "max_priority_fee_per_gas" x ≫= v_gt "max_priority_fee_per_gas" 0)
            ⊛ optional d "gas_price" (fun x => conv_int "gas_price" x ≫= v_gt "gas_price" 0)))
        validate_fee_mode
  | _ => Err (ValidationError "GasFees"
                [PydError [] "Input should be a valid dictionary or instance of GasFees"])
  end.

Definition PreparedTransaction_validate (d : dict) : result exn PreparedTransaction :=
  v_model "PreparedTransaction"
    ((fun '(a, b, c, e, f, g, h, i, j, k, l) =>
        {| pt_wallet_id := a; pt_chain := b; pt_chain_id := c; pt_from_address := e; pt_to := f;
           pt_value_wei := g; pt_data := h; pt_nonce := i; pt_gas := j; pt_idempotency_key := k;
           pt_metadata := l |}) <$>
       (str_field d "wallet_id" nonempty ⊛ str_field d "chain" nonempty
        ⊛ optional d "chain_id" (fun x => conv_int "chain_id" x ≫= v_gt "chain_id" 0)
        ⊛ opt_str_field d "from_address" v_address ⊛ str_field d "to" v_address_field
        ⊛ dflt d "value_wei" (fun x => conv_int "value_wei" x ≫= v_ge "value_wei" 0) 0
        ⊛ dflt d "data" (fun x => conv_str "data" x ≫= v_hex "data") "0x"
        ⊛ optional d "nonce" (fun x => conv_int "nonce" x ≫= v_ge "nonce" 0)
        ⊛ optional d "gas" (fun x => nest "gas" (GasFees_validate x))
        ⊛ optional d "idempotency_key" (conv_str "idempotency_key")
        ⊛ dflt d "metadata" (conv_dict "metadata") []))
    no_after.

(** A prepared transaction that came from a dict is as well-formed as one built by keyword. *)
Lemma optional_ok {A} d key (conv : pyval -> V A) (Q : A -> Prop) o :
  (forall v a, conv v = Ok a -> Q a) -> optional d key conv = Ok o -> forall a, o = Some a -> Q a.
Proof.
  intros Hc H a ->. unfold optional in H. destruct (dict_get d key) as [v|]; [|discriminate].
  assert (Some <$> conv v = Ok (Some a)) as Hv by (destruct v; first [done | discriminate]).
  apply result_fmap_ok in Hv as (b & Hb & [= ->]). eauto.
Qed.

Lemma req_ok {A} d key (conv : pyval -> V A) a :
  req d key conv = Ok a -> exists v, dict_get d key = Some v /\ conv v = Ok a.
Proof. unfold req. destruct (dict_get d key); [eauto | discriminate]. Qed.

Lemma dflt_ok {A} d key (conv : pyval -> V A) (Q : A -> Prop) a0 a :
  (forall v x, conv v = Ok x -> Q x) -> Q a0 -> dflt d key conv a0 = Ok a -> Q a.
Proof. unfold dflt. intros Hc H0. destruct (dict_get d key); [apply Hc | by intros [= <-]]. Qed.

Lemma nonempty_field_ok d key s : str_field d key nonempty = Ok s -> s <> "".
Proof.
  unfold str_field. intros (v & _ & H)%req_ok. apply result_bind_ok in H as (x & _ & H).
  by apply v_min_length_ok in H as [-> ?].
Qed.

Lemma address_field_ok d key s : str_field d key v_address_field = Ok s -> normalized s.
Proof.
  unfold str_field. intros (v & _ & H)%req_ok. apply result_bind_ok in H as (x & _ & H).
  apply v_address_field_ok in H. by exists x.
Qed.

Lemma PreparedTransaction_validate_ok d t :
  PreparedTransaction_validate d = Ok t -> wf_PreparedTransaction t.
Proof.
  unfold PreparedTransaction_validate. intros H. inv_valid. unfold wf_PreparedTransaction. subst. simpl.
  repeat match goal with
  | H : str_field _ _ nonempty = Ok _ |- _ => apply nonempty_field_ok in H
  | H : str_field _ _ v_address_field = Ok _ |- _ => apply address_field_ok in H
  end.
  split_and!; try done.
  - eapply optional_ok; [|done]. intros v a Hx. apply result_bind_ok in Hx as (? & _ & Hz).
    by apply v_gt_ok in Hz as [-> ?].
  - intros a. eapply (optional_ok d _ _ normalized); [|done]. intros v x Hx.
    apply result_bind_ok in Hx as (? & _ & Hz). apply vfield_ok in Hz. by eexists.
  - match goal with H : dflt _ "value_wei" _ _ = Ok _ |- _ =>
      eapply (dflt_ok _ _ _ (fun z => 0 <= z)) in H; [exact H | | done] end.
    intros v x Hx. apply result_bind_ok in Hx as (? & _ & Hz). by apply v_ge_ok in Hz as [-> ?].
  - match goal with H : dflt _ "data" _ _ = Ok _ |- _ =>
      eapply (dflt_ok _ _ _ (fun z => is_hex_data z = true)) in H; [exact H | | done] end.
    intros v x Hx. apply result_bind_ok in Hx as (? & _ & Hz). by apply v_hex_ok in Hz as [-> ?].
  - eapply optional_ok; [|done]. intros v a Hx. apply result_bind_ok in Hx as (? & _ & Hz).
    by apply v_ge_ok in Hz as [-> ?].
Qed.
End intents.

(** [SwapProviderName] from a dynamic value, as an optional field. *)
Definition conv_provider (loc : string) (v : pyval) : V SwapProviderName :=
  match v with
  | VStr s => match SwapProviderName_of s with
              | Some p => Ok p
              | None => verr loc "Input should be 'lifi', 'cowswap' or 'uniswap'"
              end
  | _ => verr loc "Input should be 'lifi', 'cowswap' or 'uniswap'"
  end.

Definition SwapIntent_validate {W : Web3} {P : PydanticLax} (settings : MercurySettings) (d : dict)
    : result exn SwapIntent :=
  v_model_with "SwapIntent"
    ((fun '(a, b, c, e, f, g, h, i, j, k, l, m) =>
        {| si_wallet_id := a; si_chain := b; si_from_token := c; si_to_token := e; si_amount_in := f;
           si_min_amount_out := g; si_max_slippage_bps := h; si_provider_preference := i;
           si_recipient_address := j; si_idempotency_key := k; si_to_chain := l; si_to_chain_id := m |}) <$>
       (str_field d "wallet_id" nonempty ⊛ str_field d "chain" v_chain ⊛ str_field d "from_token" v_from_token
        ⊛ str_field d "to_token" v_address_field ⊛ str_field d "amount_in" nonempty
        ⊛ opt_str_field d "min_amount_out" nonempty
        ⊛ optional d "max_slippage_bps" (fun x => conv_int "max_slippage_bps" x ≫= v_bps "max_slippage_bps")
        ⊛ optional d "provider_preference" (conv_provider "provider_preference")
        ⊛ opt_str_field d "recipient_address" v_address_field ⊛ str_field d "idempotency_key" nonempty
        ⊛ opt_str_field d "to_chain" v_chain
        ⊛ optional d "to_chain_id" (fun x => conv_int "to_chain_id" x ≫= v_gt "to_chain_id" 0)))
    (fun i => _ ← validate_tokens i;
              _ ← validate_destination settings (si_to_chain i) (si_to_chain_id i); Ok i).

(** A coercion that keeps values of the right type and refuses the others. *)
#[export] Instance strict_lax : PydanticLax := {|
  lax_int := fun v => match v with VInt z => Ok z | _ => Err "Input should be a valid integer" end;
  lax_bool := fun v => match v with VBool b => Ok b | _ => Err "Input should be a valid boolean" end
|}.
#[export] Instance strict_lax_laws : PydanticLaxLaws strict_lax.
Proof. by split. Qed.
