(* ===== verification/Networks.v ===== *)
(** Alchemy's network names ([mercury/alchemy/networks.py]) and the transfer categories of
    [mercury/alchemy/transfers.py]. *)
From stdpp Require Import base tactics option list sets strings.
From Stdlib Require Import ZArith Lia Ascii String.
From S2P Require Import Prelude Python Values Exceptions.

Local Open Scope string_scope.

Definition _MERCURY_TO_ALCHEMY_NETWORK : list (string * string) := [
  ("ethereum", "eth-mainnet"); ("base", "base-mainnet"); ("arbitrum", "arb-mainnet"); ("optimism", "opt-mainnet")].

Definition UnknownAlchemyNetworkError (msg : string) : exn := Exn UnknownAlchemyNetworkErrorC msg.

Definition mercury_chain_to_alchemy_network (mercury_chain_name : string) : result exn string :=
  match dict_get _MERCURY_TO_ALCHEMY_NETWORK (py_fold mercury_chain_name) with
  | Some network => Ok network
  | None =>
      Err (UnknownAlchemyNetworkError
             ("Alchemy APIs are not configured for chain '" ++ mercury_chain_name ++ "'. Supported chains for these APIs: " ++
              py_join ", " (py_sorted (map fst _MERCURY_TO_ALCHEMY_NETWORK)) ++ "."))
  end.

Definition alchemy_network_to_mercury_chain (alchemy_network : string) : result exn string :=
  match List.find (fun kv => String.eqb (py_lower kv.2) (py_fold alchemy_network)) _MERCURY_TO_ALCHEMY_NETWORK with
  | Some kv => Ok kv.1
  | None =>
      Err (UnknownAlchemyNetworkError
             ("Unsupported Alchemy network '" ++ alchemy_network ++ "'. Mercury maps the following portfolio/price networks: " ++
              py_join ", " (py_sorted (map snd _MERCURY_TO_ALCHEMY_NETWORK)) ++ "."))
  end.

Definition TRANSFER_DEFAULT_CATEGORIES : list string := ["external"; "internal"; "erc20"; "erc721"; "erc1155"].
Definition ALLOWED_TRANSFER_CATEGORIES : list string := TRANSFER_DEFAULT_CATEGORIES ++ ["specialnft"].

(** The two names of a chain are inverse to each other. *)
Lemma network_of_chain c n :
  mercury_chain_to_alchemy_network c = Ok n ->
  alchemy_network_to_mercury_chain n = Ok (py_fold c) /\ mercury_chain_to_alchemy_network (py_fold c) = Ok n.
Proof.
  unfold mercury_chain_to_alchemy_network. rewrite py_fold_idem.
  destruct (dict_get _ (py_fold c)) as [n'|] eqn:E; [|done]. intros [= <-]. split; [|done].
  revert E. unfold _MERCURY_TO_ALCHEMY_NETWORK. cbn [dict_get fst snd].
  generalize (py_fold c). intros k.
  repeat (case (String.eqb_spec k); [intros -> [= <-]; reflexivity | intros _]). done.
Qed.

Lemma chain_of_network n c :
  alchemy_network_to_mercury_chain n = Ok c ->
  mercury_chain_to_alchemy_network c = Ok (py_fold n) /\ py_fold c = c.
Proof.
  unfold alchemy_network_to_mercury_chain. destruct (List.find _ _) as [kv|] eqn:E; [|done].
  intros [= <-]. apply List.find_some in E as [Hin Heq%String.eqb_eq]. rewrite <- Heq.
  apply list_elem_of_In in Hin. unfold _MERCURY_TO_ALCHEMY_NETWORK in Hin.
  repeat (apply elem_of_cons in Hin as [->|Hin]; [by split|]). by apply not_elem_of_nil in Hin.
Qed.
