(* ===== verification/ReadIntents.v ===== *)
(** Read-only intents ([mercury/graph/intents.py]): the models, their validation from request dicts, the parser and
    [model_dump]. *)
From stdpp Require Import base tactics option list sets strings.
From Stdlib Require Import ZArith Lia Ascii String.
From S2P Require Import Prelude Python Values Exceptions Errors Addresses Chains Models SwapModels Intents Networks.

Local Open Scope string_scope.
Local Open Scope Z_scope.
Local Open Scope validation_scope.

Inductive ReadOnlyIntentKind : Type :=
| NATIVE_BALANCE | ERC20_BALANCE | ERC20_ALLOWANCE | ERC20_METADATA | CONTRACT_READ | KNOWN_ADDRESS | TOKEN_PRICES
| PORTFOLIO_TOKENS | TRANSFER_HISTORY | UNSUPPORTED.

#[export] Instance ReadOnlyIntentKind_eq_dec : EqDecision ReadOnlyIntentKind.
Proof. solve_decision. Defined.

Definition ReadOnlyIntentKind_value (k : ReadOnlyIntentKind) : string :=
  match k with
  | NATIVE_BALANCE => "native_balance"
  | ERC20_BALANCE => "erc20_balance"
  | ERC20_ALLOWANCE => "erc20_allowance"
  | ERC20_METADATA => "erc20_metadata"
  | CONTRACT_READ => "contract_read"
  | KNOWN_ADDRESS => "known_address"
  | TOKEN_PRICES => "token_prices"
  | PORTFOLIO_TOKENS => "portfolio_tokens"
  | TRANSFER_HISTORY => "transfer_history"
  | UNSUPPORTED => "unsupported"
  end.

Definition UnsupportedIntentError (text : string) : exn := Exn UnsupportedIntentErrorC text.

(** * Fields that are lists, blocks or nested models *)

(** The errors of an element carry the name of the list and the index first. *)
Definition at_loc {A} (loc : string) (r : V A) : V A :=
  match r with Ok a => Ok a | Err es => Err (map (fun e => PydError (loc :: pe_loc e) (pe_msg e)) es) end.

Fixpoint v_items {A} (i : Z) (conv : string -> pyval -> V A) (l : list pyval) : V (list A) :=
  match l with
  | [] => Ok []
  | v :: l' => (fun '(a, t) => a :: t) <$> (conv (py_str_int i) v ⊛ v_items (i + 1) conv l')
  end.

Definition conv_list {A} (conv : string -> pyval -> V A) (loc : string) (v : pyval) : V (list A) :=
  match v with
  | VList l => at_loc loc (v_items 0 conv l)
  | _ => verr loc "Input should be a valid list"
  end.

Definition v_nonempty_list {A} (loc : string) (l : list A) : V (list A) :=
  match l with
  | [] => verr loc "List should have at least 1 item after validation, not 0"
  | _ => Ok l
  end.

Definition conv_any (loc : string) (v : pyval) : V pyval := Ok v.

(** [str | int]: an exact type wins, any other value is tried as an integer. *)
Inductive block_ref : Type := BlockStr (s : string) | BlockInt (z : Z).

Definition conv_block {P : PydanticLax} (loc : string) (v : pyval) : V block_ref :=
  match v with
  | VStr s => Ok (BlockStr s)
  | _ => match lax_int v with
         | Ok z => Ok (BlockInt z)
         | Err m => Err [PydError [loc; "str"] "Input should be a valid string"; PydError [loc; "int"] m]
         end
  end.

Definition block_value (b : block_ref) : pyval := match b with BlockStr s => VStr s | BlockInt z => VInt z end.

Definition conv_category (loc : string) (v : pyval) : V KnownCategory :=
  match v with
  | VStr s => if String.eqb s "token" then Ok CatToken else if String.eqb s "protocol" then Ok CatProtocol
              else verr loc "Input should be 'token' or 'protocol'"
  | _ => verr loc "Input should be 'token' or 'protocol'"
  end.

Definition category_value (c : KnownCategory) : string := match c with CatToken => "token" | CatProtocol => "protocol" end.

(** * The models *)

Record NativeBalanceIntent := { nb_chain : option string; nb_wallet_address : string }.

Record ERC20MetadataIntent := { em_chain : option string; em_token_address : string }.

Record ERC20BalanceIntent := { eb_chain : option string; eb_token_address : string; eb_wallet_address : string }.

Record ERC20AllowanceIntent := {
  ew_chain : option string;
  ew_token_address : string;
  ew_owner_address : string;
  ew_spender_address : string
}.

Record ContractReadIntent := {
  ct_chain : option string;
  ct_contract_address : string;
  ct_abi_fragment : list dict;
  ct_function_name : string;
  ct_args : list pyval
}.

Record KnownAddressIntent := { ka_chain : option string; ka_category : KnownCategory; ka_key : string }.

Record TokenPriceIntentEntry := { te_chain : string; te_token_address : string }.

Record TokenPricesIntent := {
  tp_chain : option string;
  tp_token_address : option string;
  tp_tokens : list TokenPriceIntentEntry
}.

Record PortfolioTokensIntent := {
  pf_chain : option string;
  pf_wallet_address : string;
  pf_chains : option (list string);
  pf_networks : option (list string);
  pf_with_metadata : bool;
  pf_with_prices : bool;
  pf_include_native_tokens : bool;
  pf_include_erc20_tokens : bool;
  pf_page_key : option string
}.

Record TransferHistoryIntent := {
  th_chain : option string;
  th_wallet_address : string;
  th_direction : string;
  th_categories : option (list string);
  th_from_block : option block_ref;
  th_to_block : option block_ref;
  th_max_count : option Z;
  th_page_key : option string;
  th_with_metadata : bool;
  th_exclude_zero_value : bool
}.

Inductive ParsedIntent : Type :=
| NativeBalance (i : NativeBalanceIntent)
| ERC20Balance (i : ERC20BalanceIntent)
| ERC20Allowance (i : ERC20AllowanceIntent)
| ERC20Metadata (i : ERC20MetadataIntent)
| ContractRead (i : ContractReadIntent)
| KnownAddress (i : KnownAddressIntent)
| TokenPrices (i : TokenPricesIntent)
| PortfolioTokens (i : PortfolioTokensIntent)
| TransferHistory (i : TransferHistoryIntent)
| UnsupportedIntent (reason : string).

Definition intent_kind (i : ParsedIntent) : ReadOnlyIntentKind :=
  match i with
  | NativeBalance _ => NATIVE_BALANCE
  | ERC20Balance _ => ERC20_BALANCE
  | ERC20Allowance _ => ERC20_ALLOWANCE
  | ERC20Metadata _ => ERC20_METADATA
  | ContractRead _ => CONTRACT_READ
  | KnownAddress _ => KNOWN_ADDRESS
  | TokenPrices _ => TOKEN_PRICES
  | PortfolioTokens _ => PORTFOLIO_TOKENS
  | TransferHistory _ => TRANSFER_HISTORY
  | UnsupportedIntent _ => UNSUPPORTED
  end.

(** * Validation *)

(** [BaseReadOnlyIntent.normalize_chain] and the [page_key] validators: blank text is no text. *)
Definition normalize_chain (value : option string) : option string :=
  match value with
  | None => None
  | Some s => let normalized := py_fold s in if str_empty normalized then None else Some normalized
  end.

Definition normalize_page_key (value : option string) : option string :=
  match value with
  | None => None
  | Some s => let stripped := py_strip s in if str_empty stripped then None else Some stripped
  end.

Definition strip_key (value : string) : result exn string :=
  let stripped := py_strip value in
  if str_empty stripped then Err (ValueError "key must not be empty.") else Ok stripped.

Definition normalize_entry_chain (value : string) : result exn string :=
  let normalized := py_fold value in
  if str_empty normalized then Err (ValueError "chain must not be empty.") else Ok normalized.

Section validation.
Context {W : Web3} {P : PydanticLax} (settings : MercurySettings).

Definition chain_field (d : dict) : V (option string) := normalize_chain <$> optional d "chain" (conv_str "chain").
Definition page_key_field (d : dict) : V (option string) := normalize_page_key <$> optional d "page_key" (conv_str "page_key").
Definition bool_field (d : dict) (key : string) (b : bool) : V bool := dflt d key (conv_bool key) b.
Definition address_field (d : dict) (key : string) : V string := str_field d key v_address_field.

Definition NativeBalanceIntent_validate (d : dict) : result exn NativeBalanceIntent :=
  v_model "NativeBalanceIntent"
    ((fun '(a, b) => {| nb_chain := a; nb_wallet_address := b |}) <$> (chain_field d ⊛ address_field d "wallet_address"))
    no_after.

Definition ERC20MetadataIntent_validate (d : dict) : result exn ERC20MetadataIntent :=
  v_model "ERC20MetadataIntent"
    ((fun '(a, b) => {| em_chain := a; em_token_address := b |}) <$> (chain_field d ⊛ address_field d "token_address"))
    no_after.

Definition ERC20BalanceIntent_validate (d : dict) : result exn ERC20BalanceIntent :=
  v_model "ERC20BalanceIntent"
    ((fun '(a, b, c) => {| eb_chain := a; eb_token_address := b; eb_wallet_address := c |}) <$>
       (chain_field d ⊛ address_field d "token_address" ⊛ address_field d "wallet_address"))
    no_after.

Definition ERC20AllowanceIntent_validate (d : dict) : result exn ERC20AllowanceIntent :=
  v_model "ERC20AllowanceIntent"
    ((fun '(a, b, c, e) => {| ew_chain := a; ew_token_address := b; ew_owner_address := c; ew_spender_address := e |}) <$>
       (chain_field d ⊛ address_field d "token_address" ⊛ address_field d "owner_address"
        ⊛ address_field d "spender_address"))
    no_after.

Definition ContractReadIntent_validate (d : dict) : result exn ContractReadIntent :=
  v_model "ContractReadIntent"
    ((fun '(a, b, c, e, f) => {| ct_chain := a; ct_contract_address := b; ct_abi_fragment := c; ct_function_name := e;
                                 ct_args := f |}) <$>
       (chain_field d ⊛ address_field d "contract_address"
        ⊛ req d "abi_fragment" (fun v => conv_list conv_dict "abi_fragment" v ≫= v_nonempty_list "abi_fragment")
        ⊛ str_field d "function_name" nonempty
        ⊛ dflt d "args" (conv_list conv_any "args") []))
    no_after.

Definition KnownAddressIntent_validate (d : dict) : result exn KnownAddressIntent :=
  v_model "KnownAddressIntent"
    ((fun '(a, b, c) => {| ka_chain := a; ka_category := b; ka_key := c |}) <$>
       (chain_field d ⊛ req d "category" (conv_category "category")
        ⊛ str_field d "key" (fun loc s => nonempty loc s ≫= fun t => vfield loc (strip_key t))))
    no_after.

Definition TokenPriceIntentEntry_fields (chain : V string) (token_address : V string) : result exn TokenPriceIntentEntry :=
  v_model "TokenPriceIntentEntry"
    ((fun '(a, b) => {| te_chain := a; te_token_address := b |}) <$> (chain ⊛ token_address)) no_after.

Definition v_entry_chain (loc s : string) : V string := nonempty loc s ≫= fun t => vfield loc (normalize_entry_chain t).

Definition TokenPriceIntentEntry_validate (v : pyval) : result exn TokenPriceIntentEntry :=
  match v with
  | VDict d => TokenPriceIntentEntry_fields (str_field d "chain" v_entry_chain) (address_field d "token_address")
  | _ => Err (ValidationError "TokenPriceIntentEntry"
                [PydError [] "Input should be a valid dictionary or instance of TokenPriceIntentEntry"])
  end.

Definition make_TokenPriceIntentEntry (chain token_address : string) : result exn TokenPriceIntentEntry :=
  TokenPriceIntentEntry_fields (v_entry_chain "chain" chain) (v_address_field "token_address" token_address).

Definition distinct_count (l : list string) : nat := List.length (remove_dups l).

Definition _normalize_token_list (i : TokenPricesIntent) : result exn TokenPricesIntent :=
  entries ← match tp_tokens i with
            | _ :: _ => Ok (tp_tokens i)
            | [] =>
                match tp_token_address i with
                | Some token_address =>
                    match tp_chain i with
                    | None | Some EmptyString =>
                        Err (ValueError "token_prices requires `chain` when using `token_address` without `tokens`.")
                    | Some chain => e ← make_TokenPriceIntentEntry chain token_address; Ok [e]
                    end
                | None => Err (ValueError "token_prices requires `tokens` or `token_address` with `chain`.")
                end
            end;
  match entries with
  | [] => Err (ValueError "token_prices requires at least one token entry.")
  | _ =>
      if (25 <? List.length entries)%nat
      then Err (ValueError "token_prices supports at most 25 token entries per request.")
      else if (3 <? distinct_count (map te_chain entries))%nat
      then Err (ValueError "token_prices supports at most 3 distinct chains per request.")
      else Ok {| tp_chain := None; tp_token_address := None; tp_tokens := entries |}
  end.

Definition TokenPricesIntent_validate (d : dict) : result exn TokenPricesIntent :=
  v_model_with "TokenPricesIntent"
    ((fun '(a, b, c) => {| tp_chain := a; tp_token_address := b; tp_tokens := c |}) <$>
       (chain_field d ⊛ opt_str_field d "token_address" v_address
        ⊛ dflt d "tokens" (conv_list (fun i v => nest i (TokenPriceIntentEntry_validate v)) "tokens") []))
    _normalize_token_list.

(** [if name not in seen: resolved.append(name)] *)
Definition add_seen (name : string) (resolved : list string) : list string :=
  if bool_decide (name ∈ resolved) then resolved else (resolved ++ [name])%list.

Fixpoint resolve_networks (networks resolved : list string) : result exn (list string) :=
  match networks with
  | [] => Ok resolved
  | n :: networks' =>
      let segment := py_fold n in
      if str_empty segment then resolve_networks networks' resolved else
      match alchemy_network_to_mercury_chain segment with
      | Ok mercury_name => resolve_networks networks' (add_seen mercury_name resolved)
      | Err exc => if has_class UnknownAlchemyNetworkErrorC exc then Err (ValueError (exn_text exc)) else Err exc
      end
  end.

Fixpoint resolve_chain_names (chains resolved : list string) : list string :=
  match chains with
  | [] => resolved
  | c :: chains' =>
      let name := py_fold c in
      resolve_chain_names chains' (if str_empty name then resolved else add_seen name resolved)
  end.

(** A chain of the registry that Alchemy serves. *)
Definition check_portfolio_chain (name : string) : result exn unit :=
  _ ← match get_chain_by_name settings name with
      | Ok c => Ok tt
      | Err exc => if has_class UnsupportedChainErrorC exc
                   then Err (ValueError ("Unsupported Mercury chain '" ++ name ++ "' for portfolio lookup."))
                   else Err exc
      end;
  match mercury_chain_to_alchemy_network name with
  | Ok _ => Ok tt
  | Err exc => if has_class UnknownAlchemyNetworkErrorC exc then Err (ValueError (exn_text exc)) else Err exc
  end.

Fixpoint check_portfolio_chains (names : list string) : result exn unit :=
  match names with
  | [] => Ok tt
  | name :: names' => _ ← check_portfolio_chain name; check_portfolio_chains names'
  end.

Definition nonempty_list {A} (o : option (list A)) : option (list A) :=
  match o with Some [] => None | _ => o end.

Definition _resolve_chains (i : PortfolioTokensIntent) : result exn PortfolioTokensIntent :=
  resolved ← match nonempty_list (pf_chains i), nonempty_list (pf_networks i) with
             | Some _, Some _ => Err (ValueError "portfolio_tokens accepts either `chains` or `networks`, not both.")
             | None, Some networks => resolve_networks networks []
             | Some chains, None => Ok (resolve_chain_names chains [])
             | None, None =>
                 match pf_chain i with
                 | None => Err (ValueError "portfolio_tokens requires `chains`, `networks`, or a default `chain` field.")
                 | Some fallback =>
                     if str_empty (py_strip fallback)
                     then Err (ValueError "portfolio_tokens requires `chains`, `networks`, or a default `chain` field.")
                     else Ok [py_fold fallback]
                 end
             end;
  match resolved with
  | [] => Err (ValueError "portfolio_tokens requires at least one chain or network.")
  | _ =>
      if (5 <? List.length resolved)%nat
      then Err (ValueError "portfolio_tokens supports at most 5 distinct networks per request.") else
      _ ← check_portfolio_chains resolved;
      Ok {| pf_chain := None; pf_wallet_address := pf_wallet_address i; pf_chains := Some resolved; pf_networks := None;
            pf_with_metadata := pf_with_metadata i; pf_with_prices := pf_with_prices i;
            pf_include_native_tokens := pf_include_native_tokens i; pf_include_erc20_tokens := pf_include_erc20_tokens i;
            pf_page_key := pf_page_key i |}
  end.

Definition PortfolioTokensIntent_validate (d : dict) : result exn PortfolioTokensIntent :=
  v_model_with "PortfolioTokensIntent"
    ((fun '(a, b, c, e, f, g, h, i, j) =>
        {| pf_chain := a; pf_wallet_address := b; pf_chains := c; pf_networks := e; pf_with_metadata := f;
           pf_with_prices := g; pf_include_native_tokens := h; pf_include_erc20_tokens := i; pf_page_key := j |}) <$>
       (chain_field d ⊛ address_field d "wallet_address"
        ⊛ optional d "chains" (conv_list conv_str "chains") ⊛ optional d "networks" (conv_list conv_str "networks")
        ⊛ bool_field d "with_metadata" true ⊛ bool_field d "with_prices" true
        ⊛ bool_field d "include_native_tokens" true ⊛ bool_field d "include_erc20_tokens" true ⊛ page_key_field d))
    _resolve_chains.

Definition direction_aliases : list (string * string) := [
  ("in", "incoming"); ("incoming", "incoming"); ("out", "outgoing"); ("outgoing", "outgoing"); ("both", "both")].

Fixpoint check_categories (cats : list string) : result exn unit :=
  match cats with
  | [] => Ok tt
  | c :: cats' =>
      if bool_decide (c ∈ ALLOWED_TRANSFER_CATEGORIES) then check_categories cats'
      else Err (ValueError ("Unsupported transfer category " ++ py_repr_str c ++ ". Allowed: " ++
                            py_join ", " (py_sorted ALLOWED_TRANSFER_CATEGORIES) ++ "."))
  end.

Definition resolve_categories (cats : option (list string)) : result exn (list string) :=
  match nonempty_list cats with
  | None => Ok TRANSFER_DEFAULT_CATEGORIES
  | Some l =>
      let resolved := map py_fold (List.filter (fun c => negb (str_empty (py_strip c))) l) in
      match resolved with
      | [] => Err (ValueError "categories must include at least one non-empty category name.")
      | _ => _ ← check_categories resolved; Ok resolved
      end
  end.

Definition _normalize_transfer_fields (i : TransferHistoryIntent) : result exn TransferHistoryIntent :=
  match dict_get direction_aliases (py_fold (th_direction i)) with
  | None => Err (ValueError "direction must be incoming, outgoing, or both.")
  | Some dir_norm =>
      resolved ← resolve_categories (th_categories i);
      let mc := default 100 (th_max_count i) in
      if (mc <? 1) || (1000 <? mc) then Err (ValueError "max_count must be between 1 and 1000 inclusive.") else
      Ok {| th_chain := th_chain i; th_wallet_address := th_wallet_address i; th_direction := dir_norm;
            th_categories := Some resolved; th_from_block := th_from_block i; th_to_block := th_to_block i;
            th_max_count := Some mc;
            th_page_key := if String.eqb dir_norm "both" then None else th_page_key i;
            th_with_metadata := th_with_metadata i; th_exclude_zero_value := th_exclude_zero_value i |}
  end.

Definition TransferHistoryIntent_validate (d : dict) : result exn TransferHistoryIntent :=
  v_model_with "TransferHistoryIntent"
    ((fun '(a, b, c, e, f, g, h, i, j, k) =>
        {| th_chain := a; th_wallet_address := b; th_direction := c; th_categories := e; th_from_block := f;
           th_to_block := g; th_max_count := h; th_page_key := i; th_with_metadata := j; th_exclude_zero_value := k |}) <$>
       (chain_field d ⊛ address_field d "wallet_address" ⊛ dflt d "direction" (conv_str "direction") "both"
        ⊛ optional d "categories" (conv_list conv_str "categories")
        ⊛ optional d "from_block" (conv_block "from_block") ⊛ optional d "to_block" (conv_block "to_block")
        ⊛ optional d "max_count" (conv_int "max_count") ⊛ page_key_field d
        ⊛ bool_field d "with_metadata" true ⊛ bool_field d "exclude_zero_value" true))
    _normalize_transfer_fields.

(** [_INTENT_MODELS[kind].model_validate] *)
Definition intent_model_validate (kind : ReadOnlyIntentKind) (d : dict) : result exn ParsedIntent :=
  match kind with
  | NATIVE_BALANCE => NativeBalance <$> NativeBalanceIntent_validate d
  | ERC20_BALANCE => ERC20Balance <$> ERC20BalanceIntent_validate d
  | ERC20_ALLOWANCE => ERC20Allowance <$> ERC20AllowanceIntent_validate d
  | ERC20_METADATA => ERC20Metadata <$> ERC20MetadataIntent_validate d
  | CONTRACT_READ => ContractRead <$> ContractReadIntent_validate d
  | KNOWN_ADDRESS => KnownAddress <$> KnownAddressIntent_validate d
  | TOKEN_PRICES => TokenPrices <$> TokenPricesIntent_validate d
  | PORTFOLIO_TOKENS => PortfolioTokens <$> PortfolioTokensIntent_validate d
  | TRANSFER_HISTORY => TransferHistory <$> TransferHistoryIntent_validate d
  | UNSUPPORTED => Err (Exn KeyErrorC "<ReadOnlyIntentKind.UNSUPPORTED: 'unsupported'>")
  end.

(** * The parser *)

Definition _KIND_ALIASES : list (string * ReadOnlyIntentKind) := [
  ("get_native_balance", NATIVE_BALANCE); ("native_balance", NATIVE_BALANCE); ("eth_balance", NATIVE_BALANCE);
  ("get_erc20_balance", ERC20_BALANCE); ("erc20_balance", ERC20_BALANCE); ("token_balance", ERC20_BALANCE);
  ("get_erc20_allowance", ERC20_ALLOWANCE); ("erc20_allowance", ERC20_ALLOWANCE); ("allowance", ERC20_ALLOWANCE);
  ("get_erc20_metadata", ERC20_METADATA); ("erc20_metadata", ERC20_METADATA); ("token_metadata", ERC20_METADATA);
  ("read_contract", CONTRACT_READ); ("contract_read", CONTRACT_READ);
  ("known_address", KNOWN_ADDRESS); ("address_lookup", KNOWN_ADDRESS); ("lookup_known_address", KNOWN_ADDRESS);
  ("token_prices", TOKEN_PRICES); ("get_token_prices", TOKEN_PRICES);
  ("portfolio_tokens", PORTFOLIO_TOKENS); ("get_portfolio_tokens", PORTFOLIO_TOKENS);
  ("transfer_history", TRANSFER_HISTORY); ("get_transfer_history", TRANSFER_HISTORY)].

Definition _VALUE_MOVING_WORDS : list string :=
  ["approve"; "approval"; "send"; "transfer"; "swap"; "sign"; "transaction"; "tx"].

Definition _coerce_raw_input (raw_input : pyval) (messages : list string) : pyval :=
  match raw_input with
  | VNone => match last messages with Some content => VStr content | None => VNone end
  | _ => raw_input
  end.

Definition _unwrap_payload (raw : dict) : dict := match get raw "intent" with VDict intent => intent | _ => raw end.

(** [payload.get("kind", payload.get("type", payload.get("intent")))] *)
Definition raw_kind_of (payload : dict) : pyval :=
  get_default payload "kind" (get_default payload "type" (get payload "intent")).

Definition _format_validation_error (errors : list pyd_error) : string :=
  match errors with
  | first_error :: _ =>
      "Invalid read-only intent field '" ++ py_join "." (pe_loc first_error) ++ "': " ++ pe_msg first_error ++ "."
  | [] => ""
  end.

Definition _parse_structured_intent (raw : dict) : result exn ParsedIntent :=
  let payload := _unwrap_payload raw in
  match raw_kind_of payload with
  | VStr raw_kind =>
      match dict_get _KIND_ALIASES (py_fold raw_kind) with
      | None => Ok (UnsupportedIntent ("Unsupported wallet intent: " ++ raw_kind ++ "."))
      | Some kind =>
          match intent_model_validate kind (dict_set payload "kind" (VStr (ReadOnlyIntentKind_value kind))) with
          | Err (ValidationError _ errors) => Err (UnsupportedIntentError (_format_validation_error errors))
          | r => r
          end
      end
  | _ => Ok (UnsupportedIntent "Structured intents must include a kind.")
  end.

Definition _parse_text_intent (text : string) : ParsedIntent :=
  let lowered := py_lower text in
  if existsb (fun word => py_contains word lowered) _VALUE_MOVING_WORDS
  then UnsupportedIntent "Value-moving wallet actions are not supported in this phase."
  else UnsupportedIntent "Use a structured read-only intent for wallet reads.".

Definition parse_readonly_intent (raw_input : pyval) (messages : list string) : result exn ParsedIntent :=
  match _coerce_raw_input raw_input messages with
  | VDict raw => _parse_structured_intent raw
  | VStr text => Ok (_parse_text_intent text)
  | _ => Ok (UnsupportedIntent "Provide a structured read-only wallet intent.")
  end.
End validation.

(** * [model_dump(mode="json")] *)

Definition of_opt_list (o : option (list string)) : pyval :=
  match o with Some l => VList (map VStr l) | None => VNone end.
Definition of_opt_block (o : option block_ref) : pyval := match o with Some b => block_value b | None => VNone end.

Definition entry_dump (e : TokenPriceIntentEntry) : pyval :=
  VDict [("chain", VStr (te_chain e)); ("token_address", VStr (te_token_address e))].

Definition intent_fields (i : ParsedIntent) : dict :=
  match i with
  | NativeBalance i => [("chain", of_opt_str (nb_chain i)); ("wallet_address", VStr (nb_wallet_address i))]
  | ERC20Balance i =>
      [("chain", of_opt_str (eb_chain i)); ("token_address", VStr (eb_token_address i));
       ("wallet_address", VStr (eb_wallet_address i))]
  | ERC20Allowance i =>
      [("chain", of_opt_str (ew_chain i)); ("token_address", VStr (ew_token_address i));
       ("owner_address", VStr (ew_owner_address i)); ("spender_address", VStr (ew_spender_address i))]
  | ERC20Metadata i => [("chain", of_opt_str (em_chain i)); ("token_address", VStr (em_token_address i))]
  | ContractRead i =>
      [("chain", of_opt_str (ct_chain i)); ("contract_address", VStr (ct_contract_address i));
       ("abi_fragment", VList (map VDict (ct_abi_fragment i))); ("function_name", VStr (ct_function_name i));
       ("args", VList (ct_args i))]
  | KnownAddress i =>
      [("chain", of_opt_str (ka_chain i)); ("category", VStr (category_value (ka_category i))); ("key", VStr (ka_key i))]
  | TokenPrices i =>
      [("chain", of_opt_str (tp_chain i)); ("token_address", of_opt_str (tp_token_address i));
       ("tokens", VList (map entry_dump (tp_tokens i)))]
  | PortfolioTokens i =>
      [("chain", of_opt_str (pf_chain i)); ("wallet_address", VStr (pf_wallet_address i));
       ("chains", of_opt_list (pf_chains i)); ("networks", of_opt_list (pf_networks i));
       ("with_metadata", VBool (pf_with_metadata i)); ("with_prices", VBool (pf_with_prices i));
       ("include_native_tokens", VBool (pf_include_native_tokens i));
       ("include_erc20_tokens", VBool (pf_include_erc20_tokens i)); ("page_key", of_opt_str (pf_page_key i))]
  | TransferHistory i =>
      [("chain", of_opt_str (th_chain i)); ("wallet_address", VStr (th_wallet_address i));
       ("direction", VStr (th_direction i)); ("categories", of_opt_list (th_categories i));
       ("from_block", of_opt_block (th_from_block i)); ("to_block", of_opt_block (th_to_block i));
       ("max_count", of_opt_int (th_max_count i)); ("page_key", of_opt_str (th_page_key i));
       ("with_metadata", VBool (th_with_metadata i)); ("exclude_zero_value", VBool (th_exclude_zero_value i))]
  | UnsupportedIntent reason => [("reason", VStr reason)]
  end.

Definition intent_dump (i : ParsedIntent) : dict :=
  ("kind", VStr (ReadOnlyIntentKind_value (intent_kind i))) :: intent_fields i.
