(* ===== verification/ReadIntentSpec.v ===== *)
(** What a parsed read-only intent satisfies, and that it is a fixed point of the parser: parsing the dump of an
    intent gives the intent back. *)
From stdpp Require Import base tactics option list sets strings.
From Stdlib Require Import ZArith Lia Ascii String.
From S2P Require Import Prelude Python Values Exceptions Errors Addresses Chains Models SwapModels Intents Networks ReadIntents.

Local Open Scope string_scope.
Local Open Scope Z_scope.
Local Open Scope validation_scope.

#[local] Opaque get_chain_by_name.

Section spec.
Context {W : Web3} {P : PydanticLax} (settings : MercurySettings).

(** Text that its normalisation keeps. *)
Definition folded (s : string) : Prop := py_fold s = s /\ s <> "".
Definition stripped (s : string) : Prop := py_strip s = s /\ s <> "".
Definition opt_all {A} (Q : A -> Prop) (o : option A) : Prop := forall a, o = Some a -> Q a.

Definition wf_entry (e : TokenPriceIntentEntry) : Prop := folded (te_chain e) /\ normalized (te_token_address e).

(** A chain that the registry knows and Alchemy serves. *)
Definition alchemy_chain (name : string) : Prop :=
  folded name /\ (exists c, get_chain_by_name settings name = Ok c) /\ exists n, mercury_chain_to_alchemy_network name = Ok n.

Definition wf_ParsedIntent (i : ParsedIntent) : Prop :=
  match i with
  | NativeBalance i => opt_all folded (nb_chain i) /\ normalized (nb_wallet_address i)
  | ERC20Balance i =>
      opt_all folded (eb_chain i) /\ normalized (eb_token_address i) /\ normalized (eb_wallet_address i)
  | ERC20Allowance i =>
      opt_all folded (ew_chain i) /\ normalized (ew_token_address i) /\ normalized (ew_owner_address i) /\
      normalized (ew_spender_address i)
  | ERC20Metadata i => opt_all folded (em_chain i) /\ normalized (em_token_address i)
  | ContractRead i =>
      opt_all folded (ct_chain i) /\ normalized (ct_contract_address i) /\ ct_abi_fragment i <> [] /\
      ct_function_name i <> ""
  | KnownAddress i => opt_all folded (ka_chain i) /\ stripped (ka_key i)
  | TokenPrices i =>
      tp_chain i = None /\ tp_token_address i = None /\ (1 <= List.length (tp_tokens i) <= 25)%nat /\
      (distinct_count (map te_chain (tp_tokens i)) <= 3)%nat /\ Forall wf_entry (tp_tokens i)
  | PortfolioTokens i =>
      pf_chain i = None /\ pf_networks i = None /\ normalized (pf_wallet_address i) /\
      opt_all stripped (pf_page_key i) /\
      exists names, pf_chains i = Some names /\ (1 <= List.length names <= 5)%nat /\ NoDup names /\ Forall alchemy_chain names
  | TransferHistory i =>
      opt_all folded (th_chain i) /\ normalized (th_wallet_address i) /\
      th_direction i ∈ ["incoming"; "outgoing"; "both"] /\ opt_all stripped (th_page_key i) /\
      (th_direction i = "both" -> th_page_key i = None) /\
      (exists mc, th_max_count i = Some mc /\ 1 <= mc <= 1000) /\
      exists cats, th_categories i = Some cats /\ cats <> [] /\ Forall (fun c => c ∈ ALLOWED_TRANSFER_CATEGORIES) cats
  | UnsupportedIntent _ => True
  end.

(** * Fields of validated input *)

Lemma normalize_chain_folded o : opt_all folded (normalize_chain o).
Proof.
  intros s. destruct o as [t|]; simpl; [|done]. destruct (str_empty (py_fold t)) eqn:E; [done|].
  intros [= <-]. split; [apply py_fold_idem | by apply str_empty_false].
Qed.

Lemma normalize_page_key_stripped o : opt_all stripped (normalize_page_key o).
Proof.
  intros s. destruct o as [t|]; simpl; [|done]. destruct (str_empty (py_strip t)) eqn:E; [done|].
  intros [= <-]. split; [apply py_strip_idem | by apply str_empty_false].
Qed.

Lemma chain_field_ok d c : chain_field d = Ok c -> opt_all folded c.
Proof. unfold chain_field. intros (o & _ & ->)%result_fmap_ok. apply normalize_chain_folded. Qed.
Lemma page_key_field_ok d c : page_key_field d = Ok c -> opt_all stripped c.
Proof. unfold page_key_field. intros (o & _ & ->)%result_fmap_ok. apply normalize_page_key_stripped. Qed.
Lemma address_field_normalized d k a : address_field d k = Ok a -> normalized a.
Proof. apply address_field_ok. Qed.

Lemma at_loc_ok {A} loc (r : V A) a : at_loc loc r = Ok a <-> r = Ok a.
Proof. destruct r; simpl; split; congruence. Qed.

Lemma v_items_ok {A} i (conv : string -> pyval -> V A) (Q : A -> Prop) l l' :
  (forall j v a, conv j v = Ok a -> Q a) -> v_items i conv l = Ok l' -> Forall Q l'.
Proof.
  intros Hc. revert i l'. induction l as [|v l IH]; intros i l' H; simpl in H.
  - injection H as <-. constructor.
  - apply result_fmap_ok in H as ([a t] & [H1 H2]%vboth_ok & ->). constructor; eauto.
Qed.

Lemma conv_list_ok {A} (conv : string -> pyval -> V A) (Q : A -> Prop) loc v l :
  (forall j v a, conv j v = Ok a -> Q a) -> conv_list conv loc v = Ok l -> Forall Q l.
Proof. intros Hc. destruct v; try done. simpl. rewrite at_loc_ok. by apply v_items_ok. Qed.

Lemma nest_ok {A} loc (r : result exn A) a : nest loc r = Ok a <-> r = Ok a.
Proof. destruct r as [|[]]; simpl; split; unfold verr; congruence. Qed.

Lemma key_field_ok d k :
  str_field d "key" (fun loc s => nonempty loc s ≫= fun t => vfield loc (strip_key t)) = Ok k -> stripped k.
Proof.
  unfold str_field. intros (v & _ & H)%req_ok. apply result_bind_ok in H as (s & _ & H).
  apply result_bind_ok in H as (t & _ & H). apply vfield_ok in H. unfold strip_key in H.
  destruct (str_empty (py_strip t)) eqn:E; [done|]. injection H as <-.
  split; [apply py_strip_idem | by apply str_empty_false].
Qed.

Lemma entry_fields_ok chain token e :
  (forall c, chain = Ok c -> folded c) -> (forall t, token = Ok t -> normalized t) ->
  TokenPriceIntentEntry_fields chain token = Ok e -> wf_entry e.
Proof. unfold TokenPriceIntentEntry_fields. intros Hc Ht H. inv_valid. subst. split; simpl; auto. Qed.

Lemma v_entry_chain_ok loc s c : v_entry_chain loc s = Ok c -> folded c.
Proof.
  unfold v_entry_chain, nonempty. intros (t & _ & H)%result_bind_ok. apply vfield_ok in H.
  unfold normalize_entry_chain in H. destruct (str_empty (py_fold t)) eqn:E; [done|]. injection H as <-.
  split; [apply py_fold_idem | by apply str_empty_false].
Qed.

Lemma v_address_field_normalized loc s a : v_address_field loc s = Ok a -> normalized a.
Proof. intros H%v_address_field_ok. by exists s. Qed.

Lemma entry_validate_ok v e : TokenPriceIntentEntry_validate v = Ok e -> wf_entry e.
Proof.
  destruct v as [| | | | | |d]; try done. simpl. apply entry_fields_ok; [|apply address_field_normalized].
  intros c. unfold str_field. intros (v & _ & (x & _ & H)%result_bind_ok)%req_ok. by eapply v_entry_chain_ok.
Qed.

Lemma make_entry_ok c t e : make_TokenPriceIntentEntry c t = Ok e -> wf_entry e.
Proof.
  apply entry_fields_ok; [intros ?; apply v_entry_chain_ok | intros ?; apply v_address_field_normalized].
Qed.

Lemma token_list_ok i j : Forall wf_entry (tp_tokens i) -> _normalize_token_list i = Ok j -> wf_ParsedIntent (TokenPrices j).
Proof.
  unfold _normalize_token_list. intros Hi (entries & He & H)%result_bind_ok.
  assert (Forall wf_entry entries) as Hw.
  { destruct (tp_tokens i) as [|e l]; [|by injection He as <-].
    destruct (tp_token_address i) as [t|]; [|done]. destruct (tp_chain i) as [[|c s]|]; try done.
    apply result_bind_ok in He as (e & He & [= <-]). constructor; [|constructor]. by eapply make_entry_ok. }
  destruct entries as [|e l]; [done|]. destruct (25 <? _)%nat eqn:E1; [done|]. destruct (3 <? _)%nat eqn:E2; [done|].
  injection H as <-. apply Nat.ltb_ge in E1, E2. simpl in *. split_and!; try done; lia.
Qed.

(** * Resolved chains *)

Lemma add_seen_ok name l (Q : string -> Prop) :
  NoDup l -> Forall Q l -> Q name -> NoDup (add_seen name l) /\ Forall Q (add_seen name l).
Proof.
  intros Hd Hl Hn. unfold add_seen. case_bool_decide as E; [done|]. split.
  - apply NoDup_app. split_and!; [done | | apply NoDup_singleton]. by intros x Hx ->%list_elem_of_singleton.
  - apply Forall_app. by split; [|constructor].
Qed.

Lemma resolve_networks_ok ns l l' :
  NoDup l -> Forall folded l -> resolve_networks ns l = Ok l' -> NoDup l' /\ Forall folded l'.
Proof.
  revert l. induction ns as [|n ns IH]; intros l Hd Hl H; simpl in H; [by injection H as <-|].
  destruct (str_empty (py_fold n)); [by eapply IH|].
  destruct (alchemy_network_to_mercury_chain (py_fold n)) as [c|e] eqn:E; [|by destruct (has_class _ e)].
  assert (folded c) as Hc.
  { pose proof (chain_of_network _ _ E) as [_ Hf]. split; [done|]. intros ->.
    apply chain_of_network in E as [E _]. vm_compute in E. discriminate. }
  pose proof (add_seen_ok c l folded Hd Hl Hc) as [Hd' Hl']. by eapply IH.
Qed.

Lemma resolve_chain_names_ok cs l :
  NoDup l -> Forall folded l -> NoDup (resolve_chain_names cs l) /\ Forall folded (resolve_chain_names cs l).
Proof.
  revert l. induction cs as [|c cs IH]; intros l Hd Hl; simpl; [done|].
  destruct (str_empty (py_fold c)) eqn:E; [by apply IH|].
  assert (folded (py_fold c)) as Hc by (split; [apply py_fold_idem | by apply str_empty_false]).
  pose proof (add_seen_ok (py_fold c) l folded Hd Hl Hc) as [Hd' Hl']. by apply IH.
Qed.

(** Names that are already resolved are resolved to themselves. *)
Lemma resolve_chain_names_again cs l :
  NoDup (l ++ cs) -> Forall folded cs -> resolve_chain_names cs l = (l ++ cs)%list.
Proof.
  revert l. induction cs as [|c cs IH]; intros l Hd Hf; simpl; [by rewrite app_nil_r|].
  apply Forall_cons in Hf as [[Hc Hne] Hf]. rewrite Hc. rewrite (proj2 (str_empty_false c)) by done.
  unfold add_seen. rewrite bool_decide_eq_false_2.
  - rewrite IH; [by rewrite <- (assoc_L (++)) | by rewrite <- (assoc_L (++)) | done].
  - intros Hin. apply NoDup_app in Hd as (_ & Hd & _). apply (Hd c Hin). apply elem_of_cons. by left.
Qed.

Lemma check_portfolio_chain_ok name u :
  check_portfolio_chain settings name = Ok u ->
  (exists c, get_chain_by_name settings name = Ok c) /\ exists n, mercury_chain_to_alchemy_network name = Ok n.
Proof.
  unfold check_portfolio_chain. intros ([] & H1 & H2)%result_bind_ok. split.
  - destruct (get_chain_by_name settings name) as [c|e]; [by exists c | by destruct (has_class _ e)].
  - destruct (mercury_chain_to_alchemy_network name) as [n|e]; [by exists n | by destruct (has_class _ e)].
Qed.

Lemma check_portfolio_chains_ok names u :
  check_portfolio_chains settings names = Ok u ->
  Forall (fun name => (exists c, get_chain_by_name settings name = Ok c) /\
                      exists n, mercury_chain_to_alchemy_network name = Ok n) names.
Proof.
  revert u. induction names as [|n l IH]; intros u H; constructor; simpl in H; apply result_bind_ok in H as (v & H1 & H2).
  - by eapply check_portfolio_chain_ok.
  - by eapply IH.
Qed.

Lemma check_portfolio_chains_intro names : Forall alchemy_chain names -> check_portfolio_chains settings names = Ok tt.
Proof.
  induction 1 as [|n l (_ & [c Hc] & [m Hm]) _ IH]; [done|].
  cbn [check_portfolio_chains]. unfold check_portfolio_chain. by rewrite Hc, Hm.
Qed.

Lemma resolve_chains_ok i j :
  normalized (pf_wallet_address i) -> opt_all stripped (pf_page_key i) -> opt_all folded (pf_chain i) ->
  _resolve_chains settings i = Ok j -> wf_ParsedIntent (PortfolioTokens j).
Proof.
  unfold _resolve_chains. intros Hw Hp Hch (names & Hn & H)%result_bind_ok.
  assert (NoDup names /\ Forall folded names) as [Hd Hf].
  { destruct (nonempty_list (pf_chains i)), (nonempty_list (pf_networks i)); try done.
    - injection Hn as <-. apply resolve_chain_names_ok; constructor.
    - eapply resolve_networks_ok; [| |exact Hn]; constructor.
    - destruct (pf_chain i) as [c|] eqn:Ec; [|done]. destruct (str_empty _); [done|]. injection Hn as <-.
      destruct (Hch c eq_refl) as [Hc Hne]. rewrite Hc. split; [apply NoDup_singleton | by constructor]. }
  destruct names as [|n l]; [done|]. destruct (5 <? _)%nat eqn:E; [done|].
  apply result_bind_ok in H as (u & Hc & [= <-]). apply check_portfolio_chains_ok in Hc. apply Nat.ltb_ge in E.
  simpl. split_and!; try done. exists (n :: l). split_and!; [done | simpl in *; lia | simpl in *; lia | done |].
  apply Forall_forall. intros x Hx. rewrite Forall_forall in Hc, Hf. destruct (Hc x Hx). split_and!; auto; by apply Hf.
Qed.

(** * Transfer history *)

Lemma direction_alias s dir :
  dict_get direction_aliases s = Some dir ->
  dir ∈ ["incoming"; "outgoing"; "both"] /\ dict_get direction_aliases (py_fold dir) = Some dir.
Proof.
  unfold direction_aliases. cbn [dict_get].
  repeat (case (String.eqb_spec s); [intros -> [= <-]; split; [set_solver | reflexivity] | intros _]). done.
Qed.

Lemma check_categories_ok cats u :
  check_categories cats = Ok u <-> u = tt /\ Forall (fun c => c ∈ ALLOWED_TRANSFER_CATEGORIES) cats.
Proof.
  induction cats as [|c cats IH]; simpl; [destruct u; split; [intros _; by split | done]|].
  case_bool_decide as E; rewrite Forall_cons; [rewrite IH; tauto | split; [done | by intros (_ & ? & _)]].
Qed.

Lemma resolve_categories_ok o cats :
  resolve_categories o = Ok cats -> cats <> [] /\ Forall (fun c => c ∈ ALLOWED_TRANSFER_CATEGORIES) cats.
Proof.
  unfold resolve_categories. destruct (nonempty_list o) as [l|].
  - destruct (map py_fold _) as [|c cs] eqn:E; [done|]. intros (u & [_ H]%check_categories_ok & [= <-])%result_bind_ok. done.
  - intros [= <-]. split; [done|]. unfold ALLOWED_TRANSFER_CATEGORIES. apply Forall_forall. set_solver.
Qed.

Lemma allowed_folded c : c ∈ ALLOWED_TRANSFER_CATEGORIES -> py_fold c = c /\ str_empty (py_strip c) = false.
Proof.
  unfold ALLOWED_TRANSFER_CATEGORIES, TRANSFER_DEFAULT_CATEGORIES. cbn [app]. intros H.
  repeat (apply elem_of_cons in H as [->|H]; [by split|]). by apply not_elem_of_nil in H.
Qed.

Lemma resolve_categories_again cats :
  cats <> [] -> Forall (fun c => c ∈ ALLOWED_TRANSFER_CATEGORIES) cats -> resolve_categories (Some cats) = Ok cats.
Proof.
  intros Hne Hc. unfold resolve_categories.
  assert (map py_fold (List.filter (fun c => negb (str_empty (py_strip c))) cats) = cats) as Hm.
  { clear Hne. induction Hc as [|c cs [Hf He]%allowed_folded _ IH]; [done|]. simpl. rewrite He. simpl. by rewrite Hf, IH. }
  destruct cats as [|c cs]; [done|]. cbn [nonempty_list]. rewrite Hm.
  by rewrite (proj2 (check_categories_ok (c :: cs) tt)).
Qed.

Lemma transfer_fields_ok i j :
  normalized (th_wallet_address i) -> opt_all stripped (th_page_key i) -> opt_all folded (th_chain i) ->
  _normalize_transfer_fields i = Ok j -> wf_ParsedIntent (TransferHistory j).
Proof.
  unfold _normalize_transfer_fields. intros Hw Hp Hch. destruct (dict_get _ _) as [dir|] eqn:Ed; [|done].
  intros (cats & [Hne Hc]%resolve_categories_ok & H)%result_bind_ok. apply direction_alias in Ed as [Hd _].
  destruct ((_ <? 1) || _) eqn:E; [done|]. injection H as <-.
  apply orb_false_iff in E as [E1%Z.ltb_ge E2%Z.ltb_ge]. simpl. split_and!; try done.
  - destruct (String.eqb dir "both"); [done | exact Hp].
  - by intros ->.
  - eexists. split; [done | lia].
  - by exists cats.
Qed.

(** * Every parsed intent is well-formed *)

Ltac fields :=
  inv_valid; subst; simpl in *;
  repeat match goal with
  | H : chain_field _ = Ok _ |- _ => apply chain_field_ok in H
  | H : page_key_field _ = Ok _ |- _ => apply page_key_field_ok in H
  | H : address_field _ _ = Ok _ |- _ => apply address_field_normalized in H
  end.

Lemma intent_validate_wf kind d i : intent_model_validate settings kind d = Ok i -> wf_ParsedIntent i /\ intent_kind i = kind.
Proof.
  destruct kind; simpl; [| | | | | | | | |done]; intros (x & H & ->)%result_fmap_ok; (split; [|reflexivity]).
  - unfold NativeBalanceIntent_validate in H. fields. by split.
  - unfold ERC20BalanceIntent_validate in H. fields. by split_and!.
  - unfold ERC20AllowanceIntent_validate in H. fields. by split_and!.
  - unfold ERC20MetadataIntent_validate in H. fields. by split_and!.
  - unfold ContractReadIntent_validate in H. fields. split_and!; try done.
    + match goal with H : req _ _ _ = Ok ?l |- ?l <> [] => apply req_ok in H as (v & _ & (l' & _ & H)%result_bind_ok) end.
      intros ->. by destruct l'.
    + by eapply nonempty_field_ok.
  - unfold KnownAddressIntent_validate in H. fields. split_and!; try done.
    by eapply key_field_ok.
  - unfold TokenPricesIntent_validate in H. fields. eapply token_list_ok; [|exact H]. simpl.
    match goal with H : dflt _ _ _ _ = Ok _ |- _ => eapply (dflt_ok _ _ _ (Forall wf_entry)) in H; [exact H| |constructor] end.
    intros v y. apply conv_list_ok. intros j w a Ha%nest_ok. by eapply entry_validate_ok.
  - unfold PortfolioTokensIntent_validate in H. fields. by eapply resolve_chains_ok; [| | |exact H].
  - unfold TransferHistoryIntent_validate in H. fields. by eapply transfer_fields_ok; [| | |exact H].
Qed.

Lemma kind_not_unsupported s k : dict_get _KIND_ALIASES s = Some k -> k <> UNSUPPORTED.
Proof.
  unfold _KIND_ALIASES. cbn [dict_get].
  repeat (case (String.eqb s _); [by intros [= <-]|]). done.
Qed.

Lemma structured_wf raw i : _parse_structured_intent settings raw = Ok i -> wf_ParsedIntent i.
Proof.
  unfold _parse_structured_intent. destruct (raw_kind_of _); try (by intros [= <-]).
  destruct (dict_get _ _) as [k|]; [|by intros [= <-]].
  destruct (intent_model_validate _ _ _) as [j|[]] eqn:E; intros [= <-]. by apply intent_validate_wf in E as [? _].
Qed.

Lemma parse_wf raw_input messages i : parse_readonly_intent settings raw_input messages = Ok i -> wf_ParsedIntent i.
Proof.
  unfold parse_readonly_intent, _parse_text_intent.
  destruct (_coerce_raw_input _ _); try (by intros [= <-]); [|by apply structured_wf].
  destruct (existsb _ _); by intros [= <-].
Qed.

(** C28. A parsed read-only intent is well-formed whatever the input was: its addresses are checksummed, its chain name is
    folded and not empty, token prices have 1 to 25 entries on at most 3 chains, a portfolio 1 to 5 distinct chains that
    the registry knows and Alchemy serves, a transfer history a direction, allowed categories and 1 to 1000 rows (and no
    page key when both directions are asked). *)
Theorem readonly_intent_wf (raw_input : pyval) (messages : list string) (i : ParsedIntent)
    (Hp : parse_readonly_intent settings raw_input messages = Ok i) :
  wf_ParsedIntent i.
Proof. by eapply parse_wf. Qed.

(** * Parsing the dump *)

Context {L : Web3Laws W} {PL : PydanticLaxLaws P}.

Lemma optional_str d key o : dict_get d key = Some (of_opt_str o) -> optional d key (conv_str key) = Ok o.
Proof. unfold optional. intros ->. by destruct o. Qed.

Lemma chain_field_intro d o : dict_get d "chain" = Some (of_opt_str o) -> opt_all folded o -> chain_field d = Ok o.
Proof.
  intros Hd Ho. unfold chain_field. rewrite (optional_str _ _ o) by done. cbn. f_equal. destruct o as [s|]; [|done].
  destruct (Ho s eq_refl) as [Hf Hne]. simpl. rewrite Hf. by rewrite (proj2 (str_empty_false s)).
Qed.

Lemma page_key_field_intro d o : dict_get d "page_key" = Some (of_opt_str o) -> opt_all stripped o -> page_key_field d = Ok o.
Proof.
  intros Hd Ho. unfold page_key_field. rewrite (optional_str _ _ o) by done. cbn. f_equal. destruct o as [s|]; [|done].
  destruct (Ho s eq_refl) as [Hf Hne]. simpl. rewrite Hf. by rewrite (proj2 (str_empty_false s)).
Qed.

Lemma str_field_intro d key s f a : dict_get d key = Some (VStr s) -> f key s = Ok a -> str_field d key f = Ok a.
Proof. unfold str_field, req. by intros ->. Qed.

Lemma address_field_intro d key a : dict_get d key = Some (VStr a) -> normalized a -> address_field d key = Ok a.
Proof. intros Hd Ha. eapply str_field_intro; [done|]. by apply v_address_field_intro. Qed.

Lemma bool_field_intro d key b b0 : dict_get d key = Some (VBool b) -> bool_field d key b0 = Ok b.
Proof. unfold bool_field, dflt, conv_bool. intros ->. by rewrite lax_bool_bool. Qed.

Lemma v_items_map {A} i (conv : string -> pyval -> V A) (f : A -> pyval) (l : list A) :
  (forall j a, a ∈ l -> conv j (f a) = Ok a) -> v_items i conv (map f l) = Ok l.
Proof.
  revert i. induction l as [|a l IH]; intros i Hc; [done|]. cbn [map v_items].
  rewrite Hc, IH; [done | | apply elem_of_cons; by left]. intros j b Hb. apply Hc. apply elem_of_cons. by right.
Qed.

Lemma conv_list_map {A} loc (conv : string -> pyval -> V A) (f : A -> pyval) (l : list A) :
  (forall j a, a ∈ l -> conv j (f a) = Ok a) -> conv_list conv loc (VList (map f l)) = Ok l.
Proof. intros Hc. simpl. apply at_loc_ok. by apply v_items_map. Qed.

Lemma opt_list_intro d key o : dict_get d key = Some (of_opt_list o) -> optional d key (conv_list conv_str key) = Ok o.
Proof.
  unfold optional. intros ->. destruct o as [l|]; [|done]. cbn [of_opt_list].
  by rewrite (conv_list_map key conv_str VStr l).
Qed.

Lemma opt_block_intro d key o : dict_get d key = Some (of_opt_block o) -> optional d key (conv_block key) = Ok o.
Proof.
  unfold optional. intros ->. destruct o as [[s|z]|]; simpl; [done | by rewrite lax_int_int | done].
Qed.

Lemma opt_int_intro d key o : dict_get d key = Some (of_opt_int o) -> optional d key (conv_int key) = Ok o.
Proof. unfold optional, conv_int. intros ->. destruct o as [z|]; simpl; [by rewrite lax_int_int | done]. Qed.

Lemma v_model_with_intro {A B C} title (f : A -> B) (v : V A) (a : A) (after : B -> result exn C) c :
  v = Ok a -> after (f a) = Ok c -> v_model_with title (f <$> v) after = Ok c.
Proof. intros -> H. apply v_model_with_ok. by exists (f a). Qed.

Ltac dump_fields Hd :=
  repeat apply vboth_intro;
  first [ eapply chain_field_intro; [apply Hd; reflexivity | assumption]
        | eapply address_field_intro; [apply Hd; reflexivity | assumption]
        | eapply page_key_field_intro; [apply Hd; reflexivity | assumption]
        | eapply bool_field_intro; apply Hd; reflexivity
        | eapply opt_list_intro; apply Hd; reflexivity
        | eapply opt_block_intro; apply Hd; reflexivity
        | eapply opt_int_intro; apply Hd; reflexivity
        | idtac ].

Lemma entry_dump_validate e : wf_entry e -> TokenPriceIntentEntry_validate (entry_dump e) = Ok e.
Proof.
  intros [[Hf Hne] Ha]. unfold entry_dump, TokenPriceIntentEntry_validate, TokenPriceIntentEntry_fields.
  destruct e as [c t]. simpl in *. apply (v_model_fmap _ _ _ _ (c, t)); [|reflexivity|reflexivity].
  apply vboth_intro; [|by eapply address_field_intro].
  eapply str_field_intro; [reflexivity|]. unfold v_entry_chain, nonempty. rewrite v_min_length_intro by done.
  cbn [mbind result_bind]. unfold normalize_entry_chain. rewrite Hf. by rewrite (proj2 (str_empty_false c)).
Qed.

Lemma token_list_again i : wf_ParsedIntent (TokenPrices i) -> _normalize_token_list i = Ok i.
Proof.
  destruct i as [c t l]. simpl. intros (-> & -> & Hl & Hd & _). unfold _normalize_token_list. simpl.
  destruct l as [|e l]; [simpl in Hl; lia|]. cbn [mbind result_bind].
  rewrite (proj2 (Nat.ltb_ge _ _)) by lia. by rewrite (proj2 (Nat.ltb_ge _ _)) by lia.
Qed.

Lemma resolve_chains_again i : wf_ParsedIntent (PortfolioTokens i) -> _resolve_chains settings i = Ok i.
Proof.
  destruct i as [c w cs ns wm wp wn we pk]. simpl. intros (-> & -> & _ & _ & names & -> & Hl & Hd & Hc).
  unfold _resolve_chains. simpl. destruct names as [|n l]; [simpl in Hl; lia|]. cbn [nonempty_list].
  rewrite (resolve_chain_names_again (n :: l) []); [| done | eapply Forall_impl; [exact Hc | by intros x [? _]]].
  cbn [app mbind result_bind]. rewrite (proj2 (Nat.ltb_ge _ _)) by lia.
  by rewrite check_portfolio_chains_intro.
Qed.

Lemma transfer_fields_again i : wf_ParsedIntent (TransferHistory i) -> _normalize_transfer_fields i = Ok i.
Proof.
  destruct i as [c w dir cats fb tb mc pk wm ez]. simpl.
  intros (_ & _ & Hdir & _ & Hpk & (m & -> & Hm) & l & -> & Hne & Hc). unfold _normalize_transfer_fields.
  cbn [th_chain th_wallet_address th_direction th_categories th_from_block th_to_block th_max_count th_page_key
       th_with_metadata th_exclude_zero_value default].
  assert (dict_get direction_aliases (py_fold dir) = Some dir) as ->.
  { repeat (apply elem_of_cons in Hdir as [->|Hdir]; [reflexivity|]). by apply not_elem_of_nil in Hdir. }
  rewrite resolve_categories_again by done. cbn [mbind result_bind].
  unfold id. assert ((m <? 1) || (1000 <? m) = false) as -> by (apply orb_false_iff; split; apply Z.ltb_ge; lia). do 2 f_equal.
  destruct (String.eqb_spec dir "both") as [->|]; [|done]. symmetry. by apply Hpk.
Qed.

Lemma intent_dump_validate i d :
  wf_ParsedIntent i -> intent_kind i <> UNSUPPORTED -> carries_dict d (intent_dump i) ->
  intent_model_validate settings (intent_kind i) d = Ok i.
Proof.
  destruct i as [x|x|x|x|x|x|x|x|x|r]; intros Hwf Hk Hd; [..|done]; cbn [intent_kind intent_model_validate];
    (eapply (proj2 (result_fmap_ok _ _ _)); exists x; split; [|reflexivity]).
  - destruct x, Hwf; simpl in *. eapply v_model_fmap; [dump_fields Hd | reflexivity | reflexivity].
  - destruct x, Hwf as (? & ? & ?); simpl in *. eapply v_model_fmap; [dump_fields Hd | reflexivity | reflexivity].
  - destruct x, Hwf as (? & ? & ? & ?); simpl in *. eapply v_model_fmap; [dump_fields Hd | reflexivity | reflexivity].
  - destruct x, Hwf; simpl in *. eapply v_model_fmap; [dump_fields Hd | reflexivity | reflexivity].
  - destruct x as [c a abi f args], Hwf as (? & ? & Habi & Hf); simpl in *.
    apply (v_model_fmap _ _ _ _ (c, a, abi, f, args)); [dump_fields Hd | reflexivity | reflexivity].
    + unfold req. rewrite (Hd "abi_fragment" _ eq_refl). cbv iota.
      rewrite (conv_list_map _ _ VDict abi) by done. cbn [mbind result_bind]. by destruct abi.
    + eapply str_field_intro; [apply Hd; reflexivity|]. by apply v_min_length_intro.
    + unfold dflt. rewrite (Hd "args" _ eq_refl). cbv iota.
      pose proof (conv_list_map "args" conv_any id args) as Hargs. rewrite map_id in Hargs. by apply Hargs.
  - destruct x as [c cat k], Hwf as (? & Hk'); simpl in *.
    apply (v_model_fmap _ _ _ _ (c, cat, k)); [dump_fields Hd | reflexivity | reflexivity].
    + unfold req. rewrite (Hd "category" _ eq_refl). cbv iota. by destruct cat.
    + destruct Hk' as [Hs Hne]. eapply str_field_intro; [apply Hd; reflexivity|]. unfold nonempty. rewrite v_min_length_intro by done.
      cbn [mbind result_bind]. unfold strip_key. cbn [ka_key]. rewrite Hs. by rewrite (proj2 (str_empty_false k)).
  - pose proof (token_list_again x Hwf) as Hafter.
    destruct x as [c t l]. cbn in Hwf. destruct Hwf as (-> & -> & ? & ? & He).
    apply (v_model_with_intro _ _ _ (None, None, l)); [|exact Hafter].
    repeat apply vboth_intro;
      [eapply chain_field_intro; [apply Hd; reflexivity | done]
      |unfold opt_str_field, optional; by rewrite (Hd "token_address" _ eq_refl)|].
    unfold dflt. rewrite (Hd "tokens" _ eq_refl). cbv iota.
    apply conv_list_map. intros j e He'. apply nest_ok. apply entry_dump_validate. by eapply Forall_forall in He.
  - pose proof (resolve_chains_again x Hwf) as Hafter.
    destruct x as [c w cs ns wm wp wn we pk]. cbn in Hwf. destruct Hwf as (-> & -> & ? & ? & names & -> & _).
    apply (v_model_with_intro _ _ _ (None, w, Some names, None, wm, wp, wn, we, pk)); [|exact Hafter].
    dump_fields Hd. eapply chain_field_intro; [apply Hd; reflexivity | done].
  - pose proof (transfer_fields_again x Hwf) as Hafter.
    destruct x as [c w dir cats fb tb mc pk wm ez]. cbn in Hwf. destruct Hwf as (? & ? & ? & ? & _).
    apply (v_model_with_intro _ _ _ (c, w, dir, cats, fb, tb, mc, pk, wm, ez)); [|exact Hafter].
    dump_fields Hd. unfold dflt. by rewrite (Hd "direction" _ eq_refl).
Qed.

(** A payload that carries the dump of an intent, and is not itself an envelope, parses to the intent. *)
Lemma structured_dump i d :
  wf_ParsedIntent i -> intent_kind i <> UNSUPPORTED -> carries_dict d (intent_dump i) -> _unwrap_payload d = d ->
  _parse_structured_intent settings d = Ok i.
Proof.
  intros Hwf Hk Hd Hu. unfold _parse_structured_intent. rewrite Hu.
  assert (raw_kind_of d = VStr (ReadOnlyIntentKind_value (intent_kind i))) as ->.
  { unfold raw_kind_of, get_default. by rewrite (Hd "kind" _ eq_refl). }
  assert (dict_get _KIND_ALIASES (py_fold (ReadOnlyIntentKind_value (intent_kind i))) = Some (intent_kind i)) as ->
    by (destruct (intent_kind i); done).
  rewrite intent_dump_validate; [done | done | done |]. apply carries_dict_set; [by left | done].
Qed.

(** C29. A supported read-only intent is a fixed point of the parser: parsing the JSON dump of a parsed intent, with any
    messages, gives the same intent, whatever the input it first came from. *)
Theorem readonly_intent_revalidates (raw_input : pyval) (messages messages' : list string) (i : ParsedIntent)
    (Hp : parse_readonly_intent settings raw_input messages = Ok i) (Hk : intent_kind i <> UNSUPPORTED) :
  parse_readonly_intent settings (VDict (intent_dump i)) messages' = Ok i.
Proof.
  pose proof (parse_wf _ _ _ Hp) as Hwf. cbn.
  apply structured_dump; [done | done | apply carries_dict_refl | by destruct i].
Qed.
End spec.

(** * Examples *)

Definition sample_portfolio_request : pyval := VDict [
  ("type", VStr " Get_Portfolio_Tokens ");
  ("wallet_address", VStr "0xC02aaA39b223FE8D0A0e5C4F27eAD9083C756Cc2");
  ("networks", VList [VStr " ETH-mainnet"; VStr "base-mainnet"; VStr ""; VStr "eth-mainnet"]);
  ("page_key", VStr "  ");
  ("with_prices", VBool false)].

Example sample_portfolio_chains :
  (fun i => match i with PortfolioTokens p => pf_chains p | _ => None end) <$>
    parse_readonly_intent default_settings sample_portfolio_request [] = Ok (Some ["ethereum"; "base"]).
Proof. vm_compute. reflexivity. Qed.

Example value_moving_text :
  parse_readonly_intent default_settings (VStr "please Send 1 ETH") [] =
  Ok (UnsupportedIntent "Value-moving wallet actions are not supported in this phase.").
Proof. vm_compute. reflexivity. Qed.

Example price_error :
  parse_readonly_intent default_settings (VDict [("kind", VStr "token_prices"); ("tokens", VList [VDict [("chain", VStr "base")]])]) [] =
  Err (UnsupportedIntentError "Invalid read-only intent field 'tokens.0.token_address': Field required.").
Proof. vm_compute. reflexivity. Qed.

Lemma readonly_intent_wf_witness :
  exists i, parse_readonly_intent default_settings sample_portfolio_request [] = Ok i /\ wf_ParsedIntent default_settings i.
Proof.
  eexists. split; [vm_compute; reflexivity|].
  apply (readonly_intent_wf default_settings sample_portfolio_request []). vm_compute. reflexivity.
Defined.

Lemma readonly_intent_revalidates_witness :
  exists i, parse_readonly_intent default_settings sample_portfolio_request [] = Ok i /\
    parse_readonly_intent default_settings (VDict (intent_dump i)) ["hello"] = Ok i.
Proof.
  eexists. split; [vm_compute; reflexivity|].
  apply (readonly_intent_revalidates default_settings sample_portfolio_request []); [vm_compute; reflexivity | done].
Defined.
