(* ===== verification/Alchemy.v ===== *)
(** What Mercury makes of Alchemy's answers ([mercury/alchemy/prices.py], [portfolio.py], [transfers.py]): the
    normalisation of response rows, the display of balances, and the parameters of requests. *)
From stdpp Require Import base tactics option list sets strings.
From Stdlib Require Import ZArith Lia Ascii String.
From S2P Require Import Prelude Python Values Exceptions Amounts Addresses Chains Models Networks ReadIntents.

Local Open Scope string_scope.
Local Open Scope Z_scope.

(** * Integers in text *)

(** Hex digits with single underscores between them. *)
Fixpoint hex_digits (s : string) : option (list Z) :=
  let digit c := if is_ascii_digit c then code c - 48 else code (lower_char c) - 87 in
  match s with
  | EmptyString => None
  | String c s' =>
      if is_hex_digit c then
        match s' with
        | EmptyString => Some [digit c]
        | String u s'' =>
            if Ascii.eqb u "_" then cons (digit c) <$> hex_digits s'' else cons (digit c) <$> hex_digits s'
        end
      else None
  end.

(** [int(s, 16)]; [None] is the [ValueError]. *)
Definition py_int_hex (s : string) : option Z :=
  let (neg, r) := take_sign (py_strip s) in
  let r := if py_startswith (py_lower r) "0x"
           then match str_drop 2 r with
                | String u r' => if Ascii.eqb u "_" then r' else String u r'
                | EmptyString => EmptyString
                end
           else r in
  match hex_digits r with
  | Some ds => let n := foldl (fun acc d => 16 * acc + d) 0 ds in Some (if neg then - n else n)
  | None => None
  end.

(** [hex(n)] *)
Fixpoint hex_of (fuel : nat) (n : Z) (acc : string) : string :=
  match fuel with
  | O => acc
  | S f => let acc' := String (hex_char (n mod 16)) acc in if n / 16 =? 0 then acc' else hex_of f (n / 16) acc'
  end.
Definition py_hex (n : Z) : string :=
  let m := Z.abs n in (if n <? 0 then "-0x" else "0x") ++ hex_of (S (Z.to_nat (Z.log2 m))) m "".

(** [s.isdecimal()] *)
Definition py_isdecimal (s : string) : bool := negb (str_empty s) && str_forall is_ascii_digit s.

(** The text of an [int] beyond the limit of CPython raises. *)
Definition int_text (n : Z) : result exn string :=
  if MAX_STR_DIGITS <? num_digits (Z.abs n) then Err int_str_limit else Ok (py_str_int n).

(** * Rows *)

(** [value if isinstance(value, str) else other] *)
Definition str_or (v : pyval) (other : string) : string := match v with VStr s => s | _ => other end.
Definition str_or_none (v : pyval) : pyval := match v with VStr s => VStr s | _ => VNone end.

Definition dict_rows (v : pyval) : list dict := match v with VList l => omap as_dict l | _ => [] end.

Definition price_entry (p : dict) : pyval :=
  VDict [("currency", VStr (str_or (get p "currency") (py_str (get p "currency")))); ("value", get p "value");
         ("lastUpdatedAt", get p "lastUpdatedAt")].

Definition price_entries (prices_raw : pyval) : pyval := VList (map price_entry (dict_rows prices_raw)).

Definition _coerce_error (err : pyval) : pyval :=
  match err with VNone => VNone | VStr s => VStr s | _ => VStr (py_str err) end.

(** The chain of a network Alchemy names, or no name. *)
Definition chain_or_empty (network : string) : string :=
  if str_empty network then "" else match alchemy_network_to_mercury_chain network with Ok c => c | Err _ => "" end.

Section rows.
Context {W : Web3}.

(** [try: normalize_evm_address(s) except InvalidEVMAddressError: other] *)
Definition address_or (s other : string) : string :=
  match normalize_evm_address s with Ok a => a | Err _ => other end.

Definition normalize_token_price_row (mercury_chain_by_network : list (string * string)) (row : dict) : pyval :=
  let network_s := str_or (get row "network") "" in
  let address_s := str_or (get row "address") "" in
  VDict [("network", VStr network_s); ("mercury_chain", VStr (default "" (dict_get mercury_chain_by_network network_s)));
         ("address", VStr (if str_empty address_s then address_s else address_or address_s address_s));
         ("prices", price_entries (get row "prices")); ("error", _coerce_error (get row "error"))].

Definition normalize_token_price_rows (raw : pyval) (mercury_chain_by_network : list (string * string)) : list pyval :=
  map (normalize_token_price_row mercury_chain_by_network) (dict_rows raw).

(** * portfolio.py *)

Definition _parse_token_balance_int (balance_s : string) : option Z :=
  let s := py_strip balance_s in
  if str_empty s then None else if py_startswith (py_lower s) "0x" then py_int_hex s else py_int_str s.

Definition in_byte_range (z : Z) : option Z := if (0 <=? z) && (z <=? 256) then Some z else None.

Definition _coerce_meta_decimals (value : pyval) : result exn (option Z) :=
  match value with
  | VInt z => Ok (in_byte_range z)
  | VFloat r =>
      match decimal_of_string r with
      | Some (Fin n c e) => Ok (if dec_is_integral c e then in_byte_range (dec_int n c e) else None)
      | Some (Inf _) => Err (Exn ExceptionC "cannot convert float infinity to integer")
      | _ => Err (ValueError "cannot convert float NaN to integer")
      end
  | VStr s =>
      let t := py_strip s in
      if py_isdigit t then
        match py_int_str t with
        | Some z => Ok (in_byte_range z)
        | None => Err (ValueError ("invalid literal for int() with base 10: " ++ py_repr_str t))
        end
      else Ok None
  | _ => Ok None
  end.

Definition _resolved_decimals_for_display (metadata : option dict) (token_address : option string)
    : result exn (option Z) :=
  dec ← match metadata with Some m => _coerce_meta_decimals (get m "decimals") | None => Ok None end;
  Ok match dec, token_address with
     | Some d, _ => Some d
     | None, None => Some 18
     | None, Some _ => None
     end.

(** [s.rstrip("0").rstrip(".")] of text with a point *)
Definition trim_fraction (s : string) : string :=
  if py_contains "." s then rstrip_if (fun c => Ascii.eqb c ".") (rstrip_if (fun c => Ascii.eqb c "0") s) else s.

(** The division is in the default context of [decimal]: 28 digits. *)
Definition _format_units_to_display (raw_int decimals : Z) : result exn string :=
  if (decimals <? 0) || (256 <? decimals) then int_text raw_int
  else
    scale ← dec_fix DEFAULT_PREC false (dec_pow10 decimals) 0;
    match scale with
    | Fin _ cs es =>
        d ← dec_div DEFAULT_PREC (Z.abs raw_int) 0 cs es;
        match d with
        | Fin _ c e =>
            if c =? 0 then Ok "0"
            else
              let s := trim_fraction ((if raw_int <? 0 then "-" else "") ++ format_f c e) in
              Ok (if str_empty s then "0" else s)
        | _ => Err Overflow
        end
    | _ => Err Overflow
    end.

Definition compute_portfolio_balance_display (balance_s : string) (token_address : option string)
    (metadata : option dict) : result exn string :=
  match _parse_token_balance_int balance_s with
  | None => Ok balance_s
  | Some parsed =>
      dec ← _resolved_decimals_for_display metadata token_address;
      match dec with
      | None => t ← int_text parsed; Ok (t ++ " (raw base units)")
      | Some d => _format_units_to_display parsed d
      end
  end.

(** A stripped address, checksummed when it is one. *)
Definition displayed_address (s : string) : string := address_or s (py_strip s).

Definition row_wallet (wallet_address : string) (v : pyval) : string :=
  match v with VStr s => if str_empty (py_strip s) then wallet_address else displayed_address s | _ => wallet_address end.

Definition row_token (v : pyval) : option string :=
  match v with VStr s => if str_empty (py_strip s) then None else Some (displayed_address s) | _ => None end.

Definition row_balance (v : pyval) : string := match v with VStr s => s | VNone => "" | _ => py_str v end.

Definition row_metadata (v : pyval) : option dict :=
  match v with
  | VDict m =>
      let decimals := get m "decimals" in
      Some [("decimals", match as_int decimals with Some z => VInt z | None => decimals end);
            ("logo", str_or_none (get m "logo")); ("name", str_or_none (get m "name"));
            ("symbol", str_or_none (get m "symbol"))]
  | _ => None
  end.

Definition of_opt_dict (o : option dict) : pyval := match o with Some d => VDict d | None => VNone end.

Definition normalize_portfolio_token_row (wallet_address : string) (row : dict) : result exn pyval :=
  let network_s := str_or (get row "network") "" in
  let token_out := row_token (get row "tokenAddress") in
  let balance_s := row_balance (get row "tokenBalance") in
  let meta_out := row_metadata (get row "tokenMetadata") in
  display ← compute_portfolio_balance_display balance_s token_out meta_out;
  Ok (VDict [("wallet_address", VStr (row_wallet wallet_address (get row "address"))); ("network", VStr network_s);
             ("mercury_chain", VStr (chain_or_empty network_s)); ("token_address", of_opt_str token_out);
             ("balance", VStr balance_s); ("balance_display", VStr display); ("metadata", of_opt_dict meta_out);
             ("prices", price_entries (get row "tokenPrices")); ("error", _coerce_error (get row "error"))]).

Fixpoint normalize_portfolio_token_rows (rows : list dict) (wallet_address : string) : result exn (list pyval) :=
  match rows with
  | [] => Ok []
  | row :: rows' =>
      r ← normalize_portfolio_token_row wallet_address row;
      rs ← normalize_portfolio_token_rows rows' wallet_address; Ok (r :: rs)
  end.

(** * transfers.py *)

Definition AlchemyTransfersValidationError (text : string) : exn := Exn AlchemyValidationErrorC text.

Definition normalize_block_param (block : option block_ref) : result exn (option string) :=
  match block with
  | None => Ok None
  | Some (BlockInt z) =>
      if z <? 0
      then Err (AlchemyTransfersValidationError "from_block/to_block must be non-negative when passed as integers.")
      else Ok (Some (py_hex z))
  | Some (BlockStr s) =>
      let segment := py_strip s in
      if str_empty segment then Ok None else
      let lowered := py_lower segment in
      if String.eqb lowered "latest" then Ok (Some "latest")
      else if py_startswith lowered "0x" then Ok (Some segment)
      else if py_isdecimal segment then
        match py_int_str segment with
        | Some z => Ok (Some (py_hex z))
        | None => Err int_str_limit
        end
      else Err (AlchemyTransfersValidationError
                  ("Invalid block reference " ++ py_repr_str segment ++
                   "; use int, hex string, decimal string, or 'latest'."))
  end.

Inductive transfer_leg : Type := INCOMING | OUTGOING.

Definition block_param (key : string) (o : option string) : dict :=
  match o with Some s => [(key, VStr s)] | None => [] end.

(** [{"pageKey": ...}] for a page key that is not blank *)
Definition page_param (page_key : option string) : dict :=
  match page_key with
  | Some s => if str_empty (py_strip s) then [] else [("pageKey", VStr (py_strip s))]
  | None => []
  end.

Definition build_asset_transfer_params (wallet_address : string) (leg : transfer_leg) (categories : list string)
    (from_block to_block : option block_ref) (max_count : Z) (page_key : option string)
    (with_metadata exclude_zero_value : bool) : result exn dict :=
  wallet ← normalize_evm_address wallet_address;
  fb ← normalize_block_param from_block;
  tb ← normalize_block_param to_block;
  Ok ([(match leg with INCOMING => "toAddress" | OUTGOING => "fromAddress" end, VStr wallet)] ++
      block_param "fromBlock" fb ++ block_param "toBlock" tb ++
      [("category", VList (map VStr categories)); ("order", VStr "desc"); ("maxCount", VStr (py_hex max_count));
       ("withMetadata", VBool with_metadata); ("excludeZeroValue", VBool exclude_zero_value)] ++
      page_param page_key)%list.

Definition _normalize_optional_address (value : pyval) : pyval :=
  match value with
  | VStr s => if str_empty (py_strip s) then VNone else VStr (displayed_address s)
  | _ => VNone
  end.

Definition row_block_num (block_raw : pyval) : pyval :=
  match block_raw with
  | VStr s => if py_startswith s "0x" then match py_int_hex s with Some z => VInt z | None => VStr s end else VStr s
  | VInt _ | VBool _ | VNone => block_raw
  | _ => VStr (py_str block_raw)
  end.

(** A value that is not an object is wrapped in one. *)
Definition object_or_wrapped (key : string) (v : pyval) : pyval :=
  match v with VNone => VNone | VDict d => VDict d | _ => VDict [(key, v)] end.

Definition normalize_asset_transfer_row (network : string) (row : dict) : dict :=
  [("hash", VStr (str_or (get row "hash") "")); ("block_num", row_block_num (get row "blockNum"));
   ("from_address", _normalize_optional_address (get row "from")); ("to_address", _normalize_optional_address (get row "to"));
   ("category", VStr (str_or (get row "category") "")); ("asset", get row "asset"); ("value", get row "value");
   ("raw_contract", object_or_wrapped "value" (get row "rawContract"));
   ("metadata", object_or_wrapped "raw" (get row "metadata"));
   ("network", VStr network); ("mercury_chain", VStr (chain_or_empty network))].

Definition normalize_asset_transfer_rows (raw : pyval) (network : string) : list dict :=
  map (normalize_asset_transfer_row network) (dict_rows raw).
End rows.

(** The key under which two rows count as one transfer; rows without a hash are all kept. *)
Definition transfer_key (r : dict) : string := let h := get r "hash" in if truthy h then py_str h else "".

Fixpoint unique_transfers (seen : list string) (rows : list dict) : list dict :=
  match rows with
  | [] => []
  | r :: rows' =>
      let key := transfer_key r in
      if str_empty key then r :: unique_transfers seen rows'
      else if bool_decide (key ∈ seen) then unique_transfers seen rows'
      else r :: unique_transfers (key :: seen) rows'
  end.

(** [(-block, hash)] *)
Definition sort_key (item : dict) : Z * string :=
  (- default 0 (as_int (get item "block_num")), py_str (get_default item "hash" (VStr ""))).

Definition key_leb (a b : Z * string) : bool := (a.1 <? b.1) || ((a.1 =? b.1) && str_leb a.2 b.2).

(** A stable sort. *)
Fixpoint insert_transfer (x : dict) (l : list dict) : list dict :=
  match l with
  | [] => [x]
  | y :: l' => if key_leb (sort_key x) (sort_key y) then x :: l else y :: insert_transfer x l'
  end.

Definition _merge_and_sort_transfers (rows : list dict) (max_count : Z) : list dict :=
  take (Z.to_nat max_count) (foldr insert_transfer [] (unique_transfers [] rows)).

Definition _rpc_request_body (params_obj : dict) : dict :=
  [("jsonrpc", VStr "2.0"); ("id", VInt 1); ("method", VStr "alchemy_getAssetTransfers");
   ("params", VList [VDict params_obj])].

Example display_eth : compute_portfolio_balance_display "0x0de0b6b3a7640000" None None = Ok "1".
Proof. vm_compute. reflexivity. Qed.
Example display_usdc : compute_portfolio_balance_display "1500000" (Some "0x1") (Some [("decimals", VStr "6")]) = Ok "1.5".
Proof. vm_compute. reflexivity. Qed.
Example display_unknown : compute_portfolio_balance_display "42" (Some "0x1") None = Ok "42 (raw base units)".
Proof. vm_compute. reflexivity. Qed.
(** Beyond 28 digits the display is rounded. *)
Example display_rounded : compute_portfolio_balance_display "12345678901234567890123456789" None None = Ok "12345678901.23456789012345679".
Proof. vm_compute. reflexivity. Qed.
Example block_hex : normalize_block_param (Some (BlockStr " 255 ")) = Ok (Some "0xff").
Proof. vm_compute. reflexivity. Qed.
