(* ===== verification/TokenTransactions.v ===== *)
(** Unsigned token and native transfers ([mercury/tools/erc20_transactions.py],
    [mercury/tools/native_transactions.py]): the checks before a transfer or an approval, the calldata, and the
    prepared transaction. *)
From stdpp Require Import base tactics option list sets strings.
From Stdlib Require Import ZArith Lia Ascii String.
From S2P Require Import Prelude Python Values Exceptions Amounts Redaction Errors Addresses Chains Models SwapModels.
From S2P Require Import Policy Idempotency Prog Effects Erc20 Intents.

Local Open Scope string_scope.
Local Open Scope Z_scope.
Local Open Scope prog_scope.

Record ERC20TransferPreconditions := {
  tp_chain : string; tp_chain_id : Z; tp_token_address : string; tp_owner_address : string;
  tp_recipient_address : string; tp_amount : ERC20Amount; tp_balance_raw : Z;
  tp_symbol : option string; tp_name : option string
}.

Record ERC20ApprovalPreconditions := {
  ap_chain : string; ap_chain_id : Z; ap_token_address : string; ap_owner_address : string;
  ap_spender_address : string; ap_amount : ERC20Amount; ap_current_allowance_raw : Z;
  ap_allowance_sufficient : bool; ap_unlimited_approval : bool; ap_spender_known : bool;
  ap_symbol : option string; ap_name : option string
}.

Definition make_ERC20TransferPreconditions (chain : string) (chain_id : Z) (token owner recipient : string)
    (amount : ERC20Amount) (balance_raw : Z) (symbol name : option string) : result exn ERC20TransferPreconditions :=
  v_model "ERC20TransferPreconditions"
    ((fun '(ci, b) =>
        {| tp_chain := chain; tp_chain_id := ci; tp_token_address := token; tp_owner_address := owner;
           tp_recipient_address := recipient; tp_amount := amount; tp_balance_raw := b;
           tp_symbol := symbol; tp_name := name |}) <$>
       vboth (v_gt "chain_id" 0 chain_id) (v_ge "balance_raw" 0 balance_raw))
    no_after.

Definition make_ERC20ApprovalPreconditions (chain : string) (chain_id : Z) (token owner spender : string)
    (amount : ERC20Amount) (current_allowance_raw : Z) (allowance_sufficient unlimited_approval spender_known : bool)
    (symbol name : option string) : result exn ERC20ApprovalPreconditions :=
  v_model "ERC20ApprovalPreconditions"
    ((fun '(ci, c) =>
        {| ap_chain := chain; ap_chain_id := ci; ap_token_address := token; ap_owner_address := owner;
           ap_spender_address := spender; ap_amount := amount; ap_current_allowance_raw := c;
           ap_allowance_sufficient := allowance_sufficient; ap_unlimited_approval := unlimited_approval;
           ap_spender_known := spender_known; ap_symbol := symbol; ap_name := name |}) <$>
       vboth (v_gt "chain_id" 0 chain_id) (v_ge "current_allowance_raw" 0 current_allowance_raw))
    no_after.

(** An amount given in smallest units. *)
Definition raw_erc20_amount (amount : string) (decimals : Z) : result exn ERC20Amount :=
  raw ← parse_integer_raw_amount amount;
  if MAX_UINT256 <? raw then Err (ValueError "ERC20 raw amount must fit uint256.") else
  human ← format_units raw decimals;
  make_ERC20Amount human decimals raw.

Definition _erc20_amount_for_precondition (amount : string) (decimals : Z) (amount_in_smallest_units : bool)
    : result exn ERC20Amount :=
  if amount_in_smallest_units then raw_erc20_amount amount decimals else ERC20Amount_from_human amount decimals.

Definition _approval_amount (amount : string) (decimals : Z) (allow_unlimited amount_in_smallest_units : bool)
    : result exn ERC20Amount :=
  let normalized := py_lower (py_strip amount) in
  let max := String.eqb normalized "max" || String.eqb normalized "unlimited" in
  if amount_in_smallest_units && negb max then raw_erc20_amount amount decimals else
  if max then
    if negb allow_unlimited then Err (ValueError "Unlimited ERC20 approvals are rejected by default.")
    else make_ERC20Amount (py_str_int MAX_UINT256) 0 MAX_UINT256
  else
    token_amount ← ERC20Amount_from_human amount decimals;
    if ea_raw_amount token_amount <? 0 then Err (ValueError "Approval amount must not be negative.")
    else Ok token_amount.

Definition _validate_uint256 (value : Z) : result exn unit :=
  if (value <? 0) || (MAX_UINT256 <? value) then Err (ValueError "ERC20 amount must fit uint256.") else Ok tt.

Section prepare.
Context {W : Web3} (settings : MercurySettings).

Definition _reject_zero_address (address label : string) : result exn unit :=
  a ← normalize_evm_address address;
  if String.eqb a (to_checksum_address ZERO_ADDRESS)
  then Err (ValueError (label ++ " address must not be the zero address.")) else Ok tt.

(** [_encode_call] for the signatures the module uses, all of type [(address,uint256)]. *)
Definition _encode_call (signature : string) (address : string) (n : Z) : string :=
  "0x" ++ keccak_selector signature ++ abi_encode_address_uint256 address n.

Definition encode_erc20_transfer_data (recipient_address : string) (raw_amount : Z) : result exn string :=
  recipient ← normalize_evm_address recipient_address;
  _ ← _validate_uint256 raw_amount;
  Ok (_encode_call "transfer(address,uint256)" recipient raw_amount).

Definition encode_erc20_approval_data (spender_address : string) (raw_amount : Z) : result exn string :=
  spender ← normalize_evm_address spender_address;
  _ ← _validate_uint256 raw_amount;
  Ok (_encode_call "approve(address,uint256)" spender raw_amount).

Definition check_erc20_transfer_preconditions (chain token_address owner_address recipient_address amount : string)
    (amount_in_smallest_units : bool) : wallet (result exn ERC20TransferPreconditions) :=
  normalized_owner <- pure (normalize_evm_address owner_address);;
  normalized_recipient <- pure (normalize_evm_address recipient_address);;
  normalized_token <- pure (normalize_evm_address token_address);;
  _ <- pure (_reject_zero_address normalized_recipient "Recipient");;
  if String.eqb normalized_owner normalized_recipient
  then Ret (Err (ValueError "ERC20 self-transfer is not allowed.")) else
  metadata <- get_erc20_metadata chain normalized_token;;
  token_amount <- pure (_erc20_amount_for_precondition amount (em_decimals metadata) amount_in_smallest_units);;
  if ea_raw_amount token_amount <=? 0
  then Ret (Err (ValueError "Transfer amount must be greater than zero.")) else
  balance <- get_erc20_balance (em_chain metadata) (em_token_address metadata) normalized_owner;;
  if eb_raw_amount balance <? ea_raw_amount token_amount
  then Ret (Err (ValueError "ERC20 token balance is insufficient for transfer.")) else
  pure (make_ERC20TransferPreconditions (em_chain metadata) (em_chain_id metadata) (em_token_address metadata)
          normalized_owner normalized_recipient token_amount (eb_raw_amount balance)
          (em_symbol metadata) (em_name metadata)).

Definition check_erc20_approval_preconditions (chain token_address owner_address spender_address amount : string)
    (spender_known allow_unlimited amount_in_smallest_units : bool)
    : wallet (result exn ERC20ApprovalPreconditions) :=
  normalized_owner <- pure (normalize_evm_address owner_address);;
  normalized_spender <- pure (normalize_evm_address spender_address);;
  normalized_token <- pure (normalize_evm_address token_address);;
  _ <- pure (_reject_zero_address normalized_spender "Spender");;
  metadata <- get_erc20_metadata chain normalized_token;;
  token_amount <- pure (_approval_amount amount (em_decimals metadata) allow_unlimited amount_in_smallest_units);;
  let unlimited_approval := ea_raw_amount token_amount =? MAX_UINT256 in
  if unlimited_approval && negb allow_unlimited
  then Ret (Err (ValueError "Unlimited ERC20 approvals are rejected by default.")) else
  allowance <- get_erc20_allowance (em_chain metadata) (em_token_address metadata) normalized_owner normalized_spender;;
  pure (make_ERC20ApprovalPreconditions (em_chain metadata) (em_chain_id metadata) (em_token_address metadata)
          normalized_owner normalized_spender token_amount (el_raw_amount allowance)
          (ea_raw_amount token_amount <=? el_raw_amount allowance) unlimited_approval spender_known
          (em_symbol metadata) (em_name metadata)).

Definition _prepared_erc20_transaction (wallet_id chain : string) (chain_id : Z) (from_address to data : string)
    (idempotency_key : option string) (metadata : dict) : result exn PreparedTransaction :=
  make_PreparedTransaction wallet_id chain (Some chain_id) (Some from_address) to 0 data None None
    idempotency_key metadata.

Definition transfer_metadata (p : ERC20TransferPreconditions) : dict :=
  [("action", VStr (ERC20Action_value TRANSFER));
   ("token_address", VStr (tp_token_address p));
   ("recipient_address", VStr (tp_recipient_address p));
   ("amount", VStr (ea_human_amount (tp_amount p)));
   ("amount_raw", VInt (ea_raw_amount (tp_amount p)));
   ("decimals", VInt (ea_decimals (tp_amount p)));
   ("symbol", of_opt_str (tp_symbol p));
   ("name", of_opt_str (tp_name p));
   ("balance_raw", VInt (tp_balance_raw p))].

Definition approval_metadata (p : ERC20ApprovalPreconditions) : dict :=
  [("action", VStr (ERC20Action_value APPROVAL));
   ("token_address", VStr (ap_token_address p));
   ("spender_address", VStr (ap_spender_address p));
   ("amount", VStr (ea_human_amount (ap_amount p)));
   ("amount_raw", VInt (ea_raw_amount (ap_amount p)));
   ("decimals", VInt (ea_decimals (ap_amount p)));
   ("symbol", of_opt_str (ap_symbol p));
   ("name", of_opt_str (ap_name p));
   ("current_allowance_raw", VInt (ap_current_allowance_raw p));
   ("allowance_sufficient", VBool (ap_allowance_sufficient p));
   ("unlimited_approval", VBool (ap_unlimited_approval p));
   ("spender_known", VBool (ap_spender_known p))].

Definition prepare_erc20_transfer (chain wallet_id token_address recipient_address amount : string)
    (idempotency_key : option string) (amount_in_smallest_units : bool) : wallet (result exn PreparedTransaction) :=
  w <- get_wallet_address wallet_id;;
  p <- check_erc20_transfer_preconditions chain token_address (wa_address w) recipient_address amount
         amount_in_smallest_units;;
  data <- pure (encode_erc20_transfer_data (tp_recipient_address p) (ea_raw_amount (tp_amount p)));;
  pure (_prepared_erc20_transaction wallet_id (tp_chain p) (tp_chain_id p) (tp_owner_address p)
          (tp_token_address p) data idempotency_key (transfer_metadata p)).

Definition prepare_erc20_approval (chain wallet_id token_address spender_address amount : string)
    (idempotency_key : option string) (spender_known allow_unlimited amount_in_smallest_units : bool)
    : wallet (result exn PreparedTransaction) :=
  w <- get_wallet_address wallet_id;;
  p <- check_erc20_approval_preconditions chain token_address (wa_address w) spender_address amount
         spender_known allow_unlimited amount_in_smallest_units;;
  if ap_allowance_sufficient p && (0 <? ea_raw_amount (ap_amount p))
  then Ret (Err (ValueError "Current allowance already satisfies requested ERC20 approval amount.")) else
  data <- pure (encode_erc20_approval_data (ap_spender_address p) (ea_raw_amount (ap_amount p)));;
  pure (_prepared_erc20_transaction wallet_id (ap_chain p) (ap_chain_id p) (ap_owner_address p)
          (ap_token_address p) data idempotency_key (approval_metadata p)).

Definition prepare_native_transfer (chain wallet_id recipient_address amount : string)
    (idempotency_key : option string) : wallet (result exn PreparedTransaction) :=
  chain_cfg <- pure (get_chain_by_name settings chain);;
  w <- get_wallet_address wallet_id;;
  recipient <- pure (normalize_evm_address recipient_address);;
  zero <- pure (normalize_evm_address ZERO_ADDRESS);;
  if String.eqb recipient zero
  then Ret (Err (ValueError "Native transfer recipient must not be the zero address.")) else
  own <- pure (normalize_evm_address (wa_address w));;
  if String.eqb recipient own
  then Ret (Err (ValueError "Native self-transfer is not allowed.")) else
  value_wei <- pure (parse_units (py_strip amount) 18);;
  if value_wei <=? 0
  then Ret (Err (ValueError "Native transfer amount must be greater than zero.")) else
  pure (make_PreparedTransaction wallet_id (cc_name chain_cfg) (Some (cc_chain_id chain_cfg))
          (Some (wa_address w)) recipient value_wei "0x" None None idempotency_key
          [("action", VStr "native_transfer"); ("recipient_address", VStr recipient);
           ("amount_eth", VStr (py_strip amount))]).
End prepare.
