(* ===== verification/TokenSpec.v ===== *)
(** What a prepared token or native transfer is: its calldata decodes to the checked recipient and amount,
    the amount is covered by the balance that was read, and the policy accepts it. *)
From stdpp Require Import base tactics option list sets strings.
From Stdlib Require Import ZArith Lia Ascii String.
From S2P Require Import Prelude Python Values Exceptions Amounts Redaction Errors Addresses Chains Models SwapModels.
From S2P Require Import Policy Idempotency Prog Effects Erc20 Intents TokenTransactions.

Local Open Scope string_scope.
Local Open Scope Z_scope.

(** * Calldata of [f(address,uint256)], decoded *)

Definition hex_digit_value (c : ascii) : Z :=
  if is_ascii_digit c then code c - 48 else code (lower_char c) - 87.

Fixpoint hex_value_from (acc : Z) (s : string) : Z :=
  match s with EmptyString => acc | String c s' => hex_value_from (16 * acc + hex_digit_value c) s' end.

Fixpoint str_take (n : nat) (s : string) : string :=
  match n, s with
  | S n', String c s' => String c (str_take n' s')
  | _, _ => EmptyString
  end.

(** Selector, address and number of a call with two words. *)
Definition decode_call (data : string) : option (string * string * Z) :=
  if py_startswith data "0x" && (str_len data =? 138)
  then Some (str_take 8 (str_drop 2 data), "0x" ++ str_take 40 (str_drop 34 data), hex_value_from 0 (str_drop 74 data))
  else None.

Lemma hex_char_value d : 0 <= d < 16 -> hex_digit_value (hex_char d) = d.
Proof.
  intros H. assert (exists n, d = Z.of_nat n /\ (n < 16)%nat) as (n & -> & Hn) by (exists (Z.to_nat d); lia).
  do 16 (destruct n as [|n]; [vm_compute; reflexivity|]). lia.
Qed.

Lemma hex_fixed_value w : forall n a acc,
  0 <= n < 16 ^ Z.of_nat w -> hex_value_from a (hex_fixed w n acc) = hex_value_from (a * 16 ^ Z.of_nat w + n) acc.
Proof.
  induction w as [|w IH]; intros n a acc Hn.
  - simpl in *. f_equal. lia.
  - cbn [hex_fixed]. rewrite Nat2Z.inj_succ, Z.pow_succ_r in Hn |- * by lia.
    pose proof (Z.div_mod n 16 ltac:(lia)) as Hd. pose proof (Z.mod_pos_bound n 16 ltac:(lia)) as Hm.
    rewrite IH by (split; [apply Z.div_pos; lia | apply Z.div_lt_upper_bound; lia]).
    cbn [hex_value_from]. rewrite hex_char_value by done. f_equal. lia.
Qed.

Lemma hex_fixed_len w : forall n acc, str_len (hex_fixed w n acc) = Z.of_nat w + str_len acc.
Proof. induction w as [|w IH]; intros n acc; [done|]. cbn [hex_fixed]. rewrite IH, str_len_cons. lia. Qed.

Lemma hex_fixed_app w : forall n acc, hex_fixed w n acc = hex_fixed w n "" ++ acc.
Proof.
  induction w as [|w IH]; intros n acc; [done|]. cbn [hex_fixed].
  rewrite IH, (IH _ (String _ "")), <- string_app_assoc. done.
Qed.

Lemma str_drop_app (s t : string) n : String.length s = n -> str_drop n (s ++ t) = t.
Proof. intros <-. induction s as [|c s IH]; [by destruct t | exact IH]. Qed.

Lemma str_take_app (s t : string) n : String.length s = n -> str_take n (s ++ t) = s.
Proof. intros <-. induction s as [|c s IH]; [by destruct t | simpl; by rewrite IH]. Qed.

Lemma string_length_app (s t : string) : String.length (s ++ t) = (String.length s + String.length t)%nat.
Proof. induction s as [|c s IH]; [done | simpl; by rewrite IH]. Qed.

Lemma str_map_length f s : String.length (str_map f s) = String.length s.
Proof. induction s as [|c s IH]; [done | simpl; by rewrite IH]. Qed.

Lemma str_map_app f s t : str_map f (s ++ t) = str_map f s ++ str_map f t.
Proof. induction s as [|c s IH]; [done | simpl; by rewrite IH]. Qed.

Lemma str_len_nat s n : str_len s = Z.of_nat n -> String.length s = n.
Proof. unfold str_len. lia. Qed.

Section calldata.
Context `{W : Web3} {L : Web3Laws W}.

Lemma decode_words sel zeros addr num :
  String.length sel = 8%nat -> String.length zeros = 24%nat -> String.length addr = 40%nat ->
  String.length num = 64%nat ->
  decode_call ("0x" ++ sel ++ zeros ++ addr ++ num) = Some (sel, "0x" ++ addr, hex_value_from 0 num).
Proof.
  intros Hs Hz Ha Hn. unfold decode_call.
  assert (str_len ("0x" ++ sel ++ zeros ++ addr ++ num) = 138) as ->
    by (rewrite !str_len_app; unfold str_len; rewrite Hs, Hz, Ha, Hn; done).
  assert (py_startswith ("0x" ++ sel ++ zeros ++ addr ++ num) "0x" = true) as ->
    by (simpl; by destruct (sel ++ zeros ++ addr ++ num)).
  rewrite (str_drop_app "0x" _ 2 eq_refl), (str_take_app sel) by done.
  rewrite (string_app_assoc sel zeros), (string_app_assoc "0x" (sel ++ zeros)).
  rewrite (str_drop_app ("0x" ++ sel ++ zeros) _ 34), (str_take_app addr) by (done || by rewrite !string_length_app, ?Hs, ?Hz).
  rewrite (string_app_assoc ("0x" ++ sel ++ zeros)).
  by rewrite (str_drop_app (("0x" ++ sel ++ zeros) ++ addr) num 74) by (by rewrite !string_length_app, ?Hs, ?Hz, ?Ha).
Qed.

Lemma encode_call_decode sig addr n :
  String.length (keccak_selector sig) = 8%nat -> normalized addr -> 0 <= n <= MAX_UINT256 ->
  decode_call (_encode_call sig addr n) = Some (keccak_selector sig, py_lower addr, n).
Proof.
  intros Hsel Ha Hn. pose proof (normalized_shape addr Ha) as (h & -> & Hl & _)%address_shape_split.
  destruct Ha as (s & [Hs E]%normalize_ok). apply (str_len_nat h 40) in Hl.
  unfold _encode_call. rewrite E, abi_encode_words by done. rewrite <- E.
  rewrite decode_words; [|done|reflexivity|by unfold py_lower; rewrite str_map_length|].
  - rewrite hex_fixed_value by (unfold MAX_UINT256 in Hn; change (16 ^ Z.of_nat 64) with (2 ^ 256); lia).
    done.
  - apply (str_len_nat _ 64). by rewrite hex_fixed_len.
Qed.

Lemma validate_uint256_ok n u : _validate_uint256 n = Ok u <-> 0 <= n <= MAX_UINT256.
Proof.
  unfold _validate_uint256. destruct u. destruct (Z.ltb_spec n 0), (Z.ltb_spec MAX_UINT256 n);
    simpl; split; intros; first [done | lia].
Qed.

Lemma encode_transfer_ok a n data :
  encode_erc20_transfer_data a n = Ok data ->
  exists r, normalize_evm_address a = Ok r /\ 0 <= n <= MAX_UINT256 /\
            decode_call data = Some ("a9059cbb", py_lower r, n).
Proof.
  unfold encode_erc20_transfer_data. intros H.
  apply result_bind_ok in H as (r & Hr & H). apply result_bind_ok in H as (u & Hu & [= <-]).
  apply validate_uint256_ok in Hu. exists r. split_and!; [done | lia | lia |].
  rewrite encode_call_decode; [by rewrite selector_transfer | by rewrite selector_transfer | by exists a | done].
Qed.

Lemma encode_approval_ok a n data :
  encode_erc20_approval_data a n = Ok data ->
  exists r, normalize_evm_address a = Ok r /\ 0 <= n <= MAX_UINT256 /\
            decode_call data = Some ("095ea7b3", py_lower r, n).
Proof.
  unfold encode_erc20_approval_data. intros H.
  apply result_bind_ok in H as (r & Hr & H). apply result_bind_ok in H as (u & Hu & [= <-]).
  apply validate_uint256_ok in Hu. exists r. split_and!; [done | lia | lia |].
  rewrite encode_call_decode; [by rewrite selector_approve | by rewrite selector_approve | by exists a | done].
Qed.

Lemma decode_call_length data x : decode_call data = Some x -> str_len data = 138.
Proof. unfold decode_call. destruct (Z.eqb_spec (str_len data) 138); [done|]. by rewrite andb_false_r. Qed.

(** The calldata the module builds is standard for the policy. *)
Lemma transfer_data_standard a n data :
  encode_erc20_transfer_data a n = Ok data -> standard_calldata ERC20_TRANSFER_SELECTOR_PREFIX data = true.
Proof.
  intros H. pose proof (encode_transfer_ok a n data H) as (_ & _ & _ & Hl%decode_call_length).
  unfold encode_erc20_transfer_data in H.
  apply result_bind_ok in H as (r & _ & H). apply result_bind_ok in H as (u & _ & [= <-]).
  unfold standard_calldata. rewrite Hl. unfold _encode_call. rewrite selector_transfer.
  generalize (abi_encode_address_uint256 r n). intros x. by destruct x.
Qed.

Lemma approval_data_standard a n data :
  encode_erc20_approval_data a n = Ok data -> standard_calldata ERC20_APPROVAL_SELECTOR_PREFIX data = true.
Proof.
  intros H. pose proof (encode_approval_ok a n data H) as (_ & _ & _ & Hl%decode_call_length).
  unfold encode_erc20_approval_data in H.
  apply result_bind_ok in H as (r & _ & H). apply result_bind_ok in H as (u & _ & [= <-]).
  unfold standard_calldata. rewrite Hl. unfold _encode_call. rewrite selector_approve.
  generalize (abi_encode_address_uint256 r n). intros x. by destruct x.
Qed.
End calldata.

(** * Amounts *)

Lemma v_decimals_ok loc d x : v_decimals loc d = Ok x -> x = d.
Proof.
  unfold v_decimals. intros H. apply result_bind_ok in H as (a & Ha & H). apply result_bind_ok in H as (b & Hb & H).
  inv_valid. unfold validate_token_decimals in H. by case_match; simplify_eq.
Qed.

(** An amount's number is what its text says. *)
Lemma make_ERC20Amount_ok h d r a :
  make_ERC20Amount h d r = Ok a ->
  ea_human_amount a = h /\ ea_decimals a = d /\ ea_raw_amount a = r /\ 0 <= r /\ parse_units h d = Ok r.
Proof.
  unfold make_ERC20Amount. intros H. inv_valid. unfold validate_amount_pair in *.
  apply result_bind_ok in H as (p & Hp & H). cbn [ea_human_amount ea_decimals ea_raw_amount] in *.
  match goal with H : v_decimals _ _ = Ok _ |- _ => apply v_decimals_ok in H as -> end.
  match goal with H : context [?x =? ?y] |- _ => destruct (Z.eqb_spec x y) as [E0|]; simpl in H; [|discriminate] end.
  injection H as <-. subst. done.
Qed.

(** The amount of a transfer: the text in whole units or in smallest units. *)
Definition amount_means (amount : string) (decimals : Z) (small : bool) (raw : Z) : Prop :=
  if small then parse_integer_raw_amount amount = Ok raw else parse_units amount decimals = Ok raw.

Lemma raw_amount_ok amount d a :
  raw_erc20_amount amount d = Ok a ->
  parse_integer_raw_amount amount = Ok (ea_raw_amount a) /\ ea_raw_amount a <= MAX_UINT256 /\ ea_decimals a = d.
Proof.
  unfold raw_erc20_amount. intros H. apply result_bind_ok in H as (raw & Hr & H).
  destruct (Z.ltb_spec MAX_UINT256 raw); [discriminate|]. apply result_bind_ok in H as (h & _ & H).
  apply make_ERC20Amount_ok in H as (_ & <- & <- & _). done.
Qed.

Lemma from_human_ok amount d a :
  ERC20Amount_from_human amount d = Ok a -> parse_units amount d = Ok (ea_raw_amount a) /\ ea_decimals a = d.
Proof.
  unfold ERC20Amount_from_human. intros H. apply result_bind_ok in H as (raw & Hr & H).
  by apply make_ERC20Amount_ok in H as (_ & <- & <- & _).
Qed.

Lemma precondition_amount_ok amount d small a :
  _erc20_amount_for_precondition amount d small = Ok a -> amount_means amount d small (ea_raw_amount a).
Proof.
  unfold _erc20_amount_for_precondition, amount_means. destruct small.
  - by intros [? _]%raw_amount_ok.
  - by intros [? _]%from_human_ok.
Qed.

(** The amount of an approval: the same, or the largest number when the text asks for no limit. *)
Definition approval_means (amount : string) (small : bool) (raw : Z) : Prop :=
  (py_lower (py_strip amount) = "max" \/ py_lower (py_strip amount) = "unlimited") /\ raw = MAX_UINT256 \/
  exists decimals, amount_means amount decimals small raw.

Lemma approval_amount_ok amount d unlimited small a :
  _approval_amount amount d unlimited small = Ok a -> approval_means amount small (ea_raw_amount a).
Proof.
  unfold _approval_amount, approval_means. intros H.
  destruct (String.eqb_spec (py_lower (py_strip amount)) "max") as [E|_];
    [|destruct (String.eqb_spec (py_lower (py_strip amount)) "unlimited") as [E|_]]; cbn [orb negb] in H;
    rewrite ?andb_false_r, ?andb_true_r in H.
  1,2: left; split; [tauto|]; destruct unlimited; [|discriminate H];
    by apply make_ERC20Amount_ok in H as (_ & _ & <- & _).
  right. exists d. unfold amount_means. destruct small; [by apply raw_amount_ok in H as [? _]|].
  apply result_bind_ok in H as (x & Hx & H). destruct (_ <? 0); [discriminate|]. injection H as <-.
  by apply from_human_ok in Hx as [? _].
Qed.

(** * What the reads establish *)

Section facts.
Context `{W : Web3} {L : Web3Laws W} (settings : MercurySettings).

Lemma read_decimals_event c t tr d :
  may (read_decimals c t) tr (Ok d) -> exists v, tr = [Ev (ContractCall c t "decimals" []) (Ok v)].
Proof.
  unfold read_decimals, contract_call. intros H. inv_run.
  match goal with H : may (Call _ _) _ _ |- _ => destruct H as (b & tr' & -> & -> & <-) end.
  eexists. reflexivity.
Qed.

Lemma metadata_reads chain token tr m :
  may (get_erc20_metadata chain token) tr (Ok m) ->
  normalize_evm_address token = Ok (em_token_address m) /\
  exists cfg, Ev (CreateProvider chain) (Ok cfg) ∈ tr /\ em_chain m = cc_name cfg /\ em_chain_id m = cc_chain_id cfg.
Proof.
  unfold get_erc20_metadata, create_provider. intros H. inv_run.
  repeat match goal with H : may (Call _ Ret) _ _ |- _ => destruct H as (b & tr' & -> & -> & <-) end.
  simplify_eq. split; [done|]. eexists. split; [|done]. find_in.
Qed.

Lemma balance_reads chain token owner tr b :
  may (get_erc20_balance chain token owner) tr (Ok b) ->
  exists cfg tok own v,
    normalize_evm_address token = Ok tok /\ normalize_evm_address owner = Ok own /\
    Ev (ContractCall cfg tok "balanceOf" [own]) (Ok v) ∈ tr /\ int_of_abi v = Ok (eb_raw_amount b).
Proof.
  unfold get_erc20_balance, create_provider, contract_call. intros H. inv_run.
  repeat match goal with H : may (Call _ Ret) _ _ |- _ => destruct H as (b' & tr' & -> & -> & <-) end.
  simplify_eq. eexists _, _, _, _. split_and!; [done.. | find_in | done].
Qed.

Lemma allowance_reads chain token owner spender tr b :
  may (get_erc20_allowance chain token owner spender) tr (Ok b) ->
  exists cfg tok own sp v,
    normalize_evm_address token = Ok tok /\ normalize_evm_address owner = Ok own /\
    normalize_evm_address spender = Ok sp /\
    Ev (ContractCall cfg tok "allowance" [own; sp]) (Ok v) ∈ tr /\ int_of_abi v = Ok (el_raw_amount b).
Proof.
  unfold get_erc20_allowance, create_provider, contract_call. intros H. inv_run.
  repeat match goal with H : may (Call _ Ret) _ _ |- _ => destruct H as (b' & tr' & -> & -> & <-) end.
  simplify_eq. eexists _, _, _, _, _. split_and!; [done.. | find_in | done].
Qed.

Lemma normalize_twice x a b : normalize_evm_address x = Ok a -> normalize_evm_address a = Ok b -> b = a.
Proof. intros Ha. rewrite normalize_idem by (by exists x). by intros [= <-]. Qed.

Lemma normalize_again x a : normalize_evm_address x = Ok a -> normalize_evm_address a = Ok a.
Proof. intros Ha. apply normalize_idem. by exists x. Qed.

(** An address that was already normalised is not changed by normalising it again. *)
Ltac same_address :=
  repeat match goal with
  | H1 : normalize_evm_address _ = Ok ?a, H2 : normalize_evm_address ?a = Ok _ |- _ =>
      rewrite (normalize_again _ _ H1) in H2; injection H2 as H2; subst
  end.

Lemma reject_zero_ok a label u :
  normalized a -> _reject_zero_address a label = Ok u -> a <> ZERO_ADDRESS.
Proof.
  intros Ha H. unfold _reject_zero_address in H. rewrite normalize_idem in H by done. simpl in H.
  rewrite zero_checksum in H. destruct (String.eqb_spec a ZERO_ADDRESS); [discriminate | done].
Qed.

(** An unsigned token transfer, and the reads and checks behind it. *)
Record transfer_facts (chain token recipient amount : string) (small : bool) (tr : list wevent)
    (t : PreparedTransaction) (r : string) (raw : Z) : Prop := {
  tf_token : normalize_evm_address token = Ok (pt_to t);
  tf_recipient : normalize_evm_address recipient = Ok r;
  tf_nonzero : r <> ZERO_ADDRESS;
  tf_no_self : pt_from_address t <> Some r;
  tf_no_value : pt_value_wei t = 0;
  tf_calldata : decode_call (pt_data t) = Some ("a9059cbb", py_lower r, raw);
  tf_standard : standard_calldata ERC20_TRANSFER_SELECTOR_PREFIX (pt_data t) = true;
  tf_amount : 0 < raw <= MAX_UINT256 /\ exists decimals, amount_means amount decimals small raw;
  tf_balance : exists cfg owner v balance,
    pt_from_address t = Some owner /\ Ev (ContractCall cfg (pt_to t) "balanceOf" [owner]) (Ok v) ∈ tr /\
    int_of_abi v = Ok balance /\ raw <= balance;
  tf_chain : exists cfg, Ev (CreateProvider chain) (Ok cfg) ∈ tr /\ pt_chain t = cc_name cfg /\
    pt_chain_id t = Some (cc_chain_id cfg);
  tf_metadata : get (pt_metadata t) "action" = VStr "erc20_transfer" /\
    get (pt_metadata t) "token_address" = VStr (pt_to t) /\
    get (pt_metadata t) "recipient_address" = VStr r /\ get (pt_metadata t) "amount_raw" = VInt raw
}.

Lemma check_transfer_ok chain token owner recipient amount small tr p :
  may (check_erc20_transfer_preconditions chain token owner recipient amount small) tr (Ok p) ->
  normalize_evm_address token = Ok (tp_token_address p) /\ normalize_evm_address owner = Ok (tp_owner_address p) /\
  normalize_evm_address recipient = Ok (tp_recipient_address p) /\ tp_recipient_address p <> ZERO_ADDRESS /\
  tp_owner_address p <> tp_recipient_address p /\ 0 < ea_raw_amount (tp_amount p) /\
  (exists decimals, amount_means amount decimals small (ea_raw_amount (tp_amount p))) /\
  (exists cfg v balance, Ev (ContractCall cfg (tp_token_address p) "balanceOf" [tp_owner_address p]) (Ok v) ∈ tr /\
     int_of_abi v = Ok balance /\ ea_raw_amount (tp_amount p) <= balance) /\
  (exists cfg, Ev (CreateProvider chain) (Ok cfg) ∈ tr /\ tp_chain p = cc_name cfg /\ tp_chain_id p = cc_chain_id cfg).
Proof.
  unfold check_erc20_transfer_preconditions. intros H. inv_run.
  match goal with H : make_ERC20TransferPreconditions _ _ _ _ _ _ _ _ _ = Ok _ |- _ =>
    unfold make_ERC20TransferPreconditions in H; inv_valid end. simpl.
  match goal with H : may (get_erc20_metadata _ _) _ _ |- _ => apply metadata_reads in H as (Htok & cfg & Hcfg & Hc & Hci) end.
  match goal with H : may (get_erc20_balance _ _ _) _ _ |- _ => apply balance_reads in H as (cfg' & tok & own & v & Ht & Ho & Hev & Hb) end.
  same_address.
  split_and!; try done.
  - eapply reject_zero_ok; [by eexists | done].
  - by apply String.eqb_neq.
  - lia.
  - eexists. by eapply precondition_amount_ok.
  - eexists _, _, _. split_and!; [find_in | done | lia].
  - eexists. split_and!; [find_in | done..].
Qed.

Lemma prepared_token_ok wallet_id chain chain_id from to data key md t :
  normalized from -> normalized to -> _prepared_erc20_transaction wallet_id chain chain_id from to data key md = Ok t ->
  pt_to t = to /\ pt_from_address t = Some from /\ pt_value_wei t = 0 /\ pt_data t = data /\
  pt_chain t = chain /\ pt_chain_id t = Some chain_id /\ pt_metadata t = md /\ pt_wallet_id t = wallet_id /\
  pt_idempotency_key t = key /\ wf_PreparedTransaction t.
Proof.
  intros Hf Ht H. apply make_PreparedTransaction_ok in H as (Hwf & Hto & Hw & Hc & Hci & Hv & Hd & _ & _ & Hk & Hm & Hfr & _).
  rewrite normalize_idem in Hto by done. injection Hto as <-. split_and!; try done. by apply Hfr.
Qed.

Lemma prepare_transfer_ok chain wallet_id token recipient amount key small tr t :
  may (prepare_erc20_transfer chain wallet_id token recipient amount key small) tr (Ok t) ->
  exists r raw, transfer_facts chain token recipient amount small tr t r raw /\
    pt_wallet_id t = wallet_id /\ pt_idempotency_key t = key /\ wf_PreparedTransaction t.
Proof.
  unfold prepare_erc20_transfer, get_wallet_address. intros H. inv_run.
  match goal with H : may (Call _ Ret) _ _ |- _ => destruct H as (b & tr' & -> & -> & <-) end.
  match goal with H : may (check_erc20_transfer_preconditions _ _ _ _ _ _) _ _ |- _ =>
    apply check_transfer_ok in H
      as (Htok & Hown & Hrec & Hz & Hself & Hpos & Ham & (cfg' & v & bal & Hev & Hv & Hle) & (cfg & Hcfg & Hc & Hci)) end.
  match goal with H : _prepared_erc20_transaction _ _ _ _ _ _ _ _ = Ok _ |- _ =>
    apply prepared_token_ok in H as (Ht & Hf & Hv0 & Hd & Hch & Hchi & Hmd & Hw & Hk & Hwf); [|by eexists..] end.
  match goal with H : encode_erc20_transfer_data _ _ = Ok _ |- _ =>
    pose proof (encode_transfer_ok _ _ _ H) as (r' & Hr' & Hu & Hdec);
    pose proof (transfer_data_standard _ _ _ H) as Hstd end.
  apply (normalize_twice _ _ _ Hrec) in Hr' as ->.
  eexists _, _. split; [|done].
  constructor; rewrite ?Ht, ?Hf, ?Hv0, ?Hd, ?Hch, ?Hchi, ?Hmd; try done.
  - congruence.
  - split; [lia | done].
  - eexists _, _, v, bal. split_and!; [done | find_in | done..].
  - exists cfg. split_and!; [find_in | done | congruence].
Qed.

(** An unsigned approval: the allowance that was read is smaller, or the new one is zero, and an
    unlimited amount was asked for. *)
Record approval_facts (chain token spender amount : string) (allow_unlimited small : bool) (tr : list wevent)
    (t : PreparedTransaction) (r : string) (raw : Z) : Prop := {
  af_token : normalize_evm_address token = Ok (pt_to t);
  af_spender : normalize_evm_address spender = Ok r;
  af_nonzero : r <> ZERO_ADDRESS;
  af_no_value : pt_value_wei t = 0;
  af_calldata : decode_call (pt_data t) = Some ("095ea7b3", py_lower r, raw);
  af_standard : standard_calldata ERC20_APPROVAL_SELECTOR_PREFIX (pt_data t) = true;
  af_amount : 0 <= raw <= MAX_UINT256 /\ (raw = MAX_UINT256 -> allow_unlimited = true) /\ approval_means amount small raw;
  af_allowance : exists cfg owner v allowance,
    pt_from_address t = Some owner /\ Ev (ContractCall cfg (pt_to t) "allowance" [owner; r]) (Ok v) ∈ tr /\
    int_of_abi v = Ok allowance /\ (raw = 0 \/ allowance < raw);
  af_chain : exists cfg, Ev (CreateProvider chain) (Ok cfg) ∈ tr /\ pt_chain t = cc_name cfg /\
    pt_chain_id t = Some (cc_chain_id cfg);
  af_metadata : get (pt_metadata t) "action" = VStr "erc20_approval" /\
    get (pt_metadata t) "token_address" = VStr (pt_to t) /\
    get (pt_metadata t) "spender_address" = VStr r /\ get (pt_metadata t) "amount_raw" = VInt raw /\
    get (pt_metadata t) "unlimited_approval" = VBool (raw =? MAX_UINT256)
}.

Lemma check_approval_ok chain token owner spender amount known unlimited small tr p :
  may (check_erc20_approval_preconditions chain token owner spender amount known unlimited small) tr (Ok p) ->
  normalize_evm_address token = Ok (ap_token_address p) /\ normalize_evm_address owner = Ok (ap_owner_address p) /\
  normalize_evm_address spender = Ok (ap_spender_address p) /\ ap_spender_address p <> ZERO_ADDRESS /\
  (ea_raw_amount (ap_amount p) = MAX_UINT256 -> unlimited = true) /\
  approval_means amount small (ea_raw_amount (ap_amount p)) /\
  ap_unlimited_approval p = (ea_raw_amount (ap_amount p) =? MAX_UINT256) /\
  (exists cfg v allowance,
     Ev (ContractCall cfg (ap_token_address p) "allowance" [ap_owner_address p; ap_spender_address p]) (Ok v) ∈ tr /\
     int_of_abi v = Ok allowance /\ ap_allowance_sufficient p = (ea_raw_amount (ap_amount p) <=? allowance)) /\
  (exists cfg, Ev (CreateProvider chain) (Ok cfg) ∈ tr /\ ap_chain p = cc_name cfg /\ ap_chain_id p = cc_chain_id cfg).
Proof.
  unfold check_erc20_approval_preconditions. intros H. inv_run.
  match goal with H : make_ERC20ApprovalPreconditions _ _ _ _ _ _ _ _ _ _ _ _ = Ok _ |- _ =>
    unfold make_ERC20ApprovalPreconditions in H; inv_valid end. simpl.
  match goal with H : may (get_erc20_metadata _ _) _ _ |- _ => apply metadata_reads in H as (Htok & cfg & Hcfg & Hc & Hci) end.
  match goal with H : may (get_erc20_allowance _ _ _ _) _ _ |- _ =>
    apply allowance_reads in H as (cfg' & tok & own & sp & v & Ht & Ho & Hsp & Hev & Hb) end.
  same_address.
  split_and!; try done.
  - eapply reject_zero_ok; [by eexists | done].
  - intros E. rewrite E, Z.eqb_refl in *. simpl in *. by destruct unlimited.
  - by eapply approval_amount_ok.
  - eexists _, _, _. split_and!; [find_in | done..].
  - eexists. split_and!; [find_in | done..].
Qed.

Lemma prepare_approval_ok chain wallet_id token spender amount key known unlimited small tr t :
  may (prepare_erc20_approval chain wallet_id token spender amount key known unlimited small) tr (Ok t) ->
  exists r raw, approval_facts chain token spender amount unlimited small tr t r raw /\
    pt_wallet_id t = wallet_id /\ pt_idempotency_key t = key /\ wf_PreparedTransaction t.
Proof.
  unfold prepare_erc20_approval, get_wallet_address. intros H. inv_run.
  match goal with H : may (Call _ Ret) _ _ |- _ => destruct H as (b & tr' & -> & -> & <-) end.
  match goal with H : may (check_erc20_approval_preconditions _ _ _ _ _ _ _ _) _ _ |- _ =>
    apply check_approval_ok in H
      as (Htok & Hown & Hsp & Hz & Hunl & Hmean & Hu' & (cfg' & v & allow & Hev & Hv & Hsuf) & (cfg & Hcfg & Hc & Hci)) end.
  match goal with H : _prepared_erc20_transaction _ _ _ _ _ _ _ _ = Ok _ |- _ =>
    apply prepared_token_ok in H as (Ht & Hf & Hv0 & Hd & Hch & Hchi & Hmd & Hw & Hk & Hwf); [|by eexists..] end.
  match goal with H : encode_erc20_approval_data _ _ = Ok _ |- _ =>
    pose proof (encode_approval_ok _ _ _ H) as (r' & Hr' & Hu & Hdec);
    pose proof (approval_data_standard _ _ _ H) as Hstd end.
  apply (normalize_twice _ _ _ Hsp) in Hr' as ->.
  eexists _, _. split; [|done].
  constructor; rewrite ?Ht, ?Hf, ?Hv0, ?Hd, ?Hch, ?Hchi, ?Hmd; try done.
  - eexists _, _, v, allow. split_and!; [done | find_in | done |]. rewrite Hsuf in *.
    match goal with H : _ && _ = false |- _ => destruct (proj1 (andb_false_iff _ _) H) end; lia.
  - exists cfg. split_and!; [find_in | done | congruence].
  - unfold approval_metadata. rewrite Hu'. done.
Qed.

(** An unsigned native transfer. *)
Record native_facts (chain recipient amount : string) (t : PreparedTransaction) : Prop := {
  nf_recipient : normalize_evm_address recipient = Ok (pt_to t);
  nf_nonzero : pt_to t <> ZERO_ADDRESS;
  nf_no_self : pt_from_address t <> Some (pt_to t);
  nf_from : exists owner, pt_from_address t = Some owner;
  nf_value : 0 < pt_value_wei t /\ parse_units (py_strip amount) 18 = Ok (pt_value_wei t);
  nf_data : pt_data t = "0x";
  nf_chain : exists cfg, get_chain_by_name settings chain = Ok cfg /\ pt_chain t = cc_name cfg /\
    pt_chain_id t = Some (cc_chain_id cfg);
  nf_metadata : get (pt_metadata t) "action" = VStr "native_transfer" /\
    get (pt_metadata t) "recipient_address" = VStr (pt_to t)
}.

Lemma prepare_native_ok chain wallet_id recipient amount key tr t :
  may (prepare_native_transfer settings chain wallet_id recipient amount key) tr (Ok t) ->
  native_facts chain recipient amount t /\ pt_wallet_id t = wallet_id /\ pt_idempotency_key t = key /\
  wf_PreparedTransaction t.
Proof.
  unfold prepare_native_transfer, get_wallet_address. intros H. inv_run.
  match goal with H : may (Call _ Ret) _ _ |- _ => destruct H as (b & tr' & -> & -> & <-) end.
  match goal with H : make_PreparedTransaction _ _ _ _ _ _ _ _ _ _ _ = Ok _ |- _ =>
    pose proof (make_PreparedTransaction_from _ _ _ _ _ _ _ _ _ _ _ _ H) as (own & Hown & Hfrom);
    apply make_PreparedTransaction_ok in H
      as (Hwf & Hto & Hw & Hc & Hci & Hv & Hd & _ & _ & Hk & Hm & _ & _) end.
  rewrite normalize_zero in *. simplify_eq. same_address.
  repeat match goal with H : String.eqb _ _ = false |- _ => apply String.eqb_neq in H end.
  match goal with H : (_ <=? 0) = false |- _ => apply Z.leb_gt in H end.
  split; [|done].
  constructor; rewrite ?Hm, ?Hfrom, ?Hci, ?Hc; try done; [congruence | by eexists |]. by eexists.
Qed.

(** * Preparation and policy agree *)

(** The transaction the pipeline executes for a prepared one, once nonce and gas are known. *)
Definition executable_from (t : PreparedTransaction) (chain_id nonce : Z) (gas : GasFees) : ExecutableTransaction :=
  {| et_wallet_id := pt_wallet_id t; et_chain := pt_chain t; et_chain_id := chain_id;
     et_from_address := pt_from_address t; et_to := pt_to t; et_value_wei := pt_value_wei t; et_data := pt_data t;
     et_nonce := nonce; et_gas := gas; et_idempotency_key := pt_idempotency_key t; et_metadata := pt_metadata t |}.

(** The provider factory resolves chains through the registry. *)
Definition registry_answers (tr : list wevent) : Prop :=
  forall name cfg, Ev (CreateProvider name) (Ok cfg) ∈ tr -> get_chain_by_name settings name = Ok cfg.

(** What the engine asks of any transaction, beside the rules of its action. *)
Definition common_rules (eng : TransactionPolicyEngine) (t : PreparedTransaction) (gas : GasFees)
    (sim : SimulationResult) : Prop :=
  sr_status sim = SIM_PASSED /\ (forall m, pe_max_gas_limit eng = Some m -> gf_gas_limit gas <= m) /\
  exists k, pt_idempotency_key t = Some k /\ k <> "".

Lemma common_allowed eng t chain_id nonce gas sim cfg name :
  common_rules eng t gas sim -> get_chain_by_name settings name = Ok cfg -> pt_chain t = cc_name cfg ->
  chain_id = cc_chain_id cfg ->
  let e := executable_from t chain_id nonce gas in
  chain_allowed settings e /\ key_present e /\ (exists s, Some sim = Some s /\ sr_status s = SIM_PASSED) /\
  gas_allowed eng e.
Proof.
  intros (Hsim & Hgas & k & Hk & Hne) Hc Hn -> e. split_and!.
  - exists cfg. unfold e. simpl. rewrite Hn. split; [by eapply by_name_again | done].
  - intros _. by exists k.
  - by exists sim.
  - exact Hgas.
Qed.

Lemma names_normalized t key a chain_id nonce gas :
  get (pt_metadata t) key = VStr a -> normalize_evm_address a = Ok a ->
  metadata_names (executable_from t chain_id nonce gas) key a.
Proof. intros. by exists a. Qed.

Lemma transfer_allowed eng chain token recipient amount small tr t r raw chain_id nonce gas sim :
  transfer_facts chain token recipient amount small tr t r raw -> registry_answers tr ->
  common_rules eng t gas sim -> pt_chain_id t = Some chain_id ->
  policy_allows settings eng (executable_from t chain_id nonce gas) (Some sim).
Proof.
  intros [Htok Hrec Hz Hself Hval _ Hstd _ _ (cfg & Hcfg & Hn & Hci) (Ha & Hmt & Hmr & _)] Hreg Hcom Hid.
  apply Hreg in Hcfg. rewrite Hci in Hid. injection Hid as <-.
  edestruct (common_allowed eng t (cc_chain_id cfg) nonce gas sim cfg chain) as (H1 & H2 & H3 & H4); [done..|].
  unfold policy_allows. split_and!; [exact H1 | exact H2 | exact H3 | exact H4 | |..].
  - intros _. split_and!; [|done | done |].
    + apply names_normalized; [done|]. by eapply normalize_again.
    + exists r. split_and!; [|done | done]. apply names_normalized; [done|]. by eapply normalize_again.
  - unfold has_action. simpl. rewrite Ha. discriminate.
  - unfold has_action. simpl. rewrite Ha. discriminate.
  - unfold has_action. simpl. rewrite Ha. discriminate.
Qed.

Lemma approval_allowed_iff eng chain token spender amount unlimited small tr t r raw chain_id nonce gas sim :
  approval_facts chain token spender amount unlimited small tr t r raw -> registry_answers tr ->
  common_rules eng t gas sim -> pt_chain_id t = Some chain_id ->
  (policy_allows settings eng (executable_from t chain_id nonce gas) (Some sim) <->
   (pe_reject_unlimited_erc20_approvals eng = true -> raw <> MAX_UINT256)).
Proof.
  intros [Htok Hsp Hz Hval _ Hstd _ _ (cfg & Hcfg & Hn & Hci) (Ha & Hmt & Hms & Hraw & Hunl)] Hreg Hcom Hid.
  apply Hreg in Hcfg. rewrite Hci in Hid. injection Hid as <-.
  edestruct (common_allowed eng t (cc_chain_id cfg) nonce gas sim cfg chain) as (H1 & H2 & H3 & H4); [done..|].
  split.
  - intros (_ & _ & _ & _ & _ & Happ & _) Heng ->. destruct (Happ Ha) as (_ & _ & _ & _ & Hno).
    destruct (Hno Heng) as [Hno' _]. apply Hno'. simpl. by rewrite Hunl, Z.eqb_refl.
  - intros Hmax. unfold policy_allows. split_and!; [exact H1 | exact H2 | exact H3 | exact H4 | |..].
    + unfold has_action. simpl. rewrite Ha. discriminate.
    + intros _. split_and!; [|done | done | |].
      * apply names_normalized; [done|]. by eapply normalize_again.
      * exists r. split; [|done]. apply names_normalized; [done|]. by eapply normalize_again.
      * intros Heng. specialize (Hmax Heng). simpl. rewrite Hunl, Hraw. split; [|].
        -- intros [= E]. by apply Z.eqb_eq in E.
        -- simpl. by apply Z.eqb_neq.
    + unfold has_action. simpl. rewrite Ha. discriminate.
    + unfold has_action. simpl. rewrite Ha. discriminate.
Qed.

Lemma native_allowed eng chain recipient amount t chain_id nonce gas sim :
  native_facts chain recipient amount t -> common_rules eng t gas sim -> pt_chain_id t = Some chain_id ->
  policy_allows settings eng (executable_from t chain_id nonce gas) (Some sim).
Proof.
  intros [Hrec Hz Hself _ [Hval _] Hdata (cfg & Hcfg & Hn & Hci) (Ha & Hmr)] Hcom Hid.
  rewrite Hci in Hid. injection Hid as <-.
  edestruct (common_allowed eng t (cc_chain_id cfg) nonce gas sim cfg chain) as (H1 & H2 & H3 & H4); [done..|].
  unfold policy_allows. split_and!; [exact H1 | exact H2 | exact H3 | exact H4 | |..].
  - unfold has_action. simpl. rewrite Ha. discriminate.
  - unfold has_action. simpl. rewrite Ha. discriminate.
  - intros _. split_and!; [done | done | | done | done].
    apply names_normalized; [done|]. by eapply normalize_again.
  - unfold has_action. simpl. rewrite Ha. discriminate.
Qed.
End facts.

(** * Properties *)

Section claims.
Context `{W : Web3} {L : Web3Laws W}.

(** C40. The calldata of a transfer or an approval decodes to the selector of the call, the checked recipient and
    exactly the amount; it is built for every valid address and every amount that fits a [uint256], and
    for no other. *)
Theorem calldata_roundtrip (address : string) (n : Z) :
  (forall data, encode_erc20_transfer_data address n = Ok data ->
     exists r, normalize_evm_address address = Ok r /\ decode_call data = Some ("a9059cbb", py_lower r, n)) /\
  (forall data, encode_erc20_approval_data address n = Ok data ->
     exists r, normalize_evm_address address = Ok r /\ decode_call data = Some ("095ea7b3", py_lower r, n)) /\
  (is_ok (encode_erc20_transfer_data address n) = true <->
     is_ok (normalize_evm_address address) = true /\ 0 <= n <= MAX_UINT256) /\
  (is_ok (encode_erc20_approval_data address n) = true <->
     is_ok (normalize_evm_address address) = true /\ 0 <= n <= MAX_UINT256).
Proof.
  split_and!.
  - intros data (r & Hr & _ & Hd)%encode_transfer_ok. by exists r.
  - intros data (r & Hr & _ & Hd)%encode_approval_ok. by exists r.
  - unfold encode_erc20_transfer_data. rewrite <- (validate_uint256_ok n tt).
    destruct (normalize_evm_address address), (_validate_uint256 n) as [[]|]; simpl; naive_solver.
  - unfold encode_erc20_approval_data. rewrite <- (validate_uint256_ok n tt).
    destruct (normalize_evm_address address), (_validate_uint256 n) as [[]|]; simpl; naive_solver.
Qed.

(** A prepared token transfer sends exactly the requested amount, in the requested units, of the requested
    token to the requested recipient, who is neither the zero address nor the sender, and the balance
    read for the sender in the run covers it; the policy engine accepts it under the rules common to
    every transaction. *)
Theorem prepared_transfer_sound (settings : MercurySettings) (chain wallet_id token recipient amount : string)
    (key : option string) (small : bool) (tr : list wevent) (t : PreparedTransaction)
    (Hrun : may (prepare_erc20_transfer chain wallet_id token recipient amount key small) tr (Ok t)) :
  exists r raw, transfer_facts chain token recipient amount small tr t r raw /\
  forall eng chain_id nonce gas sim,
    registry_answers settings tr -> common_rules eng t gas sim -> pt_chain_id t = Some chain_id ->
    policy_allows settings eng (executable_from t chain_id nonce gas) (Some sim).
Proof.
  apply prepare_transfer_ok in Hrun as (r & raw & Hf & _). exists r, raw. split; [done|].
  intros. by eapply transfer_allowed.
Qed.


(** A prepared native transfer moves exactly the requested positive amount of wei, without calldata, to
    the requested recipient, who is neither the zero address nor the sender, on a registered chain; the
    policy engine accepts it under the rules common to every transaction. *)
Theorem prepared_native_sound (settings : MercurySettings) (chain wallet_id recipient amount : string)
    (key : option string) (tr : list wevent) (t : PreparedTransaction)
    (Hrun : may (prepare_native_transfer settings chain wallet_id recipient amount key) tr (Ok t)) :
  native_facts settings chain recipient amount t /\
  forall eng chain_id nonce gas sim,
    common_rules eng t gas sim -> pt_chain_id t = Some chain_id ->
    policy_allows settings eng (executable_from t chain_id nonce gas) (Some sim).
Proof.
  apply prepare_native_ok in Hrun as [Hf _]. split; [done|]. intros. by eapply native_allowed.
Qed.
End claims.

(** A token with six decimals and a wallet that owns five of it. *)
Definition token_answer (e : effect) : ans e :=
  match e return ans e with
  | GetWalletAddress w => Ok {| wa_wallet_id := w; wa_address := sample_wallet |}
  | CreateProvider name => get_chain_by_name default_settings name
  | ContractCall _ _ f _ =>
      if String.eqb f "decimals" then Ok (AInt 6)
      else if String.eqb f "balanceOf" then Ok (AInt 5000000)
      else if String.eqb f "allowance" then Ok (AInt 10)
      else if String.eqb f "symbol" then Ok (AStr "USDC")
      else Err (Exn ExceptionC "no name()")
  | ResolveChainId _ | LookupNonce _ _ | PopulateGas _ | Simulate _ | Broadcast _ | WaitForReceipt _ _ _ _
  | SignTransaction _ | RequestApproval _ | Complete _ _ | GetQuote _ _ | BuildExecution _ _ =>
      Err (Exn ExceptionC "not asked")
  | Reserve _ => Err (OtherError (Exn ExceptionC "not asked"))
  | Release _ => tt
  | Now => 0
  end.

Definition token_run {A} (p : wallet A) : A := (run_prog (fun e (_ : unit) => (tt, token_answer e)) p tt).2.
Definition token_trace {A} (p : wallet A) : list wevent := run_trace (fun e (_ : unit) => (tt, token_answer e)) p tt.

Lemma token_run_may {A} (p : wallet A) a : token_run p = a -> may p (token_trace p) a.
Proof. intros <-. exact (run_may (fun e (_ : unit) => (tt, token_answer e)) p tt). Qed.

Definition sample_token : string := "0x3333333333333333333333333333333333333333".
Definition sample_transfer_run : wallet (result exn PreparedTransaction) :=
  prepare_erc20_transfer "base" "w1" sample_token sample_peer "1.5" (Some "k1") false.
Definition sample_approval_run : wallet (result exn PreparedTransaction) :=
  prepare_erc20_approval "base" "w1" sample_token sample_peer "max" (Some "k1") false true false.
Definition sample_native_run : wallet (result exn PreparedTransaction) :=
  prepare_native_transfer default_settings "base" "w1" sample_peer "0.25" (Some "k1").

Example sample_transfer_data :
  (fun t => decode_call (pt_data t)) <$> token_run sample_transfer_run = Ok (Some ("a9059cbb", sample_peer, 1500000)).
Proof. vm_compute. reflexivity. Qed.

Lemma prepared_transfer_sound_witness :
  exists t r raw, token_run sample_transfer_run = Ok t /\
  transfer_facts "base" sample_token sample_peer "1.5" false (token_trace sample_transfer_run) t r raw.
Proof.
  destruct (token_run sample_transfer_run) as [t|] eqn:E; [|vm_compute in E; discriminate E].
  destruct (prepared_transfer_sound default_settings _ _ _ _ _ _ _ _ _ (token_run_may _ _ E)) as (r & raw & H & _).
  exists t, r, raw. split; [reflexivity | exact H].
Defined.


Lemma prepared_native_sound_witness :
  exists t, token_run sample_native_run = Ok t /\ native_facts default_settings "base" sample_peer "0.25" t.
Proof.
  destruct (token_run sample_native_run) as [t|] eqn:E; [|vm_compute in E; discriminate E].
  exists t. split; [reflexivity | exact (proj1 (prepared_native_sound default_settings _ _ _ _ _ _ _ (token_run_may _ _ E)))].
Defined.

Lemma calldata_roundtrip_witness :
  exists data, encode_erc20_transfer_data sample_peer 7 = Ok data /\
  exists r, normalize_evm_address sample_peer = Ok r /\ decode_call data = Some ("a9059cbb", py_lower r, 7).
Proof.
  destruct (encode_erc20_transfer_data sample_peer 7) as [data|] eqn:E; [|vm_compute in E; discriminate E].
  exists data. split; [reflexivity | exact (proj1 (calldata_roundtrip sample_peer 7) data E)].
Defined.
