(* ===== verification/Swaps.v ===== *)
(** Swap preparation ([mercury/swaps/router.py], [mercury/tools/swaps.py]): provider selection, the allowance
    check, and the approval or swap transaction that enters the pipeline next. *)
From stdpp Require Import base tactics option list sets strings.
From Stdlib Require Import ZArith Lia Ascii String.
From S2P Require Import Prelude Python Values Exceptions Amounts Redaction Errors Addresses Chains Models SwapModels.
From S2P Require Import Policy Idempotency Prog Effects Erc20 Intents TokenTransactions.

Local Open Scope string_scope.
Local Open Scope Z_scope.
Local Open Scope prog_scope.

(** * [datetime.isoformat()] of an instant in UTC *)

Definition MICROSECONDS_PER_DAY : Z := 86400000000.

(** The proleptic Gregorian date of a day counted from 1970-01-01, as year, month, day. *)
Definition civil_from_days (days : Z) : Z * Z * Z :=
  let z := days + 719468 in
  let era := z / 146097 in
  let doe := z mod 146097 in
  let yoe := (doe - doe / 1460 + doe / 36524 - doe / 146096) / 365 in
  let doy := doe - (365 * yoe + yoe / 4 - yoe / 100) in
  let mp := (5 * doy + 2) / 153 in
  let month := if mp <? 10 then mp + 3 else mp - 9 in
  (yoe + era * 400 + (if month <=? 2 then 1 else 0), month, doy - (153 * mp + 2) / 5 + 1).

Fixpoint dec_fixed (width : nat) (n : Z) (acc : string) : string :=
  match width with
  | O => acc
  | S w => dec_fixed w (n / 10) (String (digit_char (n mod 10)) acc)
  end.

(** Every quote's expiry is an aware datetime in UTC by the time it is printed. *)
Definition isoformat (d : datetime) : string :=
  let t := match d with Aware t | Naive t => t end in
  let '(y, m, day) := civil_from_days (t / MICROSECONDS_PER_DAY) in
  let rest := t mod MICROSECONDS_PER_DAY in
  let seconds := rest / 1000000 in
  let us := rest mod 1000000 in
  dec_fixed 4 y "-" ++ dec_fixed 2 m "-" ++ dec_fixed 2 day "T" ++
  dec_fixed 2 (seconds / 3600) ":" ++ dec_fixed 2 (seconds / 60 mod 60) ":" ++ dec_fixed 2 (seconds mod 60) "" ++
  (if us =? 0 then "" else "." ++ dec_fixed 6 us "") ++
  match d with Aware _ => "+00:00" | Naive _ => "" end.

Example iso_epoch : isoformat (Aware 0) = "1970-01-01T00:00:00+00:00".
Proof. reflexivity. Qed.
Example iso_leap : isoformat (Aware 1709210096000500) = "2024-02-29T12:34:56.000500+00:00".
Proof. reflexivity. Qed.
Example iso_year_end : isoformat (Aware 946684799000000) = "1999-12-31T23:59:59+00:00".
Proof. reflexivity. Qed.

(** * router.py *)

(** The configured providers are known by name; a provider's methods are calls to the outside. *)
Record SwapRouter := { rt_providers : list SwapProviderName; rt_provider_order : list SwapProviderName }.

Definition make_SwapRouter (providers : list SwapProviderName) : SwapRouter :=
  {| rt_providers := providers; rt_provider_order := [LIFI; COWSWAP; UNISWAP] |}.

Definition provider_for (router : SwapRouter) (preference : option SwapProviderName) : result exn SwapProviderName :=
  match preference with
  | Some p =>
      if bool_decide (p ∈ rt_providers router) then Ok p
      else Err (Exn SwapProviderErrorC ("Swap provider '" ++ SwapProviderName_value p ++ "' is not configured."))
  | None =>
      match List.find (fun p => bool_decide (p ∈ rt_providers router)) (rt_provider_order router) with
      | Some p => Ok p
      | None => Err (Exn SwapProviderErrorC "No swap providers are configured.")
      end
  end.

Definition get_quote (router : SwapRouter) (request : SwapQuoteRequest)
    (provider_preference : option SwapProviderName) : wallet (result exn SwapQuote) :=
  provider <- pure (provider_for router provider_preference);;
  provider_get_quote provider request.

(** * tools/swaps.py *)

Definition NATIVE_SELL_DECIMALS : Z := 18.

Definition make_SwapAllowanceCheck (spender_address : string) (required_amount_raw current_allowance_raw : Z)
    (allowance_sufficient : bool) : result exn SwapAllowanceCheck :=
  v_model "SwapAllowanceCheck"
    ((fun '(r, c) =>
        {| sa_spender_address := spender_address; sa_required_amount_raw := r; sa_current_allowance_raw := c;
           sa_allowance_sufficient := allowance_sufficient |}) <$>
       vboth (v_gt "required_amount_raw" 0 required_amount_raw) (v_ge "current_allowance_raw" 0 current_allowance_raw))
    no_after.

(** [PreparedSwap(quote, quote_policy_decision)], the other fields at their defaults. *)
Definition quote_only (quote : SwapQuote) (decision : PolicyDecision) : PreparedSwap :=
  {| ps_quote := quote; ps_execution := None; ps_quote_policy_decision := decision;
     ps_execution_policy_decision := None; ps_allowance := None; ps_approval_transaction := None;
     ps_swap_transaction := None; ps_order_submission_idempotency_key := None |}.

Section swaps.
Context {W : Web3} (settings : MercurySettings).

(** The clock is read when a policy is evaluated. *)
Definition quote_decision (quote : SwapQuote) (policy : SwapPolicyConfig) : wallet (result exn PolicyDecision) :=
  now <- utc_now;;
  pure (evaluate_swap_quote_policy settings quote policy now).

Definition execution_decision (execution : SwapExecution) (policy : SwapPolicyConfig)
    : wallet (result exn PolicyDecision) :=
  now <- utc_now;;
  pure (evaluate_swap_execution_policy settings execution policy now).

Definition check_swap_allowance (quote : SwapQuote) : wallet (result exn SwapAllowanceCheck) :=
  match ro_spender_address (qu_route quote) with
  | None => Ret (Err (ValueError "Swap quote is missing spender address."))
  | Some spender =>
      preconditions <- check_erc20_approval_preconditions (sq_chain (qu_request quote))
        (ro_from_token (qu_route quote)) (sq_wallet_address (qu_request quote)) spender
        (sq_amount_in (qu_request quote)) true false false;;
      pure (make_SwapAllowanceCheck (ap_spender_address preconditions)
              (ea_raw_amount (ap_amount preconditions)) (ap_current_allowance_raw preconditions)
              (ap_allowance_sufficient preconditions))
  end.

Definition swap_metadata (execution : SwapExecution) : dict :=
  let quote := se_quote execution in
  let route := qu_route quote in
  [("action", VStr "swap");
   ("provider", VStr (SwapProviderName_value (se_provider execution)));
   ("route_id", VStr (ro_route_id route));
   ("route_kind", VStr (SwapRouteKind_value (ro_route_kind route)));
   ("from_token", VStr (ro_from_token route));
   ("to_token", VStr (ro_to_token route));
   ("spender_address", of_opt_str (ro_spender_address route));
   ("amount_in", VStr (sq_amount_in (qu_request quote)));
   ("amount_in_raw", VInt (qu_amount_in_raw quote));
   ("expected_amount_out_raw", VInt (qu_expected_amount_out_raw quote));
   ("min_amount_out_raw", of_opt_int (qu_min_amount_out_raw quote));
   ("slippage_bps", of_opt_int (qu_slippage_bps quote));
   ("recipient_address", VStr (qu_recipient_address quote));
   ("quote_expires_at", of_opt_str (isoformat <$> qu_expires_at quote))].

Definition prepared_swap_transaction_from_execution (execution : SwapExecution) : result exn PreparedTransaction :=
  match se_execution_type execution, se_transaction execution with
  | EVM_TRANSACTION, Some transaction =>
      let request := qu_request (se_quote execution) in
      make_PreparedTransaction (sq_wallet_id request) (sq_chain request) (Some (sx_chain_id transaction))
        (Some (sq_wallet_address request)) (sx_to transaction) (sx_value_wei transaction) (sx_data transaction)
        None None (Some (sq_idempotency_key request)) (swap_metadata execution)
  | _, _ => Err (ValueError "Only EVM swap executions can become prepared transactions.")
  end.

(** The destination chain of the intent, by name or by id. *)
Definition resolve_destination (intent : SwapIntent) : result exn (option string * option Z) :=
  match si_to_chain intent with
  | Some name =>
      dest ← get_chain_by_name settings name;
      if match si_to_chain_id intent with Some i => negb (cc_chain_id dest =? i) | None => false end
      then Err (ValueError "Destination chain name does not match destination chain id.")
      else Ok (Some (cc_name dest), Some (cc_chain_id dest))
  | None =>
      match si_to_chain_id intent with
      | Some i => dest ← get_chain_by_id settings i; Ok (Some (cc_name dest), Some (cc_chain_id dest))
      | None => Ok (None, None)
      end
  end.

(** The sold amount, the sold token and its wrapped form. *)
Definition resolve_sell_side (intent : SwapIntent) (chain : ChainConfig) (canonical_native : string)
    : wallet (result exn (ERC20Amount * string * option string)) :=
  if String.eqb (si_from_token intent) canonical_native then
    match cc_wrapped_native_token_address chain with
    | None =>
        Ret (Err (ValueError ("Cannot prepare a native token swap on chain " ++ py_repr_str (cc_name chain) ++
                    ": wrapped native token metadata is not configured for this chain.")))
    | Some wrapped =>
        wrapped_from_token <- pure (normalize_evm_address wrapped);;
        amount <- pure (ERC20Amount_from_human (si_amount_in intent) NATIVE_SELL_DECIMALS);;
        ret_ok (amount, canonical_native, Some wrapped_from_token)
    end
  else
    token_metadata <- get_erc20_metadata (cc_name chain) (si_from_token intent);;
    amount <- pure (ERC20Amount_from_human (si_amount_in intent) (em_decimals token_metadata));;
    ret_ok (amount, em_token_address token_metadata, None).

(** What follows an allowed quote whose allowance needs no change. *)
Definition prepare_swap_execution (router : SwapRouter) (policy : SwapPolicyConfig) (quote : SwapQuote)
    (decision : PolicyDecision) (allowance : option SwapAllowanceCheck) : wallet (result exn PreparedSwap) :=
  provider <- pure (provider_for router (Some (qu_provider quote)));;
  execution <- provider_build_execution provider quote;;
  exec_decision <- execution_decision execution policy;;
  let base := {| ps_quote := quote; ps_execution := Some execution; ps_quote_policy_decision := decision;
                 ps_execution_policy_decision := Some exec_decision; ps_allowance := allowance;
                 ps_approval_transaction := None; ps_swap_transaction := None;
                 ps_order_submission_idempotency_key := None |} in
  if bool_decide (pd_status exec_decision = POLICY_REJECTED) then ret_ok base else
  if bool_decide (se_execution_type execution = EIP712_ORDER) && bool_decide (se_provider execution = COWSWAP) then
    ret_ok {| ps_quote := quote; ps_execution := Some execution; ps_quote_policy_decision := decision;
              ps_execution_policy_decision := Some exec_decision; ps_allowance := allowance;
              ps_approval_transaction := None; ps_swap_transaction := None;
              ps_order_submission_idempotency_key :=
                Some (sq_idempotency_key (qu_request quote) ++ ":cow_order") |}
  else
    transaction <- pure (prepared_swap_transaction_from_execution execution);;
    ret_ok {| ps_quote := quote; ps_execution := Some execution; ps_quote_policy_decision := decision;
              ps_execution_policy_decision := Some exec_decision; ps_allowance := allowance;
              ps_approval_transaction := None; ps_swap_transaction := Some transaction;
              ps_order_submission_idempotency_key := None |}.

(** What follows a quote: the policy, then the allowance of the spender, then the execution. *)
Definition prepare_quoted_swap (router : SwapRouter) (policy : SwapPolicyConfig) (quote : SwapQuote)
    : wallet (result exn PreparedSwap) :=
  let request := qu_request quote in
  decision <- quote_decision quote policy;;
  if bool_decide (pd_status decision = POLICY_REJECTED) then ret_ok (quote_only quote decision) else
  if sq_from_token_is_native request then prepare_swap_execution router policy quote decision None else
  allowance <- check_swap_allowance quote;;
  if sa_allowance_sufficient allowance then prepare_swap_execution router policy quote decision (Some allowance) else
  approval <- prepare_erc20_approval (sq_chain request) (sq_wallet_id request) (ro_from_token (qu_route quote))
                (sa_spender_address allowance) (sq_amount_in request)
                (Some (sq_idempotency_key request ++ ":approval")) true false false;;
  ret_ok {| ps_quote := quote; ps_execution := None; ps_quote_policy_decision := decision;
            ps_execution_policy_decision := None; ps_allowance := Some allowance;
            ps_approval_transaction := Some approval; ps_swap_transaction := None;
            ps_order_submission_idempotency_key := None |}.

Definition swap_quote_request (intent : SwapIntent) : wallet (result exn SwapQuoteRequest) :=
  w <- get_wallet_address (si_wallet_id intent);;
  chain <- pure (get_chain_by_name settings (si_chain intent));;
  dest <- pure (resolve_destination intent);;
  canonical_native <- pure (normalize_evm_address ZERO_ADDRESS);;
  sell <- resolve_sell_side intent chain canonical_native;;
  let '(amount, from_token, wrapped_from_token) := sell in
  if ea_raw_amount amount <=? 0 then Ret (Err (ValueError "Swap amount must be greater than zero.")) else
  pure (make_SwapQuoteRequest settings (si_wallet_id intent) (wa_address w) (cc_name chain) (cc_chain_id chain)
          from_token (si_to_token intent) (si_amount_in intent) (ea_raw_amount amount)
          (si_max_slippage_bps intent) (si_min_amount_out intent) (si_recipient_address intent)
          (si_idempotency_key intent) dest.1 dest.2 (String.eqb (si_from_token intent) canonical_native)
          wrapped_from_token).

Definition prepare_swap (intent : SwapIntent) (router : SwapRouter) (policy : SwapPolicyConfig)
    : wallet (result exn PreparedSwap) :=
  request <- swap_quote_request intent;;
  quote <- get_quote router request (si_provider_preference intent);;
  prepare_quoted_swap router policy quote.
End swaps.
