(* ===== verification/SwapSpec.v ===== *)
(** What a prepared swap is: it follows the intent, it passed the swap policy at the time it was made, an approval
    or an execution is prepared only where the other is not needed, and the transaction policy accepts it. *)
From stdpp Require Import base tactics option list sets strings.
From Stdlib Require Import ZArith Lia Ascii String.
From S2P Require Import Prelude Python Values Exceptions Amounts Redaction Errors Addresses Chains Models SwapModels.
From S2P Require Import Policy Idempotency Prog Effects Erc20 Intents TokenTransactions TokenSpec Swaps.

Local Open Scope string_scope.
Local Open Scope Z_scope.

(** * Type invariants of the swap models *)

Section wf.
Context `{W : Web3} {L : Web3Laws W}.

Definition wf_SwapQuoteRequest (r : SwapQuoteRequest) : Prop :=
  sq_wallet_id r <> "" /\ normalized (sq_wallet_address r) /\ normalized (sq_from_token r) /\
  normalized (sq_to_token r) /\ wf_address_opt (sq_recipient_address r) /\ 0 < sq_amount_in_raw r /\
  sq_idempotency_key r <> "".

Definition wf_SwapQuote (q : SwapQuote) : Prop :=
  wf_SwapQuoteRequest (qu_request q) /\ wf_address_opt (ro_spender_address (qu_route q)) /\
  normalized (qu_recipient_address q) /\ validate_quote_consistency q = Ok tt.

Definition wf_SwapExecution (e : SwapExecution) : Prop :=
  wf_SwapQuote (se_quote e) /\ validate_execution_payload e = Ok tt /\
  (forall t, se_transaction e = Some t -> normalized (sx_to t) /\ is_hex_data (sx_data t) = true /\ 0 <= sx_value_wei t).

Lemma v_opt_field_ok loc o o' : v_opt (v_address_field loc) o = Ok o' -> wf_address_opt o'.
Proof.
  intros [[-> ->] | (s & a & -> & -> & H)]%v_opt_ok; [done|]. apply v_address_field_ok in H.
  intros x [= <-]. by exists s.
Qed.

Lemma v_from_token_ok loc s a : v_from_token loc s = Ok a -> normalized a.
Proof.
  unfold v_from_token, normalize_swap_input_from_token. intros H. apply result_bind_ok in H as (t & _ & H).
  apply vfield_ok in H. destruct (_ || _); by eexists.
Qed.

Lemma make_SwapQuoteRequest_ok settings wi wa ch ci ft tt' ai raw sl mo ra ik tc tci nat wr r :
  make_SwapQuoteRequest settings wi wa ch ci ft tt' ai raw sl mo ra ik tc tci nat wr = Ok r ->
  wf_SwapQuoteRequest r /\ sq_wallet_id r = wi /\ sq_chain_id r = ci /\
  normalize_evm_address tt' = Ok (sq_to_token r) /\ sq_amount_in r = ai /\ sq_amount_in_raw r = raw /\
  sq_max_slippage_bps r = sl /\ sq_min_amount_out r = mo /\ sq_idempotency_key r = ik /\
  normalize_evm_address wa = Ok (sq_wallet_address r) /\ sq_from_token_is_native r = nat /\
  match ra with
  | Some a => exists b, normalize_evm_address a = Ok b /\ sq_recipient_address r = Some b
  | None => sq_recipient_address r = None
  end.
Proof.
  unfold make_SwapQuoteRequest. intros H. inv_valid. inv_ok. unfold v_any in *. simplify_eq.
  unfold wf_SwapQuoteRequest. simpl.
  repeat match goal with
  | H : v_opt (v_address_field _) _ = Ok _ |- _ =>
      pose proof (v_opt_field_ok _ _ _ H); apply v_opt_ok in H as [[-> ->] | (? & ? & -> & -> & H)]
  | H : v_address_field _ _ = Ok _ |- _ => apply v_address_field_ok in H
  | H : v_from_token _ _ = Ok _ |- _ => apply v_from_token_ok in H
  | H : v_opt (v_bps _) _ = Ok _ |- _ =>
      apply (v_opt_id_ok _ (fun _ => True)) in H as [-> _];
        [|by intros ? ? (? & [-> _]%v_ge_ok & [-> _]%v_le_ok)%result_bind_ok]
  | H : v_opt (v_min_length _ 1) _ = Ok _ |- _ =>
      apply (v_opt_id_ok _ (fun _ => True)) in H as [-> _]; [|by intros ? ? [-> _]%v_min_length_ok]
  end.
  all: split_and!; try done; by eexists.
Qed.

(** Every quote and execution the constructors accept satisfies the type invariants. *)
Lemma make_SwapQuote_wf p r ro ai eo mo sb ex ra rq q :
  wf_SwapQuoteRequest r -> wf_address_opt (ro_spender_address ro) ->
  make_SwapQuote p r ro ai eo mo sb ex ra rq = Ok q ->
  wf_SwapQuote q /\ qu_request q = r /\ qu_provider q = p /\ qu_route q = ro.
Proof.
  unfold make_SwapQuote. intros Hr Hs H. inv_valid. unfold v_any in *. simplify_eq.
  unfold wf_SwapQuote. simpl. repeat match goal with H : v_address_field _ _ = Ok _ |- _ => apply v_address_field_ok in H end.
  split_and!; try done; by eexists.
Qed.

Lemma make_SwapExecution_wf p ty q t o ur rw e :
  wf_SwapQuote q ->
  (forall x, t = Some x -> normalized (sx_to x) /\ is_hex_data (sx_data x) = true /\ 0 <= sx_value_wei x) ->
  make_SwapExecution p ty q t o ur rw = Ok e -> wf_SwapExecution e /\ se_quote e = q /\ se_provider e = p.
Proof.
  unfold make_SwapExecution. intros Hq Ht H. inv_valid. unfold v_any in *. simplify_eq. by unfold wf_SwapExecution.
Qed.

Lemma make_SwapEVMTransaction_ok ci to data value x :
  make_SwapEVMTransaction ci to data value = Ok x ->
  normalized (sx_to x) /\ is_hex_data (sx_data x) = true /\ 0 <= sx_value_wei x /\ sx_chain_id x = ci /\
  sx_data x = data /\ sx_value_wei x = value /\ normalize_evm_address to = Ok (sx_to x).
Proof.
  unfold make_SwapEVMTransaction. intros H. inv_fields. simpl. split_and!; try done; by eexists.
Qed.
End wf.

(** * Providers *)

(** What a provider promises: a quote answers the request it was asked for, an execution the quote. *)
Definition provider_promise `{W : Web3} (ev : wevent) : Prop :=
  match ev with
  | Ev (GetQuote p r) a => forall q, a = Ok q -> qu_request q = r /\ wf_SwapQuote q
  | Ev (BuildExecution p q) a => forall e, a = Ok e -> se_quote e = q /\ wf_SwapExecution e
  | _ => True
  end.

Definition is_get_quote (ev : wevent) : bool := match ev_call ev with GetQuote _ _ => true | _ => false end.
Definition is_build (ev : wevent) : bool := match ev_call ev with BuildExecution _ _ => true | _ => false end.

Section facts.
Context `{W : Web3} {L : Web3Laws W} (settings : MercurySettings).

Lemma provider_for_ok router pref p : provider_for router pref = Ok p -> p ∈ rt_providers router.
Proof.
  unfold provider_for. destruct pref as [q|].
  - destruct (bool_decide_reflect (q ∈ rt_providers router)); by intros [= <-].
  - destruct (List.find _ _) as [q|] eqn:E; [|done]. intros [= <-].
    apply find_some in E as [_ E]. by apply bool_decide_eq_true in E.
Qed.

(** The request sent to the provider says what the intent says. *)
Record request_follows (intent : SwapIntent) (r : SwapQuoteRequest) : Prop := {
  rf_wf : wf_SwapQuoteRequest r;
  rf_wallet : sq_wallet_id r = si_wallet_id intent;
  rf_chain : exists cfg, get_chain_by_name settings (si_chain intent) = Ok cfg /\ sq_chain_id r = cc_chain_id cfg;
  rf_to_token : normalize_evm_address (si_to_token intent) = Ok (sq_to_token r);
  rf_amount : sq_amount_in r = si_amount_in intent /\ exists decimals,
    parse_units (si_amount_in intent) decimals = Ok (sq_amount_in_raw r) /\
    (sq_from_token_is_native r = true -> decimals = NATIVE_SELL_DECIMALS);
  rf_limits : sq_max_slippage_bps r = si_max_slippage_bps intent /\ sq_min_amount_out r = si_min_amount_out intent;
  rf_key : sq_idempotency_key r = si_idempotency_key intent;
  rf_recipient : match si_recipient_address intent with
                 | Some a => exists b, normalize_evm_address a = Ok b /\ effective_recipient r = b
                 | None => effective_recipient r = sq_wallet_address r
                 end
}.

Lemma sell_side_ok intent chain native tr amount from wrapped :
  may (resolve_sell_side intent chain native) tr (Ok (amount, from, wrapped)) ->
  exists decimals, parse_units (si_amount_in intent) decimals = Ok (ea_raw_amount amount) /\
    (String.eqb (si_from_token intent) native = true -> decimals = NATIVE_SELL_DECIMALS).
Proof.
  unfold resolve_sell_side. destruct (String.eqb _ native) eqn:E; [destruct (cc_wrapped_native_token_address chain)|].
  - intros H. inv_run. simplify_eq. match goal with H : ERC20Amount_from_human _ _ = _ |- _ => apply from_human_ok in H as [H _] end.
    by exists NATIVE_SELL_DECIMALS.
  - by intros [_ [=]].
  - intros H. inv_run. simplify_eq. match goal with H : ERC20Amount_from_human _ _ = _ |- _ => apply from_human_ok in H as [H _] end.
    by eexists.
Qed.

Lemma swap_request_ok intent tr r :
  may (swap_quote_request settings intent) tr (Ok r) -> request_follows intent r.
Proof.
  unfold swap_quote_request. intros H. inv_run.
  match goal with H : may (resolve_sell_side _ _ _) _ (Ok ?x) |- _ => destruct x as [[amount from] wrapped];
    apply sell_side_ok in H as (decimals & Hp & Hd) end.
  inv_run.
  match goal with H : make_SwapQuoteRequest _ _ _ _ _ _ _ _ _ _ _ _ _ _ _ _ _ = Ok _ |- _ =>
    apply make_SwapQuoteRequest_ok in H as (Hwf & Hw & Hci & Ht & Ha & Hraw & Hsl & Hmo & Hk & _ & Hnat & Hrec) end.
  constructor; try done.
  - by eexists.
  - split; [done|]. exists decimals. by rewrite Hraw, Hnat.
  - destruct Hwf as (_ & _ & _ & _ & Hra & _). unfold effective_recipient.
    destruct (si_recipient_address intent) as [a'|]; [|by rewrite Hrec].
    destruct Hrec as (b & Hb & Hrec). exists b. split; [done|]. rewrite Hrec in *.
    specialize (Hra b eq_refl). destruct b; [by apply normalized_nonempty in Hra | done].
Qed.

(** * The swap transaction *)

(** A transaction prepared from an execution: the provider's call, from the wallet of the request, with the
    metadata the transaction policy reads. *)
Record swap_facts (e : SwapExecution) (t : PreparedTransaction) : Prop := {
  sf_call : exists x, se_transaction e = Some x /\ pt_to t = sx_to x /\ pt_value_wei t = sx_value_wei x /\
    pt_data t = sx_data x /\ pt_chain_id t = Some (sx_chain_id x) /\
    sx_chain_id x = sq_chain_id (qu_request (se_quote e));
  sf_from : pt_from_address t = Some (sq_wallet_address (qu_request (se_quote e)));
  sf_wallet : pt_wallet_id t = sq_wallet_id (qu_request (se_quote e));
  sf_chain : pt_chain t = sq_chain (qu_request (se_quote e));
  sf_key : pt_idempotency_key t = Some (sq_idempotency_key (qu_request (se_quote e)));
  sf_metadata : pt_metadata t = swap_metadata e;
  sf_wf : wf_PreparedTransaction t
}.

Lemma swap_transaction_ok e t :
  wf_SwapExecution e -> prepared_swap_transaction_from_execution e = Ok t -> swap_facts e t.
Proof.
  intros (Hq & Hp & Ht) H. unfold prepared_swap_transaction_from_execution in H.
  unfold validate_execution_payload in Hp. destruct (negb _); [discriminate|].
  destruct (se_execution_type e) eqn:Ety; [|discriminate..].
  destruct (se_transaction e) as [x|] eqn:Ex; [|discriminate].
  destruct (Z.eqb_spec (sx_chain_id x) (sq_chain_id (qu_request (se_quote e)))) as [Hc|]; [|discriminate].
  destruct Hq as ((Hw & Ha & _ & _ & _ & _ & Hk) & _). destruct (Ht x eq_refl) as (Hto & Hd & Hv).
  apply make_PreparedTransaction_ok in H
    as (Hwf & Hto' & Hw' & Hc' & Hci & Hv' & Hd' & _ & _ & Hk' & Hm & Hf & _).
  rewrite normalize_idem in Hto' by done. injection Hto' as Hto'.
  constructor; try done; [|by apply Hf].
  exists x. by split_and!.
Qed.

Lemma SwapProviderName_value_of p : SwapProviderName_of (SwapProviderName_value p) = Some p.
Proof. by destruct p. Qed.

(** An execution whose quote the swap policy allows becomes a transaction the engine accepts under the same
    swap configuration. *)
Lemma swap_tx_allowed eng policy now e t chain_id nonce gas sim :
  swap_facts e t -> wf_SwapExecution e -> quote_allowed settings policy now (se_quote e) ->
  pe_swap_policy_config eng = policy -> common_rules eng t gas sim -> pt_chain_id t = Some chain_id ->
  policy_allows settings eng (executable_from t chain_id nonce gas) (Some sim).
Proof.
  intros [(x & Hx & _ & _ & _ & Hci & Hcx) Hfrom _ Hch _ Hmd _] ((Hr & Hsp & Hrec & _) & Hpl & _)
    (Hprov & Hslip & _ & (cfg & Hcfg & Hid) & _ & _ & _ & Hspn & _) <- (Hsim & Hgas & Hkey) Hci'.
  rewrite Hci in Hci'. injection Hci' as <-.
  assert (se_provider e = qu_provider (se_quote e)) as Hpe.
  { unfold validate_execution_payload in Hpl. destruct (bool_decide_reflect (se_provider e = qu_provider (se_quote e)));
      [done | discriminate]. }
  unfold policy_allows, has_action. simpl. rewrite Hmd. split_and!; [..|done|done|done|].
  - exists cfg. simpl. rewrite Hch, Hid. by split.
  - by intros _.
  - by exists sim.
  - exact Hgas.
  - intros _. destruct (ro_spender_address (qu_route (se_quote e))) as [sp|] eqn:Esp; [|done].
    assert (get (swap_metadata e) "provider" = VStr (SwapProviderName_value (se_provider e))) as H1 by reflexivity.
    assert (get (swap_metadata e) "spender_address" = VStr sp) as H2 by (unfold swap_metadata; by rewrite Esp).
    exists (se_provider e), sp. cbn [executable_from et_metadata]. rewrite Hmd, H1, H2. cbn [py_str].
    rewrite SwapProviderName_value_of. split_and!; [done | by rewrite Hpe | done | | |].
    + by rewrite normalize_idem by by apply Hsp.
    + intros r [= <-]. by rewrite normalize_idem.
    + intros z. change (get (swap_metadata e) "slippage_bps") with (of_opt_int (qu_slippage_bps (se_quote e))).
      destruct (qu_slippage_bps (se_quote e)) as [s|]; [|done]. intros [= <-]. by apply Hslip.
Qed.

(** * The prepared swap *)

(** The allowance the chain reports for the spender of the quote covers the amount sold. *)
Definition allowance_covers (q : SwapQuote) (tr : list wevent) : Prop :=
  exists cfg owner token spender s v allowance raw,
    ro_spender_address (qu_route q) = Some s /\ normalize_evm_address s = Ok spender /\
    normalize_evm_address (sq_wallet_address (qu_request q)) = Ok owner /\
    normalize_evm_address (ro_from_token (qu_route q)) = Ok token /\
    Ev (ContractCall cfg token "allowance" [owner; spender]) (Ok v) ∈ tr /\ int_of_abi v = Ok allowance /\
    approval_means (sq_amount_in (qu_request q)) false raw /\ raw <= allowance.

(** A policy decision taken at a reading of the clock in the run. *)
Definition allowed_at_clock (policy : SwapPolicyConfig) (q : SwapQuote) (tr : list wevent) : Prop :=
  exists now : Z, Ev Now now ∈ tr /\ quote_allowed settings policy now q.

(** The four things a prepared swap can be. *)
Inductive prepared_as (policy : SwapPolicyConfig) (q : SwapQuote) (tr : list wevent) (p : PreparedSwap) : Prop :=
| as_rejected :
    pd_status (ps_quote_policy_decision p) = POLICY_REJECTED -> ps_execution p = None ->
    next_transaction p = None -> ps_order_submission_idempotency_key p = None ->
    Forall (fun ev => is_build ev = false) tr -> prepared_as policy q tr p
| as_approval t spender r raw :
    allowed_at_clock policy q tr -> sq_from_token_is_native (qu_request q) = false ->
    ps_approval_transaction p = Some t -> ps_swap_transaction p = None -> ps_execution p = None ->
    Forall (fun ev => is_build ev = false) tr ->
    ro_spender_address (qu_route q) = Some spender ->
    approval_facts (sq_chain (qu_request q)) (ro_from_token (qu_route q)) spender (sq_amount_in (qu_request q))
      false false tr t r raw ->
    pt_wallet_id t = sq_wallet_id (qu_request q) ->
    pt_idempotency_key t = Some (sq_idempotency_key (qu_request q) ++ ":approval") ->
    wf_PreparedTransaction t -> prepared_as policy q tr p
| as_execution e :
    allowed_at_clock policy q tr -> sq_from_token_is_native (qu_request q) = true \/ allowance_covers q tr ->
    ps_execution p = Some e -> se_quote e = q -> wf_SwapExecution e -> ps_approval_transaction p = None ->
    match ps_swap_transaction p with
    | Some t => swap_facts e t /\ (exists d, ps_execution_policy_decision p = Some d /\ pd_status d = NEEDS_APPROVAL)
    | None =>
        (exists d, ps_execution_policy_decision p = Some d /\ pd_status d = POLICY_REJECTED) \/
        (se_execution_type e = EIP712_ORDER /\ se_provider e = COWSWAP /\
         ps_order_submission_idempotency_key p = Some (sq_idempotency_key (qu_request q) ++ ":cow_order"))
    end -> prepared_as policy q tr p.

Definition no_build (e : effect) : Prop := match e with BuildExecution _ _ => False | _ => True end.

Lemma no_build_events (tr : list wevent) :
  Forall (fun ev => no_build (ev_call ev)) tr -> Forall (fun ev => is_build ev = false) tr.
Proof. intros H. eapply Forall_impl; [exact H|]. intros [e a]. unfold is_build, no_build. simpl. by destruct e. Qed.

(** Follow a program that builds no execution. *)
Ltac solve_no_build := solve_calls.

Lemma metadata_no_build chain token : calls no_build (get_erc20_metadata chain token).
Proof. unfold get_erc20_metadata, create_provider, read_decimals, _optional_text_call, contract_call. solve_no_build. Qed.

Lemma allowance_no_build chain token owner spender : calls no_build (get_erc20_allowance chain token owner spender).
Proof. unfold get_erc20_allowance, create_provider, read_decimals, _optional_text_call, contract_call. solve_no_build. Qed.

Lemma approval_check_no_build chain token owner spender amount known unlimited small :
  calls no_build (check_erc20_approval_preconditions chain token owner spender amount known unlimited small).
Proof.
  unfold check_erc20_approval_preconditions.
  repeat first [apply metadata_no_build | apply allowance_no_build | apply calls_pure | apply calls_ret
               | apply calls_bind_exn | progress intros | case_match].
Qed.

Lemma prepare_approval_no_build chain wallet_id token spender amount key known unlimited small :
  calls no_build (prepare_erc20_approval chain wallet_id token spender amount key known unlimited small).
Proof.
  unfold prepare_erc20_approval, get_wallet_address. apply calls_bind_exn; [solve_no_build|]. intros w.
  apply calls_bind_exn; [apply approval_check_no_build|]. intros p. solve_no_build.
Qed.

Lemma allowance_check_no_build q : calls no_build (check_swap_allowance q).
Proof.
  unfold check_swap_allowance. destruct (ro_spender_address _); [|apply calls_ret].
  apply calls_bind_exn; [apply approval_check_no_build | intros; apply calls_pure].
Qed.

Lemma quote_decision_no_build q policy : calls no_build (quote_decision settings q policy).
Proof. unfold quote_decision, utc_now. solve_no_build. Qed.

Lemma request_no_build intent : calls no_build (swap_quote_request settings intent).
Proof.
  unfold swap_quote_request, get_wallet_address, resolve_sell_side.
  repeat first [apply metadata_no_build | progress solve_no_build].
Qed.

Lemma swap_allowance_ok q tr a :
  may (check_swap_allowance q) tr (Ok a) ->
  exists s, ro_spender_address (qu_route q) = Some s /\ normalize_evm_address s = Ok (sa_spender_address a) /\
    (sa_allowance_sufficient a = true -> allowance_covers q tr).
Proof.
  unfold check_swap_allowance. destruct (ro_spender_address (qu_route q)) as [s|] eqn:Es; [|by intros [_ [=]]].
  intros H. inv_run. rewrite app_nil_r.
  match goal with H : may (check_erc20_approval_preconditions _ _ _ _ _ _ _ _) _ _ |- _ =>
    apply check_approval_ok in H
      as (Htok & Hown & Hsp & _ & _ & Hmean & _ & (cfg & v & al & Hev & Hv & Hsuf) & _) end.
  match goal with H : make_SwapAllowanceCheck _ _ _ _ = Ok _ |- _ =>
    unfold make_SwapAllowanceCheck in H; inv_valid; subst end.
  exists s. split_and!; [done | done |]. simpl. rewrite Hsuf. intros Hle.
  eexists _, _, _, _, _, _, _, _. split_and!; [done | done | done | done | exact Hev | done | done | lia].
Qed.

(** Facts about a part of a trace are facts about the trace. *)
Lemma transfer_facts_mono chain token recipient amount small tr tr' t r raw :
  tr ⊆ tr' -> transfer_facts chain token recipient amount small tr t r raw ->
  transfer_facts chain token recipient amount small tr' t r raw.
Proof.
  intros Hsub [? ? ? ? ? ? ? ? (cfg & o & v & b & ? & ? & ?) (cfg' & ? & ?) ?]. constructor; try done.
  - exists cfg, o, v, b. split_and!; try done; [by apply Hsub | tauto..].
  - exists cfg'. split; [by apply Hsub | done].
Qed.

Lemma approval_facts_mono chain token spender amount unlimited small tr tr' t r raw :
  tr ⊆ tr' -> approval_facts chain token spender amount unlimited small tr t r raw ->
  approval_facts chain token spender amount unlimited small tr' t r raw.
Proof.
  intros Hsub [? ? ? ? ? ? ? (cfg & o & v & al & ? & ? & ?) (cfg' & ? & ?) ?]. constructor; try done.
  - exists cfg, o, v, al. split_and!; try done; [by apply Hsub | tauto..].
  - exists cfg'. split; [by apply Hsub | done].
Qed.

Lemma approval_facts_spender chain token spender a amount unlimited small tr t r raw :
  normalize_evm_address spender = Ok a -> approval_facts chain token a amount unlimited small tr t r raw ->
  approval_facts chain token spender amount unlimited small tr t r raw.
Proof.
  intros Ha [? Hr ? ? ? ? ? ? ? ?]. rewrite (normalize_again _ _ Ha) in Hr. injection Hr as <-. by constructor.
Qed.

Lemma allowance_covers_mono q tr tr' : tr ⊆ tr' -> allowance_covers q tr -> allowance_covers q tr'.
Proof.
  intros Hsub (cfg & o & tk & sp & s & v & al & raw & ? & ? & ? & ? & ? & ? & ? & ?).
  exists cfg, o, tk, sp, s, v, al, raw. split_and!; try done. by apply Hsub.
Qed.

Lemma allowed_at_clock_mono policy q tr tr' : tr ⊆ tr' -> allowed_at_clock policy q tr -> allowed_at_clock policy q tr'.
Proof. intros Hs (now & ? & ?). exists now. split; [by apply Hs | done]. Qed.

Lemma quote_allowed_ok q policy tr d :
  may (quote_decision settings q policy) tr (Ok d) -> pd_status d <> POLICY_REJECTED ->
  allowed_at_clock policy q tr.
Proof.
  unfold quote_decision, utc_now. intros H Hd. inv_run.
  match goal with H : may (Call Now _) _ _ |- _ => destruct H as (now & tr' & -> & -> & [= ->]) end.
  exists now. split; [find_in|]. by eapply swap_quote_decision.
Qed.

Lemma prepare_execution_ok router policy q d al tr p :
  may (prepare_swap_execution settings router policy q d al) tr (Ok p) -> Forall provider_promise tr ->
  ps_quote p = q /\ ps_approval_transaction p = None /\
  exists e d', ps_execution p = Some e /\ se_quote e = q /\ wf_SwapExecution e /\
    ps_execution_policy_decision p = Some d' /\
    match ps_swap_transaction p with
    | Some t => swap_facts e t /\ pd_status d' = NEEDS_APPROVAL
    | None => pd_status d' = POLICY_REJECTED \/
        (se_execution_type e = EIP712_ORDER /\ se_provider e = COWSWAP /\
         ps_order_submission_idempotency_key p = Some (sq_idempotency_key (qu_request q) ++ ":cow_order"))
    end.
Proof.
  unfold prepare_swap_execution, provider_build_execution, execution_decision, utc_now. intros H Hg. inv_run.
  match goal with H : may (Call (BuildExecution _ _) Ret) _ _ |- _ => destruct H as (b & tr' & -> & -> & <-) end.
  match goal with H : may (Call Now _) _ _ |- _ => destruct H as (now & tr' & -> & -> & [= ->]) end.
  match goal with H : evaluate_swap_execution_policy _ ?x _ _ = Ok ?y |- _ =>
    rename x into e; rename y into d'; rename H into Hd end.
  assert (se_quote e = q /\ wf_SwapExecution e) as [Hq Hwf].
  { rewrite !Forall_app in Hg. destruct Hg as (_ & Hg & _). rewrite Forall_singleton in Hg. by apply Hg. }
  destruct (bool_decide_reflect (pd_status d' = POLICY_REJECTED)) as [Hr|Hr].
  { destruct H as [-> [= ->]]. simpl. split_and!; [done | done |]. exists e, d'. split_and!; eauto. }
  destruct (bool_decide (se_execution_type e = EIP712_ORDER) && bool_decide (se_provider e = COWSWAP)) eqn:Ho.
  { apply andb_true_iff in Ho as [H1%bool_decide_eq_true H2%bool_decide_eq_true].
    destruct H as [-> [= ->]]. simpl. split_and!; [done | done |]. exists e, d'. split_and!; eauto. }
  inv_run. simplify_eq. simpl. split_and!; [done | done |]. exists e, d'.
  split_and!; [done | done | done | done | by apply swap_transaction_ok | by eapply swap_execution_decision].
Qed.

Lemma prepare_quoted_ok router policy q tr p :
  may (prepare_quoted_swap settings router policy q) tr (Ok p) -> Forall provider_promise tr ->
  ps_quote p = q /\ prepared_as policy q tr p.
Proof.
  unfold prepare_quoted_swap. intros H Hg. inv_run.
  match goal with H : may (quote_decision _ _ _) _ (Ok ?x) |- _ => rename x into d; rename H into Hd end.
  assert (Forall (fun ev => is_build ev = false) tr0) as Hd0.
  { apply no_build_events. by apply (quote_decision_no_build q policy tr0 (Ok d)). }
  destruct (bool_decide_reflect (pd_status d = POLICY_REJECTED)) as [Hr|Hr].
  { destruct H as [-> [= ->]]. rewrite app_nil_r. split; [done|]. by apply as_rejected. }
  apply quote_allowed_ok in Hd as Hc; [|done].
  apply Forall_app in Hg as [_ Hg].
  destruct (sq_from_token_is_native (qu_request q)) eqn:Hnat.
  { apply prepare_execution_ok in H as (Hq & Hap & e & d' & He & Heq & Hwf & Hd' & Hcase); [|done].
    split; [done|]. eapply as_execution; [|by left|done..|].
    - eapply allowed_at_clock_mono; [|done]. set_solver.
    - destruct (ps_swap_transaction p); [naive_solver|]. destruct Hcase; eauto. }
  inv_run.
  match goal with H : may (check_swap_allowance _) _ (Ok ?x) |- _ =>
    rename x into al; pose proof (allowance_check_no_build q _ _ H) as Hnb;
    apply swap_allowance_ok in H as (spender & Hsp & Hns & Hcov) end.
  rewrite Forall_app in Hg. destruct Hg as [_ Hg].
  destruct (sa_allowance_sufficient al) eqn:Hsuf.
  { apply prepare_execution_ok in H as (Hq & Hap & e & d' & He & Heq & Hwf & Hd' & Hcase); [|done].
    split; [done|]. eapply as_execution; [| |done..|].
    - eapply allowed_at_clock_mono; [|done]. set_solver.
    - right. eapply allowance_covers_mono; [|by apply Hcov]. set_solver.
    - destruct (ps_swap_transaction p); [naive_solver|]. destruct Hcase; eauto. }
  inv_run. simplify_eq.
  match goal with H : may (prepare_erc20_approval _ _ _ _ _ _ _ _ _) _ (Ok ?x) |- _ =>
    rename x into t; pose proof (prepare_approval_no_build _ _ _ _ _ _ _ _ _ _ _ H) as Hnb';
    apply prepare_approval_ok in H as (r & raw & Hf & Hw & Hk & Hwf) end.
  split; [done|]. eapply as_approval; [|done|reflexivity|done|done| |done| |done|done|done].
  - eapply allowed_at_clock_mono; [|done]. set_solver.
  - rewrite app_nil_r, !Forall_app. split_and!; [done | by apply no_build_events..].
  - eapply approval_facts_mono; [|by eapply approval_facts_spender]. set_solver.
Qed.

Lemma prepare_swap_ok intent router policy tr p :
  may (prepare_swap settings intent router policy) tr (Ok p) -> Forall provider_promise tr ->
  exists tr1 tr2, tr = (tr1 ++ tr2)%list /\ request_follows intent (qu_request (ps_quote p)) /\
    wf_SwapQuote (ps_quote p) /\ prepared_as policy (ps_quote p) tr2 p /\
    (exists pr, pr ∈ rt_providers router /\
       Ev (GetQuote pr (qu_request (ps_quote p))) (Ok (ps_quote p)) ∈ tr1) /\
    Forall (fun ev => is_build ev = false) tr1.
Proof.
  unfold prepare_swap, get_quote, provider_get_quote. intros H Hg. inv_run.
  match goal with H : may (Call (GetQuote ?pr ?rq) Ret) _ (Ok ?x) |- _ =>
    rename x into q; rename rq into req; rename pr into pv; destruct H as (b & tr' & -> & -> & <-) end.
  match goal with H : may (swap_quote_request _ _) _ _ |- _ => apply swap_request_ok in H as Hreq end.
  match goal with H : provider_for _ _ = Ok _ |- _ => apply provider_for_ok in H end.
  rewrite !Forall_app in Hg. destruct Hg as (_ & (_ & Hq) & Hg).
  rewrite Forall_singleton in Hq. destruct (Hq q eq_refl) as [Hqr Hqw].
  apply prepare_quoted_ok in H as (-> & Hp); [|done].
  match goal with H : may (swap_quote_request _ _) ?t _ |- _ => exists (t ++ [Ev (GetQuote pv req) (Ok q)])%list, tr2 end.
  split; [cbn [app]; by rewrite <- List.app_assoc|]. rewrite Hqr. split_and!; try done.
  - eexists. split; [done|]. find_in.
  - apply Forall_app. split; [|by repeat constructor]. apply no_build_events.
    match goal with H : may (swap_quote_request _ _) _ _ |- _ => exact (request_no_build _ _ _ H) end.
Qed.
End facts.

(** * Properties *)

Section claims.
Context `{W : Web3} {L : Web3Laws W}.


(** A prepared swap without a transaction is refused or a CoW order: either the swap policy rejected the quote,
    and then no execution was asked for; or it rejected the execution; or the execution is a typed order
    of CoW Swap, which gets a submission key and stays outside the transaction pipeline. *)
Theorem prepared_swap_without_transaction (settings : MercurySettings) (intent : SwapIntent) (router : SwapRouter)
    (policy : SwapPolicyConfig) (tr : list wevent) (p : PreparedSwap)
    (Hrun : may (prepare_swap settings intent router policy) tr (Ok p)) (Hprov : Forall provider_promise tr)
    (Hnext : next_transaction p = None) :
  (pd_status (ps_quote_policy_decision p) = POLICY_REJECTED /\ ps_execution p = None /\
   Forall (fun ev => is_build ev = false) tr) \/
  (exists d, ps_execution_policy_decision p = Some d /\ pd_status d = POLICY_REJECTED) \/
  (exists e, ps_execution p = Some e /\ se_quote e = ps_quote p /\ se_execution_type e = EIP712_ORDER /\
     se_provider e = COWSWAP /\
     ps_order_submission_idempotency_key p = Some (si_idempotency_key intent ++ ":cow_order")).
Proof.
  pose proof (prepare_swap_ok settings intent router policy tr p Hrun Hprov) as
    (tr1 & tr2 & -> & Hreq & _ & Hp & _ & Hnb1).
  destruct Hp as [Hd He _ _ Hnb | t spender r raw _ _ Hap _ _ _ _ _ _ _ _ | e _ _ Hex Heq _ Hap Hcase];
    unfold next_transaction in *.
  - left. split_and!; [done | done | by apply Forall_app].
  - by rewrite Hap in Hnext.
  - right. rewrite Hap in Hnext. simpl in Hnext. rewrite Hnext in Hcase.
    destruct Hcase as [Hd | (Hty & Hpr & Hk)]; [by left | right]. exists e.
    by rewrite Hk, (rf_key _ _ _ Hreq).
Qed.
End claims.

(** LiFi quotes the sample token for an allowed spender, until 1970-01-01T00:01:40. *)
Definition answer_quote (r : SwapQuoteRequest) : SwapQuote :=
  {| qu_provider := LIFI; qu_request := r;
     qu_route := {| ro_provider := LIFI; ro_route_id := "r"; ro_route_kind := SWAP;
                    ro_from_chain_id := sq_chain_id r; ro_to_chain_id := sq_chain_id r;
                    ro_from_token := sq_from_token r; ro_to_token := sq_to_token r;
                    ro_spender_address := Some sample_peer; ro_steps := [] |};
     qu_amount_in_raw := sq_amount_in_raw r; qu_expected_amount_out_raw := 990; qu_min_amount_out_raw := None;
     qu_slippage_bps := sq_max_slippage_bps r; qu_expires_at := Some (Aware 100000000);
     qu_recipient_address := effective_recipient r; qu_raw_quote := [] |}.

Definition answer_execution (q : SwapQuote) : SwapExecution :=
  {| se_provider := LIFI; se_execution_type := EVM_TRANSACTION; se_quote := q;
     se_transaction := Some {| sx_chain_id := sq_chain_id (qu_request q); sx_to := sample_peer;
                               sx_data := "0x12"; sx_value_wei := 0 |};
     se_order := None; se_unsupported_reason := None; se_raw_execution := [] |}.

Definition swap_answer (now : Z) (e : effect) : ans e :=
  match e return ans e -> ans e with
  | GetQuote _ r => fun _ => Ok (answer_quote r)
  | BuildExecution _ q => fun _ => Ok (answer_execution q)
  | ContractCall _ _ f _ => fun a => if String.eqb f "allowance" then Ok (AInt 5000000) else a
  | Now => fun _ => now
  | _ => fun a => a
  end (token_answer e).

Definition swap_run (now : Z) {A} (p : wallet A) : A :=
  (run_prog (fun e (_ : unit) => (tt, swap_answer now e)) p tt).2.
Definition swap_trace (now : Z) {A} (p : wallet A) : list wevent :=
  run_trace (fun e (_ : unit) => (tt, swap_answer now e)) p tt.

Lemma swap_run_may now {A} (p : wallet A) a : swap_run now p = a -> may p (swap_trace now p) a.
Proof. intros <-. exact (run_may (fun e (_ : unit) => (tt, swap_answer now e)) p tt). Qed.

Definition sample_swap_intent : SwapIntent :=
  {| si_wallet_id := "w1"; si_chain := "base"; si_from_token := sample_token; si_to_token := sample_peer;
     si_amount_in := "1.5"; si_min_amount_out := None; si_max_slippage_bps := Some 50;
     si_provider_preference := None; si_recipient_address := None; si_idempotency_key := "k1"; si_to_chain := None;
     si_to_chain_id := None |}.

Definition sample_swap : wallet (result exn PreparedSwap) :=
  prepare_swap default_settings sample_swap_intent (make_SwapRouter [LIFI]) default_swap_policy.

Example sample_swap_calls :
  (fun p => (bool_decide (isSome (next_transaction p) = true), pd_status (ps_quote_policy_decision p)))
    <$> swap_run 0 sample_swap = Ok (true, ALLOWED).
Proof. vm_compute. reflexivity. Qed.

Ltac solve_promise :=
  match goal with |- Forall provider_promise ?tr => eassert (tr = _) as -> by (vm_compute; reflexivity) end;
  repeat first [apply Forall_nil_2 | apply Forall_cons_2];
  try exact I; intros x [= <-]; (split; [reflexivity|]);
  unfold wf_SwapExecution, wf_SwapQuote, wf_SwapQuoteRequest, wf_address_opt; simpl; split_and!;
  try done; try intros a [= <-]; simpl; repeat match goal with |- _ /\ _ => split end; try done;
  try match goal with |- normalized ?a => exists a; vm_compute; reflexivity end.

Lemma sample_swap_promise : Forall provider_promise (swap_trace 0 sample_swap).
Proof. solve_promise. Qed.

Lemma late_swap_promise : Forall provider_promise (swap_trace 200000000 sample_swap).
Proof. solve_promise. Qed.


Lemma prepared_swap_without_transaction_witness :
  exists p, swap_run 200000000 sample_swap = Ok p /\
  ((pd_status (ps_quote_policy_decision p) = POLICY_REJECTED /\ ps_execution p = None /\
    Forall (fun ev => is_build ev = false) (swap_trace 200000000 sample_swap)) \/
   (exists d, ps_execution_policy_decision p = Some d /\ pd_status d = POLICY_REJECTED) \/
   (exists e, ps_execution p = Some e /\ se_quote e = ps_quote p /\ se_execution_type e = EIP712_ORDER /\
      se_provider e = COWSWAP /\ ps_order_submission_idempotency_key p = Some "k1:cow_order")).
Proof.
  destruct (swap_run 200000000 sample_swap) as [p|] eqn:E; [|vm_compute in E; discriminate E].
  exists p. split; [reflexivity|].
  refine (prepared_swap_without_transaction _ _ _ _ _ p (swap_run_may _ _ _ E) late_swap_promise _).
  vm_compute in E. injection E as <-. reflexivity.
Defined.
