(* ===== verification/Transactions.v ===== *)
(** Approval and signing of executable transactions ([mercury/tools/transactions.py]): the approvers,
    the approval request, and the request sent to the signer. *)
From stdpp Require Import base tactics option list sets strings.
From Stdlib Require Import ZArith Lia Ascii String.
From S2P Require Import Prelude Python Values Exceptions Redaction Errors Addresses Chains Models SwapModels.
From S2P Require Import Idempotency Prog Effects.

Local Open Scope string_scope.
Local Open Scope Z_scope.
Local Open Scope prog_scope.

Definition _default_required_approval (request : ApprovalRequest) : result exn ApprovalResult :=
  make_ApprovalResult REQUIRED
    ("Human approval is required before signing " ++ aq_idempotency_key request ++ ".") None.

Module PlaceholderTransactionApprover.
Definition request_approval (request : ApprovalRequest) : result exn ApprovalResult :=
  _default_required_approval request.
End PlaceholderTransactionApprover.

Module RequestMetadataTransactionApprover.
Definition request_approval (request : ApprovalRequest) : result exn ApprovalResult :=
  match get (aq_metadata request) "approval_response" with
  | VDict raw =>
      let status := py_lower (py_strip (py_str (get_default raw "status" (VStr "")))) in
      if String.eqb status (ApprovalStatus_value DENIED)
      then make_ApprovalResult DENIED (py_str (py_or (get raw "reason") (VStr "Approval denied."))) None
      else if negb (String.eqb status (ApprovalStatus_value APPROVED))
      then _default_required_approval request
      else
        let optional_key := get raw "idempotency_key" in
        if negb (is_none optional_key) && negb (String.eqb (py_str optional_key) (aq_idempotency_key request))
        then make_ApprovalResult DENIED "Approval idempotency key does not match transaction." None
        else
          let approved_by := get raw "approved_by" in
          let reason := py_str (py_or (get raw "reason") (VStr "Approved via request metadata.")) in
          make_ApprovalResult APPROVED reason
            (if is_none approved_by then None else Some (py_str approved_by))
  | _ => _default_required_approval request
  end.
End RequestMetadataTransactionApprover.

Definition build_approval_request (t : ExecutableTransaction) : result exn ApprovalRequest :=
  make_ApprovalRequest (et_wallet_id t) (et_chain t) (et_chain_id t) (et_from_address t) (et_to t)
    (et_value_wei t) (et_data t) (default "" (et_idempotency_key t)) (et_metadata t).

(** The request [sign_executable_transaction] sends to the signer. *)
Definition signing_request {W : Web3} (t : ExecutableTransaction) : result exn SignTransactionRequest :=
  w ← make_WalletRef (et_wallet_id t) (et_from_address t);
  p ← to_prepared_evm_transaction t;
  make_SignTransactionRequest w (et_chain_id t) p.

Definition sign_executable_transaction {W : Web3} (t : ExecutableTransaction)
    : wallet (result exn SignedTransactionResult) :=
  r <- pure (signing_request t);;
  sign_transaction r.

(** * Properties of the approvers *)

Lemma make_ApprovalResult_ok st r by_ a :
  make_ApprovalResult st r by_ = Ok a -> ar_status a = st /\ ar_reason a = r /\ ar_approved_by a = by_ /\ r <> "".
Proof. unfold make_ApprovalResult. intros H. inv_fields. done. Qed.

(** What the metadata of an approved request holds. *)
Lemma metadata_approval request a :
  RequestMetadataTransactionApprover.request_approval request = Ok a -> ar_status a = APPROVED ->
  exists raw,
    get (aq_metadata request) "approval_response" = VDict raw /\
    py_lower (py_strip (py_str (get_default raw "status" (VStr "")))) = "approved" /\
    (get raw "idempotency_key" = VNone \/ py_str (get raw "idempotency_key") = aq_idempotency_key request).
Proof.
  unfold RequestMetadataTransactionApprover.request_approval, _default_required_approval.
  destruct (get (aq_metadata request) "approval_response") as [| | | | | |raw] eqn:Hget;
    try (intros (-> & _)%make_ApprovalResult_ok; discriminate).
  cbv zeta. destruct (String.eqb _ (ApprovalStatus_value DENIED));
    [intros (-> & _)%make_ApprovalResult_ok; discriminate|].
  destruct (String.eqb_spec (py_lower (py_strip (py_str (get_default raw "status" (VStr "")))))
              (ApprovalStatus_value APPROVED)) as [Hs|]; cbn [negb];
    [|intros (-> & _)%make_ApprovalResult_ok; discriminate].
  destruct (negb (is_none _) && negb (String.eqb _ _)) eqn:Hk;
    [intros (-> & _)%make_ApprovalResult_ok; discriminate|].
  intros _ _. exists raw. split_and!; [done | done |].
  apply andb_false_iff in Hk as [Hk|Hk]; apply negb_false_iff in Hk.
  - left. by destruct (get raw "idempotency_key").
  - right. by apply String.eqb_eq.
Qed.

Lemma build_approval_request_ok t q :
  build_approval_request t = Ok q ->
  aq_wallet_id q = et_wallet_id t /\ aq_chain q = et_chain t /\ aq_chain_id q = et_chain_id t /\
  aq_from_address q = et_from_address t /\ aq_to q = et_to t /\ aq_value_wei q = et_value_wei t /\
  aq_data q = et_data t /\ et_idempotency_key t = Some (aq_idempotency_key q) /\ aq_metadata q = et_metadata t /\
  aq_idempotency_key q <> "".
Proof.
  unfold build_approval_request, make_ApprovalRequest. intros H. inv_valid. unfold v_any in *. simplify_eq.
  assert (forall loc n s x, v_min_length loc n s = Ok x -> s = x) as Hmin.
  { intros loc n s x. unfold v_min_length. case_match; [discriminate | congruence]. }
  repeat match goal with H : v_min_length _ _ _ = Ok _ |- _ => apply Hmin in H end.
  simpl. destruct (et_idempotency_key t); simpl in *; split_and!; congruence.
Qed.

Section signing.
Context `{W : Web3} {L : Web3Laws W}.

Lemma make_WalletRef_intro w a :
  w <> "" -> wf_address_opt a -> make_WalletRef w a = Ok {| wr_wallet_id := w; wr_expected_address := a |}.
Proof. intros. unfold make_WalletRef. intro_valid. Qed.

(** The fields of the transaction that reach the signer. *)
Definition payload_of (t : ExecutableTransaction) (d : dict) : Prop :=
  dict_get d "chainId" = Some (VInt (et_chain_id t)) /\ dict_get d "nonce" = Some (VInt (et_nonce t)) /\
  dict_get d "to" = Some (VStr (et_to t)) /\ dict_get d "value" = Some (VInt (et_value_wei t)) /\
  dict_get d "data" = Some (VStr (et_data t)) /\ dict_get d "gas" = Some (VInt (gf_gas_limit (et_gas t))) /\
  dict_get d "from" = VStr <$> et_from_address t.

Lemma to_prepared_payload t :
  0 < et_chain_id t ->
  exists d, to_prepared_evm_transaction t = Ok {| pe_chain_id := et_chain_id t; pe_transaction := d |} /\
            payload_of t d.
Proof using.
  intros Hc. unfold to_prepared_evm_transaction, payload_of, to_transaction_fields.
  destruct (gf_gas_price (et_gas t)) as [p|], (et_from_address t) as [a|];
    (eexists; split; [unfold make_PreparedEVMTransaction; eapply v_model_fmap;
       [apply vboth_intro; [by apply v_gt_intro | reflexivity] | reflexivity |
        unfold PreparedEVMTransaction_validate_chain_id; simpl; unfold get; simpl;
        rewrite Z.eqb_refl; reflexivity] | done]).
Qed.

(** A validated transaction always yields a signing request, and it asks the wallet of the
    transaction to sign exactly its fields, under the address it is sent from. *)
Lemma signing_request_total t :
  wf_ExecutableTransaction t ->
  exists r, signing_request t = Ok r /\ st_chain_id r = et_chain_id t /\
    wr_wallet_id (st_wallet r) = et_wallet_id t /\ wr_expected_address (st_wallet r) = et_from_address t /\
    payload_of t (pe_transaction (st_prepared_transaction r)).
Proof.
  intros (Hw & _ & Hc & Hf & _). unfold signing_request. rewrite make_WalletRef_intro by done. simpl.
  destruct (to_prepared_payload t Hc) as (d & -> & Hd). simpl.
  eexists. split.
  - unfold make_SignTransactionRequest. eapply v_model_fmap;
      [repeat apply vboth_intro; [reflexivity | by apply v_gt_intro | reflexivity] | reflexivity |].
    unfold validate_sign_chain_id. simpl. by rewrite Z.eqb_refl.
  - done.
Qed.
End signing.
