(* ===== verification/Pipeline.v ===== *)
(** The transaction execution pipeline: the nodes of [mercury/graph/nodes_transaction.py], the
    routers of [router.py] that connect them, and [build_transaction_graph] of [agent.py]. *)
From stdpp Require Import base tactics option list sets strings.
From Stdlib Require Import ZArith Lia Ascii String.
From S2P Require Import Prelude Python Values Exceptions Redaction Errors Addresses Chains Models SwapModels Policy.
From S2P Require Import Idempotency Prog Effects Graph State Intents Transactions.

Local Open Scope string_scope.
Local Open Scope Z_scope.
Local Open Scope prog_scope.

Record TransactionGraphDependencies := {
  policy_engine : TransactionPolicyEngine;
  receipt_timeout_seconds : Z;
  receipt_confirmations : Z
}.

Definition default_dependencies : TransactionGraphDependencies :=
  {| policy_engine := default_policy_engine; receipt_timeout_seconds := 120; receipt_confirmations := 0 |}.

(** * router.py *)

Definition ROUTE_REJECT_TRANSACTION : string := "reject_transaction".
Definition ROUTE_REQUEST_APPROVAL : string := "request_approval".
Definition ROUTE_CHECK_IDEMPOTENCY : string := "check_idempotency".
Definition ROUTE_RESOLVE_NONCE : string := "resolve_nonce".
Definition ROUTE_SIGN_TRANSACTION : string := "sign_transaction".
Definition ROUTE_UNSUPPORTED : string := "unsupported_response".
Definition ROUTE_PREPARE_ERC20_TRANSACTION : string := "prepare_erc20_transaction".
Definition ROUTE_PREPARE_NATIVE_TRANSACTION : string := "prepare_native_transaction".
Definition ROUTE_PREPARE_SWAP_TRANSACTION : string := "prepare_swap_transaction".
Definition ROUTE_SWAP_TYPED_ORDER_READY : string := "swap_typed_order_ready".

Definition route_after_transaction_policy (s : MercuryState) : string :=
  match policy_decision s with
  | None => ROUTE_REJECT_TRANSACTION
  | Some d =>
      match pd_status d with
      | POLICY_REJECTED => ROUTE_REJECT_TRANSACTION
      | NEEDS_APPROVAL => ROUTE_REQUEST_APPROVAL
      | ALLOWED => ROUTE_CHECK_IDEMPOTENCY
      end
  end.

Definition route_after_transaction_approval (s : MercuryState) : string :=
  match approval_result s with
  | Some a => if bool_decide (ar_status a = APPROVED) then ROUTE_CHECK_IDEMPOTENCY else ROUTE_REJECT_TRANSACTION
  | None => ROUTE_REJECT_TRANSACTION
  end.

Definition route_after_idempotency (s : MercuryState) : string :=
  if isSome (execution_result s) then ROUTE_REJECT_TRANSACTION else ROUTE_SIGN_TRANSACTION.

(** [route_after_erc20_prepare] and [route_after_native_prepare] *)
Definition route_after_prepare (s : MercuryState) : string :=
  if isSome (error s) then ROUTE_REJECT_TRANSACTION else ROUTE_RESOLVE_NONCE.

(** * nodes_transaction.py *)

Section nodes.
Context {W : Web3} {PT : PydanticText} {PL : PydanticLax}.
Context (settings : MercurySettings) (deps : TransactionGraphDependencies).

Definition _prepared_from_state (s : MercuryState) : result exn PreparedTransaction :=
  match opt_or (prepared_transaction s) (raw_input s) with
  | Some (AnyPrepared t) => Ok t
  | Some (AnyValue (VDict raw)) => PreparedTransaction_validate raw
  | _ => Err (ValueError "Transaction graph requires a prepared transaction.")
  end.

Definition _executable_from_state (s : MercuryState) : result exn ExecutableTransaction :=
  match executable_transaction s with
  | Some t => Ok t
  | None => Err (ValueError "Transaction graph requires an executable transaction.")
  end.

Definition _reject_decision (reason : MercuryErrorInfo) : result exn PolicyDecision :=
  make_PolicyDecision POLICY_REJECTED (ei_message reason).

Definition _result_from_state (s : MercuryState) (status : ExecutionStatus) (tx_hash : option string)
    (block_number gas_used : option Z) (err : option MercuryErrorInfo) : result exn ExecutionResult :=
  let '(chain, chain_id, wallet_id) :=
    match executable_transaction s with
    | Some t => (et_chain t, et_chain_id t, et_wallet_id t)
    | None => ("unknown", 1, "unknown")
    end in
  let '(chain, chain_id, wallet_id) :=
    match prepared_transaction s with
    | Some (AnyPrepared p) =>
        (pt_chain p,
         match pt_chain_id p with Some c => if c =? 0 then chain_id else c | None => chain_id end,
         pt_wallet_id p)
    | _ => (chain, chain_id, wallet_id)
    end in
  make_ExecutionResult chain chain_id wallet_id (wallet_address s) tx_hash status block_number gas_used
    (policy_decision s) err.

Definition _result_from_receipt (s : MercuryState) (receipt : TransactionReceipt) : result exn ExecutionResult :=
  _result_from_state s (rc_status receipt) (Some (rc_tx_hash receipt)) (rc_block_number receipt)
    (rc_gas_used receipt) None.

(** [{"execution_result": _result_from_state(state, status=..., error=...)}] *)
Definition failed_result (s : MercuryState) (status : ExecutionStatus) (err : MercuryErrorInfo)
    : result exn MercuryState :=
  r ← _result_from_state s status None None None (Some err);
  Ok (with_execution_result r empty_state).

Definition _idempotency_key_from_state (s : MercuryState) : option string :=
  match executable_transaction s with
  | Some t => match et_idempotency_key t with
              | Some k => if str_empty k then None else Some k
              | None => None
              end
  | None => None
  end.

Definition _release_idempotency_after_pre_broadcast_failure (s : MercuryState) : wallet (result exn unit) :=
  match _idempotency_key_from_state s with
  | Some key => release key
  | None => ret_ok tt
  end.

Definition _finalize_idempotency_after_monitor_failure (s : MercuryState) (res : ExecutionResult)
    : wallet (result exn unit) :=
  match _idempotency_key_from_state s with
  | None => ret_ok tt
  | Some key =>
      if negb (str_empty (py_strip (default "" (tx_hash s))))
      then _ <- complete key res;; ret_ok tt
      else release key
  end.

Definition resolve_nonce (s : MercuryState) : wallet (result exn MercuryState) :=
  try_except
    (t <- pure (_prepared_from_state s);;
     w <- get_wallet_address (pt_wallet_id t);;
     chain_id <- match pt_chain_id t with
                 | Some c => if c =? 0 then resolve_chain_id t else ret_ok c
                 | None => resolve_chain_id t
                 end;;
     nonce <- match pt_nonce t with Some n => ret_ok n | None => lookup_nonce t (wa_address w) end;;
     let from := match pt_from_address t with
                 | Some a => if str_empty a then wa_address w else a
                 | None => wa_address w
                 end in
     let prepared := {| pt_wallet_id := pt_wallet_id t; pt_chain := pt_chain t; pt_chain_id := Some chain_id;
                        pt_from_address := Some from; pt_to := pt_to t; pt_value_wei := pt_value_wei t;
                        pt_data := pt_data t; pt_nonce := Some nonce; pt_gas := pt_gas t;
                        pt_idempotency_key := pt_idempotency_key t; pt_metadata := pt_metadata t |} in
     ret_ok (with_prepared_transaction (AnyPrepared prepared)
              (with_wallet_address (wa_address w) (with_chain_name (pt_chain prepared) empty_state))))
    (fun exc => ret_ok (with_error (normalize_exception exc (Some "resolve_nonce") None) empty_state)).

Definition populate_gas_node (s : MercuryState) : wallet (result exn MercuryState) :=
  if isSome (error s) then ret_ok empty_state else
  try_except
    (p <- pure (_prepared_from_state s);;
     match pt_chain_id p, pt_nonce p with
     | Some chain_id, Some nonce =>
         gas <- populate_gas p;;
         e <- pure (make_ExecutableTransaction (pt_wallet_id p) (pt_chain p) chain_id (pt_from_address p) (pt_to p)
                      (pt_value_wei p) (pt_data p) nonce gas (pt_idempotency_key p) (pt_metadata p));;
         ret_ok (with_executable_transaction e empty_state)
     | _, _ => Ret (Err (ValueError "Transaction nonce and chain_id must be resolved before gas."))
     end)
    (fun exc => ret_ok (with_error (normalize_exception exc (Some "populate_gas") None) empty_state)).

Definition simulate_transaction (s : MercuryState) : wallet (result exn MercuryState) :=
  if isSome (error s) then ret_ok empty_state else
  try_except
    (t <- pure (_executable_from_state s);;
     sim <- simulate t;;
     ret_ok (with_simulation_result sim empty_state))
    (fun exc =>
       let err := normalize_exception exc (Some "simulate_transaction") (Some "simulation_failed") in
       sim <- pure (make_SimulationResult SIM_FAILED None (Some (ei_message err)));;
       ret_ok (with_simulation_result sim empty_state)).

Definition evaluate_policy (s : MercuryState) : wallet (result exn MercuryState) :=
  match error s with
  | Some e => d <- pure (_reject_decision e);; ret_ok (with_policy_decision d empty_state)
  | None =>
      try_except
        (t <- pure (_executable_from_state s);;
         d <- pure (evaluate settings (policy_engine deps) t (simulation_result s));;
         ret_ok (with_policy_decision d empty_state))
        (fun exc =>
           d <- pure (_reject_decision (normalize_exception exc (Some "evaluate_policy") None));;
           ret_ok (with_policy_decision d empty_state))
  end.

Definition request_approval_node (s : MercuryState) : wallet (result exn MercuryState) :=
  try_except
    (t <- pure (_executable_from_state s);;
     q <- pure (build_approval_request t);;
     a <- request_approval q;;
     if negb (bool_decide (ar_status a = APPROVED)) then
       r <- pure (_result_from_state s APPROVAL_DENIED None None None
                    (Some (approval_denied (ar_reason a) [] (Some "request_approval"))));;
       ret_ok (with_approval_result a (with_execution_result r empty_state))
     else ret_ok (with_approval_result a empty_state))
    (fun exc => pure (failed_result s APPROVAL_DENIED (normalize_exception exc (Some "request_approval") None))).

Definition check_idempotency (s : MercuryState) : wallet (result exn MercuryState) :=
  let fail exc := pure (failed_result s REJECTED (normalize_exception exc (Some "check_idempotency") None)) in
  match _executable_from_state s with
  | Err exc => fail exc
  | Ok t =>
      match et_idempotency_key t with
      | None => fail (ValueError "Idempotency key is required before signing.")
      | Some key =>
          Call (Reserve key) (fun r =>
            match r with
            | Ok _ => ret_ok empty_state
            | Err (DuplicateTransactionError record) =>
                match ir_result record with
                | Some res => ret_ok (with_execution_result res empty_state)
                | None => pure (failed_result s REJECTED (idempotency_conflict [] (Some "check_idempotency")))
                end
            | Err (OtherError exc) => fail exc
            end)
      end
  end.

Definition sign_transaction_node (s : MercuryState) : wallet (result exn MercuryState) :=
  try_except
    (t <- pure (_executable_from_state s);;
     signed <- sign_executable_transaction t;;
     ret_ok (with_signed_transaction signed empty_state))
    (fun exc =>
       _ <- _release_idempotency_after_pre_broadcast_failure s;;
       pure (failed_result s FAILED (normalize_exception exc (Some "sign_transaction") (Some "signing_failed")))).

Definition broadcast_transaction (s : MercuryState) : wallet (result exn MercuryState) :=
  if isSome (execution_result s) then ret_ok empty_state else
  try_except
    (signed <- pure (match signed_transaction s with
                     | Some x => Ok x
                     | None => Err (Exn KeyErrorC "'signed_transaction'")
                     end);;
     h <- broadcast signed;;
     ret_ok (with_tx_hash h empty_state))
    (fun exc =>
       _ <- _release_idempotency_after_pre_broadcast_failure s;;
       pure (failed_result s FAILED
               (normalize_exception exc (Some "broadcast_transaction") (Some "broadcast_failed")))).

Definition monitor_receipt (s : MercuryState) : wallet (result exn MercuryState) :=
  if isSome (execution_result s) then ret_ok empty_state else
  try_except
    (t <- pure (_executable_from_state s);;
     h <- pure (match tx_hash s with Some h => Ok h | None => Err (Exn KeyErrorC "'tx_hash'") end);;
     receipt <- wait_for_receipt (et_chain t) h (receipt_timeout_seconds deps) (receipt_confirmations deps);;
     res <- pure (_result_from_receipt s receipt);;
     _ <- match et_idempotency_key t with
          | Some key => _ <- complete key res;; ret_ok tt
          | None => ret_ok tt
          end;;
     ret_ok (with_execution_result res empty_state))
    (fun exc =>
       res <- pure (_result_from_state s FAILED (tx_hash s) None None
                      (Some (normalize_exception exc (Some "monitor_receipt") None)));;
       _ <- _finalize_idempotency_after_monitor_failure s res;;
       ret_ok (with_execution_result res empty_state)).

Definition reject_transaction (s : MercuryState) : wallet (result exn MercuryState) :=
  if isSome (execution_result s) then ret_ok empty_state else
  let err := match policy_decision s with
             | Some d => policy_rejected (pd_reason d) [] (Some "reject_transaction")
             | None =>
                 match error s with
                 | Some e => e
                 | None => policy_rejected "Transaction rejected." [] (Some "reject_transaction")
                 end
             end in
  pure (failed_result s REJECTED err).

(** * agent.py *)

Definition _add_transaction_pipeline (g : StateGraph effect MercuryState) : StateGraph effect MercuryState :=
  let g := add_node "resolve_nonce" resolve_nonce g in
  let g := add_node "populate_gas" populate_gas_node g in
  let g := add_node "simulate_transaction" simulate_transaction g in
  let g := add_node "evaluate_policy" evaluate_policy g in
  let g := add_node "request_approval" request_approval_node g in
  let g := add_node "check_idempotency" check_idempotency g in
  let g := add_node "sign_transaction" sign_transaction_node g in
  let g := add_node "broadcast_transaction" broadcast_transaction g in
  let g := add_node "monitor_receipt" monitor_receipt g in
  let g := add_node "reject_transaction" reject_transaction g in
  let g := add_edge "resolve_nonce" "populate_gas" g in
  let g := add_edge "populate_gas" "simulate_transaction" g in
  let g := add_edge "simulate_transaction" "evaluate_policy" g in
  let g := add_conditional_edges "evaluate_policy" route_after_transaction_policy
             [(ROUTE_REJECT_TRANSACTION, "reject_transaction"); (ROUTE_REQUEST_APPROVAL, "request_approval");
              (ROUTE_CHECK_IDEMPOTENCY, "check_idempotency")] g in
  let g := add_conditional_edges "request_approval" route_after_transaction_approval
             [(ROUTE_REJECT_TRANSACTION, "reject_transaction");
              (ROUTE_CHECK_IDEMPOTENCY, "check_idempotency")] g in
  let g := add_conditional_edges "check_idempotency" route_after_idempotency
             [(ROUTE_REJECT_TRANSACTION, "reject_transaction"); (ROUTE_SIGN_TRANSACTION, "sign_transaction")] g in
  let g := add_edge "sign_transaction" "broadcast_transaction" g in
  let g := add_edge "broadcast_transaction" "monitor_receipt" g in
  let g := add_edge "monitor_receipt" END g in
  add_edge "reject_transaction" END g.

Definition build_transaction_graph : StateGraph effect MercuryState :=
  add_edge START "resolve_nonce" (_add_transaction_pipeline new_graph).
End nodes.
