(* ===== verification/Preparation.v ===== *)
(** Preparation nodes ([mercury/graph/nodes_erc20.py], [nodes_native.py], [nodes_swaps.py]): from a structured
    intent to the prepared transaction of the pipeline, and the graphs of [agent.py] that start with them. *)
From stdpp Require Import base tactics option list sets strings.
From Stdlib Require Import ZArith Lia Ascii String.
From S2P Require Import Prelude Python Values Exceptions Redaction Errors Addresses Chains Models SwapModels Policy.
From S2P Require Import Idempotency Prog Effects Erc20 Intents TokenTransactions Swaps Graph State.
From S2P Require Import Transactions Pipeline.

Local Open Scope string_scope.
Local Open Scope Z_scope.
Local Open Scope prog_scope.

Section preparation.
Context {W : Web3} {PT : PydanticText} {PL : PydanticLax}.
Context (settings : MercurySettings).

(** [try: body except Exception: return state_for_preparation_error]; what follows runs outside the [try]. *)
Definition or_preparation_error {A} (body : wallet (result exn A)) (stage : string) (k : A -> MercuryState)
    : wallet (result exn MercuryState) :=
  prog_bind body (fun r =>
    match r with
    | Ok a => ret_ok (k a)
    | Err exc => ret_ok (state_for_preparation_error exc stage)
    end).

(** [prepared.from_address or empty] *)
Definition from_or_empty (t : PreparedTransaction) : string := default "" (pt_from_address t).

(** The partial state of a prepared transaction, merged with the metadata of the payload. *)
Definition prepared_state (prepared : PreparedTransaction) (payload : dict) : MercuryState :=
  let prepared := merge_intent_metadata_into_prepared prepared payload in
  with_prepared_transaction (AnyPrepared prepared)
    (with_chain_name (pt_chain prepared) (with_wallet_address (from_or_empty prepared) empty_state)).

(** * ERC-20 *)

Definition _erc20_payload_from_state (s : MercuryState) : result exn dict :=
  payload_from_state "ERC20 graph requires a structured transaction intent." s.

Definition erc20_prepared (payload : dict) : wallet (result exn PreparedTransaction) :=
  let kind := payload_kind payload in
  if String.eqb kind "erc20_transfer" then
    i <- pure (ERC20TransferIntent_validate payload);;
    prepare_erc20_transfer (ti_chain i) (ti_wallet_id i) (ti_token_address i) (ti_recipient_address i) (ti_amount i)
      (ti_idempotency_key i) (ti_amount_in_smallest_units i)
  else if String.eqb kind "erc20_approval" then
    i <- pure (ERC20ApprovalIntent_validate payload);;
    prepare_erc20_approval (ai_chain i) (ai_wallet_id i) (ai_token_address i) (ai_spender_address i) (ai_amount i)
      (ai_idempotency_key i) (ai_spender_known i) (ai_allow_unlimited i) (ai_amount_in_smallest_units i)
  else Ret (Err (ValueError ("Unsupported ERC20 transaction intent: " ++ kind ++ "."))).

Definition prepare_erc20_transaction (s : MercuryState) : wallet (result exn MercuryState) :=
  or_preparation_error
    (payload <- pure (_erc20_payload_from_state s);;
     prepared <- erc20_prepared payload;;
     ret_ok (prepared, payload))
    "prepare_erc20_transaction"
    (fun '(prepared, payload) => prepared_state prepared payload).

Definition route_erc20_intent (s : MercuryState) : string :=
  match _erc20_payload_from_state s with
  | Err _ => ROUTE_UNSUPPORTED
  | Ok payload =>
      let kind := payload_kind payload in
      if String.eqb kind "erc20_transfer" || String.eqb kind "erc20_approval"
      then ROUTE_PREPARE_ERC20_TRANSACTION else ROUTE_UNSUPPORTED
  end.

(** * Native transfers *)

Definition _native_payload_from_state (s : MercuryState) : result exn dict :=
  payload_from_state "Native graph requires a structured transaction intent." s.

Definition native_prepared (payload : dict) : wallet (result exn PreparedTransaction) :=
  i <- pure (NativeTransferIntent_validate payload);;
  prepare_native_transfer settings (ni_chain i) (ni_wallet_id i) (ni_recipient_address i) (ni_amount i)
    (ni_idempotency_key i).

Definition prepare_native_transaction (s : MercuryState) : wallet (result exn MercuryState) :=
  or_preparation_error
    (payload <- pure (_native_payload_from_state s);;
     prepared <- native_prepared payload;;
     ret_ok (prepared, payload))
    "prepare_native_transaction"
    (fun '(prepared, payload) => prepared_state prepared payload).

Definition route_native_intent (s : MercuryState) : string :=
  match _native_payload_from_state s with
  | Err _ => ROUTE_UNSUPPORTED
  | Ok payload =>
      if String.eqb (payload_kind payload) "native_transfer"
      then ROUTE_PREPARE_NATIVE_TRANSACTION else ROUTE_UNSUPPORTED
  end.

(** * Swaps *)

Record SwapGraphDependencies := { sd_router : SwapRouter; sd_policy_config : SwapPolicyConfig }.

Definition _swap_payload_from_state (s : MercuryState) : result exn dict :=
  payload_from_state "Swap graph requires a structured swap intent." s.

(** An execution that is a typed order waiting for a human. *)
Definition typed_order_ready (p : PreparedSwap) : option PolicyDecision :=
  match ps_execution p, ps_execution_policy_decision p with
  | Some e, Some d =>
      if bool_decide (se_execution_type e = EIP712_ORDER) && bool_decide (pd_status d = NEEDS_APPROVAL)
      then Some d else None
  | _, _ => None
  end.

(** The decision that ends a swap without a transaction. *)
Definition final_swap_decision (p : PreparedSwap) : result exn PolicyDecision :=
  let decision := default (ps_quote_policy_decision p) (ps_execution_policy_decision p) in
  if bool_decide (pd_status decision = POLICY_REJECTED) then Ok decision
  else make_PolicyDecision POLICY_REJECTED "Swap did not produce a transaction for execution.".

Definition swap_state (p : PreparedSwap) (payload : dict) : result exn MercuryState :=
  let updates := with_prepared_swap p
    (with_chain_name (sq_chain (qu_request (ps_quote p)))
      (with_wallet_address (sq_wallet_address (qu_request (ps_quote p))) empty_state)) in
  match next_transaction p with
  | Some t => Ok (with_prepared_transaction (AnyPrepared (merge_intent_metadata_into_prepared t payload)) updates)
  | None =>
      match typed_order_ready p with
      | Some d => Ok (with_policy_decision d updates)
      | None => d ← final_swap_decision p; Ok (with_policy_decision d updates)
      end
  end.

Definition prepare_swap_transaction (deps : SwapGraphDependencies) (s : MercuryState)
    : wallet (result exn MercuryState) :=
  prog_bind
    (payload <- pure (_swap_payload_from_state s);;
     intent <- pure (SwapIntent_validate settings payload);;
     prepared <- prepare_swap settings intent (sd_router deps) (sd_policy_config deps);;
     ret_ok (prepared, payload))
    (fun r => match r with
              | Ok (prepared, payload) => pure (swap_state prepared payload)
              | Err exc => ret_ok (state_for_preparation_error exc "prepare_swap_transaction")
              end).

Definition end_swap_typed_order_pipeline (s : MercuryState) : wallet (result exn MercuryState) := ret_ok empty_state.

Definition route_swap_intent (s : MercuryState) : string :=
  match _swap_payload_from_state s with
  | Err _ => ROUTE_UNSUPPORTED
  | Ok payload =>
      if String.eqb (payload_kind payload) "swap" then ROUTE_PREPARE_SWAP_TRANSACTION else ROUTE_UNSUPPORTED
  end.

Definition route_after_swap_prepare (s : MercuryState) : string :=
  if isSome (error s) then ROUTE_REJECT_TRANSACTION
  else if isSome (prepared_transaction s) then ROUTE_RESOLVE_NONCE
  else match prepared_swap s with
       | Some p => if isSome (typed_order_ready p) then ROUTE_SWAP_TYPED_ORDER_READY else ROUTE_REJECT_TRANSACTION
       | None => ROUTE_REJECT_TRANSACTION
       end.

(** * agent.py *)

Section graphs.
Context (deps : TransactionGraphDependencies).

Definition build_erc20_transaction_graph : StateGraph effect MercuryState :=
  let g := add_node "prepare_erc20_transaction" prepare_erc20_transaction new_graph in
  let g := add_node "unsupported_response" unsupported_response g in
  let g := _add_transaction_pipeline settings deps g in
  let g := add_conditional_edges START route_erc20_intent
             [(ROUTE_PREPARE_ERC20_TRANSACTION, "prepare_erc20_transaction");
              (ROUTE_UNSUPPORTED, "unsupported_response")] g in
  let g := add_conditional_edges "prepare_erc20_transaction" route_after_prepare
             [(ROUTE_REJECT_TRANSACTION, "reject_transaction"); (ROUTE_RESOLVE_NONCE, "resolve_nonce")] g in
  add_edge "unsupported_response" END g.

Definition build_native_transaction_graph : StateGraph effect MercuryState :=
  let g := add_node "prepare_native_transaction" prepare_native_transaction new_graph in
  let g := add_node "unsupported_response" unsupported_response g in
  let g := _add_transaction_pipeline settings deps g in
  let g := add_conditional_edges START route_native_intent
             [(ROUTE_PREPARE_NATIVE_TRANSACTION, "prepare_native_transaction");
              (ROUTE_UNSUPPORTED, "unsupported_response")] g in
  let g := add_conditional_edges "prepare_native_transaction" route_after_prepare
             [(ROUTE_REJECT_TRANSACTION, "reject_transaction"); (ROUTE_RESOLVE_NONCE, "resolve_nonce")] g in
  add_edge "unsupported_response" END g.

Definition build_swap_transaction_graph (swap_deps : SwapGraphDependencies) : StateGraph effect MercuryState :=
  let g := add_node "prepare_swap_transaction" (prepare_swap_transaction swap_deps) new_graph in
  let g := add_node "unsupported_response" unsupported_response g in
  let g := add_node "end_swap_typed_order" end_swap_typed_order_pipeline g in
  let g := _add_transaction_pipeline settings deps g in
  let g := add_conditional_edges START route_swap_intent
             [(ROUTE_PREPARE_SWAP_TRANSACTION, "prepare_swap_transaction");
              (ROUTE_UNSUPPORTED, "unsupported_response")] g in
  let g := add_conditional_edges "prepare_swap_transaction" route_after_swap_prepare
             [(ROUTE_REJECT_TRANSACTION, "reject_transaction"); (ROUTE_RESOLVE_NONCE, "resolve_nonce");
              (ROUTE_SWAP_TYPED_ORDER_READY, "end_swap_typed_order")] g in
  let g := add_edge "unsupported_response" END g in
  add_edge "end_swap_typed_order" END g.
End graphs.
End preparation.
