(* ===== verification/Protocol.v ===== *)
(** The contract of a transaction run, as a state machine over its calls.

    A phase records what the calls so far have established; [pstep] is the only way on.  Signing and
    broadcasting have one entry each: a transaction the policy allows on a passed simulation, an
    approval of exactly that transaction when a human is needed, and a key reserved for it.  The
    pipeline is shown elsewhere to refine this machine. *)
From stdpp Require Import base tactics option list sets strings.
From Stdlib Require Import ZArith Lia Ascii String.
From S2P Require Import Prelude Python Values Exceptions Redaction Errors Addresses Chains Models SwapModels Policy.
From S2P Require Import Idempotency Prog Effects Transactions.

Local Open Scope string_scope.
Local Open Scope Z_scope.

Inductive phase : Type :=
| Idle                                                     (** preparing *)
| Simulated (t : ExecutableTransaction) (sim : SimulationResult)
| Approved (t : ExecutableTransaction)
| Declined                                                 (** not approved, or the key was taken *)
| Replayed (res : ExecutionResult)                         (** the key was completed with [res] *)
| Held (t : ExecutableTransaction) (key : string)
| HeldSigned (t : ExecutableTransaction) (key : string) (sg : SignedTransactionResult)
| MustRelease (key : string)
| Released (key : string)
| Submitted (t : ExecutableTransaction) (key : string) (h : string)
| Waited (t : ExecutableTransaction) (key : string) (h : string)
| Finished (key : string) (res : ExecutionResult).

(** Calls that prepare a transaction: they change nothing outside. *)
Definition preparatory (e : effect) : bool :=
  match e with
  | ResolveChainId _ | LookupNonce _ _ | PopulateGas _ | GetWalletAddress _ | CreateProvider _
  | ContractCall _ _ _ _ | GetQuote _ _ | BuildExecution _ _ | Now => true
  | _ => false
  end.

Section protocol.
Context `{W : Web3} (settings : MercurySettings) (eng : TransactionPolicyEngine).
(** The transactions the request asks for. *)
Context (intended : ExecutableTransaction -> Prop).

(** The transaction may be signed without or after a human approval. *)
Definition cleared (t : ExecutableTransaction) (sim : SimulationResult) : Prop :=
  policy_allows settings eng t (Some sim).

Inductive pstep : phase -> wevent -> phase -> Prop :=
| step_prepare e a : preparatory e = true -> pstep Idle (Ev e a) Idle
| step_simulate t (r : result exn SimulationResult) sim :
    intended t -> match r with Ok s => sim = s | Err _ => sr_status sim = SIM_FAILED end ->
    pstep Idle (Ev (Simulate t) r) (Simulated t sim)
| step_approved t sim q (a : ApprovalResult) :
    cleared t sim -> needs_human t = true -> build_approval_request t = Ok q -> ar_status a = APPROVED ->
    pstep (Simulated t sim) (Ev (RequestApproval q) (Ok a)) (Approved t)
| step_declined t sim q (r : result exn ApprovalResult) :
    cleared t sim -> build_approval_request t = Ok q ->
    match r with Ok a => ar_status a <> APPROVED | Err _ => True end ->
    pstep (Simulated t sim) (Ev (RequestApproval q) r) Declined
| step_reserve_approved t key rec :
    et_idempotency_key t = Some key -> key <> "" ->
    pstep (Approved t) (Ev (Reserve key) (Ok rec)) (Held t key)
| step_reserve_allowed t sim key rec :
    cleared t sim -> needs_human t = false -> et_idempotency_key t = Some key -> key <> "" ->
    pstep (Simulated t sim) (Ev (Reserve key) (Ok rec)) (Held t key)
| step_refused φ t sim key (e : reserve_error) :
    φ = Approved t \/ (φ = Simulated t sim /\ cleared t sim) -> et_idempotency_key t = Some key -> key <> "" ->
    pstep φ (Ev (Reserve key) (Err e))
      match e with
      | DuplicateTransactionError rec =>
          match ir_result rec with Some res => Replayed res | None => Declined end
      | OtherError _ => Declined
      end
| step_sign t key req (sg : SignedTransactionResult) :
    signing_request t = Ok req -> pstep (Held t key) (Ev (SignTransaction req) (Ok sg)) (HeldSigned t key sg)
| step_sign_failed t key req (e : exn) :
    signing_request t = Ok req -> pstep (Held t key) (Ev (SignTransaction req) (Err e)) (MustRelease key)
| step_broadcast t key sg (h : string) :
    pstep (HeldSigned t key sg) (Ev (Broadcast sg) (Ok h)) (Submitted t key h)
| step_broadcast_failed t key sg (e : exn) :
    pstep (HeldSigned t key sg) (Ev (Broadcast sg) (Err e)) (MustRelease key)
| step_release key a : pstep (MustRelease key) (Ev (Release key) a) (Released key)
| step_wait t key h timeout confirmations a :
    pstep (Submitted t key h) (Ev (WaitForReceipt (et_chain t) h timeout confirmations) a) (Waited t key h)
| step_complete t key h res rec : 
    er_tx_hash res <> None ->
    pstep (Waited t key h) (Ev (Complete key res) (Ok rec)) (Finished key res).

(** Preparing stays in the initial phase. *)
Lemma idle_steps tr : Forall (fun ev : wevent => preparatory (ev_call ev) = true) tr -> steps pstep Idle tr Idle.
Proof.
  induction 1 as [|[e a] tr H _ IH]; [constructor|].
  eapply steps_cons; [by apply step_prepare | done].
Qed.

Lemma prepares_steps {A} (p : wallet A) tr a :
  calls (fun e => preparatory e = true) p -> may p tr a -> steps pstep Idle tr Idle.
Proof. intros Hp Hm. apply idle_steps. by eapply Hp. Qed.

(** A run may stop here: it holds no key. *)
Definition terminal (φ : phase) : Prop :=
  match φ with
  | Idle | Simulated _ _ | Declined | Replayed _ | Released _ | Finished _ _ => True
  | _ => False
  end.

(** * What a trace establishes *)

Definition is_broadcast (ev : wevent) : bool := match ev_call ev with Broadcast _ => true | _ => false end.
Definition is_sign (ev : wevent) : bool := match ev_call ev with SignTransaction _ => true | _ => false end.
Definition no_critical (tr : list wevent) : Prop :=
  Forall (fun ev => is_sign ev = false /\ is_broadcast ev = false) tr.

Definition simulated_in (tr : list wevent) (t : ExecutableTransaction) (sim : SimulationResult) : Prop :=
  exists r : result exn SimulationResult,
    Ev (Simulate t) r ∈ tr /\ match r with Ok s => sim = s | Err _ => sr_status sim = SIM_FAILED end.

(** A human said yes to this transaction, unless none is needed. *)
Definition approved_in (tr : list wevent) (t : ExecutableTransaction) : Prop :=
  needs_human t = true ->
  exists q a, build_approval_request t = Ok q /\ ar_status a = APPROVED /\ Ev (RequestApproval q) (Ok a) ∈ tr.

(** Everything that has to precede a signature of [t] under [key]. *)
Definition authorized_in (tr : list wevent) (t : ExecutableTransaction) (key : string) : Prop :=
  (exists sim, simulated_in tr t sim /\ cleared t sim) /\ approved_in tr t /\
  et_idempotency_key t = Some key /\ (exists rec, Ev (Reserve key) (Ok rec) ∈ tr).

Definition signed_in (tr : list wevent) (t : ExecutableTransaction) (sg : SignedTransactionResult) : Prop :=
  exists req, signing_request t = Ok req /\ Ev (SignTransaction req) (Ok sg) ∈ tr.

Definition count (p : wevent -> bool) (tr : list wevent) : nat := List.length (List.filter p tr).

(** The history each phase stands for. *)
Definition history (φ : phase) (tr : list wevent) : Prop :=
  match φ with
  | Idle => no_critical tr
  | Simulated t sim => no_critical tr /\ intended t /\ simulated_in tr t sim
  | Approved t => no_critical tr /\ intended t /\ (exists sim, simulated_in tr t sim /\ cleared t sim) /\ approved_in tr t
  | Declined | Replayed _ => no_critical tr
  | Held t key => no_critical tr /\ intended t /\ authorized_in tr t key
  | HeldSigned t key sg => intended t /\ authorized_in tr t key /\ signed_in tr t sg /\ count is_broadcast tr = 0%nat
  | MustRelease _ | Released _ => (count is_broadcast tr <= 1)%nat
  | Submitted _ _ _ | Waited _ _ _ | Finished _ _ => count is_broadcast tr = 1%nat
  end.

Lemma count_app p tr1 tr2 : count p (tr1 ++ tr2) = (count p tr1 + count p tr2)%nat.
Proof. unfold count. by rewrite List.filter_app, List.length_app. Qed.

Lemma no_critical_count tr : no_critical tr -> count is_broadcast tr = 0%nat.
Proof.
  unfold no_critical, count. induction 1 as [|ev tr [_ Hb] _ IH]; simpl; [done|]. by rewrite Hb.
Qed.

Lemma no_critical_snoc tr ev :
  no_critical tr -> is_sign ev = false -> is_broadcast ev = false -> no_critical (tr ++ [ev]).
Proof. intros. apply Forall_app. split; [done|]. by repeat constructor. Qed.

Lemma simulated_in_snoc tr ev t sim : simulated_in tr t sim -> simulated_in (tr ++ [ev]) t sim.
Proof. intros (r & Hr & ?). exists r. split; [set_solver | done]. Qed.

Lemma approved_in_snoc tr ev t : approved_in tr t -> approved_in (tr ++ [ev]) t.
Proof. intros H Hn. destruct (H Hn) as (q & a & ? & ? & ?). exists q, a. set_solver. Qed.

Lemma authorized_in_snoc tr ev t key : authorized_in tr t key -> authorized_in (tr ++ [ev]) t key.
Proof.
  intros ((sim & Hs & Hc) & Ha & Hk & rec & Hr).
  split_and!; [|by apply approved_in_snoc | done | exists rec; set_solver].
  exists sim. split; [by apply simulated_in_snoc | done].
Qed.

(** Every phase keeps its history. *)
Lemma history_step φ ev φ' tr : history φ tr -> pstep φ ev φ' -> history φ' (tr ++ [ev]).
Proof.
  intros H Hs. destruct Hs; simpl in *; rewrite ?count_app; try unfold authorized_in.
  - apply no_critical_snoc; [done|..]; by destruct e.
  - split_and!; [by apply no_critical_snoc | done |]. exists r. split; [set_solver | done].
  - destruct H as (Hn & Hi & Hsim). split_and!; [by apply no_critical_snoc | done | |].
    + exists sim. split; [by apply simulated_in_snoc | done].
    + intros _. exists q, a. set_solver.
  - destruct H as [Hn _]. by apply no_critical_snoc.
  - destruct H as (Hn & Hi & (sim & Hsim & Hc) & Ha). split_and!; [by apply no_critical_snoc | done | ..].
    + exists sim. split; [by apply simulated_in_snoc | done].
    + by apply approved_in_snoc.
    + done.
    + exists rec. set_solver.
  - destruct H as (Hn & Hi & Hsim). split_and!; [by apply no_critical_snoc | done | ..].
    + exists sim. split; [by apply simulated_in_snoc | done].
    + intros Hh. congruence.
    + done.
    + exists rec. set_solver.
  - assert (no_critical tr) as Hn by (match goal with Hφ : _ \/ _ |- _ => destruct Hφ as [->|[-> _]]; simpl in H; tauto end).
    assert (no_critical (tr ++ [Ev (Reserve key) (Err e)])) by by apply no_critical_snoc.
    destruct e as [rec|]; [destruct (ir_result rec)|]; done.
  - destruct H as (Hn & Hi & Ha). fold (authorized_in (tr ++ [Ev (SignTransaction req) (Ok sg)]) t key).
    split_and!; [done | by apply authorized_in_snoc | exists req; set_solver |].
    by rewrite no_critical_count.
  - destruct H as [Hn _]. rewrite no_critical_count by done. unfold count. simpl. lia.
  - destruct H as (_ & _ & _ & ->). done.
  - destruct H as (_ & _ & _ & ->). unfold count. simpl. lia.
  - unfold count in *. simpl. lia.
  - unfold count in *. simpl. lia.
  - unfold count in *. simpl. lia.
Qed.

Lemma history_steps tr φ : steps pstep Idle tr φ -> history φ tr.
Proof.
  intros H. apply (steps_history pstep history) with (a := Idle) (l0 := []); [|constructor | done].
  intros. by eapply history_step.
Qed.

Lemma history_broadcasts φ tr : history φ tr -> (count is_broadcast tr <= 1)%nat.
Proof.
  destruct φ; simpl; intros H; try lia; try (destruct H as (_ & _ & _ & H); lia);
    rewrite no_critical_count; (lia || tauto || done).
Qed.

(** Signing and broadcasting happen only in the phases that allow them. *)
Lemma sign_phase φ req a φ' :
  pstep φ (Ev (SignTransaction req) a) φ' -> exists t key, φ = Held t key /\ signing_request t = Ok req.
Proof.
  intros H. remember (Ev (SignTransaction req) a) as ev eqn:E. apply (f_equal ev_call) in E.
  destruct H; simpl in E; simplify_eq; try done; eauto.
Qed.

Lemma broadcast_phase φ sg a φ' :
  pstep φ (Ev (Broadcast sg) a) φ' -> exists t key, φ = HeldSigned t key sg.
Proof.
  intros H. remember (Ev (Broadcast sg) a) as ev eqn:E. apply (f_equal ev_call) in E.
  destruct H; simpl in E; simplify_eq; try done; eauto.
Qed.

(** Every signature request of a run of the machine is authorized by what precedes it. *)
Lemma sign_authorized tr1 req a tr2 φ :
  steps pstep Idle (tr1 ++ Ev (SignTransaction req) a :: tr2) φ ->
  exists t key, signing_request t = Ok req /\ intended t /\ authorized_in tr1 t key.
Proof.
  intros (φ1 & H1 & H2)%steps_app_inv. inversion H2 as [|? ? φ2 ? ? Hs]; subst.
  apply sign_phase in Hs as (t & key & -> & Hr). apply history_steps in H1 as (_ & Hi & Ha). eauto 6.
Qed.

(** A broadcast sends the signature of an authorized transaction, and is the only one of its run. *)
Lemma broadcast_authorized tr1 sg a tr2 φ :
  steps pstep Idle (tr1 ++ Ev (Broadcast sg) a :: tr2) φ ->
  (exists t key, intended t /\ authorized_in tr1 t key /\ signed_in tr1 t sg) /\
  count is_broadcast tr1 = 0%nat /\ count is_broadcast tr2 = 0%nat.
Proof.
  intros H. pose proof (history_broadcasts _ _ (history_steps _ _ H)) as Hc.
  rewrite count_app in Hc. unfold count in Hc at 2. simpl in Hc. fold (count is_broadcast tr2) in Hc.
  apply steps_app_inv in H as (φ1 & H1 & H2). inversion H2 as [|? ? φ2 ? ? Hs]; subst.
  apply broadcast_phase in Hs as (t & key & ->). apply history_steps in H1 as (Hi & Ha & Hsg & Hz).
  split_and!; [eauto 6 | done | lia].
Qed.
End protocol.
