(* ===== verification/PipelineSpec.v ===== *)
(** The pipeline refines the run contract: node by node, and then for the whole graph. *)
From stdpp Require Import base tactics option list sets strings.
From Stdlib Require Import ZArith Lia Ascii String.
From S2P Require Import Prelude Python Values Exceptions Redaction Errors Addresses Chains Models SwapModels Policy.
From S2P Require Import Idempotency Prog Effects Swaps SwapSpec Graph State Intents Transactions Pipeline Protocol.

Local Open Scope string_scope.
Local Open Scope Z_scope.

(** What the outside promises: the answers are the validated models the protocols declare, and the
    store completes a key when it is told to. *)
Definition good_answer `{W : Web3} (e : effect) : ans e -> Prop :=
  match e return ans e -> Prop with
  | ResolveChainId _ => fun r => forall c, r = Ok c -> 0 < c
  | GetWalletAddress _ => fun r => forall w, r = Ok w -> normalized (wa_address w)
  | Broadcast _ => fun r => forall h, r = Ok h -> is_hex_data h = true
  | WaitForReceipt _ _ _ _ => fun r => forall rc, r = Ok rc -> wf_TransactionReceipt rc
  | Complete _ _ => fun r => is_ok r = true
  | GetQuote _ rq => fun r => forall q, r = Ok q -> qu_request q = rq /\ wf_SwapQuote q
  | BuildExecution _ q => fun r => forall e, r = Ok e -> se_quote e = q /\ wf_SwapExecution e
  | _ => fun _ => True
  end.

Definition good `{W : Web3} (ev : wevent) : Prop := good_answer (ev_call ev) (ev_answer ev).

Section spec.
Context `{W : Web3} {L : Web3Laws W} {PT : PydanticText} {PL : PydanticLax}.
Context (settings : MercurySettings) (deps : TransactionGraphDependencies).

(** What the request asks for. *)
Context (intended : ExecutableTransaction -> Prop).

Abbreviation pstep := (pstep settings (policy_engine deps) intended).
Abbreviation cleared := (cleared settings (policy_engine deps)).

(** An executable transaction is the prepared one with its nonce and gas. *)
Record executes (p : PreparedTransaction) (t : ExecutableTransaction) : Prop := {
  ex_wallet : et_wallet_id t = pt_wallet_id p;
  ex_chain : et_chain t = pt_chain p;
  ex_chain_id c : pt_chain_id p = Some c -> c <> 0 -> et_chain_id t = c;
  ex_from a : pt_from_address p = Some a -> a <> "" -> exists b, normalize_evm_address a = Ok b /\ et_from_address t = Some b;
  ex_to : normalize_evm_address (pt_to p) = Ok (et_to t);
  ex_value : et_value_wei t = pt_value_wei p;
  ex_data : et_data t = pt_data p;
  ex_key : et_idempotency_key t = pt_idempotency_key p;
  ex_metadata : et_metadata t = pt_metadata p
}.

(** The prepared transaction of the state is one the request asks for. *)
Definition promised (s : MercuryState) : Prop :=
  forall p t, _prepared_from_state s = Ok p -> executes p t -> intended t.

(** The part of the state that results are built from. *)
Definition prepared_ok (p : PreparedTransaction) : Prop :=
  pt_wallet_id p <> "" /\ pt_chain p <> "" /\ (forall c, pt_chain_id p = Some c -> 0 < c).

Record base (s : MercuryState) : Prop := {
  base_wallet : wf_address_opt (wallet_address s);
  base_prepared p : prepared_transaction s = Some (AnyPrepared p) -> prepared_ok p;
  base_raw p : raw_input s = Some (AnyPrepared p) -> prepared_ok p;
  base_executable t : executable_transaction s = Some t -> wf_ExecutableTransaction t;
  base_error e : error s = Some e -> ei_message e <> "";
  base_intended t : executable_transaction s = Some t -> intended t
}.

(** Nothing decided, approved, signed or sent yet. *)
Record clean (s : MercuryState) : Prop := {
  clean_decision : policy_decision s = None;
  clean_approval : approval_result s = None;
  clean_signed : signed_transaction s = None;
  clean_hash : tx_hash s = None;
  clean_result : execution_result s = None
}.

(** The result a run ends with, by the phase its calls reached. *)
Definition outcome (φ : phase) (r : ExecutionResult) : Prop :=
  match φ with
  | Idle | Simulated _ _ | Declined =>
      (er_status r = REJECTED \/ er_status r = APPROVAL_DENIED) /\ er_tx_hash r = None /\ er_error r <> None
  | Replayed res => r = res
  | Released _ => er_status r = FAILED /\ er_tx_hash r = None /\ er_error r <> None
  | Finished _ res => r = res /\ er_tx_hash r <> None
  | _ => False
  end.

Lemma outcome_terminal φ r : outcome φ r -> terminal φ.
Proof. by destruct φ. Qed.

Definition finished (φ : phase) (s : MercuryState) : Prop :=
  exists r, execution_result s = Some r /\ outcome φ r.

(** Where a run is, what it has established, and the state it is in. *)
Inductive at_node : string -> phase -> MercuryState -> Prop :=
| at_resolve s :
    base s -> clean s -> executable_transaction s = None -> simulation_result s = None -> promised s ->
    at_node "resolve_nonce" Idle s
| at_populate s :
    base s -> clean s -> executable_transaction s = None -> simulation_result s = None ->
    error s <> None \/ promised s -> at_node "populate_gas" Idle s
| at_simulate s : base s -> clean s -> simulation_result s = None -> at_node "simulate_transaction" Idle s
| at_policy_failed s :
    base s -> clean s -> error s <> None \/ executable_transaction s = None -> at_node "evaluate_policy" Idle s
| at_policy t sim s :
    base s -> clean s -> executable_transaction s = Some t -> simulation_result s = Some sim -> error s = None ->
    at_node "evaluate_policy" (Simulated t sim) s
| at_approval t sim s :
    base s -> executable_transaction s = Some t -> cleared t sim -> needs_human t = true ->
    approval_result s = None -> signed_transaction s = None -> tx_hash s = None -> execution_result s = None ->
    at_node "request_approval" (Simulated t sim) s
| at_check φ t s :
    base s -> executable_transaction s = Some t ->
    (φ = Approved t /\ et_idempotency_key t <> None) \/
    (exists sim, φ = Simulated t sim /\ cleared t sim /\ needs_human t = false) ->
    signed_transaction s = None -> tx_hash s = None -> execution_result s = None ->
    at_node "check_idempotency" φ s
| at_sign t key s :
    base s -> executable_transaction s = Some t -> et_idempotency_key t = Some key -> key <> "" ->
    signed_transaction s = None -> tx_hash s = None -> execution_result s = None ->
    at_node "sign_transaction" (Held t key) s
| at_broadcast t key sg s :
    base s -> executable_transaction s = Some t -> et_idempotency_key t = Some key -> key <> "" ->
    signed_transaction s = Some sg -> tx_hash s = None -> execution_result s = None ->
    at_node "broadcast_transaction" (HeldSigned t key sg) s
| at_broadcast_failed φ s : finished φ s -> at_node "broadcast_transaction" φ s
| at_monitor t key h s :
    base s -> executable_transaction s = Some t -> et_idempotency_key t = Some key -> key <> "" ->
    is_hex_data h = true -> tx_hash s = Some h -> execution_result s = None ->
    at_node "monitor_receipt" (Submitted t key h) s
| at_monitor_failed φ s : finished φ s -> at_node "monitor_receipt" φ s
| at_reject φ s :
    base s -> execution_result s = None -> φ = Idle \/ (exists t sim, φ = Simulated t sim) ->
    at_node "reject_transaction" φ s
| at_reject_finished φ s : finished φ s -> at_node "reject_transaction" φ s.

(** Distance to the end. *)
Definition rank (name : string) : nat :=
  if String.eqb name "resolve_nonce" then 9
  else if String.eqb name "populate_gas" then 8
  else if String.eqb name "simulate_transaction" then 7
  else if String.eqb name "evaluate_policy" then 6
  else if String.eqb name "request_approval" then 5
  else if String.eqb name "check_idempotency" then 4
  else if String.eqb name "sign_transaction" then 3
  else if String.eqb name "broadcast_transaction" then 2
  else if String.eqb name "monitor_receipt" then 1
  else if String.eqb name "reject_transaction" then 1
  else 10.

(** * Building results never raises *)

Lemma result_from_state_ok s status h bn gu err :
  base s -> (forall x, h = Some x -> is_hex_data x = true) ->
  (forall n, bn = Some n -> 0 <= n) -> (forall n, gu = Some n -> 0 <= n) ->
  exists r, _result_from_state s status h bn gu err = Ok r /\ er_status r = status /\ er_tx_hash r = h /\
            er_error r = err /\ er_block_number r = bn /\ er_gas_used r = gu.
Proof.
  intros [Hwa Hp _ He _ _] Hh Hb Hg. unfold _result_from_state.
  assert (exists ch ci wi,
    match executable_transaction s with
    | Some t => (et_chain t, et_chain_id t, et_wallet_id t)
    | None => ("unknown", 1, "unknown")
    end = (ch, ci, wi) /\ ch <> "" /\ 0 < ci /\ wi <> "") as (ch & ci & wi & -> & Hch & Hci & Hwi).
  { destruct (executable_transaction s) as [t|]; [|by eexists _, _, _].
    destruct (He t eq_refl) as (? & ? & ? & _). by eexists _, _, _. }
  destruct (prepared_transaction s) as [[v|p]|];
    [| |]; try (rewrite make_ExecutionResult_intro by done; by eexists).
  destruct (Hp p eq_refl) as (Hw & Hc & Hid).
  rewrite make_ExecutionResult_intro; [by eexists | done | | done | done | done | done | done].
  destruct (pt_chain_id p) as [c|]; [|done]. destruct (Z.eqb_spec c 0); [done|]. by apply Hid.
Qed.

(** Failing with an error: the result has no hash. *)
Lemma failed_result_ok s status err :
  base s ->
  exists r, failed_result s status err = Ok (with_execution_result r empty_state) /\
            er_status r = status /\ er_tx_hash r = None /\ er_error r = Some err.
Proof.
  intros Hb. destruct (result_from_state_ok s status None None None (Some err)) as (r & Hr & H); [done..|].
  unfold failed_result. rewrite Hr. simpl. exists r. tauto.
Qed.
(** * The state after a node *)

Lemma base_merge s p : base s -> base p -> base (merge_state s p).
Proof.
  intros [H1 H2 H3 H4 H5 H6] [G1 G2 G3 G4 G5 G6]. constructor; simpl.
  - destruct (wallet_address p); simpl; auto.
  - destruct (prepared_transaction p); simpl; auto.
  - destruct (raw_input p); simpl; auto.
  - destruct (executable_transaction p); simpl; auto.
  - destruct (error p); simpl; auto.
  - destruct (executable_transaction p); simpl; auto.
Qed.

Lemma clean_merge s p : clean s -> clean p -> clean (merge_state s p).
Proof.
  intros [H1 H2 H3 H4 H5] [G1 G2 G3 G4 G5]. constructor; simpl; by rewrite ?G1, ?G2, ?G3, ?G4, ?G5.
Qed.

Lemma base_empty : base empty_state.
Proof. by constructor. Qed.

Lemma clean_empty : clean empty_state.
Proof. by constructor. Qed.

Lemma base_error_patch exc stage code : base (with_error (normalize_exception exc stage code) empty_state).
Proof. constructor; simpl; try done. intros e [= <-]. apply normalize_exception_message. Qed.

Lemma finished_result φ s r : execution_result s = Some r -> outcome φ r -> finished φ s.
Proof. by exists r. Qed.

Lemma finished_keep φ s : finished φ s -> finished φ (merge_state s empty_state).
Proof. by rewrite merge_empty. Qed.

Lemma prepared_from_state_ok s p : base s -> _prepared_from_state s = Ok p -> prepared_ok p.
Proof.
  intros [_ Hp Hr _ _ _]. unfold _prepared_from_state, prepared_ok.
  destruct (prepared_transaction s) as [v|] eqn:E; simpl.
  - destruct v as [v|t]; [|intros [= <-]; by apply Hp]. destruct v; try discriminate.
    intros H%PreparedTransaction_validate_ok. destruct H as (? & ? & ? & _). done.
  - destruct (raw_input s) as [[v|t]|]; [|intros [= <-]; by apply Hr|discriminate].
    destruct v; try discriminate.
    intros H%PreparedTransaction_validate_ok. destruct H as (? & ? & ? & _). done.
Qed.

Lemma str_nonempty s : s <> "" -> str_empty s = false.
Proof. by destruct s. Qed.

(** Resolving the nonce, the chain and the sender keeps what is executed. *)
Lemma executes_resolved p q t :
  executes q t ->
  (forall c, pt_chain_id p = Some c -> c <> 0 -> pt_chain_id q = Some c) ->
  (forall a, pt_from_address p = Some a -> a <> "" -> pt_from_address q = Some a) ->
  pt_wallet_id q = pt_wallet_id p -> pt_chain q = pt_chain p -> pt_to q = pt_to p -> pt_value_wei q = pt_value_wei p ->
  pt_data q = pt_data p -> pt_idempotency_key q = pt_idempotency_key p -> pt_metadata q = pt_metadata p ->
  executes p t.
Proof. intros [] ? ? Ew Ec Et Ev Ed Ek Em. constructor; rewrite <- ?Ew, <- ?Ec, <- ?Et, <- ?Ev, <- ?Ed, <- ?Ek, <- ?Em; eauto. Qed.

Lemma executes_make p chain_id nonce gas t :
  pt_chain_id p = Some chain_id ->
  make_ExecutableTransaction (pt_wallet_id p) (pt_chain p) chain_id (pt_from_address p) (pt_to p) (pt_value_wei p)
    (pt_data p) nonce gas (pt_idempotency_key p) (pt_metadata p) = Ok t ->
  executes p t /\ wf_ExecutableTransaction t.
Proof.
  intros Hc H. pose proof H as (Hwf & Hto & Hw & Hch & Hci & Hv & Hd & _ & _ & Hk & Hm)%make_ExecutableTransaction_ok.
  split; [|done]. constructor; try done; [congruence|].
  intros a Ha _. rewrite Ha in H. by eapply make_ExecutableTransaction_from.
Qed.

(** * Node by node *)

Abbreviation runs f s tr r := (may (f s : wallet (result exn MercuryState)) tr r).

Lemma resolve_nonce_ok s tr r :
  base s -> clean s -> executable_transaction s = None -> simulation_result s = None -> promised s ->
  runs resolve_nonce s tr r -> Forall good tr ->
  exists p, r = Ok p /\ steps pstep Idle tr Idle /\ at_node "populate_gas" Idle (merge_state s p).
Proof.
  intros Hb Hc He Hs Hpr Hm Hg.
  assert (steps pstep Idle tr Idle) as Hst.
  { eapply prepares_steps; [|exact Hm]. unfold resolve_nonce, resolve_chain_id, lookup_nonce, get_wallet_address.
    solve_calls. }
  unfold resolve_nonce in Hm. apply may_try_except in Hm.
  destruct Hm as [(p & Hm & ->) | (tr1 & tr2 & e & -> & Hm & [-> ->])]; last first.
  { eexists; split_and!; [reflexivity | done |].
    constructor; simpl; [apply base_merge; [done | apply base_error_patch] | | done | done | by left].
    apply clean_merge; [done | by constructor]. }
  exists p. split_and!; [done | done |]. revert Hm Hg. clear Hst.
  unfold get_wallet_address. intros Hm Hg. inv_may; simplify_eq.
  match goal with H : Ok ?x = _prepared_from_state s |- _ =>
    symmetry in H; rename x into t; rename H into Hfrom; pose proof (prepared_from_state_ok s t Hb Hfrom) as Hpok end.
  constructor; simpl; try done; [apply base_merge; [done|] | by apply clean_merge |]; last first.
  { right. intros q t' [= <-] Hex. apply (Hpr t t' Hfrom).
    eapply executes_resolved; [exact Hex | | | done..]; simpl.
    - intros c Hc0 Hne. rewrite Hc0, (proj2 (Z.eqb_neq c 0) Hne) in *. inv_may. congruence.
    - intros a -> Hne. by rewrite (str_nonempty a Hne). }
  simpl in Hg. rewrite !Forall_cons in Hg. destruct Hg as (Hw & Hg).
  specialize (Hw _ eq_refl). simpl in Hw.
  constructor; simpl; try done; [by intros ? [= <-]|].
  intros q [= <-]. destruct Hpok as (Hwi & Hch & Hid). split_and!; simpl; [done | done |].
  intros c [= <-]. apply Forall_app in Hg as [Hg _].
  destruct (pt_chain_id _) as [c0|] eqn:Ec; [destruct (c0 =? 0)|];
    unfold resolve_chain_id in *; inv_may; simplify_eq; eauto.
  - rewrite Forall_singleton in Hg. by apply Hg.
  - rewrite Forall_singleton in Hg. by apply Hg.
Qed.
Lemma populate_gas_ok s tr r :
  base s -> clean s -> executable_transaction s = None -> simulation_result s = None ->
  error s <> None \/ promised s -> runs populate_gas_node s tr r -> Forall good tr ->
  exists p, r = Ok p /\ steps pstep Idle tr Idle /\ at_node "simulate_transaction" Idle (merge_state s p).
Proof.
  intros Hb Hc He Hs Hpr Hm Hg.
  assert (steps pstep Idle tr Idle) as Hst.
  { eapply prepares_steps; [|exact Hm]. unfold populate_gas_node, populate_gas. solve_calls. }
  unfold populate_gas_node in Hm. destruct (isSome (error s)) eqn:Herr.
  { destruct Hm as [-> ->]. exists empty_state. rewrite merge_empty. split_and!; [done | done |].
    by constructor. }
  apply may_try_except in Hm. destruct Hm as [(p & Hm & ->) | (tr1 & tr2 & e & -> & Hm & [-> ->])]; last first.
  { eexists; split_and!; [reflexivity | done |].
    constructor; simpl; [apply base_merge; [done | apply base_error_patch] | | done].
    apply clean_merge; [done | by constructor]. }
  exists p. split_and!; [done | done |]. clear Hst. revert Hm.
  unfold populate_gas. intros Hm.
  apply may_bind_exn in Hm as [(e & _ & ?)|(? & ? & t & -> & [_ Hfrom] & Hm)]; [done|].
  destruct (pt_chain_id t) eqn:Hci; [|by destruct Hm]. destruct (pt_nonce t); [|by destruct Hm].
  inv_may; simplify_eq.
  match goal with H : Ok _ = make_ExecutableTransaction _ _ _ _ _ _ _ _ _ _ _ |- _ =>
    symmetry in H; eapply executes_make in H as [Hex Hwf]; [|done] end.
  apply isSome_false in Herr. destruct Hpr as [Hpr|Hpr]; [done|].
  constructor; simpl; [apply base_merge; [done|] | by apply clean_merge | done].
  constructor; simpl; try done; intros ? [= <-]; [done|]. by eapply Hpr.
Qed.

Lemma make_SimulationResult_failed m :
  make_SimulationResult SIM_FAILED None m = Ok {| sr_status := SIM_FAILED; sr_gas_estimate := None; sr_reason := m |}.
Proof. done. Qed.

Lemma simulate_ok s tr r :
  base s -> clean s -> simulation_result s = None ->
  runs simulate_transaction s tr r ->
  exists p φ', r = Ok p /\ steps pstep Idle tr φ' /\ at_node "evaluate_policy" φ' (merge_state s p).
Proof.
  intros Hb Hc Hs Hm. unfold simulate_transaction in Hm. destruct (isSome (error s)) eqn:Herr.
  { destruct Hm as [-> ->]. exists empty_state, Idle. rewrite merge_empty. split_and!; [done | constructor |].
    constructor; [done | done |]. left. by destruct (error s). }
  apply isSome_false in Herr. unfold simulate in Hm.
  assert (forall sim, clean (merge_state s (with_simulation_result sim empty_state)) /\
                      base (merge_state s (with_simulation_result sim empty_state))) as Hp.
  { intros sim. split; [by apply clean_merge | by apply base_merge]. }
  inv_may; simplify_eq; rewrite ?app_nil_r; simpl.
  - match goal with H : Ok ?t = _executable_from_state s |- _ => rename t into et; rename H into Het end.
    unfold _executable_from_state in Het. destruct (executable_transaction s) as [t|] eqn:Ht; [|done]. simplify_eq.
    pose proof (base_intended _ Hb _ Ht) as Hint. eexists _, (Simulated t _). split_and!; [reflexivity | by eapply steps_one, step_simulate |].
    constructor; simpl; [apply Hp | apply Hp | by rewrite Ht | done | by rewrite Herr].
  - unfold _executable_from_state in *. destruct (executable_transaction s) as [t|] eqn:Ht; [done|].
    rewrite make_SimulationResult_failed in *. simplify_eq.
    eexists _, Idle. split_and!; [reflexivity | constructor |].
    apply at_policy_failed; [apply Hp | apply Hp |]. right. simpl. by rewrite Ht.
  - match goal with H : Ok ?t = _executable_from_state s |- _ => rename t into et; rename H into Het end.
    unfold _executable_from_state in Het. destruct (executable_transaction s) as [t|] eqn:Ht; [|done].
    rewrite make_SimulationResult_failed in *. simplify_eq.
    pose proof (base_intended _ Hb _ Ht) as Hint. eexists _, (Simulated t {| sr_status := SIM_FAILED; sr_gas_estimate := None; sr_reason := Some _ |}).
    split_and!; [reflexivity | by apply steps_one, step_simulate |].
    constructor; simpl; [apply Hp | apply Hp | by rewrite Ht | done | by rewrite Herr].
Qed.

(** A decision made for lack of a transaction or after an error is a rejection. *)
Lemma reject_decision_ok e :
  ei_message e <> "" ->
  _reject_decision e = Ok {| pd_status := POLICY_REJECTED; pd_reason := ei_message e |}.
Proof. intros. unfold _reject_decision. by apply make_PolicyDecision_intro. Qed.
Ltac rejected_ok :=
  repeat match goal with
  | H : context [_reject_decision (normalize_exception _ _ _)] |- _ =>
      rewrite reject_decision_ok in H by apply normalize_exception_message
  end.

(** A rejected decision leads to [reject_transaction]. *)
Lemma rejected_next φ s d :
  base s -> clean s -> pd_status d = POLICY_REJECTED -> φ = Idle \/ (exists t sim, φ = Simulated t sim) ->
  at_node (route_after_transaction_policy (merge_state s (with_policy_decision d empty_state))) φ
    (merge_state s (with_policy_decision d empty_state)).
Proof.
  intros Hb Hc Hd Hφ. unfold route_after_transaction_policy. simpl. rewrite Hd.
  apply at_reject; [by apply base_merge | apply (clean_result _ Hc) | done].
Qed.

Lemma evaluate_policy_failed_ok s tr r :
  base s -> clean s -> error s <> None \/ executable_transaction s = None ->
  runs (evaluate_policy settings deps) s tr r ->
  exists p, r = Ok p /\ tr = [] /\
    at_node (route_after_transaction_policy (merge_state s p)) Idle (merge_state s p).
Proof.
  intros Hb Hc Hf Hm. unfold evaluate_policy in Hm. destruct (error s) as [e|] eqn:He.
  - rewrite reject_decision_ok in Hm by by eapply base_error. inv_may; simplify_eq.
    eexists; split_and!; [done | done |]. apply rejected_next; auto.
  - destruct Hf as [Hf|Hf]; [done|]. unfold _executable_from_state in Hm. rewrite Hf in Hm.
    inv_may; rejected_ok; simplify_eq.
    eexists; split_and!; [done | done |]. apply rejected_next; auto.
Qed.

Lemma evaluate_policy_ok t sim s tr r :
  base s -> clean s -> executable_transaction s = Some t -> simulation_result s = Some sim -> error s = None ->
  runs (evaluate_policy settings deps) s tr r ->
  exists p, r = Ok p /\ tr = [] /\
    at_node (route_after_transaction_policy (merge_state s p)) (Simulated t sim) (merge_state s p).
Proof.
  intros Hb Hc Ht Hs He Hm. unfold evaluate_policy, _executable_from_state in Hm. rewrite He, Ht, Hs in Hm.
  pose proof (evaluate_refines settings (policy_engine deps) t (Some sim) (base_executable _ Hb _ Ht)) as Hev.
  destruct (evaluate settings (policy_engine deps) t (Some sim)) as [d|e] eqn:Hd; last first.
  { inv_may; try congruence; rejected_ok; simplify_eq.
    eexists; split_and!; [done | done |]. apply rejected_next; [done | done | done | right; by eexists _, _]. }
  destruct Hev as [Hiff Hst]. inv_may; simplify_eq; try congruence.
  match goal with H : Ok _ = evaluate _ _ _ _ |- _ => rewrite Hd in H; injection H as -> end. eexists; split_and!; [done | done |].
  destruct (decide (pd_status d = POLICY_REJECTED)) as [Hr|Hr]; [apply rejected_next; [done | done | done | right; by eexists _, _]|].
  pose proof (proj1 Hiff Hr) as Hcl. specialize (Hst Hr).
  assert (base (merge_state s (with_policy_decision d empty_state))) as Hb' by by apply base_merge.
  destruct Hc as [C1 C2 C3 C4 C5].
  unfold route_after_transaction_policy. simpl. rewrite Hst.
  destruct (needs_human t) eqn:Hn.
  - by apply at_approval.
  - apply at_check with t; simpl; eauto 6.
Qed.

Lemma request_approval_ok t sim s tr r :
  base s -> executable_transaction s = Some t -> cleared t sim -> needs_human t = true ->
  approval_result s = None -> signed_transaction s = None -> tx_hash s = None -> execution_result s = None ->
  runs request_approval_node s tr r ->
  exists p φ', r = Ok p /\ steps pstep (Simulated t sim) tr φ' /\
    at_node (route_after_transaction_approval (merge_state s p)) φ' (merge_state s p).
Proof.
  intros Hb Ht Hcl Hn Ha Hsg Hh Hr Hm. unfold request_approval_node, _executable_from_state in Hm.
  rewrite Ht in Hm. unfold request_approval in Hm.
  assert (forall err φ, outcome φ = outcome Declined ->
    exists r0, failed_result s APPROVAL_DENIED err = Ok (with_execution_result r0 empty_state) /\
      at_node (route_after_transaction_approval (merge_state s (with_execution_result r0 empty_state))) φ
        (merge_state s (with_execution_result r0 empty_state))) as Hfail.
  { intros err φ Hφ. destruct (failed_result_ok s APPROVAL_DENIED err Hb) as (r0 & Hr0 & H1 & H2 & H3).
    exists r0. split; [done|]. unfold route_after_transaction_approval. simpl. rewrite Ha. simpl.
    apply at_reject_finished, finished_result with r0; [done|]. rewrite Hφ. simpl. rewrite H3. auto. }
  apply may_try_except in Hm. destruct Hm as [(p & Hm & ->) | (tr1 & tr2 & e & -> & Hm & Hh')].
  - inv_may; simplify_eq.
    match goal with H : Ok ?q = build_approval_request t |- _ => symmetry in H; rename H into Hq end.
    match goal with H : may (if negb (bool_decide (ar_status ?x = _)) then _ else _) _ _ |- _ => rename x into a end.
    destruct (bool_decide_reflect (ar_status a = APPROVED)) as [Hap|Hap]; cbn [negb] in Hm;
      inv_may; simplify_eq; rewrite ?app_nil_r; cbn [app].
    + eexists _, (Approved t). split_and!; [done | by eapply steps_one, step_approved |].
      unfold route_after_transaction_approval. simpl. rewrite bool_decide_true by done.
      apply build_approval_request_ok in Hq as (_ & _ & _ & _ & _ & _ & _ & Hkey & _).
      apply at_check with t; simpl; auto; [by apply base_merge|]. left. by rewrite Hkey.
    + destruct (result_from_state_ok s APPROVAL_DENIED None None None
                  (Some (approval_denied (ar_reason a) [] (Some "request_approval"))) Hb)
        as (r0 & Hr0 & H1 & H2 & H3 & _); [done..|]. rewrite Hr0 in *. simplify_eq.
      eexists _, Declined. split_and!; [done | by eapply steps_one, step_declined |].
      unfold route_after_transaction_approval. simpl. rewrite bool_decide_false by done.
      apply at_reject_finished, finished_result with r0; [done|]. simpl. rewrite H3. auto.
  - destruct (Hfail (normalize_exception e (Some "request_approval") None) (Simulated t sim) eq_refl)
      as (r0 & Hr0 & Hnode0).
    destruct (Hfail (normalize_exception e (Some "request_approval") None) Declined eq_refl)
      as (r1 & Hr1 & Hnode1). rewrite Hr0 in Hh', Hr1. simplify_eq. destruct Hh' as [-> ->].
    inv_may; simplify_eq; rewrite ?app_nil_r; cbn [app].
    + eexists _, (Simulated t sim). split_and!; [done | constructor | done].
    + eexists _, Declined. split_and!; [done | by eapply steps_one, step_declined | done].
    + match goal with H : may (if negb (bool_decide (ar_status ?x = _)) then _ else _) _ _ |- _ => rename x into a end.
      match goal with H : may (if ?c then _ else _) _ _ |- _ => destruct c end; inv_may; simplify_eq.
      destruct (result_from_state_ok s APPROVAL_DENIED None None None
                  (Some (approval_denied (ar_reason a) [] (Some "request_approval"))) Hb)
        as (r2 & Hr2 & _); [done..|]. congruence.
Qed.
Lemma failed_result_node s status err φ :
  base s -> (forall r, er_status r = status -> er_tx_hash r = None -> er_error r = Some err -> outcome φ r) ->
  exists r, failed_result s status err = Ok (with_execution_result r empty_state) /\
            finished φ (merge_state s (with_execution_result r empty_state)).
Proof.
  intros Hb Ho. destruct (failed_result_ok s status err Hb) as (r & Hr & H1 & H2 & H3).
  exists r. split; [done|]. by apply finished_result with r; [|apply Ho].
Qed.

Lemma finished_rejected φ s :
  finished φ s -> at_node (route_after_idempotency s) φ s.
Proof.
  intros H. destruct H as (r & Hr & Ho). unfold route_after_idempotency. rewrite Hr. simpl.
  apply at_reject_finished. by exists r.
Qed.

(** The key a validated transaction carries is not empty. *)
Lemma executable_key s t key :
  base s -> executable_transaction s = Some t -> et_idempotency_key t = Some key -> key <> "".
Proof.
  intros Hb Ht Hk ->. destruct (base_executable _ Hb _ Ht) as (_ & _ & _ & _ & _ & _ & _ & _ & H). congruence.
Qed.

Lemma check_idempotency_ok φ t s tr r :
  base s -> executable_transaction s = Some t ->
  (φ = Approved t /\ et_idempotency_key t <> None) \/
  (exists sim, φ = Simulated t sim /\ cleared t sim /\ needs_human t = false) ->
  signed_transaction s = None -> tx_hash s = None -> execution_result s = None ->
  runs check_idempotency s tr r ->
  exists p φ', r = Ok p /\ steps pstep φ tr φ' /\
    at_node (route_after_idempotency (merge_state s p)) φ' (merge_state s p).
Proof.
  intros Hb Ht Hφ Hsg Hh Hr Hm. unfold check_idempotency, _executable_from_state in Hm. rewrite Ht in Hm.
  destruct (et_idempotency_key t) as [key|] eqn:Hk; last first.
  { destruct Hφ as [[_ ?]|(sim & -> & _ & _)]; [done|]. inv_may; simplify_eq.
    destruct (failed_result_node s REJECTED (normalize_exception (ValueError "Idempotency key is required before signing.")
      (Some "check_idempotency") None) (Simulated t sim) Hb) as (r0 & Hr0 & Hf).
    { intros x H1 H2 H3. simpl. rewrite H3. auto. }
    rewrite Hr0. eexists _, (Simulated t sim). split_and!; [done | constructor |]. by apply finished_rejected. }
  assert (key <> "") as Hne by by eapply executable_key.
  assert (forall e, exists φ', steps pstep φ [Ev (Reserve key) (Err e)] φ' /\
    φ' = match e with
         | DuplicateTransactionError rec => match ir_result rec with Some res => Replayed res | None => Declined end
         | OtherError _ => Declined end) as Href.
  { intros e. eexists; split; [|reflexivity]. apply steps_one.
    destruct Hφ as [[-> _]|(sim & -> & Hcl & _)].
    - apply (step_refused _ _ _ _ t {| sr_status := SIM_PASSED; sr_gas_estimate := None; sr_reason := None |}); auto.
    - by apply (step_refused _ _ _ _ t sim); auto. }
  assert (forall err, exists r0, failed_result s REJECTED err = Ok (with_execution_result r0 empty_state) /\
    finished Declined (merge_state s (with_execution_result r0 empty_state))) as Hfail.
  { intros err. apply failed_result_node; [done|]. intros x H1 H2 H3. simpl. rewrite H3. auto. }
  destruct Hm as (b & tr' & -> & Hm). destruct b as [rec|e].
  - destruct Hm as [-> ->]. exists empty_state, (Held t key). rewrite merge_empty. split_and!; [done | |].
    + apply steps_one. destruct Hφ as [[-> _]|(sim & -> & Hcl & Hn)]; [by constructor | by eapply step_reserve_allowed].
    + unfold route_after_idempotency. rewrite Hr. simpl. by apply at_sign.
  - destruct (Href e) as (φ' & Hs & ->). destruct e as [rec|exc].
    + destruct (ir_result rec) as [res|]; inv_may; simplify_eq.
      * eexists _, (Replayed res). split_and!; [done | done |]. apply finished_rejected. by exists res.
      * destruct (Hfail (idempotency_conflict [] (Some "check_idempotency"))) as (r0 & Hr0 & Hf).
        rewrite Hr0. eexists _, Declined. split_and!; [done | done |]. by apply finished_rejected.
    + inv_may. simplify_eq.
      destruct (Hfail (normalize_exception exc (Some "check_idempotency") None)) as (r0 & Hr0 & Hf).
      rewrite Hr0. eexists _, Declined. split_and!; [done | done |]. by apply finished_rejected.
Qed.

(** Releasing after a failure before the broadcast. *)
Lemma release_ok s t key tr r :
  executable_transaction s = Some t -> et_idempotency_key t = Some key -> key <> "" ->
  may (_release_idempotency_after_pre_broadcast_failure s) tr r ->
  r = Ok tt /\ steps pstep (MustRelease key) tr (Released key).
Proof.
  intros Ht Hk Hne. unfold _release_idempotency_after_pre_broadcast_failure, _idempotency_key_from_state.
  rewrite Ht, Hk. destruct key; [done|]. simpl. intros (u & tr' & -> & -> & ->).
  split; [done|]. apply steps_one. constructor.
Qed.

Lemma sign_ok t key s tr r :
  base s -> executable_transaction s = Some t -> et_idempotency_key t = Some key -> key <> "" ->
  signed_transaction s = None -> tx_hash s = None -> execution_result s = None ->
  runs sign_transaction_node s tr r ->
  exists p φ', r = Ok p /\ steps pstep (Held t key) tr φ' /\ at_node "broadcast_transaction" φ' (merge_state s p).
Proof.
  intros Hb Ht Hk Hne Hsg Hh Hr Hm. unfold sign_transaction_node, _executable_from_state in Hm. rewrite Ht in Hm.
  destruct (signing_request_total t (base_executable _ Hb _ Ht)) as (req & Hreq & _).
  unfold sign_executable_transaction, sign_transaction in Hm.
  apply may_try_except in Hm. destruct Hm as [(p & Hm & ->) | (tr1 & tr2 & e & -> & Hm & Hh')].
  - inv_may; simplify_eq. rewrite Hreq in *. simplify_eq. rewrite ?app_nil_r; cbn [app].
    eexists _, (HeldSigned t key _). split_and!; [done | by apply steps_one, step_sign |].
    apply at_broadcast; simpl; try done. by apply base_merge.
  - destruct (failed_result_node s FAILED (normalize_exception e (Some "sign_transaction") (Some "signing_failed"))
                (Released key) Hb) as (r0 & Hr0 & Hf).
    { intros x H1 H2 H3. simpl. by rewrite H3. }
    apply may_bind_exn in Hh' as [(e' & Hrel & ->) | (tr3 & tr4 & u & -> & Hrel & [-> ->])];
      (eapply release_ok in Hrel as [Hu Hrel]; [|done..]); [done|].
    rewrite Hr0. eexists _, (Released key). split_and!; [done | |].
    + eapply steps_app; [|rewrite app_nil_r; exact Hrel].
      inv_may; simplify_eq; try congruence.
      rewrite ?app_nil_r; cbn [app]. rewrite Hreq in *. simplify_eq. by apply steps_one, step_sign_failed.
    + by apply at_broadcast_failed.
Qed.
Lemma hex_data_strip h : is_hex_data h = true -> str_empty (py_strip h) = false.
Proof.
  unfold is_hex_data. rewrite andb_true_iff. intros [Hp Hh].
  destruct h as [|c1 [|c2 h]]; [done | cbn [py_startswith] in Hp; by rewrite andb_false_r in Hp |].
  cbn [py_startswith] in Hp. rewrite !andb_true_iff, !Ascii.eqb_eq in Hp. destruct Hp as (<- & <- & _).
  rewrite py_strip_nospace; [done|]. cbn in Hh |- *. clear -Hh.
  induction h as [|c h IH]; [done|]. simpl in *. apply andb_true_iff in Hh as [Hc Hh].
  rewrite hex_digit_nospace by done. by apply IH.
Qed.

Lemma broadcast_ok t key sg s tr r :
  base s -> executable_transaction s = Some t -> et_idempotency_key t = Some key -> key <> "" ->
  signed_transaction s = Some sg -> tx_hash s = None -> execution_result s = None ->
  runs broadcast_transaction s tr r -> Forall good tr ->
  exists p φ', r = Ok p /\ steps pstep (HeldSigned t key sg) tr φ' /\ at_node "monitor_receipt" φ' (merge_state s p).
Proof.
  intros Hb Ht Hk Hne Hsg Hh Hr Hm Hg. unfold broadcast_transaction in Hm. rewrite Hr in Hm.
  cbn [isSome] in Hm. rewrite Hsg in Hm. unfold broadcast in Hm.
  apply may_try_except in Hm. destruct Hm as [(p & Hm & ->) | (tr1 & tr2 & e & -> & Hm & Hh')].
  - inv_may; simplify_eq. rewrite ?app_nil_r in *; cbn [app] in *.
    match goal with H : Forall good [Ev (Broadcast _) (Ok ?x)] |- _ => rename x into h end.
    eexists _, (Submitted t key h). split_and!; [done | by apply steps_one, step_broadcast |].
    apply at_monitor; simpl; try done; [by apply base_merge|].
    rewrite Forall_singleton in Hg. by apply Hg.
  - destruct (failed_result_node s FAILED
                (normalize_exception e (Some "broadcast_transaction") (Some "broadcast_failed"))
                (Released key) Hb) as (r0 & Hr0 & Hf).
    { intros x H1 H2 H3. simpl. by rewrite H3. }
    apply may_bind_exn in Hh' as [(e' & Hrel & ->) | (tr3 & tr4 & u & -> & Hrel & [-> ->])];
      (eapply release_ok in Hrel as [Hu Hrel]; [|done..]); [done|].
    rewrite Hr0. eexists _, (Released key). split_and!; [done | |].
    + eapply steps_app; [|rewrite app_nil_r; exact Hrel].
      inv_may; simplify_eq. rewrite ?app_nil_r; cbn [app]. by apply steps_one, step_broadcast_failed.
    + by apply at_monitor_failed.
Qed.

(** The result of a monitored transaction is stored under its key. *)
Lemma monitor_ok t key h s tr r :
  base s -> executable_transaction s = Some t -> et_idempotency_key t = Some key -> key <> "" ->
  is_hex_data h = true -> tx_hash s = Some h -> execution_result s = None ->
  runs (monitor_receipt deps) s tr r -> Forall good tr ->
  exists p φ', r = Ok p /\ steps pstep (Submitted t key h) tr φ' /\ finished φ' (merge_state s p).
Proof.
  intros Hb Ht Hk Hne Hhex Hh Hr Hm Hg. unfold monitor_receipt in Hm. rewrite Hr in Hm. cbn [isSome] in Hm.
  unfold _executable_from_state in Hm. rewrite Ht, Hh in Hm. unfold wait_for_receipt in Hm.
  apply may_try_except in Hm. destruct Hm as [(p & Hm & ->) | (tr1 & tr2 & e & -> & Hm & Hh')].
  - inv_may; simplify_eq. rewrite Hk in *. unfold complete in *. inv_may; simplify_eq.
    match goal with H : Ok ?x = _result_from_receipt s ?rc |- _ => rename x into res; rename H into Hres end.
    unfold _result_from_receipt in Hres. symmetry in Hres. unfold _result_from_state in Hres.
    assert (er_tx_hash res <> None) as Hhash.
    { repeat case_match; apply make_ExecutionResult_ok in Hres as (_ & _ & -> & _); done. }
    rewrite ?app_nil_r; cbn [app].
    eexists _, (Finished key res). split_and!; [done | | by exists res].
    eapply steps_cons; [apply step_wait | apply steps_one]. by constructor.
  - apply Forall_app in Hg as [Hg1 Hg2].
    assert (steps pstep (Submitted t key h) tr1 (Waited t key h)) as Hw.
    { inv_may; simplify_eq; rewrite ?app_nil_r in *; cbn [app] in *.
      all: try (by apply steps_one, step_wait).
      all: rewrite Hk in *; unfold complete in *; inv_may; simplify_eq; cbn [app] in *.
      all: rewrite !Forall_cons in Hg1; destruct Hg1 as (_ & Hg1 & _); discriminate Hg1. }
    destruct (result_from_state_ok s FAILED (Some h) None None
                (Some (normalize_exception e (Some "monitor_receipt") None)) Hb) as (r0 & Hr0 & _ & Hrh & _);
      [by intros ? [= <-] | done | done |].
    unfold _finalize_idempotency_after_monitor_failure, _idempotency_key_from_state in Hh'.
    rewrite Ht, Hk in Hh'. destruct key as [|c key]; [done|]. cbn [str_empty] in Hh'.
    rewrite Hh in Hh'. cbn [default from_option id] in Hh'. rewrite hex_data_strip in Hh' by done. cbn [negb] in Hh'.
    clear Hm Hg1. unfold complete in Hh'. inv_may; simplify_eq; try congruence; rewrite ?app_nil_r in *; cbn [app] in *;
      try (rewrite Forall_singleton in Hg2; discriminate Hg2).
    match goal with H : Ok ?x = _result_from_state _ _ _ _ _ _ |- _ => rewrite Hr0 in H; injection H as -> end.
    eexists _, (Finished (String c key) r0). split_and!; [done | | exists r0; split; [done|]; simpl; by rewrite Hrh].
    eapply steps_app; [exact Hw | apply steps_one]. constructor. by rewrite Hrh.
Qed.

Lemma reject_ok φ s tr r :
  base s -> execution_result s = None -> φ = Idle \/ (exists t sim, φ = Simulated t sim) ->
  runs reject_transaction s tr r ->
  exists p, r = Ok p /\ tr = [] /\ finished φ (merge_state s p).
Proof.
  intros Hb Hr Hφ Hm. unfold reject_transaction in Hm. rewrite Hr in Hm. cbn [isSome] in Hm.
  destruct Hm as [-> ->].
  match goal with |- exists p, failed_result s REJECTED ?err = _ /\ _ =>
    destruct (failed_result_node s REJECTED err φ Hb) as (r0 & Hr0 & Hf) end.
  { intros x H1 H2 H3. destruct Hφ as [->|(t & sim & ->)]; simpl; rewrite H3; auto. }
  rewrite Hr0. eexists. split_and!; done.
Qed.
(** * The graph *)

(** A graph that contains the pipeline: its nodes and edges are found in it. *)
Record has_pipeline (g : StateGraph effect MercuryState) : Prop := {
  hp_node name f :
    dict_get (sg_nodes (_add_transaction_pipeline settings deps new_graph)) name = Some f ->
    dict_get (sg_nodes g) name = Some f;
  hp_edge name e :
    dict_get (sg_edges (_add_transaction_pipeline settings deps new_graph)) name = Some e ->
    dict_get (sg_edges g) name = Some e
}.

Section nodes_of.
Context (g : StateGraph effect MercuryState) (Hg : has_pipeline g).

Lemma edge_next name target s :
  dict_get (sg_edges (_add_transaction_pipeline settings deps new_graph)) name = Some (Edge target) ->
  successor g name s = Some target.
Proof using Hg. intros H. unfold successor. by rewrite (hp_edge g Hg _ _ H). Qed.

Lemma conditional_next name router mapping s :
  dict_get (sg_edges (_add_transaction_pipeline settings deps new_graph)) name = Some (Conditional router mapping) ->
  dict_get mapping (router s) = Some (router s) ->
  successor g name s = Some (router s).
Proof using Hg. intros H1 H2. unfold successor. by rewrite (hp_edge g Hg _ _ H1). Qed.

Abbreviation ok := (node_ok merge_state pstep good g at_node finished rank).

(** A node with one successor, and a node that routes. *)
Lemma edge_ok name f target :
  dict_get (sg_nodes (_add_transaction_pipeline settings deps new_graph)) name = Some f ->
  dict_get (sg_edges (_add_transaction_pipeline settings deps new_graph)) name = Some (Edge target) ->
  String.eqb target END = false -> (rank target < rank name)%nat ->
  (forall φ s tr r, at_node name φ s -> may (f s) tr r -> Forall good tr ->
     exists p φ', r = Ok p /\ steps pstep φ tr φ' /\ at_node target φ' (merge_state s p)) ->
  ok name.
Proof using Hg.
  intros Hf He Hne Hr H. exists f. split; [by apply (hp_node g Hg)|]. intros φ s tr r HI Hm Hgd.
  destruct (H φ s tr r HI Hm Hgd) as (p & φ' & -> & Hs & Hn). exists p, φ', target.
  split_and!; [done | done | by apply edge_next |]. by rewrite Hne.
Qed.

Lemma conditional_ok name f router mapping :
  dict_get (sg_nodes (_add_transaction_pipeline settings deps new_graph)) name = Some f ->
  dict_get (sg_edges (_add_transaction_pipeline settings deps new_graph)) name = Some (Conditional router mapping) ->
  (forall s, dict_get mapping (router s) = Some (router s) /\ String.eqb (router s) END = false /\
             (rank (router s) < rank name)%nat) ->
  (forall φ s tr r, at_node name φ s -> may (f s) tr r -> Forall good tr ->
     exists p φ', r = Ok p /\ steps pstep φ tr φ' /\ at_node (router (merge_state s p)) φ' (merge_state s p)) ->
  ok name.
Proof using Hg.
  intros Hf He Hr H. exists f. split; [by apply (hp_node g Hg)|]. intros φ s tr r HI Hm Hgd.
  destruct (H φ s tr r HI Hm Hgd) as (p & φ' & -> & Hs & Hn). destruct (Hr (merge_state s p)) as (H1 & H2 & H3).
  exists p, φ', (router (merge_state s p)).
  split_and!; [done | done | by eapply conditional_next |]. by rewrite H2.
Qed.

Lemma final_ok name f :
  dict_get (sg_nodes (_add_transaction_pipeline settings deps new_graph)) name = Some f ->
  dict_get (sg_edges (_add_transaction_pipeline settings deps new_graph)) name = Some (Edge END) ->
  (forall φ s tr r, at_node name φ s -> may (f s) tr r -> Forall good tr ->
     exists p φ', r = Ok p /\ steps pstep φ tr φ' /\ finished φ' (merge_state s p)) ->
  ok name.
Proof using Hg.
  intros Hf He H. exists f. split; [by apply (hp_node g Hg)|]. intros φ s tr r HI Hm Hgd.
  destruct (H φ s tr r HI Hm Hgd) as (p & φ' & -> & Hs & Hn). exists p, φ', END.
  split_and!; [done | done | by apply edge_next |]. done.
Qed.

Lemma pipeline_preparing name : name ∈ ["resolve_nonce"; "populate_gas"; "simulate_transaction"] -> ok name.
Proof using Hg L.
  rewrite !elem_of_cons, elem_of_nil. intros [->|[->|[->|[]]]].
  - eapply (edge_ok _ _ "populate_gas"); try reflexivity; [unfold rank; simpl; lia|].
    intros φ s tr r HI Hm Hgd. inversion HI; subst.
    destruct (resolve_nonce_ok s tr r) as (p & ? & ? & ?); [done..|]. by exists p, Idle.
  - eapply (edge_ok _ _ "simulate_transaction"); try reflexivity; [unfold rank; simpl; lia|].
    intros φ s tr r HI Hm Hgd. inversion HI; subst.
    destruct (populate_gas_ok s tr r) as (p & ? & ? & ?); [done..|]. by exists p, Idle.
  - eapply (edge_ok _ _ "evaluate_policy"); try reflexivity; [unfold rank; simpl; lia|].
    intros φ s tr r HI Hm Hgd. inversion HI; subst.
    destruct (simulate_ok s tr r) as (p & φ' & ? & ? & ?); [done..|]. by exists p, φ'.
Qed.

Lemma pipeline_deciding name : name ∈ ["evaluate_policy"; "request_approval"; "check_idempotency"] -> ok name.
Proof using Hg L.
  rewrite !elem_of_cons, elem_of_nil. intros [->|[->|[->|[]]]].
  - eapply (conditional_ok _ _ route_after_transaction_policy); try reflexivity.
    { intros s. unfold route_after_transaction_policy. repeat case_match; repeat split; unfold rank; simpl; lia. }
    intros φ s tr r HI Hm Hgd. inversion HI; subst.
    + destruct (evaluate_policy_failed_ok s tr r) as (p & ? & -> & ?); [done..|]. exists p, Idle.
      split_and!; [done | constructor | done].
    + destruct (evaluate_policy_ok t sim s tr r) as (p & ? & -> & ?); [done..|]. exists p, (Simulated t sim).
      split_and!; [done | constructor | done].
  - eapply (conditional_ok _ _ route_after_transaction_approval); try reflexivity.
    { intros s. unfold route_after_transaction_approval. repeat case_match; repeat split; unfold rank; simpl; lia. }
    intros φ s tr r HI Hm Hgd. inversion HI; subst.
    destruct (request_approval_ok t sim s tr r) as (p & φ' & ? & ? & ?); [done..|]. by exists p, φ'.
  - eapply (conditional_ok _ _ route_after_idempotency); try reflexivity.
    { intros s. unfold route_after_idempotency. repeat case_match; repeat split; unfold rank; simpl; lia. }
    intros φ s tr r HI Hm Hgd. inversion HI; subst.
    eapply check_idempotency_ok; done.
Qed.

Lemma pipeline_executing name :
  name ∈ ["sign_transaction"; "broadcast_transaction"; "monitor_receipt"; "reject_transaction"] -> ok name.
Proof using Hg L.
  rewrite !elem_of_cons, elem_of_nil. intros [->|[->|[->|[->|[]]]]].
  - eapply (edge_ok _ _ "broadcast_transaction"); try reflexivity; [unfold rank; simpl; lia|].
    intros φ s tr r HI Hm Hgd. inversion HI; subst. by eapply sign_ok.
  - eapply (edge_ok _ _ "monitor_receipt"); try reflexivity; [unfold rank; simpl; lia|].
    intros φ s tr r HI Hm Hgd. inversion HI; subst; [by eapply broadcast_ok|].
    destruct H as (r0 & Hr0 & Ho). unfold broadcast_transaction in Hm. rewrite Hr0 in Hm. destruct Hm as [-> ->].
    eexists _, φ. rewrite merge_empty. split_and!; [done | constructor |]. apply at_monitor_failed. by exists r0.
  - eapply final_ok; try reflexivity.
    intros φ s tr r HI Hm Hgd. inversion HI; subst; [by eapply monitor_ok|].
    destruct H as (r0 & Hr0 & Ho). unfold monitor_receipt in Hm. rewrite Hr0 in Hm. destruct Hm as [-> ->].
    eexists _, φ. rewrite merge_empty. split_and!; [done | constructor |]. by exists r0.
  - eapply final_ok; try reflexivity.
    intros φ s tr r HI Hm Hgd. inversion HI; subst.
    + destruct (reject_ok φ s tr r) as (p & ? & -> & ?); [done..|]. exists p, φ.
      split_and!; [done | constructor | done].
    + destruct H as (r0 & Hr0 & Ho). unfold reject_transaction in Hm. rewrite Hr0 in Hm. destruct Hm as [-> ->].
      eexists _, φ. rewrite merge_empty. split_and!; [done | constructor |]. by exists r0.
Qed.

Lemma pipeline_nodes name φ s : at_node name φ s -> ok name.
Proof using Hg L.
  intros HI. inversion HI; subst;
    first [apply pipeline_preparing; set_solver | apply pipeline_deciding; set_solver
          | apply pipeline_executing; set_solver].
Qed.

(** A run from inside the pipeline follows the contract and ends with a result. *)
Lemma pipeline_run limit fuel name φ s tr r :
  at_node name φ s -> (rank name < fuel)%nat ->
  may (run_from merge_state limit fuel g name s) tr r -> Forall good tr ->
  exists φ' s', r = Ok s' /\ steps pstep φ tr φ' /\ finished φ' s'.
Proof using Hg L. apply run_from_inv. apply pipeline_nodes. Qed.
End nodes_of.
End spec.
