(* ===== verification/PreparationSpec.v ===== *)
(** The four transaction graphs refine the run contract: preparation makes only calls that change nothing, and what
    it hands to the pipeline is what the intent asks for. *)
From stdpp Require Import base tactics option list sets strings.
From Stdlib Require Import ZArith Lia Ascii String.
From S2P Require Import Prelude Python Values Exceptions Redaction Errors Addresses Chains Models SwapModels Policy.
From S2P Require Import Idempotency Prog Effects Erc20 Intents TokenTransactions TokenSpec Swaps SwapSpec.
From S2P Require Import Graph State Transactions Pipeline Preparation Protocol PipelineSpec.

Local Open Scope string_scope.
Local Open Scope Z_scope.

(** The graphs [agent.py] builds around the pipeline. *)
Inductive graph_kind : Type :=
| TransactionGraph
| ERC20Graph
| NativeGraph
| SwapGraph (swap_deps : SwapGraphDependencies).

Section graphs.
Context `{W : Web3} {L : Web3Laws W} {PT : PydanticText} {PL : PydanticLax}.
Context (settings : MercurySettings) (deps : TransactionGraphDependencies).

Definition wallet_graph (kind : graph_kind) : StateGraph effect MercuryState :=
  match kind with
  | TransactionGraph => build_transaction_graph settings deps
  | ERC20Graph => build_erc20_transaction_graph settings deps
  | NativeGraph => build_native_transaction_graph settings deps
  | SwapGraph d => build_swap_transaction_graph settings deps d
  end.

(** The transaction prepared for a payload, and the part of the run [T] it was prepared from. *)
Definition prepared_for (kind : graph_kind) (T : list wevent) (payload : dict) (p : PreparedTransaction) : Prop :=
  match kind with
  | TransactionGraph => False
  | ERC20Graph =>
      (exists i r raw, payload_kind payload = "erc20_transfer" /\ ERC20TransferIntent_validate payload = Ok i /\
         transfer_facts (ti_chain i) (ti_token_address i) (ti_recipient_address i) (ti_amount i)
           (ti_amount_in_smallest_units i) T p r raw /\
         pt_wallet_id p = ti_wallet_id i /\ pt_idempotency_key p = ti_idempotency_key i) \/
      (exists i r raw, payload_kind payload = "erc20_approval" /\ ERC20ApprovalIntent_validate payload = Ok i /\
         approval_facts (ai_chain i) (ai_token_address i) (ai_spender_address i) (ai_amount i)
           (ai_allow_unlimited i) (ai_amount_in_smallest_units i) T p r raw /\
         pt_wallet_id p = ai_wallet_id i /\ pt_idempotency_key p = ai_idempotency_key i)
  | NativeGraph =>
      exists i, NativeTransferIntent_validate payload = Ok i /\
        native_facts settings (ni_chain i) (ni_recipient_address i) (ni_amount i) p /\
        pt_wallet_id p = ni_wallet_id i /\ pt_idempotency_key p = ni_idempotency_key i
  | SwapGraph d =>
      exists i q, SwapIntent_validate settings payload = Ok i /\ request_follows settings i (qu_request q) /\
        allowed_at_clock settings (sd_policy_config d) q T /\
        ((exists spender r raw, ro_spender_address (qu_route q) = Some spender /\
            approval_facts (sq_chain (qu_request q)) (ro_from_token (qu_route q)) spender
              (sq_amount_in (qu_request q)) false false T p r raw /\
            pt_idempotency_key p = Some (si_idempotency_key i ++ ":approval")) \/
         (exists e, se_quote e = q /\ swap_facts e p /\
            (sq_from_token_is_native (qu_request q) = true \/ allowance_covers q T)))
  end.

(** The transactions a request asks for: the one it carries, or the one prepared for its payload with the
    payload's metadata merged over it. *)
Definition requests (kind : graph_kind) (s : MercuryState) (T : list wevent) (t : ExecutableTransaction) : Prop :=
  match kind with
  | TransactionGraph => exists p, _prepared_from_state s = Ok p /\ executes p t
  | _ => exists msg payload p, payload_from_state msg s = Ok payload /\ prepared_for kind T payload p /\
           executes (merge_intent_metadata_into_prepared p payload) t
  end.

(** What a run starts from: a request, and nothing decided. *)
Record initial (kind : graph_kind) (s : MercuryState) : Prop := {
  initial_wallet : wf_address_opt (wallet_address s);
  initial_prepared p : prepared_transaction s = Some (AnyPrepared p) -> prepared_ok p;
  initial_raw p : raw_input s = Some (AnyPrepared p) -> prepared_ok p;
  initial_error e : error s = Some e -> ei_message e <> "";
  initial_clean : clean s;
  initial_executable : executable_transaction s = None;
  initial_simulation : simulation_result s = None;
  initial_unprepared : kind <> TransactionGraph -> prepared_transaction s = None /\ prepared_swap s = None
}.

Lemma initial_base kind s intended : initial kind s -> base intended s.
Proof. intros []. constructor; auto; congruence. Qed.

(** * Preparation makes no consequential call *)

Lemma metadata_prepares chain token : calls (fun e => preparatory e = true) (get_erc20_metadata chain token).
Proof. unfold get_erc20_metadata, create_provider, read_decimals, _optional_text_call, contract_call. solve_calls. Qed.
Lemma balance_prepares chain token owner : calls (fun e => preparatory e = true) (get_erc20_balance chain token owner).
Proof. unfold get_erc20_balance, create_provider, read_decimals, _optional_text_call, contract_call. solve_calls. Qed.
Lemma allowance_prepares chain token owner spender :
  calls (fun e => preparatory e = true) (get_erc20_allowance chain token owner spender).
Proof. unfold get_erc20_allowance, create_provider, read_decimals, _optional_text_call, contract_call. solve_calls. Qed.
Create HintDb prepares.
#[local] Hint Resolve metadata_prepares balance_prepares allowance_prepares : prepares.

(** Follow a program, stopping at the calls that have a lemma. *)
Ltac solve_prepares := follow_calls ltac:(auto with prepares nocore).

Lemma transfer_prepares chain wallet_id token recipient amount key small :
  calls (fun e => preparatory e = true) (prepare_erc20_transfer chain wallet_id token recipient amount key small).
Proof. unfold prepare_erc20_transfer, check_erc20_transfer_preconditions, get_wallet_address. solve_prepares. Qed.
Lemma approval_check_prepares chain token owner spender amount known unlimited small :
  calls (fun e => preparatory e = true)
    (check_erc20_approval_preconditions chain token owner spender amount known unlimited small).
Proof. unfold check_erc20_approval_preconditions. solve_prepares. Qed.
#[local] Hint Resolve approval_check_prepares : prepares.
Lemma approval_prepares chain wallet_id token spender amount key known unlimited small :
  calls (fun e => preparatory e = true)
    (prepare_erc20_approval chain wallet_id token spender amount key known unlimited small).
Proof. unfold prepare_erc20_approval, get_wallet_address. solve_prepares. Qed.
#[local] Hint Resolve transfer_prepares approval_prepares : prepares.

Lemma swap_prepares intent router policy :
  calls (fun e => preparatory e = true) (prepare_swap settings intent router policy).
Proof.
  unfold prepare_swap, swap_quote_request, get_wallet_address, resolve_sell_side, get_quote, provider_get_quote,
    prepare_quoted_swap, quote_decision, utc_now, check_swap_allowance, prepare_swap_execution,
    provider_build_execution, execution_decision.
  solve_prepares.
Qed.

(** * The preparation nodes *)

Lemma preparation_error_shape exc stage :
  exists e, state_for_preparation_error exc stage = with_error e empty_state /\ ei_message e <> "".
Proof.
  destruct exc as [cls text|title errors]; unfold state_for_preparation_error.
  - eexists. split; [reflexivity | apply normalize_exception_message].
  - eexists. split; [reflexivity|].
    pose proof (normalize_exception_message (ValidationError title errors) (Some stage) None) as H.
    unfold normalize_exception in H. exact H.
Qed.

Section node.
Context (intended : ExecutableTransaction -> Prop).
Abbreviation base := (base intended).
Abbreviation at_node := (at_node settings deps intended).
Abbreviation pstep := (pstep settings (policy_engine deps) intended).

(** Ready to prepare: a request, and nothing prepared or decided. *)
Record ready (s : MercuryState) : Prop := {
  ready_base : base s;
  ready_clean : clean s;
  ready_executable : executable_transaction s = None;
  ready_simulation : simulation_result s = None;
  ready_unprepared : prepared_transaction s = None /\ prepared_swap s = None
}.

(** A preparation error leads to the rejection. *)
Lemma error_rejected s e :
  ready s -> ei_message e <> "" ->
  at_node "reject_transaction" Idle (merge_state s (with_error e empty_state)).
Proof.
  intros [Hb Hc _ _ _] He. apply at_reject; [|apply (clean_result _ Hc) | by left].
  apply base_merge; [done|]. constructor; simpl; try done. by intros x [= <-].
Qed.

(** A prepared transaction leads to the pipeline, unless an earlier error is left in the state. *)
Lemma prepared_next s t p :
  ready s -> wf_PreparedTransaction t -> wf_address_opt (wallet_address p) ->
  prepared_transaction p = Some (AnyPrepared t) -> clean p -> raw_input p = None -> error p = None ->
  executable_transaction p = None -> simulation_result p = None ->
  (forall t', executes t t' -> intended t') ->
  at_node (if isSome (error (merge_state s p)) then "reject_transaction" else "resolve_nonce") Idle (merge_state s p).
Proof.
  intros [Hb Hc He Hs _] Hwf Hw Hp Hcp Hr Her Hep Hsp Hint.
  assert (base (merge_state s p)) as Hb'.
  { apply base_merge; [done|]. destruct Hwf as (? & ? & ? & _).
    constructor; [done | rewrite Hp; by intros q [= <-] | by rewrite Hr | by rewrite Hep | by rewrite Her | by rewrite Hep]. }
  assert (clean (merge_state s p)) as Hc' by by apply clean_merge.
  destruct (isSome (error (merge_state s p))).
  - apply at_reject; [done | by apply clean_result | by left].
  - apply at_resolve; [done | done | simpl; by rewrite Hep | simpl; by rewrite Hsp |].
    intros q t'. unfold _prepared_from_state. simpl. rewrite Hp. intros [= <-]. apply Hint.
Qed.

Lemma merged_wf t payload :
  wf_PreparedTransaction t -> wf_PreparedTransaction (merge_intent_metadata_into_prepared t payload).
Proof. unfold merge_intent_metadata_into_prepared. repeat case_match; done. Qed.

Lemma merged_from t payload : pt_from_address (merge_intent_metadata_into_prepared t payload) = pt_from_address t.
Proof. unfold merge_intent_metadata_into_prepared. by repeat case_match. Qed.

Lemma prepared_state_next s t payload :
  ready s -> wf_PreparedTransaction t -> (exists a, pt_from_address t = Some a) ->
  (forall t', executes (merge_intent_metadata_into_prepared t payload) t' -> intended t') ->
  at_node (route_after_prepare (merge_state s (prepared_state t payload))) Idle
    (merge_state s (prepared_state t payload)).
Proof.
  intros Hr Hwf [a Ha] Hint. unfold route_after_prepare, ROUTE_REJECT_TRANSACTION, ROUTE_RESOLVE_NONCE.
  eapply prepared_next; [done | by apply merged_wf | | done | done | done | done | done | done | done].
  intros x [= <-]. unfold from_or_empty. rewrite merged_from, Ha. simpl.
  destruct Hwf as (_ & _ & _ & Hf & _). by apply Hf.
Qed.

(** The trace of a preparation node whose body only prepares. *)
Lemma or_preparation_ok {A} (body : wallet (result exn A)) stage k s tr r :
  calls (fun e => preparatory e = true) body -> ready s ->
  (forall a, may body tr (Ok a) ->
     at_node (route_after_prepare (merge_state s (k a))) Idle (merge_state s (k a))) ->
  may (or_preparation_error body stage k) tr r ->
  exists p, r = Ok p /\ steps pstep Idle tr Idle /\
    at_node (route_after_prepare (merge_state s p)) Idle (merge_state s p).
Proof.
  intros Hc Hr Hk (tr1 & tr2 & x & -> & Hm & Hx)%may_bind.
  assert (tr2 = []) as -> by by destruct x, Hx as [-> _]. rewrite app_nil_r in *.
  assert (steps pstep Idle tr1 Idle) as Hst by by eapply prepares_steps.
  destruct x as [a|exc]; destruct Hx as [_ ->]; (eexists; split_and!; [done | done |]).
  - by apply Hk.
  - destruct (preparation_error_shape exc stage) as (e & -> & He).
    by apply error_rejected.
Qed.

(** What the nodes prepare is what the request asks for. *)
Context (T : list wevent).

Lemma erc20_prepared_ok payload tr p :
  may (erc20_prepared payload) tr (Ok p) -> tr ⊆ T ->
  prepared_for ERC20Graph T payload p /\ wf_PreparedTransaction p /\ exists a, pt_from_address p = Some a.
Proof.
  unfold erc20_prepared. intros H HT.
  destruct (String.eqb_spec (payload_kind payload) "erc20_transfer") as [Ek|_];
    [|destruct (String.eqb_spec (payload_kind payload) "erc20_approval") as [Ek|_]; [|by destruct H]];
    apply may_bind_ok in H as (tr1 & tr2 & i & -> & [-> Hi]%may_pure_ok & H).
  - apply prepare_transfer_ok in H as (r & raw & Hf & Hw & Hk & Hwf). cbn [app] in HT.
    destruct (tf_balance _ _ _ _ _ _ _ _ _ Hf) as (_ & o & _ & _ & Ho & _).
    split_and!; [|done | by exists o]. left. exists i, r, raw. split_and!; [done | done | | done | done].
    by eapply transfer_facts_mono.
  - apply prepare_approval_ok in H as (r & raw & Hf & Hw & Hk & Hwf). cbn [app] in HT.
    destruct (af_allowance _ _ _ _ _ _ _ _ _ _ Hf) as (_ & o & _ & _ & Ho & _).
    split_and!; [|done | by exists o]. right. exists i, r, raw. split_and!; [done | done | | done | done].
    by eapply approval_facts_mono.
Qed.

Lemma native_prepared_ok payload tr p :
  may (native_prepared settings payload) tr (Ok p) ->
  prepared_for NativeGraph T payload p /\ wf_PreparedTransaction p /\ exists a, pt_from_address p = Some a.
Proof.
  unfold native_prepared. intros H. apply may_bind_ok in H as (tr1 & tr2 & i & -> & [-> Hi]%may_pure_ok & H).
  apply prepare_native_ok in H as (Hf & Hw & Hk & Hwf).
  split_and!; [|done | apply (nf_from _ _ _ _ _ Hf)]. exists i. by split_and!.
Qed.

Lemma good_promise ev : good ev -> provider_promise ev.
Proof. destruct ev as [[] a]; done. Qed.

Lemma swap_quote_of_run d i tr ps :
  may (prepare_swap settings i (sd_router d) (sd_policy_config d)) tr (Ok ps) -> Forall good tr ->
  wf_SwapQuote (ps_quote ps).
Proof.
  intros H Hg. by apply prepare_swap_ok in H as (tr1 & tr2 & _ & _ & Hwf & _);
    [|eapply Forall_impl; [exact Hg | apply good_promise]].
Qed.

Lemma swap_prepared_ok d payload i tr ps p :
  SwapIntent_validate settings payload = Ok i ->
  may (prepare_swap settings i (sd_router d) (sd_policy_config d)) tr (Ok ps) -> Forall good tr -> tr ⊆ T ->
  next_transaction ps = Some p -> prepared_for (SwapGraph d) T payload p /\ wf_PreparedTransaction p.
Proof.
  intros Hi H Hg HT. apply prepare_swap_ok in H as (tr1 & tr2 & -> & Hreq & Hwf & Hp & _);
    [|eapply Forall_impl; [exact Hg | apply good_promise]].
  intros Hn.
  assert (tr2 ⊆ T) as HT2 by set_solver.
  destruct Hp as [_ _ Hn' _ _ | t spender r raw Hc Hnat Hap _ _ _ Hsp Hf Hw Hk Hwt | e Hc Hal Hex Heq Hwe Hap Hcase];
    unfold next_transaction in *.
  - congruence.
  - rewrite Hap in Hn. injection Hn as ->. split; [|done]. exists i, (ps_quote ps).
    split_and!; [done | done | by eapply allowed_at_clock_mono |]. left. exists spender, r, raw.
    split_and!; [done | by eapply approval_facts_mono | by rewrite Hk, (rf_key _ _ _ Hreq)].
  - rewrite Hap in Hn. simpl in Hn. rewrite Hn in Hcase. destruct Hcase as [Hf _].
    split; [|apply Hf]. exists i, (ps_quote ps).
    split_and!; [done | done | by eapply allowed_at_clock_mono |]. right. exists e.
    split_and!; [done | done |]. destruct Hal; [by left | right; by eapply allowance_covers_mono].
Qed.

(** Where a run stands: at a preparation node, at an answer, or in the pipeline. *)
Definition prepare_node (kind : graph_kind) : string :=
  match kind with
  | TransactionGraph => "resolve_nonce"
  | ERC20Graph => "prepare_erc20_transaction"
  | NativeGraph => "prepare_native_transaction"
  | SwapGraph _ => "prepare_swap_transaction"
  end.

(** The payload's transactions are intended. *)
Definition intends (kind : graph_kind) (s : MercuryState) : Prop :=
  forall msg payload p t, payload_from_state msg s = Ok payload -> prepared_for kind T payload p ->
    executes (merge_intent_metadata_into_prepared p payload) t -> intended t.

Lemma prepare_erc20_ok s tr r :
  ready s -> intends ERC20Graph s -> may (prepare_erc20_transaction s) tr r -> tr ⊆ T ->
  exists p, r = Ok p /\ steps pstep Idle tr Idle /\
    at_node (route_after_prepare (merge_state s p)) Idle (merge_state s p).
Proof.
  intros Hr Hint Hm HT. eapply or_preparation_ok; [|done| |exact Hm].
  { unfold erc20_prepared. solve_prepares. }
  intros [t payload] H.
  apply may_bind_ok in H as (tr1 & tr2 & pl & -> & [-> Hpl]%may_pure_ok & H).
  apply may_bind_ok in H as (tr3 & tr4 & t' & -> & Ht & [-> [= -> ->]]).
  apply erc20_prepared_ok in Ht as (Hp & Hwf & Hfrom); [|set_solver].
  apply prepared_state_next; [done | done | done |]. intros t'' Hex. by eapply Hint.
Qed.

Lemma prepare_native_node_ok s tr r :
  ready s -> intends NativeGraph s -> may (prepare_native_transaction settings s) tr r -> tr ⊆ T ->
  exists p, r = Ok p /\ steps pstep Idle tr Idle /\
    at_node (route_after_prepare (merge_state s p)) Idle (merge_state s p).
Proof.
  intros Hr Hint Hm HT. eapply or_preparation_ok; [|done| |exact Hm].
  { unfold native_prepared, prepare_native_transfer, get_wallet_address. solve_prepares. }
  intros [t payload] H.
  apply may_bind_ok in H as (tr1 & tr2 & pl & -> & [-> Hpl]%may_pure_ok & H).
  apply may_bind_ok in H as (tr3 & tr4 & t' & -> & Ht & [-> [= -> ->]]).
  apply native_prepared_ok in Ht as (Hp & Hwf & Hfrom).
  apply prepared_state_next; [done | done | done |]. intros t'' Hex. by eapply Hint.
Qed.

(** A run that ends without an execution result: it made no call that changes anything. *)
Definition answered (φ : phase) (s : MercuryState) : Prop :=
  φ = Idle /\ execution_result s = None /\
  (response_text s <> None \/
   exists p d, prepared_swap s = Some p /\ typed_order_ready p = Some d /\ policy_decision s = Some d).

(** Where the swap node hands over. *)
Inductive after_swap : string -> MercuryState -> Prop :=
| after_swap_pipeline name s : at_node name Idle s -> name <> END -> after_swap name s
| after_swap_typed s p d :
    execution_result s = None -> prepared_swap s = Some p -> typed_order_ready p = Some d -> policy_decision s = Some d ->
    after_swap ROUTE_SWAP_TYPED_ORDER_READY s.

Lemma swap_state_next d s ps payload p :
  ready s -> intends (SwapGraph d) s -> (exists msg, payload_from_state msg s = Ok payload) ->
  wf_SwapQuote (ps_quote ps) ->
  (forall t, next_transaction ps = Some t -> prepared_for (SwapGraph d) T payload t /\ wf_PreparedTransaction t) ->
  swap_state ps payload = Ok p ->
  after_swap (route_after_swap_prepare (merge_state s p)) (merge_state s p).
Proof.
  intros Hr Hint [msg Hpl] Hq Ht Hp. unfold swap_state in Hp.
  pose proof Hr as [Hb Hc He Hs [Hun Hus]].
  assert (wf_address_opt (Some (sq_wallet_address (qu_request (ps_quote ps))))) as Hwa.
  { intros x [= <-]. by destruct Hq as ((_ & ? & _) & _). }
  destruct (next_transaction ps) as [t|].
  - injection Hp as <-. destruct (Ht t eq_refl) as [Hpf Hwf].
    match goal with |- after_swap _ (merge_state s ?q) =>
      change (after_swap (if isSome (error (merge_state s q)) then "reject_transaction" else "resolve_nonce")
                (merge_state s q)) end.
    apply after_swap_pipeline; [|by case_match].
    eapply (prepared_next s); [done | by apply merged_wf | done | done | done | done | done | done | done |].
    intros t' Hex. by eapply Hint.
  - assert (forall dec, base (merge_state s (with_policy_decision dec (with_prepared_swap ps
      (with_chain_name (sq_chain (qu_request (ps_quote ps)))
        (with_wallet_address (sq_wallet_address (qu_request (ps_quote ps))) empty_state)))))) as Hb'.
    { intros dec. apply base_merge; [done|]. by constructor. }
    unfold route_after_swap_prepare. destruct (typed_order_ready ps) as [d'|] eqn:Hty.
    + injection Hp as <-. simpl. rewrite Hun, Hty. simpl.
      destruct (isSome (error s)).
      * apply after_swap_pipeline; [|done]. apply at_reject; [apply Hb' | apply (clean_result _ Hc) | by left].
      * eapply after_swap_typed; simpl; [apply (clean_result _ Hc) | done | done | done].
    + apply result_bind_ok in Hp as (d' & _ & [= <-]). simpl. rewrite Hun, Hty. simpl.
      apply after_swap_pipeline; [|by case_match].
      assert (at_node "reject_transaction" Idle (merge_state s (with_policy_decision d' (with_prepared_swap ps
        (with_chain_name (sq_chain (qu_request (ps_quote ps)))
          (with_wallet_address (sq_wallet_address (qu_request (ps_quote ps))) empty_state)))))) as Hrej.
      { apply at_reject; [apply Hb' | apply (clean_result _ Hc) | by left]. }
      by case_match.
Qed.

(** Building the decision of a swap without a transaction never raises. *)
Lemma swap_state_total ps payload : exists p, swap_state ps payload = Ok p.
Proof.
  unfold swap_state, final_swap_decision. repeat case_match; by eexists.
Qed.

Lemma prepare_swap_ok_node d s tr r :
  ready s -> intends (SwapGraph d) s -> may (prepare_swap_transaction settings d s) tr r -> Forall good tr -> tr ⊆ T ->
  exists p, r = Ok p /\ steps pstep Idle tr Idle /\
    after_swap (route_after_swap_prepare (merge_state s p)) (merge_state s p).
Proof.
  intros Hr Hint Hm Hg HT. unfold prepare_swap_transaction in Hm.
  apply may_bind in Hm as (tr1 & tr2 & x & -> & Hm & Hx).
  assert (tr2 = []) as -> by by destruct x as [[]|], Hx as [-> _]. rewrite app_nil_r in *.
  assert (steps pstep Idle tr1 Idle) as Hst.
  { eapply prepares_steps; [|exact Hm]. pose proof swap_prepares. solve_prepares; auto. }
  destruct x as [[ps payload]|exc]; destruct Hx as [_ ->].
  - destruct (swap_state_total ps payload) as [p Hp]. exists p. rewrite Hp. split_and!; [done | done |].
    apply may_bind_ok in Hm as (tr3 & tr4 & pl & -> & [-> Hpl]%may_pure_ok & Hm).
    apply may_bind_ok in Hm as (tr5 & tr6 & i & -> & [-> Hi]%may_pure_ok & Hm).
    apply may_bind_ok in Hm as (tr7 & tr8 & ps' & -> & Hm & [-> [= -> ->]]).
    rewrite app_nil_r in *. cbn [app] in *.
    eapply (swap_state_next d); [done | done | by eexists | | | done].
    + by eapply swap_quote_of_run.
    + intros t. by eapply swap_prepared_ok.
  - destruct (preparation_error_shape exc "prepare_swap_transaction") as (e & -> & He).
    eexists. split_and!; [done | done |]. apply after_swap_pipeline; [|by repeat case_match].
    by apply error_rejected.
Qed.
End node.

(** * The graphs contain the pipeline *)

(** A node or an edge of the pipeline is found behind the nodes added before it. *)
Ltac find_in_graph :=
  let H := fresh in intros H; simpl in H |- *;
  repeat match type of H with
  | (if String.eqb ?a ?b then _ else _) = _ => destruct (String.eqb_spec a b) as [->|?]; [exact H|]
  end; discriminate H.

Lemma wallet_graph_pipeline kind : has_pipeline settings deps (wallet_graph kind).
Proof. destruct kind; split; intros name x; find_in_graph. Qed.

Lemma wallet_graph_sequential kind : sequential (wallet_graph kind).
Proof. destruct kind; unfold sequential; apply (bool_decide_unpack _); reflexivity. Qed.

(** * Runs *)

Section run.
Context (kind : graph_kind) (s0 : MercuryState) (T : list wevent) (Hs0 : initial kind s0).

Abbreviation intended := (requests kind s0 T).
Abbreviation at_node := (at_node settings deps intended).
Abbreviation pstep := (pstep settings (policy_engine deps) intended).

Inductive at_wallet : string -> phase -> MercuryState -> Prop :=
| w_pipeline name φ s : at_node name φ s -> at_wallet name φ s
| w_prepare : kind <> TransactionGraph -> at_wallet (prepare_node kind) Idle s0
| w_unsupported : kind <> TransactionGraph -> at_wallet "unsupported_response" Idle s0
| w_typed d s p dec :
    kind = SwapGraph d -> execution_result s = None -> prepared_swap s = Some p -> typed_order_ready p = Some dec ->
    policy_decision s = Some dec -> at_wallet "end_swap_typed_order" Idle s.

Definition ended (φ : phase) (s : MercuryState) : Prop := finished φ s \/ answered φ s.

Definition wallet_rank (name : string) : nat := if String.eqb name "end_swap_typed_order" then 0 else rank name.

Definition good_in (ev : wevent) : Prop := good ev /\ ev ∈ T.

Abbreviation wallet_ok := (node_ok merge_state pstep good_in (wallet_graph kind) at_wallet ended wallet_rank).

Lemma good_in_split tr : Forall good_in tr -> Forall good tr /\ tr ⊆ T.
Proof.
  intros H. split; [by eapply Forall_impl; [exact H | by intros ? []]|].
  intros ev Hev. rewrite Forall_forall in H. by apply H.
Qed.

Lemma pipeline_rank name φ s : at_node name φ s -> (rank name <= 9)%nat /\ wallet_rank name = rank name.
Proof. intros H. inversion H; subst; split; vm_compute; try reflexivity; lia. Qed.

Lemma ready_initial : kind <> TransactionGraph -> ready intended s0.
Proof using Hs0.
  intros Hk. pose proof Hs0 as []. constructor; auto. by eapply initial_base.
Qed.

Lemma intends_initial : kind <> TransactionGraph -> intends intended T kind s0.
Proof.
  intros Hk msg payload p t Hp Hf Hex. unfold requests. destruct kind; [done|..]; by exists msg, payload, p.
Qed.

Lemma pipeline_wallet_ok name φ s : at_node name φ s -> wallet_ok name.
Proof using Hs0 L.
  intros Hat. destruct (pipeline_nodes settings deps intended (wallet_graph kind) (wallet_graph_pipeline kind) name φ s Hat)
    as (f & Hf & Hok).
  exists f. split; [exact Hf|]. intros φ1 s1 tr r Hw Hm [Hg _]%good_in_split.
  destruct (pipeline_rank _ _ _ Hat) as [Hr1 Hr2].
  assert (at_node name φ1 s1) as Hat1.
  { inversion Hw as [? ? ? Hp | Hk | Hk | ? ? ? ? Hk]; subst; [done | exfalso..]; vm_compute in Hr1; [|lia..].
    clear -Hr1 Hk. destruct kind; [done | lia..]. }
  destruct (Hok φ1 s1 tr r Hat1 Hm Hg) as (p & φ' & next & -> & Hs & Hn & Hp).
  exists p, φ', next. split_and!; [done | done | done |].
  destruct (String.eqb next END); [by left|]. destruct Hp as [Hp Hlt].
  split; [by apply w_pipeline|]. destruct (pipeline_rank _ _ _ Hp) as [_ ->]. by rewrite Hr2.
Qed.

Lemma prepare_inv φ s : kind <> TransactionGraph -> at_wallet (prepare_node kind) φ s -> φ = Idle /\ s = s0.
Proof.
  intros Hk Hw. inversion Hw as [name ? ? Hp E | | ? E | ? ? ? ? ? ? ? ? ? E]; subst; [|done|..].
  - apply pipeline_rank in Hp as [Hr _]. exfalso. clear -Hk Hr. destruct kind; [done|..]; vm_compute in Hr; lia.
  - by destruct kind.
  - by destruct kind.
Qed.

Lemma routed φ next p :
  at_node next φ (merge_state s0 p) -> (wallet_rank next < 10)%nat /\ String.eqb next END = false /\ at_wallet next φ (merge_state s0 p).
Proof.
  intros H. destruct (pipeline_rank _ _ _ H) as [Hr ->]. split_and!; [lia | | by apply w_pipeline].
  inversion H; done.
Qed.

Lemma route_after_prepare_cases s : route_after_prepare s = "reject_transaction" \/ route_after_prepare s = "resolve_nonce".
Proof. unfold route_after_prepare. case_match; auto. Qed.

(** A node of the ERC-20 or native graph. *)
Lemma prepare_step_ok f :
  (forall φ s, at_wallet (prepare_node kind) φ s -> φ = Idle /\ s = s0) ->
  dict_get (sg_nodes (wallet_graph kind)) (prepare_node kind) = Some f ->
  dict_get (sg_edges (wallet_graph kind)) (prepare_node kind) = Some (Conditional route_after_prepare
    [(ROUTE_REJECT_TRANSACTION, "reject_transaction"); (ROUTE_RESOLVE_NONCE, "resolve_nonce")]) ->
  wallet_rank (prepare_node kind) = 10%nat ->
  (forall tr r, may (f s0) tr r -> tr ⊆ T ->
     exists p, r = Ok p /\ steps pstep Idle tr Idle /\
       at_node (route_after_prepare (merge_state s0 p)) Idle (merge_state s0 p)) ->
  wallet_ok (prepare_node kind).
Proof.
  intros Hinv Hf He Hrk Hok. exists f. split; [done|]. intros φ s tr r Hw Hm [Hg HT]%good_in_split.
  apply Hinv in Hw as [-> ->]. destruct (Hok tr r Hm HT) as (p & -> & Hst & Hat).
  exists p, Idle, (route_after_prepare (merge_state s0 p)). split_and!; [done | done | |].
  - unfold successor. rewrite He. by destruct (route_after_prepare_cases (merge_state s0 p)) as [-> | ->].
  - destruct (routed _ _ _ Hat) as (H1 & -> & H2). by rewrite Hrk.
Qed.

Lemma prepare_wallet_ok : kind <> TransactionGraph -> wallet_ok (prepare_node kind).
Proof using Hs0 L.
  intros Hk. pose proof (ready_initial Hk) as Hr. pose proof (intends_initial Hk) as Hint.
  assert (forall φ s, at_wallet (prepare_node kind) φ s -> φ = Idle /\ s = s0) as Hinv by (intros; by apply prepare_inv).
  pose proof prepare_step_ok as Hstep. pose proof routed as Hrt. pose proof w_typed as Htyped.
  destruct kind as [| | |d] eqn:Ek; [done|..].
  - apply (Hstep prepare_erc20_transaction); [done..|]. intros. by eapply prepare_erc20_ok.
  - apply (Hstep (prepare_native_transaction settings)); [done..|]. intros. by eapply prepare_native_node_ok.
  - exists (prepare_swap_transaction settings d). split; [reflexivity|].
    intros φ s tr r Hw Hm [Hg HT]%good_in_split. apply Hinv in Hw as [-> ->].
    destruct (prepare_swap_ok_node _ T d s0 tr r Hr Hint Hm Hg HT) as (p & -> & Hst & Hsw).
    inversion Hsw as [name s Hat Hne Hname Hs | s ps dec He Hp Ht Hd Hname Hs].
    + exists p, Idle, (route_after_swap_prepare (merge_state s0 p)). split_and!; [done | done | |].
      * unfold successor. simpl. clear -Hat. unfold route_after_swap_prepare in *.
        repeat case_match; try done. exfalso. by inversion Hat.
      * destruct (Hrt _ _ _ Hat) as (H1 & -> & H2). done.
    + exists p, Idle, "end_swap_typed_order". split_and!; [done | done | |].
      * unfold successor. simpl. simpl in Hname. by rewrite <- Hname.
      * simpl. split; [by eapply (Htyped d) | vm_compute; lia].
Qed.

Lemma unsupported_wallet_ok : kind <> TransactionGraph -> wallet_ok "unsupported_response".
Proof using Hs0.
  intros Hk. exists unsupported_response. split; [by destruct kind|].
  intros φ s tr r Hw [-> ->] Hg.
  assert (φ = Idle /\ s = s0) as [-> ->].
  { inversion Hw as [name ? ? Hp E | ? E | | ? ? ? ? ? ? ? ? ? E]; subst; [exfalso| |done].
    - apply pipeline_rank in Hp as [Hr _]. vm_compute in Hr. lia.
    - by destruct kind. }
  eexists _, Idle, END. split_and!; [done | constructor | by destruct kind |].
  simpl. right. split_and!; [done | | by left]. apply (clean_result _ (initial_clean _ _ Hs0)).
Qed.

Lemma typed_wallet_ok d : kind = SwapGraph d -> wallet_ok "end_swap_typed_order".
Proof.
  intros Hk. exists end_swap_typed_order_pipeline. split; [by rewrite Hk|].
  intros φ s tr r Hw [-> ->] Hg. exists empty_state, φ, END. rewrite merge_empty.
  split_and!; [done | apply steps_nil | by rewrite Hk |]. simpl. right.
  inversion Hw as [name ? ? Hp E | ? E | E | ? ? p dec ? Hr Hps Hty Hd E]; subst.
  - exfalso. apply pipeline_rank in Hp as [Hr _]. vm_compute in Hr. lia.
  - by destruct kind.
  - split_and!; [done | done |]. right. by exists p, dec.
Qed.

Lemma wallet_nodes name φ s : at_wallet name φ s -> wallet_ok name.
Proof using Hs0 L.
  intros Hw. inversion Hw; subst; [by eapply pipeline_wallet_ok | by apply prepare_wallet_ok
    | by apply unsupported_wallet_ok | by eapply typed_wallet_ok].
Qed.

(** Where a run starts. *)
Lemma wallet_start :
  exists first, successor (wallet_graph kind) START s0 = Some first /\ at_wallet first Idle s0.
Proof using Hs0.
  pose proof w_pipeline as Hp. pose proof w_prepare as Hpr. pose proof w_unsupported as Hu.
  pose proof (initial_base kind s0 intended Hs0) as Hb. pose proof Hs0 as [].
  destruct kind as [| | |d] eqn:Ek; unfold successor; simpl.
  - eexists. split; [reflexivity|]. apply Hp. apply at_resolve; try done. intros p t Hf Hex. by exists p.
  - unfold route_erc20_intent. destruct (_erc20_payload_from_state s0) as [pl|]; [destruct (String.eqb _ "erc20_transfer" || String.eqb _ "erc20_approval")|];
      (eexists; split; [reflexivity|]); first [by apply Hpr | by apply Hu].
  - unfold route_native_intent. destruct (_native_payload_from_state s0) as [pl|]; [destruct (String.eqb _ "native_transfer")|];
      (eexists; split; [reflexivity|]); first [by apply Hpr | by apply Hu].
  - unfold route_swap_intent. destruct (_swap_payload_from_state s0) as [pl|]; [destruct (String.eqb _ "swap")|];
      (eexists; split; [reflexivity|]); first [by apply Hpr | by apply Hu].
Qed.

Lemma wallet_run_in limit r :
  (25 <= limit)%nat -> may (run_graph merge_state limit (wallet_graph kind) s0) T r -> Forall good T ->
  exists φ s', r = Ok s' /\ steps pstep Idle T φ /\ ended φ s'.
Proof using Hs0 L.
  intros Hl Hm Hg. destruct wallet_start as (first & Hf & Hat).
  eapply (run_graph_inv merge_state pstep good_in (wallet_graph kind) at_wallet ended wallet_rank);
    [exact wallet_nodes | exact Hf | exact Hat | | exact Hm |].
  - enough (wallet_rank first <= 10)%nat by lia. unfold wallet_rank, rank. repeat case_match; lia.
  - rewrite Forall_forall in Hg |- *. intros ev Hev. split; [by apply Hg | done].
Qed.
End run.

(** Every run of a wallet graph follows the contract for what its request asks for, and ends with an
    execution result or with an answer. *)
Lemma wallet_run {G : LangGraph effect MercuryState} {GL : LangGraphLaws merge_state G} kind s T r :
  initial kind s -> may (invoke (wallet_graph kind) s) T r -> Forall good T ->
  exists φ s', r = Ok s' /\ steps (pstep settings (policy_engine deps) (requests kind s T)) Idle T φ /\ ended φ s'.
Proof.
  intros Hi Hm Hg. apply (invoke_runs merge_state _ _ (wallet_graph_sequential kind)) in Hm.
  eapply wallet_run_in; [done | apply (recursion_limit_default merge_state) | done | done].
Qed.
End graphs.
