(* ===== verification/Execution.v ===== *)
(** Runs of the transaction graph: authorization, termination, results, and what they do to the
    idempotency store. *)
From stdpp Require Import base tactics option list sets strings gmap.
From Stdlib Require Import ZArith Lia Ascii String.
From S2P Require Import Prelude Python Values Exceptions Redaction Errors Addresses Chains Models SwapModels Policy.
From S2P Require Import Idempotency Prog Effects Swaps Graph State Intents Transactions Pipeline Preparation Protocol.
From S2P Require Import PipelineSpec PreparationSpec.

Local Open Scope string_scope.
Local Open Scope Z_scope.

(** * The store along a trace *)

Section store.
Context {St : Type} `{IdempotencyStore St}.

(** The store answers its own calls, every other call leaves it alone. *)
Definition store_answers (σ σ' : St) (e : effect) : ans e -> Prop :=
  match e return ans e -> Prop with
  | Reserve key => fun a => store_reserve key σ = (σ', a)
  | Release key => fun _ => σ' = store_release key σ
  | Complete key res => fun a => store_complete key res σ = (σ', a)
  | _ => fun _ => σ' = σ
  end.

Definition store_step (σ : St) (ev : wevent) (σ' : St) : Prop := store_answers σ σ' (ev_call ev) (ev_answer ev).

(** The keys a phase is responsible for. *)
Definition held_key (φ : phase) : option string :=
  match φ with
  | Held _ key | HeldSigned _ key _ | MustRelease key | Submitted _ key _ | Waited _ key _ => Some key
  | _ => None
  end.

(** What a run from a store has done to it by the time it reaches a phase. *)
Definition store_history (σ0 σ : St) (φ : phase) : Prop :=
  store_ok σ /\
  match φ with
  | Held _ key | HeldSigned _ key _ | MustRelease key | Submitted _ key _ | Waited _ key _ =>
      key <> "" /\ key_state_of σ0 key = Free /\ key_state_of σ key = InFlight /\ only_key key σ0 σ
  | Released key => key_state_of σ0 key = Free /\ key_state_of σ key = Free /\ only_key key σ0 σ
  | Finished key res =>
      key_state_of σ0 key = Free /\ key_state_of σ key = Completed res /\ only_key key σ0 σ
  | Replayed res => σ = σ0 /\ exists key, key_state_of σ0 key = Completed res
  | _ => σ = σ0
  end.
End store.

Section history.
Context {St : Type} `{IS : IdempotencyStore St} {LS : IdempotencyStoreLaws St}.
Context `{W : Web3} (settings : MercurySettings) (eng : TransactionPolicyEngine).
Context (intended : ExecutableTransaction -> Prop).

Lemma only_key_trans key (s1 s2 s3 : St) : only_key key s1 s2 -> only_key key s2 s3 -> only_key key s1 s3.
Proof. intros H1 H2 k Hk. rewrite H2 by done. by apply H1. Qed.

Lemma reserve_ok_free key (σ σ' : St) rec :
  store_ok σ -> key <> "" -> store_reserve key σ = (σ', Ok rec) ->
  key_state_of σ key = Free /\ store_ok σ' /\ key_state_of σ' key = InFlight /\ only_key key σ σ'.
Proof.
  intros Hok Hne Hr. destruct (key_state_of σ key) as [| |res] eqn:Hk.
  - destruct (reserve_free key σ Hok Hne Hk) as (? & ? & Hr' & ? & ? & ?). rewrite Hr' in Hr. by simplify_eq.
  - destruct (reserve_in_flight key σ Hok Hk) as (? & Hr' & _). rewrite Hr' in Hr. by simplify_eq.
  - destruct (reserve_completed key σ res Hok Hk) as (? & Hr' & _). rewrite Hr' in Hr. by simplify_eq.
Qed.

Lemma reserve_err_same key (σ σ' : St) e :
  store_ok σ -> key <> "" -> store_reserve key σ = (σ', Err e) ->
  σ' = σ /\ exists rec, e = DuplicateTransactionError rec /\
    match ir_result rec with
    | Some res => key_state_of σ key = Completed res
    | None => key_state_of σ key = InFlight
    end.
Proof.
  intros Hok Hne Hr. destruct (key_state_of σ key) as [| |res] eqn:Hk.
  - destruct (reserve_free key σ Hok Hne Hk) as (? & ? & Hr' & _). rewrite Hr' in Hr. by simplify_eq.
  - destruct (reserve_in_flight key σ Hok Hk) as (rec & Hr' & Hn). rewrite Hr' in Hr. simplify_eq.
    split; [done|]. exists rec. by rewrite Hn.
  - destruct (reserve_completed key σ res Hok Hk) as (rec & Hr' & Hn). rewrite Hr' in Hr. simplify_eq.
    split; [done|]. exists rec. by rewrite Hn.
Qed.
(** One call of a run, and what the store has become. *)
Lemma store_history_step (σ0 σ σ' : St) φ ev φ' :
  store_history σ0 σ φ -> pstep settings eng intended φ ev φ' -> store_step σ ev σ' -> store_history σ0 σ' φ'.
Proof.
  intros [Hok Hh] Hp Hs. unfold store_step in Hs. destruct Hp; simpl in *; subst; try done.
  - by destruct e; simpl in *; subst.
  - eapply reserve_ok_free in Hs as (? & ? & ? & ?); [|done..]. by split.
  - eapply reserve_ok_free in Hs as (? & ? & ? & ?); [|done..]. by split.
  - assert (σ = σ0) as -> by (match goal with Hφ : _ \/ _ |- _ => by destruct Hφ as [->|[-> _]] end).
    eapply reserve_err_same in Hs as (-> & rec & -> & Hrec); [|done..]. split; [done|].
    destruct (ir_result rec); eauto.
  - destruct Hh as (Hne & Hf & Hi & Ho).
    destruct (release_spec key σ Hok) as (Hok' & Ho' & Hk). rewrite Hi in Hk.
    split_and!; [done | done | done | by eapply only_key_trans].
  - destruct Hh as (Hne & Hf & Hi & Ho).
    destruct (complete_spec key res σ Hok Hne) as (σ1 & r1 & Hr & Hok' & Hk & Ho').
    assert (σ1 = σ') as -> by congruence. split_and!; [done | done | done | by eapply only_key_trans].
Qed.

Lemma store_history_steps (σ0 σ : St) φ tr :
  store_ok σ0 -> steps (pstep settings eng intended) Idle tr φ -> steps store_step σ0 tr σ -> store_history σ0 σ φ.
Proof.
  intros Hok0.
  assert (forall φ0 σ1, store_history σ0 σ1 φ0 -> steps (pstep settings eng intended) φ0 tr φ ->
                        steps store_step σ1 tr σ -> store_history σ0 σ φ) as H; [|by apply H].
  intros φ0 σ1 Hh Hp. revert σ1 Hh. induction Hp as [φ0|φ0 ev φ1 tr φ Hp _ IH]; intros σ1 Hh Hs.
  - by inversion Hs; subst.
  - inversion Hs; subst. eapply IH; [|done]. by eapply store_history_step.
Qed.
End history.

(** * A concrete outside

    It resolves nonces, passes simulations, approves through the request metadata, signs and
    broadcasts, and keeps the in-memory store: the runs of the witnesses. *)
Definition sample_hash : string := "0xabcd".

Definition sample_handler (e : effect) (σ : InMemoryIdempotencyStore) : InMemoryIdempotencyStore * ans e :=
  match e return InMemoryIdempotencyStore * ans e with
  | ResolveChainId _ => (σ, Ok 8453)
  | LookupNonce _ _ => (σ, Ok 0)
  | PopulateGas _ => (σ, Ok sample_gas)
  | Simulate _ => (σ, Ok sample_simulation)
  | Broadcast _ => (σ, Ok sample_hash)
  | WaitForReceipt _ h _ _ =>
      (σ, Ok {| rc_tx_hash := h; rc_status := CONFIRMED; rc_block_number := Some 5; rc_gas_used := Some 21000 |})
  | GetWalletAddress w => (σ, Ok {| wa_wallet_id := w; wa_address := sample_wallet |})
  | SignTransaction r =>
      (σ, Ok {| sg_wallet_id := wr_wallet_id (st_wallet r); sg_chain_id := st_chain_id r;
                sg_signer_address := sample_wallet; sg_raw_transaction_hex := "0x02"; sg_tx_hash := sample_hash |})
  | RequestApproval q => (σ, RequestMetadataTransactionApprover.request_approval q)
  | Reserve key => InMemory.reserve key σ
  | Release key => (InMemory.release key σ, tt)
  | Complete key res => InMemory.complete key res σ
  | CreateProvider name => (σ, get_chain_by_name default_settings name)
  | ContractCall _ _ _ _ => (σ, Ok (AInt 0))
  | GetQuote _ _ => (σ, Ok sample_quote)
  | BuildExecution _ _ => (σ, Err (Exn SwapProviderErrorC "no execution"))
  | Now => (σ, 0)
  end.

Definition sample_prepared : PreparedTransaction :=
  {| pt_wallet_id := "w1"; pt_chain := "base"; pt_chain_id := Some 8453; pt_from_address := None;
     pt_to := sample_peer; pt_value_wei := 7; pt_data := "0x"; pt_nonce := None; pt_gas := None;
     pt_idempotency_key := Some "k1";
     pt_metadata := [("action", VStr "native_transfer"); ("recipient_address", VStr sample_peer);
                     ("approval_response", VDict [("status", VStr "Approved"); ("approved_by", VStr "alice")])] |}.

Definition sample_state : MercuryState := with_raw_input (AnyPrepared sample_prepared) empty_state.

#[export] Instance sample_langgraph : LangGraph effect MercuryState := reference_langgraph merge_state.
#[export] Instance sample_langgraph_laws : LangGraphLaws merge_state sample_langgraph :=
  reference_langgraph_laws merge_state.
#[export] Instance sample_pydantic_text : PydanticText := fun title _ => "1 validation error for " ++ title.

(** A run from a state and a store: its calls, its result, and the store it leaves. *)
Definition run_of (s : MercuryState) : wallet (result exn MercuryState) :=
  invoke (build_transaction_graph default_settings default_dependencies) s.
Definition trace_of (s : MercuryState) (σ : InMemoryIdempotencyStore) : list wevent :=
  run_trace sample_handler (run_of s) σ.
Definition result_of (s : MercuryState) (σ : InMemoryIdempotencyStore) : result exn MercuryState :=
  (run_prog sample_handler (run_of s) σ).2.
Definition store_of (s : MercuryState) (σ : InMemoryIdempotencyStore) : InMemoryIdempotencyStore :=
  (run_prog sample_handler (run_of s) σ).1.

Lemma run_of_may s σ : may (run_of s) (trace_of s σ) (result_of s σ).
Proof. exact (run_may sample_handler (run_of s) σ). Qed.

(** A first run, the same request again, and a run that needs no human. *)
Definition sample_trace : list wevent := trace_of sample_state ∅.
Definition sample_store : InMemoryIdempotencyStore := store_of sample_state ∅.
Definition replay_trace : list wevent := trace_of sample_state sample_store.
Definition quiet_prepared : PreparedTransaction :=
  {| pt_wallet_id := "w1"; pt_chain := "base"; pt_chain_id := Some 8453; pt_from_address := None;
     pt_to := sample_peer; pt_value_wei := 0; pt_data := "0x"; pt_nonce := None; pt_gas := None;
     pt_idempotency_key := Some "k2"; pt_metadata := [] |}.
Definition quiet_state : MercuryState := with_raw_input (AnyPrepared quiet_prepared) empty_state.
Definition quiet_trace : list wevent := trace_of quiet_state ∅.

Lemma sample_initial : initial TransactionGraph sample_state.
Proof.
  constructor; simpl; try done.
  intros p [= <-]. split_and!; simpl; [done | done | by intros c [= <-]].
Qed.

Lemma quiet_initial : initial TransactionGraph quiet_state.
Proof.
  constructor; simpl; try done.
  intros p [= <-]. split_and!; simpl; [done | done | by intros c [= <-]].
Qed.

(** What a call is for, to read traces. *)
Definition call_name (ev : wevent) : string :=
  match ev_call ev with
  | GetWalletAddress _ => "wallet" | LookupNonce _ _ => "nonce" | PopulateGas _ => "gas"
  | Simulate _ => "simulate" | RequestApproval _ => "approve" | Reserve _ => "reserve"
  | SignTransaction _ => "sign" | Broadcast _ => "broadcast" | WaitForReceipt _ _ _ _ => "wait"
  | Complete _ _ => "complete" | _ => "other"
  end.

Example sample_calls :
  map call_name sample_trace =
  ["wallet"; "nonce"; "gas"; "simulate"; "approve"; "reserve"; "sign"; "broadcast"; "wait"; "complete"].
Proof. vm_compute. reflexivity. Qed.

Example replay_calls :
  map call_name replay_trace = ["wallet"; "nonce"; "gas"; "simulate"; "approve"; "reserve"].
Proof. vm_compute. reflexivity. Qed.

Example quiet_calls :
  map call_name quiet_trace =
  ["wallet"; "nonce"; "gas"; "simulate"; "reserve"; "sign"; "broadcast"; "wait"; "complete"].
Proof. vm_compute. reflexivity. Qed.

Definition status_of (r : result exn MercuryState) : option (ExecutionStatus * option string) :=
  match r with Ok s => (fun e => (er_status e, er_tx_hash e)) <$> execution_result s | Err _ => None end.

Example sample_outcome : status_of (result_of sample_state ∅) = Some (CONFIRMED, Some sample_hash).
Proof. vm_compute. reflexivity. Qed.

Example replay_outcome : status_of (result_of sample_state sample_store) = Some (CONFIRMED, Some sample_hash).
Proof. vm_compute. reflexivity. Qed.

Lemma sample_wallet_normalized : normalized sample_wallet.
Proof. exists sample_wallet. vm_compute. reflexivity. Qed.

Ltac solve_good :=
  match goal with |- Forall good ?tr => eassert (tr = _) as -> by (vm_compute; reflexivity) end;
  repeat first [apply Forall_nil_2 | apply Forall_cons_2];
  unfold good; cbn [ev_call ev_answer good_answer]; try exact I;
  try (intros w [= <-]; exact sample_wallet_normalized);
  try (intros h [= <-]; reflexivity);
  try (intros rc [= <-]; unfold wf_TransactionReceipt; simpl;
       split_and!; [reflexivity | set_solver | by intros n [= <-] | by intros n [= <-]]);
  try reflexivity.

Lemma sample_good : Forall good sample_trace.
Proof. solve_good. Qed.

Lemma replay_good : Forall good replay_trace.
Proof. solve_good. Qed.

Lemma quiet_good : Forall good quiet_trace.
Proof. solve_good. Qed.

(** A handler that keeps the store leaves a trace the store accepts. *)
Lemma sample_handler_store e (σ σ' : InMemoryIdempotencyStore) b :
  sample_handler e σ = (σ', b) -> store_step σ (Ev e b) σ'.
Proof.
  intros E. destruct e; unfold store_step; cbn [ev_call ev_answer store_answers]; cbv [sample_handler] in E;
    first [exact E | exact (eq_sym (f_equal fst E))].
Qed.

Lemma run_store {A} (p : wallet A) (σ : InMemoryIdempotencyStore) :
  steps store_step σ (run_trace sample_handler p σ) (run_prog sample_handler p σ).1.
Proof.
  revert σ. induction p as [a|e k IH]; intros σ; simpl; [constructor|].
  destruct (sample_handler e σ) as [σ' b] eqn:E. eapply steps_cons; [by apply sample_handler_store | apply IH].
Qed.

Lemma trace_of_store s (σ : InMemoryIdempotencyStore) : steps store_step σ (trace_of s σ) (store_of s σ).
Proof. apply run_store. Qed.

(** The runs keep the store well-formed. *)
Lemma trace_of_store_ok s (σ : InMemoryIdempotencyStore) :
  initial TransactionGraph s -> Forall good (trace_of s σ) -> in_memory_ok σ -> in_memory_ok (store_of s σ).
Proof.
  intros Hi Hg Hok.
  destruct (wallet_run default_settings default_dependencies TransactionGraph s _ _ Hi (run_of_may s σ) Hg)
    as (φ & _ & _ & Hs & _).
  exact (proj1 (store_history_steps _ _ _ σ _ φ _ Hok Hs (trace_of_store s σ))).
Qed.

Lemma sample_store_ok : in_memory_ok sample_store.
Proof. exact (trace_of_store_ok sample_state ∅ sample_initial sample_good in_memory_ok_empty). Qed.
