(* ===== verification/Guarantees.v ===== *)
(** What a run of the transaction graph guarantees, whatever the outside answers. *)
From stdpp Require Import base tactics option list sets strings gmap.
From Stdlib Require Import ZArith Lia Ascii String.
From S2P Require Import Prelude Python Values Exceptions Redaction Errors Addresses Chains Models SwapModels Policy.
From S2P Require Import Idempotency Prog Effects Swaps Graph State Intents Transactions Pipeline Preparation Protocol.
From S2P Require Import PipelineSpec PreparationSpec Execution.

Local Open Scope string_scope.
Local Open Scope Z_scope.

(** Once a run is declined, replayed, released or finished it makes no more calls. *)
Lemma final_phase `{W : Web3} settings eng intended φ ev φ' :
  pstep settings eng intended φ ev φ' ->
  match φ with Declined | Replayed _ | Released _ | Finished _ _ => False | _ => True end.
Proof. destruct 1; try done. match goal with H : _ \/ _ |- _ => by destruct H as [->|[-> _]] end. Qed.

(** The reservation, or the approval, a call is. *)
Definition as_reserve (ev : wevent) : option (string * result reserve_error IdempotencyRecord) :=
  let '(Ev e a) := ev in
  match e return ans e -> option (string * result reserve_error IdempotencyRecord) with
  | Reserve key => fun a => Some (key, a)
  | _ => fun _ => None
  end a.

Definition as_approval (ev : wevent) : option (ApprovalRequest * result exn ApprovalResult) :=
  let '(Ev e a) := ev in
  match e return ans e -> option (ApprovalRequest * result exn ApprovalResult) with
  | RequestApproval q => fun a => Some (q, a)
  | _ => fun _ => None
  end a.

(** The approver answers the approval requests of a trace. *)
Definition approved_by (approve : ApprovalRequest -> result exn ApprovalResult) (tr : list wevent) : Prop :=
  Forall (fun ev => match as_approval ev with Some (q, ap) => ap = approve q | None => True end) tr.

Lemma approved_by_in approve tr q ap : approved_by approve tr -> Ev (RequestApproval q) ap ∈ tr -> ap = approve q.
Proof. unfold approved_by. rewrite Forall_forall. intros H Hin. exact (H _ Hin). Qed.

Section phases.
Context `{W : Web3} (settings : MercurySettings) (eng : TransactionPolicyEngine).
Context (intended : ExecutableTransaction -> Prop).
Abbreviation pstep := (pstep settings eng intended).
Abbreviation psteps := (steps pstep).

(** A reservation is attempted from the phases that hold nothing, and a refusal ends the run. *)
Lemma reserve_phase φ ev key a φ' :
  pstep φ ev φ' -> as_reserve ev = Some (key, a) ->
  ((exists t, φ = Approved t) \/ (exists t sim, φ = Simulated t sim)) /\ key <> "" /\
  match a with
  | Ok _ => True
  | Err (DuplicateTransactionError rec) =>
      φ' = match ir_result rec with Some res => Replayed res | None => Declined end
  | Err (OtherError _) => φ' = Declined
  end.
Proof.
  intros H E. destruct H; simpl in E; simplify_eq; try by destruct e.
  - split_and!; eauto.
  - split_and!; eauto.
  - split_and!; [|done|by destruct e].
    match goal with H : _ \/ _ |- _ => destruct H as [->|[-> _]] end; eauto.
Qed.

Lemma final_steps φ tr φ' :
  psteps φ tr φ' -> match φ with Declined | Replayed _ | Released _ | Finished _ _ => tr = [] /\ φ' = φ | _ => True end.
Proof.
  intros H. destruct H as [φ|φ ev φ1 tr φ2 Hs _]; [by destruct φ|].
  apply final_phase in Hs. by destruct φ.
Qed.

(** A refused reservation: nothing was signed before it, and nothing comes after it. *)
Lemma refused_run tr1 ev tr2 φ key e :
  psteps Idle (tr1 ++ ev :: tr2) φ -> as_reserve ev = Some (key, Err e) ->
  tr2 = [] /\ no_critical tr1 /\
  φ = match e with
      | DuplicateTransactionError rec => match ir_result rec with Some res => Replayed res | None => Declined end
      | OtherError _ => Declined
      end.
Proof.
  intros (φ1 & H1 & H2)%steps_app_inv He. inversion H2 as [|? ? φ2 ? ? Hs H3]; subst.
  destruct (reserve_phase _ _ _ _ _ Hs He) as (Hφ & _ & Hφ2).
  apply history_steps in H1. apply final_steps in H3.
  assert (no_critical tr1) by (destruct Hφ as [[t ->]|(t & sim & ->)]; apply H1).
  destruct e as [rec|]; subst φ2; [destruct (ir_result rec)|]; by destruct H3 as [-> ->].
Qed.

(** Signing after approval: the approval that precedes it. *)
Lemma approval_of_signed tr1 req a tr2 φ :
  psteps Idle (tr1 ++ Ev (SignTransaction req) a :: tr2) φ ->
  exists t key, signing_request t = Ok req /\ intended t /\ authorized_in settings eng tr1 t key /\
    (needs_human t = true ->
     exists q ap, build_approval_request t = Ok q /\ ar_status ap = APPROVED /\ Ev (RequestApproval q) (Ok ap) ∈ tr1).
Proof.
  intros H. destruct (sign_authorized _ _ _ _ _ _ _ _ H) as (t & key & Hr & Hi & Ha). exists t, key.
  split_and!; [done | done | done |]. intros Hn. destruct Ha as (_ & Hap & _). exact (Hap Hn).
Qed.
End phases.

(** * The store and a taken key *)

Section store_phases.
Context {St : Type} `{IS : IdempotencyStore St} {LS : IdempotencyStoreLaws St}.
Context `{W : Web3} (settings : MercurySettings) (eng : TransactionPolicyEngine).
Context (intended : ExecutableTransaction -> Prop).

(** Reserving a key that was taken before the run ends it, and leaves the store alone. *)
Lemma refused_key tr1 key (a : result reserve_error IdempotencyRecord) tr2 φ (σ0 σ : St) :
  store_ok σ0 -> steps (pstep settings eng intended) Idle (tr1 ++ Ev (Reserve key) a :: tr2) φ ->
  steps store_step σ0 (tr1 ++ Ev (Reserve key) a :: tr2) σ -> key_state_of σ0 key <> Free ->
  tr2 = [] /\ no_critical tr1 /\ σ = σ0 /\
  φ = match key_state_of σ0 key with Completed res => Replayed res | _ => Declined end.
Proof.
  intros Hok Hs Hst Ht.
  pose proof Hs as (φ1 & H1 & H2)%steps_app_inv. pose proof Hst as (σ1 & S1 & S2)%steps_app_inv.
  pose proof (store_history_steps settings eng intended σ0 σ1 φ1 tr1 Hok H1 S1) as [Hok1 Hh].
  inversion H2 as [|? ? φ2 ? ? Hp H3]; subst. inversion S2 as [|? ? σ2 ? ? Hr S3]; subst.
  destruct (reserve_phase settings eng intended _ _ key a _ Hp eq_refl) as (Hφ & Hne & _).
  assert (σ1 = σ0) as -> by (destruct Hφ as [[t ->]|(t & sim & ->)]; exact Hh).
  unfold store_step in Hr. cbn [ev_call ev_answer store_answers] in Hr.
  destruct a as [rec|e]; [by eapply reserve_ok_free in Hr as [? _]|].
  destruct (refused_run settings eng intended tr1 (Ev (Reserve key) (Err e)) tr2 φ key e Hs eq_refl) as (-> & Hnc & ->).
  apply reserve_err_same in Hr as (-> & rec & -> & Hrec); [|done..].
  inversion S3; subst. split_and!; [done..|]. destruct (ir_result rec) as [res|]; by rewrite Hrec.
Qed.
End store_phases.

(** * Every run *)

Section claims.
Context `{W : Web3} {L : Web3Laws W} {PT : PydanticText} {PL : PydanticLax}.
Context {G : LangGraph effect MercuryState} {GL : LangGraphLaws merge_state G}.
Context (settings : MercurySettings) (deps : TransactionGraphDependencies).

Lemma run_steps kind s tr r :
  initial kind s -> may (invoke (wallet_graph settings deps kind) s) tr r -> Forall good tr ->
  exists φ, steps (pstep settings (policy_engine deps) (requests settings kind s tr)) Idle tr φ.
Proof. intros Hi Hm Hg. destruct (wallet_run settings deps kind s tr r Hi Hm Hg) as (φ & ? & _ & ? & _). eauto. Qed.

Lemma phase_result_hash φ res : outcome φ res -> er_tx_hash res <> None ->
  Replayed res = φ \/ exists key, Finished key res = φ.
Proof. destruct φ; simpl; naive_solver. Qed.

(** The store after a finished run, key by key. *)
Lemma finished_store `{IS : IdempotencyStore St} {LS : IdempotencyStoreLaws St} (σ0 σ : St) φ res :
  store_history σ0 σ φ -> outcome φ res ->
  (forall key, key_state_of σ key = InFlight -> key_state_of σ0 key = InFlight) /\
  (forall key, key_state_of σ0 key <> Free -> key_state_of σ key = key_state_of σ0 key) /\
  (er_tx_hash res <> None -> exists key, key_state_of σ key = Completed res) /\
  (er_tx_hash res = None -> forall key, key_state_of σ key = key_state_of σ0 key).
Proof.
  intros [_ Hh] Ho. destruct φ; simpl in *; try done; subst; try naive_solver.
  - destruct Hh as (Hf & Hf' & Hk).
    assert (forall k, key_state_of σ k = key_state_of σ0 k) as Hsame
      by (intros k; destruct (decide (k = key)) as [->|]; [congruence | by apply Hk]).
    split_and!; intros; rewrite ?Hsame in *; try done. naive_solver.
  - destruct Hh as (Hf & Hf' & Hk). destruct Ho as [-> Hhash].
    split_and!.
    + intros k Hi. destruct (decide (k = key)) as [->|]; [congruence|]. by rewrite <- Hk.
    + intros k Hi. destruct (decide (k = key)) as [->|]; [congruence|]. by apply Hk.
    + by exists key.
    + done.
Qed.
End claims.

(** C2. Whatever the outside answers, a run of any of the four transaction graphs asks the signer only for a
    transaction its request asks for (the prepared transaction it carries, or the one prepared for its
    intent), that was simulated, that the policy allows on that simulation, that a human approved when it
    moves value, and whose idempotency key the run has just reserved; the request signed is that
    transaction's. *)
Theorem signing_authorized `{W : Web3} {L : Web3Laws W} {PT : PydanticText} {PL : PydanticLax}
    {G : LangGraph effect MercuryState} {GL : LangGraphLaws merge_state G}
    (settings : MercurySettings) (deps : TransactionGraphDependencies) (kind : graph_kind)
    (s : MercuryState) (r : result exn MercuryState) (tr1 tr2 : list wevent) req a
    (Hi : initial kind s)
    (Hrun : may (invoke (wallet_graph settings deps kind) s) (tr1 ++ Ev (SignTransaction req) a :: tr2) r)
    (Hgood : Forall good (tr1 ++ Ev (SignTransaction req) a :: tr2)) :
  exists t key,
    signing_request t = Ok req /\
    requests settings kind s (tr1 ++ Ev (SignTransaction req) a :: tr2) t /\
    (exists sim, simulated_in tr1 t sim /\ policy_allows settings (policy_engine deps) t (Some sim)) /\
    (needs_human t = true ->
     exists q ap, build_approval_request t = Ok q /\ ar_status ap = APPROVED /\
                  Ev (RequestApproval q) (Ok ap) ∈ tr1) /\
    et_idempotency_key t = Some key /\ (exists rec, Ev (Reserve key) (Ok rec) ∈ tr1).
Proof.
  edestruct run_steps as [φ H]; [done..|].
  destruct (approval_of_signed _ _ _ _ _ _ _ _ H) as (t & key & Hr & Hreq & (Hsim & _ & Hk & Hres) & Hap).
  exists t, key. split_and!; done.
Qed.

(** C3. A run broadcasts at most once, and only the signature the signer returned in this run for a
    transaction the request asks for and that was authorized before it. *)
Theorem broadcast_authorized_once `{W : Web3} {L : Web3Laws W} {PT : PydanticText} {PL : PydanticLax}
    {G : LangGraph effect MercuryState} {GL : LangGraphLaws merge_state G}
    (settings : MercurySettings) (deps : TransactionGraphDependencies) (kind : graph_kind)
    (s : MercuryState) (r : result exn MercuryState) (tr1 tr2 : list wevent) sg a
    (Hi : initial kind s)
    (Hrun : may (invoke (wallet_graph settings deps kind) s) (tr1 ++ Ev (Broadcast sg) a :: tr2) r)
    (Hgood : Forall good (tr1 ++ Ev (Broadcast sg) a :: tr2)) :
  (exists t key, requests settings kind s (tr1 ++ Ev (Broadcast sg) a :: tr2) t /\
     authorized_in settings (policy_engine deps) tr1 t key /\ signed_in tr1 t sg) /\
  count is_broadcast tr1 = 0%nat /\ count is_broadcast tr2 = 0%nat.
Proof. edestruct run_steps as [φ H]; [done..|]. by eapply broadcast_authorized. Qed.

(** C4. The transaction graphs refine the run contract and terminate: every run follows the phase machine for what
    its request asks for to a phase where it holds no key, never raises (the recursion limit included),
    and returns the execution result that phase stands for; a run without an execution result is still
    preparing, and ends with the text of an unsupported request or with a typed order that waits for a
    human. *)
Theorem run_refines_contract `{W : Web3} {L : Web3Laws W} {PT : PydanticText} {PL : PydanticLax}
    {G : LangGraph effect MercuryState} {GL : LangGraphLaws merge_state G}
    (settings : MercurySettings) (deps : TransactionGraphDependencies) (kind : graph_kind)
    (s : MercuryState) (r : result exn MercuryState) (tr : list wevent)
    (Hi : initial kind s)
    (Hrun : may (invoke (wallet_graph settings deps kind) s) tr r)
    (Hgood : Forall good tr) :
  exists φ s',
    r = Ok s' /\ steps (pstep settings (policy_engine deps) (requests settings kind s tr)) Idle tr φ /\ terminal φ /\
    match execution_result s' with
    | Some res => outcome φ res
    | None =>
        φ = Idle /\
        (response_text s' <> None \/
         exists p d, prepared_swap s' = Some p /\ typed_order_ready p = Some d /\ policy_decision s' = Some d)
    end.
Proof.
  destruct (wallet_run settings deps kind s tr r Hi Hrun Hgood)
    as (φ & s' & -> & Hs & [(res & Hr & Ho) | (-> & Hr & Hans)]).
  - exists φ, s'. rewrite Hr. split_and!; [done | done | by eapply outcome_terminal | done].
  - exists Idle, s'. by rewrite Hr.
Qed.


(** C6. A key that is already taken stops the run where it reserves it: nothing was signed or broadcast
    before, no call follows, the store is as it was, and the result is the recorded one when the key
    is completed, a rejection without a hash when it is in flight. *)
Theorem taken_key_never_signs `{W : Web3} {L : Web3Laws W} {PT : PydanticText} {PL : PydanticLax}
    {G : LangGraph effect MercuryState} {GL : LangGraphLaws merge_state G}
    `{IS : IdempotencyStore St} {LS : IdempotencyStoreLaws St}
    (settings : MercurySettings) (deps : TransactionGraphDependencies) (kind : graph_kind)
    (s : MercuryState) (r : result exn MercuryState) (tr1 tr2 : list wevent) key a (σ0 σ : St)
    (Hi : initial kind s)
    (Hrun : may (invoke (wallet_graph settings deps kind) s) (tr1 ++ Ev (Reserve key) a :: tr2) r)
    (Hgood : Forall good (tr1 ++ Ev (Reserve key) a :: tr2))
    (Hok : store_ok σ0) (Hstore : steps store_step σ0 (tr1 ++ Ev (Reserve key) a :: tr2) σ)
    (Htaken : key_state_of σ0 key <> Free) :
  tr2 = [] /\ no_critical tr1 /\ (forall k, key_state_of σ k = key_state_of σ0 k) /\
  exists s' res, r = Ok s' /\ execution_result s' = Some res /\
    match key_state_of σ0 key with
    | Completed recorded => res = recorded
    | _ => (er_status res = REJECTED \/ er_status res = APPROVAL_DENIED) /\ er_tx_hash res = None
    end.
Proof.
  destruct (wallet_run settings deps kind _ _ r Hi Hrun Hgood) as (φ & s' & -> & Hs & Hend).
  destruct (refused_key settings (policy_engine deps) _ tr1 key a tr2 φ σ0 σ Hok Hs Hstore Htaken) as (-> & Hnc & -> & Hφ).
  split_and!; [done..|].
  destruct Hend as [(res & Hr & Ho) | (-> & _)]; [|by destruct (key_state_of σ0 key)].
  exists s', res. split_and!; [done..|].
  destruct (key_state_of σ0 key); subst φ; simpl in Ho; tauto.
Qed.

(** C23. With the approver that reads the request metadata, a transaction that needs a human is signed only when
    its own metadata carries an approval response with status [approved] whose idempotency key, if it
    names one, is the transaction's. *)
Theorem metadata_approval_required `{W : Web3} {L : Web3Laws W} {PT : PydanticText} {PL : PydanticLax}
    {G : LangGraph effect MercuryState} {GL : LangGraphLaws merge_state G}
    (settings : MercurySettings) (deps : TransactionGraphDependencies) (kind : graph_kind)
    (s : MercuryState) (r : result exn MercuryState) (tr1 tr2 : list wevent) req a
    (Hi : initial kind s)
    (Hrun : may (invoke (wallet_graph settings deps kind) s) (tr1 ++ Ev (SignTransaction req) a :: tr2) r)
    (Hgood : Forall good (tr1 ++ Ev (SignTransaction req) a :: tr2))
    (Happrover : approved_by RequestMetadataTransactionApprover.request_approval tr1) :
  exists t, signing_request t = Ok req /\
    (needs_human t = true ->
     exists raw key,
       get (et_metadata t) "approval_response" = VDict raw /\
       py_lower (py_strip (py_str (get_default raw "status" (VStr "")))) = "approved" /\
       et_idempotency_key t = Some key /\
       (get raw "idempotency_key" = VNone \/ py_str (get raw "idempotency_key") = key)).
Proof.
  edestruct run_steps as [φ H]; [done..|].
  destruct (approval_of_signed _ _ _ _ _ _ _ _ H) as (t & key & Hr & _ & _ & Hap).
  exists t. split; [done|]. intros (q & ap & Hq & Hst & Hin)%Hap.
  apply (approved_by_in _ _ _ _ Happrover) in Hin. symmetry in Hin. apply build_approval_request_ok in Hq.
  destruct (metadata_approval q ap Hin Hst) as (raw & Hm & Hs & Hk).
  destruct Hq as (_ & _ & _ & _ & _ & _ & _ & Hkey & Hmeta & _).
  exists raw, (aq_idempotency_key q). rewrite <- Hmeta. done.
Qed.

(** With the placeholder approver, which never approves, a run signs only transactions that need no human:
    they move no value, carry no calldata and name no known action. *)
Theorem placeholder_signs_nothing_of_value `{W : Web3} {L : Web3Laws W} {PT : PydanticText} {PL : PydanticLax}
    {G : LangGraph effect MercuryState} {GL : LangGraphLaws merge_state G}
    (settings : MercurySettings) (deps : TransactionGraphDependencies) (kind : graph_kind)
    (s : MercuryState) (r : result exn MercuryState) (tr1 tr2 : list wevent) req a
    (Hi : initial kind s)
    (Hrun : may (invoke (wallet_graph settings deps kind) s) (tr1 ++ Ev (SignTransaction req) a :: tr2) r)
    (Hgood : Forall good (tr1 ++ Ev (SignTransaction req) a :: tr2))
    (Happrover : approved_by PlaceholderTransactionApprover.request_approval tr1) :
  exists t, signing_request t = Ok req /\ known_action t = false /\ et_is_value_moving t = false.
Proof.
  edestruct run_steps as [φ H]; [done..|].
  destruct (approval_of_signed _ _ _ _ _ _ _ _ H) as (t & key & Hr & _ & _ & Hap).
  exists t. split; [done|]. apply orb_false_iff. change (needs_human t = false).
  destruct (needs_human t); [|done]. destruct (Hap eq_refl) as (q & ap & _ & Hst & Hin).
  apply (approved_by_in _ _ _ _ Happrover) in Hin. symmetry in Hin. apply make_ApprovalResult_ok in Hin as [Hin _]. congruence.
Qed.

(** * Witnesses: the sample runs *)

Ltac solve_approved :=
  match goal with |- approved_by _ ?tr => eassert (tr = _) as -> by (vm_compute; reflexivity) end;
  unfold approved_by;
  repeat first [apply Forall_nil_2 | apply Forall_cons_2]; first [exact I | vm_compute; reflexivity].

Lemma signing_authorized_witness :
  exists (tr1 : list wevent) req a tr2, sample_trace = (tr1 ++ Ev (SignTransaction req) a :: tr2)%list /\
  exists t key, signing_request t = Ok req /\
    requests default_settings TransactionGraph sample_state (tr1 ++ Ev (SignTransaction req) a :: tr2) t /\
    (exists sim, simulated_in tr1 t sim /\ policy_allows default_settings default_policy_engine t (Some sim)) /\
    (needs_human t = true ->
     exists q ap, build_approval_request t = Ok q /\ ar_status ap = APPROVED /\
                  Ev (RequestApproval q) (Ok ap) ∈ tr1) /\
    et_idempotency_key t = Some key /\ (exists rec, Ev (Reserve key) (Ok rec) ∈ tr1).
Proof.
  pose proof (run_of_may sample_state ∅) as Hm. fold sample_trace in Hm. pose proof sample_good as Hg.
  assert (exists (tr1 : list wevent) req a tr2, sample_trace = (tr1 ++ Ev (SignTransaction req) a :: tr2)%list) as (tr1 & req & a & tr2 & E)
    by (eexists (take 6 sample_trace), _, _, (drop 7 sample_trace); vm_compute; reflexivity).
  exists tr1, req, a, tr2. split; [exact E|]. rewrite E in Hm, Hg.
  exact (signing_authorized _ default_dependencies TransactionGraph _ _ _ _ _ _ sample_initial Hm Hg).
Defined.

Lemma broadcast_authorized_once_witness :
  exists (tr1 : list wevent) sg a tr2, sample_trace = (tr1 ++ Ev (Broadcast sg) a :: tr2)%list /\
  (exists t key, requests default_settings TransactionGraph sample_state (tr1 ++ Ev (Broadcast sg) a :: tr2) t /\
     authorized_in default_settings default_policy_engine tr1 t key /\ signed_in tr1 t sg) /\
  count is_broadcast tr1 = 0%nat /\ count is_broadcast tr2 = 0%nat.
Proof.
  pose proof (run_of_may sample_state ∅) as Hm. fold sample_trace in Hm. pose proof sample_good as Hg.
  assert (exists (tr1 : list wevent) sg a tr2, sample_trace = (tr1 ++ Ev (Broadcast sg) a :: tr2)%list) as (tr1 & sg & a & tr2 & E)
    by (eexists (take 7 sample_trace), _, _, (drop 8 sample_trace); vm_compute; reflexivity).
  exists tr1, sg, a, tr2. split; [exact E|]. rewrite E in Hm, Hg.
  exact (broadcast_authorized_once _ default_dependencies TransactionGraph _ _ _ _ _ _ sample_initial Hm Hg).
Defined.

Lemma run_refines_contract_witness :
  exists φ s',
    result_of sample_state ∅ = Ok s' /\
    steps (pstep default_settings default_policy_engine (requests default_settings TransactionGraph sample_state sample_trace))
      Idle sample_trace φ /\ terminal φ /\
    match execution_result s' with
    | Some res => outcome φ res
    | None =>
        φ = Idle /\
        (response_text s' <> None \/
         exists p d, prepared_swap s' = Some p /\ typed_order_ready p = Some d /\ policy_decision s' = Some d)
    end.
Proof.
  exact (run_refines_contract _ default_dependencies TransactionGraph _ _ _ sample_initial
           (run_of_may sample_state ∅) sample_good).
Defined.


Lemma taken_key_never_signs_witness :
  exists (tr1 : list wevent) key a tr2, replay_trace = (tr1 ++ Ev (Reserve key) a :: tr2)%list /\ key_state_of sample_store key <> Free /\
  tr2 = [] /\ no_critical tr1 /\
  (forall k, key_state_of (store_of sample_state sample_store) k = key_state_of sample_store k) /\
  exists s' res, result_of sample_state sample_store = Ok s' /\ execution_result s' = Some res /\
    match key_state_of sample_store key with
    | Completed recorded => res = recorded
    | _ => (er_status res = REJECTED \/ er_status res = APPROVAL_DENIED) /\ er_tx_hash res = None
    end.
Proof.
  pose proof (run_of_may sample_state sample_store) as Hm. fold replay_trace in Hm.
  pose proof replay_good as Hg. pose proof (trace_of_store sample_state sample_store) as Hs. fold replay_trace in Hs.
  assert (exists (tr1 : list wevent) a tr2, replay_trace = (tr1 ++ Ev (Reserve "k1") a :: tr2)%list) as (tr1 & a & tr2 & E)
    by (eexists (take 5 replay_trace), _, []; vm_compute; reflexivity).
  assert (key_state_of sample_store "k1" <> Free) as Ht by (vm_compute; discriminate).
  exists tr1, "k1", a, tr2. split; [exact E|]. split; [exact Ht|]. rewrite E in Hm, Hg, Hs.
  exact (taken_key_never_signs _ default_dependencies TransactionGraph _ _ _ _ _ _ _ _ sample_initial Hm Hg sample_store_ok Hs Ht).
Defined.

Lemma metadata_approval_required_witness :
  exists req t, signing_request t = Ok req /\
    (needs_human t = true ->
     exists raw key,
       get (et_metadata t) "approval_response" = VDict raw /\
       py_lower (py_strip (py_str (get_default raw "status" (VStr "")))) = "approved" /\
       et_idempotency_key t = Some key /\
       (get raw "idempotency_key" = VNone \/ py_str (get raw "idempotency_key") = key)).
Proof.
  pose proof (run_of_may sample_state ∅) as Hm. fold sample_trace in Hm. pose proof sample_good as Hg.
  assert (approved_by RequestMetadataTransactionApprover.request_approval (take 6 sample_trace)) as Ha
    by solve_approved.
  assert (exists req a, sample_trace = (take 6 sample_trace ++ Ev (SignTransaction req) a :: drop 7 sample_trace)%list)
    as (req & a & E) by (eexists _, _; vm_compute; reflexivity).
  exists req. rewrite E in Hm, Hg.
  exact (metadata_approval_required _ default_dependencies TransactionGraph _ _ _ _ _ _ sample_initial Hm Hg Ha).
Defined.

Lemma placeholder_signs_nothing_of_value_witness :
  exists req t, signing_request t = Ok req /\ known_action t = false /\ et_is_value_moving t = false.
Proof.
  pose proof (run_of_may quiet_state ∅) as Hm. fold quiet_trace in Hm. pose proof quiet_good as Hg.
  assert (approved_by PlaceholderTransactionApprover.request_approval (take 5 quiet_trace)) as Ha
    by solve_approved.
  assert (exists req a, quiet_trace = (take 5 quiet_trace ++ Ev (SignTransaction req) a :: drop 6 quiet_trace)%list)
    as (req & a & E) by (eexists _, _; vm_compute; reflexivity).
  exists req. rewrite E in Hm, Hg.
  exact (placeholder_signs_nothing_of_value _ default_dependencies TransactionGraph _ _ _ _ _ _ quiet_initial Hm Hg Ha).
Defined.
