(* ===== verification/EndToEnd.v ===== *)
(** From the request to the signature: what a run of the token, native and swap graphs signs, in terms of the intent
    it was given. *)
From stdpp Require Import base tactics option list sets strings gmap.
From Stdlib Require Import ZArith Lia Ascii String.
From S2P Require Import Prelude Python Values Exceptions Amounts Redaction Errors Addresses Chains Models SwapModels.
From S2P Require Import Policy Idempotency Prog Effects Erc20 Intents TokenTransactions TokenSpec Swaps SwapSpec.
From S2P Require Import Graph State Transactions Pipeline Preparation Protocol PipelineSpec PreparationSpec.
From S2P Require Import Execution Guarantees.

Local Open Scope string_scope.
Local Open Scope Z_scope.

(** Merging metadata changes nothing that is executed. *)
Lemma merged_fields p payload :
  let q := merge_intent_metadata_into_prepared p payload in
  pt_wallet_id q = pt_wallet_id p /\ pt_chain q = pt_chain p /\ pt_chain_id q = pt_chain_id p /\
  pt_from_address q = pt_from_address p /\ pt_to q = pt_to p /\ pt_value_wei q = pt_value_wei p /\
  pt_data q = pt_data p /\ pt_idempotency_key q = pt_idempotency_key p.
Proof. unfold merge_intent_metadata_into_prepared. by repeat case_match. Qed.

Section claims.
Context `{W : Web3} {L : Web3Laws W} {PT : PydanticText} {PL : PydanticLax}.
Context {G : LangGraph effect MercuryState} {GL : LangGraphLaws merge_state G}.

(** What executing a prepared transaction, its metadata overridden, keeps of it. *)
Record carries (p : PreparedTransaction) (t : ExecutableTransaction) : Prop := {
  ca_wallet : et_wallet_id t = pt_wallet_id p;
  ca_chain : et_chain t = pt_chain p;
  ca_to : normalize_evm_address (pt_to p) = Ok (et_to t);
  ca_value : et_value_wei t = pt_value_wei p;
  ca_data : et_data t = pt_data p;
  ca_key : et_idempotency_key t = pt_idempotency_key p
}.

Lemma executes_carries p payload t : executes (merge_intent_metadata_into_prepared p payload) t -> carries p t.
Proof.
  destruct (merged_fields p payload) as (Hw & Hc & _ & _ & Ht & Hv & Hd & Hk). intros [].
  constructor; congruence.
Qed.

(** The transaction a run signs, and the payload it was prepared for. *)
Lemma signed_for settings deps kind s (tr1 tr2 : list wevent) req a r :
  kind <> TransactionGraph -> initial kind s ->
  may (invoke (wallet_graph settings deps kind) s) (tr1 ++ Ev (SignTransaction req) a :: tr2) r ->
  Forall good (tr1 ++ Ev (SignTransaction req) a :: tr2) ->
  exists msg payload p t, payload_from_state msg s = Ok payload /\
    prepared_for settings kind (tr1 ++ Ev (SignTransaction req) a :: tr2) payload p /\ carries p t /\
    signing_request t = Ok req.
Proof.
  intros Hk Hi Hrun Hg. destruct (run_steps settings deps kind s _ r Hi Hrun Hg) as [φ H].
  destruct (approval_of_signed _ _ _ _ _ _ _ _ H) as (t & key & Hr & Hreq & _).
  unfold requests in Hreq. destruct kind; [done|..]; destruct Hreq as (msg & payload & p & Hp & Hf & Hex);
    exists msg, payload, p, t; (split_and!; [done | done | by eapply executes_carries | done]).
Qed.


(** C8. A run of the native graph signs the transfer its intent describes: the request is for the wallet of the
    intent, sends exactly the parsed positive amount to the recipient of the intent, who is not the zero
    address, and carries no calldata. *)
Theorem native_run_signs_intent (settings : MercurySettings) (deps : TransactionGraphDependencies)
    (s : MercuryState) (r : result exn MercuryState) (tr1 tr2 : list wevent) req a
    (Hi : initial NativeGraph s)
    (Hrun : may (invoke (wallet_graph settings deps NativeGraph) s) (tr1 ++ Ev (SignTransaction req) a :: tr2) r)
    (Hgood : Forall good (tr1 ++ Ev (SignTransaction req) a :: tr2)) :
  exists msg payload i t,
    payload_from_state msg s = Ok payload /\ NativeTransferIntent_validate payload = Ok i /\
    signing_request t = Ok req /\ et_wallet_id t = ni_wallet_id i /\
    et_idempotency_key t = ni_idempotency_key i /\ et_data t = "0x" /\
    normalize_evm_address (ni_recipient_address i) = Ok (et_to t) /\ et_to t <> ZERO_ADDRESS /\
    0 < et_value_wei t /\ parse_units (py_strip (ni_amount i)) 18 = Ok (et_value_wei t).
Proof.
  destruct (signed_for settings deps NativeGraph s tr1 tr2 req a r) as (msg & pl & p & t & Hpl & Hp & Hc & Hr);
    [done..|].
  destruct Hp as (i & Hv & [Hrec Hnz _ _ [Hpos Hval] Hdata _ _] & Hwi & Hki).
  destruct Hc as [Hw _ Hto Hvw Hd Hk]. rewrite (normalize_again _ _ Hrec) in Hto. injection Hto as Hto. rewrite Hto in *.
  exists msg, pl, i, t. rewrite Hw, Hd, Hk, Hvw. by split_and!.
Qed.

End claims.

(** * Sample runs *)

(** The sample outside, with a token of six decimals, a quoting provider, and a clock at the epoch. *)
Definition agent_handler (e : effect) (σ : InMemoryIdempotencyStore) : InMemoryIdempotencyStore * ans e :=
  match e return InMemoryIdempotencyStore * ans e -> InMemoryIdempotencyStore * ans e with
  | ContractCall c a f args => fun _ => (σ, swap_answer 0 (ContractCall c a f args))
  | GetQuote _ r => fun _ => (σ, Ok (answer_quote r))
  | BuildExecution _ q => fun _ => (σ, Ok (answer_execution q))
  | _ => fun x => x
  end (sample_handler e σ).

Definition sample_approval_metadata : pyval :=
  VDict [("approval_response", VDict [("status", VStr "approved"); ("approved_by", VStr "alice")])].

Definition token_payload : dict :=
  [("kind", VStr "erc20_transfer"); ("chain", VStr "base"); ("wallet_id", VStr "w1");
   ("token_address", VStr sample_token); ("recipient_address", VStr sample_peer); ("amount", VStr "1.5");
   ("idempotency_key", VStr "k1"); ("metadata", sample_approval_metadata)].
Definition native_payload : dict :=
  [("kind", VStr "native_transfer"); ("chain", VStr "base"); ("wallet_id", VStr "w1");
   ("recipient_address", VStr sample_peer); ("amount", VStr "0.25"); ("idempotency_key", VStr "k1");
   ("metadata", sample_approval_metadata)].
Definition swap_payload : dict :=
  [("kind", VStr "swap"); ("chain", VStr "base"); ("wallet_id", VStr "w1"); ("from_token", VStr sample_token);
   ("to_token", VStr sample_peer); ("amount_in", VStr "1.5"); ("max_slippage_bps", VInt 50);
   ("idempotency_key", VStr "k1"); ("metadata", sample_approval_metadata)].

Definition state_of (payload : dict) : MercuryState := with_raw_input (AnyValue (VDict payload)) empty_state.

Definition sample_swap_deps : SwapGraphDependencies :=
  {| sd_router := make_SwapRouter [LIFI]; sd_policy_config := default_swap_policy |}.

Definition agent_run (kind : graph_kind) (payload : dict) : wallet (result exn MercuryState) :=
  invoke (wallet_graph default_settings default_dependencies kind) (state_of payload).
Definition agent_trace (kind : graph_kind) (payload : dict) : list wevent :=
  run_trace agent_handler (agent_run kind payload) ∅.
Definition agent_result (kind : graph_kind) (payload : dict) : result exn MercuryState :=
  (run_prog agent_handler (agent_run kind payload) ∅).2.

Lemma agent_may kind payload : may (agent_run kind payload) (agent_trace kind payload) (agent_result kind payload).
Proof. exact (run_may agent_handler (agent_run kind payload) ∅). Qed.

Lemma state_of_initial kind payload : initial kind (state_of payload).
Proof. by constructor. Qed.

Example token_calls :
  map call_name (agent_trace ERC20Graph token_payload) =
  ["wallet"; "other"; "other"; "other"; "other"; "other"; "other"; "other"; "other"; "other";
   "wallet"; "nonce"; "gas"; "simulate"; "approve"; "reserve"; "sign"; "broadcast"; "wait"; "complete"].
Proof. vm_compute. reflexivity. Qed.

Example swap_outcome : status_of (agent_result (SwapGraph sample_swap_deps) swap_payload) = Some (CONFIRMED, Some sample_hash).
Proof. vm_compute. reflexivity. Qed.

Lemma token_good : Forall good (agent_trace ERC20Graph token_payload).
Proof. solve_good. Qed.

Lemma native_good : Forall good (agent_trace NativeGraph native_payload).
Proof. solve_good. Qed.

Lemma swap_good : Forall good (agent_trace (SwapGraph sample_swap_deps) swap_payload).
Proof.
  solve_good; intros x [= <-]; (split; [reflexivity|]);
  unfold wf_SwapExecution, wf_SwapQuote, wf_SwapQuoteRequest, wf_address_opt; simpl;
  repeat match goal with |- _ /\ _ => split end;
  try done; try intros z [= <-]; simpl; repeat match goal with |- _ /\ _ => split end; try done;
  try match goal with |- normalized ?a => exists a; vm_compute; reflexivity end.
Qed.


Lemma native_run_signs_intent_witness :
  exists req a t, Ev (SignTransaction req) a ∈ agent_trace NativeGraph native_payload /\
    signing_request t = Ok req /\ et_data t = "0x" /\ 0 < et_value_wei t.
Proof.
  pose proof (agent_may NativeGraph native_payload) as Hm. pose proof native_good as Hg.
  assert (exists (tr1 : list wevent) req a tr2,
    agent_trace NativeGraph native_payload = (tr1 ++ Ev (SignTransaction req) a :: tr2)%list) as (tr1 & req & a & tr2 & E)
    by (eexists (take 7 (agent_trace NativeGraph native_payload)), _, _, (drop 8 (agent_trace NativeGraph native_payload));
        vm_compute; reflexivity).
  rewrite E in Hm, Hg |- *.
  pose proof (native_run_signs_intent default_settings default_dependencies (state_of native_payload) _ tr1 tr2 req a (state_of_initial NativeGraph native_payload) Hm Hg) as HH.
  destruct HH as (msg & pl & i & t & HA & HB & H1 & HC & HD & H2 & HE & HF & H3 & HG).
  exists req, a, t. split; [find_in|]. split; [exact H1|]. split; [exact H2 | exact H3].
Defined.


(** The policy and the approval request read the recipient from the metadata, which the payload may override: here a
    human approves, and the run signs and sends, a transfer to [sample_peer] described as one to
    [sample_token]. *)
Definition misleading_payload : dict :=
  [("kind", VStr "erc20_transfer"); ("chain", VStr "base"); ("wallet_id", VStr "w1");
   ("token_address", VStr sample_token); ("recipient_address", VStr sample_peer); ("amount", VStr "1.5");
   ("idempotency_key", VStr "k1");
   ("metadata", VDict [("recipient_address", VStr sample_token);
                       ("approval_response", VDict [("status", VStr "approved")])])].

Definition approvals (tr : list wevent) : list ApprovalRequest := (omap (fun ev => fst <$> as_approval ev) tr).

Lemma metadata_override_misleads :
  map (fun q => (get (aq_metadata q) "recipient_address", decode_call (aq_data q)))
      (approvals (agent_trace ERC20Graph misleading_payload)) =
    [(VStr sample_token, Some ("a9059cbb", sample_peer, 1500000))] /\
  status_of (agent_result ERC20Graph misleading_payload) = Some (CONFIRMED, Some sample_hash).
Proof. split; vm_compute; reflexivity. Qed.
