(* ===== verification/Concurrency.v ===== *)
(** Concurrent requests: any number of runs of the four wallet graphs, interleaved call by call over one
    idempotency store (the API serves each request on its own thread, and the store's lock makes each of
    its methods one step). *)
From stdpp Require Import base tactics option list sets strings gmap.
From Stdlib Require Import ZArith Lia Ascii String Wellfounded.
From S2P Require Import Prelude Python Values Exceptions Redaction Errors Addresses Chains Models SwapModels Policy.
From S2P Require Import Idempotency Prog Effects Swaps Graph State Intents Transactions Pipeline Preparation Protocol.
From S2P Require Import PipelineSpec PreparationSpec Execution Guarantees.

Local Open Scope string_scope.

(** * Schedules *)

Abbreviation run := (wallet (result exn MercuryState)).
Abbreviation schedule := (list (nat * wevent)).

(** The calls of run [i], in order. *)
Definition calls_of (i : nat) (tr : schedule) : list wevent :=
  omap (fun '(j, ev) => if decide (j = i) then Some ev else None) tr.

(** What is left of [p] after the calls [tr]. *)
Fixpoint residual (p : run) (tr : list wevent) (q : run) {struct tr} : Prop :=
  match tr with
  | [] => q = p
  | ev :: tr' =>
      match p with
      | Ret _ => False
      | Call e k => exists a, ev = Ev e a /\ residual (k a) tr' q
      end
  end.

Lemma residual_snoc p tr e k a : residual p tr (Call e k) -> residual p (tr ++ [Ev e a]) (k a).
Proof.
  revert p. induction tr as [|ev tr IH]; intros p; simpl; [intros <-; by exists a|].
  destruct p as [|e' k']; [done|]. intros (b & -> & H). exists b. split; [done | by apply IH].
Qed.

Lemma residual_may p tr q tr' r : residual p tr q -> may q tr' r -> may p (tr ++ tr') r.
Proof.
  revert p. induction tr as [|ev tr IH]; intros p; simpl; [by intros ->|].
  destruct p as [|e k]; [done|]. intros (a & -> & H) Hq. exists a, (tr ++ tr')%list. split; [done | by eapply IH].
Qed.

Lemma calls_of_app i tr1 tr2 : calls_of i (tr1 ++ tr2) = (calls_of i tr1 ++ calls_of i tr2)%list.
Proof. unfold calls_of. by rewrite omap_app. Qed.

Lemma calls_of_same i ev : calls_of i [(i, ev)] = [ev].
Proof. unfold calls_of. simpl. by rewrite decide_True. Qed.

Lemma calls_of_other i j ev : i <> j -> calls_of j [(i, ev)] = [].
Proof. intros. unfold calls_of. simpl. by rewrite decide_False. Qed.

Lemma calls_of_good `{W : Web3} i tr : Forall (fun x => good x.2) tr -> Forall good (calls_of i tr).
Proof.
  induction 1 as [|[j ev] tr H _ IH]; [constructor|]. simpl.
  destruct (decide (j = i)); [by constructor | done].
Qed.

Section turns.
Context {St : Type} `{IdempotencyStore St}.

(** One call of one run: the store answers the calls on it, the outside answers the others. *)
Inductive turn : list run * St -> nat * wevent -> list run * St -> Prop :=
| turn_call ps σ i e (k : ans e -> run) a σ' :
    ps !! i = Some (Call e k) -> store_step σ (Ev e a) σ' -> turn (ps, σ) (i, Ev e a) (<[i := k a]> ps, σ').

Lemma turns_residual x tr y : steps turn x tr y ->
  forall i p, x.1 !! i = Some p -> forall tr0 p0, residual p0 tr0 p ->
  exists q, y.1 !! i = Some q /\ residual p0 (tr0 ++ calls_of i tr) q.
Proof.
  induction 1 as [x|x [j ev] x1 tr y Hs _ IH]; intros i p Hp tr0 p0 Hr.
  - exists p. rewrite app_nil_r. done.
  - inversion Hs as [ps σ j' e k a σ' Hj Hst]; subst. simpl in *. destruct (decide (j = i)) as [->|Hne].
    + rewrite Hj in Hp. injection Hp as <-.
      destruct (IH i (k a)) with (tr0 := (tr0 ++ [Ev e a])%list) (p0 := p0) as (q & Hq & Hres).
      * apply list_lookup_insert_eq. by eapply lookup_lt_Some.
      * by apply residual_snoc.
      * exists q. split; [done|]. by rewrite <- (assoc_L (++)) in Hres.
    + apply (IH i p); [|done]. by rewrite list_lookup_insert_ne.
Qed.

Lemma turns_length x tr y : steps turn x tr y -> List.length y.1 = List.length x.1.
Proof.
  induction 1 as [x|x ev x1 tr y Hs _ IH]; [done|]. rewrite IH. inversion Hs; subst. apply length_insert.
Qed.

Lemma turns_store x tr y : steps turn x tr y -> steps store_step x.2 (map snd tr) y.2.
Proof.
  induction 1 as [x|x ev x1 tr y Hs _ IH]; [constructor|]. inversion Hs; subst. simpl in *. by econstructor.
Qed.
End turns.

(** * The key a run holds, and the one it has submitted under *)

Definition summary : Type := option string * option string.

Definition summarize (x : summary) (ev : wevent) : summary :=
  let '(Ev e a) := ev in
  match e return ans e -> summary with
  | Reserve key => fun a => match a with Ok _ => (Some key, x.2) | Err _ => x end
  | Release _ | Complete _ _ => fun _ => (None, x.2)
  | Broadcast _ => fun a => match a with Ok _ => (x.1, x.1) | Err _ => x end
  | _ => fun _ => x
  end a.

Definition summary_of (tr : list wevent) : summary := fold_left summarize tr (None, None).
Definition holding (tr : list wevent) : option string := (summary_of tr).1.
Definition submitted (tr : list wevent) : option string := (summary_of tr).2.

Definition phase_summary (φ : phase) : summary :=
  match φ with
  | Held _ key | HeldSigned _ key _ | MustRelease key => (Some key, None)
  | Submitted _ key _ | Waited _ key _ => (Some key, Some key)
  | Finished key _ => (None, Some key)
  | _ => (None, None)
  end.

Lemma summary_of_snoc tr ev : summary_of (tr ++ [ev]) = summarize (summary_of tr) ev.
Proof. unfold summary_of. by rewrite fold_left_app. Qed.

Section track.
Context `{W : Web3} (settings : MercurySettings) (eng : TransactionPolicyEngine).
Abbreviation pstep := (pstep settings eng (fun _ => True)).
Abbreviation psteps := (steps pstep).

Lemma pstep_mono (intended : ExecutableTransaction -> Prop) φ ev φ' : Protocol.pstep settings eng intended φ ev φ' -> pstep φ ev φ'.
Proof. destruct 1; try (by econstructor). Qed.

Lemma psteps_mono intended φ tr φ' : steps (Protocol.pstep settings eng intended) φ tr φ' -> psteps φ tr φ'.
Proof. induction 1; [constructor|]. econstructor; [by eapply pstep_mono | done]. Qed.

Lemma summarize_step φ ev φ' : pstep φ ev φ' -> phase_summary φ' = summarize (phase_summary φ) ev.
Proof.
  destruct 1; try done; simpl.
  - by destruct e.
  - match goal with H : _ \/ _ |- _ => destruct H as [->|[-> _]] end; (destruct e as [rec|]; [destruct (ir_result rec)|]); done.
Qed.

Lemma summary_of_phase tr φ : psteps Idle tr φ -> summary_of tr = phase_summary φ.
Proof.
  assert (forall φ0, psteps φ0 tr φ -> fold_left summarize tr (phase_summary φ0) = phase_summary φ) as H; [|apply H].
  intros φ0. induction 1 as [|φ0 ev φ1 tr φ2 Hs _ IH]; [done|]. simpl. by rewrite <- (summarize_step _ _ _ Hs).
Qed.

(** A run that makes another call was in a phase that allows it, and its summary moves along. *)
Lemma next_phase tr ev φ' :
  psteps Idle (tr ++ [ev]) φ' ->
  exists φ, psteps Idle tr φ /\ pstep φ ev φ' /\ summary_of tr = phase_summary φ.
Proof.
  intros (φ & H1 & H2)%steps_app_inv. inversion H2 as [|? ? ? ? ? Hs Hn]; subst. inversion Hn; subst.
  exists φ. by rewrite (summary_of_phase _ _ H1).
Qed.
End track.

(** * Mutual exclusion *)

Section exclusion.
Context {St : Type} `{IS : IdempotencyStore St} {LS : IdempotencyStoreLaws St}.

(** What one call can do to the store and to the summary of the run that makes it. *)
Inductive move (σ σ' : St) : summary -> summary -> Prop :=
| move_quiet x : σ' = σ -> move σ σ' x x
| move_reserve key :
    key <> "" -> key_state_of σ key = Free -> key_state_of σ' key = InFlight -> only_key key σ σ' ->
    move σ σ' (None, None) (Some key, None)
| move_submit key : σ' = σ -> move σ σ' (Some key, None) (Some key, Some key)
| move_release key : only_key key σ σ' -> move σ σ' (Some key, None) (None, None)
| move_complete key res :
    key_state_of σ' key = Completed res -> only_key key σ σ' ->
    move σ σ' (Some key, Some key) (None, Some key).

Lemma pstep_move `{W : Web3} settings eng φ ev φ' (σ σ' : St) :
  store_ok σ -> (forall key, held_key φ = Some key -> key <> "") ->
  pstep settings eng (fun _ => True) φ ev φ' -> store_step σ ev σ' ->
  store_ok σ' /\ move σ σ' (phase_summary φ) (summarize (phase_summary φ) ev).
Proof.
  intros Hok Hk Hp Hs. unfold store_step in Hs. destruct Hp; simpl in *; subst; try by (split; [done | by constructor]).
  - destruct e; try done; simpl in *; subst; (split; [done | by constructor]).
  - eapply reserve_ok_free in Hs as (? & ? & ? & ?); [|done..]. split; [done | by constructor].
  - eapply reserve_ok_free in Hs as (? & ? & ? & ?); [|done..]. split; [done | by constructor].
  - eapply reserve_err_same in Hs as (-> & _); [|done..]. split; [done|].
    match goal with H : _ \/ _ |- _ => destruct H as [->|[-> _]] end; by constructor.
  - destruct (release_spec key σ Hok) as (? & ? & _). split; [done | by constructor].
  - destruct (complete_spec key res σ Hok (Hk _ eq_refl)) as (σ1 & r1 & Hr & ? & ? & ?).
    assert (σ1 = σ') as -> by congruence. split; [done | by econstructor].
Qed.

(** [s] is the summary of each run, [σ0] the store the runs found. *)
Record exclusive (σ0 σ : St) (s : nat -> summary) : Prop := {
  ex_held i key : (s i).1 = Some key -> key <> "" /\ key_state_of σ0 key = Free /\ key_state_of σ key = InFlight;
  ex_one i j key : (s i).1 = Some key -> (s j).1 = Some key -> i = j;
  ex_submitted i key : (s i).2 = Some key ->
    key_state_of σ0 key = Free /\ ((s i).1 = Some key \/ exists res, key_state_of σ key = Completed res);
  ex_submitted_one i j key : (s i).2 = Some key -> (s j).2 = Some key -> i = j;
  ex_taken key : key_state_of σ0 key <> Free -> key_state_of σ key = key_state_of σ0 key
}.

Definition update (i : nat) (x : summary) (s : nat -> summary) (j : nat) : summary := if decide (j = i) then x else s j.

Lemma exclusive_ext σ0 σ s s' : (forall j, s' j = s j) -> exclusive σ0 σ s -> exclusive σ0 σ s'.
Proof.
  intros H [Hh H1 Hs Hs1 Ht]. split; intros *; rewrite ?H; [apply Hh | apply H1 | apply Hs | apply Hs1 | apply Ht].
Qed.

(** Run [i] moves to [x] while the store changes at most at [key], which no other run holds. *)
Lemma exclusive_update σ0 σ σ' s i x key :
  exclusive σ0 σ s -> only_key key σ σ' -> key_state_of σ0 key = Free ->
  (forall j, j <> i -> (s j).1 <> Some key) ->
  (forall res, key_state_of σ key = Completed res -> key_state_of σ' key = Completed res) ->
  (forall k, x.1 = Some k -> k = key /\ key <> "" /\ key_state_of σ' key = InFlight) ->
  (forall k, x.2 = Some k -> k = key /\ (x.1 = Some key \/ exists res, key_state_of σ' key = Completed res) /\
                            forall j, j <> i -> (s j).2 <> Some key) ->
  exclusive σ0 σ' (update i x s).
Proof.
  intros [Hh H1 Hs Hs1 Ht] Ho Hf Hoth Hc Hx1 Hx2. unfold update. split.
  - intros j k. case_decide as Hj; [by intros (-> & ? & ?)%Hx1|]. intros E.
    rewrite (Ho k) by (intros ->; by eapply Hoth). by apply (Hh j).
  - intros j1 j2 k. destruct (decide (j1 = i)) as [->|N1], (decide (j2 = i)) as [->|N2]; simpl; [done| | |apply H1].
    + intros (-> & _)%Hx1 E2. by apply Hoth in E2.
    + intros E1 (-> & _)%Hx1. by apply Hoth in E1.
  - intros j k. case_decide as Hj; [by intros (-> & ? & _)%Hx2|]. intros E.
    destruct (Hs _ _ E) as [HF [E'|[r E']]]; (split; [done|]); [by left | right].
    exists r. destruct (decide (k = key)) as [->|Hne]; [by apply Hc | by rewrite Ho].
  - intros j1 j2 k. destruct (decide (j1 = i)) as [->|N1], (decide (j2 = i)) as [->|N2]; simpl; [done| | |apply Hs1].
    + intros (-> & _ & Hn)%Hx2 E2. by apply Hn in E2.
    + intros E1 (-> & _ & Hn)%Hx2. by apply Hn in E1.
  - intros k Hk. rewrite Ho; [by apply Ht|]. by intros ->.
Qed.

(** What a run that holds a key knows of the others. *)
Lemma exclusive_holder σ0 σ s i key :
  exclusive σ0 σ s -> (s i).1 = Some key ->
  key <> "" /\ key_state_of σ0 key = Free /\ key_state_of σ key = InFlight /\
  (forall j, j <> i -> (s j).1 <> Some key) /\ (forall j, j <> i -> (s j).2 <> Some key).
Proof.
  intros [Hh H1 Hs Hs1 Ht] E. destruct (Hh _ _ E) as (? & ? & ?). split_and!; [done..| |].
  - intros j Hj Ej. apply Hj. by eapply H1.
  - intros j Hj Ej. destruct (Hs _ _ Ej) as [_ [E'|[r E']]]; [|congruence]. apply Hj. by eapply H1.
Qed.

Lemma exclusive_move σ0 σ σ' s i x :
  exclusive σ0 σ s -> move σ σ' (s i) x -> exclusive σ0 σ' (update i x s).
Proof.
  intros He Hm. remember (s i) as y eqn:Ey.
  assert (forall key b, y = (Some key, b) -> (s i).1 = Some key) as Hheld by (intros k b E; rewrite <- Ey, E; done).
  destruct Hm as [x ->|key Hne Hf Hi Ho|key ->|key Ho|key res Hc Ho].
  - apply (exclusive_ext _ _ s); [|done]. intros j. unfold update. by case_decide; subst.
  - apply (exclusive_update σ0 σ σ' s i _ key); simpl; try done; try naive_solver.
    + pose proof (ex_taken _ _ _ He key) as Ht. rewrite Hf in Ht. by destruct (key_state_of σ0 key); [|specialize (Ht ltac:(done))..].
    + intros j _ E. destruct (ex_held _ _ _ He _ _ E) as (_ & _ & E'). congruence.
    + congruence.
  - destruct (exclusive_holder σ0 σ s i key He (Hheld _ _ eq_refl)) as (? & ? & ? & ? & ?).
    by apply (exclusive_update σ0 σ σ s i _ key); simpl; try done; try naive_solver congruence.
  - destruct (exclusive_holder σ0 σ s i key He (Hheld _ _ eq_refl)) as (? & ? & ? & ? & ?).
    by apply (exclusive_update σ0 σ σ' s i _ key); simpl; try done; try naive_solver congruence.
  - destruct (exclusive_holder σ0 σ s i key He (Hheld _ _ eq_refl)) as (? & ? & ? & ? & ?).
    apply (exclusive_update σ0 σ σ' s i _ key); simpl; try done; [congruence|].
    intros k [= <-]. split_and!; [done | by right; exists res | done].
Qed.
End exclusion.

(** * Runs of the wallet graphs *)

Record request := { rq_kind : graph_kind; rq_state : MercuryState }.

(** Answers every run accepts, to complete a run that is still going. *)
Definition default_answer (e : effect) : ans e :=
  match e return ans e with
  | Release _ => tt
  | Complete key res => Ok {| ir_key := key; ir_status := COMPLETED; ir_result := Some res |}
  | Reserve _ => Err (OtherError (ValueError ""))
  | Now => 0%Z
  | ResolveChainId _ | LookupNonce _ _ | PopulateGas _ | Simulate _ | Broadcast _ | WaitForReceipt _ _ _ _
  | GetWalletAddress _ | SignTransaction _ | RequestApproval _ | CreateProvider _ | ContractCall _ _ _ _
  | GetQuote _ _ | BuildExecution _ _ => Err (ValueError "")
  end.

Definition finish_trace {A} (p : wallet A) : list wevent := run_trace (fun e (_ : unit) => (tt, default_answer e)) p tt.

Lemma default_good `{W : Web3} e : good (Ev e (default_answer e)).
Proof. by destruct e. Qed.

Lemma finish_good `{W : Web3} {A} (p : wallet A) : Forall good (finish_trace p).
Proof.
  unfold finish_trace. induction p as [a|e k IH]; simpl; constructor; [apply default_good | apply IH].
Qed.

Section runs.
Context `{W : Web3} {L : Web3Laws W} {PT : PydanticText} {PL : PydanticLax}.
Context {G : LangGraph effect MercuryState} {GL : LangGraphLaws merge_state G}.
Context {St : Type} `{IS : IdempotencyStore St} {LS : IdempotencyStoreLaws St}.
Context (settings : MercurySettings) (deps : TransactionGraphDependencies).

Definition run_request (q : request) : run := invoke (wallet_graph settings deps (rq_kind q)) (rq_state q).

Definition start (reqs : list request) : list run := map run_request reqs.

Definition well_posed (reqs : list request) : Prop := Forall (fun q => initial (rq_kind q) (rq_state q)) reqs.

Abbreviation psteps := (steps (pstep settings (policy_engine deps) (fun _ => True))).

Lemma no_run_no_calls (x y : list run * St) tr i : steps turn x tr y -> x.1 !! i = None -> calls_of i tr = [].
Proof.
  induction 1 as [x|x [j ev] x1 tr y Hs _ IH]; intros Hn; [done|].
  inversion Hs as [ps σ j' e k a σ' Hj Hst]; subst. simpl in *. destruct (decide (j = i)) as [->|Hne].
  - congruence.
  - apply IH. by rewrite list_lookup_insert_ne.
Qed.

(** Each run of a schedule is in some phase of the contract, finished or not. *)
Lemma run_phase reqs tr (σ0 : St) y i :
  well_posed reqs -> steps turn (start reqs, σ0) tr y -> Forall (fun x => good x.2) tr ->
  exists φ, psteps Idle (calls_of i tr) φ.
Proof.
  intros Hi Hs Hg. destruct (start reqs !! i) as [p|] eqn:Hp.
  - unfold start in Hp. rewrite list_lookup_fmap in Hp. apply fmap_Some in Hp as (q & Hq & ->).
    destruct (turns_residual _ _ _ Hs i (run_request q)) with (tr0 := @nil wevent) (p0 := run_request q)
      as (rest & _ & Hr); [by unfold start; simpl; rewrite list_lookup_fmap, Hq | done |].
    simpl in Hr.
    pose proof (residual_may _ _ _ _ _ Hr (run_may (fun e (_ : unit) => (tt, default_answer e)) rest tt)) as Hm.
    assert (Forall good (calls_of i tr ++ finish_trace rest)) as Hall
      by (apply Forall_app; split; [by apply calls_of_good | apply finish_good]).
    destruct (wallet_run settings deps (rq_kind q) (rq_state q) _ _
                (proj1 (Forall_lookup _ _) Hi _ _ Hq) Hm Hall) as (φ & s' & _ & Hps & _).
    apply psteps_mono, steps_app_inv in Hps as (φ1 & H1 & _). by exists φ1.
  - rewrite (no_run_no_calls _ _ _ _ Hs Hp). exists Idle. constructor.
Qed.

(** A run that has returned made a complete run of its graph. *)
Lemma returned_run reqs tr (σ0 : St) y i r :
  well_posed reqs -> steps turn (start reqs, σ0) tr y -> Forall (fun x => good x.2) tr -> y.1 !! i = Some (Ret r) ->
  exists φ s' q, reqs !! i = Some q /\ r = Ok s' /\
    steps (pstep settings (policy_engine deps) (requests settings (rq_kind q) (rq_state q) (calls_of i tr))) Idle (calls_of i tr) φ /\
    ended φ s'.
Proof.
  intros Hi Hs Hg Hr. destruct (lookup_lt_is_Some_2 (start reqs) i) as [p Hp].
  { apply lookup_lt_Some in Hr. by rewrite (turns_length _ _ _ Hs) in Hr. }
  unfold start in Hp. rewrite list_lookup_fmap in Hp. apply fmap_Some in Hp as (q & Hq & ->).
  destruct (turns_residual _ _ _ Hs i (run_request q)) with (tr0 := @nil wevent) (p0 := run_request q)
    as (rest & Hrest & Hres); [by unfold start; simpl; rewrite list_lookup_fmap, Hq | done |].
  assert (rest = Ret r) as -> by congruence. simpl in Hres.
  pose proof (residual_may _ _ _ [] r Hres (conj eq_refl eq_refl)) as Hm. rewrite app_nil_r in Hm.
  destruct (wallet_run settings deps (rq_kind q) (rq_state q) _ _ (proj1 (Forall_lookup _ _) Hi _ _ Hq) Hm
              (calls_of_good i tr Hg)) as (φ & s' & -> & Hps & He).
  by exists φ, s', q.
Qed.

Definition summaries (tr : schedule) (i : nat) : summary := summary_of (calls_of i tr).

Lemma summaries_snoc tr i ev j : summaries (tr ++ [(i, ev)]) j = update i (summarize (summaries tr i) ev) (summaries tr) j.
Proof.
  unfold summaries, update. rewrite calls_of_app. case_decide as Hj; subst.
  - by rewrite calls_of_same, summary_of_snoc.
  - by rewrite calls_of_other, app_nil_r by done.
Qed.

Lemma held_key_summary φ : (phase_summary φ).1 = held_key φ.
Proof. by destruct φ. Qed.

Lemma schedule_exclusive reqs tr (σ0 : St) y :
  well_posed reqs -> store_ok σ0 -> steps turn (start reqs, σ0) tr y -> Forall (fun x => good x.2) tr ->
  store_ok y.2 /\ exclusive σ0 y.2 (summaries tr).
Proof.
  intros Hi Hok. revert y. induction tr as [|[i ev] tr IH] using rev_ind; intros y Hs Hg.
  { inversion Hs; subst. split; [done|]. by split. }
  destruct (run_phase _ _ _ _ i Hi Hs Hg) as [φ' Hφ'].
  rewrite calls_of_app, calls_of_same in Hφ'. apply next_phase in Hφ' as (φ & Hφ & Hp & Hsum).
  apply Forall_app in Hg as [Hg _].
  apply steps_app_inv in Hs as (x & Hs & H1). inversion H1 as [|? ? ? ? ? Ht Hn]; subst. inversion Hn; subst.
  destruct (IH x Hs Hg) as [Hokx Hex]. inversion Ht as [ps σ i' e k a σ' Hl Hst]; subst. simpl in *.
  assert (forall key, held_key φ = Some key -> key <> "") as Hne.
  { intros key E. apply (ex_held _ _ _ Hex i). unfold summaries. by rewrite Hsum, held_key_summary. }
  destruct (pstep_move _ _ _ _ _ _ _ Hokx Hne Hp Hst) as [Hok' Hm]. split; [done|].
  rewrite <- Hsum in Hm.
  eapply exclusive_ext; [intros j; apply summaries_snoc|]. by eapply exclusive_move.
Qed.

(** The signature a run broadcasts, and the key it is sent under. *)
Lemma broadcast_summary reqs tr1 i sg (h : string) tr2 (σ0 : St) y :
  well_posed reqs -> store_ok σ0 -> steps turn (start reqs, σ0) (tr1 ++ (i, Ev (Broadcast sg) (Ok h)) :: tr2) y ->
  Forall (fun x => good x.2) (tr1 ++ (i, Ev (Broadcast sg) (Ok h)) :: tr2) ->
  exists t key, summaries tr1 i = (Some key, None) /\ et_idempotency_key t = Some key /\
    signed_in (calls_of i tr1) t sg /\ key_state_of σ0 key = Free.
Proof.
  intros Hi Hok Hs Hg. rewrite (cons_middle _ tr1 tr2), (assoc_L (++)) in Hs, Hg.
  apply steps_app_inv in Hs as (y1 & Hs & _). apply Forall_app in Hg as [Hg _].
  destruct (run_phase _ _ _ _ i Hi Hs Hg) as [φ' Hφ'].
  rewrite calls_of_app, calls_of_same in Hφ'. apply next_phase in Hφ' as (φ & Hφ & Hp & Hsum).
  apply steps_app_inv in Hs as (y0 & Hs & _). apply Forall_app in Hg as [Hg _].
  destruct (schedule_exclusive _ _ _ _ Hi Hok Hs Hg) as [_ Hex].
  apply broadcast_phase in Hp as (t & key & ->). apply history_steps in Hφ as (_ & (_ & _ & Hk & _) & Hsg & _).
  exists t, key. unfold summaries. split_and!; [done | done | done |].
  apply (ex_held _ _ _ Hex i). unfold summaries. by rewrite Hsum.
Qed.

(** Once submitted under a key, a run stays so. *)
Lemma submitted_stays reqs tr1 tr2 i key (σ0 : St) y :
  well_posed reqs -> steps turn (start reqs, σ0) (tr1 ++ tr2) y -> Forall (fun x => good x.2) (tr1 ++ tr2) ->
  (summaries tr1 i).2 = Some key -> (summaries (tr1 ++ tr2) i).2 = Some key.
Proof.
  intros Hi. revert y. induction tr2 as [|[j ev] tr2 IH] using rev_ind; intros y Hs Hg H1; [by rewrite app_nil_r|].
  rewrite (assoc_L (++)) in *. rewrite summaries_snoc. unfold update.
  pose proof (run_phase _ _ _ _ i Hi Hs Hg) as [φ' Hφ'].
  apply steps_app_inv in Hs as (y1 & Hs & _). apply Forall_app in Hg as [Hg _].
  specialize (IH _ Hs Hg H1). case_decide as Hj; [subst j|done].
  rewrite calls_of_app, calls_of_same in Hφ'. apply next_phase in Hφ' as (φ & _ & Hp & Hsum).
  unfold summaries in *. rewrite Hsum in *. rewrite <- (summarize_step _ _ _ _ _ Hp).
  destruct Hp; simpl in *; try done.
  match goal with H : _ \/ _ |- _ => by destruct H as [->|[-> _]] end.
Qed.
End runs.

(** * What concurrent requests guarantee *)

(** C20. However the calls of concurrent requests interleave over one store, two accepted broadcasts are never made
    under one idempotency key: each was made by a run that held the key of the transaction it had signed, a
    key free when the requests came in, and the keys of the two differ.  A request repeated while the first
    is running therefore sends nothing. *)
Theorem concurrent_submissions_distinct `{W : Web3} {L : Web3Laws W} {PT : PydanticText} {PL : PydanticLax}
    {G : LangGraph effect MercuryState} {GL : LangGraphLaws merge_state G}
    `{IS : IdempotencyStore St} {LS : IdempotencyStoreLaws St}
    (settings : MercurySettings) (deps : TransactionGraphDependencies) (reqs : list request) (σ0 : St) y
    tr1 i sg (h : string) tr2 j sg' (h' : string) tr3
    (Hi : well_posed reqs) (Hok : store_ok σ0)
    (Hrun : steps turn (start settings deps reqs, σ0)
              (tr1 ++ (i, Ev (Broadcast sg) (Ok h)) :: tr2 ++ (j, Ev (Broadcast sg') (Ok h')) :: tr3) y)
    (Hgood : Forall (fun x => good x.2)
              (tr1 ++ (i, Ev (Broadcast sg) (Ok h)) :: tr2 ++ (j, Ev (Broadcast sg') (Ok h')) :: tr3)) :
  let before := (tr1 ++ (i, Ev (Broadcast sg) (Ok h)) :: tr2)%list in
  exists t t' key key',
    signed_in (calls_of i tr1) t sg /\ et_idempotency_key t = Some key /\ holding (calls_of i tr1) = Some key /\
    signed_in (calls_of j before) t' sg' /\ et_idempotency_key t' = Some key' /\ holding (calls_of j before) = Some key' /\
    key <> key' /\ key_state_of σ0 key = Free /\ key_state_of σ0 key' = Free.
Proof.
  intros before.
  destruct (broadcast_summary settings deps reqs tr1 i sg h _ σ0 y Hi Hok Hrun Hgood) as (t & key & E & Hk & Hsg & Hf).
  change (tr1 ++ (i, Ev (Broadcast sg) (Ok h)) :: tr2 ++ (j, Ev (Broadcast sg') (Ok h')) :: tr3)%list
    with (tr1 ++ ((i, Ev (Broadcast sg) (Ok h)) :: tr2) ++ (j, Ev (Broadcast sg') (Ok h')) :: tr3)%list in *.
  rewrite (assoc_L (++)) in Hrun, Hgood. fold before in Hrun, Hgood.
  destruct (broadcast_summary settings deps reqs before j sg' h' tr3 σ0 y Hi Hok Hrun Hgood)
    as (t' & key' & E' & Hk' & Hsg' & Hf').
  apply steps_app_inv in Hrun as (y1 & Hrun & _). apply Forall_app in Hgood as [Hgood _].
  destruct (schedule_exclusive settings deps reqs before σ0 y1 Hi Hok Hrun Hgood) as [_ Hex].
  unfold before in Hrun, Hgood. rewrite cons_middle, (assoc_L (++)) in Hrun, Hgood.
  assert ((summaries (tr1 ++ [(i, Ev (Broadcast sg) (Ok h))]) i).2 = Some key) as Hsub
    by (rewrite summaries_snoc; unfold update; rewrite decide_True, E by done; done).
  pose proof (submitted_stays settings deps reqs _ tr2 i key σ0 y1 Hi Hrun Hgood Hsub) as Hstay.
  rewrite <- (assoc_L (++)) in Hstay. change (tr1 ++ _)%list with before in Hstay.
  exists t, t', key, key'. unfold holding. fold (summaries tr1 i) (summaries before j). rewrite E, E'.
  split_and!; try done. intros <-.
  destruct (ex_submitted _ _ _ Hex _ _ Hstay) as [_ [Hh|[res Hc]]].
  - assert (j = i) as -> by (apply (ex_one _ _ _ Hex j i key); [by rewrite E' | done]).
    rewrite E' in Hstay. done.
  - destruct (ex_held _ _ _ Hex j key) as (_ & _ & Hin); [by rewrite E' | congruence].
Qed.

(** C21. However the calls of concurrent requests interleave, at every moment no two runs hold the same idempotency
    key, a held key is in flight in the store and was free when the requests came in, and a key taken before
    them is held by none and keeps its record. *)
Theorem concurrent_keys_exclusive `{W : Web3} {L : Web3Laws W} {PT : PydanticText} {PL : PydanticLax}
    {G : LangGraph effect MercuryState} {GL : LangGraphLaws merge_state G}
    `{IS : IdempotencyStore St} {LS : IdempotencyStoreLaws St}
    (settings : MercurySettings) (deps : TransactionGraphDependencies) (reqs : list request) (σ0 σ : St) ps tr
    (Hi : well_posed reqs) (Hok : store_ok σ0)
    (Hrun : steps turn (start settings deps reqs, σ0) tr (ps, σ)) (Hgood : Forall (fun x => good x.2) tr) :
  store_ok σ /\
  (forall i j key, holding (calls_of i tr) = Some key -> holding (calls_of j tr) = Some key -> i = j) /\
  (forall i key, holding (calls_of i tr) = Some key -> key_state_of σ0 key = Free /\ key_state_of σ key = InFlight) /\
  (forall key, key_state_of σ0 key <> Free -> key_state_of σ key = key_state_of σ0 key) /\
  (forall i key, submitted (calls_of i tr) = Some key -> key_state_of σ0 key = Free /\ key_state_of σ key <> Free).
Proof.
  destruct (schedule_exclusive settings deps reqs tr σ0 (ps, σ) Hi Hok Hrun Hgood) as [Hok' Hex].
  split_and!; [done | apply Hex | | apply Hex |].
  - intros i key H. by destruct (ex_held _ _ _ Hex i key H) as (_ & ? & ?).
  - intros i key H. destruct (ex_submitted _ _ _ Hex i key H) as [? [Hh|[res Hc]]]; (split; [done|]); [|simpl in *; congruence].
    destruct (ex_held _ _ _ Hex i key Hh) as (_ & _ & E). simpl in *. congruence.
Qed.

(** * Every schedule ends *)

(** One more call has been answered. *)
Definition answered (q p : run) : Prop :=
  match p with Ret _ => False | Call e k => exists a, q = k a end.

Lemma answered_wf : well_founded answered.
Proof. intros p. induction p as [r|e k IH]; constructor; intros q Hq; [done | destruct Hq as [a ->]; apply IH]. Qed.

(** ... in one run of a pool. *)
Definition advanced (qs ps : list run) : Prop :=
  exists i e k a, ps !! i = Some (Call e k) /\ qs = <[i := k a]> ps.

Lemma advanced_wf : well_founded advanced.
Proof.
  intros ps. induction ps as [|p ps IHps]; [constructor; intros qs (i & e & k & a & Hi & _); by destruct i|].
  revert ps IHps. induction (answered_wf p) as [p _ IHp]. intros ps IHps.
  induction IHps as [ps Hps IH]. constructor. intros qs ([|i] & e & k & a & Hi & ->); simpl in *.
  - injection Hi as ->. apply IHp; [by exists a | by constructor].
  - apply IH. by exists i, e, k, a.
Qed.

(** The store always has an answer. *)
Lemma store_total {St : Type} `{IS : IdempotencyStore St} (σ : St) e : exists a σ', store_step σ (Ev e a) σ'.
Proof.
  unfold store_step; cbn [ev_call ev_answer]. pose proof (default_answer e) as a.
  destruct e; cbn [store_answers]; try (by exists a, σ).
  - by exists (store_reserve key σ).2, (store_reserve key σ).1; destruct (store_reserve key σ).
  - by exists tt, (store_release key σ).
  - by exists (store_complete key r σ).2, (store_complete key r σ).1; destruct (store_complete key r σ).
Qed.


(** * Sample schedules *)

(** Let the runs of a pool take turns in the given order, over the sample outside. *)
Fixpoint play (order : list nat) (ps : list run) (σ : InMemoryIdempotencyStore)
    : schedule * (list run * InMemoryIdempotencyStore) :=
  match order with
  | [] => ([], (ps, σ))
  | i :: order' =>
      match ps !! i with
      | Some (Call e k) =>
          let '(σ', a) := sample_handler e σ in
          let '(tr, y) := play order' (<[i := k a]> ps) σ' in
          ((i, Ev e a) :: tr, y)
      | _ => play order' ps σ
      end
  end.

Lemma play_turns order ps σ : steps turn (ps, σ) (play order ps σ).1 (play order ps σ).2.
Proof.
  revert ps σ. induction order as [|i order IH]; intros ps σ; simpl; [constructor|].
  destruct (ps !! i) as [[r|e k]|] eqn:E; [apply IH | | apply IH].
  destruct (sample_handler e σ) as [σ' a] eqn:Eh. specialize (IH (<[i:=k a]> ps) σ').
  destruct (play order _ σ') as [tr y]. simpl in *. eapply steps_cons; [|exact IH].
  constructor; [done | by apply sample_handler_store].
Qed.

Definition rounds (n : nat) : list nat := List.concat (repeat [0; 1]%nat n).

(** The same request twice, and two requests under different keys. *)
Definition twin_requests : list request :=
  [{| rq_kind := TransactionGraph; rq_state := sample_state |}; {| rq_kind := TransactionGraph; rq_state := sample_state |}].
Definition distinct_requests : list request :=
  [{| rq_kind := TransactionGraph; rq_state := sample_state |}; {| rq_kind := TransactionGraph; rq_state := quiet_state |}].

Definition schedule_of (reqs : list request) (n : nat) : schedule :=
  (play (rounds n) (start default_settings default_dependencies reqs) ∅).1.

Example twin_calls :
  map (fun x => (x.1, call_name x.2)) (schedule_of twin_requests 9) =
  [(0, "wallet"); (1, "wallet"); (0, "nonce"); (1, "nonce"); (0, "gas"); (1, "gas"); (0, "simulate"); (1, "simulate");
   (0, "approve"); (1, "approve"); (0, "reserve"); (1, "reserve"); (0, "sign"); (0, "broadcast"); (0, "wait")]%nat.
Proof. vm_compute. reflexivity. Qed.

Lemma schedule_turns reqs n :
  steps turn (start default_settings default_dependencies reqs, ∅) (schedule_of reqs n)
    (play (rounds n) (start default_settings default_dependencies reqs) ∅).2.
Proof. apply play_turns. Qed.

Lemma twin_well_posed : well_posed twin_requests.
Proof. repeat (apply Forall_cons; split); [exact sample_initial.. | constructor]. Qed.

Lemma distinct_well_posed : well_posed distinct_requests.
Proof. repeat (apply Forall_cons; split); [exact sample_initial | exact quiet_initial | constructor]. Qed.

Ltac solve_schedule :=
  match goal with |- Forall _ ?tr => eassert (tr = _) as -> by (vm_compute; reflexivity) end;
  repeat first [apply Forall_nil_2 | apply Forall_cons_2];
  unfold good; cbn [fst snd ev_call ev_answer good_answer]; try exact I;
  try (intros w [= <-]; exact sample_wallet_normalized);
  try (intros h [= <-]; reflexivity);
  try (intros rc [= <-]; unfold wf_TransactionReceipt; simpl;
       split_and!; [reflexivity | set_solver | by intros n [= <-] | by intros n [= <-]]);
  try reflexivity.

Lemma twin_good : Forall (fun x => good x.2) (schedule_of twin_requests 9).
Proof. solve_schedule. Qed.

Lemma distinct_good : Forall (fun x => good x.2) (schedule_of distinct_requests 9).
Proof. solve_schedule. Qed.

Lemma concurrent_submissions_distinct_witness :
  exists tr1 i sg h tr2 j sg' h' tr3 key key',
    schedule_of distinct_requests 9 =
      (tr1 ++ (i, Ev (Broadcast sg) (Ok h)) :: tr2 ++ (j, Ev (Broadcast sg') (Ok h')) :: tr3)%list /\
    holding (calls_of i tr1) = Some key /\ key <> key'.
Proof.
  pose proof distinct_good as Hg. pose proof (schedule_turns distinct_requests 9) as Hs.
  assert (exists tr1 i sg h tr2 j sg' h' tr3, schedule_of distinct_requests 9 =
    (tr1 ++ (i, Ev (Broadcast sg) (Ok h)) :: tr2 ++ (j, Ev (Broadcast sg') (Ok h')) :: tr3)%list)
    as (tr1 & i & sg & h & tr2 & j & sg' & h' & tr3 & E)
    by (eexists (take 13 (schedule_of distinct_requests 9)), _, _, _, [], _, _, _, (drop 15 (schedule_of distinct_requests 9));
        vm_compute; reflexivity).
  rewrite E in Hg, Hs.
  destruct (concurrent_submissions_distinct (IS := in_memory_store) default_settings default_dependencies distinct_requests (∅ : InMemoryIdempotencyStore) _ tr1 i sg h tr2 j sg' h' tr3
              distinct_well_posed in_memory_ok_empty Hs Hg) as (t & t' & key & key' & _ & _ & H1 & _ & _ & _ & H2 & _).
  exists tr1, i, sg, h, tr2, j, sg', h', tr3, key, key'. split_and!; [exact E | exact H1 | exact H2].
Defined.

(** While run 0 of the twins holds the key, the other does not. *)
Lemma concurrent_keys_exclusive_witness :
  holding (calls_of 0 (schedule_of twin_requests 9)) = Some "k1" /\
  holding (calls_of 1 (schedule_of twin_requests 9)) <> Some "k1".
Proof.
  assert (holding (calls_of 0 (schedule_of twin_requests 9)) = Some "k1") as H0 by (vm_compute; reflexivity).
  split; [exact H0|]. intros H1.
  pose proof (schedule_turns twin_requests 9) as Hs.
  destruct (play (rounds 9) (start default_settings default_dependencies twin_requests) ∅).2 as [ps σ].
  destruct (concurrent_keys_exclusive (IS := in_memory_store) default_settings default_dependencies twin_requests (∅ : InMemoryIdempotencyStore) σ ps _
              twin_well_posed in_memory_ok_empty Hs twin_good) as (_ & Hone & _).
  discriminate (Hone 0%nat 1%nat "k1" H0 H1).
Defined.

