(* ===== verification/Io.v ===== *)
(** The world below the wallet's own boundaries: the 1Claw client, the web3 client of an RPC node, the clock,
    and key operations of eth-account.

    [io] is the type of those calls; a call of [Effects.effect] that this development does not implement over
    them is passed on as [Outside]. *)
From stdpp Require Import base tactics option list sets strings.
From Stdlib Require Import ZArith Lia Ascii String.
From S2P Require Import Prelude Python Values Exceptions Redaction Errors Addresses Chains Models SwapModels.
From S2P Require Import Idempotency Prog Effects.

Local Open Scope string_scope.
Local Open Scope Z_scope.

(** A hash or binary blob of a client: [bytes] or [HexBytes] with its [hex()], or another object with its [str]. *)
Inductive blob : Type :=
| HexBlob (hex : string)
| OtherBlob (text : string).

(** The fields of a node's receipt and block that the source reads. *)
Record node_receipt := {
  nr_transactionHash : blob;
  nr_status : option Z;
  nr_blockNumber : Z;
  nr_gasUsed : Z
}.

Inductive io : Type :=
(* OneClawClient.get_secret *)
| ClientGetSecret (vault_id path : string) (agent_id : option string)
(* Web3(HTTPProvider(rpc_url)).eth *)
| GetTransactionCount (rpc_url address : string)
| EstimateGas (rpc_url : string) (fields : dict)
| MaxPriorityFee (rpc_url : string)
| LatestBaseFee (rpc_url : string)           (** [get_block("latest").get("baseFeePerGas")] *)
| GasPrice (rpc_url : string)
| EthCall (rpc_url : string) (fields : dict)
| GetBalance (rpc_url address : string)
| SendRawTransaction (rpc_url raw : string)
| WaitForTransactionReceipt (rpc_url tx_hash : string) (timeout : Z)
| BlockNumber (rpc_url : string)
(* time *)
| Monotonic                                  (** in nanoseconds *)
| Sleep (seconds : Z)
| Outside (e : effect).

#[export] Instance io_effects : Effects io := fun c =>
  match c with
  | ClientGetSecret _ _ _ => result exn (option string)
  | GetTransactionCount _ _ | EstimateGas _ _ | MaxPriorityFee _ | GasPrice _ | GetBalance _ _ | BlockNumber _ => result exn Z
  | LatestBaseFee _ => result exn (option Z)
  | EthCall _ _ => result exn unit
  | SendRawTransaction _ _ => result exn blob
  | WaitForTransactionReceipt _ _ _ => result exn node_receipt
  | Monotonic => Z
  | Sleep _ => unit
  | Outside e => ans e
  end.

Abbreviation node := (prog io).
Abbreviation ioevent := (event io).

Definition get_transaction_count (rpc address : string) : node (result exn Z) := Call (GetTransactionCount rpc address) Ret.
Definition estimate_gas (rpc : string) (fields : dict) : node (result exn Z) := Call (EstimateGas rpc fields) Ret.
Definition max_priority_fee (rpc : string) : node (result exn Z) := Call (MaxPriorityFee rpc) Ret.
(** [int(eth.get_block("latest")["baseFeePerGas"])] *)
Definition latest_base_fee (rpc : string) : node (result exn Z) :=
  Call (LatestBaseFee rpc) (fun r =>
    Ret (match r with
         | Ok (Some z) => Ok z
         | Ok None => Err (Exn KeyErrorC "'baseFeePerGas'")
         | Err e => Err e
         end)).
Definition gas_price (rpc : string) : node (result exn Z) := Call (GasPrice rpc) Ret.
Definition eth_call (rpc : string) (fields : dict) : node (result exn unit) := Call (EthCall rpc fields) Ret.
Definition get_balance (rpc address : string) : node (result exn Z) := Call (GetBalance rpc address) Ret.
Definition send_raw_transaction (rpc raw : string) : node (result exn blob) := Call (SendRawTransaction rpc raw) Ret.
Definition wait_for_transaction_receipt (rpc h : string) (timeout : Z) : node (result exn node_receipt) :=
  Call (WaitForTransactionReceipt rpc h timeout) Ret.
Definition block_number (rpc : string) : node (result exn Z) := Call (BlockNumber rpc) Ret.

(** eth-account: the address of a key, the signature of a transaction, the signature of typed data. *)
Class EthAccount := {
  account_address : string -> result exn string;
  account_sign_transaction : dict -> string -> result exn (blob * blob);   (** raw transaction, hash *)
  account_sign_typed_data : dict -> string -> result exn (blob * blob)      (** signature, message hash *)
}.

(** [_hex] of [tools/transactions.py] and of [custody/signer.py] *)
Definition _hex (value : blob) : string :=
  let text := match value with HexBlob h => h | OtherBlob t => t end in
  if py_startswith text "0x" then text else "0x" ++ text.

(** A blob that renders as hex data. *)
Definition hex_blob (b : blob) : Prop := is_hex_data (_hex b) = true.
