(* ===== verification/Custody.v ===== *)
(** Custody ([mercury/custody]: wallets.py, signer.py, the secret value and the 1Claw store of oneclaw.py) and the
    RPC URL and provider lookup that read the same secret store ([mercury/chains/rpc.py],
    [mercury/providers/web3.py]). *)
From stdpp Require Import base tactics option list sets strings.
From Stdlib Require Import ZArith Lia Ascii String.
From S2P Require Import Prelude Python Values Exceptions Redaction Errors Addresses Chains Models SwapModels.
From S2P Require Import Idempotency Prog Effects Io.

Local Open Scope string_scope.
Local Open Scope Z_scope.
Local Open Scope prog_scope.

(** * custody/errors.py *)

Definition SecretNotFoundError (path : string) : exn := Exn SecretNotFoundErrorC ("Secret not found at path '" ++ path ++ "'.").
Definition EmptySecretValueError (path : string) : exn := Exn EmptySecretValueErrorC ("Secret at path '" ++ path ++ "' is empty.").
Definition SecretStoreUnavailableError (path store_name : string) (detail : option string) : exn :=
  Exn SecretStoreUnavailableErrorC
    match detail with
    | Some d => store_name ++ ": " ++ d
    | None => store_name ++ " could not resolve secret path '" ++ path ++ "'."
    end.
Definition WalletIdValidationError : exn :=
  Exn WalletIdValidationErrorC "Wallet ID is empty or contains unsupported path characters.".
Definition WalletPrivateKeyError (wallet_id : string) : exn :=
  Exn WalletPrivateKeyErrorC ("Wallet private key for wallet '" ++ wallet_id ++ "' is unavailable or invalid.").
Definition SigningRequestError (text : string) : exn := Exn SigningRequestErrorC text.
Definition SigningFailedError : exn := Exn SigningFailedErrorC "Prepared payload could not be signed.".

(** [isinstance(exc, SignerError)] *)
Definition is_signer_error (e : exn) : bool :=
  match e with
  | Exn (WalletPrivateKeyErrorC | SigningRequestErrorC | SigningFailedErrorC) _ => true
  | _ => false
  end.

(** * custody/wallets.py *)

(** The pattern [^[A-Za-z0-9][A-Za-z0-9_.-]{0,127}$] on a whole string. *)
Definition _SAFE_WALLET_ID (s : string) : bool :=
  match s with
  | EmptyString => false
  | String c s' => ascii_alnum c && str_forall (fun d => ascii_alnum d || in_str "_.-" d) s' && (str_len s' <=? 127)
  end.

Definition validate_wallet_id (wallet_id : string) : result exn string :=
  let candidate := py_strip wallet_id in
  if str_empty candidate || negb (_SAFE_WALLET_ID candidate) || String.eqb candidate "." || String.eqb candidate ".."
     || py_contains ".." candidate
  then Err WalletIdValidationError
  else Ok candidate.

Definition wallet_private_key_path (wallet_id : string) : result exn string :=
  w ← validate_wallet_id wallet_id; Ok ("mercury/wallets/" ++ w ++ "/private_key").

(** * custody/oneclaw.py: the secret value and the store *)

Record SecretValue := { sv_path : string; sv_value : string }.

Definition make_SecretValue (path value : string) : result exn SecretValue :=
  if str_empty (py_strip path) then Err (ValueError "Secret path must not be empty.")
  else if str_empty (py_strip value) then Err (EmptySecretValueError path)
  else Ok {| sv_path := path; sv_value := value |}.

Definition reveal (s : SecretValue) : string := sv_value s.

Record OneClawSecretStore := { os_vault_id : string; os_agent_id : option string }.

Definition make_OneClawSecretStore (vault_id : string) (agent_id : option string) : result exn OneClawSecretStore :=
  if str_empty (py_strip vault_id) then Err (ValueError "1Claw vault ID must not be empty.")
  else Ok {| os_vault_id := vault_id; os_agent_id := agent_id |}.

Definition store_get_secret (store : OneClawSecretStore) (path : string) : node (result exn SecretValue) :=
  if str_empty (py_strip path) then Ret (Err (ValueError "Secret path must not be empty.")) else
  Call (ClientGetSecret (os_vault_id store) path (os_agent_id store)) (fun r =>
    Ret (match r with
         | Ok (Some value) => make_SecretValue path value
         | Ok None => Err (SecretNotFoundError path)
         | Err (Exn (SecretNotFoundErrorC | EmptySecretValueErrorC | SecretStoreUnavailableErrorC) _ as exc) => Err exc
         | Err _ => Err (SecretStoreUnavailableError path "1Claw" None)
         end)).

(** * chains/rpc.py and providers/web3.py *)

(** A provider: the chain and the client, which is its RPC URL. *)
Record Web3Provider := { wp_chain : ChainConfig; wp_rpc_url : string }.

Section providers.
Context {W : Web3} (settings : MercurySettings) (store : OneClawSecretStore).

Definition resolve_rpc_url (chain_name : string) : node (result exn string) :=
  chain <- pure (get_chain_by_name settings chain_name);;
  secret <- store_get_secret store (cc_rpc_secret_path chain);;
  ret_ok (reveal secret).

Definition Web3ProviderFactory_create (chain_name : string) : node (result exn Web3Provider) :=
  chain <- pure (get_chain_by_name settings chain_name);;
  rpc_url <- resolve_rpc_url (cc_name chain);;
  ret_ok {| wp_chain := chain; wp_rpc_url := rpc_url |}.
End providers.

(** * custody/signer.py *)

Section signer.
Context {W : Web3} {K : EthAccount} (store : OneClawSecretStore).

(** The pattern [^(?:0x)?[a-fA-F0-9]{64}$] on a whole string. *)
Definition _PRIVATE_KEY_HEX (s : string) : bool :=
  let hex64 t := (str_len t =? 64) && str_forall is_hex_digit t in
  hex64 s || (py_startswith s "0x" && hex64 (str_drop 2 s)).

Definition _normalize_private_key (private_key wallet_id : string) : result exn string :=
  let candidate := py_strip private_key in
  if negb (_PRIVATE_KEY_HEX candidate) then Err (WalletPrivateKeyError wallet_id)
  else Ok (if py_startswith candidate "0x" then candidate else "0x" ++ candidate).

Definition _load_private_key (wallet_id : string) : node (result exn string) :=
  path <- pure (wallet_private_key_path wallet_id);;
  try_except
    (secret <- store_get_secret store path;;
     pure (_normalize_private_key (reveal secret) wallet_id))
    (fun exc =>
       if has_class SecretNotFoundErrorC exc || has_class EmptySecretValueErrorC exc || is_value_error exc
       then Ret (Err (WalletPrivateKeyError wallet_id)) else Ret (Err exc)).

(** [normalize_evm_address(Account.from_key(private_key).address)], any failure reported as the wallet's *)
Definition _derive_address (wallet_id private_key : string) : result exn string :=
  match a ← account_address private_key; normalize_evm_address a with
  | Ok address => Ok address
  | Err _ => Err (WalletPrivateKeyError wallet_id)
  end.

Definition _validate_expected_address (expected_address : option string) (signer_address : string) : result exn unit :=
  match expected_address with
  | None => Ok tt
  | Some e =>
      a ← normalize_evm_address e;
      if String.eqb a signer_address then Ok tt
      else Err (SigningRequestError "Expected wallet address does not match signing key.")
  end.

Definition signer_get_wallet_address (wallet_id : string) : node (result exn WalletAddressResult) :=
  normalized_wallet_id <- pure (validate_wallet_id wallet_id);;
  private_key <- _load_private_key normalized_wallet_id;;
  address <- pure (_derive_address normalized_wallet_id private_key);;
  pure (make_WalletAddressResult normalized_wallet_id address).

(** [except SignerError: raise; except Exception: raise SigningFailedError()] *)
Definition signing_failed_unless_signer (exc : exn) : exn := if is_signer_error exc then exc else SigningFailedError.

Definition signer_sign_transaction (r : SignTransactionRequest) : node (result exn SignedTransactionResult) :=
  wallet_id <- pure (validate_wallet_id (wr_wallet_id (st_wallet r)));;
  private_key <- _load_private_key wallet_id;;
  signer_address <- pure (_derive_address wallet_id private_key);;
  _ <- pure (_validate_expected_address (wr_expected_address (st_wallet r)) signer_address);;
  signed <- pure (match account_sign_transaction (as_signable_dict (st_prepared_transaction r)) private_key with
                  | Ok s => Ok s
                  | Err exc => Err (signing_failed_unless_signer exc)
                  end);;
  pure (make_SignedTransactionResult wallet_id (st_chain_id r) signer_address (_hex signed.1) (_hex signed.2)).

Definition signer_sign_typed_data (r : SignTypedDataRequest) : node (result exn SignedTypedDataResult) :=
  wallet_id <- pure (validate_wallet_id (wr_wallet_id (Models.sd_wallet r)));;
  private_key <- _load_private_key wallet_id;;
  signer_address <- pure (_derive_address wallet_id private_key);;
  _ <- pure (_validate_expected_address (wr_expected_address (Models.sd_wallet r)) signer_address);;
  signed <- pure (match account_sign_typed_data (sd_typed_data r) private_key with
                  | Ok s => Ok s
                  | Err _ => Err SigningFailedError
                  end);;
  pure (make_SignedTypedDataResult wallet_id (sd_chain_id r) signer_address (_hex signed.1) (_hex signed.2)).
End signer.
