(* ===== verification/CustodySpec.v ===== *)
(** What the custody layer promises: secret paths stay inside their wallet, and a signature is made with the key of
    the wallet it names. *)
From stdpp Require Import base tactics option list sets strings.
From Stdlib Require Import ZArith Lia Ascii String.
From S2P Require Import Prelude Python Values Exceptions Redaction Errors Addresses Chains Models SwapModels.
From S2P Require Import Idempotency Prog Effects Io Custody.

Local Open Scope string_scope.
Local Open Scope Z_scope.

(** * Wallet ids and paths *)

Definition no_slash (s : string) : Prop := str_forall (fun c => negb (Ascii.eqb c "/")) s = true.

Lemma safe_no_slash s : _SAFE_WALLET_ID s = true -> no_slash s.
Proof.
  assert (forall c, ascii_alnum c || in_str "_.-" c = true -> negb (Ascii.eqb c "/") = true) as Hc.
  { intros c. destruct (Ascii.eqb_spec c "/") as [->|]; [by vm_compute | done]. }
  unfold no_slash. destruct s as [|c s]; [done|]. cbn [_SAFE_WALLET_ID str_forall].
  rewrite !andb_true_iff. intros [[H1 H2] _]. split; [apply Hc; by rewrite H1|].
  revert H2. induction s as [|d s IH]; [done|]. cbn [str_forall]. rewrite !andb_true_iff. intros [Hd Hs].
  split; [by apply Hc | by apply IH].
Qed.

Lemma validate_wallet_id_ok wallet_id w :
  validate_wallet_id wallet_id = Ok w ->
  w = py_strip wallet_id /\ w <> "" /\ no_slash w /\ py_contains ".." w = false /\ w <> "." /\ str_len w <= 128.
Proof.
  unfold validate_wallet_id. destruct (_ || _) eqn:E; [done|]. intros [= <-].
  rewrite !orb_false_iff, negb_false_iff in E. destruct E as [[[[Hne Hs] Hd] _] Hdd].
  split_and!; try done.
  - by apply str_empty_false.
  - by apply safe_no_slash.
  - by apply String.eqb_neq.
  - destruct (py_strip wallet_id) as [|c s]; [done|]. cbn [_SAFE_WALLET_ID] in Hs.
    rewrite !andb_true_iff, Z.leb_le in Hs. rewrite str_len_cons. lia.
Qed.

(** A validated id validates to itself. *)
Lemma validate_wallet_id_idem wallet_id w : validate_wallet_id wallet_id = Ok w -> validate_wallet_id w = Ok w.
Proof.
  intros H. pose proof (validate_wallet_id_ok _ _ H) as (-> & _). unfold validate_wallet_id in *.
  assert (py_strip (py_strip wallet_id) = py_strip wallet_id) as ->; [|done].
  destruct (_ || _) eqn:E; [done|]. rewrite !orb_false_iff, negb_false_iff in E. destruct E as [[[[_ Hs] _] _] _].
  apply py_strip_nospace.
  assert (forall c, ascii_alnum c || in_str "_.-" c = true -> negb (is_space c) = true) as Hc
    by (intros [[] [] [] [] [] [] [] []]; vm_compute; congruence).
  destruct (py_strip wallet_id) as [|c s]; [done|]. cbn [_SAFE_WALLET_ID] in Hs. rewrite !andb_true_iff in Hs.
  destruct Hs as [[H1 H2] _]. cbn [str_forall]. apply andb_true_iff. split; [apply Hc; by rewrite H1|].
  clear -Hc H2. induction s as [|d s IH]; [done|]. cbn [str_forall] in *. rewrite !andb_true_iff in *.
  destruct H2 as [Hd Hs]. split; [by apply Hc | by apply IH].
Qed.

Lemma no_slash_prefix a b x y : no_slash a -> no_slash b -> (a ++ String "/" x = b ++ String "/" y)%string -> a = b.
Proof.
  revert b. induction a as [|c a IH]; intros [|d b] Ha Hb E; simpl in *; [done| | |].
  - injection E as <- _. by cbn in Hb.
  - injection E as -> _. by cbn in Ha.
  - injection E as -> E. unfold no_slash in *. cbn [str_forall] in *. rewrite !andb_true_iff in *. f_equal.
    apply IH; tauto.
Qed.

(** C35. The private-key path of a wallet id names one directory below [mercury/wallets/]: the id it embeds is the
    stripped id, not empty, without a path separator or a parent reference, and two ids share a path only if
    they are the same id. *)
Theorem wallet_paths_confined (wallet_id other path : string) (H : wallet_private_key_path wallet_id = Ok path) :
  (exists w, path = "mercury/wallets/" ++ w ++ "/private_key" /\ w = py_strip wallet_id /\ w <> "" /\ w <> "." /\
             no_slash w /\ py_contains ".." w = false /\ str_len w <= 128) /\
  (wallet_private_key_path other = Ok path -> py_strip other = py_strip wallet_id).
Proof.
  unfold wallet_private_key_path in *. inv_ok. subst path.
  pose proof (validate_wallet_id_ok _ _ E) as (Hw & ? & ? & ? & ? & ?).
  split; [by exists v|]. intros Ho. inv_ok. pose proof (validate_wallet_id_ok _ _ E0) as (Hw' & _ & ? & _).
  rewrite <- Hw, <- Hw'. eapply no_slash_prefix; [done | done | exact Ho].
Qed.

Lemma wallet_paths_confined_witness :
  wallet_private_key_path " primary-1 " = Ok "mercury/wallets/primary-1/private_key" /\
  exists w, "mercury/wallets/primary-1/private_key" = "mercury/wallets/" ++ w ++ "/private_key" /\ no_slash w.
Proof.
  split; [vm_compute; reflexivity|].
  destruct (wallet_paths_confined " primary-1 " "x" "mercury/wallets/primary-1/private_key" ltac:(vm_compute; reflexivity))
    as [(w & H1 & _ & _ & _ & H2 & _) _].
  exists w. split; [exact H1 | exact H2].
Defined.

Example path_refuses_parent : wallet_private_key_path "a/../b" = Err WalletIdValidationError.
Proof. vm_compute. reflexivity. Qed.
Example path_refuses_dots : wallet_private_key_path "a..b" = Err WalletIdValidationError.
Proof. vm_compute. reflexivity. Qed.

(** * Reads of the secret store *)

Section reads.
Context {W : Web3} (settings : MercurySettings) (store : OneClawSecretStore).

(** The read of one secret. *)
Definition secret_read (path value : string) : ioevent :=
  Ev (ClientGetSecret (os_vault_id store) path (os_agent_id store)) (Ok (Some value)).

Lemma store_get_secret_ok path tr sv :
  may (store_get_secret store path) tr (Ok sv) -> tr = [secret_read path (reveal sv)].
Proof.
  unfold store_get_secret. destruct (str_empty _); [by intros [_ [=]]|].
  intros (r & tr' & -> & E). cbn [may] in E. destruct E as [-> E]. destruct r as [[v|]|e].
  - unfold make_SecretValue in E. destruct (str_empty (py_strip path)), (str_empty (py_strip v)); simplify_eq. done.
  - done.
  - destruct e as [[]|]; discriminate E.
Qed.

(** A provider of a chain, with the RPC URL stored for it. *)
Definition chain_rpc (c : ChainConfig) (rpc : string) (tr : list ioevent) : Prop :=
  secret_read (cc_rpc_secret_path c) rpc ∈ tr.

Lemma create_ok name tr p :
  may (Web3ProviderFactory_create settings store name) tr (Ok p) ->
  get_chain_by_name settings name = Ok (wp_chain p) /\ chain_rpc (wp_chain p) (wp_rpc_url p) tr.
Proof.
  unfold Web3ProviderFactory_create, resolve_rpc_url. intros H. inv_run.
  destruct (by_name_again settings name a Er0) as [Hc _]. rewrite Er in Hc. injection Hc as ->.
  injection Er1 as ->. injection Er2 as ->.
  match goal with H : may (store_get_secret _ _) _ _ |- _ => apply store_get_secret_ok in H as -> end.
  split; [exact Er0|]. unfold chain_rpc. simpl. find_in.
Qed.

End reads.

(** * The signer *)

Section signer.
Context `{W : Web3} {L : Web3Laws W} {K : EthAccount} (store : OneClawSecretStore).

(** A key read for a wallet in a trace. *)
Definition wallet_key (tr : list ioevent) (wallet_id w key : string) : Prop :=
  validate_wallet_id wallet_id = Ok w /\
  exists secret, secret_read store ("mercury/wallets/" ++ w ++ "/private_key") secret ∈ tr /\
                 _normalize_private_key secret w = Ok key.

Lemma load_private_key_ok wallet_id w tr key :
  validate_wallet_id wallet_id = Ok w -> may (_load_private_key store w) tr (Ok key) -> wallet_key tr wallet_id w key.
Proof.
  intros Hv H. split; [done|]. unfold _load_private_key in H. inv_run.
  unfold wallet_private_key_path in *. rewrite (validate_wallet_id_idem _ _ Hv) in Er. injection Er as <-.
  apply may_try_except in H as [(x & H & [= <-])|(l1 & l2 & e & -> & _ & H)].
  - inv_run. match goal with H : may (store_get_secret _ _) _ _ |- _ => apply store_get_secret_ok in H as -> end.
    eexists. split; [|done]. find_in.
  - destruct (_ || _); by destruct H as [_ [=]].
Qed.

Lemma derive_address_ok wallet_id key a :
  _derive_address wallet_id key = Ok a ->
  exists raw, account_address key = Ok raw /\ normalize_evm_address raw = Ok a.
Proof.
  unfold _derive_address. destruct (_ ≫= _) as [x|] eqn:E; [|done]. intros [= <-]. inv_ok. eauto.
Qed.

Lemma expected_address_ok e a : _validate_expected_address e a = Ok tt -> forall x, e = Some x -> normalize_evm_address x = Ok a.
Proof.
  unfold _validate_expected_address. intros H x ->. inv_ok. destruct (String.eqb_spec v a) as [->|]; [done | discriminate].
Qed.

Lemma get_wallet_address_ok wallet_id tr w :
  may (signer_get_wallet_address store wallet_id) tr (Ok w) -> normalized (wa_address w).
Proof.
  unfold signer_get_wallet_address. intros H. inv_run. unfold make_WalletAddressResult in *. inv_valid. subst. simpl.
  match goal with H : v_address_field _ _ = Ok _ |- _ => apply v_address_field_ok in H; by eexists end.
Qed.

(** A signature: the transaction of the request, signed with the key of the wallet of the request. *)
Definition signed_with (tr : list ioevent) (r : SignTransactionRequest) (sg : SignedTransactionResult) : Prop :=
  exists w key raw hash,
    wallet_key tr (wr_wallet_id (st_wallet r)) w key /\
    account_sign_transaction (as_signable_dict (st_prepared_transaction r)) key = Ok (raw, hash) /\
    sg_raw_transaction_hex sg = _hex raw /\ sg_tx_hash sg = _hex hash /\ sg_chain_id sg = st_chain_id r /\
    (exists a, account_address key = Ok a /\ normalize_evm_address a = Ok (sg_signer_address sg)) /\
    (forall e, wr_expected_address (st_wallet r) = Some e -> normalize_evm_address e = Ok (sg_signer_address sg)).

Lemma sign_transaction_ok r tr sg : may (signer_sign_transaction store r) tr (Ok sg) -> signed_with tr r sg.
Proof.
  unfold signer_sign_transaction. intros H. inv_run.
  destruct (account_sign_transaction _ _) as [[raw hash]|] eqn:Es; [|discriminate]. simplify_eq.
  match goal with H : may (_load_private_key _ _) _ _ |- _ => eapply load_private_key_ok in H; [|done] end.
  match goal with H : _derive_address _ _ = Ok _ |- _ => pose proof (derive_address_ok _ _ _ H) as (ra & Hra & Hna) end.
  match goal with H : _validate_expected_address _ _ = Ok ?u |- _ => destruct u; pose proof (expected_address_ok _ _ H) as Hex end.
  unfold make_SignedTransactionResult in *. inv_valid. inv_ok. subst.
  simpl in *.
  match goal with H : normalize_evm_address s1 = Ok _ |- _ => rewrite (normalize_idem s1) in H by eauto with mercury; injection H as <- end.
  match goal with H : v_hex _ (_hex raw) = _, H' : v_hex _ (_hex hash) = _ |- _ => apply v_hex_ok in H as [<- _], H' as [<- _] end.
  rewrite app_nil_r. eexists s2, _, raw, hash. split_and!; try done. by exists ra.
Qed.
End signer.
