(* ===== verification/Backend.v ===== *)
(** The Web3 transaction backend ([Web3TransactionBackend] of [mercury/tools/transactions.py]) over the web3 client,
    and the wallet's boundaries implemented over it and the signer. *)
From stdpp Require Import base tactics option list sets strings.
From Stdlib Require Import ZArith Lia Ascii String.
From S2P Require Import Prelude Python Values Exceptions Redaction Errors Addresses Chains Models SwapModels.
From S2P Require Import Idempotency Prog Effects Io Custody.

Local Open Scope string_scope.
Local Open Scope Z_scope.
Local Open Scope prog_scope.

(** [{key: value for key, value in fields.items() if value is not None}] *)
Definition drop_none (fields : dict) : dict := filter (fun kv => is_none kv.2 = false) fields.

Definition transaction_fields (chain_id : option Z) (from : option string) (to : string) (value : Z) (data : string)
    (nonce : option Z) (gas : option GasFees) : dict :=
  let fields := [("chainId", of_opt_int chain_id); ("from", of_opt_str from); ("to", VStr to); ("value", VInt value);
                 ("data", VStr data); ("nonce", of_opt_int nonce)] in
  drop_none (match gas with Some g => dict_update fields (to_transaction_fields g) | None => fields end).

Definition pt_transaction_fields (t : PreparedTransaction) : dict :=
  transaction_fields (pt_chain_id t) (pt_from_address t) (pt_to t) (pt_value_wei t) (pt_data t) (pt_nonce t) (pt_gas t).

Definition et_transaction_fields (t : ExecutableTransaction) : dict :=
  transaction_fields (Some (et_chain_id t)) (et_from_address t) (et_to t) (et_value_wei t) (et_data t)
    (Some (et_nonce t)) (Some (et_gas t)).

(** [transaction.gas.max_fee_per_gas or transaction.gas.gas_price or 0] *)
Definition fee_bound (g : GasFees) : Z :=
  match gf_max_fee_per_gas g with
  | Some (Z0) | None => default 0 (gf_gas_price g)
  | Some z => z
  end.

(** [value + gas limit * fee]: what the wallet must own. *)
Definition required_wei (t : ExecutableTransaction) : Z :=
  et_value_wei t + gf_gas_limit (et_gas t) * fee_bound (et_gas t).

Section backend.
Context {W : Web3} {PT : PydanticText} (settings : MercurySettings) (store : OneClawSecretStore).

Definition create_web3 (chain : string) : node (result exn Web3Provider) := Web3ProviderFactory_create settings store chain.

Definition backend_resolve_chain_id (t : PreparedTransaction) : node (result exn Z) :=
  provider <- create_web3 (pt_chain t);;
  ret_ok (cc_chain_id (wp_chain provider)).

Definition backend_lookup_nonce (t : PreparedTransaction) (wallet_address : string) : node (result exn Z) :=
  provider <- create_web3 (pt_chain t);;
  get_transaction_count (wp_rpc_url provider) wallet_address.

Definition backend_populate_gas (t : PreparedTransaction) : node (result exn GasFees) :=
  match pt_gas t with
  | Some gas => ret_ok gas
  | None =>
      provider <- create_web3 (pt_chain t);;
      let rpc := wp_rpc_url provider in
      gas_limit <- estimate_gas rpc (pt_transaction_fields t);;
      try_except
        (priority_fee <- max_priority_fee rpc;;
         base_fee <- latest_base_fee rpc;;
         pure (make_GasFees gas_limit (Some (base_fee * 2 + priority_fee)) (Some priority_fee) None))
        (fun _ =>
           price <- gas_price rpc;;
           pure (make_GasFees gas_limit None None (Some price)))
  end.

Definition backend_simulate (t : ExecutableTransaction) : node (result exn SimulationResult) :=
  provider <- create_web3 (et_chain t);;
  let rpc := wp_rpc_url provider in
  try_except
    (if negb (cc_chain_id (wp_chain provider) =? et_chain_id t)
     then pure (make_SimulationResult SIM_FAILED None
                  (Some "Prepared transaction chain_id does not match resolved chain."))
     else
       let tx_fields := et_transaction_fields t in
       _ <- eth_call rpc tx_fields;;
       gas_estimate <- estimate_gas rpc tx_fields;;
       match et_from_address t with
       | Some from =>
           balance <- get_balance rpc from;;
           if balance <? required_wei t
           then pure (make_SimulationResult SIM_FAILED (Some gas_estimate)
                        (Some "Wallet balance is insufficient for value plus maximum gas."))
           else pure (make_SimulationResult SIM_PASSED (Some gas_estimate) None)
       | None => pure (make_SimulationResult SIM_PASSED (Some gas_estimate) None)
       end)
    (fun exc =>
       let err := normalize_exception exc (Some "simulate") (Some "simulation_failed") in
       pure (make_SimulationResult SIM_FAILED None (Some (ei_message err)))).

Definition _chain_name_for_id (chain_id : Z) : result exn string :=
  c ← get_chain_by_id settings chain_id; Ok (cc_name c).

Definition backend_broadcast (s : SignedTransactionResult) : node (result exn string) :=
  chain <- pure (_chain_name_for_id (sg_chain_id s));;
  provider <- create_web3 chain;;
  tx_hash <- send_raw_transaction (wp_rpc_url provider) (sg_raw_transaction_hex s);;
  ret_ok (_hex tx_hash).

(** [time.monotonic()] in nanoseconds. *)
Definition monotonic : node (result exn Z) := Call Monotonic (fun t => Ret (Ok t)).
Definition sleep (seconds : Z) : node (result exn unit) := Call (Sleep seconds) (fun _ => Ret (Ok tt)).
Definition SECOND : Z := 10 ^ 9.

(** The [while] loop; [POLLS] rounds of it always reach the deadline. *)
Definition POLLS : nat := 121.
Definition loop_exhausted : exn := Exn ExceptionC "confirmation loop".

Fixpoint confirmations_loop (fuel : nat) (rpc : string) (deadline number confirmations : Z) : node (result exn unit) :=
  match fuel with
  | O => Ret (Err loop_exhausted)
  | S fuel' =>
      now <- monotonic;;
      if now <? deadline then
        current_block <- block_number rpc;;
        if confirmations <=? current_block - number + 1 then ret_ok tt else
        _ <- sleep 1;;
        confirmations_loop fuel' rpc deadline number confirmations
      else ret_ok tt
  end.

Definition _wait_for_confirmations (rpc : string) (number confirmations : Z) : node (result exn unit) :=
  start <- monotonic;;
  confirmations_loop POLLS rpc (start + 120 * SECOND) number confirmations.

Definition backend_wait_for_receipt (chain tx_hash : string) (timeout_seconds confirmations : Z)
    : node (result exn TransactionReceipt) :=
  provider <- create_web3 chain;;
  let rpc := wp_rpc_url provider in
  outcome <- try_except
    (receipt <- wait_for_transaction_receipt rpc tx_hash timeout_seconds;; ret_ok (Some receipt))
    (fun exc => if has_class TimeoutErrorC exc then ret_ok None else Ret (Err exc));;
  match outcome with
  | None => pure (make_TransactionReceipt tx_hash PENDING None None)
  | Some receipt =>
      _ <- (if 0 <? confirmations then _wait_for_confirmations rpc (nr_blockNumber receipt) confirmations else ret_ok tt);;
      pure (make_TransactionReceipt (_hex (nr_transactionHash receipt))
              (if default 1 (nr_status receipt) =? 1 then CONFIRMED else FAILED)
              (Some (nr_blockNumber receipt)) (Some (nr_gasUsed receipt)))
  end.

(** * The boundaries, implemented *)

Context {K : EthAccount} (approve : ApprovalRequest -> result exn ApprovalResult).

Definition outside (e : effect) : node (ans e) := @Call io io_effects (ans e) (Outside e) (fun a => @Ret io io_effects (ans e) a).

(** A call of the wallet: the backend and the signer answer theirs, a provider is looked up, an approver decides,
    and the rest (the idempotency store, contract reads, swap providers, the clock) stays outside. *)
Definition implement (e : effect) : node (ans e) :=
  match e return node (ans e) with
  | ResolveChainId t => backend_resolve_chain_id t
  | LookupNonce t a => backend_lookup_nonce t a
  | PopulateGas t => backend_populate_gas t
  | Simulate t => backend_simulate t
  | Broadcast s => backend_broadcast s
  | WaitForReceipt chain h timeout confirmations => backend_wait_for_receipt chain h timeout confirmations
  | GetWalletAddress w => signer_get_wallet_address store w
  | SignTransaction r => signer_sign_transaction store r
  | RequestApproval q => Ret (approve q)
  | CreateProvider name => provider <- create_web3 name;; ret_ok (wp_chain provider)
  | Reserve key => outside (Reserve key)
  | Release key => outside (Release key)
  | Complete key res => outside (Complete key res)
  | ContractCall cfg a f args => outside (ContractCall cfg a f args)
  | GetQuote p r => outside (GetQuote p r)
  | BuildExecution p q => outside (BuildExecution p q)
  | Now => outside Now
  end.
End backend.
