(* ===== verification/BackendSpec.v ===== *)
(** The backend and the signer keep the promises the pipeline relies on: their answers, the transaction they send, and
    the loops they run. *)
From stdpp Require Import base tactics option list sets strings.
From Stdlib Require Import ZArith Lia Ascii String.
From S2P Require Import Prelude Python Values Exceptions Redaction Errors Addresses Chains Models SwapModels Policy.
From S2P Require Import Idempotency Prog Effects Io Custody CustodySpec Backend Transactions Pipeline Protocol PipelineSpec.

Local Open Scope string_scope.
Local Open Scope Z_scope.

#[local] Opaque get_chain_by_name get_chain_by_id.

(** What the clients document: hashes are hex, and what stays outside keeps the promises of the wallet's calls. *)
Definition io_good_answer `{W : Web3} (c : io) : ans c -> Prop :=
  match c return ans c -> Prop with
  | SendRawTransaction _ _ => fun r => forall b, r = Ok b -> hex_blob b
  | Outside e => fun a => good_answer e a
  | _ => fun _ => True
  end.

Definition io_good `{W : Web3} (ev : ioevent) : Prop := io_good_answer (ev_call ev) (ev_answer ev).

Lemma chain_id_positive {W : Web3} settings name c : get_chain_by_name settings name = Ok c -> 0 < cc_chain_id c.
Proof.
  intros (cs & Hcs & Hc & _)%by_name_registered. apply chain_configs_rows in Hcs.
  apply (list_elem_of_fmap_2 (fun c => (cc_name c, cc_chain_id c))) in Hc.
  change (fmap ?f ?l) with (map f l) in Hc. rewrite Hcs in Hc.
  repeat (apply elem_of_cons in Hc as [Hc|Hc]; [injection Hc as _ ->; lia|]). by apply not_elem_of_nil in Hc.
Qed.

Lemma make_TransactionReceipt_wf h st bn gu r :
  make_TransactionReceipt h st bn gu = Ok r -> wf_TransactionReceipt r /\ rc_tx_hash r = h /\ rc_status r = st.
Proof.
  unfold make_TransactionReceipt. intros H. inv_fields. unfold validate_receipt_status in *. simpl in *.
  split_and!; [|done..]. unfold wf_TransactionReceipt. simpl. split_and!; try done. by case_match; [set_solver..| |].
Qed.

Section promises.
Context `{W : Web3} {L : Web3Laws W} {PT : PydanticText} {K : EthAccount}.
Context (settings : MercurySettings) (store : OneClawSecretStore) (approve : ApprovalRequest -> result exn ApprovalResult).

Lemma broadcast_answer s tr h :
  may (backend_broadcast settings store s) tr (Ok h) ->
  exists tr1 rpc b, tr = (tr1 ++ [Ev (SendRawTransaction rpc (sg_raw_transaction_hex s)) (Ok b)])%list /\ h = _hex b.
Proof.
  unfold backend_broadcast, send_raw_transaction. intros H. inv_run.
  match goal with H : may (Call _ _) _ _ |- _ => destruct H as (b & tr' & -> & H); cbn [may] in H; destruct H as [-> <-] end.
  injection Er0 as ->. eexists tr, _, _. split; [|done]. by rewrite app_nil_l, app_nil_r.
Qed.

Lemma receipt_answer chain h timeout n tr rc :
  may (backend_wait_for_receipt settings store chain h timeout n) tr (Ok rc) -> wf_TransactionReceipt rc.
Proof.
  unfold backend_wait_for_receipt. intros H. inv_run.
  match goal with H : may match ?o with _ => _ end _ _ |- _ => destruct o as [nr|] end; inv_run;
    by match goal with H : make_TransactionReceipt _ _ _ _ = Ok _ |- _ => apply make_TransactionReceipt_wf in H as [? _] end.
Qed.

Lemma outside_good (e : effect) tr (a : ans e) : may (outside e) tr a -> Forall io_good tr -> good (Ev e a).
Proof. intros (b & tr' & -> & [-> ->]) [Hg _]%Forall_cons. exact Hg. Qed.

Lemma implement_good (e : effect) tr (a : ans e) :
  may (implement settings store approve e) tr a -> Forall io_good tr -> good (Ev e a).
Proof.
  intros Hrun Hgood.
  destruct e; unfold good; cbn [ev_call ev_answer good_answer implement] in *; try exact I.
  - intros c ->. unfold backend_resolve_chain_id in Hrun. inv_run.
    match goal with H : Ok c = Ok _ |- _ => injection H as -> end.
    match goal with H : may (create_web3 _ _ _) _ _ |- _ => apply create_ok in H as [H _] end. by eapply chain_id_positive.
  - intros h ->. apply broadcast_answer in Hrun as (tr1 & rpc & b & -> & ->).
    apply Forall_app in Hgood as [_ Hgood]. apply Forall_cons in Hgood as [Hgood _]. by apply Hgood.
  - intros rc ->. by eapply receipt_answer.
  - intros w ->. by eapply get_wallet_address_ok.
  - exact (outside_good (Complete key r) tr a Hrun Hgood).
  - exact (outside_good (GetQuote provider r) tr a Hrun Hgood).
  - exact (outside_good (BuildExecution provider q) tr a Hrun Hgood).
Qed.

(** The calls above that calls below answered keep the promises. *)
Lemma realises_good above below :
  realises (implement settings store approve) above below -> Forall io_good below -> Forall good above.
Proof.
  induction 1 as [|e a tr above below Hm _ IH]; [constructor|]. intros [H1 H2]%Forall_app.
  constructor; [by eapply implement_good | by apply IH].
Qed.

End promises.

(** * The confirmation loop *)

(** The clock is monotonic, and a sleep lasts at least its seconds. *)
Fixpoint clock_from (earliest : Z) (tr : list ioevent) : Prop :=
  match tr with
  | [] => True
  | Ev c a :: tr' =>
      match c return ans c -> Prop with
      | Monotonic => fun t => earliest <= t /\ clock_from t tr'
      | Sleep n => fun _ => clock_from (earliest + n * SECOND) tr'
      | _ => fun _ => clock_from earliest tr'
      end a
  end.

Definition is_poll (ev : ioevent) : bool := match ev_call ev with BlockNumber _ => true | _ => false end.
Definition polls (tr : list ioevent) : nat := List.length (List.filter is_poll tr).

(** The loop ended because the node failed, the deadline passed, or the block is deep enough. *)
Definition loop_outcome (rpc : string) (deadline number confirmations : Z) (tr : list ioevent) (r : result exn unit) : Prop :=
  match r with
  | Err e => Ev (BlockNumber rpc) (Err e) ∈ tr
  | Ok _ => (exists now, Ev Monotonic now ∈ tr /\ deadline <= now) \/
            (exists head, Ev (BlockNumber rpc) (Ok head) ∈ tr /\ confirmations <= head - number + 1)
  end.

Lemma confirmations_loop_ends fuel rpc deadline number confirmations earliest tr r :
  (0 < fuel)%nat -> deadline <= earliest + (Z.of_nat fuel - 1) * SECOND ->
  may (confirmations_loop fuel rpc deadline number confirmations) tr r -> clock_from earliest tr ->
  loop_outcome rpc deadline number confirmations tr r /\ (polls tr < fuel)%nat.
Proof.
  revert earliest tr r. induction fuel as [|fuel IH]; intros earliest tr r Hf Hd H Hc; [lia|].
  cbn [confirmations_loop] in H. unfold monotonic in H.
  destruct H as (now & tr1 & -> & H). cbn [prog_bind] in H. cbn [clock_from] in Hc. destruct Hc as [Hnow Hc].
  destruct (Z.ltb_spec now deadline) as [Hlt|Hge].
  - assert (0 < fuel)%nat as Hf' by (destruct fuel; [simpl in Hd; lia | lia]).
    destruct H as (b & tr2 & -> & H). cbn [clock_from] in Hc.
    destruct b as [head|e]; cbn [prog_bind] in H.
    + destruct (Z.leb_spec confirmations (head - number + 1)) as [Hle|_].
      * destruct H as [-> ->]. split; [right; exists head; split; [find_in | done] | unfold polls; simpl; lia].
      * destruct H as (u & tr3 & -> & H). cbn [prog_bind] in H. cbn [clock_from] in Hc.
        destruct (IH (now + 1 * SECOND) tr3 r Hf') as [Ho Hp]; [unfold SECOND in *; lia | done | done |].
        split; [|unfold polls in *; simpl; lia].
        destruct r as [u'|e]; simpl in *.
        -- destruct Ho as [(t & Ht & ?)|(hd & Hh & ?)]; [left; exists t | right; exists hd]; (split; [|done]); set_solver.
        -- set_solver.
    + destruct H as [-> ->]. split; [simpl; set_solver | unfold polls; simpl; lia].
  - destruct H as [-> ->]. split; [left; exists now; split; [find_in | done] | unfold polls; simpl; lia].
Qed.

(** C34. Waiting for confirmations ends: under a clock that does not go back and sleeps that last their seconds, it polls
    the node at most 120 times, and it returns because the block is deep enough or 120 seconds have passed, or
    raises what the node raised. *)
Theorem confirmation_wait_ends (rpc : string) (number confirmations t0 : Z) (tr : list ioevent) (r : result exn unit)
    (Hrun : may (_wait_for_confirmations rpc number confirmations) tr r) (Hclock : clock_from t0 tr) :
  (polls tr <= 120)%nat /\
  exists start, t0 <= start /\ Ev Monotonic start ∈ tr /\
    loop_outcome rpc (start + 120 * SECOND) number confirmations tr r.
Proof.
  unfold _wait_for_confirmations, monotonic in Hrun. destruct Hrun as (start & tr1 & -> & H). cbn [prog_bind] in H.
  cbn [clock_from] in Hclock. destruct Hclock as [Hs Hc].
  destruct (confirmations_loop_ends POLLS rpc (start + 120 * SECOND) number confirmations start tr1 r) as [Ho Hp];
    [unfold POLLS; lia | unfold POLLS, SECOND; lia | done | done |].
  split; [unfold polls, POLLS in *; simpl; lia|]. exists start. split_and!; [done | find_in |].
  destruct r as [u'|e]; simpl in *; [|set_solver].
  destruct Ho as [(t & Ht & ?)|(hd & Hh & ?)]; [left; exists t | right; exists hd]; (split; [|done]); set_solver.
Qed.

(** * Simulation and gas *)

Section preflight.
Context {W : Web3} {PT : PydanticText} (settings : MercurySettings) (store : OneClawSecretStore).

Lemma make_SimulationResult_ok st g m sim :
  make_SimulationResult st g m = Ok sim ->
  sr_status sim = st /\ sr_gas_estimate sim = g /\ sr_reason sim = m /\ (forall z, g = Some z -> 0 < z).
Proof. unfold make_SimulationResult. intros H. inv_fields. done. Qed.

(** What a passed simulation has established. *)
Definition preflight_passed (t : ExecutableTransaction) (sim : SimulationResult) (tr : list ioevent) : Prop :=
  exists cfg rpc gas,
    get_chain_by_name settings (et_chain t) = Ok cfg /\ cc_chain_id cfg = et_chain_id t /\ chain_rpc store cfg rpc tr /\
    Ev (EthCall rpc (et_transaction_fields t)) (Ok tt) ∈ tr /\
    Ev (EstimateGas rpc (et_transaction_fields t)) (Ok gas) ∈ tr /\ sr_gas_estimate sim = Some gas /\ 0 < gas /\
    (forall from, et_from_address t = Some from ->
       exists balance, Ev (GetBalance rpc from) (Ok balance) ∈ tr /\ required_wei t <= balance).

Lemma one_call (c : io) tr (a : ans c) : may (Call c Ret) tr a -> tr = [Ev c a].
Proof. by intros (b & tr' & -> & [-> ->]). Qed.

Lemma preflight_run t p tr sim :
  get_chain_by_name settings (et_chain t) = Ok (wp_chain p) -> cc_chain_id (wp_chain p) = et_chain_id t ->
  chain_rpc store (wp_chain p) (wp_rpc_url p) tr ->
  forall tr', may (_ <- eth_call (wp_rpc_url p) (et_transaction_fields t);;
       gas_estimate <- estimate_gas (wp_rpc_url p) (et_transaction_fields t);;
       match et_from_address t with
       | Some from =>
           balance <- get_balance (wp_rpc_url p) from;;
           if balance <? required_wei t
           then pure (make_SimulationResult SIM_FAILED (Some gas_estimate)
                        (Some "Wallet balance is insufficient for value plus maximum gas."))
           else pure (make_SimulationResult SIM_PASSED (Some gas_estimate) None)
       | None => pure (make_SimulationResult SIM_PASSED (Some gas_estimate) None)
       end)%prog tr' (Ok sim) ->
  match sr_status sim with
  | SIM_PASSED => preflight_passed t sim (tr ++ tr')
  | SIM_FAILED => sr_reason sim <> None
  end.
Proof.
  intros Hc Hid Hrpc tr' H. apply may_bind_ok in H as (t1 & t2 & [] & -> & H1 & H). apply one_call in H1 as ->.
  apply may_bind_ok in H as (t3 & t4 & gas & -> & H1 & H). apply one_call in H1 as ->.
  assert (chain_rpc store (wp_chain p) (wp_rpc_url p) (tr ++ [Ev (EthCall (wp_rpc_url p) (et_transaction_fields t)) (Ok tt)]
            ++ [Ev (EstimateGas (wp_rpc_url p) (et_transaction_fields t)) (Ok gas)] ++ t4)) as Hrpc'
    by (unfold chain_rpc; find_in).
  destruct (et_from_address t) as [from|] eqn:Ef.
  - apply may_bind_ok in H as (t5 & t6 & balance & -> & H1 & H). apply one_call in H1 as ->.
    destruct (Z.ltb_spec balance (required_wei t)) as [Hlt|Hge]; apply may_pure_ok in H as [-> H];
      apply make_SimulationResult_ok in H as (-> & Hg & Hr & Hpos); [by rewrite Hr|].
    exists (wp_chain p), (wp_rpc_url p), gas.
    do 3 (split; [assumption|]). do 2 (split; [find_in|]). split; [exact Hg|]. split; [exact (Hpos gas eq_refl)|].
    rewrite Ef. intros f [= <-]. exists balance. split; [find_in | exact Hge].
  - apply may_pure_ok in H as [-> H]. apply make_SimulationResult_ok in H as (-> & Hg & Hr & Hpos).
    exists (wp_chain p), (wp_rpc_url p), gas.
    do 3 (split; [assumption|]). do 2 (split; [find_in|]). split; [exact Hg|]. split; [exact (Hpos gas eq_refl)|].
    rewrite Ef. intros f [=].
Qed.

(** What the backend's answer to a simulation says. *)
Definition simulation_means (t : ExecutableTransaction) (tr : list ioevent) (r : result exn SimulationResult) : Prop :=
  match r with
  | Ok sim => match sr_status sim with
              | SIM_PASSED => preflight_passed t sim tr
              | SIM_FAILED => sr_reason sim <> None
              end
  | Err e => exists tr1 tr2, tr = (tr1 ++ tr2)%list /\ may (create_web3 settings store (et_chain t)) tr1 (Err e)
  end.

Lemma simulate_means t tr r : may (backend_simulate settings store t) tr r -> simulation_means t tr r.
Proof.
  intros Hrun. unfold simulation_means.
  unfold backend_simulate in Hrun. apply may_bind_exn in Hrun as [(e & H & ->)|(tr1 & tr2 & p & -> & Hp & H)].
  { exists tr, []. split; [by rewrite app_nil_r | exact H]. }
  apply create_ok in Hp as [Hc Hrpc].
  apply may_try_except in H as [(sim & H & ->)|(tr3 & tr4 & e & -> & _ & H)].
  - destruct (Z.eqb_spec (cc_chain_id (wp_chain p)) (et_chain_id t)) as [Hid|Hid]; cbn [negb] in H.
    + by eapply preflight_run.
    + apply may_pure_ok in H as [-> H]. apply make_SimulationResult_ok in H as (-> & _ & -> & _). done.
  - set (m := Some (ei_message (normalize_exception e (Some "simulate") (Some "simulation_failed")))) in H.
    destruct H as [-> ->]. unfold make_SimulationResult. cbn. done.
Qed.

(** C33. A transaction whose simulation the backend reports as passed was executed by the node of its own chain without
    reverting, has a positive gas estimate, and its sender owns its value plus its whole gas limit at its
    highest fee; once a provider is found, simulating never raises, every failure being a failed
    simulation with a reason. *)
Theorem simulation_passed_sound (t : ExecutableTransaction) (tr : list ioevent) (r : result exn SimulationResult)
    (Hrun : may (backend_simulate settings store t) tr r) :
  match r with
  | Ok sim => match sr_status sim with
              | SIM_PASSED => preflight_passed t sim tr
              | SIM_FAILED => sr_reason sim <> None
              end
  | Err e => exists tr1 tr2, tr = (tr1 ++ tr2)%list /\ may (create_web3 settings store (et_chain t)) tr1 (Err e)
  end.
Proof. exact (simulate_means t tr r Hrun). Qed.

(** Gas fees the backend populates are well-formed: those of the request if it has any, else the node's estimate
    with twice its base fee plus its priority fee, or with its gas price when the former cannot be had. *)
Theorem populated_gas_sound (t : PreparedTransaction) (tr : list ioevent) (g : GasFees)
    (Hrun : may (backend_populate_gas settings store t) tr (Ok g)) :
  pt_gas t = Some g /\ tr = [] \/
  exists rpc limit, Ev (EstimateGas rpc (pt_transaction_fields t)) (Ok limit) ∈ tr /\ gf_gas_limit g = limit /\ wf_GasFees g /\
    ((exists base prio, Ev (LatestBaseFee rpc) (Ok (Some base)) ∈ tr /\ Ev (MaxPriorityFee rpc) (Ok prio) ∈ tr /\
        gf_max_fee_per_gas g = Some (2 * base + prio) /\ gf_max_priority_fee_per_gas g = Some prio) \/
     (exists price, Ev (GasPrice rpc) (Ok price) ∈ tr /\ gf_gas_price g = Some price)).
Proof.
  unfold backend_populate_gas in Hrun. destruct (pt_gas t) as [g0|] eqn:Eg.
  { destruct Hrun as [-> [= ->]]. by left. }
  right. apply may_bind_ok in Hrun as (t1 & t2 & p & -> & _ & H).
  apply may_bind_ok in H as (t3 & t4 & limit & -> & H1 & H). apply one_call in H1 as ->.
  exists (wp_rpc_url p), limit. split; [find_in|].
  apply may_try_except in H as [(x & H & [= <-])|(t5 & t6 & e & -> & _ & H)].
  - apply may_bind_ok in H as (t5 & t6 & prio & -> & H1 & H). apply one_call in H1 as ->.
    apply may_bind_ok in H as (t7 & t8 & base & -> & H1 & H). unfold latest_base_fee in H1.
    destruct H1 as (b & tr' & -> & [-> Hb]). destruct b as [[b|]|]; simplify_eq.
    apply may_pure_ok in H as [-> H]. apply make_GasFees_ok in H as [-> Hwf]. split_and!; [done | done | left].
    exists b, prio. simpl. split_and!; [find_in | find_in | f_equal; lia | done].
  - apply may_bind_ok in H as (t7 & t8 & price & -> & H1 & H). apply one_call in H1 as ->.
    apply may_pure_ok in H as [-> H]. apply make_GasFees_ok in H as [-> Hwf]. split_and!; [done | done | right].
    exists price. split; [find_in | done].
Qed.
End preflight.
