(* ===== verification/Deployment.v ===== *)
(** The wallet graphs over the real backend and signer: every call of a run is answered by [Backend.implement], so a run
    is a program over the node, the secret store and the clock. *)
From stdpp Require Import base tactics option list sets strings gmap.
From Stdlib Require Import ZArith Lia Ascii String.
From S2P Require Import Prelude Python Values Exceptions Redaction Errors Addresses Chains Models SwapModels Policy.
From S2P Require Import Idempotency Prog Effects Swaps Graph State Intents Transactions Pipeline Preparation Protocol.
From S2P Require Import PipelineSpec PreparationSpec Execution Guarantees Io Custody CustodySpec Backend BackendSpec.

Local Open Scope string_scope.
Local Open Scope Z_scope.

#[local] Opaque get_chain_by_name get_chain_by_id.

(** * Where the node is asked to send *)

Definition no_send (c : io) : Prop := match c with SendRawTransaction _ _ => False | _ => True end.
Definition sends (ev : ioevent) : bool := match ev_call ev with SendRawTransaction _ _ => true | _ => false end.

Lemma no_send_events {A} (p : node A) tr a : calls no_send p -> may p tr a -> Forall (fun ev => sends ev = false) tr.
Proof.
  intros Hp Hm. eapply Forall_impl; [by eapply Hp|]. intros [c x]. unfold sends. simpl. by destruct c.
Qed.

Section sending.
Context `{W : Web3} {L : Web3Laws W} {PT : PydanticText} {K : EthAccount}.
Context (settings : MercurySettings) (store : OneClawSecretStore) (approve : ApprovalRequest -> result exn ApprovalResult).

Ltac no_sends := follow_calls ltac:(auto with nocore).

Lemma secret_no_send path : calls no_send (store_get_secret store path).
Proof. unfold store_get_secret. no_sends. Qed.

Lemma create_no_send name : calls no_send (create_web3 settings store name).
Proof.
  pose proof secret_no_send. unfold create_web3, Web3ProviderFactory_create, resolve_rpc_url. no_sends.
Qed.

Lemma key_no_send w : calls no_send (_load_private_key store w).
Proof. pose proof secret_no_send. unfold _load_private_key. no_sends. Qed.

Lemma loop_no_send fuel rpc d n c : calls no_send (confirmations_loop fuel rpc d n c).
Proof.
  induction fuel as [|fuel IH]; [apply calls_ret|]. cbn [confirmations_loop]. unfold monotonic, block_number, sleep.
  no_sends; intros; exact IH.
Qed.

Lemma implement_no_send e :
  match e with Broadcast _ => True | _ => calls no_send (implement settings store approve e) end.
Proof.
  pose proof create_no_send. pose proof key_no_send. pose proof loop_no_send.
  destruct e; try exact I; cbn [implement];
    unfold backend_resolve_chain_id, backend_lookup_nonce, backend_populate_gas, backend_simulate, backend_wait_for_receipt,
      _wait_for_confirmations, signer_get_wallet_address, signer_sign_transaction, outside, get_transaction_count,
      estimate_gas, max_priority_fee, latest_base_fee, gas_price, eth_call, get_balance, wait_for_transaction_receipt, monotonic;
    no_sends.
Qed.
End sending.

(** The first element with a property splits a list once. *)
Lemma split_unique {A} (p : A -> bool) t y l1 x l2 :
  Forall (fun z => p z = false) t -> p x = true -> (l1 ++ x :: l2 = t ++ [y])%list -> l1 = t /\ x = y /\ l2 = [].
Proof.
  intros Ht Hx [(k & E1 & E2)|(k & E1 & E2)]%app_eq_inv; (destruct k as [|z k]; simpl in *; rewrite ?app_nil_r in E1).
  - injection E2 as -> ->. by rewrite E1.
  - injection E2 as _ E2. destruct k; discriminate.
  - injection E2 as -> ->. by rewrite E1.
  - injection E2 as -> E2. subst. exfalso.
    apply Forall_app in Ht as [_ Ht]. apply Forall_cons in Ht as [Ht _]. congruence.
Qed.

Section deployed.
Context `{W : Web3} {L : Web3Laws W} {PT : PydanticText} {PL : PydanticLax} {K : EthAccount}.
Context {G : LangGraph effect MercuryState} {GL : LangGraphLaws merge_state G}.
Context (settings : MercurySettings) (store : OneClawSecretStore) (approve : ApprovalRequest -> result exn ApprovalResult).
Context (deps : TransactionGraphDependencies).

Abbreviation impl := (implement settings store approve).

(** A run of a wallet graph with its boundaries implemented. *)
Definition deployed (kind : graph_kind) (s : MercuryState) : node (result exn MercuryState) :=
  interp impl (invoke (wallet_graph settings deps kind) s).

Lemma broadcast_split sg l1 rpc raw a l2 r :
  may (backend_broadcast settings store sg) (l1 ++ Ev (SendRawTransaction rpc raw) a :: l2) r ->
  raw = sg_raw_transaction_hex sg /\ Forall (fun ev => sends ev = false) l1 /\ l2 = [] /\
  exists cfg, get_chain_by_id settings (sg_chain_id sg) = Ok cfg /\ chain_rpc store cfg rpc l1.
Proof.
  unfold backend_broadcast. remember (l1 ++ _)%list as tr eqn:Etr. intros H.
  assert (Forall (fun ev => sends ev = false) tr -> False) as Hno.
  { subst tr. intros Hf. apply Forall_app in Hf as [_ Hf]. apply Forall_cons in Hf as [Hf _]. discriminate Hf. }
  apply may_bind_exn in H as [(e & [-> _] & _)|(t1 & t2 & name & -> & Hn & H)]; [by destruct Hno|].
  apply may_pure_ok in Hn as [-> Hn]. simpl in Hno, Etr.
  apply may_bind_exn in H as [(e & H & _)|(t3 & t4 & p & -> & Hp & H)].
  { destruct Hno. eapply no_send_events; [apply create_no_send | exact H]. }
  pose proof (no_send_events _ _ _ (create_no_send _ _ _) Hp) as Hq.
  apply create_ok in Hp as [Hc Hrpc]. unfold send_raw_transaction in H.
  assert (exists b, t4 = [Ev (SendRawTransaction (wp_rpc_url p) (sg_raw_transaction_hex sg)) b]) as [b ->].
  { apply may_bind_exn in H as [(e & H & _)|(t5 & t6 & b & -> & H & [-> _])]; apply one_call in H as ->; eauto. }
  symmetry in Etr. apply (split_unique sends) in Etr as (-> & E & ->); [|done..].
  apply (f_equal ev_call) in E. simpl in E. injection E as -> ->.
  split; [reflexivity|]. split; [exact Hq|]. split; [reflexivity|].
  unfold _chain_name_for_id in Hn. apply result_bind_ok in Hn as (v & Hv & Hn). injection Hn as <-.
  exists v. split; [exact Hv|].
  destruct (by_id_registered settings _ _ Hv) as (cs & Hcs & Hin & _).
  destruct (registered_found settings cs v Hcs Hin) as [Hc' _]. rewrite Hc' in Hc. injection Hc as ->. exact Hrpc.
Qed.

(** No call before or after sends, when none of the calls above is a broadcast. *)
Lemma no_broadcast_no_send above below :
  realises impl above below -> count is_broadcast above = 0%nat -> Forall (fun ev => sends ev = false) below.
Proof.
  induction 1 as [|e a tr above below Hm _ IH]; intros Hc; [constructor|]. unfold count in *. simpl in Hc.
  destruct (is_broadcast (Ev e a)) eqn:Eb; [discriminate|]. apply Forall_app. split; [|by apply IH].
  eapply no_send_events; [|exact Hm]. pose proof (implement_no_send settings store approve e) as Hn. by destruct e.
Qed.

(** An answer above was computed from calls below. *)
Lemma realised_answer above below ev0 :
  realises impl above below -> ev0 ∈ above ->
  exists tr, may (impl (ev_call ev0)) tr (ev_answer ev0) /\ forall ev, ev ∈ tr -> ev ∈ below.
Proof.
  induction 1 as [|e' a' tr above below Hm _ IH]; [by intros ?%elem_of_nil|].
  intros [->|Hin]%elem_of_cons.
  - exists tr. split; [exact Hm|]. intros ev Hev. apply elem_of_app. by left.
  - destruct (IH Hin) as (tr' & H1 & H2). exists tr'. split; [exact H1|]. intros ev Hev. apply elem_of_app. right. by apply H2.
Qed.

(** Facts about the calls below persist when more calls are seen. *)
Lemma signed_with_mono tr tr' req sg :
  (forall ev : ioevent, ev ∈ tr -> ev ∈ tr') -> signed_with store tr req sg -> signed_with store tr' req sg.
Proof.
  intros Hin (w & key & raw & hash & (Hv & secret & Hs & Hn) & Hrest). exists w, key, raw, hash.
  split; [|exact Hrest]. split; [exact Hv|]. exists secret. split; [by apply Hin | exact Hn].
Qed.

Lemma preflight_passed_mono tr tr' t sim :
  (forall ev : ioevent, ev ∈ tr -> ev ∈ tr') -> preflight_passed settings store t sim tr -> preflight_passed settings store t sim tr'.
Proof.
  intros Hin (cfg & rpc & gas & H1 & H2 & H3 & H4 & H5 & H6 & H7 & H8). exists cfg, rpc, gas.
  do 2 (split; [assumption|]). split; [exact (Hin _ H3)|]. split; [exact (Hin _ H4)|]. split; [exact (Hin _ H5)|].
  do 2 (split; [assumption|]). intros from Hf. destruct (H8 from Hf) as (b & Hb & Hle). exists b. split; [by apply Hin | exact Hle].
Qed.

Lemma signing_request_fields t req :
  signing_request t = Ok req ->
  st_chain_id req = et_chain_id t /\ wr_wallet_id (st_wallet req) = et_wallet_id t /\
  to_prepared_evm_transaction t = Ok (st_prepared_transaction req).
Proof.
  unfold signing_request. intros H. apply result_bind_ok in H as (w & Hw & H). apply result_bind_ok in H as (p & Hp & H).
  unfold make_SignTransactionRequest in H. inv_fields. unfold make_WalletRef in Hw. inv_fields. by rewrite Hp.
Qed.

(** The authorization of a broadcast above, in terms of the calls below that precede it. *)
Lemma authorized_below above below t key :
  realises impl above below -> authorized_in settings (policy_engine deps) above t key ->
  (exists sim, policy_allows settings (policy_engine deps) t (Some sim) /\ preflight_passed settings store t sim below) /\
  (needs_human t = true -> exists q ap, build_approval_request t = Ok q /\ approve q = Ok ap /\ ar_status ap = APPROVED).
Proof.
  intros Hr ((sim & (rs & Hin & Hsim) & Hc) & Hap & _). split.
  - exists sim. split; [exact Hc|]. assert (sr_status sim = SIM_PASSED) as Hp by (destruct Hc as (_ & _ & (s & [= <-] & Hs) & _); exact Hs).
    destruct (realised_answer _ _ _ Hr Hin) as (tr & Hm & Hsub). apply simulate_means in Hm. cbn [ev_answer] in Hm.
    destruct rs as [s|e]; [subst s | congruence]. unfold simulation_means in Hm. rewrite Hp in Hm.
    by eapply preflight_passed_mono.
  - intros Hn. destruct (Hap Hn) as (q & ap & Hq & Hst & Hina). exists q, ap.
    destruct (realised_answer _ _ _ Hr Hina) as (tr & [_ Hm] & _). cbn [ev_answer ev_call] in Hm. by rewrite Hm.
Qed.

(** What a run sends: [t] is the transaction behind [raw], and [l1] the calls below before it was sent. *)
Record sent (kind : graph_kind) (s : MercuryState) (above : list wevent) (l1 : list ioevent) (rpc raw : string)
    (t : ExecutableTransaction) (req : SignTransactionRequest) (sg : SignedTransactionResult) : Prop := {
  sent_requested : requests settings kind s above t;
  sent_allowed : exists sim, policy_allows settings (policy_engine deps) t (Some sim) /\ preflight_passed settings store t sim l1;
  sent_approved : needs_human t = true -> exists q ap, build_approval_request t = Ok q /\ approve q = Ok ap /\ ar_status ap = APPROVED;
  sent_signed : signing_request t = Ok req /\ signed_with store l1 req sg /\ raw = sg_raw_transaction_hex sg;
  sent_to : exists cfg, get_chain_by_id settings (et_chain_id t) = Ok cfg /\ chain_rpc store cfg rpc l1
}.

Lemma run_sends kind s r above l1 l2 rpc raw a :
  initial kind s -> may (invoke (wallet_graph settings deps kind) s) above r ->
  realises impl above (l1 ++ Ev (SendRawTransaction rpc raw) a :: l2) ->
  Forall io_good (l1 ++ Ev (SendRawTransaction rpc raw) a :: l2) ->
  Forall (fun ev => sends ev = false) l1 /\ Forall (fun ev => sends ev = false) l2 /\
  exists t req sg, sent kind s above l1 rpc raw t req sg.
Proof.
  intros Hi Hm0 Hr Hg. pose proof (realises_good settings store approve above _ Hr Hg) as Hga.
  destruct (wallet_run settings deps kind s above r Hi Hm0 Hga) as (φ & s' & _ & Hs & _).
  destruct (realises_split _ _ _ _ l1 l2 Hr eq_refl) as (a1 & e & x & t1 & t2 & a2 & b1 & b2 & -> & Hm & H1 & H2 & -> & ->).
  assert (exists sg, e = Broadcast sg) as [sg ->].
  { pose proof (implement_no_send settings store approve e) as Hn. destruct e; try (by eexists);
      (apply (no_send_events _ _ _ Hn) in Hm; apply Forall_app in Hm as [_ Hm]; apply Forall_cons in Hm as [Hm _]; discriminate Hm). }
  destruct (broadcast_authorized _ _ _ _ _ _ _ _ Hs) as ((t & key & Hreq & Hauth & (req & Hsr & Hsg)) & Hc1 & Hc2).
  destruct (broadcast_split sg t1 rpc raw a t2 x Hm) as (-> & Hq & -> & cfg & Hcfg & Hrpc).
  pose proof (no_broadcast_no_send a1 b1 H1 Hc1) as Hn1. pose proof (no_broadcast_no_send a2 b2 H2 Hc2) as Hn2.
  destruct (authorized_below a1 b1 t key H1 Hauth) as [(sim & Hal & Hpre) Hap].
  destruct (realised_answer a1 b1 _ H1 Hsg) as (ts & Hms & Hsub). apply sign_transaction_ok in Hms.
  assert (forall ev, ev ∈ b1 -> ev ∈ (b1 ++ t1)%list) as Hb1 by (intros; apply elem_of_app; by left).
  assert (forall ev, ev ∈ t1 -> ev ∈ (b1 ++ t1)%list) as Ht1 by (intros; apply elem_of_app; by right).
  pose proof (signed_with_mono ts (b1 ++ t1) req sg (fun ev Hev => Hb1 ev (Hsub ev Hev)) Hms) as Hsw.
  split; [apply Forall_app; by split|]. split; [exact Hn2|]. exists t, req, sg. split; try done.
  - exists sim. split; [exact Hal | exact (preflight_passed_mono b1 _ t sim Hb1 Hpre)].
  - exists cfg. destruct (signing_request_fields t req Hsr) as (Hid & _). destruct Hsw as (w & k & rb & hb & _ & _ & _ & _ & Hsc & _).
    rewrite <- Hid, <- Hsc. split; [exact Hcfg | exact (Ht1 _ Hrpc)].
Qed.
End deployed.

(** C10. End to end over the real backend and signer: a run asks a node to send a raw transaction at most once, and what it
    sends is the signature, made with the key the secret store holds under the path of the wallet of the
    transaction, of a transaction the request asks for, that the policy allows, that the node of its chain
    simulated without a revert with its sender owning value and maximum gas, and that the approver approved
    when it moves value; it is sent to the node whose URL is stored for the chain of that transaction. *)
Theorem deployed_run_sends_authorized `{W : Web3} {L : Web3Laws W} {PT : PydanticText} {PL : PydanticLax} {K : EthAccount}
    {G : LangGraph effect MercuryState} {GL : LangGraphLaws merge_state G}
    (settings : MercurySettings) (store : OneClawSecretStore) (approve : ApprovalRequest -> result exn ApprovalResult)
    (deps : TransactionGraphDependencies) (kind : graph_kind) (s : MercuryState) (r : result exn MercuryState)
    (l1 l2 : list ioevent) rpc raw a
    (Hi : initial kind s)
    (Hrun : may (deployed settings store approve deps kind s) (l1 ++ Ev (SendRawTransaction rpc raw) a :: l2) r)
    (Hgood : Forall io_good (l1 ++ Ev (SendRawTransaction rpc raw) a :: l2)) :
  Forall (fun ev => sends ev = false) l1 /\ Forall (fun ev => sends ev = false) l2 /\
  exists t above req sg,
    requests settings kind s above t /\
    realises (implement settings store approve) above (l1 ++ Ev (SendRawTransaction rpc raw) a :: l2) /\
    (exists sim, policy_allows settings (policy_engine deps) t (Some sim) /\ preflight_passed settings store t sim l1) /\
    (needs_human t = true -> exists q ap, build_approval_request t = Ok q /\ approve q = Ok ap /\ ar_status ap = APPROVED) /\
    signing_request t = Ok req /\ signed_with store l1 req sg /\ raw = sg_raw_transaction_hex sg /\
    exists cfg, get_chain_by_id settings (et_chain_id t) = Ok cfg /\ chain_rpc store cfg rpc l1.
Proof.
  pose proof Hrun as Hm. apply may_interp in Hm as (above & Hm & Hr).
  destruct (run_sends settings store approve deps kind s r above l1 l2 rpc raw a Hi Hm Hr Hgood)
    as (H1 & H2 & t & req & sg & [Hreq Hal Hap (Hsr & Hsw & Hraw) Hto]).
  split; [exact H1|]. split; [exact H2|]. exists t, above, req, sg. by split_and!.
Qed.

(** * A sample node *)

#[export] Instance sample_account : EthAccount := {
  account_address := fun _ => Ok sample_wallet;
  account_sign_transaction := fun _ _ => Ok (HexBlob "02", HexBlob "abcd");
  account_sign_typed_data := fun _ _ => Ok (HexBlob "03", HexBlob "ef")
}.

Definition sample_secret_store : OneClawSecretStore := {| os_vault_id := "vault"; os_agent_id := Some "agent" |}.
Definition sample_key : string := "1111111111111111111111111111111111111111111111111111111111111111".

Definition node_handler (c : io) (σ : InMemoryIdempotencyStore) : InMemoryIdempotencyStore * ans c :=
  match c return InMemoryIdempotencyStore * ans c with
  | ClientGetSecret _ path _ =>
      (σ, Ok (Some (if String.eqb path "mercury/wallets/w1/private_key" then sample_key else "https://rpc.example/base")))
  | GetTransactionCount _ _ => (σ, Ok 4)
  | EstimateGas _ _ => (σ, Ok 21000)
  | MaxPriorityFee _ => (σ, Ok 2)
  | LatestBaseFee _ => (σ, Ok (Some 10))
  | GasPrice _ => (σ, Ok 12)
  | EthCall _ _ => (σ, Ok tt)
  | GetBalance _ _ => (σ, Ok (10 ^ 18))
  | SendRawTransaction _ _ => (σ, Ok (HexBlob "abcd"))
  | WaitForTransactionReceipt _ h _ =>
      (σ, Ok {| nr_transactionHash := OtherBlob h; nr_status := Some 1; nr_blockNumber := 5; nr_gasUsed := 21000 |})
  | BlockNumber _ => (σ, Ok 9)
  | Monotonic => (σ, 0)
  | Sleep _ => (σ, tt)
  | Outside e => sample_handler e σ
  end.

Definition node_program : node (result exn MercuryState) :=
  deployed default_settings sample_secret_store RequestMetadataTransactionApprover.request_approval default_dependencies
    TransactionGraph sample_state.
Definition node_trace : list ioevent := run_trace node_handler node_program ∅.
Definition node_result : result exn MercuryState := (run_prog node_handler node_program ∅).2.

Lemma node_may : may node_program node_trace node_result.
Proof. exact (run_may node_handler node_program ∅). Qed.

Definition io_name (ev : ioevent) : string :=
  match ev_call ev with
  | ClientGetSecret _ path _ => path
  | GetTransactionCount _ _ => "nonce" | EstimateGas _ _ => "estimate" | MaxPriorityFee _ => "priority"
  | LatestBaseFee _ => "base fee" | GasPrice _ => "gas price" | EthCall _ _ => "call" | GetBalance _ _ => "balance"
  | SendRawTransaction _ _ => "send" | WaitForTransactionReceipt _ _ _ => "receipt" | BlockNumber _ => "head"
  | Monotonic => "clock" | Sleep _ => "sleep" | Outside _ => "outside"
  end.

Example node_calls :
  map io_name node_trace =
  ["mercury/wallets/w1/private_key"; "mercury/rpc/base"; "nonce"; "mercury/rpc/base"; "estimate"; "priority"; "base fee";
   "mercury/rpc/base"; "call"; "estimate"; "balance"; "outside"; "mercury/wallets/w1/private_key"; "mercury/rpc/base";
   "send"; "mercury/rpc/base"; "receipt"; "outside"].
Proof. vm_compute. reflexivity. Qed.

Ltac solve_io_good :=
  match goal with |- Forall io_good ?tr => eassert (tr = _) as -> by (vm_compute; reflexivity) end;
  repeat first [apply Forall_nil_2 | apply Forall_cons_2]; unfold io_good; cbn [ev_call ev_answer io_good_answer good_answer];
  try exact I; try (intros b [= <-]; reflexivity); reflexivity.

Lemma node_good : Forall io_good node_trace.
Proof. solve_io_good. Qed.

Lemma deployed_run_sends_authorized_witness :
  exists l1 rpc raw a l2, node_trace = (l1 ++ Ev (SendRawTransaction rpc raw) a :: l2)%list /\
    rpc = "https://rpc.example/base" /\ Forall (fun ev => sends ev = false) l1 /\
    exists t cfg, get_chain_by_id default_settings (et_chain_id t) = Ok cfg /\ chain_rpc sample_secret_store cfg rpc l1.
Proof.
  pose proof node_may as Hm. pose proof node_good as Hg.
  assert (exists l1 raw a l2, node_trace = (l1 ++ Ev (SendRawTransaction "https://rpc.example/base" raw) a :: l2)%list)
    as (l1 & raw & a & l2 & E)
    by (eexists (take 14 node_trace), _, _, (drop 15 node_trace); vm_compute; reflexivity).
  rewrite E in Hm, Hg.
  pose proof (deployed_run_sends_authorized default_settings sample_secret_store RequestMetadataTransactionApprover.request_approval
    default_dependencies TransactionGraph sample_state node_result l1 l2 "https://rpc.example/base" raw a sample_initial Hm Hg)
    as (H1 & _ & t & above & req & sg & _ & _ & _ & _ & _ & _ & _ & cfg & Hc & Hr).
  exists l1, "https://rpc.example/base", raw, a, l2. split; [exact E|]. split; [reflexivity|]. split; [exact H1|].
  exists t, cfg. split; [exact Hc | exact Hr].
Defined.

(** One operation of the boundaries over the sample node. *)
Definition op_result {A} (p : node A) : A := (run_prog node_handler p ∅).2.
Definition op_trace {A} (p : node A) : list ioevent := run_trace node_handler p ∅.

Lemma op_may {A} (p : node A) a : op_result p = a -> may p (op_trace p) a.
Proof. intros <-. exact (run_may node_handler p ∅). Qed.

Definition sample_fees : GasFees :=
  {| gf_gas_limit := 21000; gf_max_fee_per_gas := Some 22; gf_max_priority_fee_per_gas := Some 2; gf_gas_price := None |}.

Definition sample_executable : ExecutableTransaction :=
  {| et_wallet_id := "w1"; et_chain := "base"; et_chain_id := 8453; et_from_address := Some sample_wallet;
     et_to := sample_peer; et_value_wei := 7; et_data := "0x"; et_nonce := 4; et_gas := sample_fees;
     et_idempotency_key := Some "k1"; et_metadata := [] |}.

Definition sample_gas_run : node (result exn GasFees) := backend_populate_gas default_settings sample_secret_store sample_prepared.
Definition sample_simulation_run : node (result exn SimulationResult) :=
  backend_simulate default_settings sample_secret_store sample_executable.

Lemma populated_gas_sound_witness :
  op_result sample_gas_run = Ok sample_fees /\
  exists rpc limit, Ev (EstimateGas rpc (pt_transaction_fields sample_prepared)) (Ok limit) ∈ op_trace sample_gas_run /\ wf_GasFees sample_fees.
Proof.
  assert (op_result sample_gas_run = Ok sample_fees) as E by (vm_compute; reflexivity).
  split; [exact E|].
  destruct (populated_gas_sound default_settings sample_secret_store sample_prepared _ sample_fees (op_may _ _ E))
    as [[Hn _]|(rpc & limit & H1 & _ & H2 & _)]; [discriminate Hn|].
  exists rpc, limit. split; [exact H1 | exact H2].
Defined.

Lemma simulation_passed_sound_witness :
  exists sim, op_result sample_simulation_run = Ok sim /\ sr_status sim = SIM_PASSED /\
    preflight_passed default_settings sample_secret_store sample_executable sim (op_trace sample_simulation_run).
Proof.
  destruct (op_result sample_simulation_run) as [sim|] eqn:E; [|vm_compute in E; discriminate E].
  assert (sr_status sim = SIM_PASSED) as Hp by (vm_compute in E; injection E as <-; reflexivity).
  exists sim. split; [reflexivity|]. split; [exact Hp|].
  pose proof (simulation_passed_sound default_settings sample_secret_store sample_executable _ _ (op_may _ _ E)) as H.
  cbn beta iota in H. rewrite Hp in H. exact H.
Defined.


Lemma confirmation_wait_ends_witness :
  op_result (_wait_for_confirmations "rpc" 5 3) = Ok tt /\
  (polls (op_trace (_wait_for_confirmations "rpc" 5 3)) <= 120)%nat.
Proof.
  assert (op_result (_wait_for_confirmations "rpc" 5 3) = Ok tt) as E by (vm_compute; reflexivity).
  split; [exact E|]. refine (proj1 (confirmation_wait_ends "rpc" 5 3 0 _ _ (op_may _ _ E) _)).
  eassert (op_trace _ = _) as -> by (vm_compute; reflexivity).
  cbn [clock_from]. repeat split; lia.
Defined.
