(* ===== verification/Web.v ===== *)
(** The outside of the read-only tools, the swap adapters and the HTTP clients: everything of [Io], HTTP requests, ENS
    lookups, contract reads with a caller's ABI, and the mutable fields these clients keep.

    [urllib.request.urlopen] answers a request; a response body comes with what [json.loads] makes of it ([None] is
    [JSONDecodeError]). *)
From stdpp Require Import base tactics option list sets strings.
From Stdlib Require Import ZArith Lia Ascii String.
From S2P Require Import Prelude Python Values Exceptions Errors Addresses Chains Models SwapModels Idempotency Prog Effects Io Custody.

Local Open Scope string_scope.
Local Open Scope Z_scope.
Local Open Scope prog_scope.

(** [Request(url, data, headers, method)] with its timeout; [data] is the JSON value that is sent. *)
Record http_request := {
  hr_method : string;
  hr_url : string;
  hr_headers : list (string * string);
  hr_data : option pyval;
  hr_timeout : Z
}.

(** [urlopen]: a decoded body, a body that is not UTF-8, [HTTPError] (its code, its reason and the text of its body, if it
    can be read), or [URLError]/[OSError] (the name of its class and its [str]). *)
Inductive http_answer : Type :=
| HttpBody (text : string) (json : option pyval)
| HttpGarbled
| HttpStatus (code : Z) (reason : string) (body : option string)
| HttpFailed (cls text : string).

(** [ens.address]: the [str] of the address record, or an exception of the ens module by its class, or another one. *)
Inductive ens_answer : Type :=
| EnsRecord (address : option string)
| EnsInvalidName | EnsResolverNotFound | EnsUnsupportedFunction | EnsOther
| EnsRaised (e : exn).

Inductive web : Type :=
| NodeIO (i : io)
| HttpRequest (r : http_request)
| EnsAddress (rpc_url name : string) (coin_type : Z)
| CallFunction (rpc_url address : string) (abi : list dict) (function_name : string) (args : list pyval)
(* Web3EnsAddressResolver._cache *)
| CacheGet (name : string) (coin_type : Z)
| CachePut (name : string) (coin_type : Z) (address : string)
(* OneClawHttpClient._access_token with its agent *)
| TokenGet
| TokenPut (token : option (string * string)).

#[export] Instance web_effects : Effects web := fun c =>
  match c with
  | NodeIO i => ans i
  | HttpRequest _ => http_answer
  | EnsAddress _ _ _ => ens_answer
  | CallFunction _ _ _ _ _ => result exn pyval
  | CacheGet _ _ => option string
  | CachePut _ _ _ => unit
  | TokenGet => option (string * string)
  | TokenPut _ => unit
  end.

Abbreviation online := (prog web).
Abbreviation webevent := (event web).

Definition urlopen (r : http_request) : online http_answer := Call (HttpRequest r) Ret.

(** A program of the node, and one of the wallet's calls, as part of a client. *)
Definition lift_node {A} (p : node A) : online A := interp (fun i => @Call web web_effects (ans i) (NodeIO i) Ret) p.
Definition lift_wallet {A} (p : wallet A) : online A :=
  interp (fun e => @Call web web_effects (ans e) (NodeIO (Outside e)) Ret) p.

Lemma lift_node_calls {A} (p : node A) : calls (fun e => exists i, e = NodeIO i) (lift_node p).
Proof. induction p as [a|e k IH]; [apply calls_ret | apply calls_call; [by eexists | exact IH]]. Qed.
