(* ===== verification/Ens.v ===== *)
(** ENS names ([mercury/providers/ens.py]): the heuristic for names, and the resolver with its cache. *)
From stdpp Require Import base tactics option list sets strings.
From Stdlib Require Import ZArith Lia Ascii String.
From S2P Require Import Prelude Python Values Exceptions Errors Addresses Chains Models Prog Effects Io Custody Web.

Local Open Scope string_scope.
Local Open Scope Z_scope.
Local Open Scope prog_scope.

Definition EnsResolutionError (text : string) : exn := Exn EnsResolutionErrorC text.
Definition InvalidEVMAddressError (text : string) : exn := Exn InvalidEVMAddressErrorC text.

Section ens.
Context {W : Web3} (settings : MercurySettings) (store : OneClawSecretStore).

Definition looks_like_potential_ens_name (raw : string) : bool :=
  let candidate := py_strip raw in
  if str_empty candidate || negb (py_contains "." candidate) then false
  else if is_address candidate then false
  else if py_startswith (py_lower candidate) "0x" then false
  else forallb (fun label => negb (str_empty (py_strip label))) (py_split "." candidate).

Definition effective_chain_name_for_resolution (merged : dict) : result exn string :=
  match get merged "chain" with
  | VStr raw => if str_empty (py_strip raw) then cc_name <$> get_default_chain settings else Ok (py_fold raw)
  | _ => cc_name <$> get_default_chain settings
  end.

(** The exceptions of [ens.address], each with its message. *)
Definition ens_error (candidate : string) (a : ens_answer) : result exn (option string) :=
  match a with
  | EnsRecord address => Ok address
  | EnsInvalidName => Err (EnsResolutionError ("Invalid ENS name: " ++ py_repr_str candidate ++ "."))
  | EnsResolverNotFound => Err (EnsResolutionError ("No ENS resolver for name: " ++ py_repr_str candidate ++ "."))
  | EnsUnsupportedFunction =>
      Err (EnsResolutionError ("ENS resolver cannot resolve an address for: " ++ py_repr_str candidate ++ "."))
  | EnsOther => Err (EnsResolutionError ("ENS resolution failed for " ++ py_repr_str candidate ++ "."))
  | EnsRaised e => Err e
  end.

(** The lookup behind the cache. *)
Definition forward_lookup (candidate : string) (coin_type : Z) : online (result exn string) :=
  provider <- lift_node (Web3ProviderFactory_create settings store "ethereum");;
  record <- Call (EnsAddress (wp_rpc_url provider) candidate coin_type) (fun a => Ret (ens_error candidate a));;
  match record with
  | None => Ret (Err (EnsResolutionError
                        ("No address record found for ENS name " ++ py_repr_str candidate ++ " on this chain.")))
  | Some resolved =>
      out <- pure (normalize_evm_address resolved);;
      Call (CachePut (py_lower candidate) coin_type out) (fun _ => ret_ok out)
  end.

Definition resolve_evm_identifier (raw chain_name : string) : online (result exn string) :=
  let candidate := py_strip raw in
  if str_empty candidate then Ret (Err (EnsResolutionError "Address or ENS name must not be empty."))
  else if is_address candidate then pure (normalize_evm_address candidate)
  else if negb (looks_like_potential_ens_name candidate) then Ret (Err (InvalidEVMAddressError "Invalid EVM address."))
  else
    chain <- pure (match get_chain_by_name settings chain_name with
                   | Ok c => Ok c
                   | Err exc => if has_class UnsupportedChainErrorC exc then Err (EnsResolutionError (exn_text exc)) else Err exc
                   end);;
    let coin_type := evm_chain_id_to_ens_coin_type (cc_chain_id chain) in
    Call (CacheGet (py_lower candidate) coin_type) (fun cached =>
      match cached with
      | Some address => ret_ok address
      | None => forward_lookup candidate coin_type
      end).

(** What the resolver returns and caches is a checksummed address, if what was cached before is. *)
Lemma resolver_sound raw chain_name tr a :
  may (resolve_evm_identifier raw chain_name) tr (Ok a) ->
  (forall n c v, Ev (CacheGet n c) (Some v) ∈ tr -> normalized v) ->
  normalized a /\ forall n c v u, Ev (CachePut n c v) u ∈ tr -> v = a.
Proof.
  unfold resolve_evm_identifier. intros H Hc. destruct (str_empty _); [by destruct H|].
  destruct (is_address _).
  { apply may_pure_ok in H as [-> H]. split; [by eexists | by intros ???? Hin%not_elem_of_nil]. }
  destruct (negb _); [by destruct H|]. apply may_bind_ok in H as (tr1 & tr2 & chain & -> & [-> _]%may_pure_ok & H).
  destruct H as ([v|] & tr3 & -> & H).
  { destruct H as [-> [= <-]]. split; [eapply Hc; apply elem_of_cons; left; reflexivity | by intros ???? Hin%list_elem_of_singleton]. }
  unfold forward_lookup in H. apply may_bind_ok in H as (tr4 & tr5 & provider & -> & Hp & H).
  apply may_bind_ok in H as (tr6 & tr7 & [r|] & -> & (? & ? & -> & [-> _]) & H); [|by destruct H].
  apply may_bind_ok in H as (? & ? & out & -> & [-> Hn]%may_pure_ok & (? & ? & -> & [-> [= <-]])).
  split; [by eexists|]. intros n c v' ? Hin. apply lift_node_calls in Hp.
  rewrite app_nil_l in Hin. apply elem_of_cons in Hin as [[=]|Hin]. apply elem_of_app in Hin as [Hin|Hin].
  - rewrite Forall_forall in Hp. destruct (Hp _ Hin) as [? [=]].
  - apply elem_of_cons in Hin as [[=]|Hin]. apply list_elem_of_singleton in Hin. by injection Hin.
Qed.
End ens.
