(* ===== verification/InvokeIntent.v ===== *)
(** Validation of a request before any graph runs ([mercury/graph/intent_validation.py]). *)
From stdpp Require Import base tactics option list sets strings.
From Stdlib Require Import ZArith Lia Ascii String.
From S2P Require Import Prelude Python Values Exceptions Amounts Redaction Errors Addresses Chains Models SwapModels Prog Effects.
From S2P Require Import Graph State Intents Networks ReadIntents Io Custody Web Ens.

Local Open Scope string_scope.
Local Open Scope Z_scope.
Local Open Scope prog_scope.

Definition _STAGE : string := "validate_invoke_intent".

(** * The intents that move value *)

Inductive WalletIntent : Type :=
| TransferIntent (i : ERC20TransferIntent)
| ApprovalIntent (i : ERC20ApprovalIntent)
| NativeIntent (i : NativeTransferIntent)
| TradeIntent (i : SwapIntent).

Inductive value_moving_kind : Type := K_TRANSFER | K_APPROVAL | K_NATIVE | K_SWAP.

(** [_VALUE_MOVING_MODEL] by name *)
Definition _VALUE_MOVING_MODEL : list (string * value_moving_kind) :=
  [("erc20_transfer", K_TRANSFER); ("erc20_approval", K_APPROVAL); ("native_transfer", K_NATIVE); ("swap", K_SWAP)].

Definition value_moving_kind_of (i : WalletIntent) : value_moving_kind :=
  match i with TransferIntent _ => K_TRANSFER | ApprovalIntent _ => K_APPROVAL | NativeIntent _ => K_NATIVE
             | TradeIntent _ => K_SWAP end.

(** [model_dump(mode="json")]: the models have no [kind] field. *)
Definition wallet_intent_dump (i : WalletIntent) : dict :=
  match i with
  | TransferIntent i =>
      [("chain", VStr (ti_chain i)); ("wallet_id", VStr (ti_wallet_id i)); ("token_address", VStr (ti_token_address i));
       ("recipient_address", VStr (ti_recipient_address i)); ("amount", VStr (ti_amount i));
       ("amount_in_smallest_units", VBool (ti_amount_in_smallest_units i));
       ("idempotency_key", of_opt_str (ti_idempotency_key i))]
  | ApprovalIntent i =>
      [("chain", VStr (ai_chain i)); ("wallet_id", VStr (ai_wallet_id i)); ("token_address", VStr (ai_token_address i));
       ("spender_address", VStr (ai_spender_address i)); ("amount", VStr (ai_amount i));
       ("amount_in_smallest_units", VBool (ai_amount_in_smallest_units i));
       ("idempotency_key", of_opt_str (ai_idempotency_key i));
       ("spender_known", VBool (ai_spender_known i)); ("allow_unlimited", VBool (ai_allow_unlimited i))]
  | NativeIntent i =>
      [("chain", VStr (ni_chain i)); ("wallet_id", VStr (ni_wallet_id i));
       ("recipient_address", VStr (ni_recipient_address i)); ("amount", VStr (ni_amount i));
       ("idempotency_key", of_opt_str (ni_idempotency_key i))]
  | TradeIntent i =>
      [("wallet_id", VStr (si_wallet_id i)); ("chain", VStr (si_chain i)); ("from_token", VStr (si_from_token i));
       ("to_token", VStr (si_to_token i)); ("amount_in", VStr (si_amount_in i));
       ("min_amount_out", of_opt_str (si_min_amount_out i)); ("max_slippage_bps", of_opt_int (si_max_slippage_bps i));
       ("provider_preference", of_opt_str (SwapProviderName_value <$> si_provider_preference i));
       ("recipient_address", of_opt_str (si_recipient_address i)); ("idempotency_key", VStr (si_idempotency_key i));
       ("to_chain", of_opt_str (si_to_chain i)); ("to_chain_id", of_opt_int (si_to_chain_id i))]
  end.

Definition _ENS_RESOLVABLE_FIELDS_BY_KIND : list (string * list string) := [
  ("native_transfer", ["recipient_address"]); ("erc20_transfer", ["recipient_address"]);
  ("erc20_approval", ["spender_address"]); ("swap", ["recipient_address"]); ("native_balance", ["wallet_address"]);
  ("portfolio_tokens", ["wallet_address"]); ("get_portfolio_tokens", ["wallet_address"]);
  ("transfer_history", ["wallet_address"]); ("get_transfer_history", ["wallet_address"]);
  ("erc20_balance", ["wallet_address"]); ("erc20_allowance", ["owner_address"; "spender_address"]);
  ("contract_read", ["contract_address"])].

(** * The payload *)

Definition unwrap_intent_payload (raw : dict) : dict := match get raw "intent" with VDict intent => intent | _ => raw end.

Definition is_nested (raw : dict) : bool := match get raw "intent" with VDict _ => true | _ => false end.

Definition merge_canonical_into_raw_input (raw_input canonical : dict) : dict :=
  if is_nested raw_input then dict_set raw_input "intent" (VDict canonical) else dict_update raw_input canonical.

Definition merged_invoke_validation_payload (raw : dict) : dict :=
  let merged := unwrap_intent_payload raw in
  if is_nested raw then
    foldl (fun m key => match dict_get raw key with Some v => dict_setdefault m key v | None => m end)
      merged ["wallet_id"; "chain"; "idempotency_key"; "metadata"]
  else merged.

(** * Hints for the caller *)

Definition info_with_details (info : MercuryErrorInfo) (details : dict) : MercuryErrorInfo :=
  {| ei_code := ei_code info; ei_category := ei_category info; ei_message := ei_message info;
     ei_retryable := ei_retryable info; ei_recoverable := ei_recoverable info; ei_user_action := ei_user_action info;
     ei_llm_action := ei_llm_action info; ei_details := details |}.

Definition is_ascii (c : ascii) : bool := code c <? 128.

Definition _looks_like_plain_symbol (raw : pyval) : bool :=
  match raw with
  | VStr s =>
      let trimmed := py_strip s in
      if negb (str_forall is_ascii trimmed) then false
      else if py_startswith (py_lower trimmed) "0x" then false
      else if py_isdigit trimmed then false
      else if (List.length (List.filter is_ascii_alpha (list_ascii_of_string trimmed)) <? 2)%nat then false
      else
        let allowed := remove_underscores trimmed in
        negb (str_empty allowed) && str_forall (fun c => is_ascii_alpha c || is_ascii_digit c) allowed
        && (3 <=? str_len allowed) && (str_len allowed <=? 16)
  | _ => false
  end.

Definition _KNOWN_ADDRESS_TOKEN_FIELDS : list string := ["token_address"; "from_token"; "to_token"].

(** An entry of a list of pydantic errors: its location and the input it was raised for. *)
Definition error_entry : Type := (list string * pyval)%type.

Section hints.
Context {W : Web3}.

Definition symbol_hint (chain field : string) (inp : pyval) : result exn dict :=
  let provided := py_strip (py_str inp) in
  match lookup_address (ChainName chain) CatToken provided with
  | Err exc =>
      if has_class KnownAddressMissingErrorC exc then
        Ok [("field", VStr field); ("provided", VStr provided); ("chain", VStr (py_fold chain));
            ("message", VStr ("`token_address`/token fields expect a checksummed 0x address. If ``" ++ provided ++
                              "`` is a ticker symbol, resolve it with ``kind: known_address`` " ++
                              "(``category``: ``token``, ``key``: ``…``)."))]
      else Err exc
  | Ok address =>
      Ok [("field", VStr field); ("provided", VStr provided); ("resolved_checksum_address", VStr address);
          ("chain", VStr (py_fold chain));
          ("message", VStr ("Interpreted `" ++ py_str inp ++ "` as a token symbol → checksum address `" ++ address ++
                            "` on-catalog. Replace `" ++ field ++
                            "` with that `0x` address (or resolve via ``kind: known_address``)."));
          ("intent_kind_tip", VStr "erc20_balance for balances; swaps still require hex `token` addresses.")]
  end.

Fixpoint first_symbol_hint (chain : string) (errors : list error_entry) : result exn (option dict) :=
  match errors with
  | [] => Ok None
  | (loc, inp) :: errors' =>
      match last loc with
      | Some field =>
          if bool_decide (field ∈ _KNOWN_ADDRESS_TOKEN_FIELDS) && _looks_like_plain_symbol inp
          then Some <$> symbol_hint chain field inp
          else first_symbol_hint chain errors'
      | None => first_symbol_hint chain errors'
      end
  end.

Definition _known_address_resolution_suggestion (errors : list error_entry) (merged : dict) : result exn (option dict) :=
  match get merged "chain" with
  | VStr chain => if str_empty (py_strip chain) then Ok None else first_symbol_hint chain errors
  | _ => Ok None
  end.

Definition _known_address_resolution_from_merged_fields (merged : dict) : result exn (option dict) :=
  let kind := py_fold (py_str (get_default merged "kind" (VStr ""))) in
  let synthetic := omap (fun field =>
      if String.eqb kind "erc20_balance" && negb (String.eqb field "token_address") then None
      else if _looks_like_plain_symbol (get merged field) then Some ([field], get merged field) else None)
    _KNOWN_ADDRESS_TOKEN_FIELDS in
  match synthetic with
  | [] => Ok None
  | _ => _known_address_resolution_suggestion synthetic merged
  end.

Definition abi_fragment_example : pyval := VList [VDict [
  ("type", VStr "function"); ("name", VStr "balanceOf"); ("stateMutability", VStr "view");
  ("inputs", VList [VDict [("name", VStr "account"); ("type", VStr "address")]]);
  ("outputs", VList [VDict [("type", VStr "uint256")]])]].

Definition abi_hints (merged : dict) : dict :=
  let merged_kind := py_fold (py_str (py_or (get_default merged "kind" (VStr "")) (VStr ""))) in
  match get merged "abi_fragment" with
  | VStr _ =>
      if String.eqb merged_kind "contract_read" then
        [("abi_fragment_expected", VStr "list[dict] (JSON ABI entries)");
         ("abi_fragment_example_balanceOf", abi_fragment_example);
         ("alternate_intent_suggestion",
          VStr "For ERC-20 balances use ``kind: erc20_balance`` with ``token_address`` and ``wallet_address``.")]
      else []
  | _ => []
  end.

(** [errors] are the entries of [details["errors"]], when the error came from pydantic. *)
Definition _enrich_invoke_validation_error (info : MercuryErrorInfo) (errors : list error_entry) (merged : dict)
    : result exn MercuryErrorInfo :=
  suggestion ← match errors with
               | [] => Ok None
               | _ => _known_address_resolution_suggestion errors merged
               end;
  hint ← match suggestion with
         | Some s => Ok (Some s)
         | None => _known_address_resolution_from_merged_fields merged
         end;
  let extras := (abi_hints merged ++
                 match hint with Some h => [("known_address_catalog_suggestion", VDict h)] | None => [] end)%list in
  Ok match extras with [] => info | _ => info_with_details info (dict_update (ei_details info) extras) end.

(** The entries pydantic makes for a flat model: a field's own value, or the whole input when the field is missing or the
    model failed as a whole; [redact_value] has been applied to them. *)
Definition error_entries (errors : list pyd_error) (merged : dict) : list error_entry :=
  map (fun e => (map _redact_text (pe_loc e),
                 redact_value match pe_loc e with
                              | [field] => match dict_get merged field with Some v => v | None => VDict merged end
                              | _ => VDict merged
                              end)) errors.

Definition _validation_failed_from_pydantic_invoke {PT : PydanticText} (title : string) (errors : list pyd_error)
    (merged : dict) : result exn MercuryErrorInfo :=
  let info := validation_failed_from_pydantic title errors (Some _STAGE) in
  let remediation := "Compare your payload with the required fields for this intent kind (addresses, amounts, chain, wallet_id, and idempotency_key where applicable)." in
  _enrich_invoke_validation_error
    (info_with_details info (dict_set (ei_details info) "remediation" (VStr remediation)))
    (error_entries errors merged) merged.
End hints.

(** * Validation *)

(** The state with its canonical input, or the structured error. *)
Inductive validation : Type :=
| Validated (s : MercuryState)
| Refused (info : MercuryErrorInfo).

Section validate.
Context {W : Web3} {P : PydanticLax} {PT : PydanticText} (settings : MercurySettings).
Context {E : Type} `{!Effects E}.

(** [EVMIdentifierResolver.resolve_evm_identifier] *)
Context (ens_resolver : option (string -> string -> prog E (result exn string))).

Definition wallet_intent_validate (kind : value_moving_kind) (d : dict) : result exn WalletIntent :=
  match kind with
  | K_TRANSFER => TransferIntent <$> ERC20TransferIntent_validate d
  | K_APPROVAL => ApprovalIntent <$> ERC20ApprovalIntent_validate d
  | K_NATIVE => NativeIntent <$> NativeTransferIntent_validate d
  | K_SWAP => TradeIntent <$> SwapIntent_validate settings d
  end.

(** One field: kept, replaced by the address of the name it holds, or an error. *)
Definition resolve_field (resolver : string -> string -> prog E (result exn string)) (chain_name field_name : string)
    (merged : dict) : prog E (result exn (dict * option MercuryErrorInfo)) :=
  match get merged field_name with
  | VStr raw_val =>
      let trimmed := py_strip raw_val in
      if str_empty trimmed || negb (looks_like_potential_ens_name trimmed) then ret_ok (merged, None) else
      prog_bind (resolver trimmed chain_name) (fun r =>
        match r with
        | Ok address => ret_ok (dict_set merged field_name (VStr address), None)
        | Err exc =>
            if has_class EnsResolutionErrorC exc then
              ret_ok (merged, Some (validation_failed (exn_text exc)
                [("field", VStr field_name); ("provided", VStr trimmed); ("chain", VStr chain_name);
                 ("resolution", VStr "ens_forward")] (Some _STAGE)))
            else Ret (Err exc)
        end)
  | _ => ret_ok (merged, None)
  end.

Fixpoint resolve_fields (resolver : string -> string -> prog E (result exn string)) (chain_name : string)
    (fields : list string) (merged : dict) : prog E (result exn (dict * option MercuryErrorInfo)) :=
  match fields with
  | [] => ret_ok (merged, None)
  | field_name :: fields' =>
      r <- resolve_field resolver chain_name field_name merged;;
      match r with
      | (merged', None) => resolve_fields resolver chain_name fields' merged'
      | (merged', Some info) => ret_ok (merged', Some info)
      end
  end.

(** [merged] is updated in place; the error, if any, comes with it. *)
Definition _apply_ens_resolution_to_merged (merged : dict) (kind_lower : string)
    : prog E (result exn (dict * option MercuryErrorInfo)) :=
  match ens_resolver with
  | None => ret_ok (merged, None)
  | Some resolver =>
      match dict_get _ENS_RESOLVABLE_FIELDS_BY_KIND kind_lower with
      | None => ret_ok (merged, None)
      | Some fields =>
          chain_name <- pure (effective_chain_name_for_resolution settings merged);;
          resolve_fields resolver chain_name fields merged
      end
  end.

Definition refuse (info : result exn MercuryErrorInfo) : prog E (result exn validation) := pure (Refused <$> info).

(** [_extract_raw_blob]: a state without [raw_input] stands for itself, a dict without a kind. *)
Definition _extract_raw_blob (state : MercuryState) : any_value :=
  match raw_input state with Some v => v | None => AnyValue (VDict []) end.

Definition _success_state (state : MercuryState) (merged_raw : dict) : MercuryState :=
  with_raw_input (AnyValue (VDict merged_raw)) state.

(** The branches after ENS resolution: the intent is validated and its dump merged into the raw input. *)
Definition validate_kind (state : MercuryState) (raw : dict) (raw_kind : string) (merged : dict)
    : prog E (result exn validation) :=
  let kind_lower := py_fold raw_kind in
  match dict_get _VALUE_MOVING_MODEL kind_lower with
  | Some kind =>
      match wallet_intent_validate kind merged with
      | Err (ValidationError title errors) => refuse (_validation_failed_from_pydantic_invoke title errors merged)
      | Err exc => Ret (Err exc)
      | Ok validated =>
          ret_ok (Validated (_success_state state (merge_canonical_into_raw_input raw (wallet_intent_dump validated))))
      end
  | None =>
      match dict_get _KIND_ALIASES kind_lower with
      | Some _ =>
          match parse_readonly_intent settings (VDict merged) [] with
          | Err exc =>
              if has_class UnsupportedIntentErrorC exc
              then refuse (_enrich_invoke_validation_error (normalize_exception exc (Some _STAGE) None) [] merged)
              else Ret (Err exc)
          | Ok (UnsupportedIntent reason) =>
              refuse (_enrich_invoke_validation_error (unsupported_intent (Some reason) [] (Some _STAGE)) [] merged)
          | Ok parsed =>
              ret_ok (Validated (_success_state state (merge_canonical_into_raw_input raw (intent_dump parsed))))
          end
      | None =>
          ret_ok (Refused (unsupported_intent (Some ("Unsupported wallet intent: " ++ raw_kind ++ ".")) [] (Some _STAGE)))
      end
  end.

Definition validate_invoke_intent (state : MercuryState) : prog E (result exn validation) :=
  match _extract_raw_blob state with
  | AnyValue (VStr _) =>
      ret_ok (Refused (unsupported_intent
        (Some "String intents cannot be validated for invoke; provide a structured JSON object with a ``kind`` field.")
        [("remediation", VStr "Replace text intents with a structured intent payload.")] (Some _STAGE)))
  | AnyValue (VDict raw) =>
      match raw_kind_of (unwrap_intent_payload raw) with
      | VStr raw_kind =>
          r <- _apply_ens_resolution_to_merged (merged_invoke_validation_payload raw) (py_fold raw_kind);;
          match r with
          | (merged, Some ens_err) => refuse (_enrich_invoke_validation_error ens_err [] merged)
          | (merged, None) => validate_kind state raw raw_kind merged
          end
      | _ => ret_ok (Refused (validation_failed "Structured intents must include a string ``kind`` field." [] (Some _STAGE)))
      end
  | _ => ret_ok (Refused (validation_failed "Invoke intent must be a JSON object." [] (Some _STAGE)))
  end.
End validate.

