(* ===== verification/InvokeIntentSpec.v ===== *)
(** A request that passes validation carries a canonical intent: the payload the graphs read validates again, to the same
    intent. *)
From stdpp Require Import base tactics option list sets strings.
From Stdlib Require Import ZArith Lia Ascii String.
From S2P Require Import Prelude Python Values Exceptions Redaction Errors Addresses Chains Models SwapModels Prog Effects.
From S2P Require Import Graph State Intents Networks ReadIntents ReadIntentSpec SwapSpec Io Custody Web Ens InvokeIntent.

Local Open Scope string_scope.
Local Open Scope Z_scope.
Local Open Scope validation_scope.

#[local] Opaque get_chain_by_name.

Section spec.
Context {W : Web3} {L : Web3Laws W} {P : PydanticLax} {PL : PydanticLaxLaws P} {PT : PydanticText}.
Context (settings : MercurySettings).

(** * Well-formed intents *)

Definition wf_wallet_intent (i : WalletIntent) : Prop :=
  match i with
  | TransferIntent i =>
      py_fold (ti_chain i) = ti_chain i /\ ti_wallet_id i <> "" /\ normalized (ti_token_address i) /\
      normalized (ti_recipient_address i) /\ ti_amount i <> "" /\ ti_idempotency_key i <> Some ""
  | ApprovalIntent i =>
      py_fold (ai_chain i) = ai_chain i /\ ai_wallet_id i <> "" /\ normalized (ai_token_address i) /\
      normalized (ai_spender_address i) /\ ai_amount i <> "" /\ ai_idempotency_key i <> Some ""
  | NativeIntent i =>
      py_fold (ni_chain i) = ni_chain i /\ ni_wallet_id i <> "" /\ normalized (ni_recipient_address i) /\
      ni_amount i <> "" /\ ni_idempotency_key i <> Some ""
  | TradeIntent i =>
      py_fold (si_chain i) = si_chain i /\ si_wallet_id i <> "" /\ normalized (si_from_token i) /\
      normalized (si_to_token i) /\ si_amount_in i <> "" /\ si_min_amount_out i <> Some "" /\
      opt_all (fun z => 0 <= z <= 10000) (si_max_slippage_bps i) /\ opt_all normalized (si_recipient_address i) /\
      si_idempotency_key i <> "" /\ opt_all (fun c => py_fold c = c) (si_to_chain i) /\
      opt_all (fun z => 0 < z) (si_to_chain_id i) /\ si_from_token i <> si_to_token i /\
      validate_destination settings (si_to_chain i) (si_to_chain_id i) = Ok tt
  end.

(** What validating a dump again needs on top: blank chains were accepted, and an address that only the checksum turns into
    the native-token marker would be read as the native token the second time. *)
Definition stable_intent (i : WalletIntent) : Prop :=
  match i with
  | TransferIntent i => ti_chain i <> ""
  | ApprovalIntent i => ai_chain i <> ""
  | NativeIntent i => ni_chain i <> ""
  | TradeIntent i =>
      si_chain i <> "" /\ si_to_chain i <> Some "" /\ py_lower (si_from_token i) <> py_lower NATIVE_FROM_TOKEN_SENTINEL_ALIAS
  end.

Lemma chain_str_field_ok d k c : str_field d k v_chain = Ok c -> py_fold c = c.
Proof.
  unfold str_field, v_chain. intros (v & _ & H)%req_ok. apply result_bind_ok in H as (s & _ & H).
  apply result_bind_ok in H as (t & _ & [= <-]). apply (py_fold_idem t).
Qed.

Lemma opt_nonempty_ok d k o : opt_str_field d k nonempty = Ok o -> o <> Some "".
Proof.
  unfold opt_str_field. intros H ->.
  assert ("" <> "") as Hn; [|done]. refine (optional_ok d k _ (fun s => s <> "") _ _ H "" eq_refl).
  intros v a (s & _ & Hs)%result_bind_ok. by apply v_min_length_ok in Hs as [-> ?].
Qed.

Lemma opt_chain_ok d k o : opt_str_field d k v_chain = Ok o -> opt_all (fun c => py_fold c = c) o.
Proof.
  unfold opt_str_field. intros H c ->. refine (optional_ok d k _ (fun s => py_fold s = s) _ _ H c eq_refl).
  intros v a (s & _ & (t & _ & [= <-])%result_bind_ok)%result_bind_ok. apply (py_fold_idem t).
Qed.

Lemma opt_address_ok d k o : opt_str_field d k v_address_field = Ok o -> opt_all normalized o.
Proof.
  unfold opt_str_field. intros H c ->. refine (optional_ok d k _ normalized _ _ H c eq_refl).
  intros v a (s & _ & Hs)%result_bind_ok. by eapply v_address_field_normalized.
Qed.

Lemma opt_int_ok d k (f : Z -> V Z) (Q : Z -> Prop) o :
  (forall z w, f z = Ok w -> Q w) -> optional d k (fun x => conv_int k x ≫= f) = Ok o -> opt_all Q o.
Proof.
  intros Hf H c ->. refine (optional_ok d k _ Q _ _ H c eq_refl).
  intros v a (z & _ & Hz)%result_bind_ok. by eapply Hf.
Qed.

Lemma from_token_field_ok d k a : str_field d k v_from_token = Ok a -> normalized a.
Proof.
  unfold str_field. intros (v & _ & H)%req_ok. apply result_bind_ok in H as (s & _ & H). by eapply v_from_token_ok.
Qed.

Ltac wallet_fields :=
  inv_valid; subst; simpl in *;
  repeat match goal with
  | H : str_field _ _ v_chain = Ok _ |- _ => apply chain_str_field_ok in H
  | H : str_field _ _ nonempty = Ok _ |- _ => apply nonempty_field_ok in H
  | H : str_field _ _ v_address_field = Ok _ |- _ => apply address_field_ok in H
  | H : str_field _ _ v_from_token = Ok _ |- _ => apply from_token_field_ok in H
  | H : opt_str_field _ _ nonempty = Ok _ |- _ => apply opt_nonempty_ok in H
  | H : opt_str_field _ _ v_chain = Ok _ |- _ => apply opt_chain_ok in H
  | H : opt_str_field _ _ v_address_field = Ok _ |- _ => apply opt_address_ok in H
  end.

Lemma wallet_intent_validate_wf kind d i :
  wallet_intent_validate settings kind d = Ok i -> wf_wallet_intent i /\ value_moving_kind_of i = kind.
Proof.
  destruct kind; simpl; intros (x & H & ->)%result_fmap_ok; (split; [|reflexivity]).
  - unfold ERC20TransferIntent_validate in H. wallet_fields. by split_and!.
  - unfold ERC20ApprovalIntent_validate in H. wallet_fields. by split_and!.
  - unfold NativeTransferIntent_validate in H. wallet_fields. by split_and!.
  - unfold SwapIntent_validate in H. wallet_fields.
    apply result_bind_ok in H as (u1 & Ht & H). apply result_bind_ok in H as (u2 & Hd & H). injection H as <-. simpl in *.
    unfold validate_tokens in Ht. apply raise_if_ok, String.eqb_neq in Ht. simpl in Ht. destruct u2.
    split_and!; try done.
    + eapply opt_int_ok; [|eassumption]. intros z w. unfold v_bps. intros (y & Hy & Hw)%result_bind_ok.
      apply v_ge_ok in Hy as [-> ?]. by apply v_le_ok in Hw as [-> ?].
    + eapply opt_int_ok; [|eassumption]. by intros z w [-> ?]%v_gt_ok.
Qed.

(** * Validating the dump again *)

Lemma lower_zeros h : str_forall (Ascii.eqb "0") (py_lower h) = true -> py_lower h = h.
Proof.
  unfold py_lower. induction h as [|c h IH]; [done|]. cbn [str_map str_forall]. rewrite andb_true_iff.
  intros [Hc Hh]. rewrite IH by done. f_equal. clear -Hc. by destruct c as [[] [] [] [] [] [] [] []].
Qed.

Lemma lower_zero_address a : normalized a -> py_lower a = py_lower ZERO_ADDRESS -> a = ZERO_ADDRESS.
Proof.
  intros (h & -> & _)%normalized_shape%address_shape_split H. change (py_lower ("0x" ++ h)) with ("0x" ++ py_lower h) in H.
  change (py_lower ZERO_ADDRESS) with ZERO_ADDRESS in H. unfold ZERO_ADDRESS in *. injection H as H. change ("" ++ py_lower h) with (py_lower h) in H.
  assert (py_lower h = h) as Hl by (apply lower_zeros; by rewrite H). rewrite Hl in H. by rewrite H.
Qed.

Lemma v_chain_again loc c : py_fold c = c -> c <> "" -> v_chain loc c = Ok c.
Proof. intros Hf Hne. unfold v_chain. rewrite v_min_length_intro by done. cbn. f_equal. exact Hf. Qed.

Lemma v_from_token_again loc a :
  normalized a -> py_lower a <> py_lower NATIVE_FROM_TOKEN_SENTINEL_ALIAS -> v_from_token loc a = Ok a.
Proof.
  intros Ha Hne. unfold v_from_token. rewrite v_min_length_intro by by apply normalized_nonempty. cbn [mbind result_bind].
  apply vfield_ok. unfold normalize_swap_input_from_token.
  pose proof (normalized_shape a Ha) as Hs. rewrite (address_strip a Hs).
  apply String.eqb_neq in Hne. rewrite Hne, orb_false_r.
  destruct (String.eqb_spec (py_lower a) (py_lower ZERO_ADDRESS)) as [E|]; [|by apply normalize_idem].
  rewrite normalize_zero. f_equal. symmetry. by apply lower_zero_address.
Qed.

Lemma opt_str_intro d k f o :
  dict_get d k = Some (of_opt_str o) -> (forall s, o = Some s -> f k s = Ok s) -> opt_str_field d k f = Ok o.
Proof.
  unfold opt_str_field, optional. intros -> Hf. destruct o as [s|]; [|done]. cbn. by rewrite Hf.
Qed.

Lemma opt_int_intro' d k (f : Z -> V Z) o :
  dict_get d k = Some (of_opt_int o) -> (forall z, o = Some z -> f z = Ok z) ->
  optional d k (fun x => conv_int k x ≫= f) = Ok o.
Proof.
  unfold optional, conv_int. intros -> Hf. destruct o as [z|]; [|done]. cbn. rewrite lax_int_int. cbn. by rewrite Hf.
Qed.

Lemma nonempty_intro loc s : s <> "" -> nonempty loc s = Ok s.
Proof. apply v_min_length_intro. Qed.

Lemma opt_nonempty_intro (o : option string) : o <> Some "" -> forall s k, o = Some s -> nonempty k s = Ok s.
Proof. intros H s k ->. apply nonempty_intro. by intros ->. Qed.

Ltac redump Hd :=
  repeat apply vboth_intro;
  lazymatch goal with
  | |- str_field _ _ v_chain = Ok _ => eapply str_field_intro; [apply Hd; reflexivity | by apply v_chain_again]
  | |- str_field _ _ nonempty = Ok _ => eapply str_field_intro; [apply Hd; reflexivity | by apply nonempty_intro]
  | |- str_field _ _ v_address_field = Ok _ =>
      eapply str_field_intro; [apply Hd; reflexivity | by apply v_address_field_intro]
  | |- str_field _ _ v_from_token = Ok _ => eapply str_field_intro; [apply Hd; reflexivity | by apply v_from_token_again]
  | |- opt_str_field _ _ nonempty = Ok _ =>
      let Hs := fresh in
      eapply opt_str_intro; [apply Hd; reflexivity | intros ? Hs; eapply opt_nonempty_intro; [|exact Hs]; assumption]
  | |- dflt _ _ (conv_bool _) _ = Ok _ => eapply bool_field_intro; apply Hd; reflexivity
  | |- _ => idtac
  end.

Lemma wallet_intent_again i d :
  wf_wallet_intent i -> stable_intent i -> carries_dict d (wallet_intent_dump i) ->
  wallet_intent_validate settings (value_moving_kind_of i) d = Ok i.
Proof.
  destruct i as [x|x|x|x]; intros Hwf Hst Hd; cbn [value_moving_kind_of wallet_intent_validate];
    (eapply (proj2 (result_fmap_ok _ _ _)); exists x; split; [|reflexivity]).
  - destruct x as [c w t r a b k], Hwf as (? & ? & ? & ? & ? & ?). simpl in *.
    apply (v_model_fmap _ _ _ _ (c, w, t, r, a, b, k)); [|reflexivity..]. redump Hd.
  - destruct x as [c w t r a b k s u], Hwf as (? & ? & ? & ? & ? & ?). simpl in *.
    apply (v_model_fmap _ _ _ _ (c, w, t, r, a, b, k, s, u)); [|reflexivity..]. redump Hd.
  - destruct x as [c w r a k], Hwf as (? & ? & ? & ? & ?). simpl in *.
    apply (v_model_fmap _ _ _ _ (c, w, r, a, k)); [|reflexivity..]. redump Hd.
  - destruct x as [w c f t a m s p r k tc ti], Hwf as (? & ? & ? & ? & ? & ? & Hsl & Hrec & ? & Hto & Hid & Hne & Hdest).
    destruct Hst as (? & Htc & ?).
    cbn [si_wallet_id si_chain si_from_token si_to_token si_amount_in si_min_amount_out si_max_slippage_bps
         si_provider_preference si_recipient_address si_idempotency_key si_to_chain si_to_chain_id] in *.
    apply (v_model_with_intro _ _ _ (w, c, f, t, a, m, s, p, r, k, tc, ti)).
    + redump Hd.
      * eapply opt_int_intro'; [apply Hd; reflexivity|]. intros z ->. pose proof (Hsl z eq_refl) as Hz. cbn beta in Hz. unfold v_bps.
        rewrite v_ge_intro by lia. cbn. by rewrite v_le_intro by lia.
      * unfold optional. rewrite (Hd "provider_preference" _ eq_refl). by destruct p as [[]|].
      * eapply opt_str_intro; [apply Hd; reflexivity|]. intros z ->. apply v_address_field_intro. by apply Hrec.
      * eapply opt_str_intro; [apply Hd; reflexivity|]. intros z ->. apply v_chain_again; [by apply Hto|]. congruence.
      * eapply opt_int_intro'; [apply Hd; reflexivity|]. intros z ->. apply v_gt_intro. by apply Hid.
    + unfold validate_tokens. simpl. rewrite (proj2 (String.eqb_neq _ _) Hne). cbn. by rewrite Hdest.
Qed.

(** The native-token marker in the clothes of a token: validated once it is an address, validated again it is the
    native token. *)
Definition native_marker (i : WalletIntent) : Prop :=
  match i with TradeIntent x => py_lower (si_from_token x) = py_lower NATIVE_FROM_TOKEN_SENTINEL_ALIAS | _ => False end.

Lemma blank_chain_field d k c : dict_get d k = Some (VStr "") -> str_field d k v_chain <> Ok c.
Proof. unfold str_field. intros Hd H. apply req_ok in H as (v & Hv & H). rewrite Hd in Hv. by injection Hv as <-. Qed.

Lemma blank_opt_chain_field d k c : dict_get d k = Some (VStr "") -> opt_str_field d k v_chain <> Ok c.
Proof. unfold opt_str_field, optional. by intros ->. Qed.

(** So an intent that validates again from the canonical payload is the same intent, or it carries the marker. *)
Lemma wallet_intent_same i j d :
  wf_wallet_intent i -> carries_dict d (wallet_intent_dump i) ->
  wallet_intent_validate settings (value_moving_kind_of i) d = Ok j -> j = i \/ native_marker i.
Proof.
  intros Hwf Hd Hv. assert (stable_intent i \/ native_marker i) as [Hst|]; [| |by right].
  - destruct i as [x|x|x|x]; cbn [wallet_intent_validate value_moving_kind_of stable_intent native_marker] in *;
      apply result_fmap_ok in Hv as (y & Hv & _).
    1-3: left; intros Eb; pose proof (Hd "chain" _ eq_refl) as Hc; cbn in Hc; rewrite Eb in Hc;
      unfold ERC20TransferIntent_validate, ERC20ApprovalIntent_validate, NativeTransferIntent_validate in Hv; inv_valid; by eapply blank_chain_field.
    destruct (decide (py_lower (si_from_token x) = py_lower NATIVE_FROM_TOKEN_SENTINEL_ALIAS)); [by right|]. left.
    unfold SwapIntent_validate in Hv. inv_valid. split_and!; [| |done].
    + intros Eb. pose proof (Hd "chain" _ eq_refl) as Hc. cbn in Hc. rewrite Eb in Hc. by eapply blank_chain_field.
    + intros Eb. pose proof (Hd "to_chain" _ eq_refl) as Hc. cbn in Hc. rewrite Eb in Hc. by eapply blank_opt_chain_field.
  - left. rewrite (wallet_intent_again i d Hwf Hst Hd) in Hv. by injection Hv as <-.
Qed.

(** * The payload after validation *)

Lemma wallet_dump_keys i :
  NoDup (wallet_intent_dump i).*1 /\ Forall (fun k => dict_get (wallet_intent_dump i) k = None) ["intent"; "kind"; "metadata"].
Proof. destruct i; (split; [apply (bool_decide_unpack _); vm_compute; exact I | repeat constructor]). Qed.

Lemma intent_dump_keys i :
  NoDup (intent_dump i).*1 /\ Forall (fun k => dict_get (intent_dump i) k = None) ["intent"; "metadata"].
Proof. destruct i; (split; [apply (bool_decide_unpack _); vm_compute; exact I | repeat constructor]). Qed.

Lemma get_none (d : dict) k : dict_get d k = None -> get d k = VNone.
Proof. unfold get. by intros ->. Qed.

(** What the graphs read: the canonical intent over the raw input, or alone when the raw input was an envelope. *)
Lemma canonical_payload raw canonical :
  NoDup canonical.*1 -> dict_get canonical "intent" = None ->
  let raw' := merge_canonical_into_raw_input raw canonical in
  let payload := unwrap_intent_payload raw' in
  carries_dict payload canonical /\ unwrap_intent_payload payload = payload /\
  (is_nested raw = true -> payload = canonical) /\
  forall k, dict_get canonical k = None -> k <> "intent" ->
    dict_get payload k = if is_nested raw then None else dict_get raw k.
Proof.
  intros Hd Hi. unfold merge_canonical_into_raw_input, unwrap_intent_payload, is_nested. cbv zeta.
  destruct (get raw "intent") as [| | | | | |inner] eqn:E.
  1-6: assert (get (dict_update raw canonical) "intent" = get raw "intent") as Hg
         by (unfold get; by rewrite dict_get_update_notin); rewrite !Hg, E; rewrite ?Hg, ?E;
       split_and!; [by apply carries_dict_update | done | done | intros k Hk _; by apply dict_get_update_notin].
  assert (get (dict_set raw "intent" (VDict canonical)) "intent" = VDict canonical) as ->
    by (unfold get; by rewrite dict_get_set, String.eqb_refl).
  rewrite (get_none _ _ Hi). split_and!; [apply carries_dict_refl | done | done | done].
Qed.

Context {E : Type} `{!Effects E} (ens_resolver : option (string -> string -> prog E (result exn string))).

Lemma refuse_not_validated (r : result exn MercuryErrorInfo) (tr : list (event E)) s : ~ may (refuse r) tr (Ok (Validated s)).
Proof. by destruct r; intros [_ [=]]. Qed.

(** Everything that is accepted goes through [validate_kind]. *)
Lemma validated_by_kind state tr s' :
  may (validate_invoke_intent settings ens_resolver state) tr (Ok (Validated s')) ->
  exists raw raw_kind merged, raw_input state = Some (AnyValue (VDict raw)) /\
    raw_kind_of (unwrap_intent_payload raw) = VStr raw_kind /\
    may (_apply_ens_resolution_to_merged settings ens_resolver (merged_invoke_validation_payload raw) (py_fold raw_kind))
      tr (Ok (merged, None)) /\
    may (@validate_kind _ _ _ settings E _ state raw raw_kind merged) [] (Ok (Validated s')).
Proof.
  unfold validate_invoke_intent, _extract_raw_blob. intros H.
  destruct (raw_input state) as [[v|t]|] eqn:Er; [|by destruct H | by destruct H].
  destruct v as [| | | | | |raw]; try (by destruct H).
  destruct (raw_kind_of (unwrap_intent_payload raw)) as [| | | |raw_kind| |] eqn:Ek; try (by destruct H).
  apply may_bind_ok in H as (tr1 & tr2 & [merged [info|]] & -> & Hens & H); [by apply refuse_not_validated in H|].
  assert (tr2 = []) as -> by (unfold validate_kind in H; repeat case_match; try (by apply refuse_not_validated in H); by destruct H).
  rewrite app_nil_r. by exists raw, raw_kind, merged.
Qed.

(** What an accepted request carries, and what its canonical payload is. *)
Lemma validated_payload state tr s' :
  may (validate_invoke_intent settings ens_resolver state) tr (Ok (Validated s')) ->
  exists raw raw' raw_kind merged,
    raw_input state = Some (AnyValue (VDict raw)) /\ raw_kind_of (unwrap_intent_payload raw) = VStr raw_kind /\
    may (_apply_ens_resolution_to_merged settings ens_resolver (merged_invoke_validation_payload raw) (py_fold raw_kind))
      tr (Ok (merged, None)) /\
    s' = with_raw_input (AnyValue (VDict raw')) state /\
    let payload := unwrap_intent_payload raw' in
    unwrap_intent_payload payload = payload /\
    dict_get payload "metadata" = (if is_nested raw then None else dict_get raw "metadata") /\
    ((exists i, dict_get _VALUE_MOVING_MODEL (py_fold raw_kind) = Some (value_moving_kind_of i) /\
        wallet_intent_validate settings (value_moving_kind_of i) merged = Ok i /\
        carries_dict payload (wallet_intent_dump i) /\ wf_wallet_intent i /\
        dict_get payload "kind" = (if is_nested raw then None else dict_get raw "kind") /\
        (is_nested raw = true -> payload = wallet_intent_dump i)) \/
     (exists i, dict_get _VALUE_MOVING_MODEL (py_fold raw_kind) = None /\ intent_kind i <> UNSUPPORTED /\
        wf_ParsedIntent settings i /\ carries_dict payload (intent_dump i))).
Proof.
  intros Hv. apply validated_by_kind in Hv as (raw & raw_kind & merged & Hr & Hk & Hens & H). unfold validate_kind in H.
  destruct (dict_get _VALUE_MOVING_MODEL (py_fold raw_kind)) as [kind|] eqn:Em.
  - destruct (wallet_intent_validate settings kind merged) as [i|[]] eqn:Ei;
      [|by destruct H as [_ [=]] | by apply refuse_not_validated in H].
    destruct H as [_ [= ->]]. apply wallet_intent_validate_wf in Ei as Hwf. destruct Hwf as [Hwf <-].
    destruct (wallet_dump_keys i) as [Hd Hn]. inversion Hn as [|? ? Hni Hn2]; subst. inversion Hn2 as [|? ? Hnk Hn3]; subst.
    inversion Hn3 as [|? ? Hnm _]; subst. destruct (canonical_payload raw _ Hd Hni) as (Hc & Hu & Hne & Hkeys).
    eexists raw, _, raw_kind, merged.
    split; [done|]. split; [done|]. split; [exact Hens|]. split; [reflexivity|]. cbv zeta. split; [exact Hu|].
    split; [by apply Hkeys|]. left. exists i. split_and!; [done | done | done | done | by apply Hkeys | exact Hne].
  - destruct (dict_get _KIND_ALIASES (py_fold raw_kind)) as [k|]; [|by destruct H as [_ [=]]].
    destruct (parse_readonly_intent settings (VDict merged) []) as [i|e] eqn:Ei;
      [|destruct (has_class _ e); [by apply refuse_not_validated in H | by destruct H as [_ [=]]]].
    apply parse_wf in Ei as Hwf.
    assert (intent_kind i <> UNSUPPORTED) as Hu by (destruct i; try done; by apply refuse_not_validated in H).
    assert (s' = _success_state state (merge_canonical_into_raw_input raw (intent_dump i))) as ->
      by (destruct i; try (by destruct H as [_ [= ->]]); done).
    destruct (intent_dump_keys i) as [Hd Hn]. inversion Hn as [|? ? Hni Hn2]; subst. inversion Hn2 as [|? ? Hnm _]; subst.
    destruct (canonical_payload raw _ Hd Hni) as (Hc & Hun & Hne & Hkeys).
    eexists raw, _, raw_kind, merged.
    split; [done|]. split; [done|]. split; [exact Hens|]. split; [reflexivity|]. cbv zeta. split; [exact Hun|].
    split; [by apply Hkeys|]. right. by exists i.
Qed.

End spec.

(** * Examples *)

Definition sample_ens_request : dict := [
  ("kind", VStr " ERC20_Transfer"); ("chain", VStr " Base "); ("wallet_id", VStr "main");
  ("token_address", VStr "0x833589fCD6eDb6E08f4c7C32D4f71b54bdA02913"); ("recipient_address", VStr "alice.eth");
  ("amount", VStr "1.5"); ("metadata", VDict [("user_id", VStr "u1")])].

Definition sample_resolver (name chain : string) : wallet (result exn string) :=
  ret_ok "0xc02aaa39b223fe8d0a0e5c4f27ead9083c756cc2".

Definition request_state (raw : dict) : MercuryState := with_raw_input (AnyValue (VDict raw)) empty_state.

Definition validate_sample (raw : dict) : wallet (result exn validation) :=
  @validate_invoke_intent _ _ (fun _ _ => "") default_settings effect _ (Some sample_resolver) (request_state raw).

Definition payload_after (v : wallet (result exn validation)) : option dict :=
  match v with
  | Ret (Ok (Validated s)) =>
      match raw_input s with Some (AnyValue (VDict raw)) => Some (unwrap_intent_payload raw) | _ => None end
  | _ => None
  end.

Example ens_recipient :
  (fun p => (get p "recipient_address", get p "chain", get p "kind")) <$> payload_after (validate_sample sample_ens_request) =
  Some (VStr "0xc02aaa39b223fe8d0a0e5c4f27ead9083c756cc2", VStr "base", VStr " ERC20_Transfer").
Proof. vm_compute. reflexivity. Qed.

(** In an envelope the kind and the metadata of a transfer are lost. *)
Example envelope_loses_kind :
  (fun p => (dict_get p "recipient_address", dict_get p "kind", dict_get p "metadata")) <$>
    payload_after (validate_sample [("intent", VDict sample_ens_request); ("metadata", VDict [("user_id", VStr "u1")])]) =
  Some (Some (VStr "0xc02aaa39b223fe8d0a0e5c4f27ead9083c756cc2"), None, None).
Proof. vm_compute. reflexivity. Qed.

Example symbol_suggestion :
  match validate_sample (dict_set sample_ens_request "token_address" (VStr "usdc")) with
  | Ret (Ok (Refused info)) =>
      match get (ei_details info) "known_address_catalog_suggestion" with
      | VDict d => get d "resolved_checksum_address"
      | _ => VNone
      end
  | _ => VNone
  end = VStr "0x833589fcd6edb6e08f4c7c32d4f71b54bda02913".
Proof. vm_compute. reflexivity. Qed.

