(* ===== verification/ReadGraph.v ===== *)
(** The read-only graph: the tool registry ([mercury/tools/registry.py]), its nodes ([mercury/graph/nodes.py]), the
    formatting of results ([mercury/graph/responses.py]), the routes ([mercury/graph/router.py]) and [build_graph] of
    [mercury/graph/agent.py]. *)
From stdpp Require Import base tactics option list sets strings.
From Stdlib Require Import ZArith Lia Ascii String.
From S2P Require Import Prelude Python Values Exceptions Redaction Errors Addresses Chains Models SwapModels Prog Effects.
From S2P Require Import Graph State Intents Networks ReadIntents Alchemy.

Local Open Scope string_scope.
Local Open Scope Z_scope.
Local Open Scope prog_scope.

(** * tools/registry.py *)

Section registry.
Context {E : Type} `{!Effects E}.

(** [BaseTool]: a name and [invoke]. *)
Definition tool : Type := (string * (dict -> prog E (result exn pyval)))%type.

(** [{tool.name: tool for tool in tools}] *)
Definition ReadOnlyToolRegistry : Type := list tool.
Definition make_ReadOnlyToolRegistry (tools : list tool) : ReadOnlyToolRegistry := dict_update [] tools.

Definition execute (registry : ReadOnlyToolRegistry) (tool_name : string) (tool_input : dict) : prog E (result exn dict) :=
  match dict_get registry tool_name with
  | None => Ret (Err (ValueError ("Read-only tool '" ++ tool_name ++ "' is not configured.")))
  | Some invoke_tool =>
      res <- invoke_tool tool_input;;
      match res with
      | VDict d => ret_ok d
      | _ => Ret (Err (Exn ExceptionC ("Read-only tool '" ++ tool_name ++ "' returned an unsupported result.")))
      end
  end.
End registry.

(** * responses.py: successful results *)

(** [d[key]] *)
Definition item (d : dict) (key : string) : result exn pyval :=
  match dict_get d key with Some v => Ok v | None => Err (Exn KeyErrorC (py_repr_str key)) end.

Definition item_str (d : dict) (key : string) : result exn string := py_str <$> item d key.

Definition _symbol (tool_result : dict) : string :=
  match get tool_result "symbol" with
  | VStr symbol => if str_empty symbol then "tokens" else symbol
  | _ => "tokens"
  end.

Definition has_page_key (page_key : pyval) : bool :=
  match page_key with VStr s => negb (str_empty (py_strip s)) | _ => false end.

(** [f"{val} {cur}".strip()] of every price of a row *)
Definition price_bits (prices : pyval) : list string :=
  map (fun p => py_strip (py_str (get p "value") ++ " " ++ py_str (get_default p "currency" (VStr "")))) (dict_rows prices).

Definition chain_label (row : dict) : string := py_str (py_or (get row "mercury_chain") (get_default row "network" (VStr ""))).

Definition portfolio_summary (row : dict) : result exn string :=
  let label_chain := chain_label row in
  let token_addr := get row "token_address" in
  let meta := as_dict (get row "metadata") in
  let sym := match meta with Some m => if truthy (VDict m) then get m "symbol" else VNone | None => VNone end in
  let label := match sym with
               | VStr s => if str_empty s then py_str (py_or token_addr (VStr "native")) else s
               | _ => py_str (py_or token_addr (VStr "native"))
               end in
  let err := get row "error" in
  bal ← compute_portfolio_balance_display
          (match get_default row "balance" (VStr "") with VNone => "" | v => py_str v end) (as_str token_addr) meta;
  Ok (if truthy err then label ++ " on " ++ label_chain ++ ": error (" ++ py_str err ++ ")"
      else
        let bits := price_bits (get row "prices") in
        label ++ " on " ++ label_chain ++ ": balance " ++ bal ++
        match bits with [] => "" | _ => ", prices: " ++ py_join ", " bits end).

Fixpoint map_result {A B} (f : A -> result exn B) (l : list A) : result exn (list B) :=
  match l with [] => Ok [] | a :: l' => b ← f a; bs ← map_result f l'; Ok (b :: bs) end.

Definition _format_portfolio_tokens_response (tool_result : dict) : result exn string :=
  let wallet := get_default tool_result "wallet_address" (VStr "") in
  let more := has_page_key (get tool_result "page_key") in
  match get tool_result "tokens" with
  | VList ((_ :: _) as tokens) =>
      summaries ← map_result portfolio_summary (omap as_dict tokens);
      let msg := match summaries with
                 | [] => "Portfolio for " ++ py_str wallet ++ ": no token rows parsed."
                 | _ => "Portfolio for " ++ py_str wallet ++ " — " ++ py_join "; " summaries ++ "."
                 end in
      Ok (msg ++ if more then " (next page: include page_key in the intent.)" else "")
  | _ =>
      let base := if truthy wallet then "Portfolio for " ++ py_str wallet ++ ": no tokens returned."
                  else "Portfolio: no tokens returned." in
      Ok (if more then base ++ " (more pages available; pass page_key for next request.)" else base)
  end.

Definition _format_transfer_history_response (tool_result : dict) : string :=
  let wallet := get_default tool_result "wallet_address" (VStr "") in
  let label_chain := chain_label tool_result in
  let more := has_page_key (get tool_result "page_key") in
  match get tool_result "transfers" with
  | VList ((_ :: _) as transfers) =>
      let bits := map (fun row => py_strip ("block " ++ py_str (get_default row "block_num" (VStr "")) ++ " " ++
                                            py_str (get_default row "category" (VStr "")) ++ " " ++
                                            py_str (get_default row "hash" (VStr ""))))
                      (omap as_dict (take 12 transfers)) in
      "Transfer history for " ++ py_str wallet ++ " on " ++ label_chain ++ " — " ++ py_join "; " bits ++ "." ++
      (if (12 <? List.length transfers)%nat
       then " (" ++ py_str_int (Z.of_nat (List.length transfers)) ++ " transfers returned; showing first 12.)" else "") ++
      (if more then " Next page: include page_key in the intent (incoming/outgoing only; expires ~10 minutes per Alchemy)."
       else "")
  | _ =>
      let base := if truthy wallet
                  then "Transfer history for " ++ py_str wallet ++ " on " ++ label_chain ++ ": no transfers returned."
                  else "Transfer history on " ++ label_chain ++ ": no transfers returned." in
      if more then base ++ " (more pages available; pass page_key within Alchemy TTL.)" else base
  end.

Definition price_summary (row : dict) : string :=
  let address := py_str (get_default row "address" (VStr "")) in
  let label_chain := chain_label row in
  let err := get row "error" in
  if truthy err then address ++ " on " ++ label_chain ++ ": error (" ++ py_str err ++ ")"
  else match get row "prices" with
       | VList ((_ :: _) as prices) =>
           address ++ " on " ++ label_chain ++ ": " ++
           match price_bits (VList prices) with [] => "no quoted prices" | bits => py_join ", " bits end
       | _ => address ++ " on " ++ label_chain ++ ": no quoted prices"
       end.

Definition _format_token_prices_response (tool_result : dict) : string :=
  match get tool_result "tokens" with
  | VList ((_ :: _) as tokens) =>
      match map price_summary (omap as_dict tokens) with
      | [] => "Token prices: no results returned."
      | summaries => "Token prices — " ++ py_join "; " summaries ++ "."
      end
  | _ => "Token prices: no results returned."
  end.

Definition format_success_response (intent_kind : string) (r : dict) : result exn string :=
  let is_kind k := String.eqb intent_kind (ReadOnlyIntentKind_value k) in
  if is_kind NATIVE_BALANCE then
    w ← item_str r "wallet_address"; f ← item_str r "formatted"; s ← item_str r "symbol"; c ← item_str r "chain";
    Ok (w ++ " has " ++ f ++ " " ++ s ++ " on " ++ c ++ ".")
  else if is_kind ERC20_BALANCE then
    w ← item_str r "wallet_address"; f ← item_str r "formatted"; c ← item_str r "chain";
    Ok (w ++ " has " ++ f ++ " " ++ _symbol r ++ " on " ++ c ++ ".")
  else if is_kind ERC20_ALLOWANCE then
    s ← item_str r "spender_address"; f ← item_str r "formatted"; o ← item_str r "owner_address"; c ← item_str r "chain";
    Ok (s ++ " is allowed to spend " ++ f ++ " " ++ _symbol r ++ " from " ++ o ++ " on " ++ c ++ ".")
  else if is_kind ERC20_METADATA then
    let name := py_str (py_or (get r "name") (VStr "ERC20 token")) in
    c ← item_str r "chain"; d ← item_str r "decimals";
    Ok (name ++ " (" ++ _symbol r ++ ") on " ++ c ++ " has " ++ d ++ " decimals.")
  else if is_kind CONTRACT_READ then
    f ← item_str r "function_name"; v ← item r "result"; c ← item_str r "chain";
    Ok (f ++ " returned " ++ py_repr v ++ " on " ++ c ++ ".")
  else if is_kind KNOWN_ADDRESS then
    k ← item_str r "key"; g ← item_str r "category"; i ← item_str r "chain_id"; c ← item_str r "chain";
    a ← item_str r "address";
    Ok (k ++ " (" ++ g ++ ") on chain_id=" ++ i ++ " " ++ c ++ " resolves to " ++ a ++ ".")
  else if is_kind TOKEN_PRICES then Ok (_format_token_prices_response r)
  else if is_kind PORTFOLIO_TOKENS then _format_portfolio_tokens_response r
  else if is_kind TRANSFER_HISTORY then Ok (_format_transfer_history_response r)
  else Ok "Read-only request completed.".

(** * router.py *)

Definition ROUTE_RESOLVE_CHAIN : string := "resolve_chain".
Definition ROUTE_FORMAT_RESPONSE : string := "format_response".
Definition ROUTE_UNSUPPORTED_RESPONSE : string := "unsupported_response".

Definition _READ_ROUTES : list (string * string) := [
  ("native_balance", "get_native_balance"); ("erc20_balance", "get_erc20_balance");
  ("erc20_allowance", "get_erc20_allowance"); ("erc20_metadata", "get_erc20_metadata"); ("contract_read", "read_contract");
  ("known_address", "resolve_known_address"); ("token_prices", "get_token_prices");
  ("portfolio_tokens", "get_portfolio_tokens"); ("transfer_history", "get_transfer_history")].

(** [state.get("parsed_intent", {})]; only [parse_intent] sets it in this graph, to a dict. *)
Definition parsed_dict (s : MercuryState) : dict := match parsed_intent s with Some (VDict d) => d | _ => [] end.

Definition route_after_parse (s : MercuryState) : string :=
  if isSome (error s) || eq_str (get (parsed_dict s) "kind") (ReadOnlyIntentKind_value UNSUPPORTED)
  then ROUTE_UNSUPPORTED_RESPONSE else ROUTE_RESOLVE_CHAIN.

Definition route_read_tool (s : MercuryState) : string :=
  match get (parsed_dict s) "kind" with
  | VStr kind => default ROUTE_FORMAT_RESPONSE (dict_get _READ_ROUTES kind)
  | _ => ROUTE_FORMAT_RESPONSE
  end.

Definition route_after_chain (s : MercuryState) : string :=
  if isSome (error s) then ROUTE_FORMAT_RESPONSE else route_read_tool s.

(** * nodes.py *)

Section nodes.
Context {W : Web3} {P : PydanticLax} {PT : PydanticText} (settings : MercurySettings).
Context {E : Type} `{!Effects E} (registry : @ReadOnlyToolRegistry E _).

Abbreviation reader := (prog E (result exn MercuryState)).

Definition parse_intent (s : MercuryState) : reader :=
  let raw := match raw_input s with Some (AnyValue v) => v | Some (AnyPrepared _) => VBool true | None => VNone end in
  match parse_readonly_intent settings raw (messages s) with
  | Err exc =>
      if has_class UnsupportedIntentErrorC exc
      then ret_ok (with_error (normalize_exception exc (Some "parse_intent") None) empty_state)
      else Ret (Err exc)
  | Ok i =>
      ret_ok (with_parsed_intent (VDict (intent_dump i))
               (with_read_result [("intent_kind", VStr (ReadOnlyIntentKind_value (ReadIntents.intent_kind i)))] empty_state))
  end.

(** A chain by name: its config and reference, or the error with the name that was asked. *)
Definition chain_state (c : ChainConfig) : MercuryState :=
  with_chain_name (cc_name c) (with_chain_config c (with_chain_reference (to_reference c) empty_state)).

Definition chain_error (exc : exn) (chain_name : option string) : MercuryState :=
  let s := with_error (normalize_exception exc (Some "resolve_chain") None) empty_state in
  match chain_name with Some n => with_chain_name n s | None => s end.

(** [try: f except <class>: chain_error ...] *)
Definition or_chain_error {A} (f : result exn A) (cls : exn_class) (chain_name : string) (k : A -> result exn MercuryState)
    : result exn MercuryState :=
  match f with
  | Ok a => k a
  | Err exc => if has_class cls exc then Ok (chain_error exc (Some chain_name)) else Err exc
  end.

(** The loop over the distinct chains of a request: known to the registry and to Alchemy. *)
Fixpoint check_alchemy_chains (names : list string) (k : result exn MercuryState) : result exn MercuryState :=
  match names with
  | [] => k
  | name :: names' =>
      or_chain_error (get_chain_by_name settings name) UnsupportedChainErrorC name (fun _ =>
        or_chain_error (mercury_chain_to_alchemy_network name) UnknownAlchemyNetworkErrorC name (fun _ =>
          check_alchemy_chains names' k))
  end.

(** [sorted(set(names))] *)
Definition distinct_sorted (names : list string) : list string := py_sorted (remove_dups names).

Definition folded_names (l : list pyval) : list string :=
  omap (fun v => match v with VStr s => if str_empty (py_strip s) then None else Some (py_fold s) | _ => None end) l.

(** The common part of [_resolve_chain_for_token_prices] and [_resolve_chain_for_portfolio_tokens]. *)
Definition resolve_names (names : list string) (empty_message : string) : result exn MercuryState :=
  match names with
  | [] => Ok (chain_error (ValueError empty_message) None)
  | first :: _ =>
      check_alchemy_chains (distinct_sorted names) (c ← get_chain_by_name settings first; Ok (chain_state c))
  end.

Definition _resolve_chain_for_token_prices (parsed : dict) : result exn MercuryState :=
  match get parsed "tokens" with
  | VList ((_ :: _) as tokens) =>
      resolve_names (folded_names (map (fun entry => get entry "chain") (omap as_dict tokens)))
        "token_prices tokens must include a chain per entry."
  | _ => Ok (chain_error (ValueError "token_prices intent is missing tokens.") None)
  end.

Definition _resolve_chain_for_portfolio_tokens (parsed : dict) : result exn MercuryState :=
  match get parsed "chains" with
  | VList ((_ :: _) as chains) =>
      resolve_names (folded_names chains) "portfolio_tokens chains must include at least one chain name."
  | _ => Ok (chain_error (ValueError "portfolio_tokens intent is missing chains.") None)
  end.

Definition _resolve_chain_for_transfer_history (parsed : dict) : result exn MercuryState :=
  chain_name ← match get parsed "chain" with
               | VStr s => if str_empty (py_strip s) then cc_name <$> get_default_chain settings else Ok (py_fold s)
               | _ => cc_name <$> get_default_chain settings
               end;
  or_chain_error (get_chain_by_name settings chain_name) UnsupportedChainErrorC chain_name (fun chain_config =>
    or_chain_error (mercury_chain_to_alchemy_network chain_name) UnknownAlchemyNetworkErrorC chain_name (fun _ =>
      Ok (chain_state chain_config))).

Definition resolve_chain (s : MercuryState) : reader :=
  let parsed := parsed_dict s in
  let is_kind k := eq_str (get parsed "kind") (ReadOnlyIntentKind_value k) in
  pure
    (if is_kind TOKEN_PRICES then _resolve_chain_for_token_prices parsed
     else if is_kind PORTFOLIO_TOKENS then _resolve_chain_for_portfolio_tokens parsed
     else if is_kind TRANSFER_HISTORY then _resolve_chain_for_transfer_history parsed
     else
       chain_name ← match get parsed "chain" with
                    | VStr s => if str_empty s then cc_name <$> get_default_chain settings else Ok s
                    | _ => cc_name <$> get_default_chain settings
                    end;
       or_chain_error (get_chain_by_name settings chain_name) UnsupportedChainErrorC chain_name
         (fun chain_config => Ok (chain_state chain_config))).

(** [bool(parsed.get(key, True))] *)
Definition flag (parsed : dict) (key : string) : pyval := VBool (truthy (get_default parsed key (VBool true))).

(** [payload["page_key"] = page_key.strip()] when there is one *)
Definition with_page_key (parsed : dict) (out : dict) : dict :=
  match get parsed "page_key" with
  | VStr s => if str_empty (py_strip s) then out else out ++ [("page_key", VStr (py_strip s))]
  | _ => out
  end%list.

Definition _tool_input_for_state (s : MercuryState) : result exn dict :=
  let parsed := parsed_dict s in
  (* the default of [state.get("chain_name", get_default_chain().name)] is always evaluated *)
  dflt_name ← cc_name <$> get_default_chain settings;
  let chain := ("chain", VStr (default dflt_name (chain_name s))) in
  let kind := get parsed "kind" in
  let is_kind k := eq_str kind (ReadOnlyIntentKind_value k) in
  let field key := v ← item parsed key; Ok (key, v) in
  if is_kind NATIVE_BALANCE then w ← field "wallet_address"; Ok [chain; w]
  else if is_kind ERC20_BALANCE then t ← field "token_address"; w ← field "wallet_address"; Ok [chain; t; w]
  else if is_kind ERC20_ALLOWANCE then
    t ← field "token_address"; o ← field "owner_address"; p ← field "spender_address"; Ok [chain; t; o; p]
  else if is_kind ERC20_METADATA then t ← field "token_address"; Ok [chain; t]
  else if is_kind CONTRACT_READ then
    a ← field "contract_address"; b ← field "abi_fragment"; f ← field "function_name";
    Ok [chain; a; b; f; ("args", get_default parsed "args" (VList []))]
  else if is_kind KNOWN_ADDRESS then c ← field "category"; k ← field "key"; Ok [chain; c; k]
  else if is_kind TOKEN_PRICES then Ok [("tokens", py_or (get parsed "tokens") (VList []))]
  else if is_kind PORTFOLIO_TOKENS then
    w ← field "wallet_address";
    Ok (with_page_key parsed
          [w; ("chains", py_or (get parsed "chains") (VList [])); ("with_metadata", flag parsed "with_metadata");
           ("with_prices", flag parsed "with_prices"); ("include_native_tokens", flag parsed "include_native_tokens");
           ("include_erc20_tokens", flag parsed "include_erc20_tokens")])
  else if is_kind TRANSFER_HISTORY then
    w ← field "wallet_address"; d ← field "direction";
    Ok (with_page_key parsed
          [chain; w; d; ("categories", get parsed "categories"); ("from_block", get parsed "from_block");
           ("to_block", get parsed "to_block"); ("max_count", get parsed "max_count");
           ("with_metadata", flag parsed "with_metadata"); ("exclude_zero_value", flag parsed "exclude_zero_value")])
  else Err (ValueError ("Unsupported read-only intent kind: " ++ py_str kind ++ ".")).

Definition execute_read_tool (tool_name : string) (s : MercuryState) : reader :=
  tool_input <- pure (_tool_input_for_state s);;
  let base := with_selected_tool_name tool_name (with_tool_input tool_input empty_state) in
  try_except
    (tool_result <- execute registry tool_name tool_input;;
     ret_ok (with_tool_result tool_result (with_read_result tool_result base)))
    (fun exc => ret_ok (with_error (normalize_exception exc (Some ("read_tool:" ++ tool_name)) None) base)).

Definition format_response (s : MercuryState) : reader :=
  text <- pure (match error s with
                | Some e => Ok (format_error_response e)
                | None => format_success_response (py_str (get_default (parsed_dict s) "kind" (VStr "")))
                            (default [] (tool_result s))
                end);;
  ret_ok (with_response_text text (with_message text empty_state)).

(** [unsupported_response], as a node of this graph *)
Definition unsupported_response_node (s : MercuryState) : reader :=
  let reason := match error s with
                | Some e => inr e
                | None => match get (parsed_dict s) "reason" with VStr r => inl r | _ => inl "Unsupported wallet intent." end
                end in
  let text := format_unsupported_response reason in
  ret_ok (with_response_text text (with_message text empty_state)).

(** * agent.py: [build_graph] *)

Definition read_tools : list string := [
  "get_native_balance"; "get_erc20_balance"; "get_erc20_allowance"; "get_erc20_metadata"; "read_contract";
  "resolve_known_address"; "get_token_prices"; "get_portfolio_tokens"; "get_transfer_history"].

Definition build_graph : StateGraph E MercuryState :=
  let g := add_node "unsupported_response" unsupported_response_node
             (add_node "resolve_chain" resolve_chain (add_node "parse_intent" parse_intent new_graph)) in
  let g := foldl (fun g name => add_node name (execute_read_tool name) g) g read_tools in
  let g := add_node "format_response" format_response g in
  let g := add_edge START "parse_intent" g in
  let g := add_conditional_edges "parse_intent" route_after_parse
             [(ROUTE_UNSUPPORTED_RESPONSE, "unsupported_response"); (ROUTE_RESOLVE_CHAIN, "resolve_chain")] g in
  let g := add_conditional_edges "resolve_chain" route_after_chain
             (map (fun name => (name, name)) read_tools ++ [(ROUTE_FORMAT_RESPONSE, "format_response")])%list g in
  let g := foldl (fun g name => add_edge name "format_response" g) g read_tools in
  add_edge "unsupported_response" END (add_edge "format_response" END g).
End nodes.
