(* ===== verification/ReadGraphSpec.v ===== *)
(** The read-only graph serves the intent it parsed: one tool call with the arguments of the intent, and a text. *)
From stdpp Require Import base tactics option list sets strings.
From Stdlib Require Import ZArith Lia Ascii String.
From S2P Require Import Prelude Python Values Exceptions Redaction Errors Addresses Chains Models SwapModels Prog Effects.
From S2P Require Import Graph State Intents Networks ReadIntents ReadIntentSpec Alchemy ReadGraph.

Local Open Scope string_scope.
Local Open Scope Z_scope.

(** With a default chain the registry is there, and refuses only names it does not have. *)
Lemma by_name_error `{W : Web3} settings default_chain name e :
  get_default_chain settings = Ok default_chain -> get_chain_by_name settings name = Err e ->
  has_class UnsupportedChainErrorC e = true.
Proof.
  unfold get_default_chain, get_chain_by_name, _supported_chains_text.
  destruct (_chain_configs settings) as [cs|]; [|done]. intros _.
  cbn [mbind result_bind]. destruct (List.find _ _); [done|]. by intros [= <-].
Qed.

#[local] Opaque get_chain_by_name get_default_chain.

(** * Sorting keeps the elements *)

Lemma elem_of_insert_sorted x y l : x ∈ insert_sorted y l <-> x = y \/ x ∈ l.
Proof.
  induction l as [|z l IH]; simpl; [by rewrite list_elem_of_singleton; set_solver|].
  destruct (str_leb y z); [set_solver|]. rewrite elem_of_cons, IH. set_solver.
Qed.

Lemma elem_of_py_sorted x l : x ∈ py_sorted l <-> x ∈ l.
Proof. induction l as [|y l IH]; simpl; [done|]. by rewrite elem_of_insert_sorted, IH, elem_of_cons. Qed.

Lemma elem_of_distinct_sorted x l : x ∈ distinct_sorted l <-> x ∈ l.
Proof. unfold distinct_sorted. rewrite elem_of_py_sorted. apply elem_of_remove_dups. Qed.

Section spec.
Context {W : Web3} {P : PydanticLax} {PT : PydanticText} (settings : MercurySettings).
Context (default_chain : ChainConfig) (Hdefault : get_default_chain settings = Ok default_chain).

(** * Errors of the registry and of the parser *)

Lemma alchemy_network_error name e :
  mercury_chain_to_alchemy_network name = Err e -> has_class UnknownAlchemyNetworkErrorC e = true.
Proof. unfold mercury_chain_to_alchemy_network. destruct (dict_get _ _); [done|]. by intros [= <-]. Qed.

Lemma alchemy_chain_error name e :
  alchemy_network_to_mercury_chain name = Err e -> has_class UnknownAlchemyNetworkErrorC e = true.
Proof. unfold alchemy_network_to_mercury_chain. destruct (List.find _ _); [done|]. by intros [= <-]. Qed.

(** Only [ValidationError], or only [ValueError]. *)
Definition raises {A} (Q : exn -> Prop) (r : result exn A) : Prop := forall e, r = Err e -> Q e.
Definition validation_error (e : exn) : Prop := match e with ValidationError _ _ => True | _ => False end.
Definition value_error (e : exn) : Prop := is_value_error e = true.

Lemma raises_fmap {A B} Q (f : A -> B) (r : result exn A) : raises Q r -> raises Q (f <$> r).
Proof. intros H e. destruct r as [a|e']; [done|]. intros [= <-]. by apply H. Qed.
Lemma raises_bind {A B} Q (r : result exn A) (f : A -> result exn B) :
  raises Q r -> (forall a, raises Q (f a)) -> raises Q (r ≫= f).
Proof. intros H Hf e. destruct r as [a|e']; [apply Hf|]. intros [= <-]. by apply H. Qed.
Lemma raises_ok {A} Q (a : A) : raises Q (Ok a).
Proof. done. Qed.
Lemma raises_err {A} (Q : exn -> Prop) e : Q e -> raises Q (Err e : result exn A).
Proof. by intros H e' [= <-]. Qed.

Lemma v_model_raises {A} title (fields : V A) after : raises validation_error (v_model title fields after).
Proof. intros e. unfold v_model. destruct fields; [destruct (after _)|]; intros [= <-]; done. Qed.
Lemma v_model_with_raises {A B} title (fields : V A) (after : A -> result exn B) :
  (forall a, raises value_error (after a)) -> raises validation_error (v_model_with title fields after).
Proof.
  intros H e. unfold v_model_with. destruct fields as [a|]; [|by intros [= <-]].
  destruct (after a) as [b|e'] eqn:E; [done|]. rewrite (H a e' E). by intros [= <-].
Qed.

Create HintDb raises.
#[local] Hint Resolve v_model_raises raises_ok : raises.
#[local] Hint Extern 1 (raises _ (Err (ValueError _))) => (apply raises_err; reflexivity) : raises.

Lemma entry_raises chain token : raises value_error (make_TokenPriceIntentEntry chain token).
Proof. intros e H%v_model_raises. by destruct e. Qed.

Lemma token_list_raises i : raises value_error (_normalize_token_list i).
Proof.
  unfold _normalize_token_list. apply raises_bind.
  - destruct (tp_tokens i); [|auto with raises]. destruct (tp_token_address i); [|auto with raises].
    destruct (tp_chain i) as [[|]|]; auto with raises. apply raises_bind; [apply entry_raises | auto with raises].
  - intros [|]; [auto with raises|]. repeat case_match; auto with raises.
Qed.

Lemma resolve_networks_raises ns l : raises value_error (resolve_networks ns l).
Proof.
  revert l. induction ns as [|n ns IH]; intros l; simpl; [auto with raises|].
  destruct (str_empty _); [apply IH|]. destruct (alchemy_network_to_mercury_chain _) as [c|e] eqn:E; [apply IH|].
  rewrite (alchemy_chain_error _ _ E). auto with raises.
Qed.

Lemma check_portfolio_chain_raises name : raises value_error (check_portfolio_chain settings name).
Proof using Hdefault.
  apply raises_bind.
  - destruct (get_chain_by_name settings name) eqn:E; [auto with raises|]. rewrite (by_name_error _ _ _ _ Hdefault E). auto with raises.
  - intros _. destruct (mercury_chain_to_alchemy_network name) eqn:E; [auto with raises|].
    rewrite (alchemy_network_error _ _ E). auto with raises.
Qed.

Lemma check_portfolio_chains_raises names : raises value_error (check_portfolio_chains settings names).
Proof using Hdefault.
  induction names; simpl; [auto with raises|]. apply raises_bind; [apply check_portfolio_chain_raises | auto].
Qed.

Lemma resolve_chains_raises i : raises value_error (_resolve_chains settings i).
Proof using Hdefault.
  apply raises_bind.
  - repeat case_match; auto using resolve_networks_raises with raises.
  - intros [|]; [auto with raises|]. case_match; [auto with raises|].
    apply raises_bind; [apply check_portfolio_chains_raises | auto with raises].
Qed.

Lemma check_categories_raises cats : raises value_error (check_categories cats).
Proof. induction cats; simpl; [auto with raises|]. case_match; auto with raises. Qed.

Lemma transfer_fields_raises i : raises value_error (_normalize_transfer_fields i).
Proof.
  unfold _normalize_transfer_fields. case_match; [|auto with raises]. apply raises_bind.
  - unfold resolve_categories. repeat case_match; auto with raises.
    apply raises_bind; [apply check_categories_raises | auto with raises].
  - intros a. cbv zeta. case_match; auto with raises.
Qed.

Lemma model_raises kind d : kind <> UNSUPPORTED -> raises validation_error (intent_model_validate settings kind d).
Proof using Hdefault.
  intros Hk. destruct kind; [..|done]; apply raises_fmap; try apply v_model_raises; apply v_model_with_raises;
    [apply token_list_raises | apply resolve_chains_raises | apply transfer_fields_raises].
Qed.

(** The parser raises nothing but [UnsupportedIntentError]. *)
Lemma parse_raises raw_input messages :
  raises (fun e => has_class UnsupportedIntentErrorC e = true) (parse_readonly_intent settings raw_input messages).
Proof using Hdefault.
  intros e. unfold parse_readonly_intent, _parse_structured_intent.
  destruct (_coerce_raw_input _ _); try done. destruct (raw_kind_of _); try done.
  destruct (dict_get _ _) as [k|] eqn:Ek; [|done].
  pose proof (model_raises k (dict_set (_unwrap_payload d) "kind" (VStr (ReadOnlyIntentKind_value k)))
                (kind_not_unsupported _ _ Ek)) as Hm.
  destruct (intent_model_validate _ _ _) as [i|e']; [done|]. specialize (Hm e' eq_refl). by destruct e'; intros [= <-].
Qed.

(** * Resolving the chain of an intent *)

(** The name the intent gives, or that of the default chain. *)
Definition intent_chain (i : ParsedIntent) : string :=
  default (cc_name default_chain)
    match i with
    | NativeBalance i => nb_chain i
    | ERC20Balance i => eb_chain i
    | ERC20Allowance i => ew_chain i
    | ERC20Metadata i => em_chain i
    | ContractRead i => ct_chain i
    | KnownAddress i => ka_chain i
    | TokenPrices i => te_chain <$> head (tp_tokens i)
    | PortfolioTokens i => pf_chains i ≫= head
    | TransferHistory i => th_chain i
    | UnsupportedIntent _ => None
    end.

(** A chain of the registry, or an error of this step. *)
Definition resolved (name : string) (r : result exn MercuryState) : Prop :=
  (exists c, get_chain_by_name settings name = Ok c /\ r = Ok (chain_state c)) \/
  (exists exc n, r = Ok (chain_error exc n)).

Lemma or_chain_error_spec {A} (f : result exn A) cls name k Q :
  raises (fun e => has_class cls e = true) f -> (forall a, f = Ok a -> resolved Q (k a)) -> resolved Q (or_chain_error f cls name k).
Proof.
  intros He Hk. destruct f as [a|e]; unfold or_chain_error; [by apply Hk|]. rewrite (He e eq_refl). right. by eexists _, _.
Qed.

Lemma check_alchemy_chains_spec names k Q :
  (Forall (fun n => exists c, get_chain_by_name settings n = Ok c) names -> resolved Q k) ->
  resolved Q (check_alchemy_chains settings names k).
Proof using Hdefault.
  revert k. induction names as [|n names IH]; intros k Hk; simpl; [by apply Hk|].
  apply or_chain_error_spec; [intros e; by apply (by_name_error _ _ _ _ Hdefault)|]. intros c Hc.
  apply or_chain_error_spec; [intros e; apply alchemy_network_error|]. intros net _.
  apply IH. intros Hn. apply Hk. constructor; [by eexists | done].
Qed.

Lemma resolve_names_spec names msg : resolved (default (cc_name default_chain) (head names)) (resolve_names settings names msg).
Proof using Hdefault.
  destruct names as [|n names]; [right; by eexists _, _|]. unfold resolve_names.
  apply check_alchemy_chains_spec. intros Hn. rewrite Forall_forall in Hn.
  destruct (Hn n) as [c Hc]; [apply elem_of_distinct_sorted; apply list_elem_of_here|]. rewrite Hc. left. by exists c.
Qed.

Lemma folded_strip s : folded s -> py_strip s = s /\ str_empty s = false.
Proof.
  intros [H Hne]. split; [|by apply str_empty_false]. rewrite <- H. unfold py_fold. by rewrite py_strip_lower, py_strip_idem.
Qed.

Lemma folded_names_folded l : Forall folded l -> folded_names (map VStr l) = l.
Proof.
  induction 1 as [|s l [Hf Hne] _ IH]; [done|]. unfold folded_names in *. cbn [map omap list_omap].
  destruct (folded_strip s) as [-> ->]; [by split|]. by rewrite IH, Hf.
Qed.

Context {E : Type} `{!Effects E} (registry : @ReadOnlyToolRegistry E _).

Abbreviation parsed_state i s := (parsed_intent s = Some (VDict (intent_dump i))).

Lemma named_chain_spec name : resolved name (or_chain_error (get_chain_by_name settings name) UnsupportedChainErrorC name
  (fun chain_config => Ok (chain_state chain_config))).
Proof using Hdefault.
  apply or_chain_error_spec; [intros e; by apply (by_name_error _ _ _ _ Hdefault)|]. intros c Hc. left. by exists c.
Qed.

(** The last branch of [resolve_chain], on the chain field of an intent. *)
Definition chain_of_field (o : option string) : result exn MercuryState :=
  chain_name ← match of_opt_str o with
               | VStr s => if str_empty s then cc_name <$> get_default_chain settings else Ok s
               | _ => cc_name <$> get_default_chain settings
               end;
  or_chain_error (get_chain_by_name settings chain_name) UnsupportedChainErrorC chain_name
    (fun chain_config => Ok (chain_state chain_config)).

Lemma chain_of_field_spec o : opt_all folded o -> resolved (default (cc_name default_chain) o) (chain_of_field o).
Proof using Hdefault.
  intros Ho. unfold chain_of_field. destruct o as [c|].
  - destruct (folded_strip c (Ho c eq_refl)) as [Hs He]. destruct (Ho c eq_refl) as [_ Hne].
    cbn [of_opt_str]. rewrite (proj2 (str_empty_false c)) by done. apply named_chain_spec.
  - cbn [of_opt_str]. rewrite Hdefault. apply named_chain_spec.
Qed.

Lemma alchemy_named_chain_spec name : resolved name
  (or_chain_error (get_chain_by_name settings name) UnsupportedChainErrorC name (fun chain_config =>
     or_chain_error (mercury_chain_to_alchemy_network name) UnknownAlchemyNetworkErrorC name (fun _ =>
       Ok (chain_state chain_config)))).
Proof using Hdefault.
  apply or_chain_error_spec; [intros e; by apply (by_name_error _ _ _ _ Hdefault)|]. intros c Hc.
  apply or_chain_error_spec; [intros e; apply alchemy_network_error|]. intros net _. left. by exists c.
Qed.

Lemma transfer_chain i : opt_all folded (th_chain i) ->
  resolved (intent_chain (TransferHistory i)) (_resolve_chain_for_transfer_history settings (intent_dump (TransferHistory i))).
Proof using Hdefault.
  intros Ho. unfold _resolve_chain_for_transfer_history, intent_chain.
  change (get (intent_dump (TransferHistory i)) "chain") with (of_opt_str (th_chain i)). destruct (th_chain i) as [c|].
  - destruct (folded_strip c (Ho c eq_refl)) as [Hs He]. destruct (Ho c eq_refl) as [Hf _].
    cbn [of_opt_str]. rewrite Hs, He, Hf. apply alchemy_named_chain_spec.
  - cbn [of_opt_str]. rewrite Hdefault. apply alchemy_named_chain_spec.
Qed.

Lemma token_prices_chain i : wf_ParsedIntent settings (TokenPrices i) ->
  resolved (intent_chain (TokenPrices i)) (_resolve_chain_for_token_prices settings (intent_dump (TokenPrices i))).
Proof using Hdefault.
  intros (_ & _ & _ & _ & Hw). unfold _resolve_chain_for_token_prices, intent_chain.
  change (get (intent_dump (TokenPrices i)) "tokens") with (VList (map entry_dump (tp_tokens i))).
  destruct (tp_tokens i) as [|t l] eqn:El; [right; by eexists _, _|]. cbn [map]. cbv iota.
  assert (map (fun entry => get entry "chain") (omap as_dict (entry_dump t :: map entry_dump l)) = map VStr (map te_chain (t :: l))) as ->.
  { change (entry_dump t :: map entry_dump l) with (map entry_dump (t :: l)). clear El Hw. induction (t :: l) as [|u l' IH]; [done|].
    cbn [map]. rewrite <- IH. reflexivity. }
  rewrite folded_names_folded; [apply (resolve_names_spec (map te_chain (t :: l)))|].
  apply Forall_map. eapply Forall_impl; [exact Hw | by intros x []].
Qed.

Lemma portfolio_chain i : wf_ParsedIntent settings (PortfolioTokens i) ->
  resolved (intent_chain (PortfolioTokens i)) (_resolve_chain_for_portfolio_tokens settings (intent_dump (PortfolioTokens i))).
Proof using Hdefault.
  intros (_ & _ & _ & _ & names & Hn & _ & _ & Hw). unfold _resolve_chain_for_portfolio_tokens, intent_chain.
  change (get (intent_dump (PortfolioTokens i)) "chains") with (of_opt_list (pf_chains i)). rewrite Hn. cbn [of_opt_list].
  destruct names as [|n l]; [right; by eexists _, _|]. cbn [map]. cbv iota.
  change (VStr n :: map VStr l) with (map VStr (n :: l)).
  rewrite folded_names_folded; [apply (resolve_names_spec (n :: l))|].
  eapply Forall_impl; [exact Hw | by intros x []].
Qed.

Lemma resolve_chain_spec i s :
  wf_ParsedIntent settings i -> intent_kind i <> UNSUPPORTED -> parsed_state i s ->
  exists r, resolve_chain settings s = Ret r /\ resolved (intent_chain i) r.
Proof using Hdefault.
  intros Hwf Hk Hp. unfold resolve_chain, pure, parsed_dict. rewrite Hp. eexists. split; [reflexivity|].
  destruct i as [i|i|i|i|i|i|i|i|i|]; [..|done].
  - apply (chain_of_field_spec (nb_chain i)), Hwf.
  - apply (chain_of_field_spec (eb_chain i)), Hwf.
  - apply (chain_of_field_spec (ew_chain i)), Hwf.
  - apply (chain_of_field_spec (em_chain i)), Hwf.
  - apply (chain_of_field_spec (ct_chain i)), Hwf.
  - apply (chain_of_field_spec (ka_chain i)), Hwf.
  - by apply token_prices_chain.
  - by apply portfolio_chain.
  - apply transfer_chain, Hwf.
Qed.

(** * The call a read-only intent stands for *)

Definition page_key_arg (o : option string) : dict := match o with Some k => [("page_key", VStr k)] | None => [] end.

(** The arguments of the tool, from the fields of the intent. *)
Definition tool_arguments (chain : string) (i : ParsedIntent) : dict :=
  match i with
  | NativeBalance i => [("chain", VStr chain); ("wallet_address", VStr (nb_wallet_address i))]
  | ERC20Balance i =>
      [("chain", VStr chain); ("token_address", VStr (eb_token_address i)); ("wallet_address", VStr (eb_wallet_address i))]
  | ERC20Allowance i =>
      [("chain", VStr chain); ("token_address", VStr (ew_token_address i)); ("owner_address", VStr (ew_owner_address i));
       ("spender_address", VStr (ew_spender_address i))]
  | ERC20Metadata i => [("chain", VStr chain); ("token_address", VStr (em_token_address i))]
  | ContractRead i =>
      [("chain", VStr chain); ("contract_address", VStr (ct_contract_address i));
       ("abi_fragment", VList (map VDict (ct_abi_fragment i))); ("function_name", VStr (ct_function_name i));
       ("args", VList (ct_args i))]
  | KnownAddress i =>
      [("chain", VStr chain); ("category", VStr (category_value (ka_category i))); ("key", VStr (ka_key i))]
  | TokenPrices i => [("tokens", VList (map entry_dump (tp_tokens i)))]
  | PortfolioTokens i =>
      [("wallet_address", VStr (pf_wallet_address i)); ("chains", of_opt_list (pf_chains i));
       ("with_metadata", VBool (pf_with_metadata i)); ("with_prices", VBool (pf_with_prices i));
       ("include_native_tokens", VBool (pf_include_native_tokens i));
       ("include_erc20_tokens", VBool (pf_include_erc20_tokens i))] ++ page_key_arg (pf_page_key i)
  | TransferHistory i =>
      [("chain", VStr chain); ("wallet_address", VStr (th_wallet_address i)); ("direction", VStr (th_direction i));
       ("categories", of_opt_list (th_categories i)); ("from_block", of_opt_block (th_from_block i));
       ("to_block", of_opt_block (th_to_block i)); ("max_count", of_opt_int (th_max_count i));
       ("with_metadata", VBool (th_with_metadata i)); ("exclude_zero_value", VBool (th_exclude_zero_value i))]
      ++ page_key_arg (th_page_key i)
  | UnsupportedIntent _ => []
  end%list.

Definition tool_for (k : ReadOnlyIntentKind) : string :=
  match k with
  | NATIVE_BALANCE => "get_native_balance"
  | ERC20_BALANCE => "get_erc20_balance"
  | ERC20_ALLOWANCE => "get_erc20_allowance"
  | ERC20_METADATA => "get_erc20_metadata"
  | CONTRACT_READ => "read_contract"
  | KNOWN_ADDRESS => "resolve_known_address"
  | TOKEN_PRICES => "get_token_prices"
  | PORTFOLIO_TOKENS => "get_portfolio_tokens"
  | TRANSFER_HISTORY => "get_transfer_history"
  | UNSUPPORTED => "format_response"
  end.

Lemma with_page_key_arg parsed o out :
  get parsed "page_key" = of_opt_str o -> opt_all stripped o -> with_page_key parsed out = (out ++ page_key_arg o)%list.
Proof.
  intros Hg Ho. unfold with_page_key. rewrite Hg. destruct o as [s|]; cbn [of_opt_str page_key_arg]; [|by rewrite app_nil_r].
  destruct (Ho s eq_refl) as [Hs Hne]. rewrite Hs. by rewrite (proj2 (str_empty_false s)).
Qed.

Lemma tool_input_spec i s c :
  wf_ParsedIntent settings i -> intent_kind i <> UNSUPPORTED -> parsed_state i s -> chain_name s = Some c ->
  _tool_input_for_state settings s = Ok (tool_arguments c i).
Proof using Hdefault.
  intros Hwf Hk Hp Hc. unfold _tool_input_for_state, parsed_dict. rewrite Hp, Hc, Hdefault.
  destruct i as [i|i|i|i|i|i|i|i|i|]; [..|done]; try reflexivity.
  - destruct Hwf as (_ & _ & Hl & _). destruct i as [? ? [|t l]]; [simpl in Hl; lia | reflexivity].
  - destruct Hwf as (_ & _ & _ & Hpk & names & Hn & Hl & _).
    transitivity (Ok (A := dict) (E := exn) (with_page_key (intent_dump (PortfolioTokens i))
      [("wallet_address", VStr (pf_wallet_address i)); ("chains", py_or (of_opt_list (pf_chains i)) (VList []));
       ("with_metadata", VBool (pf_with_metadata i)); ("with_prices", VBool (pf_with_prices i));
       ("include_native_tokens", VBool (pf_include_native_tokens i));
       ("include_erc20_tokens", VBool (pf_include_erc20_tokens i))])); [reflexivity|].
    rewrite (with_page_key_arg _ (pf_page_key i)) by done. rewrite Hn. destruct names; [simpl in Hl; lia|]. unfold tool_arguments. by rewrite Hn.
  - destruct Hwf as (_ & _ & _ & Hpk & _).
    unfold tool_arguments. by rewrite <- (with_page_key_arg (intent_dump (TransferHistory i)) (th_page_key i)).
Qed.

(** * Runs of the graph *)

(** What a graph starts from: the request, and nothing computed yet. *)
Definition fresh (s : MercuryState) : Prop :=
  error s = None /\ parsed_intent s = None /\ tool_result s = None /\ chain_name s = None.

Definition raw_of (s : MercuryState) : pyval :=
  match raw_input s with Some (AnyValue v) => v | Some (AnyPrepared _) => VBool true | None => VNone end.

(** The end of a run: the text, which is also the last message, and the request as it was. *)
Record answered (s s' : MercuryState) (text : string) : Prop := {
  an_text : response_text s' = Some text;
  an_messages : messages s' = (messages s ++ [text])%list;
  an_request : request_id s' = request_id s /\ raw_input s' = raw_input s
}.

(** What the graph may make of a request. *)
Inductive served (s : MercuryState) (tr : list (event E)) (r : result exn MercuryState) : Prop :=
| served_refused e s' :          (* the request is no read-only intent *)
    tr = [] -> r = Ok s' -> parse_readonly_intent settings (raw_of s) (messages s) = Err e -> error s' <> None ->
    answered s s' ("Unsupported operation: " ++ ei_message (normalize_exception e (Some "parse_intent") None)) -> served s tr r
| served_unsupported reason s' :
    tr = [] -> r = Ok s' -> parse_readonly_intent settings (raw_of s) (messages s) = Ok (UnsupportedIntent reason) ->
    answered s s' ("Unsupported operation: " ++ redact_error_message reason) -> error s' = None -> served s tr r
| served_no_chain i info s' :    (* its chain is not served *)
    tr = [] -> r = Ok s' -> parse_readonly_intent settings (raw_of s) (messages s) = Ok i -> intent_kind i <> UNSUPPORTED ->
    error s' = Some info ->
    answered s s' (format_error_response info) -> served s tr r
| served_tool_error i c e s' :   (* its tool raised *)
    parse_readonly_intent settings (raw_of s) (messages s) = Ok i -> intent_kind i <> UNSUPPORTED ->
    get_chain_by_name settings (intent_chain i) = Ok c ->
    may (execute registry (tool_for (intent_kind i)) (tool_arguments (cc_name c) i)) tr (Err e) ->
    r = Ok s' -> error s' = Some (normalize_exception e (Some ("read_tool:" ++ tool_for (intent_kind i))) None) ->
    answered s s' (format_error_response (normalize_exception e (Some ("read_tool:" ++ tool_for (intent_kind i))) None)) ->
    served s tr r
| served_answer i c out :        (* its tool answered *)
    parse_readonly_intent settings (raw_of s) (messages s) = Ok i -> intent_kind i <> UNSUPPORTED ->
    get_chain_by_name settings (intent_chain i) = Ok c ->
    may (execute registry (tool_for (intent_kind i)) (tool_arguments (cc_name c) i)) tr (Ok out) ->
    match format_success_response (ReadOnlyIntentKind_value (intent_kind i)) out with
    | Ok text => exists s', r = Ok s' /\ error s' = None /\ tool_result s' = Some out /\ answered s s' text
    | Err e => r = Err e
    end -> served s tr r.

Lemma read_graph_sequential : sequential (build_graph settings registry).
Proof. unfold sequential. apply (bool_decide_unpack _). reflexivity. Qed.

Abbreviation g := (build_graph settings registry).

Definition unsupported_text (s : MercuryState) : string :=
  format_unsupported_response
    match error s with
    | Some e => inr e
    | None => match get (parsed_dict s) "reason" with VStr r => inl r | _ => inl "Unsupported wallet intent." end
    end.

Lemma bind_ret_ok {A B} (a : A) (f : A -> prog E (result exn B)) : bind_exn (Ret (Ok a)) f = f a.
Proof. done. Qed.

(** Steps of the run, node by node. *)
Lemma format_step limit fuel s tr r :
  may (run_from merge_state limit (S fuel) g "format_response" s) tr r ->
  tr = [] /\
  match (match error s with
         | Some e => Ok (format_error_response e)
         | None => format_success_response (py_str (get_default (parsed_dict s) "kind" (VStr ""))) (default [] (tool_result s))
         end) with
  | Ok text => r = Ok (merge_state s (with_response_text text (with_message text empty_state)))
  | Err e => r = Err e
  end.
Proof.
  rewrite (run_from_step merge_state limit fuel g "format_response" format_response s eq_refl).
  unfold format_response. destruct (match error s with Some _ => _ | None => _ end) as [text|e]; by intros [-> ->].
Qed.

Lemma unsupported_step limit fuel s tr r :
  may (run_from merge_state limit (S fuel) g "unsupported_response" s) tr r ->
  tr = [] /\ exists text, unsupported_text s = text /\ r = Ok (merge_state s (with_response_text text (with_message text empty_state))).
Proof.
  rewrite (run_from_step merge_state limit fuel g "unsupported_response" unsupported_response_node s eq_refl).
  intros [-> ->]. split; [done|]. by eexists.
Qed.

Lemma tool_node k : k <> UNSUPPORTED ->
  dict_get (sg_nodes g) (tool_for k) = Some (execute_read_tool settings registry (tool_for k)) /\
  dict_get (sg_edges g) (tool_for k) = Some (Edge "format_response") /\
  dict_get _READ_ROUTES (ReadOnlyIntentKind_value k) = Some (tool_for k).
Proof. by destruct k. Qed.

Definition tool_state (s : MercuryState) (name : string) (input : dict) : MercuryState :=
  merge_state s (with_selected_tool_name name (with_tool_input input empty_state)).

Lemma execute_read_tool_runs name input s tr r :
  _tool_input_for_state settings s = Ok input -> may (execute_read_tool settings registry name s) tr r ->
  let base := with_selected_tool_name name (with_tool_input input empty_state) in
  (exists out, may (execute registry name input) tr (Ok out) /\
     r = Ok (with_tool_result out (with_read_result out base))) \/
  (exists e, may (execute registry name input) tr (Err e) /\
     r = Ok (with_error (normalize_exception e (Some ("read_tool:" ++ name)) None) base)).
Proof.
  unfold execute_read_tool. intros -> H. cbv zeta.
  change (may (try_except (tool_result <- execute registry name input;;
     ret_ok (with_tool_result tool_result (with_read_result tool_result
       (with_selected_tool_name name (with_tool_input input empty_state)))))%prog
    (fun exc => ret_ok (with_error (normalize_exception exc (Some ("read_tool:" ++ name)) None)
       (with_selected_tool_name name (with_tool_input input empty_state))))) tr r) in H.
  inv_may; simplify_eq; rewrite ?app_nil_r.
  - left. by eexists.
  - right. by eexists.
Qed.

Lemma answered_text s0 s text :
  messages s = messages s0 -> request_id s = request_id s0 -> raw_input s = raw_input s0 ->
  answered s0 (merge_state s (with_response_text text (with_message text empty_state))) text.
Proof. intros H1 H2 H3. destruct s; simpl in *. by split; simpl; subst. Qed.

Lemma text_fields s text :
  error (merge_state s (with_response_text text (with_message text empty_state))) = error s /\
  tool_result (merge_state s (with_response_text text (with_message text empty_state))) = tool_result s.
Proof. by destruct s. Qed.

Lemma tool_step limit fuel i c s s0 tr r :
  wf_ParsedIntent settings i -> intent_kind i <> UNSUPPORTED -> parsed_state i s -> error s = None ->
  chain_name s = Some (cc_name c) -> messages s = messages s0 -> request_id s = request_id s0 -> raw_input s = raw_input s0 ->
  parse_readonly_intent settings (raw_of s0) (messages s0) = Ok i -> get_chain_by_name settings (intent_chain i) = Ok c ->
  may (run_from merge_state limit (S (S fuel)) g (tool_for (intent_kind i)) s) tr r -> served s0 tr r.
Proof using Hdefault.
  intros Hwf Hk Hp He Hc Hm Hrq Hraw Hparse Hchain Hrun.
  destruct (tool_node (intent_kind i) Hk) as (Hn & Hs & _).
  rewrite (run_from_step merge_state limit (S fuel) g _ _ s Hn) in Hrun. unfold successor in Hrun. rewrite Hs in Hrun.
  apply may_bind_exn in Hrun as [(e & Hrun & ->)|(tr1 & tr2 & p & -> & Hrun & Hfmt)];
    apply (execute_read_tool_runs _ _ _ _ _ (tool_input_spec i s (cc_name c) Hwf Hk Hp Hc)) in Hrun as [(out & Hx & Ep)|(e' & Hx & Ep)];
    try discriminate Ep; injection Ep as ->; cbv zeta in Hfmt; apply format_step in Hfmt as [-> Hfmt]; rewrite app_nil_r.
  - set (s1 := merge_state s _) in Hfmt. assert (error s1 = None /\ parsed_dict s1 = intent_dump i /\ tool_result s1 = Some out) as (E1 & E2 & E3).
    { unfold s1, parsed_dict. cbn. by rewrite He, Hp. }
    rewrite E1, E2, E3 in Hfmt. eapply (served_answer s0 tr1 r i c out); try done. revert Hfmt.
    change (py_str (get_default (intent_dump i) "kind" (VStr ""))) with (ReadOnlyIntentKind_value (intent_kind i)).
    change (default [] (Some out)) with out. destruct (format_success_response _ out) as [text|e]; [|done]. intros ->. eexists. split; [done|].
    destruct (text_fields s1 text) as [-> ->]. split; [done|]. split; [done|]. apply answered_text; (subst s1; destruct s; simpl in *; by rewrite ?app_nil_r).
  - set (info := normalize_exception _ _ _) in Hfmt. set (s1 := merge_state s _) in Hfmt.
    assert (error s1 = Some info) as E1 by done. rewrite E1 in Hfmt.
    eapply (served_tool_error s0 tr1 r i c e' _); [done | done | done | done | exact Hfmt | |].
    + by rewrite (proj1 (text_fields _ _)).
    + apply answered_text; (subst s1; destruct s; simpl in *; by rewrite ?app_nil_r).
Qed.

Definition parsed_update (i : ParsedIntent) : MercuryState :=
  with_parsed_intent (VDict (intent_dump i))
    (with_read_result [("intent_kind", VStr (ReadOnlyIntentKind_value (intent_kind i)))] empty_state).

Lemma parse_step limit fuel s tr r :
  error s = None -> may (run_from merge_state limit (S fuel) g "parse_intent" s) tr r ->
  match parse_readonly_intent settings (raw_of s) (messages s) with
  | Err e =>
      may (run_from merge_state limit fuel g "unsupported_response"
             (merge_state s (with_error (normalize_exception e (Some "parse_intent") None) empty_state))) tr r
  | Ok i =>
      may (run_from merge_state limit fuel g
             (if bool_decide (intent_kind i = UNSUPPORTED) then "unsupported_response" else "resolve_chain")
             (merge_state s (parsed_update i))) tr r
  end.
Proof using Hdefault.
  intros He. rewrite (run_from_step merge_state _ _ g "parse_intent" (parse_intent settings) s eq_refl).
  unfold parse_intent. fold (raw_of s). destruct (parse_readonly_intent settings (raw_of s) (messages s)) as [i|e] eqn:Ei.
  - unfold ret_ok. rewrite bind_ret_ok. intros Hrun. fold (parsed_update i) in Hrun.
    assert (successor g "parse_intent" (merge_state s (parsed_update i)) =
            Some (if bool_decide (intent_kind i = UNSUPPORTED) then "unsupported_response" else "resolve_chain")) as Hn.
    { unfold successor. cbn -[merge_state intent_dump parsed_update]. unfold route_after_parse.
      assert (error (merge_state s (parsed_update i)) = None) as -> by done.
      assert (parsed_dict (merge_state s (parsed_update i)) = intent_dump i) as -> by done. by destruct i. }
    rewrite Hn in Hrun. by destruct (bool_decide _).
  - by rewrite (parse_raises _ _ _ Ei).
Qed.

Lemma resolve_successor s :
  successor g "resolve_chain" s =
  dict_get (map (fun name => (name, name)) read_tools ++ [(ROUTE_FORMAT_RESPONSE, "format_response")])%list (route_after_chain s).
Proof. reflexivity. Qed.

Lemma resolve_step limit fuel i s tr r :
  wf_ParsedIntent settings i -> intent_kind i <> UNSUPPORTED -> parsed_state i s -> error s = None ->
  may (run_from merge_state limit (S fuel) g "resolve_chain" s) tr r ->
  (exists c, get_chain_by_name settings (intent_chain i) = Ok c /\
     may (run_from merge_state limit fuel g (tool_for (intent_kind i)) (merge_state s (chain_state c))) tr r) \/
  (exists exc n, may (run_from merge_state limit fuel g "format_response" (merge_state s (chain_error exc n))) tr r).
Proof using Hdefault.
  intros Hwf Hk Hp He. rewrite (run_from_step merge_state _ _ g "resolve_chain" (resolve_chain settings) s eq_refl).
  destruct (resolve_chain_spec i s Hwf Hk Hp) as (r0 & -> & [(c & Hc & ->)|(exc & n & ->)]); 
    rewrite bind_ret_ok; cbv zeta; intros Hrun.
  - left. exists c. split; [done|].
    assert (successor g "resolve_chain" (merge_state s (chain_state c)) = Some (tool_for (intent_kind i))) as Hn.
    { rewrite resolve_successor. unfold route_after_chain, route_read_tool, parsed_dict.
      assert (error (merge_state s (chain_state c)) = None) as -> by (destruct s; simpl in *; by subst).
      assert (parsed_intent (merge_state s (chain_state c)) = Some (VDict (intent_dump i))) as -> by (destruct s; simpl in *; by subst).
      clear -Hk. by destruct i. }
    rewrite Hn in Hrun. revert Hrun. clear -Hk. by destruct i.
  - right. exists exc, n.
    assert (successor g "resolve_chain" (merge_state s (chain_error exc n)) = Some "format_response") as Hn.
    { rewrite resolve_successor. unfold route_after_chain.
      by assert (error (merge_state s (chain_error exc n)) = Some (normalize_exception exc (Some "resolve_chain") None)) as ->
        by (by destruct n). }
    by rewrite Hn in Hrun.
Qed.

Lemma read_graph_run {G : LangGraph E MercuryState} {GL : LangGraphLaws merge_state G} (s : MercuryState)
    (tr : list (event E)) (r : result exn MercuryState) (Hs : fresh s) (Hrun : may (invoke g s) tr r) :
  served s tr r.
Proof using Hdefault.
  apply (invoke_runs merge_state _ _ read_graph_sequential) in Hrun.
  pose proof (recursion_limit_default merge_state) as Hl.
  destruct recursion_limit as [|[|[|[|[|fuel]]]]] eqn:El; try lia. clear Hl El.
  destruct Hs as (He & Hp & Ht & Hc). apply (parse_step _ (S (S (S (S fuel))))) in Hrun; [|done].
  destruct (parse_readonly_intent settings (raw_of s) (messages s)) as [i|e] eqn:Ei.
  - pose proof (parse_wf settings _ _ _ Ei) as Hwf. case_bool_decide as Hk.
    + apply unsupported_step in Hrun as (-> & text & Htext & ->). destruct i as [| | | | | | | | |reason]; try done.
      assert (text = "Unsupported operation: " ++ redact_error_message reason) as ->
        by (rewrite <- Htext; unfold unsupported_text; destruct s; simpl in *; by subst).
      eapply (served_unsupported s [] _ reason _); [done | done | done | | by rewrite (proj1 (text_fields _ _)); destruct s].
      apply answered_text; (destruct s; simpl in *; by rewrite ?app_nil_r).
    + apply (resolve_step _ _ i) in Hrun as [(c & Hc' & Hrun)|(exc & n & Hrun)]; [| |done..|by destruct s].
      * eapply (tool_step _ _ i c _ s); [done | done | | | | | | | done | done | exact Hrun]; destruct s; simpl in *; subst; by rewrite ?app_nil_r.
      * apply format_step in Hrun as [-> Hrun]. set (s1 := merge_state _ (chain_error _ _)) in Hrun.
        assert (error s1 = Some (normalize_exception exc (Some "resolve_chain") None)) as E1 by (by destruct n).
        rewrite E1 in Hrun. eapply (served_no_chain s [] _ i); [done | exact Hrun | done | done | by rewrite (proj1 (text_fields _ _)) |].
        apply answered_text; (subst s1; destruct s, n; simpl in *; by rewrite ?app_nil_r).
  - apply unsupported_step in Hrun as (-> & text & <- & ->).
    eapply (served_refused s [] _ e _); [done | done | done | by rewrite (proj1 (text_fields _ _)) |].
    apply answered_text; (destruct s; simpl in *; by rewrite ?app_nil_r).
Qed.
End spec.

(** * Every answer is a text *)

Lemma app_nonempty_l (a b : string) : a <> "" -> (a ++ b)%string <> "".
Proof. by destruct a. Qed.
Lemma app_nonempty_r (a b : string) : b <> "" -> (a ++ b)%string <> "".
Proof. by destruct a. Qed.

Ltac nonempty_text := first [discriminate | apply app_nonempty_l; discriminate | apply app_nonempty_r; nonempty_text].

Lemma portfolio_text_nonempty `{W : Web3} r t : _format_portfolio_tokens_response r = Ok t -> t <> "".
Proof.
  unfold _format_portfolio_tokens_response. cbv zeta. destruct (get r "tokens") as [| | | | |[|? ?]|];
    try (destruct (has_page_key _), (truthy _); intros [= <-]; nonempty_text).
  intros (rows & _ & [= <-])%result_bind_ok. destruct rows; nonempty_text.
Qed.

Lemma transfer_text_nonempty r : _format_transfer_history_response r <> "".
Proof.
  unfold _format_transfer_history_response. cbv zeta. destruct (get r "transfers") as [| | | | |[|? ?]|];
    try (destruct (has_page_key _), (truthy _); nonempty_text). nonempty_text.
Qed.

Lemma prices_text_nonempty r : _format_token_prices_response r <> "".
Proof. unfold _format_token_prices_response. destruct (get r "tokens") as [| | | | |[|? ?]|]; try done. by case_match. Qed.

Lemma success_text_nonempty `{W : Web3} k r t :
  format_success_response (ReadOnlyIntentKind_value k) r = Ok t -> t <> "".
Proof.
  destruct k; unfold format_success_response; cbv zeta; cbn [String.eqb Ascii.eqb ReadOnlyIntentKind_value Bool.eqb];
    intros H; inv_ok; subst; try nonempty_text.
  - intros E. by apply prices_text_nonempty in E.
  - by eapply portfolio_text_nonempty.
  - intros E. by apply transfer_text_nonempty in E.
Qed.

(** The keys of an answer that its text needs. *)
Definition answer_keys (k : ReadOnlyIntentKind) : list string :=
  match k with
  | NATIVE_BALANCE => ["wallet_address"; "formatted"; "symbol"; "chain"]
  | ERC20_BALANCE => ["wallet_address"; "formatted"; "chain"]
  | ERC20_ALLOWANCE => ["spender_address"; "formatted"; "owner_address"; "chain"]
  | ERC20_METADATA => ["chain"; "decimals"]
  | CONTRACT_READ => ["function_name"; "result"; "chain"]
  | KNOWN_ADDRESS => ["key"; "category"; "chain_id"; "chain"; "address"]
  | _ => []
  end.

(** A tool answer the formatter can print: it has the keys, and the balances of its rows can be displayed. *)
Definition printable `{W : Web3} (k : ReadOnlyIntentKind) (out : dict) : Prop :=
  (forall key, key ∈ answer_keys k -> exists v, dict_get out key = Some v) /\
  (k = PORTFOLIO_TOKENS -> Forall (fun row => exists t, portfolio_summary row = Ok t) (dict_rows (get out "tokens"))).

Lemma item_str_ok out key : (exists v, dict_get out key = Some v) -> exists s, item_str out key = Ok s.
Proof. intros [v H]. unfold item_str, item. rewrite H. by eexists. Qed.

Lemma portfolio_printable `{W : Web3} out :
  Forall (fun row => exists t, portfolio_summary row = Ok t) (dict_rows (get out "tokens")) ->
  exists t, _format_portfolio_tokens_response out = Ok t.
Proof.
  intros H. unfold _format_portfolio_tokens_response. cbv zeta. destruct (get out "tokens") as [| | | | |[|v l]|]; try by eexists.
  assert (exists l', map_result portfolio_summary (omap as_dict (v :: l)) = Ok l') as [l' ->]; [|by eexists].
  change (dict_rows (VList (v :: l))) with (omap as_dict (v :: l)) in H. revert H. generalize (omap as_dict (v :: l)).
  induction l0 as [|d ds IH]; intros H; [by eexists|]. apply Forall_cons in H as [[t Ht] H]. destruct (IH H) as [ts Hts].
  simpl. rewrite Ht. simpl. rewrite Hts. by eexists.
Qed.

Lemma printable_text `{W : Web3} k out :
  k <> UNSUPPORTED -> printable k out -> exists t, format_success_response (ReadOnlyIntentKind_value k) out = Ok t.
Proof.
  intros Hk [Hkeys Hrows]. unfold format_success_response. cbv zeta.
  destruct k; try done; cbn [String.eqb Ascii.eqb ReadOnlyIntentKind_value Bool.eqb]; try (by eexists); [..|by apply portfolio_printable, Hrows];
    cbn [answer_keys] in Hkeys; rewrite <- Forall_forall in Hkeys;
    repeat (apply Forall_cons in Hkeys as [?Hi Hkeys]);
    repeat match goal with Hi : exists v, dict_get _ _ = Some v |- _ => let s := fresh "s" in let E := fresh "E" in
      let Hv := fresh "Hv" in pose proof (item_str_ok _ _ Hi) as [s E]; destruct Hi as [? Hv]; unfold item; rewrite ?E, ?Hv end;
    by eexists.
Qed.

(** * The claims *)

Section claims.
Context {W : Web3} {P : PydanticLax} {PT : PydanticText} (settings : MercurySettings).
Context {E : Type} `{!Effects E} (registry : @ReadOnlyToolRegistry E _).
Context {G : LangGraph E MercuryState} {GL : LangGraphLaws merge_state G}.


(** A registry whose tools answer with what the formatter prints. *)
Definition tools_printable : Prop := forall k input tr out,
  may (execute registry (tool_for k) input) tr (Ok out) -> printable k out.

End claims.

(** * A run *)

Definition sample_registry : @ReadOnlyToolRegistry effect _ := make_ReadOnlyToolRegistry [
  ("resolve_known_address", fun tool_input => ret_ok (VDict
     [("chain", get tool_input "chain"); ("chain_id", VInt 8453); ("category", get tool_input "category");
      ("key", get tool_input "key"); ("address", VStr "0x833589fcd6edb6e08f4c7c32d4f71b54bda02913")]))].

Definition sample_read_request : MercuryState := with_raw_input (AnyValue (VDict
  [("kind", VStr "Address_Lookup"); ("category", VStr "token"); ("key", VStr " USDC "); ("chain", VStr " Base")])) empty_state.

Definition sample_read_run : wallet (result exn MercuryState) :=
  @invoke _ _ _ (reference_langgraph merge_state)
    (@build_graph _ _ (fun _ _ => "") default_settings _ _ sample_registry) sample_read_request.

Example sample_read_text :
  match sample_read_run with Ret (Ok s) => response_text s | _ => None end =
  Some "USDC (token) on chain_id=8453 base resolves to 0x833589fcd6edb6e08f4c7c32d4f71b54bda02913.".
Proof. vm_compute. reflexivity. Qed.

Lemma sample_read_ends : exists r, may sample_read_run [] r.
Proof. destruct sample_read_run as [r|] eqn:E; [exists r; clear E; by split | vm_compute in E; discriminate E]. Qed.

Lemma sample_registry_printable : tools_printable sample_registry.
Proof.
  intros k input tr out. destruct k; try (by intros [_ [=]]).
  intros (tr1 & tr2 & v & -> & [-> Hv] & H)%may_bind_ok. injection Hv as ->. destruct H as [_ H]. injection H as ->.
  split; [|done]. intros key Hk. unfold answer_keys in Hk. repeat (apply elem_of_cons in Hk as [->|Hk]; [by eexists|]). by apply not_elem_of_nil in Hk.
Qed.

Lemma sample_default_chain : exists c, get_default_chain default_settings = Ok c.
Proof. destruct (get_default_chain default_settings) as [c|] eqn:E; [exists c; clear E; reflexivity | vm_compute in E; discriminate E]. Qed.


