(* ===== verification/Runtime.v ===== *)
(** The runtime behind the service ([mercury/graph/runtime.py]): validation of a request, the choice of its graph, and
    the run of that graph. *)
From stdpp Require Import base tactics option list sets strings.
From Stdlib Require Import ZArith Lia Ascii String.
From S2P Require Import Prelude Python Values Exceptions Redaction Errors Addresses Chains Models SwapModels Prog Effects.
From S2P Require Import Graph State Intents ReadIntents Io Custody Web Ens InvokeIntent ReadGraph Pipeline Preparation.

Local Open Scope string_scope.
Local Open Scope prog_scope.

(** A compiled graph: [invoke], and [stream] when the object has one.  A stream in the modes "updates" and "values" is
    seen through the states of its "values" parts, which are all the runtime keeps. *)
Record InvokableGraph := {
  ig_invoke : MercuryState -> online (result exn MercuryState);
  ig_stream : option (MercuryState -> online (result exn (list MercuryState)))
}.

Record MercuryGraphRuntime := {
  rt_read_graph : InvokableGraph;
  rt_erc20_graph : InvokableGraph;
  rt_native_graph : InvokableGraph;
  rt_swap_graph : InvokableGraph;
  rt_graph_node_logging : bool;     (** of the settings *)
  rt_ens_resolver : option (string -> string -> online (result exn string))
}.

(** [payload.get("intent")], or the input itself *)
Definition payload_of_raw_input (raw_input : dict) : dict :=
  match get raw_input "intent" with VDict payload => payload | _ => raw_input end.

Definition _graph_selection_for_state (rt : MercuryGraphRuntime) (s : MercuryState) : InvokableGraph * string :=
  match raw_input s with
  | Some (AnyValue (VDict d)) =>
      let kind := py_fold (py_str (get_default (payload_of_raw_input d) "kind" (VStr ""))) in
      if bool_decide (kind ∈ ["erc20_transfer"; "erc20_approval"]) then (rt_erc20_graph rt, "erc20_transaction")
      else if String.eqb kind "native_transfer" then (rt_native_graph rt, "native_transaction")
      else if String.eqb kind "swap" then (rt_swap_graph rt, "swap_transaction")
      else (rt_read_graph rt, "read")
  | _ => (rt_read_graph rt, "read")
  end.

(** The kind in logs and traces; a missing kind is the text of [None]. *)
Definition _intent_kind_from_state (s : MercuryState) : string :=
  match raw_input s with
  | Some (AnyValue (VDict d)) =>
      let kind := py_fold (py_str (get (payload_of_raw_input d) "kind")) in
      if str_empty kind then "unset" else kind
  | Some (AnyValue (VStr _)) => "literal_text"
  | _ => "unset"
  end.

(** [_runnable_config_for_state]: what is handed to langgraph with the state. *)
Definition _runnable_config_for_state (s : MercuryState) (graph_label : string) : dict :=
  let rid := match request_id s with Some r => if str_empty r then "no-thread" else r | None => "no-thread" end in
  [("run_name", VStr ("MercuryGraph." ++ graph_label)); ("tags", VList [VStr "mercury"; VStr graph_label]);
   ("metadata", VDict [("request_id", VStr rid); ("graph", VStr graph_label);
                       ("intent_kind", VStr (_intent_kind_from_state s))]);
   ("configurable", VDict [("thread_id", VStr rid)])].

(** The state with its messages replaced by one. *)
Definition with_only_message (v : string) (s : MercuryState) : MercuryState :=
  let '(Build_MercuryState _ ri ra pi cn cc cr sn ti tr rt rr pd pt ps et sr ar sg th er wa ei) := s in
  Build_MercuryState [v] ri ra pi cn cc cr sn ti tr rt rr pd pt ps et sr ar sg th er wa ei.

(** The answer to a request that does not validate. *)
Definition failed_state (s : MercuryState) (validation_error : MercuryErrorInfo) : MercuryState :=
  let text := if String.eqb (ei_code validation_error) "unsupported_intent"
              then format_unsupported_response (inr validation_error)
              else format_error_response validation_error in
  with_only_message text (with_response_text text (with_error validation_error s)).

(** [graph.invoke], or the last state of [graph.stream] when nodes are logged. *)
Definition run_selected (logging : bool) (graph : InvokableGraph) (working_state : MercuryState)
    : online (result exn MercuryState) :=
  match ig_stream graph with
  | Some stream =>
      if negb logging then ig_invoke graph working_state else
      values <- stream working_state;;
      match last values with Some last_values => ret_ok last_values | None => ig_invoke graph working_state end
  | None => ig_invoke graph working_state
  end.

Section runtime.
Context {W : Web3} {P : PydanticLax} {PT : PydanticText} (settings : MercurySettings).

Definition runtime_invoke (rt : MercuryGraphRuntime) (state : MercuryState) : online (result exn MercuryState) :=
  v <- validate_invoke_intent settings (rt_ens_resolver rt) state;;
  match v with
  | Refused validation_error => ret_ok (failed_state state validation_error)
  | Validated working_state =>
      run_selected (rt_graph_node_logging rt) (fst (_graph_selection_for_state rt working_state)) working_state
  end.

(** [build_default_runtime] over langgraph's [compile]. *)
Context (compile_read : StateGraph web MercuryState -> InvokableGraph)
        (compile_wallet : StateGraph effect MercuryState -> InvokableGraph).

Definition build_default_runtime (registry : @ReadOnlyToolRegistry web _) (deps : TransactionGraphDependencies)
    (swap_deps : SwapGraphDependencies) (graph_node_logging : bool)
    (ens_resolver : option (string -> string -> online (result exn string))) : MercuryGraphRuntime :=
  {| rt_read_graph := compile_read (build_graph settings registry);
     rt_erc20_graph := compile_wallet (build_erc20_transaction_graph settings deps);
     rt_native_graph := compile_wallet (build_native_transaction_graph settings deps);
     rt_swap_graph := compile_wallet (build_swap_transaction_graph settings deps swap_deps);
     rt_graph_node_logging := graph_node_logging;
     rt_ens_resolver := ens_resolver |}.
End runtime.

(** langgraph's documented behaviour of a compiled graph: [invoke] runs it; a stream of values ends with the state
    [invoke] returns, and raises what it raises. *)
Record compiled (ig : InvokableGraph) (run : MercuryState -> online (result exn MercuryState)) : Prop := {
  compiled_invoke s : prog_equiv (ig_invoke ig s) (run s);
  compiled_stream stream s : ig_stream ig = Some stream ->
    prog_equiv (values <- stream s;; ret_ok (last values)) (final <- run s;; ret_ok (Some final))
}.

(** Either way the runtime ends with a run of the graph. *)
Lemma run_selected_runs logging ig run s tr r :
  compiled ig run -> may (run_selected logging ig s) tr r -> may (run s) tr r.
Proof.
  intros [Hi Hs] H. unfold run_selected in H. destruct (ig_stream ig) as [stream|] eqn:Es; [|by apply Hi].
  destruct logging; simpl in H; [|by apply Hi]. specialize (Hs stream s eq_refl).
  apply may_bind_exn in H as [(e & H & ->)|(tr1 & tr2 & values & -> & H1 & H)].
  - assert (may (values <- stream s;; ret_ok (last values)) tr (Err e)) as Hm.
    { unfold bind_exn. apply may_bind. exists tr, [], (Err e). by rewrite app_nil_r. }
    apply Hs in Hm. apply may_bind_exn in Hm as [(e' & Hm & [= <-])|(? & ? & ? & _ & _ & [_ [=]])]. done.
  - assert (may (values <- stream s;; ret_ok (last values)) tr1 (Ok (last values))) as Hm.
    { unfold bind_exn. apply may_bind. exists tr1, [], (Ok values). by rewrite app_nil_r. }
    apply Hs in Hm. apply may_bind_ok in Hm as (t1 & t2 & final & -> & Hm & [-> [= El]]).
    rewrite El in H. destruct H as [-> ->]. by rewrite !app_nil_r.
Qed.

(** A compiled graph without a stream. *)
Definition plain_graph (run : MercuryState -> online (result exn MercuryState)) : InvokableGraph :=
  {| ig_invoke := run; ig_stream := None |}.

(** A compiled graph whose stream has the final state as its only value. *)
Definition streamed_graph (run : MercuryState -> online (result exn MercuryState)) : InvokableGraph :=
  {| ig_invoke := run; ig_stream := Some (fun s => final <- run s;; ret_ok [final]) |}.

Lemma plain_compiled run : compiled (plain_graph run) run.
Proof. by split. Qed.

Lemma streamed_compiled run : compiled (streamed_graph run) run.
Proof.
  split; [done|]. intros stream s [= <-] tr r. split; intros H.
  - apply may_bind_exn in H as [(e & H & ->)|(tr1 & tr2 & l & -> & H & [-> ->])];
      (apply may_bind_exn in H as [(e' & H & E)|(t1 & t2 & f & -> & H & [-> E])]); simplify_eq; unfold bind_exn; apply may_bind.
    + by exists tr, [], (Err e'); rewrite app_nil_r.
    + by exists t1, [], (Ok f); rewrite !app_nil_r.
  - apply may_bind_exn in H as [(e & H & ->)|(tr1 & tr2 & f & -> & H & [-> ->])]; unfold bind_exn; apply may_bind; simpl.
    + exists tr, [], (Err e). rewrite app_nil_r. split_and!; [done| |done]. apply may_bind. exists tr, [], (Err e). by rewrite app_nil_r.
    + exists tr1, [], (Ok [f]). split_and!; [done| |done]. apply may_bind. exists tr1, [], (Ok f). by rewrite app_nil_r.
Qed.
