(* ===== verification/RuntimeSpec.v ===== *)
(** What the runtime signs: only what the validated intent of the request asks for. *)
From stdpp Require Import base tactics option list sets strings gmap.
From Stdlib Require Import ZArith Lia Ascii String.
From S2P Require Import Prelude Python Values Exceptions Amounts Redaction Errors Addresses Chains Models SwapModels.
From S2P Require Import Policy Idempotency Prog Effects Erc20 Intents TokenTransactions TokenSpec Swaps SwapSpec.
From S2P Require Import Graph State Transactions Pipeline Preparation Protocol PipelineSpec PreparationSpec Execution EndToEnd.
From S2P Require Import ReadIntents ReadIntentSpec Io Custody Web Ens InvokeIntent InvokeIntentSpec ReadGraph ReadGraphSpec Runtime.

Local Open Scope string_scope.
Local Open Scope Z_scope.

#[local] Opaque get_chain_by_name.

(** * Calls below the runtime *)

(** A call of the wallet as a call of the client. *)
Definition lift_event (ev : wevent) : webevent := Ev (E := web) (NodeIO (Outside (ev_call ev))) (ev_answer ev).

Lemma may_lift_wallet {A} (p : wallet A) tr (a : A) :
  may (lift_wallet p) tr a -> exists above, tr = map lift_event above /\ may p above a.
Proof.
  revert tr. induction p as [a'|e k IH]; intros tr; simpl.
  - intros [-> ->]. by exists [].
  - intros (b & tr' & -> & (above & -> & H)%IH). exists (Ev e b :: above). by eauto.
Qed.

Lemma lift_wallet_may {A} (p : wallet A) above (a : A) : may p above a -> may (lift_wallet p) (map lift_event above) a.
Proof.
  revert above. induction p as [a'|e k IH]; intros above; simpl.
  - by intros [-> ->].
  - intros (b & tr' & -> & H). exists b, (map lift_event tr'). split; [done | by apply IH].
Qed.

(** The calls that sign or send. *)
Definition consequential (c : web) : bool :=
  match c with
  | NodeIO (Outside (SignTransaction _)) | NodeIO (Outside (Broadcast _)) | NodeIO (SendRawTransaction _ _) => true
  | _ => false
  end.
Definition harmless (c : web) : Prop := consequential c = false.

Definition good_web `{W : Web3} (ev : webevent) : Prop :=
  match ev with Ev (NodeIO (Outside e)) a => good_answer e a | _ => True end.

Lemma good_lift `{W : Web3} T : Forall good_web (map lift_event T) -> Forall good T.
Proof. rewrite Forall_map. intros H. eapply Forall_impl; [exact H | by intros [e a]]. Qed.

Section spec.
Context `{W : Web3} {L : Web3Laws W} {PT : PydanticText} {PL : PydanticLax} {PLL : PydanticLaxLaws PL}.
Context (settings : MercurySettings) (deps : TransactionGraphDependencies) (swap_deps : SwapGraphDependencies).

(** * What an intent asks for *)

Definition transfer_signed (i : ERC20TransferIntent) (T : list wevent) (t : ExecutableTransaction) : Prop :=
  et_wallet_id t = ti_wallet_id i /\ et_idempotency_key t = ti_idempotency_key i /\ et_value_wei t = 0 /\
  normalize_evm_address (ti_token_address i) = Ok (et_to t) /\
  exists to raw decimals, normalize_evm_address (ti_recipient_address i) = Ok to /\ to <> ZERO_ADDRESS /\
    decode_call (et_data t) = Some ("a9059cbb", py_lower to, raw) /\
    0 < raw /\ amount_means (ti_amount i) decimals (ti_amount_in_smallest_units i) raw.

Definition approval_signed (i : ERC20ApprovalIntent) (T : list wevent) (t : ExecutableTransaction) : Prop :=
  et_wallet_id t = ai_wallet_id i /\ et_idempotency_key t = ai_idempotency_key i /\ et_value_wei t = 0 /\
  normalize_evm_address (ai_token_address i) = Ok (et_to t) /\
  exists spender raw, normalize_evm_address (ai_spender_address i) = Ok spender /\ spender <> ZERO_ADDRESS /\
    decode_call (et_data t) = Some ("095ea7b3", py_lower spender, raw) /\
    approval_means (ai_amount i) (ai_amount_in_smallest_units i) raw /\ (raw = MAX_UINT256 -> ai_allow_unlimited i = true).

Definition native_signed (i : NativeTransferIntent) (T : list wevent) (t : ExecutableTransaction) : Prop :=
  et_wallet_id t = ni_wallet_id i /\ et_idempotency_key t = ni_idempotency_key i /\ et_data t = "0x" /\
  normalize_evm_address (ni_recipient_address i) = Ok (et_to t) /\ et_to t <> ZERO_ADDRESS /\
  0 < et_value_wei t /\ parse_units (py_strip (ni_amount i)) 18 = Ok (et_value_wei t).

Definition swap_signed (i : SwapIntent) (T : list wevent) (t : ExecutableTransaction) : Prop :=
  exists q, request_follows settings i (qu_request q) /\ allowed_at_clock settings (sd_policy_config swap_deps) q T /\
    ((exists spender to raw, ro_spender_address (qu_route q) = Some spender /\ normalize_evm_address spender = Ok to /\
        normalize_evm_address (ro_from_token (qu_route q)) = Ok (et_to t) /\ et_value_wei t = 0 /\
        decode_call (et_data t) = Some ("095ea7b3", py_lower to, raw) /\ raw <> MAX_UINT256) \/
     (exists e x, se_quote e = q /\ se_transaction e = Some x /\ normalize_evm_address (sx_to x) = Ok (et_to t) /\
        et_value_wei t = sx_value_wei x /\ et_data t = sx_data x)).

Definition intent_signed (i : WalletIntent) : list wevent -> ExecutableTransaction -> Prop :=
  match i with
  | TransferIntent i => transfer_signed i
  | ApprovalIntent i => approval_signed i
  | NativeIntent i => native_signed i
  | TradeIntent i => swap_signed i
  end.

(** The graph of an intent, and its name. *)
Definition graph_kind_for (k : value_moving_kind) : graph_kind :=
  match k with K_TRANSFER | K_APPROVAL => ERC20Graph | K_NATIVE => NativeGraph | K_SWAP => SwapGraph swap_deps end.

Definition kind_name (k : value_moving_kind) : string :=
  match k with K_TRANSFER => "erc20_transfer" | K_APPROVAL => "erc20_approval" | K_NATIVE => "native_transfer" | K_SWAP => "swap" end.

Lemma kind_named s k : dict_get _VALUE_MOVING_MODEL s = Some k -> s = kind_name k.
Proof.
  unfold _VALUE_MOVING_MODEL. cbn [dict_get].
  repeat (case (String.eqb_spec s); [by intros -> [= <-]|intros _]). done.
Qed.

(** A transaction prepared for a payload is one that an intent the payload validates to asks for. *)
Lemma prepared_signed k T payload p t :
  prepared_for settings (graph_kind_for k) T payload p -> carries p t ->
  (graph_kind_for k = ERC20Graph -> py_strip (payload_kind payload) = kind_name k) ->
  exists j, value_moving_kind_of j = k /\ wallet_intent_validate settings k payload = Ok j /\ intent_signed j T t.
Proof.
  intros Hp [Hw _ Hto Hvw Hd Hk] Hkind. destruct k; cbn [graph_kind_for prepared_for kind_name] in *.
  1-2: destruct Hp as [(i & x & raw & Hkd & Hv & [Htok Hrec Hnz _ Hvl Hcd _ [Hpos [d Ham]] _ _ _] & Hwi & Hki)
                      |(i & x & raw & Hkd & Hv & [Htok Hsp Hnz Hvl Hcd _ (_ & Hmax & Ham) _ _ _] & Hwi & Hki)];
       rewrite Hkd in Hkind; try (specialize (Hkind eq_refl); vm_compute in Hkind; discriminate Hkind); rewrite (normalize_again _ _ Htok) in Hto; injection Hto as Hto.
  - exists (TransferIntent i). cbn. rewrite Hv. split_and!; [done..|]. unfold transfer_signed. rewrite Hw, Hk, Hvw, Hd, <- Hto.
    split_and!; try done. exists x, raw, d. split_and!; try done; lia.
  - exists (ApprovalIntent i). cbn. rewrite Hv. split_and!; [done..|]. unfold approval_signed. rewrite Hw, Hk, Hvw, Hd, <- Hto.
    split_and!; try done. by exists x, raw.
  - destruct Hp as (i & Hv & [Hrec Hnz _ _ [Hpos Hval] Hdata _ _] & Hwi & Hki).
    exists (NativeIntent i). cbn. rewrite Hv. split_and!; [done..|]. unfold native_signed.
    rewrite (normalize_again _ _ Hrec) in Hto. injection Hto as Hto. rewrite Hw, Hk, Hd, Hvw, <- Hto. by split_and!.
  - destruct Hp as (i & q & Hv & Hfol & Hcl & Hcase). exists (TradeIntent i). cbn. rewrite Hv. split_and!; [done..|].
    exists q. split_and!; [done..|].
    destruct Hcase as [(sp & x & raw & Hsp & [Htok Hs _ Hval Hcd _ (_ & Hmax & Ham) _ _ _] & Hki)
                      |(e & He & [(x & Hx & Ht & Hxv & Hxd & _) _ _ _ _ _ _] & _)].
    + left. rewrite (normalize_again _ _ Htok) in Hto. injection Hto as Hto. exists sp, x, raw. rewrite Hd, Hvw, <- Hto.
      split_and!; try done. intros E. by apply Hmax in E.
    + right. exists e, x. rewrite Hd, Hvw, Hxd, Hxv. rewrite Ht in Hto. by split_and!.
Qed.

(** * The runtime *)

Context (ens_resolver : option (string -> string -> online (result exn string))).
Context (Hresolver : forall resolver raw chain, ens_resolver = Some resolver -> calls harmless (resolver raw chain)).
Context (registry : @ReadOnlyToolRegistry web _).
Context (Hregistry : forall name input, calls harmless (execute registry name input)).
Context {G : LangGraph effect MercuryState} {GL : LangGraphLaws merge_state G}.
Context {GR : LangGraph web MercuryState} {GRL : LangGraphLaws merge_state GR}.
Context (compile_read : StateGraph web MercuryState -> InvokableGraph)
        (compile_wallet : StateGraph effect MercuryState -> InvokableGraph).
Context (Hcompile_read : forall g, compiled (compile_read g) (invoke g))
        (Hcompile_wallet : forall g, compiled (compile_wallet g) (fun s => lift_wallet (invoke g s))).
Context (logging : bool).

Abbreviation rt := (build_default_runtime settings compile_read compile_wallet registry deps swap_deps logging ens_resolver).

Lemma resolve_fields_harmless resolver chain fields merged :
  ens_resolver = Some resolver -> calls harmless (resolve_fields resolver chain fields merged).
Proof using Hresolver.
  intros He. revert merged. induction fields as [|f fields IH]; intros merged; simpl; [apply calls_ret_ok|].
  apply calls_bind_exn.
  - unfold resolve_field. destruct (get merged f); try apply calls_ret_ok. destruct (_ || _); [apply calls_ret_ok|].
    apply calls_bind; [by apply Hresolver|]. intros [a|e]; [apply calls_ret_ok|].
    destruct (has_class _ e); [apply calls_ret_ok | apply calls_ret].
  - intros [m [info|]]; [apply calls_ret_ok | apply IH].
Qed.

Lemma ens_harmless merged k : calls harmless (_apply_ens_resolution_to_merged settings ens_resolver merged k).
Proof using Hresolver.
  unfold _apply_ens_resolution_to_merged. case_eq ens_resolver; [intros resolver E | intros _; apply calls_ret_ok].
  destruct (dict_get _ k); [|apply calls_ret_ok]. apply calls_bind_exn; [apply calls_pure|].
  intros c. by apply resolve_fields_harmless.
Qed.

Lemma validate_harmless s : calls harmless (validate_invoke_intent settings ens_resolver s).
Proof using Hresolver.
  unfold validate_invoke_intent. destruct (_extract_raw_blob s) as [[| | | | | |raw]|]; try apply calls_ret.
  destruct (raw_kind_of _); try apply calls_ret. apply calls_bind_exn; [apply ens_harmless|].
  intros [m [info|]]; [apply calls_pure|]. intros tr a Hm. unfold validate_kind in Hm.
  assert (tr = []) as -> by (repeat case_match; by destruct Hm). constructor.
Qed.

(** The read-only graph makes no call of consequence. *)
Lemma read_graph_harmless s : calls harmless (invoke (build_graph settings registry) s).
Proof using Hregistry GRL.
  apply (invoke_calls merge_state harmless (GL := GRL)); [apply read_graph_sequential|].
  assert (forall name s, calls harmless (execute_read_tool settings registry name s)) as Htool.
  { intros name s'. unfold execute_read_tool. apply calls_bind_exn; [apply calls_pure|]. intros input.
    apply calls_try; [apply calls_bind_exn; [apply Hregistry|]|]; intros; apply calls_ret_ok. }
  repeat (constructor; [intros s'; first [apply Htool | simpl]|]); [..|constructor].
  - unfold parse_intent. destruct (parse_readonly_intent _ _ _); [apply calls_ret_ok|].
    destruct (has_class _ _); [apply calls_ret_ok | apply calls_ret].
  - apply calls_pure.
  - apply calls_ret_ok.
  - apply calls_bind_exn; [apply calls_pure | intros; apply calls_ret_ok].
Qed.

Definition payload_kind_text (payload : dict) : string := py_fold (py_str (get_default payload "kind" (VStr ""))).

(** The graph that is chosen: that of a kind that moves value, or the read-only one. *)
Lemma selected_graph s raw : raw_input s = Some (AnyValue (VDict raw)) ->
  (exists k, payload_kind_text (unwrap_intent_payload raw) = kind_name k /\
     fst (_graph_selection_for_state rt s) = compile_wallet (wallet_graph settings deps (graph_kind_for k))) \/
  fst (_graph_selection_for_state rt s) = compile_read (build_graph settings registry).
Proof.
  intros Hr. unfold _graph_selection_for_state. rewrite Hr. change (payload_of_raw_input raw) with (unwrap_intent_payload raw).
  fold (payload_kind_text (unwrap_intent_payload raw)). case_bool_decide as E.
  - left. apply elem_of_cons in E as [->|E]; [by exists K_TRANSFER|]. apply list_elem_of_singleton in E as ->. by exists K_APPROVAL.
  - case (String.eqb_spec _ "native_transfer"); [intros ->; left; by exists K_NATIVE|intros _].
    case (String.eqb_spec _ "swap"); [intros ->; left; by exists K_SWAP|intros _]. by right.
Qed.

Lemma kind_name_inj k k' : kind_name k = kind_name k' -> k = k'.
Proof. by destruct k, k'. Qed.

Lemma read_kind_not_wallet i k : kind_name k <> ReadOnlyIntentKind_value (intent_kind i).
Proof. by destruct k, (intent_kind i). Qed.

(** A request: an input and its identifier, and nothing decided. *)
Definition request_only (s : MercuryState) : Prop := exists ms rid raw,
  s = Build_MercuryState ms rid raw None None None None None None None None None None None None None None None None None None None None.

Lemma request_initial kind s d : request_only s -> initial kind (with_raw_input (AnyValue (VDict d)) s).
Proof. intros (ms & rid & raw & ->). by constructor. Qed.

Lemma request_fresh s d : request_only s -> fresh (with_raw_input (AnyValue (VDict d)) s).
Proof. by intros (ms & rid & raw & ->). Qed.

Lemma request_payload msg s d payload :
  request_only s -> payload_from_state msg (with_raw_input (AnyValue (VDict d)) s) = Ok payload -> payload = unwrap_intent_payload d.
Proof.
  intros (ms & rid & raw & ->). unfold payload_from_state, unwrap_intent_payload. cbn. destruct (get d "intent"); by intros [= <-].
Qed.

Lemma harmless_signs_nothing {A} (p : online A) tr1 tr2 req a r :
  calls harmless p -> ~ may p (tr1 ++ Ev (E := web) (NodeIO (Outside (SignTransaction req))) a :: tr2) r.
Proof.
  intros Hp Hm. apply Hp in Hm. apply Forall_app in Hm as [_ Hm]. apply Forall_cons in Hm as [Hm _]. discriminate Hm.
Qed.

(** A signature in a run of a wallet graph that was chosen for a payload. *)
Lemma wallet_graph_signs k s d T req a r :
  request_only s -> payload_kind_text (unwrap_intent_payload d) = kind_name k ->
  may (invoke (wallet_graph settings deps (graph_kind_for k)) (with_raw_input (AnyValue (VDict d)) s)) T r ->
  Forall good T -> Ev (SignTransaction req) a ∈ T ->
  exists j t, value_moving_kind_of j = k /\ wallet_intent_validate settings k (unwrap_intent_payload d) = Ok j /\
    signing_request t = Ok req /\ intent_signed j T t.
Proof using L GL.
  intros Hs Hk Hm Hg (tr1 & tr2 & ->)%list_elem_of_split.
  destruct (signed_for settings deps (graph_kind_for k) (with_raw_input (AnyValue (VDict d)) s) tr1 tr2 req a r) as (msg & payload & p & t & Hpl & Hp & Hc & Hr);
    [by destruct k | by apply request_initial | done | done |].
  apply request_payload in Hpl as ->; [|done].
  destruct (prepared_signed k _ _ p t Hp Hc) as (j & Hj & Hv & Hsig); [|by exists j, t].
  intros _. unfold payload_kind_text, py_fold in Hk. unfold payload_kind. by rewrite py_strip_lower.
Qed.

(** A payload with the kind of a wallet graph came from a request that names it, not from an envelope. *)
Lemma wallet_kind_of_request raw payload k raw_kind :
  raw_kind_of (unwrap_intent_payload raw) = VStr raw_kind -> payload_kind_text payload = kind_name k ->
  dict_get payload "kind" = (if is_nested raw then None else dict_get raw "kind") ->
  is_nested raw = false /\ dict_get raw "kind" = Some (VStr raw_kind) /\ unwrap_intent_payload raw = raw /\ py_fold raw_kind = kind_name k.
Proof.
  intros Hk Hkt Hkey. unfold payload_kind_text, get_default in Hkt. rewrite Hkey in Hkt.
  destruct (is_nested raw) eqn:En; [by destruct k; vm_compute in Hkt|].
  assert (unwrap_intent_payload raw = raw) as Hu by (unfold unwrap_intent_payload, is_nested in *; by destruct (get raw "intent")).
  rewrite Hu in Hk. unfold raw_kind_of, get_default in Hk. destruct (dict_get raw "kind") as [v|]; [|by destruct k; vm_compute in Hkt].
  subst v. by split_and!.
Qed.

(** A run that reaches a wallet graph: the request, the calls [names] of the name resolution, the validated intent, and the
    run of the graph of its kind, whose calls are [T]. *)
Record intent_run (state : MercuryState) (r : result exn MercuryState) (raw raw' : dict) (names : list webevent)
    (i : WalletIntent) (T : list wevent) : Prop := {
  ir_request : raw_input state = Some (AnyValue (VDict raw)) /\ is_nested raw = false;
  ir_validated : exists raw_kind merged, dict_get raw "kind" = Some (VStr raw_kind) /\
    py_fold raw_kind = kind_name (value_moving_kind_of i) /\
    may (_apply_ens_resolution_to_merged settings ens_resolver raw (py_fold raw_kind)) names (Ok (merged, None)) /\
    wallet_intent_validate settings (value_moving_kind_of i) merged = Ok i;
  ir_names : Forall (fun ev => harmless (ev_call ev)) names;
  ir_payload : payload_kind_text (unwrap_intent_payload raw') = kind_name (value_moving_kind_of i);
  ir_run : may (invoke (wallet_graph settings deps (graph_kind_for (value_moving_kind_of i)))
                 (with_raw_input (AnyValue (VDict raw')) state)) T r;
  ir_same j : wallet_intent_validate settings (value_moving_kind_of i) (unwrap_intent_payload raw') = Ok j ->
    j = i \/ native_marker i
}.

Lemma runtime_cases (state : MercuryState) (tr : list webevent) (r : result exn MercuryState) :
  request_only state -> may (runtime_invoke settings rt state) tr r ->
  Forall (fun ev => harmless (ev_call ev)) tr \/
  exists raw raw' names i T, tr = (names ++ map lift_event T)%list /\ intent_run state r raw raw' names i T.
Proof.
  intros Hs Hm. unfold runtime_invoke in Hm.
  apply may_bind_exn in Hm as [(e & Hv & ->)|(names & tr' & [s'|info] & -> & Hv & Hm)];
    pose proof (validate_harmless _ _ _ Hv) as Hn; [by left| |destruct Hm as [-> _]; left; by rewrite app_nil_r].
  destruct (validated_payload settings ens_resolver state names s' Hv) as (raw & raw' & raw_kind & merged & Hr & Hk & Hens & -> & _ & _ & Hcase).
  destruct (selected_graph (with_raw_input (AnyValue (VDict raw')) state) raw') as [(k & Hkt & Hsel)|Hsel]; [by destruct state|..];
    cbn [rt_graph_node_logging build_default_runtime] in Hm; rewrite Hsel in Hm; clear Hsel.
  2: { apply (run_selected_runs _ _ _ _ _ _ (Hcompile_read _)) in Hm. left. apply Forall_app. split; [done|].
       by eapply read_graph_harmless. }
  apply (run_selected_runs _ _ _ _ _ _ (Hcompile_wallet _)) in Hm. apply may_lift_wallet in Hm as (T & -> & Hm).
  destruct Hcase as [(i & Hi & Hiv & Hc & Hwf & Hkey & _)|(i & _ & _ & _ & Hc)].
  - destruct (wallet_kind_of_request raw _ _ raw_kind Hk Hkt Hkey) as (Hnest & Hrk & Hu & Hf). rewrite Hf in Hi.
    assert (k = value_moving_kind_of i) as -> by (apply kind_name_inj; by apply kind_named).
    unfold merged_invoke_validation_payload in Hens. rewrite Hnest, Hu in Hens.
    right. exists raw, raw', names, i, T. split; [done|]. split; try done; [by exists raw_kind, merged|].
    intros j Hj. by apply (wallet_intent_same settings i j (unwrap_intent_payload raw') Hwf Hc).
  - exfalso. unfold payload_kind_text, get_default in Hkt. rewrite (Hc "kind" _ eq_refl) in Hkt. revert Hkt. clear.
    destruct k, (intent_kind i); vm_compute; discriminate.
Qed.

Lemma runtime_signature (state : MercuryState) (tr : list webevent) (r : result exn MercuryState) req a :
  request_only state -> may (runtime_invoke settings rt state) tr r -> Forall good_web tr ->
  Ev (E := web) (NodeIO (Outside (SignTransaction req))) a ∈ tr ->
  exists raw raw_kind merged names i j T t,
    raw_input state = Some (AnyValue (VDict raw)) /\ is_nested raw = false /\ dict_get raw "kind" = Some (VStr raw_kind) /\
    py_fold raw_kind = kind_name (value_moving_kind_of i) /\
    may (_apply_ens_resolution_to_merged settings ens_resolver raw (py_fold raw_kind)) names (Ok (merged, None)) /\
    wallet_intent_validate settings (value_moving_kind_of i) merged = Ok i /\
    (j = i \/ native_marker i) /\ tr = (names ++ map lift_event T)%list /\
    signing_request t = Ok req /\ intent_signed j T t.
Proof.
  intros Hs Hm Hg Hin.
  destruct (runtime_cases state tr r Hs Hm) as [Hh|(raw & raw' & names & i & T & -> & [[Hr Hn] (raw_kind & merged & Hk & Hf & Hens & Hi) Hh Hkt Hrun Hsame])].
  { rewrite Forall_forall in Hh. by apply Hh in Hin. }
  apply elem_of_app in Hin as [Hin|Hin]; [rewrite Forall_forall in Hh; by apply Hh in Hin|]. apply Forall_app in Hg as [_ Hg].
  apply list_elem_of_fmap in Hin as ([e b] & E & Hin). destruct e; try discriminate E. cbn in E, b.
  assert (exists b', Ev (SignTransaction req) b' ∈ T) as [b' Hin'] by (injection E; intros; subst; by exists b).
  apply good_lift in Hg. destruct (wallet_graph_signs _ state raw' T req b' r Hs Hkt Hrun Hg Hin') as (j & t & Hj & Hjv & Hreq & Hsig).
  exists raw, raw_kind, merged, names, i, j, T, t. split_and!; try done. by apply Hsame.
Qed.
End spec.

(** * The claims *)

(** The outside of a runtime: name resolution and read-only tools that neither sign nor send, and langgraph's compiled
    graphs. *)
Class RuntimeParts `{W : Web3} (settings : MercurySettings) (ens_resolver : option (string -> string -> online (result exn string)))
    (registry : @ReadOnlyToolRegistry web _) (G : LangGraph effect MercuryState) (GR : LangGraph web MercuryState)
    (compile_read : StateGraph web MercuryState -> InvokableGraph)
    (compile_wallet : StateGraph effect MercuryState -> InvokableGraph) : Prop := {
  resolver_harmless resolver raw chain : ens_resolver = Some resolver -> calls harmless (resolver raw chain);
  registry_harmless name input : calls harmless (execute registry name input);
  read_compiled g : compiled (compile_read g) (invoke g);
  wallet_compiled g : compiled (compile_wallet g) (fun s => lift_wallet (invoke g s))
}.

Section claims.
Context `{W : Web3} {L : Web3Laws W} {PT : PydanticText} {PL : PydanticLax} {PLL : PydanticLaxLaws PL}.
Context {G : LangGraph effect MercuryState} {GL : LangGraphLaws merge_state G}.
Context {GR : LangGraph web MercuryState} {GRL : LangGraphLaws merge_state GR}.
Context (settings : MercurySettings) (deps : TransactionGraphDependencies) (swap_deps : SwapGraphDependencies).
Context (ens_resolver : option (string -> string -> online (result exn string))) (registry : @ReadOnlyToolRegistry web _).
Context (compile_read : StateGraph web MercuryState -> InvokableGraph)
        (compile_wallet : StateGraph effect MercuryState -> InvokableGraph) (logging : bool).
Context {RP : RuntimeParts settings ens_resolver registry G GR compile_read compile_wallet}.

Abbreviation rt := (build_default_runtime settings compile_read compile_wallet registry deps swap_deps logging ens_resolver).


Lemma dump_has_no_kind i : raw_kind_of (wallet_intent_dump i) = VNone.
Proof. by destruct i. Qed.

(** The request is turned away: validation refused it or raised, or the read-only graph answers that it has no kind. *)
Definition turned_away (state : MercuryState) (tr : list webevent) (r : result exn MercuryState) : Prop :=
  (exists e, r = Err e /\ may (validate_invoke_intent settings ens_resolver state) tr (Err e)) \/
  (exists info, r = Ok (failed_state state info) /\ may (validate_invoke_intent settings ens_resolver state) tr (Ok (Refused info))) \/
  (exists s', r = Ok s' /\ response_text s' = Some "Unsupported operation: Structured intents must include a kind.").

Lemma unsupported_read_answer default_chain (Hdefault : get_default_chain settings = Ok default_chain) reg s tr r v reason :
  may (invoke (build_graph settings reg) s) tr r -> fresh s -> raw_of s = v ->
  parse_readonly_intent settings v (messages s) = Ok (UnsupportedIntent reason) ->
  exists s', r = Ok s' /\ response_text s' = Some ("Unsupported operation: " ++ redact_error_message reason).
Proof using GRL.
  intros Hm Hf <- Hp. destruct (read_graph_run settings default_chain Hdefault reg s tr r Hf Hm)
    as [e s' _ _ Hq|r0 s' _ -> Hq Ha|i info s' _ _ Hq Hk|i c e s' Hq Hk|i c out Hq Hk]; rewrite Hp in Hq; try discriminate Hq.
  - injection Hq as <-. exists s'. split; [done | apply Ha].
  - injection Hq as <-. by destruct Hk.
  - injection Hq as <-. by destruct Hk.
  - injection Hq as <-. by destruct Hk.
Qed.

End claims.

(** * Sample runs *)

(** The sample outside below the client: the wallet calls are answered by [agent_handler]. *)
Definition client_handler (c : web) (σ : InMemoryIdempotencyStore) : InMemoryIdempotencyStore * ans c :=
  match c return InMemoryIdempotencyStore * ans c with
  | NodeIO i =>
      match i return InMemoryIdempotencyStore * ans (NodeIO i) with
      | ClientGetSecret _ _ _ => (σ, Ok (Some "https://rpc.example"))
      | GetTransactionCount _ _ | EstimateGas _ _ | MaxPriorityFee _ | GasPrice _ | GetBalance _ _ | BlockNumber _ => (σ, Ok 0)
      | LatestBaseFee _ => (σ, Ok None)
      | EthCall _ _ => (σ, Ok tt)
      | SendRawTransaction _ _ => (σ, Err (Exn ExceptionC "offline"))
      | WaitForTransactionReceipt _ _ _ => (σ, Err (Exn ExceptionC "offline"))
      | Monotonic => (σ, 0)
      | Sleep _ => (σ, tt)
      | Outside e => agent_handler e σ
      end
  | HttpRequest _ => (σ, HttpFailed "URLError" "offline")
  | EnsAddress _ _ _ => (σ, EnsRecord (Some sample_peer))
  | CallFunction _ _ _ _ _ => (σ, Ok VNone)
  | CacheGet _ _ => (σ, None)
  | CachePut _ _ _ => (σ, tt)
  | TokenGet => (σ, None)
  | TokenPut _ => (σ, tt)
  end.

#[export] Instance sample_web_langgraph : LangGraph web MercuryState := reference_langgraph merge_state.
#[export] Instance sample_web_langgraph_laws : LangGraphLaws merge_state sample_web_langgraph :=
  reference_langgraph_laws merge_state.

Definition sample_compile_read (g : StateGraph web MercuryState) : InvokableGraph := streamed_graph (invoke g).
Definition sample_compile_wallet (g : StateGraph effect MercuryState) : InvokableGraph :=
  streamed_graph (fun s => lift_wallet (invoke g s)).
Definition no_tools : @ReadOnlyToolRegistry web _ := make_ReadOnlyToolRegistry [].

#[export] Instance sample_runtime_parts :
  RuntimeParts default_settings None no_tools sample_langgraph sample_web_langgraph sample_compile_read sample_compile_wallet.
Proof.
  split; [done | intros; apply calls_ret | intros; apply streamed_compiled | intros g; apply streamed_compiled].
Qed.

Definition sample_runtime : MercuryGraphRuntime :=
  build_default_runtime default_settings sample_compile_read sample_compile_wallet no_tools default_dependencies
    sample_swap_deps true None.

Definition client_run (payload : dict) : online (result exn MercuryState) :=
  runtime_invoke default_settings sample_runtime (state_of payload).
Definition client_trace (payload : dict) : list webevent := run_trace client_handler (client_run payload) ∅.
Definition client_result (payload : dict) : result exn MercuryState := (run_prog client_handler (client_run payload) ∅).2.

Lemma client_may payload : may (client_run payload) (client_trace payload) (client_result payload).
Proof. exact (run_may client_handler (client_run payload) ∅). Qed.

Lemma state_of_request payload : request_only (state_of payload).
Proof. by eexists [], None, _. Qed.

Example client_signs_token : status_of (client_result token_payload) = Some (CONFIRMED, Some sample_hash).
Proof. vm_compute. reflexivity. Qed.

(** The kind is read without case and blanks by the runtime but not by the graphs: with a blank in front the request
    validates and reaches the ERC-20 graph, which does not know it. *)
Example blank_kind_unsupported :
  match client_result (dict_set token_payload "kind" (VStr " erc20_transfer")) with Ok s => response_text s | Err _ => None end =
  Some "Unsupported operation: Unsupported wallet intent.".
Proof. vm_compute. reflexivity. Qed.

Definition enveloped_payload : dict := [("intent", VDict token_payload); ("user_id", VStr "u1")].

Ltac solve_good_web :=
  match goal with |- Forall good_web ?tr => eassert (tr = _) as -> by (vm_compute; reflexivity) end;
  repeat first [apply Forall_nil_2 | apply Forall_cons_2];
  cbn [good_web good_answer]; try exact I;
  try (intros w [= <-]; exact sample_wallet_normalized); try (intros h [= <-]; reflexivity);
  try (intros rc [= <-]; unfold wf_TransactionReceipt; simpl;
       split_and!; [reflexivity | set_solver | by intros n [= <-] | by intros n [= <-]]);
  try reflexivity.

Lemma client_token_good : Forall good_web (client_trace token_payload).
Proof. solve_good_web. Qed.


