(* ===== verification/Http.v ===== *)
(** HTTP clients: the JSON client of the swap adapters and of the Alchemy clients with its helpers
    ([mercury/swaps/base.py]), and the 1Claw client ([mercury/custody/oneclaw.py], [OneClawHttpClient]). *)
From stdpp Require Import base tactics option list sets strings.
From Stdlib Require Import ZArith Lia Ascii String.
From S2P Require Import Prelude Python Values Exceptions Amounts Redaction Errors Addresses Chains Models SwapModels Prog Effects.
From S2P Require Import Alchemy Io Custody Web.

Local Open Scope string_scope.
Local Open Scope Z_scope.
Local Open Scope prog_scope.

(** * urllib.parse *)

(** The UTF-8 bytes of a character. *)
Definition utf8_bytes (c : ascii) : list Z :=
  let n := code c in if n <? 128 then [n] else [192 + n / 64; 128 + n mod 64].

Definition percent (b : Z) : string := "%" ++ py_upper (hex_fixed 2 b "").

(** [quote(s, safe)]: letters, digits, [_.-~] and the safe characters stay. *)
Fixpoint url_quote (safe s : string) : string :=
  match s with
  | EmptyString => ""
  | String c s' =>
      (if ascii_alnum c || in_str "_.-~" c || in_str safe c then String c ""
       else String.concat "" (map percent (utf8_bytes c))) ++ url_quote safe s'
  end.

(** [quote_plus(s)] *)
Definition quote_plus (s : string) : string :=
  str_map (fun c => if Ascii.eqb c " " then "+"%char else c) (url_quote " " s).

(** [urlencode(params)] *)
Definition urlencode (params : dict) : string :=
  py_join "&" (map (fun kv => quote_plus kv.1 ++ "=" ++ quote_plus (py_str kv.2)) params).

Definition is_slash (c : ascii) : bool := Ascii.eqb c "/".

(** * swaps/base.py *)

Definition SwapProviderError (text : string) : exn := Exn SwapProviderErrorC text.

Definition _DEFAULT_HTTP_HEADERS : list (string * string) := [
  ("User-Agent", "Mercury/0.1 (EVM agent; https://github.com/fabriziogianni7/mercury-agent-wallet)");
  ("Accept", "application/json")].

Definition _merge_provider_headers (headers : list (string * string)) : list (string * string) :=
  dict_update _DEFAULT_HTTP_HEADERS headers.

(** [s[:n]] *)
Fixpoint str_take (n : nat) (s : string) : string :=
  match n, s with S m, String c s' => String c (str_take m s') | _, _ => EmptyString end.

(** [exc.reason] is empty text when it is falsy; the body is [None] when reading it raises. *)
Definition _swap_http_error_detail (status : Z) (reason : string) (body : option string) : string :=
  let parts := ["HTTP " ++ py_str_int status] in
  let parts := if str_empty reason then parts else (parts ++ [py_strip reason])%list in
  let parts := match py_strip <$> body with
               | None | Some EmptyString => parts
               | Some body =>
                   let snippet : string := str_map (fun c => if code c =? 10 then " "%char else c) (str_take 400 body) in
                   let shown := if 400 <? str_len body then snippet ++ "…" else snippet in
                   (parts ++ [shown])%list
               end in
  py_join "; " parts.

(** [UrllibJsonHttpClient._send] *)
Definition _send (request : http_request) : online (result exn dict) :=
  prog_bind (urlopen request) (fun answer =>
    Ret match answer with
        | HttpStatus status reason body =>
            Err (SwapProviderError ("Swap provider request failed (" ++ _swap_http_error_detail status reason body ++ ")."))
        | HttpFailed cls text => Err (SwapProviderError ("Swap provider request failed (" ++ cls ++ ": " ++ text ++ ")."))
        | HttpGarbled => Err (ValueError "'utf-8' codec can't decode the body")
        | HttpBody _ None =>
            Err (SwapProviderError "Swap provider response was not valid JSON (non-JSON body or HTML error page).")
        | HttpBody _ (Some (VDict payload)) => Ok payload
        | HttpBody _ (Some _) => Err (SwapProviderError "Swap provider response must be a JSON object.")
        end).

(** [JsonHttpClient] *)
Record JsonHttpClient := {
  get_json : string -> dict -> list (string * string) -> online (result exn dict);
  post_json : string -> dict -> list (string * string) -> online (result exn dict)
}.

Definition UrllibJsonHttpClient (base_url : string) : result exn JsonHttpClient :=
  if str_empty (py_strip base_url) then Err (ValueError "Provider base URL must not be empty.") else
  let base := rstrip_if is_slash base_url in
  Ok {| get_json path params headers :=
          let query := match params with [] => "" | _ => "?" ++ urlencode params end in
          _send {| hr_method := "GET"; hr_url := base ++ "/" ++ lstrip_if is_slash path ++ query;
                   hr_headers := _merge_provider_headers headers; hr_data := None; hr_timeout := 20 |};
        post_json path payload headers :=
          _send {| hr_method := "POST"; hr_url := base ++ "/" ++ lstrip_if is_slash path;
                   hr_headers := dict_set (_merge_provider_headers headers) "Content-Type" "application/json";
                   hr_data := Some (VDict payload); hr_timeout := 20 |} |}.

Record SwapProviderConfig := {
  sp_provider : SwapProviderName;
  sp_base_url : string;
  sp_api_secret_path : option string;
  sp_secret_store : option OneClawSecretStore
}.

Definition default_for (settings : MercurySettings) (provider : SwapProviderName) (secret_store : option OneClawSecretStore)
    : SwapProviderConfig :=
  {| sp_provider := provider;
     sp_base_url := match provider with LIFI => "https://li.quest/v1" | COWSWAP => "https://api.cow.fi"
                                      | UNISWAP => "https://api.uniswap.org" end;
     sp_api_secret_path := Some match provider with LIFI => ms_lifi_api_secret_path settings
                                                  | COWSWAP => ms_cowswap_api_secret_path settings
                                                  | UNISWAP => ms_uniswap_api_secret_path settings end;
     sp_secret_store := secret_store |}.

Definition provider_api_key (config : SwapProviderConfig) : online (result exn (option string)) :=
  match sp_api_secret_path config, sp_secret_store config with
  | Some path, Some store => secret <- lift_node (store_get_secret store path);; ret_ok (Some (reveal secret))
  | _, _ => ret_ok None
  end.

Definition require_string (payload : dict) (key : string) : result exn string :=
  match get payload key with
  | VStr s => if str_empty (py_strip s)
              then Err (SwapProviderError ("Swap provider response missing string field '" ++ key ++ "'.")) else Ok s
  | _ => Err (SwapProviderError ("Swap provider response missing string field '" ++ key ++ "'."))
  end.

(** [int(s)] of decimal text: only CPython's limit on its length can fail. *)
Definition int_of_decimal (s : string) : result exn Z := match py_int_str s with Some z => Ok z | None => Err int_str_limit end.

Definition require_int (payload : dict) (key : string) : result exn Z :=
  match get payload key with
  | VBool _ => Err (SwapProviderError ("Swap provider response field '" ++ key ++ "' must be an integer."))
  | VInt z => Ok z
  | VStr s => if py_isdecimal s then int_of_decimal s
              else Err (SwapProviderError ("Swap provider response missing integer field '" ++ key ++ "'."))
  | _ => Err (SwapProviderError ("Swap provider response missing integer field '" ++ key ++ "'."))
  end.

Definition optional_int (payload : dict) (key : string) : result exn (option Z) :=
  match get payload key with
  | VNone => Ok None
  | VInt z => Ok (Some z)
  | VStr s => if py_isdecimal s then Some <$> int_of_decimal s
              else Err (SwapProviderError ("Swap provider response field '" ++ key ++ "' must be an integer."))
  | _ => Err (SwapProviderError ("Swap provider response field '" ++ key ++ "' must be an integer."))
  end.

(** * custody/oneclaw.py: [OneClawHttpClient] *)

Record OneClawHttpClient := { oc_base_url : string; oc_api_key : string }.

Definition make_OneClawHttpClient (base_url api_key : string) : result exn OneClawHttpClient :=
  if str_empty (py_strip base_url) then Err (ValueError "1Claw base URL must not be empty.")
  else if str_empty (py_strip api_key) then Err (ValueError "1Claw API key must not be empty.")
  else Ok {| oc_base_url := rstrip_if is_slash base_url; oc_api_key := api_key |}.

(** [response_payload.get(...)] of a body that is no object *)
Definition not_a_dict : exn := Exn ExceptionC "object has no attribute 'get'".

Definition _extract_secret_value (payload : dict) : option string :=
  match get payload "value" with
  | VStr value => Some value
  | _ => match get payload "secret" with VDict secret => as_str (get secret "value") | _ => None end
  end.

Definition _secret_url_path_suffix (path : string) : result exn string :=
  let normalized := lstrip_if is_slash (py_strip path) in
  if str_empty normalized then Err (ValueError "Secret path must not be empty.") else Ok (url_quote "/" normalized).

(** The answer to a read of a secret: the object in the body, an [HTTPError] with its code, or another exception. *)
Inductive http_read : Type :=
| Payload (d : dict)
| HTTPError (status : Z)
| ReadFailed (e : exn).

(** [json.loads(response.read().decode("utf-8"))] and [.get] of it; [unavailable] stands for [OSError], [URLError] and
    [JSONDecodeError]. *)
Definition read_payload (request : http_request) (unavailable : exn) : online http_read :=
  prog_bind (urlopen request) (fun answer =>
    Ret match answer with
        | HttpStatus status _ _ => HTTPError status
        | HttpFailed _ _ | HttpBody _ None => ReadFailed unavailable
        | HttpGarbled => ReadFailed (ValueError "'utf-8' codec can't decode the body")
        | HttpBody _ (Some (VDict d)) => Payload d
        | HttpBody _ (Some _) => ReadFailed not_a_dict
        end).

Section oneclaw.
Context (client : OneClawHttpClient).

Definition _invalidate_access_token (agent_id : string) : online (result exn unit) :=
  Call TokenGet (fun cached =>
    match cached with
    | Some (_, agent) => if String.eqb agent agent_id then Call (TokenPut None) (fun _ => ret_ok tt) else ret_ok tt
    | None => ret_ok tt
    end).

Definition _fetch_access_token (agent_id : string) : online (result exn string) :=
  let unavailable := SecretStoreUnavailableError "agent authentication" "1Claw" None in
  prog_bind (read_payload {| hr_method := "POST"; hr_url := oc_base_url client ++ "/v1/auth/agent-token";
                             hr_headers := [("Content-Type", "application/json")];
                             hr_data := Some (VDict [("agent_id", VStr agent_id); ("api_key", VStr (oc_api_key client))]);
                             hr_timeout := 10 |} unavailable) (fun answer =>
    match answer with
    | HTTPError _ => Ret (Err unavailable)
    | ReadFailed e => Ret (Err e)
    | Payload payload =>
        match get payload "access_token" with
        | VStr token =>
            if str_empty (py_strip token) then Ret (Err unavailable) else
            Call (TokenPut (Some (py_strip token, agent_id))) (fun _ => ret_ok (py_strip token))
        | _ => Ret (Err unavailable)
        end
    end).

Definition _bearer_for_agent (agent_id : string) : online (result exn string) :=
  Call TokenGet (fun cached =>
    match cached with
    | Some (token, agent) =>
        if negb (str_empty token) && String.eqb agent agent_id then ret_ok token else _fetch_access_token agent_id
    | None => _fetch_access_token agent_id
    end).

(** What reading a secret leads to: its value or an exception, or an [HTTPError] for the caller to handle. *)
Definition _http_get_secret_value (vault_id path bearer : string) : online (result exn (string + Z)) :=
  suffix <- pure (_secret_url_path_suffix path);;
  prog_bind (read_payload {| hr_method := "GET"; hr_url := oc_base_url client ++ "/v1/vaults/" ++ vault_id ++ "/secrets/" ++ suffix;
                             hr_headers := [("Authorization", "Bearer " ++ bearer)]; hr_data := None; hr_timeout := 10 |}
                          (SecretStoreUnavailableError path "1Claw" None)) (fun answer =>
    Ret match answer with
        | HTTPError status => Ok (inr status)
        | ReadFailed e => Err e
        | Payload d => match _extract_secret_value d with Some value => Ok (inl value) | None => Err (SecretNotFoundError path) end
        end).

Definition FORBIDDEN : string :=
  "HTTP 403 Forbidden — the agent token is valid but this principal is not allowed to read that vault or secret path. In 1Claw, grant the agent access to the vault, confirm MERCURY_ONECLAW_VAULT_ID, and that the secret path exists for that vault.".

(** [HTTPError] of urllib, an [OSError], as it escapes from the second read *)
Definition http_error (status : Z) : exn := Exn OSErrorC ("HTTP Error " ++ py_str_int status).

Definition _get_secret_hosted (vault_id path agent_id : string) : online (result exn string) :=
  bearer <- _bearer_for_agent agent_id;;
  first <- _http_get_secret_value vault_id path bearer;;
  match first with
  | inl value => ret_ok value
  | inr status =>
      if status =? 401 then
        _ <- _invalidate_access_token agent_id;;
        bearer <- _bearer_for_agent agent_id;;
        second <- _http_get_secret_value vault_id path bearer;;
        Ret match second with inl value => Ok value | inr status => Err (http_error status) end
      else Ret (Err (if status =? 404 then SecretNotFoundError path
                     else SecretStoreUnavailableError path "1Claw" (if status =? 403 then Some FORBIDDEN else None)))
  end.

Definition _get_secret_legacy_resolve (vault_id path : string) : online (result exn string) :=
  prog_bind (read_payload {| hr_method := "POST"; hr_url := oc_base_url client ++ "/v1/vaults/" ++ vault_id ++ "/secrets:resolve";
                             hr_headers := [("Authorization", "Bearer " ++ oc_api_key client); ("Content-Type", "application/json")];
                             hr_data := Some (VDict [("path", VStr path)]); hr_timeout := 10 |}
                          (SecretStoreUnavailableError path "1Claw" None)) (fun answer =>
    Ret match answer with
        | HTTPError status => Err (if status =? 404 then SecretNotFoundError path else SecretStoreUnavailableError path "1Claw" None)
        | ReadFailed e => Err e
        | Payload d => match _extract_secret_value d with Some value => Ok value | None => Err (SecretNotFoundError path) end
        end).

(** [OneClawHttpClient.get_secret] *)
Definition client_get_secret (vault_id path : string) (agent_id : option string) : online (result exn string) :=
  match py_strip <$> agent_id with
  | Some (String _ _ as agent) => _get_secret_hosted vault_id path agent
  | _ => _get_secret_legacy_resolve vault_id path
  end.

(** The secret reads of a program sent over HTTP. *)
Definition over_http (c : web) : online (ans c) :=
  match c return online (ans c) with
  | NodeIO (ClientGetSecret vault_id path agent_id) => prog_bind (client_get_secret vault_id path agent_id) (fun r => Ret (Some <$> r))
  | c => Call c Ret
  end.
End oneclaw.

Example quote_space : url_quote "/" "mercury/my key" = "mercury/my%20key".
Proof. reflexivity. Qed.
Example query : urlencode [("slippage", VNone); ("q", VStr "a b")] = "slippage=None&q=a+b".
Proof. reflexivity. Qed.
