(* ===== verification/AlchemyClients.v ===== *)
(** The HTTP requests of the Alchemy clients ([fetch_prices_by_address], [fetch_tokens_for_wallet],
    [fetch_transfers_for_wallet] of [mercury/alchemy/]): the checks before a request, the secret key, the request, and
    what is read from the answer. *)
From stdpp Require Import base tactics option list sets strings.
From Stdlib Require Import ZArith Lia Ascii String.
From S2P Require Import Prelude Python Values Exceptions Addresses Chains Models Prog Effects Networks ReadIntents Alchemy.
From S2P Require Import Io Custody Web Http.

Local Open Scope string_scope.
Local Open Scope Z_scope.
Local Open Scope prog_scope.

(** The validation errors of the three clients. *)
Definition AlchemyTokenPricesValidationError (text : string) : exn := Exn AlchemyValidationErrorC text.
Definition AlchemyPortfolioValidationError (text : string) : exn := Exn AlchemyValidationErrorC text.

Definition ALCHEMY_PRICES_BASE_URL : string := "https://api.g.alchemy.com".
Definition ALCHEMY_DATA_BASE_URL : string := "https://api.g.alchemy.com".
Definition MAX_TOKEN_ADDRESS_ENTRIES : nat := 25.
Definition MAX_DISTINCT_NETWORKS : nat := 3.
Definition MAX_NETWORKS_PER_ADDRESS : nat := 5.

Definition count_text (n : nat) : string := py_str_int (Z.of_nat n).

(** A client: [secret_store], [api_key_secret_path], and the default [http]. *)
Record AlchemyClient := { ac_secret_store : OneClawSecretStore; ac_api_key_secret_path : string }.

Section client.
Context {W : Web3} (settings : MercurySettings) (client : AlchemyClient).

(** The key is read for every request; a blank one is refused. *)
Definition alchemy_api_key : online (result exn string) :=
  secret <- lift_node (store_get_secret (ac_secret_store client) (ac_api_key_secret_path client));;
  let api_key := py_strip (reveal secret) in
  Ret (if str_empty api_key
       then Err (Exn AlchemyValidationErrorC ("Alchemy API key secret at path '" ++ ac_api_key_secret_path client ++ "' is empty."))
       else Ok api_key).

(** [try: r except UnknownAlchemyNetworkError as exc: raise AlchemyValidationError(str(exc))] *)
Definition network_or_error (name : string) : result exn string :=
  match mercury_chain_to_alchemy_network name with
  | Ok network => Ok network
  | Err exc => if has_class UnknownAlchemyNetworkErrorC exc then Err (Exn AlchemyValidationErrorC (exn_text exc)) else Err exc
  end.

(** A chain of the registry, or the client's error. *)
Definition chain_or_error (name unsupported : string) : result exn ChainConfig :=
  match get_chain_by_name settings name with
  | Ok c => Ok c
  | Err exc => if has_class UnsupportedChainErrorC exc then Err (Exn AlchemyValidationErrorC unsupported) else Err exc
  end.

(** * prices.py *)

(** The networks of the chains of a batch. *)
Fixpoint networks_of (entries : list (string * string)) : result exn (list string) :=
  match entries with
  | [] => Ok []
  | (c, _) :: entries' => n ← mercury_chain_to_alchemy_network c; ns ← networks_of entries'; Ok (n :: ns)
  end.

Definition _validate_batch (entries : list (string * string)) : result exn unit :=
  if (MAX_TOKEN_ADDRESS_ENTRIES <? List.length entries)%nat
  then Err (AlchemyTokenPricesValidationError
              ("Alchemy token prices allow at most 25 address entries; got " ++ count_text (List.length entries) ++ ".")) else
  networks ← networks_of entries;
  let distinct := List.length (remove_dups networks) in
  raise_if (MAX_DISTINCT_NETWORKS <? distinct)%nat
    (AlchemyTokenPricesValidationError
       ("Alchemy token prices allow at most 3 distinct networks per request; got " ++ count_text distinct ++ ".")).

(** [cleaned] and [network_for_chain] *)
Fixpoint clean_entries (entries : list (string * string)) (network_for_chain : list (string * string))
    : result exn (list (string * string) * list (string * string)) :=
  match entries with
  | [] => Ok ([], network_for_chain)
  | (chain_name, addr) :: entries' =>
      let c := py_fold chain_name in
      a ← normalize_evm_address addr;
      network ← mercury_chain_to_alchemy_network c;
      rest ← clean_entries entries' (dict_set network_for_chain c network);
      Ok ((c, a) :: rest.1, rest.2)
  end.

Definition fetch_prices_by_address (entries : list (string * string)) : online (result exn dict) :=
  cleaned <- pure (clean_entries entries []);;
  let '(cleaned, network_for_chain) := cleaned in
  _ <- pure (_validate_batch cleaned);;
  api_key <- alchemy_api_key;;
  let mercury_by_network := dict_update [] (map (fun kv => (kv.2, kv.1)) network_for_chain) in
  let body_addresses :=
    map (fun e => VDict [("network", VStr (default "" (dict_get network_for_chain e.1))); ("address", VStr e.2)]) cleaned in
  http <- pure (UrllibJsonHttpClient ALCHEMY_PRICES_BASE_URL);;
  response <- post_json http ("prices/v1/" ++ api_key ++ "/tokens/by-address") [("addresses", VList body_addresses)] [];;
  ret_ok [("tokens", VList (normalize_token_price_rows (get response "data") mercury_by_network))].

(** * portfolio.py *)

Definition _validate_network_list (mercury_chains : list string) : result exn unit :=
  if (MAX_NETWORKS_PER_ADDRESS <? List.length mercury_chains)%nat
  then Err (AlchemyPortfolioValidationError
              ("Alchemy portfolio allows at most 5 networks per wallet; got " ++ count_text (List.length mercury_chains) ++ "."))
  else match mercury_chains with
       | [] => Err (AlchemyPortfolioValidationError "Portfolio request requires at least one network.")
       | _ => Ok tt
       end.

(** The distinct chains asked for, with their networks. *)
Fixpoint clean_chains (mercury_chains seen : list string) : result exn (list (string * string)) :=
  match mercury_chains with
  | [] => Ok []
  | c :: mercury_chains' =>
      let name := py_fold c in
      if str_empty name || bool_decide (name ∈ seen) then clean_chains mercury_chains' seen else
      _ ← chain_or_error name ("Unsupported Mercury chain '" ++ c ++ "' for portfolio lookup.");
      network ← network_or_error name;
      rest ← clean_chains mercury_chains' (name :: seen);
      Ok ((name, network) :: rest)
  end.

(** [value.strip()] of text that is not blank *)
Definition nonblank (v : pyval) : pyval :=
  match v with VStr s => if str_empty (py_strip s) then VNone else VStr (py_strip s) | _ => VNone end.

Definition fetch_tokens_for_wallet (wallet_address : string) (mercury_chains : list string)
    (with_metadata with_prices include_native_tokens include_erc20_tokens : bool) (page_key : option string)
    : online (result exn dict) :=
  if (MAX_NETWORKS_PER_ADDRESS <? List.length mercury_chains)%nat
  then Ret (Err (AlchemyPortfolioValidationError
                   ("Alchemy portfolio allows at most 5 networks per wallet; got " ++ count_text (List.length mercury_chains) ++ "."))) else
  wallet <- pure (normalize_evm_address wallet_address);;
  chains <- pure (clean_chains mercury_chains []);;
  _ <- pure (_validate_network_list (map fst chains));;
  api_key <- alchemy_api_key;;
  let body := ([("addresses", VList [VDict [("address", VStr wallet); ("networks", VList (map (fun c => VStr c.2) chains))]]);
                ("withMetadata", VBool with_metadata); ("withPrices", VBool with_prices);
                ("includeNativeTokens", VBool include_native_tokens); ("includeErc20Tokens", VBool include_erc20_tokens)]
               ++ page_param page_key)%list in
  http <- pure (UrllibJsonHttpClient ALCHEMY_DATA_BASE_URL);;
  response <- post_json http ("data/v1/" ++ api_key ++ "/assets/tokens/by-address") body [];;
  let data := match get response "data" with VDict data => data | _ => [] end in
  tokens <- pure (normalize_portfolio_token_rows (dict_rows (get data "tokens")) wallet);;
  ret_ok [("wallet_address", VStr wallet); ("tokens", VList tokens); ("page_key", nonblank (get data "pageKey"))].

(** * transfers.py *)

Definition _parse_rpc_result (raw : dict) : result exn (pyval * pyval) :=
  match get raw "error" with
  | VDict err =>
      Err (AlchemyTransfersValidationError (match get err "message" with VNone => py_str (VDict err) | msg => py_str msg end))
  | _ =>
      match get raw "result" with
      | VDict result =>
          Ok (match get result "transfers" with VList l => VList l | _ => VList [] end, nonblank (get result "pageKey"))
      | _ => Err (AlchemyTransfersValidationError "Alchemy transfer history response missing result object.")
      end
  end.

Definition transfers_answer (wallet name network : string) (transfers : list dict) (page_key : pyval) : dict :=
  [("wallet_address", VStr wallet); ("mercury_chain", VStr name); ("network", VStr network);
   ("transfers", VList (map VDict transfers)); ("page_key", page_key)].

Definition fetch_transfers_for_wallet (mercury_chain wallet_address direction : string) (categories : list string)
    (from_block to_block : option block_ref) (max_count : Z) (page_key : option string)
    (with_metadata exclude_zero_value : bool) : online (result exn dict) :=
  let name := py_fold mercury_chain in
  _ <- pure (chain_or_error name ("Unsupported Mercury chain '" ++ mercury_chain ++ "' for transfer history."));;
  network <- pure (network_or_error name);;
  wallet <- pure (normalize_evm_address wallet_address);;
  let dir_norm := py_fold direction in
  api_key <- alchemy_api_key;;
  http <- pure (UrllibJsonHttpClient ("https://" ++ network ++ ".g.alchemy.com/v2"));;
  let params leg page_key := build_asset_transfer_params wallet leg categories from_block to_block max_count page_key
                               with_metadata exclude_zero_value in
  let fetch params := post_json http api_key (_rpc_request_body params) [] in
  if String.eqb dir_norm "both" then
    outgoing_params <- pure (params OUTGOING None);;
    incoming_params <- pure (params INCOMING None);;
    raw_a <- fetch outgoing_params;;
    raw_b <- fetch incoming_params;;
    transfers_a <- pure (_parse_rpc_result raw_a);;
    transfers_b <- pure (_parse_rpc_result raw_b);;
    let merged := (normalize_asset_transfer_rows transfers_a.1 network ++ normalize_asset_transfer_rows transfers_b.1 network)%list in
    ret_ok (transfers_answer wallet name network (_merge_and_sort_transfers merged max_count) VNone)
  else if negb (String.eqb dir_norm "incoming" || String.eqb dir_norm "outgoing") then
    Ret (Err (AlchemyTransfersValidationError
                ("direction must be incoming, outgoing, or both; got " ++ py_repr_str direction ++ ".")))
  else
    params <- pure (params (if String.eqb dir_norm "incoming" then INCOMING else OUTGOING) page_key);;
    raw <- fetch params;;
    parsed <- pure (_parse_rpc_result raw);;
    ret_ok (transfers_answer wallet name network (normalize_asset_transfer_rows parsed.1 network) parsed.2).
End client.
