(* ===== verification/Tools.v ===== *)
(** The read-only tools: their inputs ([mercury/tools/schemas.py]), the reads ([tools/evm.py] and the wrappers of
    [tools/erc20.py], [known_address_tools.py], [token_prices.py], [portfolio_tokens.py], [transfer_history.py]) and the
    registry that holds them ([tools/__init__.py], [tools/registry.py]).

    A [StructuredTool] validates its input with its schema, which langchain derives from the function where the source
    gives none, and calls its function with the validated fields. *)
From stdpp Require Import base tactics option list sets strings.
From Stdlib Require Import ZArith Lia Ascii String.
From S2P Require Import Prelude Python Values Exceptions Amounts Redaction Errors Addresses Chains Models SwapModels Prog Effects.
From S2P Require Import Erc20 Intents Networks ReadIntents Alchemy ReadGraph Io Custody Web Http AlchemyClients.

Local Open Scope string_scope.
Local Open Scope Z_scope.
Local Open Scope validation_scope.
Local Open Scope prog_scope.

(** * schemas.py: the inputs *)

Record NativeBalanceInput := { nbi_chain : string; nbi_wallet_address : string }.
Record ERC20MetadataInput := { emi_chain : string; emi_token_address : string }.
Record ERC20BalanceInput := { ebi_chain : string; ebi_token_address : string; ebi_wallet_address : string }.
Record ERC20AllowanceInput := {
  eai_chain : string; eai_token_address : string; eai_owner_address : string; eai_spender_address : string
}.
Record ContractReadInput := {
  cri_chain : string; cri_contract_address : string; cri_abi_fragment : list dict; cri_function_name : string;
  cri_args : list pyval
}.
Record TokenPriceRequestItem := { tri_chain : string; tri_token_address : string }.
Record PortfolioTokensToolInput := {
  pti_wallet_address : string; pti_chains : list string; pti_with_metadata : bool; pti_with_prices : bool;
  pti_include_native_tokens : bool; pti_include_erc20_tokens : bool; pti_page_key : option string
}.
Record TransferHistoryToolInput := {
  thi_chain : string; thi_wallet_address : string; thi_direction : string; thi_categories : option (list string);
  thi_from_block : option block_ref; thi_to_block : option block_ref; thi_max_count : Z; thi_page_key : option string;
  thi_with_metadata : bool; thi_exclude_zero_value : bool
}.

Section schemas.
Context {W : Web3} {P : PydanticLax}.

(** [ChainInput.normalize_chain]: the name may still be blank. *)
Definition chain_input (d : dict) : V string := str_field d "chain" v_chain.

Definition NativeBalanceInput_validate (d : dict) : result exn NativeBalanceInput :=
  v_model "NativeBalanceInput"
    ((fun '(a, b) => {| nbi_chain := a; nbi_wallet_address := b |}) <$> (chain_input d ⊛ address_field d "wallet_address"))
    no_after.

Definition ERC20MetadataInput_validate (d : dict) : result exn ERC20MetadataInput :=
  v_model "ERC20MetadataInput"
    ((fun '(a, b) => {| emi_chain := a; emi_token_address := b |}) <$> (chain_input d ⊛ address_field d "token_address"))
    no_after.

Definition ERC20BalanceInput_validate (d : dict) : result exn ERC20BalanceInput :=
  v_model "ERC20BalanceInput"
    ((fun '(a, b, c) => {| ebi_chain := a; ebi_token_address := b; ebi_wallet_address := c |}) <$>
       (chain_input d ⊛ address_field d "token_address" ⊛ address_field d "wallet_address"))
    no_after.

Definition ERC20AllowanceInput_validate (d : dict) : result exn ERC20AllowanceInput :=
  v_model "ERC20AllowanceInput"
    ((fun '(a, b, c, e) => {| eai_chain := a; eai_token_address := b; eai_owner_address := c; eai_spender_address := e |}) <$>
       (chain_input d ⊛ address_field d "token_address" ⊛ address_field d "owner_address"
        ⊛ address_field d "spender_address"))
    no_after.

Definition ContractReadInput_validate (d : dict) : result exn ContractReadInput :=
  v_model "ContractReadInput"
    ((fun '(a, b, c, e, f) => {| cri_chain := a; cri_contract_address := b; cri_abi_fragment := c; cri_function_name := e;
                                 cri_args := f |}) <$>
       (chain_input d ⊛ address_field d "contract_address"
        ⊛ req d "abi_fragment" (fun v => conv_list conv_dict "abi_fragment" v ≫= v_nonempty_list "abi_fragment")
        ⊛ str_field d "function_name" nonempty
        ⊛ dflt d "args" (conv_list conv_any "args") []))
    no_after.

Definition TokenPriceRequestItem_validate (v : pyval) : result exn TokenPriceRequestItem :=
  match v with
  | VDict d =>
      v_model "TokenPriceRequestItem"
        ((fun '(a, b) => {| tri_chain := a; tri_token_address := b |}) <$>
           (str_field d "chain" v_entry_chain ⊛ address_field d "token_address"))
        no_after
  | _ => Err (ValidationError "TokenPriceRequestItem"
                [PydError [] "Input should be a valid dictionary or instance of TokenPriceRequestItem"])
  end.

Definition validate_batch_limits (value : list TokenPriceRequestItem) : result exn (list TokenPriceRequestItem) :=
  if (25 <? List.length value)%nat then Err (ValueError "token_prices supports at most 25 token entries per request.")
  else if (3 <? distinct_count (map tri_chain value))%nat
  then Err (ValueError "token_prices supports at most 3 distinct chains per request.") else Ok value.

Definition TokenPricesToolInput_validate (d : dict) : result exn (list TokenPriceRequestItem) :=
  v_model "TokenPricesToolInput"
    (req d "tokens" (fun v => items ← conv_list (fun i v => nest i (TokenPriceRequestItem_validate v)) "tokens" v;
                              l ← v_nonempty_list "tokens" items; vfield "tokens" (validate_batch_limits l)))
    no_after.

Definition PORTFOLIO_MAX_CHAINS_PER_REQUEST : nat := 5.
Definition TRANSFER_HISTORY_MAX_COUNT : Z := 1000.

Definition v_max_list {A} (loc : string) (n : nat) (l : list A) : V (list A) :=
  if (n <? List.length l)%nat
  then verr loc ("List should have at most " ++ count_text n ++ " items after validation, not " ++ count_text (List.length l))
  else Ok l.

Definition normalize_chains (value : list string) : result exn (list string) :=
  match resolve_chain_names value [] with
  | [] => Err (ValueError "chains must include at least one non-empty chain name.")
  | out => if (PORTFOLIO_MAX_CHAINS_PER_REQUEST <? List.length out)%nat
           then Err (ValueError "portfolio_tokens supports at most 5 distinct chains per request.") else Ok out
  end.

Definition PortfolioTokensToolInput_validate (d : dict) : result exn PortfolioTokensToolInput :=
  v_model "PortfolioTokensToolInput"
    ((fun '(a, b, c, e, f, g, h) =>
        {| pti_wallet_address := a; pti_chains := b; pti_with_metadata := c; pti_with_prices := e;
           pti_include_native_tokens := f; pti_include_erc20_tokens := g; pti_page_key := h |}) <$>
       (address_field d "wallet_address"
        ⊛ req d "chains" (fun v => names ← conv_list conv_str "chains" v; l ← v_nonempty_list "chains" names;
                                   l ← v_max_list "chains" PORTFOLIO_MAX_CHAINS_PER_REQUEST l;
                                   vfield "chains" (normalize_chains l))
        ⊛ bool_field d "with_metadata" true ⊛ bool_field d "with_prices" true
        ⊛ bool_field d "include_native_tokens" true ⊛ bool_field d "include_erc20_tokens" true ⊛ page_key_field d))
    no_after.

Definition _normalize_direction_categories_page (i : TransferHistoryToolInput) : result exn TransferHistoryToolInput :=
  match dict_get direction_aliases (py_fold (thi_direction i)) with
  | None => Err (ValueError "direction must be incoming, outgoing, or both.")
  | Some dir_norm =>
      resolved ← resolve_categories (thi_categories i);
      Ok {| thi_chain := thi_chain i; thi_wallet_address := thi_wallet_address i; thi_direction := dir_norm;
            thi_categories := Some resolved; thi_from_block := thi_from_block i; thi_to_block := thi_to_block i;
            thi_max_count := thi_max_count i;
            thi_page_key := if String.eqb dir_norm "both" then None else thi_page_key i;
            thi_with_metadata := thi_with_metadata i; thi_exclude_zero_value := thi_exclude_zero_value i |}
  end.

Definition TransferHistoryToolInput_validate (d : dict) : result exn TransferHistoryToolInput :=
  v_model_with "TransferHistoryToolInput"
    ((fun '(a, b, c, e, f, g, h, i, j, k) =>
        {| thi_chain := a; thi_wallet_address := b; thi_direction := c; thi_categories := e; thi_from_block := f;
           thi_to_block := g; thi_max_count := h; thi_page_key := i; thi_with_metadata := j; thi_exclude_zero_value := k |}) <$>
       (str_field d "chain" v_entry_chain ⊛ address_field d "wallet_address"
        ⊛ dflt d "direction" (conv_str "direction") "both" ⊛ optional d "categories" (conv_list conv_str "categories")
        ⊛ optional d "from_block" (conv_block "from_block") ⊛ optional d "to_block" (conv_block "to_block")
        ⊛ dflt d "max_count" (fun v => n ← conv_int "max_count" v; n ← v_ge "max_count" 1 n;
                                       v_le "max_count" TRANSFER_HISTORY_MAX_COUNT n) 100
        ⊛ page_key_field d ⊛ bool_field d "with_metadata" true ⊛ bool_field d "exclude_zero_value" true))
    _normalize_direction_categories_page.
End schemas.

(** * evm.py *)

Definition READ_ONLY_MUTABILITY : list string := ["view"; "pure"].

(** The entries of the ABI for a function of a name. *)
Definition matching_entries (abi : list dict) (function_name : string) : list dict :=
  List.filter (fun entry => eq_str (get_default entry "type" (VStr "function")) "function" && eq_str (get entry "name") function_name) abi.

Definition _validate_read_only_function (abi : list dict) (function_name : string) : result exn unit :=
  match matching_entries abi function_name with
  | [] => Err (ValueError ("Function '" ++ function_name ++ "' was not found in the ABI fragment."))
  | entry :: _ =>
      let not_read_only := ValueError ("Function '" ++ function_name ++ "' is not read-only.") in
      _ ← raise_if match get entry "stateMutability" with
                   | VStr m => negb (bool_decide (m ∈ READ_ONLY_MUTABILITY))
                   | _ => false
                   end not_read_only;
      raise_if (is_false (get entry "constant")) not_read_only
  end.

Record NativeBalanceOutput := {
  nbo_chain : string; nbo_chain_id : Z; nbo_wallet_address : string; nbo_raw_wei : Z; nbo_formatted : string; nbo_symbol : string
}.
Record ContractReadOutput := {
  cro_chain : string; cro_chain_id : Z; cro_contract_address : string; cro_function_name : string; cro_result : pyval
}.

Section reads.
Context {W : Web3} {P : PydanticLax} (settings : MercurySettings) (store : OneClawSecretStore).

Definition create_web3_provider (chain : string) : online (result exn Web3Provider) :=
  lift_node (Web3ProviderFactory_create settings store chain).

Definition get_native_balance (chain wallet_address : string) : online (result exn NativeBalanceOutput) :=
  normalized_wallet <- pure (normalize_evm_address wallet_address);;
  provider <- create_web3_provider chain;;
  raw_wei <- lift_node (get_balance (wp_rpc_url provider) normalized_wallet);;
  formatted <- pure (format_units raw_wei 18);;
  ret_ok {| nbo_chain := cc_name (wp_chain provider); nbo_chain_id := cc_chain_id (wp_chain provider);
            nbo_wallet_address := normalized_wallet; nbo_raw_wei := raw_wei; nbo_formatted := formatted;
            nbo_symbol := cc_native_symbol (wp_chain provider) |}.

Definition read_contract (chain contract_address : string) (abi_fragment : list dict) (function_name : string)
    (args : list pyval) : online (result exn ContractReadOutput) :=
  normalized_contract <- pure (normalize_evm_address contract_address);;
  _ <- pure (_validate_read_only_function abi_fragment function_name);;
  provider <- create_web3_provider chain;;
  res <- Call (CallFunction (wp_rpc_url provider) normalized_contract abi_fragment function_name args) Ret;;
  ret_ok {| cro_chain := cc_name (wp_chain provider); cro_chain_id := cc_chain_id (wp_chain provider);
            cro_contract_address := normalized_contract; cro_function_name := function_name; cro_result := res |}.

(** [model_dump()] of the outputs *)
Definition native_balance_dump (o : NativeBalanceOutput) : dict :=
  [("chain", VStr (nbo_chain o)); ("chain_id", VInt (nbo_chain_id o)); ("wallet_address", VStr (nbo_wallet_address o));
   ("raw_wei", VInt (nbo_raw_wei o)); ("formatted", VStr (nbo_formatted o)); ("symbol", VStr (nbo_symbol o))].
Definition contract_read_dump (o : ContractReadOutput) : dict :=
  [("chain", VStr (cro_chain o)); ("chain_id", VInt (cro_chain_id o)); ("contract_address", VStr (cro_contract_address o));
   ("function_name", VStr (cro_function_name o)); ("result", cro_result o)].
Definition metadata_dump (o : ERC20MetadataOutput) : dict :=
  [("chain", VStr (Erc20.em_chain o)); ("chain_id", VInt (Erc20.em_chain_id o)); ("token_address", VStr (Erc20.em_token_address o));
   ("decimals", VInt (Erc20.em_decimals o)); ("symbol", of_opt_str (Erc20.em_symbol o)); ("name", of_opt_str (Erc20.em_name o))].
Definition balance_dump (o : ERC20BalanceOutput) : dict :=
  [("chain", VStr (Erc20.eb_chain o)); ("chain_id", VInt (Erc20.eb_chain_id o)); ("token_address", VStr (Erc20.eb_token_address o));
   ("wallet_address", VStr (Erc20.eb_wallet_address o)); ("raw_amount", VInt (Erc20.eb_raw_amount o)); ("formatted", VStr (Erc20.eb_formatted o));
   ("decimals", VInt (Erc20.eb_decimals o)); ("symbol", of_opt_str (Erc20.eb_symbol o)); ("name", of_opt_str (Erc20.eb_name o))].
Definition allowance_dump (o : ERC20AllowanceOutput) : dict :=
  [("chain", VStr (Erc20.el_chain o)); ("chain_id", VInt (Erc20.el_chain_id o)); ("token_address", VStr (Erc20.el_token_address o));
   ("owner_address", VStr (Erc20.el_owner_address o)); ("spender_address", VStr (Erc20.el_spender_address o));
   ("raw_amount", VInt (Erc20.el_raw_amount o)); ("formatted", VStr (Erc20.el_formatted o)); ("decimals", VInt (Erc20.el_decimals o));
   ("symbol", of_opt_str (Erc20.el_symbol o)); ("name", of_opt_str (Erc20.el_name o))].

(** * The tools *)

(** [StructuredTool.invoke]: the schema, then the function; its result as a value. *)
Definition structured {A} (schema : dict -> result exn A) (func : A -> online (result exn dict))
    : dict -> online (result exn pyval) :=
  fun tool_input => args <- pure (schema tool_input);; out <- func args;; ret_ok (VDict out).

Definition create_evm_tools : list (@tool web _) := [
  ("get_native_balance", structured NativeBalanceInput_validate (fun i =>
     o <- get_native_balance (nbi_chain i) (nbi_wallet_address i);; ret_ok (native_balance_dump o)));
  ("read_contract", structured ContractReadInput_validate (fun i =>
     o <- read_contract (cri_chain i) (cri_contract_address i) (cri_abi_fragment i) (cri_function_name i) (cri_args i);;
     ret_ok (contract_read_dump o)))].

(** The reads of [tools/erc20.py] go through the provider calls of [Effects]. *)
Definition create_erc20_tools : list (@tool web _) := [
  ("get_erc20_metadata", structured ERC20MetadataInput_validate (fun i =>
     o <- lift_wallet (get_erc20_metadata (emi_chain i) (emi_token_address i));; ret_ok (metadata_dump o)));
  ("get_erc20_balance", structured ERC20BalanceInput_validate (fun i =>
     o <- lift_wallet (get_erc20_balance (ebi_chain i) (ebi_token_address i) (ebi_wallet_address i));;
     ret_ok (balance_dump o)));
  ("get_erc20_allowance", structured ERC20AllowanceInput_validate (fun i =>
     o <- lift_wallet (get_erc20_allowance (eai_chain i) (eai_token_address i) (eai_owner_address i) (eai_spender_address i));;
     ret_ok (allowance_dump o)))].

(** The schemas langchain derives from the signatures. *)
Definition known_address_args (d : dict) : result exn (string * KnownCategory * string) :=
  v_model "resolve_known_address"
    (str_field d "chain" (fun _ s => Ok s) ⊛ req d "category" (conv_category "category") ⊛ str_field d "key" (fun _ s => Ok s))
    no_after.

Definition create_known_address_tools : list (@tool web _) := [
  ("resolve_known_address", structured known_address_args (fun '(chain, category, key) =>
     pure (resolve_known_address chain category key)))].

Definition token_prices_args (d : dict) : result exn dict :=
  v_model "get_token_prices"
    ((fun l => [("tokens", VList (map VDict l))]) <$> req d "tokens" (conv_list conv_dict "tokens")) no_after.

Definition get_token_prices (client : AlchemyClient) (tokens : dict) : online (result exn dict) :=
  parsed <- pure (TokenPricesToolInput_validate tokens);;
  fetch_prices_by_address client (map (fun e => (tri_chain e, tri_token_address e)) parsed).

Definition create_alchemy_token_prices_tool (client : AlchemyClient) : @tool web _ :=
  ("get_token_prices", structured token_prices_args (get_token_prices client)).

Definition portfolio_tokens_args (d : dict) : result exn dict :=
  v_model "get_portfolio_tokens"
    ((fun '(a, b, c, e, f, g, h) =>
        [("wallet_address", VStr a); ("chains", VList (map VStr b)); ("with_metadata", VBool c); ("with_prices", VBool e);
         ("include_native_tokens", VBool f); ("include_erc20_tokens", VBool g); ("page_key", of_opt_str h)]) <$>
       (str_field d "wallet_address" (fun _ s => Ok s) ⊛ req d "chains" (conv_list conv_str "chains")
        ⊛ bool_field d "with_metadata" true ⊛ bool_field d "with_prices" true
        ⊛ bool_field d "include_native_tokens" true ⊛ bool_field d "include_erc20_tokens" true
        ⊛ optional d "page_key" (conv_str "page_key")))
    no_after.

Definition get_portfolio_tokens (client : AlchemyClient) (d : dict) : online (result exn dict) :=
  parsed <- pure (PortfolioTokensToolInput_validate d);;
  fetch_tokens_for_wallet settings client (pti_wallet_address parsed) (pti_chains parsed) (pti_with_metadata parsed)
    (pti_with_prices parsed) (pti_include_native_tokens parsed) (pti_include_erc20_tokens parsed) (pti_page_key parsed).

Definition create_alchemy_portfolio_tokens_tool (client : AlchemyClient) : @tool web _ :=
  ("get_portfolio_tokens", structured portfolio_tokens_args (get_portfolio_tokens client)).

Definition transfer_history_args (d : dict) : result exn dict :=
  v_model "get_transfer_history"
    ((fun '(a, b, c, e, f, g, h, i, j, k) =>
        [("chain", VStr a); ("wallet_address", VStr b); ("direction", VStr c); ("categories", of_opt_list e);
         ("from_block", of_opt_block f); ("to_block", of_opt_block g); ("max_count", VInt h); ("page_key", of_opt_str i);
         ("with_metadata", VBool j); ("exclude_zero_value", VBool k)]) <$>
       (str_field d "chain" (fun _ s => Ok s) ⊛ str_field d "wallet_address" (fun _ s => Ok s)
        ⊛ dflt d "direction" (conv_str "direction") "both" ⊛ optional d "categories" (conv_list conv_str "categories")
        ⊛ optional d "from_block" (conv_block "from_block") ⊛ optional d "to_block" (conv_block "to_block")
        ⊛ dflt d "max_count" (conv_int "max_count") 100 ⊛ optional d "page_key" (conv_str "page_key")
        ⊛ bool_field d "with_metadata" true ⊛ bool_field d "exclude_zero_value" true))
    no_after.

Definition get_transfer_history (client : AlchemyClient) (d : dict) : online (result exn dict) :=
  parsed <- pure (TransferHistoryToolInput_validate d);;
  fetch_transfers_for_wallet settings client (thi_chain parsed) (thi_wallet_address parsed) (thi_direction parsed)
    (default [] (thi_categories parsed)) (thi_from_block parsed) (thi_to_block parsed) (thi_max_count parsed)
    (thi_page_key parsed) (thi_with_metadata parsed) (thi_exclude_zero_value parsed).

Definition create_alchemy_transfer_history_tool (client : AlchemyClient) : @tool web _ :=
  ("get_transfer_history", structured transfer_history_args (get_transfer_history client)).

(** [create_readonly_tools] *)
Definition create_readonly_tools : list (@tool web _) :=
  (create_evm_tools ++ create_erc20_tools ++ create_known_address_tools)%list.

(** [ReadOnlyToolRegistry.from_provider_factory] *)
Definition from_provider_factory (alchemy_prices alchemy_portfolio alchemy_transfers : option AlchemyClient)
    : @ReadOnlyToolRegistry web _ :=
  make_ReadOnlyToolRegistry
    (create_readonly_tools ++ option_list (create_alchemy_token_prices_tool <$> alchemy_prices) ++
     option_list (create_alchemy_portfolio_tokens_tool <$> alchemy_portfolio) ++
     option_list (create_alchemy_transfer_history_tool <$> alchemy_transfers))%list.
End reads.
