(* ===== verification/Floats.v ===== *)
(** Python floats as far as the swap adapters use them, and [datetime.fromtimestamp]. *)
From stdpp Require Import base tactics option list sets strings.
From Stdlib Require Import ZArith Lia Ascii String.
From S2P Require Import Prelude Python Values Exceptions Amounts Addresses Chains Models SwapModels Swaps.

Local Open Scope string_scope.
Local Open Scope Z_scope.

(** * Binary floating point: [m * 2^e] with 53 bits *)

Inductive pyfloat : Type :=
| Finite (m e : Z)
| Infinite (neg : bool)
| NotANumber.

(** [n / d] rounded to an integer, ties to even. *)
Definition div_half_even (n d : Z) : Z :=
  let q := n / d in
  let r := 2 * (n mod d) in
  if r <? d then q else if d <? r then q + 1 else if Z.even q then q else q + 1.

(** The double nearest to [n / d], [d] positive. *)
Definition float_of_ratio (n d : Z) : pyfloat :=
  if n =? 0 then Finite 0 0 else
  let a := Z.abs n in
  let l := Z.log2 a - Z.log2 d in
  (* the exponent of the leading bit *)
  let top := if (if 0 <=? l then d * 2 ^ l <=? a else d <=? a * 2 ^ (- l)) then l else l - 1 in
  let e := Z.max (top - 52) (-1074) in
  let m := if 0 <=? e then div_half_even a (d * 2 ^ e) else div_half_even (a * 2 ^ (- e)) d in
  if 1024 <=? Z.log2 m + e then Infinite (n <? 0) else Finite (if n <? 0 then - m else m) e.

(** Underscores stand between digits. *)
Fixpoint single_underscores (prev : bool) (s : string) : bool :=
  match s with
  | EmptyString => true
  | String c s' =>
      (if Ascii.eqb c "_" then prev && match s' with String c' _ => is_ascii_digit c' | EmptyString => false end else true)
      && single_underscores (is_ascii_digit c) s'
  end.

(** [float(s)]; [None] is the [ValueError].  The syntax is that of [Decimal] but for underscores and payloads. *)
Definition float_of_string (s : string) : option pyfloat :=
  let l := py_lower (take_sign (py_strip s)).2 in
  if negb (single_underscores false (py_strip s)) then None else
  match decimal_of_string s with
  | Some (Fin neg c e) =>
      let c := if neg then - c else c in
      Some (if 0 <=? e then (if 400 <? e then (if c =? 0 then Finite 0 0 else Infinite neg) else float_of_ratio (c * 10 ^ e) 1)
            else if 1200 + num_digits (Z.abs c) <? - e then Finite 0 0 else float_of_ratio c (10 ^ (- e)))
  | Some (Inf neg) => Some (Infinite neg)
  | Some NaN => if String.eqb l "nan" then Some NotANumber else None
  | None => None
  end.

(** A product with an integer constant. *)
Definition float_scale (x : pyfloat) (k : Z) : pyfloat :=
  match x with
  | Finite m e => if 0 <=? e then float_of_ratio (m * k * 2 ^ e) 1 else float_of_ratio (m * k) (2 ^ (- e))
  | x => x
  end.

(** [int(round(x))] *)
Definition float_round (x : pyfloat) : result exn Z :=
  match x with
  | Finite m e => Ok (if 0 <=? e then m * 2 ^ e else div_half_even m (2 ^ (- e)))
  | Infinite _ => Err (Exn ExceptionC "cannot convert float infinity to integer")
  | NotANumber => Err (ValueError "cannot convert float NaN to integer")
  end.

(** [int(x)] of a float by its [repr] *)
Definition float_trunc (repr : string) : result exn Z :=
  match decimal_of_string repr with
  | Some (Fin neg c e) => Ok (dec_int neg c e)
  | Some (Inf _) => Err (Exn ExceptionC "cannot convert float infinity to integer")
  | _ => Err (ValueError "cannot convert float NaN to integer")
  end.

(** [repr(bps / 10_000)] for [0 <= bps <= 10000]: at most four places, which the quotient's repr has. *)
Definition ratio_repr (bps : Z) : string :=
  string_of_nonneg (bps / 10000) ++ "." ++
  (let f := rstrip_if (fun c => Ascii.eqb c "0") (dec_fixed 4 (bps mod 10000) "") in if str_empty f then "0" else f).

(** * Timestamps *)

(** The years 1 to 9999; beyond them [gmtime] or the range of [time_t] fails. *)
Definition timestamp_error (ts : Z) : exn :=
  if (- 2 ^ 63 <=? ts) && (ts <? 2 ^ 63) then
    if (-67768040609740800 <=? ts) && (ts <=? 67768036191676799)
    then ValueError ("year " ++ py_str_int (civil_from_days (ts / 86400)).1.1 ++ " is out of range")
    else Exn OSErrorC "[Errno 75] Value too large for defined data type"
  else Exn ExceptionC "timestamp out of range for platform time_t".

Definition in_calendar (ts : Z) : bool := (-62135596800 <=? ts) && (ts <=? 253402300799).

(** [datetime.fromtimestamp(ts, tz=UTC)] of an integer *)
Definition fromtimestamp (ts : Z) : result exn datetime :=
  if in_calendar ts then Ok (Aware (ts * 1000000)) else Err (timestamp_error ts).

(** [datetime.fromtimestamp(ts / 1000, tz=UTC)] of a positive integer: the quotient is a float, its fraction is rounded to
    microseconds. *)
Definition fromtimestamp_ms (ts : Z) : result exn datetime :=
  match float_of_ratio ts 1000 with
  | Finite m e =>
      let us := if 0 <=? e then m * 2 ^ e * 1000000
                else m / 2 ^ (- e) * 1000000 + div_half_even (m mod 2 ^ (- e) * 1000000) (2 ^ (- e)) in
      if in_calendar (us / 1000000) then Ok (Aware us) else Err (timestamp_error (us / 1000000))
  | _ => Err (Exn ExceptionC "integer division result too large for a float")
  end.

(** [datetime.fromisoformat(s).astimezone(UTC)] in microseconds since the epoch; a text without an offset is read in the
    local zone of the process. *)
Class IsoFormat := fromisoformat_utc : string -> result exn Z.

Example tol_half_percent : float_round (float_scale (default NotANumber (float_of_string "0.005")) 10000) = Ok 50.
Proof. vm_compute. reflexivity. Qed.
Example slippage_reprs : map ratio_repr [0; 1; 50; 10000] = ["0.0"; "0.0001"; "0.005"; "1.0"].
Proof. vm_compute. reflexivity. Qed.
Example millis : fromtimestamp_ms 1709210096123 = Ok (Aware 1709210096123000).
Proof. vm_compute. reflexivity. Qed.
Example tenth : float_of_string "0.1" = Some (Finite 7205759403792794 (-56)).
Proof. vm_compute. reflexivity. Qed.
