(* ===== verification/SwapAdapters.v ===== *)
(** The swap providers behind the router: [mercury/swaps/lifi.py], [cowswap.py] and [uniswap.py], each with its requests
    and the normalisation of the answers. *)
From stdpp Require Import base tactics option list sets strings.
From Stdlib Require Import ZArith Lia Ascii String.
From S2P Require Import Prelude Python Values Exceptions Amounts Redaction Errors Addresses Chains Models SwapModels Prog Effects.
From S2P Require Import Swaps Alchemy Io Custody Web Http Floats.

Local Open Scope string_scope.
Local Open Scope Z_scope.
Local Open Scope prog_scope.

(** [SwapProvider] *)
Record SwapProvider := {
  pr_get_quote : SwapQuoteRequest -> online (result exn SwapQuote);
  pr_build_execution : SwapQuote -> online (result exn SwapExecution)
}.

(** The first text under one of the keys that is not blank. *)
Fixpoint first_text (keys : list string) (d : dict) : option string :=
  match keys with
  | [] => None
  | key :: keys' =>
      match get d key with
      | VStr s => if str_empty (py_strip s) then first_text keys' d else Some s
      | _ => first_text keys' d
      end
  end.

(** [{name: value}] when there is an API key *)
Definition auth_header (name prefix : string) (config : SwapProviderConfig) : online (result exn (list (string * string))) :=
  api_key <- provider_api_key config;;
  ret_ok match api_key with Some (String _ _ as k) => [(name, prefix ++ k)] | _ => [] end.

(** [datetime.now(tz=UTC) + timedelta(minutes=5)] *)
Definition in_five_minutes : online (result exn datetime) :=
  now <- lift_wallet utc_now;; ret_ok (Aware (now + 300 * 1000000)).

Definition replace_char (c : ascii) (by_ : string) (s : string) : string :=
  String.concat "" (map (fun x => if Ascii.eqb x c then by_ else String x "") (list_ascii_of_string s)).
Definition count_char (c : ascii) (s : string) : nat := List.length (List.filter (Ascii.eqb c) (list_ascii_of_string s)).

(** * lifi.py *)

Module LiFi.
Section lifi.
Context {W : Web3} {I : IsoFormat}.

Definition _request_to_chain_id (r : SwapQuoteRequest) : Z := default (sq_chain_id r) (sq_to_chain_id r).

Definition _headers (config : SwapProviderConfig) := auth_header "x-lifi-api-key" "" config.

Definition _slippage_float (slippage_bps : option Z) : pyval :=
  match slippage_bps with Some bps => VFloat (ratio_repr bps) | None => VNone end.

Definition _action_token_address (action : dict) (key fallback : string) : result exn string :=
  let missing := Err (SwapProviderError ("LiFi quote action missing token field '" ++ key ++ "'.")) in
  let by_fallback := if str_empty (py_strip fallback) then missing else normalize_evm_address fallback in
  match get action key with
  | VStr s => if str_empty (py_strip s) then by_fallback else normalize_evm_address s
  | VDict d => match get d "address" with
               | VStr s => if str_empty (py_strip s) then by_fallback else normalize_evm_address s
               | _ => by_fallback
               end
  | _ => by_fallback
  end.

Definition _route_id (payload : dict) : string := default "lifi-route" (first_text ["id"; "tool"] payload).

Definition _spender (payload estimate : dict) : option string :=
  let keys := ["approvalAddress"; "spenderAddress"; "spender"] in opt_or (first_text keys payload) (first_text keys estimate).

Definition _flatten_estimate_view (body estimate : dict) : dict :=
  omap (fun key =>
          if negb (is_none (get estimate key)) then Some (key, get estimate key)
          else if negb (is_none (get body key)) then Some (key, get body key) else None)
    ["fromAmount"; "toAmount"; "toAmountMin"; "approvalAddress"; "spenderAddress"; "expiresAt"].

Definition _coerce_non_negative_int (value : pyval) (field : string) : result exn Z :=
  let non_negative z :=
    if z <? 0 then Err (SwapProviderError ("Swap provider response field '" ++ field ++ "' must be non-negative.")) else Ok z in
  let invalid := Err (SwapProviderError ("Swap provider response has invalid amount field '" ++ field ++ "'.")) in
  match value with
  | VBool _ => Err (SwapProviderError ("Swap provider response field '" ++ field ++ "' must be a number."))
  | VInt z => non_negative z
  | VStr s => if str_empty (py_strip s) then invalid
              else match py_int_str s with Some z => non_negative z | None => invalid end
  | _ => invalid
  end.

Definition _optional_amount_key (payload : dict) (key : string) : result exn (option Z) :=
  if is_none (get payload key) then Ok None else Some <$> _coerce_non_negative_int (get payload key) key.

Definition _require_amount_int (payload : dict) (key : string) : result exn Z :=
  if is_none (get payload key) then Err (SwapProviderError ("Swap provider response missing amount field '" ++ key ++ "'."))
  else _coerce_non_negative_int (get payload key) key.

(** The text of an expiry: a date, or digits that count seconds or milliseconds. *)
Definition parse_expiry_text (s : string) : result exn (option datetime) :=
  if py_contains "T" s || (2 <=? count_char "-" s)%nat then
    match fromisoformat_utc (replace_char "Z" "+00:00" s) with
    | Ok t => Ok (Some (Aware t))
    | Err exc => if is_value_error exc then Ok None else Err exc
    end
  else if py_isdigit s then
    ts ← match py_int_str s with
         | Some z => Ok z
         | None => Err (ValueError ("invalid literal for int() with base 10: " ++ py_repr_str s))
         end;
    if 1000000000000 <? ts then Some <$> fromtimestamp_ms ts
    else if 1000000000 <? ts then Some <$> fromtimestamp ts else Ok None
  else Ok None.

Definition _parse_expiry_value (value : pyval) : result exn (option datetime) :=
  let timestamp ts := Some <$> (if 1000000000000 <? ts then fromtimestamp_ms ts else fromtimestamp ts) in
  match value with
  | VInt ts => timestamp ts
  | VFloat r => ts ← float_trunc r; timestamp ts
  | VStr s => if str_empty (py_strip s) then Ok None else parse_expiry_text (py_strip s)
  | _ => Ok None
  end.

Fixpoint first_expiry (values : list pyval) : result exn (option datetime) :=
  match values with
  | [] => Ok None
  | v :: values' =>
      parsed ← _parse_expiry_value v;
      match parsed with Some t => Ok (Some t) | None => first_expiry values' end
  end.

Definition _first_expires_at_key (source : dict) : result exn (option datetime) :=
  first_expiry [get source "expiresAt"; get source "validUntil"].

Fixpoint first_of (sources : list dict) : result exn (option datetime) :=
  match sources with
  | [] => Ok None
  | source :: sources' =>
      value ← _first_expires_at_key source;
      match value with Some t => Ok (Some t) | None => first_of sources' end
  end.

Definition _expiry (payload estimate em action : dict) : online (result exn datetime) :=
  found <- pure (first_of [em; payload; estimate; action]);;
  match found with Some t => ret_ok t | None => in_five_minutes end.

Definition _parse_uint256 (value : pyval) (field : string) : result exn Z :=
  let invalid := Err (SwapProviderError ("Invalid " ++ field ++ ".")) in
  match value with
  | VNone => Ok 0
  | VInt z => if z <? 0 then invalid else Ok z
  | VStr v =>
      let s := py_strip v in
      if py_startswith s "0x" || py_startswith s "0X" then
        match py_int_hex s with
        | Some z => Ok z
        | None => Err (ValueError ("invalid literal for int() with base 16: " ++ py_repr_str s))
        end
      else if py_isdecimal s then int_of_decimal s else invalid
  | _ => invalid
  end.

Definition _steps (payload : dict) : list string :=
  omap (fun step => match get step "tool" with
                    | VStr tool => if str_empty (py_strip tool) then None else Some tool
                    | _ => None
                    end)
    (dict_rows (get payload "includedSteps")).

(** [try: _require_amount_int(em, key) except SwapProviderError as exc: raise SwapProviderError(msg)] *)
Definition amount_of_estimate (em : dict) (key : string) : result exn Z :=
  match _require_amount_int em key with
  | Ok z => Ok z
  | Err exc => Err (if has_class SwapProviderErrorC exc
                    then SwapProviderError ("LiFi quote response missing " ++ key ++ " in estimate or body.") else exc)
  end.

Definition _normalize_quote (request : SwapQuoteRequest) (payload : dict) : online (result exn SwapQuote) :=
  match get payload "action" with
  | VDict action =>
      let estimate := match get payload "estimate" with VDict d => d | _ => [] end in
      let em := _flatten_estimate_view payload estimate in
      from_chain_id <- pure (require_int action "fromChainId");;
      to_chain_id <- pure (require_int action "toChainId");;
      expected_out <- pure (amount_of_estimate em "toAmount");;
      min_out <- pure (_optional_amount_key em "toAmountMin");;
      amount_in <- pure (amount_of_estimate em "fromAmount");;
      expires_at <- _expiry payload estimate em action;;
      from_token_route <- pure (_action_token_address action "fromToken" (sq_from_token request));;
      from_token_route <- pure (if sq_from_token_is_native request then normalize_evm_address (sq_from_token request)
                                else Ok from_token_route);;
      to_token <- pure (_action_token_address action "toToken" (sq_to_token request));;
      route <- pure (make_SwapRoute LIFI (_route_id payload) (if from_chain_id =? to_chain_id then SWAP else BRIDGE)
                       from_chain_id to_chain_id from_token_route to_token (_spender payload estimate) (_steps payload));;
      pure (make_SwapQuote LIFI request route amount_in expected_out min_out (sq_max_slippage_bps request) (Some expires_at)
              (effective_recipient request) payload)
  | _ => Ret (Err (SwapProviderError "LiFi quote response missing action."))
  end.

Definition get_quote (config : SwapProviderConfig) (http : JsonHttpClient) (request : SwapQuoteRequest)
    : online (result exn SwapQuote) :=
  from_token <- pure (normalize_evm_address (sq_from_token request));;
  from_amount <- pure (int_text (sq_amount_in_raw request));;
  headers <- _headers config;;
  response <- get_json http "/quote"
    [("fromChain", VInt (sq_chain_id request)); ("toChain", VInt (_request_to_chain_id request));
     ("fromToken", VStr from_token); ("toToken", VStr (sq_to_token request));
     ("fromAmount", VStr from_amount); ("fromAddress", VStr (sq_wallet_address request));
     ("toAddress", VStr (effective_recipient request)); ("slippage", _slippage_float (sq_max_slippage_bps request))] headers;;
  _normalize_quote request response.

(** The transaction of a payload, on the chain of the request. *)
Definition transaction_of (quote : SwapQuote) (payload : dict) : result exn SwapEVMTransaction :=
  to ← require_string payload "to";
  data ← require_string payload "data";
  value_wei ← _parse_uint256 (get payload "value") "transaction value";
  make_SwapEVMTransaction (sq_chain_id (qu_request quote)) to data value_wei.

Definition build_execution (quote : SwapQuote) : result exn SwapExecution :=
  match get (qu_raw_quote quote) "transactionRequest" with
  | VDict transaction_payload =>
      transaction ← transaction_of quote transaction_payload;
      make_SwapExecution LIFI EVM_TRANSACTION quote (Some transaction) None None transaction_payload
  | _ => make_SwapExecution LIFI UNSUPPORTED_EXECUTION quote None None
           (Some "LiFi quote did not include an executable transaction.") []
  end.

(** The metadata of the transaction an adapter makes of its execution. *)
Definition execution_metadata (name : SwapProviderName) (quote : SwapQuote) : dict :=
  let route := qu_route quote in
  [("action", VStr "swap"); ("provider", VStr (SwapProviderName_value name)); ("route_id", VStr (ro_route_id route));
   ("route_kind", VStr (SwapRouteKind_value (ro_route_kind route))); ("from_token", VStr (ro_from_token route));
   ("to_token", VStr (ro_to_token route)); ("spender_address", of_opt_str (ro_spender_address route));
   ("amount_in_raw", VInt (qu_amount_in_raw quote)); ("expected_amount_out_raw", VInt (qu_expected_amount_out_raw quote));
   ("min_amount_out_raw", of_opt_int (qu_min_amount_out_raw quote)); ("slippage_bps", of_opt_int (qu_slippage_bps quote));
   ("recipient_address", VStr (qu_recipient_address quote));
   ("quote_expires_at", of_opt_str (isoformat <$> qu_expires_at quote))].

Definition prepared_of_execution (name : SwapProviderName) (missing : string) (execution : SwapExecution)
    : result exn PreparedTransaction :=
  match se_transaction execution with
  | None => Err (SwapProviderError missing)
  | Some t =>
      let request := qu_request (se_quote execution) in
      make_PreparedTransaction (sq_wallet_id request) (sq_chain request) (Some (sx_chain_id t)) (Some (sq_wallet_address request))
        (sx_to t) (sx_value_wei t) (sx_data t) None None (Some (sq_idempotency_key request))
        (execution_metadata name (se_quote execution))
  end.

Definition to_prepared_transaction (execution : SwapExecution) : result exn PreparedTransaction :=
  prepared_of_execution LIFI "LiFi execution has no EVM transaction." execution.

Definition LiFiProvider (config : SwapProviderConfig) (http : JsonHttpClient) : SwapProvider :=
  {| pr_get_quote := get_quote config http; pr_build_execution quote := pure (build_execution quote) |}.
End lifi.
End LiFi.

(** * cowswap.py *)

Module CowSwap.
Section cowswap.
Context {W : Web3} {I : IsoFormat}.

Definition COW_NETWORK_SLUG_BY_CHAIN_ID : list (Z * string) :=
  [(1, "mainnet"); (100, "gnosis"); (42161, "arbitrum_one"); (8453, "base")].

Definition cow_network_slug_for_chain_id (chain_id : Z) : result exn string :=
  match List.find (fun kv => kv.1 =? chain_id) COW_NETWORK_SLUG_BY_CHAIN_ID with
  | Some kv => Ok kv.2
  | None => Err (SwapProviderError ("CoW Swap has no network slug mapping for chain_id=" ++ py_str_int chain_id ++
                                    ". Known: 1, 100, 8453, 42161."))
  end.

(** The body is read without the blanks around it. *)
Definition _post_cow_order_urllib (base_url path : string) (payload : dict) (headers : list (string * string))
    : online (result exn dict) :=
  prog_bind (urlopen {| hr_method := "POST"; hr_url := rstrip_if is_slash base_url ++ "/" ++ lstrip_if is_slash path;
                        hr_headers := dict_update [("Content-Type", "application/json")] headers;
                        hr_data := Some (VDict payload); hr_timeout := 20 |}) (fun answer =>
    Ret match answer with
        | HttpStatus _ _ _ | HttpFailed _ _ => Err (SwapProviderError "CoW order submission request failed.")
        | HttpGarbled => Err (ValueError "'utf-8' codec can't decode the body")
        | HttpBody text json =>
            let body := py_strip text in
            if str_empty body then Ok [] else
            match json with
            | None => Ok [("orderUid", VStr body)]
            | Some (VDict parsed) => Ok parsed
            | Some (VStr parsed) => Ok [("orderUid", VStr parsed)]
            | Some _ => Err (SwapProviderError "CoW order submission returned an unexpected JSON value.")
            end
        end).

Definition _headers (config : SwapProviderConfig) := auth_header "Authorization" "Bearer " config.

Definition _spender (response quote_payload : dict) : option string :=
  let keys := ["spender"; "allowanceTarget"; "vaultRelayer"] in
  opt_or (first_text keys response) (first_text keys quote_payload).

Definition _expiry (quote_payload : dict) : online (result exn datetime) :=
  match get quote_payload "validTo" with
  | VStr value =>
      pure (if py_isdecimal value then ts ← int_of_decimal value; fromtimestamp ts
            else Aware <$> fromisoformat_utc (replace_char "Z" "+00:00" value))
  | v => match as_int v with Some ts => pure (fromtimestamp ts) | None => in_five_minutes end
  end.

Definition get_quote (config : SwapProviderConfig) (http : JsonHttpClient) (request : SwapQuoteRequest)
    : online (result exn SwapQuote) :=
  if sq_from_token_is_native request then
    Ret (Err (SwapProviderError "CoW Swap quotes do not support selling the chain native token in this adapter; use wrapped native or another provider."))
  else
    slug <- pure (cow_network_slug_for_chain_id (sq_chain_id request));;
    sell_amount <- pure (int_text (sq_amount_in_raw request));;
    headers <- _headers config;;
    response <- post_json http (slug ++ "/api/v1/quote")
      [("sellToken", VStr (sq_from_token request)); ("buyToken", VStr (sq_to_token request));
       ("receiver", VStr (effective_recipient request)); ("from", VStr (sq_wallet_address request));
       ("sellAmountBeforeFee", VStr sell_amount); ("kind", VStr "sell")] headers;;
    match get response "quote" with
    | VDict quote_payload =>
        route_id <- pure (match get response "id" with VStr _ => require_string response "id" | _ => Ok "cowswap-quote" end);;
        sell_token <- pure (require_string quote_payload "sellToken");;
        buy_token <- pure (require_string quote_payload "buyToken");;
        route <- pure (make_SwapRoute COWSWAP route_id SWAP (sq_chain_id request) (sq_chain_id request) sell_token buy_token
                         (_spender response quote_payload) ["cow-protocol-order"]);;
        amount_in <- pure (require_int quote_payload "sellAmount");;
        expected_out <- pure (require_int quote_payload "buyAmount");;
        expires_at <- _expiry quote_payload;;
        pure (make_SwapQuote COWSWAP request route amount_in expected_out None (sq_max_slippage_bps request) (Some expires_at)
                (effective_recipient request) response)
    | _ => Ret (Err (SwapProviderError "CoW Swap response missing quote payload."))
    end.

Definition build_execution (config : SwapProviderConfig) (quote : SwapQuote) : result exn SwapExecution :=
  let raw := qu_raw_quote quote in
  let unsupported reason raw_execution := make_SwapExecution COWSWAP UNSUPPORTED_EXECUTION quote None None (Some reason) raw_execution in
  match py_or (get raw "order") (get raw "quote") with
  | VDict order_payload =>
      match get raw "typedData" with
      | VDict typed_data =>
          slug ← cow_network_slug_for_chain_id (sq_chain_id (qu_request quote));
          order ← make_SwapTypedOrder (sq_chain_id (qu_request quote)) typed_data
                    (Some (rstrip_if is_slash (sp_base_url config) ++ "/" ++ slug ++ "/api/v1/orders"));
          make_SwapExecution COWSWAP EIP712_ORDER quote None (Some order) None order_payload
      | _ => unsupported "CoW Swap typed-data signing is not available for this quote." order_payload
      end
  | _ => unsupported "CoW Swap quote did not include an order payload." []
  end.

Definition _default_post_order (config : SwapProviderConfig) (path : string) (body : dict) : online (result exn dict) :=
  headers <- _headers config;; _post_cow_order_urllib (sp_base_url config) path body headers.

Definition submit_order (config : SwapProviderConfig) (chain_id : Z) (body : dict) : online (result exn dict) :=
  slug <- pure (cow_network_slug_for_chain_id chain_id);;
  _default_post_order config (slug ++ "/api/v1/orders") body.

Definition CowSwapProvider (config : SwapProviderConfig) (http : JsonHttpClient) : SwapProvider :=
  {| pr_get_quote := get_quote config http; pr_build_execution quote := pure (build_execution config quote) |}.
End cowswap.
End CowSwap.

(** * uniswap.py *)

Module Uniswap.
Section uniswap.
Context {W : Web3} {I : IsoFormat}.

Definition _headers (config : SwapProviderConfig) := auth_header "Authorization" "Bearer " config.

Definition _merged_quote_view (response : dict) : dict :=
  match get response "quote" with
  | VDict inner => dict_update (List.filter (fun kv => negb (String.eqb kv.1 "quote")) response) inner
  | _ => response
  end.

Definition _route_id (payload : dict) : string :=
  default "uniswap-route" (first_text ["requestId"; "quoteId"; "routeId"; "id"] payload).

Definition _spender (payload : dict) : option string :=
  first_text ["permit2Address"; "allowanceTarget"; "allowanceHolder"; "spender"; "approvalAddress"] payload.

(** The key is "tokenInChainId" or "tokenOutChainId". *)
Definition _require_chain_id (payload : dict) (key : string) : result exn Z :=
  let missing := Err (SwapProviderError ("Swap provider response missing integer field '" ++ key ++ "'.")) in
  match match get payload key with VNone => get payload "chainId" | v => v end with
  | VBool _ => Err (SwapProviderError ("Swap provider response field '" ++ key ++ "' must be an integer."))
  | VInt z => Ok z
  | VStr s => if py_isdecimal (py_strip s) then int_of_decimal (py_strip s) else missing
  | _ => missing
  end.

(** The functions of the same names and text in lifi.py. *)
Definition _coerce_non_negative_int := LiFi._coerce_non_negative_int.
Definition _parse_uint256 := LiFi._parse_uint256.
Definition _parse_expiry_value := LiFi._parse_expiry_value.

Definition _optional_amount_int (payload : dict) (keys : list string) : result exn (option Z) :=
  match List.find (fun key => negb (is_none (get payload key))) keys with
  | Some key => Some <$> _coerce_non_negative_int (get payload key) key
  | None => Ok None
  end.

Definition _require_amount_int (payload : dict) (keys : list string) : result exn Z :=
  amount ← _optional_amount_int payload keys;
  match amount with
  | Some z => Ok z
  | None => Err (SwapProviderError ("Swap provider response missing amount field; tried (" ++
                                    py_join ", " (map py_repr_str keys) ++ ")."))
  end.

Definition _expiry (payload : dict) : result exn (option datetime) :=
  LiFi.first_expiry (map (get payload) ["expiresAt"; "deadline"; "validUntil"; "quoteExpiry"; "expiration"]).

(** [int(round(x * 10_000))] *)
Definition bps_of_float (x : pyfloat) : result exn Z := float_round (float_scale x 10000).

(** The tolerance field, when there is no usable "slippageBps". *)
Definition slippage_tolerance (payload : dict) (request : SwapQuoteRequest) : result exn (option Z) :=
  let requested := Ok (sq_max_slippage_bps request) in
  match get payload "slippageTolerance" with
  | VInt z => match float_of_ratio z 1 with
              | Infinite _ => Err (Exn ExceptionC "int too large to convert to float")
              | x => Some <$> bps_of_float x
              end
  | VFloat r => Some <$> bps_of_float (default NotANumber (float_of_string r))
  | VStr tol =>
      let s := py_strip tol in
      if str_empty s then requested else
      v ← if py_isdecimal s then Some <$> int_of_decimal s else Ok None;
      match v with
      | Some z => if z <=? 10000 then Ok (Some z)
                  else match float_of_string s with Some x => Some <$> bps_of_float x | None => requested end
      | None =>
          match float_of_string s with
          | Some NotANumber | None => requested
          | Some x => Some <$> bps_of_float x
          end
      end
  | _ => requested
  end.

Definition _resolve_slippage_bps (payload : dict) (request : SwapQuoteRequest) : result exn (option Z) :=
  bps ← match get payload "slippageBps" with
        | VInt z => Ok (Some z)
        | VStr s => if py_isdecimal (py_strip s) then Some <$> int_of_decimal (py_strip s) else Ok None
        | _ => Ok None
        end;
  match bps with
  | Some bps => if (bps <? 0) || (10000 <? bps)
                then Err (SwapProviderError "Uniswap quote slippageBps is out of range.") else Ok (Some bps)
  | None => slippage_tolerance payload request
  end.

Definition get_quote (config : SwapProviderConfig) (http : JsonHttpClient) (request : SwapQuoteRequest)
    : online (result exn SwapQuote) :=
  if sq_from_token_is_native request then
    Ret (Err (SwapProviderError "Uniswap Trading API quotes do not support selling the chain native token in this adapter; use wrapped native or another provider."))
  else
    amount <- pure (int_text (sq_amount_in_raw request));;
    headers <- _headers config;;
    response <- post_json http "/v1/quote"
      [("tokenInChainId", VInt (sq_chain_id request)); ("tokenOutChainId", VInt (sq_chain_id request));
       ("tokenIn", VStr (sq_from_token request)); ("tokenOut", VStr (sq_to_token request)); ("amount", VStr amount);
       ("swapper", VStr (sq_wallet_address request)); ("recipient", VStr (effective_recipient request));
       ("type", VStr "EXACT_INPUT")] headers;;
    let quote_payload := _merged_quote_view response in
    from_chain_id <- pure (_require_chain_id quote_payload "tokenInChainId");;
    to_chain_id <- pure (_require_chain_id quote_payload "tokenOutChainId");;
    from_token <- pure (require_string quote_payload "tokenIn");;
    to_token <- pure (require_string quote_payload "tokenOut");;
    route <- pure (make_SwapRoute UNISWAP (_route_id quote_payload) SWAP from_chain_id to_chain_id from_token to_token
                     (_spender quote_payload) ["uniswap"]);;
    amount_in <- pure (_require_amount_int quote_payload ["amount"; "amountIn"; "inputAmount"]);;
    if negb (amount_in =? sq_amount_in_raw request)
    then Ret (Err (SwapProviderError "Uniswap quote amount_in does not match the request.")) else
    expected_out <- pure (_require_amount_int quote_payload ["amountOut"; "quoteAmountOut"; "outputAmount"; "outAmount"]);;
    min_out <- pure (_optional_amount_int quote_payload ["minAmountOut"; "amountOutMinimum"; "quoteAmountOutMinimum"]);;
    slippage_bps <- pure (_resolve_slippage_bps quote_payload request);;
    expires_at <- pure (_expiry quote_payload);;
    pure (make_SwapQuote UNISWAP request route amount_in expected_out min_out slippage_bps expires_at
            (effective_recipient request) response).

Definition _swap_quote_argument (quote : SwapQuote) : dict :=
  match get (qu_raw_quote quote) "quote" with VDict inner => inner | _ => qu_raw_quote quote end.

Definition build_execution (config : SwapProviderConfig) (http : JsonHttpClient) (quote : SwapQuote)
    : online (result exn SwapExecution) :=
  headers <- _headers config;;
  response <- post_json http "/v1/swap" [("quote", VDict (_swap_quote_argument quote))] headers;;
  match get response "transaction" with
  | VDict transaction_payload =>
      transaction <- pure (LiFi.transaction_of quote transaction_payload);;
      pure (make_SwapExecution UNISWAP EVM_TRANSACTION quote (Some transaction) None None response)
  | _ => pure (make_SwapExecution UNISWAP UNSUPPORTED_EXECUTION quote None None
                 (Some "Uniswap response did not include an executable transaction.") response)
  end.

Definition to_prepared_transaction (execution : SwapExecution) : result exn PreparedTransaction :=
  LiFi.prepared_of_execution UNISWAP "Uniswap execution has no EVM transaction." execution.

Definition UniswapProvider (config : SwapProviderConfig) (http : JsonHttpClient) : SwapProvider :=
  {| pr_get_quote := get_quote config http; pr_build_execution := build_execution config http |}.
End uniswap.
End Uniswap.

(** The providers of the service, each over its own default client. *)
Definition provider_of {W : Web3} {I : IsoFormat} (config : SwapProviderConfig) : result exn SwapProvider :=
  http ← UrllibJsonHttpClient (sp_base_url config);
  Ok match sp_provider config with
     | LIFI => LiFi.LiFiProvider config http
     | COWSWAP => CowSwap.CowSwapProvider config http
     | UNISWAP => Uniswap.UniswapProvider config http
     end.
