(* ===== verification/HttpSpec.v ===== *)
(** The secret client over HTTP: what it sends, and where a value it returns comes from. *)
From stdpp Require Import base tactics option list sets strings gmap.
From Stdlib Require Import ZArith Lia Ascii String.
From S2P Require Import Prelude Python Values Exceptions Amounts Redaction Errors Addresses Chains Models SwapModels Prog Effects.
From S2P Require Import Alchemy Io Custody Web Http.

Local Open Scope string_scope.
Local Open Scope Z_scope.

(** The requests for a token and for a secret. *)
Definition auth_request (client : OneClawHttpClient) (agent_id : string) : http_request :=
  {| hr_method := "POST"; hr_url := oc_base_url client ++ "/v1/auth/agent-token";
     hr_headers := [("Content-Type", "application/json")];
     hr_data := Some (VDict [("agent_id", VStr agent_id); ("api_key", VStr (oc_api_key client))]); hr_timeout := 10 |}.

Definition secret_request (client : OneClawHttpClient) (vault_id suffix token : string) : http_request :=
  {| hr_method := "GET"; hr_url := oc_base_url client ++ "/v1/vaults/" ++ vault_id ++ "/secrets/" ++ suffix;
     hr_headers := [("Authorization", "Bearer " ++ token)]; hr_data := None; hr_timeout := 10 |}.

(** A token the client holds for an agent, or was given for it in the run. *)
Definition token_for (client : OneClawHttpClient) (agent_id token : string) (tr : list webevent) : Prop :=
  token <> "" /\
  (Ev TokenGet (Some (token, agent_id)) ∈ tr \/
   exists text d t, Ev (HttpRequest (auth_request client agent_id)) (HttpBody text (Some (VDict d))) ∈ tr /\
     get d "access_token" = VStr t /\ token = py_strip t).

(** A call of the token handling: reads of the cache, requests for a token of the agent, and its storage. *)
Definition token_call (client : OneClawHttpClient) (agent_id : string) (c : web) : Prop :=
  c = TokenGet \/ c = HttpRequest (auth_request client agent_id) \/ c = TokenPut None \/
  exists token, c = TokenPut (Some (token, agent_id)).

Definition is_read (ev : webevent) : bool :=
  match ev_call ev with HttpRequest r => String.eqb (hr_method r) "GET" | _ => false end.

(** The reads of a trace. *)
Definition reads (tr : list webevent) : list webevent := List.filter is_read tr.

Section spec.
Context (client : OneClawHttpClient) (vault_id path agent_id : string).

Lemma token_for_mono token tr tr1 tr2 : token_for client agent_id token tr -> token_for client agent_id token (tr1 ++ tr ++ tr2).
Proof.
  intros [Hne [H|(text & d & t & H & ? & ->)]]; (split; [done|]); [left|right; exists text, d, t]; set_solver.
Qed.

Lemma fetch_token tr r :
  may (_fetch_access_token client agent_id) tr r ->
  Forall (fun ev => token_call client agent_id (ev_call ev)) tr /\
  forall token, r = Ok token -> token_for client agent_id token tr.
Proof.
  unfold _fetch_access_token, read_payload, urlopen. intros H. apply may_bind in H as (tr1 & tr2 & a & -> & H1 & H2).
  apply may_bind in H1 as (tr3 & tr4 & ans & -> & (b & tr5 & -> & [-> ->]) & [-> ->]). simpl. rewrite ?app_nil_r.
  assert (forall tr' (P : Prop), Forall (fun ev => token_call client agent_id (ev_call ev)) tr' -> P ->
    Forall (fun ev => token_call client agent_id (ev_call ev))
      (Ev (E := web) (HttpRequest (auth_request client agent_id)) b :: tr') /\ P) as Hc
    by (intros tr' P ? ?; split; [constructor; [by right; left | done] | done]).
  apply Hc.
  - destruct b as [text [[| | | | | |d]|]| | |]; try (destruct H2 as [-> _]; constructor).
    destruct (get d "access_token"); try (destruct H2 as [-> _]; constructor).
    destruct (str_empty _); [destruct H2 as [-> _]; constructor|]. destruct H2 as (u & tr' & -> & [-> _]).
    constructor; [|constructor]. right; right; right. by eexists.
  - intros token ->. destruct b as [text [[| | | | | |d]|]| | |]; try by destruct H2.
    destruct (get d "access_token") as [| | | |t| |] eqn:Et; try by destruct H2.
    destruct (str_empty _) eqn:Ee; [by destruct H2|]. destruct H2 as (u & tr' & -> & [-> [= ->]]).
    split; [by apply str_empty_false|]. right. exists text, d, t. split; [by left | done].
Qed.

Lemma bearer_token tr r :
  may (_bearer_for_agent client agent_id) tr r ->
  Forall (fun ev => token_call client agent_id (ev_call ev)) tr /\
  forall token, r = Ok token -> token_for client agent_id token tr.
Proof.
  unfold _bearer_for_agent. intros (cached & tr' & -> & H).
  assert (may (_fetch_access_token client agent_id) tr' r ->
    Forall (fun ev => token_call client agent_id (ev_call ev)) (Ev TokenGet cached :: tr') /\
    forall token, r = Ok token -> token_for client agent_id token (Ev TokenGet cached :: tr')) as Hf.
  { intros [Hc Ht]%fetch_token. split; [constructor; [by left | done]|]. intros token Hr%Ht.
    pose proof (token_for_mono _ _ [Ev (E := web) TokenGet cached] [] Hr) as Hm. by rewrite app_nil_r in Hm. }
  destruct cached as [[token agent]|]; [|by apply Hf].
  destruct (negb (str_empty token) && String.eqb agent agent_id) eqn:E; [|by apply Hf].
  apply andb_prop in E as [Hne%negb_true_iff%str_empty_false Ea%String.eqb_eq]. subst. destruct H as [-> ->].
  split; [constructor; [by left | constructor]|]. intros t [= <-]. split; [done|]. left. by left.
Qed.

Lemma invalidate_token tr r :
  may (_invalidate_access_token agent_id) tr r -> Forall (fun ev => token_call client agent_id (ev_call ev)) tr /\ r = Ok tt.
Proof.
  unfold _invalidate_access_token. intros (cached & tr' & -> & H).
  assert (may (ret_ok tt) tr' r -> Forall (fun ev => token_call client agent_id (ev_call ev)) (Ev TokenGet cached :: tr') /\ r = Ok tt)
    as Hr by (intros [-> ->]; split; [constructor; [by left | constructor] | done]).
  destruct cached as [[token agent]|]; [|by apply Hr]. destruct (String.eqb _ _); [|by apply Hr].
  destruct H as (u & tr2 & -> & [-> ->]). split; [|done].
  constructor; [by left|]. constructor; [by right; right; left | constructor].
Qed.

(** A read of the secret: one request with the bearer token, and what its answer means. *)
Lemma read_secret bearer tr r :
  may (_http_get_secret_value client vault_id path bearer) tr r ->
  (tr = [] /\ exists e, r = Err e) \/
  (exists suffix answer, _secret_url_path_suffix path = Ok suffix /\
     tr = [Ev (HttpRequest (secret_request client vault_id suffix bearer)) answer] /\
     (forall v, r = Ok (inl v) -> exists text d, answer = HttpBody text (Some (VDict d)) /\ _extract_secret_value d = Some v) /\
     (forall status, r = Ok (inr status) -> exists reason body, answer = HttpStatus status reason body)).
Proof.
  unfold _http_get_secret_value, read_payload, urlopen. intros H.
  apply may_bind_exn in H as [(e & [-> _] & ->)|(tr1 & tr2 & suffix & -> & [-> Hs]%may_pure_ok & H)]; [left; eauto|right].
  apply may_bind in H as (tr3 & tr4 & a & -> & H1 & [-> ->]).
  apply may_bind in H1 as (tr5 & tr6 & ans & -> & (b & tr7 & -> & [-> ->]) & [-> ->]).
  exists suffix, b. split; [done|]. split; [done|].
  destruct b as [text [[| | | | | |d]|]| |c reason body|]; try by split; intros ? [=].
  - split; intros ?; destruct (_extract_secret_value d) eqn:E; try done. intros [= ->]. by exists text, d.
  - split; [done|]. intros st [= <-]. by exists reason, body.
Qed.

Lemma token_calls_no_reads tr : Forall (fun ev => token_call client agent_id (ev_call ev)) tr -> reads tr = [].
Proof.
  induction 1 as [|[c a] tr Hc _ IH]; [done|]. unfold reads. simpl. fold (reads tr). rewrite IH.
  destruct Hc as [H|[H|[H|[t H]]]]; simpl in H; subst; done.
Qed.

Lemma reads_app tr1 tr2 : reads (tr1 ++ tr2) = (reads tr1 ++ reads tr2)%list.
Proof. apply List.filter_app. Qed.

(** What a run over one agent may do with a trace. *)
Definition permitted (tr : list webevent) (ev : webevent) : Prop :=
  token_call client agent_id (ev_call ev) \/
  exists suffix token, _secret_url_path_suffix path = Ok suffix /\
    ev_call ev = HttpRequest (secret_request client vault_id suffix token) /\ token_for client agent_id token tr.

Record hosted_run (tr : list webevent) (r : result exn string) : Prop := {
  hr_calls : Forall (permitted tr) tr;
  hr_twice : (List.length (reads tr) <= 2)%nat;
  hr_again : List.length (reads tr) = 2%nat ->
    exists q reason body rest, reads tr = Ev (HttpRequest q) (HttpStatus 401 reason body) :: rest;
  hr_value v : r = Ok v -> exists suffix token text d, _secret_url_path_suffix path = Ok suffix /\
    last tr = Some (Ev (HttpRequest (secret_request client vault_id suffix token)) (HttpBody text (Some (VDict d)))) /\
    token_for client agent_id token tr /\ _extract_secret_value d = Some v
}.

Lemma permitted_token tr tr' : Forall (fun ev => token_call client agent_id (ev_call ev)) tr' -> Forall (permitted tr) tr'.
Proof. intros H. eapply Forall_impl; [exact H | by left]. Qed.

(** A run that only handles tokens. *)
Lemma token_run tr r :
  Forall (fun ev => token_call client agent_id (ev_call ev)) tr -> (exists e, r = Err e) -> hosted_run tr r.
Proof.
  intros H [e ->]. pose proof (token_calls_no_reads _ H) as Hr.
  split; rewrite ?Hr; [by apply permitted_token | simpl; lia | done | done].
Qed.

(** One read, after the token it carries. *)
Lemma read_run tr suffix token answer r :
  Forall (fun ev => token_call client agent_id (ev_call ev)) tr -> token_for client agent_id token tr ->
  _secret_url_path_suffix path = Ok suffix ->
  (forall v, r = Ok v -> exists text d, answer = HttpBody text (Some (VDict d)) /\ _extract_secret_value d = Some v) ->
  hosted_run (tr ++ [Ev (HttpRequest (secret_request client vault_id suffix token)) answer]) r.
Proof.
  intros Hc Ht Hs Hv. pose proof (token_for_mono _ _ [] [Ev (E := web) (HttpRequest (secret_request client vault_id suffix token)) answer] Ht) as Ht'.
  rewrite app_nil_l in Ht'. pose proof (token_calls_no_reads _ Hc) as Hr. split.
  - apply Forall_app. split; [by apply permitted_token|]. constructor; [|constructor]. right. by exists suffix, token.
  - rewrite reads_app, Hr. simpl. lia.
  - rewrite reads_app, Hr. done.
  - intros v (text & d & -> & Hd)%Hv. exists suffix, token, text, d. by rewrite last_snoc.
Qed.

Lemma hosted_runs tr r : may (_get_secret_hosted client vault_id path agent_id) tr r -> hosted_run tr r.
Proof.
  unfold _get_secret_hosted. intros H.
  apply may_bind_exn in H as [(e & [Hc _]%bearer_token & ->)|(tr1 & tr' & token & -> & [Hc Ht]%bearer_token & H)];
    [by apply token_run; eauto|]. specialize (Ht _ eq_refl).
  apply may_bind_exn in H as [(e & Hr & ->)|(tr2 & tr3 & first & -> & Hr & H)].
  { apply read_secret in Hr as [[-> _]|(suffix & answer & Hs & -> & _ & _)].
    - rewrite app_nil_r. apply token_run; eauto.
    - by apply read_run. }
  apply read_secret in Hr as [[_ [e [=]]]|(suffix & answer & Hs & -> & Hv & Hst)].
  destruct first as [value|status].
  { destruct H as [-> ->]. rewrite app_nil_r. apply read_run; try done. intros v [= <-]. by apply Hv. }
  destruct (Hst _ eq_refl) as (reason & body & ->). destruct (Z.eqb_spec status 401) as [->|].
  2: { destruct H as [-> ->]. rewrite app_nil_r. by apply read_run. }
  apply may_bind_exn in H as [(e & [_ [=]]%(invalidate_token) & ->)|(tr4 & tr5 & [] & -> & [Hi _]%(invalidate_token) & H)].
  set (retry := Ev (E := web) (HttpRequest (secret_request client vault_id suffix token)) (HttpStatus 401 reason body)).
  assert (forall t r', hosted_run t r' -> (List.length (reads t) <= 1)%nat -> hosted_run (tr1 ++ [retry] ++ tr4 ++ t) r') as Hadd.
  { intros t r' [H1 _ _ H4] Hl. split.
    - assert (Forall (permitted (tr1 ++ [retry] ++ tr4 ++ t)) (tr1 ++ tr4)) as [Ha Hb]%Forall_app
        by (apply permitted_token, Forall_app; by split).
      repeat (apply Forall_app; split); try done.
      + constructor; [|constructor]. right. exists suffix, token. split_and!; [done..|]. by apply (token_for_mono _ tr1 []).
      + eapply Forall_impl; [exact H1|]. intros ev [Hev|(s & tk & ? & ? & Htk)]; [by left | right]. exists s, tk. split_and!; [done..|].
        apply (token_for_mono _ t (tr1 ++ [retry] ++ tr4) []) in Htk. by rewrite app_nil_r, <- !app_assoc in Htk.
    - rewrite !reads_app, (token_calls_no_reads tr1), (token_calls_no_reads tr4) by done. simpl. lia.
    - intros _. rewrite !reads_app, (token_calls_no_reads tr1) by done. simpl. by eexists _, _, _, _.
    - intros v (s & tk & text & d & ? & Hlast & Htk & ?)%H4. exists s, tk, text, d. split_and!; try done.
      + rewrite !last_app. by rewrite Hlast.
      + apply (token_for_mono _ t (tr1 ++ [retry] ++ tr4) []) in Htk. by rewrite app_nil_r, <- !app_assoc in Htk. }
  apply may_bind_exn in H as [(e & [Hb _]%bearer_token & ->)|(tr6 & tr7 & token' & -> & [Hb Htok]%bearer_token & H)].
  { apply Hadd; [by apply token_run; eauto | rewrite token_calls_no_reads; simpl; [lia | done]]. }
  specialize (Htok _ eq_refl).
  apply may_bind_exn in H as [(e & Hr & ->)|(tr8 & tr9 & second & -> & Hr & [-> ->])].
  - apply read_secret in Hr as [[-> _]|(suffix' & answer & Hs' & -> & _ & _)].
    + rewrite app_nil_r. apply Hadd; [by apply token_run; eauto | rewrite token_calls_no_reads; simpl; [lia | done]].
    + apply Hadd; [by apply read_run | rewrite reads_app, token_calls_no_reads; simpl; [lia | done]].
  - apply read_secret in Hr as [[_ [e [=]]]|(suffix' & answer & Hs' & -> & Hv' & _)]. rewrite app_nil_r.
    apply Hadd; [|rewrite reads_app, token_calls_no_reads; simpl; [lia | done]].
    apply read_run; try done. intros v Hok. destruct second; [|done]. injection Hok as ->. by apply Hv'.
Qed.

End spec.

(** * The claim *)

(** C13. Whatever answers its requests get, a read of a secret for an agent sends the API key only to the token endpoint,
    reads the secret at most twice, the second time only after a 401, each time with a token the client held for that agent
    or was given for it in the run; and a value it returns is the one in the body of the last answer. *)
Theorem secret_read_contract (client : OneClawHttpClient) (vault_id path agent_id : string) (tr : list webevent)
    (r : result exn string) (Hagent : py_strip agent_id <> "")
    (Hrun : may (client_get_secret client vault_id path (Some agent_id)) tr r) :
  hosted_run client vault_id path (py_strip agent_id) tr r.
Proof.
  apply hosted_runs. unfold client_get_secret in Hrun. simpl in Hrun. by destruct (py_strip agent_id).
Qed.

(** * A read with an expired token *)

Definition sample_client : OneClawHttpClient := {| oc_base_url := "https://1claw.test"; oc_api_key := "key" |}.

Definition sample_read (last_answer : http_answer) : list webevent := [
  Ev (E := web) TokenGet (Some ("old", "agent"));
  Ev (E := web) (HttpRequest (secret_request sample_client "vault" "mercury/rpc/base" "old")) (HttpStatus 401 "Unauthorized" None);
  Ev (E := web) TokenGet (Some ("old", "agent")); Ev (E := web) (TokenPut None) tt;
  Ev (E := web) TokenGet None;
  Ev (E := web) (HttpRequest (auth_request sample_client "agent")) (HttpBody "" (Some (VDict [("access_token", VStr " new ")])));
  Ev (E := web) (TokenPut (Some ("new", "agent"))) tt;
  Ev (E := web) (HttpRequest (secret_request sample_client "vault" "mercury/rpc/base" "new")) last_answer].

Ltac replay := repeat (hnf; eexists _, _; split; [reflexivity|]); hnf; split; reflexivity.

Lemma sample_read_may :
  may (client_get_secret sample_client "vault" " /mercury/rpc/base" (Some " agent "))
    (sample_read (HttpBody "" (Some (VDict [("secret", VDict [("value", VStr "https://rpc")])])))) (Ok "https://rpc").
Proof. replay. Qed.

(** A secret that is missing at the second read is an [HTTPError] of the client, which the store reports as unavailable. *)
Example missing_after_retry :
  may (client_get_secret sample_client "vault" " /mercury/rpc/base" (Some " agent ")) (sample_read (HttpStatus 404 "" None))
    (Err (http_error 404)).
Proof. replay. Qed.

Lemma secret_read_contract_witness :
  py_strip " agent " <> "" /\
  hosted_run sample_client "vault" " /mercury/rpc/base" (py_strip " agent ")
    (sample_read (HttpBody "" (Some (VDict [("secret", VDict [("value", VStr "https://rpc")])])))) (Ok "https://rpc").
Proof. split; [done|]. apply secret_read_contract; [done | exact sample_read_may]. Defined.
