(* ===== verification/ToolsSpec.v ===== *)
(** What the read-only tools promise to the graph that runs them: they only read, and they answer with what the graph
    prints. *)
From stdpp Require Import base tactics option list sets strings gmap.
From Stdlib Require Import ZArith Lia Ascii String.
From S2P Require Import Prelude Python Values Exceptions Amounts Redaction Errors Addresses Chains Models SwapModels Prog Effects.
From S2P Require Import Erc20 Intents Networks ReadIntents Alchemy Graph State Pipeline ReadGraph ReadGraphSpec Io Custody Web Ens.
From S2P Require Import InvokeIntent Runtime RuntimeSpec Http AlchemyClients Tools.

Local Open Scope string_scope.
Local Open Scope Z_scope.

#[local] Opaque get_chain_by_name.

(** * Reading only *)

Lemma dict_get_of_update {A} (d l : list (string * A)) k v :
  dict_get (dict_update d l) k = Some v -> dict_get d k = Some v \/ (k, v) ∈ l.
Proof.
  revert d. induction l as [|[k' v'] l IH]; intros d; simpl; [by left|]. intros [H|H]%IH; [|right; set_solver].
  rewrite dict_get_set in H. destruct (String.eqb_spec k k') as [->|]; [right|by left]. injection H as <-. by left.
Qed.

(** The calls of a program of the node are those of its lifting. *)
Lemma lift_node_harmless {A} (p : node A) : calls (fun i => harmless (NodeIO i)) p -> calls harmless (lift_node p).
Proof.
  intros Hp tr a (above & Hm & Hr)%may_interp. apply Forall_forall. intros ev Hin.
  destruct (realises_in _ _ _ _ Hr Hin) as (e & b & tr' & He & (b' & tr'' & -> & [-> ->]) & Hev).
  apply list_elem_of_singleton in Hev as ->. apply Hp in Hm. rewrite Forall_forall in Hm. by apply (Hm _ He).
Qed.

Lemma lift_wallet_harmless {A} (p : wallet A) :
  calls (fun e => harmless (NodeIO (Outside e))) p -> calls harmless (lift_wallet p).
Proof.
  intros Hp tr a (above & -> & Hm)%may_lift_wallet. apply Hp in Hm. rewrite Forall_map. eapply Forall_impl; [exact Hm | done].
Qed.

(** Programs built from harmless calls. *)
Ltac harmless_calls := solve_calls.

Lemma secret_reads store path : calls (fun i => harmless (NodeIO i)) (store_get_secret store path).
Proof. unfold store_get_secret. harmless_calls. Qed.

Lemma provider_reads `{W : Web3} settings store chain :
  calls (fun i => harmless (NodeIO i)) (Web3ProviderFactory_create settings store chain).
Proof. unfold Web3ProviderFactory_create, resolve_rpc_url. harmless_calls; apply secret_reads. Qed.

Lemma erc20_reads `{W : Web3} chain token wallet spender :
  calls (fun e => harmless (NodeIO (Outside e))) (get_erc20_metadata chain token) /\
  calls (fun e => harmless (NodeIO (Outside e))) (get_erc20_balance chain token wallet) /\
  calls (fun e => harmless (NodeIO (Outside e))) (get_erc20_allowance chain token wallet spender).
Proof.
  unfold get_erc20_metadata, get_erc20_balance, get_erc20_allowance, create_provider, read_decimals, contract_call,
    _optional_text_call. split_and!; harmless_calls.
Qed.

Lemma http_post_harmless base http path payload headers :
  UrllibJsonHttpClient base = Ok http -> calls harmless (post_json http path payload headers).
Proof.
  unfold UrllibJsonHttpClient. destruct (str_empty _); [done|]. intros [= <-]. simpl. unfold _send, urlopen. harmless_calls.
Qed.

Lemma http_get_harmless base http path params headers :
  UrllibJsonHttpClient base = Ok http -> calls harmless (get_json http path params headers).
Proof.
  unfold UrllibJsonHttpClient. destruct (str_empty _); [done|]. intros [= <-]. simpl. unfold _send, urlopen. harmless_calls.
Qed.

Section harmless.
Context `{W : Web3} {P : PydanticLax} (settings : MercurySettings) (store : OneClawSecretStore).

Lemma api_key_harmless client : calls harmless (alchemy_api_key client).
Proof. unfold alchemy_api_key. harmless_calls. apply lift_node_harmless, secret_reads. Qed.

(** A client is made where it is used. *)
Lemma with_client_harmless {A} base (k : JsonHttpClient -> online (result exn A)) :
  (forall http, UrllibJsonHttpClient base = Ok http -> calls harmless (k http)) ->
  calls harmless (bind_exn (pure (UrllibJsonHttpClient base)) k).
Proof.
  intros Hk. unfold bind_exn, pure. simpl. destruct (UrllibJsonHttpClient base) as [http|] eqn:E; [by apply Hk | apply calls_ret].
Qed.

Lemma alchemy_harmless client :
  (forall entries, calls harmless (fetch_prices_by_address client entries)) /\
  (forall w cs a b c d p, calls harmless (fetch_tokens_for_wallet settings client w cs a b c d p)) /\
  (forall m w di cs f t n p a b, calls harmless (fetch_transfers_for_wallet settings client m w di cs f t n p a b)).
Proof.
  unfold fetch_prices_by_address, fetch_tokens_for_wallet, fetch_transfers_for_wallet.
  split_and!; intros;
    repeat first [ apply calls_ret_ok | apply calls_pure | apply calls_ret | apply api_key_harmless
                 | apply with_client_harmless; intros http Hhttp | apply calls_bind_exn; [|intros ?] | case_match
                 | by eapply http_post_harmless ].
Qed.

Lemma tools_harmless prices portfolio transfers name f :
  dict_get (from_provider_factory settings store prices portfolio transfers) name = Some f ->
  forall input, calls harmless (f input).
Proof.
  intros [[=]|Hin]%dict_get_of_update input.
  assert (forall A (schema : dict -> result exn A) func, (forall a, calls harmless (func a)) -> calls harmless (structured schema func input))
    as Hs by (intros A schema func Hf; unfold structured; harmless_calls; apply Hf).
  assert (forall chain, calls harmless (create_web3_provider settings store chain)) as Hp
    by (intros; apply lift_node_harmless, provider_reads).
  unfold create_readonly_tools, create_evm_tools, create_erc20_tools, create_known_address_tools in Hin.
  rewrite !elem_of_app, !elem_of_cons in Hin.
  destruct Hin as [[[Hi|[Hi|Hi]]|[[Hi|[Hi|[Hi|Hi]]]|[Hi|Hi]]]|[Hi|[Hi|Hi]]];
    try (by apply not_elem_of_nil in Hi); try (injection Hi as -> ->; apply Hs).
  - intros i. unfold get_native_balance. harmless_calls. apply Hp.
  - intros i. unfold read_contract. harmless_calls. apply Hp.
  - intros i. harmless_calls. by apply lift_wallet_harmless, (erc20_reads _ _ "" "").
  - intros i. harmless_calls. by apply lift_wallet_harmless, (erc20_reads _ _ _ "").
  - intros i. harmless_calls. by apply lift_wallet_harmless, erc20_reads.
  - intros [[chain category] key]. harmless_calls.
  - destruct prices as [c|]; [|by apply not_elem_of_nil in Hi]. apply list_elem_of_singleton in Hi. injection Hi as -> ->. apply Hs.
    intros d. unfold get_token_prices. apply calls_bind_exn; [apply calls_pure | intros p; apply (alchemy_harmless c)].
  - destruct portfolio as [c|]; [|by apply not_elem_of_nil in Hi]. apply list_elem_of_singleton in Hi. injection Hi as -> ->. apply Hs.
    intros d. unfold get_portfolio_tokens. apply calls_bind_exn; [apply calls_pure | intros p; apply (alchemy_harmless c)].
  - destruct transfers as [c|]; [|by apply not_elem_of_nil in Hi]. apply list_elem_of_singleton in Hi. injection Hi as -> ->. apply Hs.
    intros d. unfold get_transfer_history. apply calls_bind_exn; [apply calls_pure | intros p; apply (alchemy_harmless c)].
Qed.

Lemma registry_reads prices portfolio transfers name input :
  calls harmless (execute (from_provider_factory settings store prices portfolio transfers) name input).
Proof.
  unfold execute. destruct (dict_get _ name) as [f|] eqn:E; [|apply calls_ret].
  apply calls_bind_exn; [by eapply tools_harmless|]. intros []; apply calls_ret.
Qed.

Lemma ens_resolver_reads raw chain : calls harmless (resolve_evm_identifier settings store raw chain).
Proof.
  unfold resolve_evm_identifier, forward_lookup. harmless_calls. apply lift_node_harmless, provider_reads.
Qed.
End harmless.

(** * Answering with what is printed *)

Section printable.
Context `{W : Web3} {P : PydanticLax} (settings : MercurySettings) (store : OneClawSecretStore).

(** The display of a normalised row was computed from the fields the formatter reads again. *)
Lemma portfolio_row_summary wallet row v :
  normalize_portfolio_token_row wallet row = Ok v -> exists d t, v = VDict d /\ portfolio_summary d = Ok t.
Proof.
  unfold normalize_portfolio_token_row. cbv zeta. intros (display & Hd & [= <-])%result_bind_ok.
  eexists _, _. split; [reflexivity|]. unfold portfolio_summary.
  set (balance := row_balance (get row "tokenBalance")) in *. set (token := row_token (get row "tokenAddress")) in *.
  set (meta := row_metadata (get row "tokenMetadata")) in *.
  assert (compute_portfolio_balance_display balance (as_str (of_opt_str token)) (as_dict (of_opt_dict meta)) = Ok display) as E
    by (by destruct token, meta).
  cbn -[compute_portfolio_balance_display]. rewrite E. reflexivity.
Qed.

Lemma portfolio_rows_summaries rows wallet l :
  normalize_portfolio_token_rows rows wallet = Ok l ->
  Forall (fun row => exists t, portfolio_summary row = Ok t) (dict_rows (VList l)).
Proof.
  revert l. induction rows as [|row rows IH]; intros l; simpl; [by intros [= <-]|].
  intros (v & (d & t & -> & Ht)%portfolio_row_summary & (l' & Hl & [= <-])%result_bind_ok)%result_bind_ok.
  simpl. constructor; [by eexists | by apply (IH l')].
Qed.

Lemma fetched_tokens_printable client w cs a b c d p tr out :
  may (fetch_tokens_for_wallet settings client w cs a b c d p) tr (Ok out) -> printable PORTFOLIO_TOKENS out.
Proof.
  unfold fetch_tokens_for_wallet. intros H. apply may_guard_ok in H as [_ H]. inv_run. simplify_eq.
  split; [by intros key Hk%not_elem_of_nil|]. intros _. by eapply portfolio_rows_summaries.
Qed.

(** A structured tool answers with the object of its function. *)
Lemma structured_answer {A} (schema : dict -> result exn A) func input tr v :
  may (structured schema func input) tr (Ok v) -> exists i tr' out, v = VDict out /\ may (func i) tr' (Ok out).
Proof. unfold structured. intros H. inv_run. simplify_eq. by eexists _, _, _. Qed.

Ltac find_key H := cbn [answer_keys] in H; rewrite !elem_of_cons in H; destruct_or! H; try (by apply not_elem_of_nil in H); subst; by eexists.

Lemma registry_prints prices portfolio transfers k input tr out :
  may (execute (from_provider_factory settings store prices portfolio transfers) (tool_for k) input) tr (Ok out) -> printable k out.
Proof.
  unfold execute. destruct (dict_get _ (tool_for k)) as [f|] eqn:Hf; [|by intros [_ [=]]].
  intros (tr1 & tr2 & v & -> & Hv & Hout)%may_bind_ok. destruct v as [| | | | | |d]; try by destruct Hout as [_ [=]].
  destruct Hout as [-> [= ->]]. apply dict_get_of_update in Hf as [[=]|Hin].
  unfold create_readonly_tools, create_evm_tools, create_erc20_tools, create_known_address_tools in Hin.
  rewrite !elem_of_app, !elem_of_cons in Hin.
  destruct Hin as [[[Hi|[Hi|Hi]]|[[Hi|[Hi|[Hi|Hi]]]|[Hi|Hi]]]|[Hi|[Hi|Hi]]]; try (by apply not_elem_of_nil in Hi);
    [..|destruct prices as [cl|]; [apply list_elem_of_singleton in Hi | by apply not_elem_of_nil in Hi]
       |destruct portfolio as [cl|]; [apply list_elem_of_singleton in Hi | by apply not_elem_of_nil in Hi]
       |destruct transfers as [cl|]; [apply list_elem_of_singleton in Hi | by apply not_elem_of_nil in Hi]];
    unfold create_alchemy_token_prices_tool, create_alchemy_portfolio_tokens_tool, create_alchemy_transfer_history_tool in Hi;
    injection Hi as Hk ->; destruct k; try discriminate Hk; clear Hk;
    apply structured_answer in Hv as (i & tr' & out' & [= <-] & Hv); try (split; [|done]; intros key Hkey).
  - inv_run. simplify_eq. find_key Hkey.
  - inv_run. simplify_eq. find_key Hkey.
  - inv_run. simplify_eq. find_key Hkey.
  - inv_run. simplify_eq. find_key Hkey.
  - inv_run. simplify_eq. find_key Hkey.
  - destruct i as [[chain category] key']. apply may_pure_ok in Hv as [_ Hv]. unfold resolve_known_address in Hv.
    apply result_bind_ok in Hv as (cr & _ & (address & _ & (cid & _ & [= <-])%result_bind_ok)%result_bind_ok). find_key Hkey.
  - by apply not_elem_of_nil in Hkey.
  - unfold get_portfolio_tokens in Hv. inv_run. by eapply fetched_tokens_printable.
  - by apply not_elem_of_nil in Hkey.
Qed.
End printable.
