(* ===== verification/AdapterSpec.v ===== *)
(** What the swap adapters promise to the swap graph, whatever the providers answer. *)
From stdpp Require Import base tactics option list sets strings gmap.
From Stdlib Require Import ZArith Lia Ascii String.
From S2P Require Import Prelude Python Values Exceptions Amounts Redaction Errors Addresses Chains Models SwapModels Policy Prog Effects.
From S2P Require Import Swaps SwapSpec PipelineSpec TokenTransactions TokenSpec EndToEnd Alchemy Io Custody Web RuntimeSpec Http ToolsSpec Floats SwapAdapters.

Local Open Scope string_scope.
Local Open Scope Z_scope.

(** A quote is of the provider, for the request, and in the terms of the request. *)
Record quote_promise `{W : Web3} (name : SwapProviderName) (rq : SwapQuoteRequest) (q : SwapQuote) : Prop := {
  qp_request : qu_request q = rq;
  qp_wf : wf_SwapQuote q;
  qp_provider : qu_provider q = name;
  qp_amount : qu_amount_in_raw q = sq_amount_in_raw rq /\ 0 < qu_expected_amount_out_raw q;
  qp_chains : ro_from_chain_id (qu_route q) = sq_chain_id rq /\
    ro_to_chain_id (qu_route q) = default (sq_chain_id rq) (sq_to_chain_id rq);
  qp_tokens : ro_from_token (qu_route q) = sq_from_token rq /\ ro_to_token (qu_route q) = sq_to_token rq;
  qp_recipient : qu_recipient_address q = effective_recipient rq
}.

(** An execution is of the quote; its transaction is for the chain of the request. *)
Record execution_promise `{W : Web3} (name : SwapProviderName) (q : SwapQuote) (e : SwapExecution) : Prop := {
  ep_quote : se_quote e = q;
  ep_wf : wf_SwapExecution e;
  ep_provider : se_provider e = name /\ qu_provider q = name;
  ep_chain t : se_transaction e = Some t -> sx_chain_id t = sq_chain_id (qu_request q)
}.

Section spec.
Context `{W : Web3} {I : IsoFormat}.

Lemma make_SwapRoute_spender p id k c1 c2 f t s st ro :
  make_SwapRoute p id k c1 c2 f t s st = Ok ro -> wf_address_opt (ro_spender_address ro).
Proof. unfold make_SwapRoute. intros H. inv_valid. by eapply v_opt_field_ok. Qed.

Lemma promised_quote name rq p id k c1 c2 f t s st ro ai eo mo sb ex ra raw q :
  wf_SwapQuoteRequest rq -> make_SwapRoute p id k c1 c2 f t s st = Ok ro ->
  make_SwapQuote name rq ro ai eo mo sb ex ra raw = Ok q -> quote_promise name rq q.
Proof.
  intros Hrq Hro%make_SwapRoute_spender Hq. destruct (make_SwapQuote_wf _ _ _ _ _ _ _ _ _ _ _ Hrq Hro Hq) as (Hwf & _ & Hn & _).
  apply make_SwapQuote_ok in Hq as (? & Hr & _ & ? & ? & ? & ? & ? & ? & ?). by split; rewrite ?Hr.
Qed.

Lemma promised_execution name ty q t o ur raw e :
  wf_SwapQuote q ->
  (forall x, t = Some x -> normalized (sx_to x) /\ is_hex_data (sx_data x) = true /\ 0 <= sx_value_wei x /\
     sx_chain_id x = sq_chain_id (qu_request q)) ->
  make_SwapExecution name ty q t o ur raw = Ok e -> execution_promise name q e.
Proof.
  intros Hq Ht He.
  assert (se_transaction e = t) as Hst.
  { revert He. unfold make_SwapExecution. intros He. inv_valid. unfold v_any in *. by simplify_eq. }
  assert (forall x, t = Some x -> normalized (sx_to x) /\ is_hex_data (sx_data x) = true /\ 0 <= sx_value_wei x) as Ht'
    by (intros x (? & ? & ? & _)%Ht; done).
  destruct (make_SwapExecution_wf name ty q t o ur raw e Hq Ht' He) as (Hwf & Hse & Hp).
  assert (qu_provider q = name) as Hn.
  { destruct Hwf as (_ & Hv & _). unfold validate_execution_payload in Hv. rewrite Hse, Hp in Hv.
    by destruct (bool_decide_reflect (name = qu_provider q)). }
  split; try done. intros x. rewrite Hst. intros (_ & _ & _ & ?)%Ht. done.
Qed.

Lemma transaction_of_ok q payload x :
  LiFi.transaction_of q payload = Ok x ->
  normalized (sx_to x) /\ is_hex_data (sx_data x) = true /\ 0 <= sx_value_wei x /\ sx_chain_id x = sq_chain_id (qu_request q).
Proof.
  unfold LiFi.transaction_of. intros (to & _ & (data & _ & (v & _ & H)%result_bind_ok)%result_bind_ok)%result_bind_ok.
  apply make_SwapEVMTransaction_ok in H as (? & ? & ? & ? & _). done.
Qed.

(** The interface of a provider towards the swap graph. *)
Record keeps_promise (name : SwapProviderName) (p : SwapProvider) : Prop := {
  pp_quotes rq tr q : wf_SwapQuoteRequest rq -> may (pr_get_quote p rq) tr (Ok q) -> quote_promise name rq q;
  pp_executions q tr e : wf_SwapQuote q -> may (pr_build_execution p q) tr (Ok e) -> execution_promise name q e;
  pp_only_reads : (forall rq, calls harmless (pr_get_quote p rq)) /\ (forall q, calls harmless (pr_build_execution p q))
}.

(** What the transaction pipeline assumes of the answers of a provider. *)
Lemma promise_good name p :
  keeps_promise name p ->
  (forall rq tr r, wf_SwapQuoteRequest rq -> may (pr_get_quote p rq) tr r -> good_answer (GetQuote name rq) r) /\
  (forall q tr r, wf_SwapQuote q -> may (pr_build_execution p q) tr r -> good_answer (BuildExecution name q) r).
Proof.
  intros [Hq He _]. split; intros x tr r Hx Hm y ->; [destruct (Hq _ _ _ Hx Hm) | destruct (He _ _ _ Hx Hm)]; done.
Qed.

(** * The three adapters *)

Lemma lifi_quote config http rq tr q :
  wf_SwapQuoteRequest rq -> may (LiFi.get_quote config http rq) tr (Ok q) -> quote_promise LIFI rq q.
Proof.
  unfold LiFi.get_quote, LiFi._normalize_quote. intros Hrq H. inv_run.
  destruct (get _ "action") as [| | | | | |action]; try by destruct H as [_ [=]].
  inv_run. by eapply promised_quote.
Qed.

Lemma cowswap_quote config http rq tr q :
  wf_SwapQuoteRequest rq -> may (CowSwap.get_quote config http rq) tr (Ok q) -> quote_promise COWSWAP rq q.
Proof.
  unfold CowSwap.get_quote. intros Hrq H. inv_run.
  destruct (get _ "quote") as [| | | | | |payload]; try by destruct H as [_ [=]].
  inv_run. by eapply promised_quote.
Qed.

Lemma uniswap_quote config http rq tr q :
  wf_SwapQuoteRequest rq -> may (Uniswap.get_quote config http rq) tr (Ok q) -> quote_promise UNISWAP rq q.
Proof. unfold Uniswap.get_quote. intros Hrq H. inv_run. by eapply promised_quote. Qed.

Lemma lifi_execution q e : wf_SwapQuote q -> LiFi.build_execution q = Ok e -> execution_promise LIFI q e.
Proof.
  unfold LiFi.build_execution. intros Hq.
  destruct (get _ "transactionRequest") as [| | | | | |payload];
    try (intros H; by eapply (promised_execution LIFI); [done| |exact H]).
  intros (x & Hx & H)%result_bind_ok. eapply promised_execution; [done| |exact H].
  intros ? [= <-]. by eapply transaction_of_ok.
Qed.

Lemma cowswap_execution config q e :
  wf_SwapQuote q -> CowSwap.build_execution config q = Ok e -> execution_promise COWSWAP q e.
Proof.
  unfold CowSwap.build_execution. cbv zeta. intros Hq.
  destruct (py_or _ _) as [| | | | | |payload]; try (intros H; by eapply (promised_execution COWSWAP); [done| |exact H]).
  destruct (get _ "typedData") as [| | | | | |typed_data]; try (intros H; by eapply (promised_execution COWSWAP); [done| |exact H]).
  intros (slug & _ & (o & _ & H)%result_bind_ok)%result_bind_ok. by eapply (promised_execution COWSWAP); [done| |exact H].
Qed.

Lemma uniswap_execution config http q tr e :
  wf_SwapQuote q -> may (Uniswap.build_execution config http q) tr (Ok e) -> execution_promise UNISWAP q e.
Proof.
  unfold Uniswap.build_execution. intros Hq H. inv_run.
  destruct (get _ "transaction") as [| | | | | |payload]; inv_run;
    (eapply (promised_execution UNISWAP); [exact Hq| |eassumption]); try (intros ? [=]; fail).
  intros ? [= <-]. by eapply transaction_of_ok.
Qed.

(** * They send requests and nothing else *)

Lemma provider_harmless config p :
  provider_of config = Ok p ->
  (forall rq, calls harmless (pr_get_quote p rq)) /\ (forall q, calls harmless (pr_build_execution p q)).
Proof.
  unfold provider_of. intros (http & Hhttp & [= <-])%result_bind_ok.
  assert (forall name prefix, calls harmless (auth_header name prefix config)) as Hauth.
  { intros. unfold auth_header, provider_api_key. harmless_calls. apply lift_node_harmless, secret_reads. }
  assert (forall path payload headers, calls harmless (post_json http path payload headers)) as Hpost
    by (intros; by eapply http_post_harmless).
  assert (forall path payload headers, calls harmless (get_json http path payload headers)) as Hget
    by (intros; by eapply http_get_harmless).
  assert (calls harmless in_five_minutes) as Hfive.
  { unfold in_five_minutes. harmless_calls. }
  destruct (sp_provider config); simpl; split; intros;
    unfold LiFi.get_quote, LiFi._headers, LiFi._normalize_quote, LiFi._expiry, CowSwap.get_quote, CowSwap._headers, CowSwap._expiry,
      Uniswap.get_quote, Uniswap.build_execution, Uniswap._headers;
    repeat first [apply Hauth | apply Hpost | apply Hget | apply Hfive | apply calls_ret_ok | apply calls_pure | apply calls_ret
                 | apply calls_bind_exn; [|intros ?] | case_match].
Qed.

Lemma adapters_keep_promise config p : provider_of config = Ok p -> keeps_promise (sp_provider config) p.
Proof.
  intros Hp. pose proof (provider_harmless _ _ Hp) as [Hq He]. apply result_bind_ok in Hp as (http & _ & [= <-]).
  revert Hq He. destruct (sp_provider config); intros Hq He; (split; [| |by split]); intros ? ? ? ? Hm;
    unfold LiFi.LiFiProvider, CowSwap.CowSwapProvider, Uniswap.UniswapProvider in Hm; cbn [pr_get_quote pr_build_execution] in Hm.
  - by eapply lifi_quote.
  - apply may_pure_ok in Hm as [_ Hm]. by eapply lifi_execution.
  - by eapply cowswap_quote.
  - apply may_pure_ok in Hm as [_ Hm]. by eapply cowswap_execution.
  - by eapply uniswap_quote.
  - by eapply uniswap_execution.
Qed.

(** * The claim *)

(** C12. Each of the three adapters, over its HTTP client, keeps the promise of a swap provider whatever the server answers:
    a quote it returns is its own, for the request, with the amount, chains, tokens and recipient of the request and a
    positive output; an execution it returns is of the quote it was given, with a well-formed transaction for the chain of
    the request; and neither signs or sends anything.  These are the answers that the transaction pipeline assumes. *)
Theorem swap_adapters_keep_promises (config : SwapProviderConfig) (p : SwapProvider) (Hp : provider_of config = Ok p) :
  keeps_promise (sp_provider config) p /\
  (forall rq tr r, wf_SwapQuoteRequest rq -> may (pr_get_quote p rq) tr r ->
     good_answer (GetQuote (sp_provider config) rq) r) /\
  (forall q tr r, wf_SwapQuote q -> may (pr_build_execution p q) tr r ->
     good_answer (BuildExecution (sp_provider config) q) r).
Proof. pose proof (adapters_keep_promise _ _ Hp) as Hpp. split; [done | by apply promise_good]. Qed.
End spec.

(** * A quote of LiFi *)

#[export] Instance sample_iso_format : IsoFormat := fun s => Err (ValueError ("Invalid isoformat string: " ++ py_repr_str s)).

Definition sample_lifi : SwapProviderConfig := default_for default_settings LIFI None.

Definition lifi_request : SwapQuoteRequest :=
  {| sq_wallet_id := "w1"; sq_wallet_address := sample_wallet; sq_chain := "base"; sq_chain_id := 8453;
     sq_from_token := sample_token; sq_to_token := sample_peer; sq_amount_in := "1.5"; sq_amount_in_raw := 1500000;
     sq_max_slippage_bps := None; sq_min_amount_out := None; sq_recipient_address := None; sq_idempotency_key := "k1";
     sq_to_chain := None; sq_to_chain_id := None; sq_from_token_is_native := false; sq_wrapped_from_token := None |}.

(** The body of an answer, with the amount LiFi says it takes. *)
Definition lifi_body (from_amount : pyval) : dict :=
  [("id", VStr "route-7");
   ("action", VDict [("fromChainId", VInt 8453); ("toChainId", VInt 8453); ("fromToken", VDict [("address", VStr sample_token)]);
                     ("toToken", VDict [("address", VStr sample_peer)])]);
   ("estimate", VDict [("fromAmount", from_amount); ("toAmount", VStr "2000000"); ("approvalAddress", VStr sample_peer);
                       ("expiresAt", VInt 1709210096)])].

Definition lifi_answer (body : dict) (c : web) : ans c -> ans c :=
  match c return ans c -> ans c with
  | HttpRequest _ => fun _ => HttpBody "" (Some (VDict body))
  | _ => fun a => a
  end.
Definition lifi_answers (body : dict) (c : web) (u : unit) : unit * ans c := (u, lifi_answer body c (client_handler c ∅).2).

Definition lifi_run (body : dict) : result exn (Z * Z * option datetime) :=
  match provider_of sample_lifi with
  | Ok p => match (run_prog (lifi_answers body) (pr_get_quote p lifi_request) tt).2 with
            | Ok q => Ok (qu_amount_in_raw q, qu_expected_amount_out_raw q, qu_expires_at q)
            | Err e => Err e
            end
  | Err e => Err e
  end.

Example lifi_run_ok : lifi_run (lifi_body (VStr "1500000")) = Ok (1500000, 2000000, Some (Aware 1709210096000000)).
Proof. vm_compute. reflexivity. Qed.

(** A quote for another amount is refused. *)
Example lifi_run_other : is_ok (lifi_run (lifi_body (VStr "1500001"))) = false.
Proof. vm_compute. reflexivity. Qed.

Lemma swap_adapters_keep_promises_witness :
  exists p, provider_of sample_lifi = Ok p /\ keeps_promise LIFI p.
Proof. eexists. split; [reflexivity|]. exact (proj1 (swap_adapters_keep_promises sample_lifi _ eq_refl)). Defined.
