(* ===== verification/Service.v ===== *)
(** The service's wiring ([mercury/service/dependencies.py]): the secret store, the swap providers and the runtime built
    from the settings and the environment, and a request served by them down to HTTP, the nodes and the clock. *)
From stdpp Require Import base tactics option list sets strings.
From Stdlib Require Import ZArith Lia Ascii String.
From S2P Require Import Prelude Python Values Exceptions Redaction Errors Addresses Chains Models SwapModels Policy Prog Effects Swaps.
From S2P Require Import Graph State Intents Transactions Pipeline Preparation ReadGraph Io Custody Backend Web Ens Runtime.
From S2P Require Import Http AlchemyClients Tools Floats SwapAdapters.

Local Open Scope string_scope.
Local Open Scope Z_scope.
Local Open Scope prog_scope.

Section service.
Context {W : Web3} {I : IsoFormat} {P : PydanticLax} {PT : PydanticText} {K : EthAccount}.
Context {G : LangGraph effect MercuryState} {GR : LangGraph web MercuryState}.

(** [get_secret_store] over [os.environ]: the client and the store it serves. *)
Definition get_secret_store (environ : string -> option string) (settings : MercurySettings)
    : result exn (OneClawHttpClient * OneClawSecretStore) :=
  let unavailable := Err (Exn DependencyUnavailableErrorC "1Claw API key source is not configured.") in
  match environ (ms_oneclaw_api_key_secret_source settings) with
  | None => unavailable
  | Some api_key =>
      if str_empty (py_strip api_key) then unavailable else
      client ← make_OneClawHttpClient (ms_oneclaw_base_url settings) api_key;
      store ← make_OneClawSecretStore (ms_oneclaw_vault_id settings) (ms_oneclaw_agent_id settings);
      Ok (client, store)
  end.

Definition _swap_config (provider : SwapProviderName) (settings : MercurySettings) (secret_store : OneClawSecretStore)
    : SwapProviderConfig :=
  {| sp_provider := provider;
     sp_base_url := match provider with LIFI => "https://li.quest/v1" | COWSWAP => "https://api.cow.fi"
                                      | UNISWAP => "https://api.uniswap.org" end;
     sp_api_secret_path := Some match provider with LIFI => ms_lifi_api_secret_path settings
                                                  | COWSWAP => ms_cowswap_api_secret_path settings
                                                  | UNISWAP => ms_uniswap_api_secret_path settings end;
     sp_secret_store := Some secret_store |}.

(** [get_swap_router]: the providers by name; the router knows their names. *)
Definition get_swap_router (settings : MercurySettings) (secret_store : OneClawSecretStore)
    : result exn (SwapProviderName -> SwapProvider) :=
  lifi ← provider_of (_swap_config LIFI settings secret_store);
  cowswap ← provider_of (_swap_config COWSWAP settings secret_store);
  uniswap ← provider_of (_swap_config UNISWAP settings secret_store);
  Ok (fun name => match name with LIFI => lifi | COWSWAP => cowswap | UNISWAP => uniswap end).

(** The tools of [from_provider_factory] with those over Alchemy when a path for its key is set. *)
Definition service_registry (settings : MercurySettings) (secret_store : OneClawSecretStore)
    : @ReadOnlyToolRegistry web _ :=
  let alchemy_path := py_strip (ms_alchemy_api_secret_path settings) in
  let alchemy := if str_empty alchemy_path then None
                 else Some {| ac_secret_store := secret_store; ac_api_key_secret_path := alchemy_path |} in
  from_provider_factory settings secret_store alchemy alchemy alchemy.

Definition service_swap_deps : SwapGraphDependencies :=
  {| sd_router := make_SwapRouter [LIFI; COWSWAP; UNISWAP]; sd_policy_config := default_swap_policy |}.

(** What the process holds once [build_standalone_graph_runtime] returned. *)
Record standalone := {
  sa_client : OneClawHttpClient;
  sa_store : OneClawSecretStore;
  sa_providers : SwapProviderName -> SwapProvider;
  sa_runtime : MercuryGraphRuntime
}.

Definition build_standalone_graph_runtime
    (compile_read : StateGraph web MercuryState -> InvokableGraph) (compile_wallet : StateGraph effect MercuryState -> InvokableGraph)
    (environ : string -> option string) (settings : MercurySettings) : result exn standalone :=
  '(client, secret_store) ← get_secret_store environ settings;
  providers ← get_swap_router settings secret_store;
  Ok {| sa_client := client; sa_store := secret_store; sa_providers := providers;
        sa_runtime := build_default_runtime settings compile_read compile_wallet (service_registry settings secret_store)
                        default_dependencies service_swap_deps (ms_graph_node_logging settings)
                        (Some (resolve_evm_identifier settings secret_store)) |}.

(** * A request served by them *)

Context (settings : MercurySettings) (app : standalone).

(** The secrets come from 1Claw over HTTP, quotes and executions from the adapters; what is left goes to the nodes, the
    clock, the contracts and the idempotency store. *)
Definition answer_node (c : io) : online (ans c) :=
  match c return online (ans c) with
  | ClientGetSecret vault_id path agent_id => over_http (sa_client app) (NodeIO (ClientGetSecret vault_id path agent_id))
  | Outside (GetQuote name request) => interp (over_http (sa_client app)) (pr_get_quote (sa_providers app name) request)
  | Outside (BuildExecution name quote) => interp (over_http (sa_client app)) (pr_build_execution (sa_providers app name) quote)
  | c => Call (NodeIO c) Ret
  end.

(** A call of the wallet is answered by the backend and the signer. *)
Definition answer_wallet (e : effect) : online (ans e) :=
  interp answer_node (implement settings (sa_store app) RequestMetadataTransactionApprover.request_approval e).

Definition answer_io (c : io) : online (ans c) :=
  match c return online (ans c) -> online (ans c) with Outside e => fun _ => answer_wallet e | _ => fun p => p end (answer_node c).

Definition answer (c : web) : online (ans c) :=
  match c return online (ans c) -> online (ans c) with NodeIO i => fun _ => answer_io i | _ => fun p => p end (Call c Ret).

Definition service_invoke (state : MercuryState) : online (result exn MercuryState) :=
  interp answer (runtime_invoke settings (sa_runtime app) state).
End service.
