(* ===== verification/SwapCalls.v ===== *)
(** What a wallet graph asks of a swap provider: quotes for well-formed requests, and executions of the quotes it got. *)
From stdpp Require Import base tactics option list sets strings gmap.
From Stdlib Require Import ZArith Lia Ascii String.
From S2P Require Import Prelude Python Values Exceptions Amounts Redaction Errors Addresses Chains Models SwapModels Policy Prog Effects.
From S2P Require Import Erc20 Intents TokenTransactions Swaps SwapSpec Graph State Transactions Pipeline Preparation PipelineSpec PreparationSpec.

Local Open Scope string_scope.
Local Open Scope Z_scope.

(** What a provider may rely on. *)
Definition asked `{W : Web3} (e : effect) : Prop :=
  match e with GetQuote _ rq => wf_SwapQuoteRequest rq | BuildExecution _ q => wf_SwapQuote q | _ => True end.

Definition swap_call (e : effect) : bool := match e with GetQuote _ _ | BuildExecution _ _ => true | _ => false end.

(** As long as the answers are good, the calls are ones a provider may rely on. *)
Definition guarded `{W : Web3} {A} (p : wallet A) : Prop :=
  forall tr a, may p tr a -> forall t1 ev t2, tr = (t1 ++ ev :: t2)%list -> Forall good t1 -> asked (ev_call ev).

Section spec.
Context `{W : Web3} {L : Web3Laws W} {PT : PydanticText} {PL : PydanticLax} (settings : MercurySettings).

Lemma guarded_calls {A} (p : wallet A) : calls (fun e => swap_call e = false) p -> guarded p.
Proof.
  intros Hp tr a Hm t1 ev t2 -> _. apply Hp in Hm. apply Forall_app in Hm as [_ Hm].
  apply Forall_cons in Hm as [Hm _]. by destruct (ev_call ev).
Qed.

Lemma guarded_bind {A B} (p : wallet A) (f : A -> wallet B) :
  guarded p -> (forall tr a, may p tr a -> Forall good tr -> guarded (f a)) -> guarded (prog_bind p f).
Proof.
  intros Hp Hf tr b (tr1 & tr2 & a & -> & H1 & H2)%may_bind t1 ev t2 E Hg.
  apply app_eq_inv in E as [(k & E1 & E2)|(k & E1 & E2)].
  - destruct k as [|ev' k]; simpl in E2.
    + rewrite app_nil_r in E1. subst tr1. exact (Hf t1 a H1 Hg _ _ H2 [] ev t2 (eq_sym E2) (Forall_nil_2 _)).
    + injection E2 as <- _. exact (Hp _ _ H1 t1 ev k E1 Hg).
  - subst t1. apply Forall_app in Hg as [Hg1 Hg2]. exact (Hf tr1 a H1 Hg1 _ _ H2 k ev t2 E2 Hg2).
Qed.

Lemma guarded_bind_exn {A B} (p : wallet (result exn A)) (f : A -> wallet (result exn B)) :
  guarded p -> (forall tr a, may p tr (Ok a) -> Forall good tr -> guarded (f a)) -> guarded (bind_exn p f).
Proof.
  intros Hp Hf. apply guarded_bind; [done|]. intros tr [a|e] Hm Hg; [by eapply Hf|]. apply guarded_calls, calls_ret.
Qed.

Lemma guarded_call {A} e (k : ans e -> wallet A) : asked e -> (forall b, good (Ev e b) -> guarded (k b)) -> guarded (Call e k).
Proof.
  intros He Hk tr a (b & tr' & -> & H) [|ev' t1] ev t2 E Hg; injection E as <- E; [exact He|].
  apply Forall_cons in Hg as [Hb Hg]. exact (Hk b Hb _ _ H t1 ev t2 E Hg).
Qed.

(** Follow a program without swap calls, stopping at the calls that have a lemma. *)
Create HintDb swapless.
Ltac no_swap_calls := follow_calls ltac:(auto with swapless nocore).

Lemma metadata_no_swap chain token : calls (fun e => swap_call e = false) (get_erc20_metadata chain token).
Proof. unfold get_erc20_metadata, create_provider, read_decimals, _optional_text_call, contract_call. no_swap_calls. Qed.
Lemma balance_no_swap chain token owner : calls (fun e => swap_call e = false) (get_erc20_balance chain token owner).
Proof. unfold get_erc20_balance, create_provider, read_decimals, _optional_text_call, contract_call. no_swap_calls. Qed.
Lemma allowance_no_swap chain token owner spender :
  calls (fun e => swap_call e = false) (get_erc20_allowance chain token owner spender).
Proof. unfold get_erc20_allowance, create_provider, read_decimals, _optional_text_call, contract_call. no_swap_calls. Qed.

#[local] Hint Resolve metadata_no_swap balance_no_swap allowance_no_swap : swapless.

Lemma approval_no_swap chain wallet_id token spender amount key known unlimited small :
  calls (fun e => swap_call e = false) (prepare_erc20_approval chain wallet_id token spender amount key known unlimited small).
Proof.
  unfold prepare_erc20_approval, check_erc20_approval_preconditions, get_wallet_address.
  no_swap_calls.
Qed.

Lemma transfer_no_swap chain wallet_id token recipient amount key small :
  calls (fun e => swap_call e = false) (prepare_erc20_transfer chain wallet_id token recipient amount key small).
Proof.
  unfold prepare_erc20_transfer, check_erc20_transfer_preconditions, get_wallet_address.
  no_swap_calls.
Qed.

#[local] Hint Resolve approval_no_swap transfer_no_swap : swapless.

Lemma request_no_swap intent : calls (fun e => swap_call e = false) (swap_quote_request settings intent).
Proof.
  unfold swap_quote_request, get_wallet_address, resolve_sell_side. no_swap_calls.
Qed.

Lemma erc20_payment_no_swap payload : calls (fun e => swap_call e = false) (erc20_prepared payload).
Proof. unfold erc20_prepared. no_swap_calls. Qed.

#[local] Hint Resolve erc20_payment_no_swap : swapless.

Lemma execution_guarded router policy q d al :
  wf_SwapQuote q -> guarded (prepare_swap_execution settings router policy q d al).
Proof.
  intros Hq. unfold prepare_swap_execution, provider_build_execution. apply guarded_bind_exn; [apply guarded_calls, calls_pure|]. intros.
  apply guarded_bind_exn; [apply guarded_call; [exact Hq | intros; apply guarded_calls, calls_ret]|]. intros.
  apply guarded_calls. unfold execution_decision, utc_now. no_swap_calls.
Qed.

Lemma prepare_swap_guarded intent router policy : guarded (prepare_swap settings intent router policy).
Proof.
  unfold prepare_swap, get_quote, provider_get_quote. apply guarded_bind_exn; [apply guarded_calls, request_no_swap|].
  intros tr rq Hrq _. apply swap_request_ok in Hrq as [Hrq _ _ _ _ _ _ _].
  apply guarded_bind_exn.
  - apply guarded_bind_exn; [apply guarded_calls, calls_pure|]. intros.
    apply guarded_call; [exact Hrq | intros; apply guarded_calls, calls_ret].
  - intros tr' q Hq Hg. apply may_bind_ok in Hq as (t1 & t2 & pr & -> & [-> _]%may_pure_ok & (b & t3 & -> & [-> <-])).
    apply Forall_cons in Hg as [Hq _]. destruct (Hq q eq_refl) as [_ Hwf].
    unfold prepare_quoted_swap, quote_decision, check_swap_allowance, check_erc20_approval_preconditions, utc_now.
    apply guarded_bind_exn; [apply guarded_calls; no_swap_calls|]. intros. case_bool_decide; [apply guarded_calls, calls_ret_ok|].
    destruct (sq_from_token_is_native _); [by apply execution_guarded|].
    apply guarded_bind_exn; [apply guarded_calls; no_swap_calls|]. intros.
    destruct (sa_allowance_sufficient _); [by apply execution_guarded|].
    apply guarded_calls. no_swap_calls.
Qed.

(** * The graphs *)

Lemma run_graph_guarded limit (g : StateGraph effect MercuryState) s :
  Forall (fun nf => forall s, guarded (nf.2 s)) (sg_nodes g) -> guarded (run_graph merge_state limit g s).
Proof.
  intros Hn. unfold run_graph. destruct (successor g START s) as [first|]; [|apply guarded_calls, calls_ret].
  rewrite Forall_forall in Hn. generalize limit at 2. intros fuel. revert first s.
  induction fuel as [|fuel IH]; intros name s; simpl; [apply guarded_calls, calls_ret|].
  destruct (dict_get (sg_nodes g) name) as [f|] eqn:Ef; [|apply guarded_calls, calls_ret].
  apply guarded_bind_exn; [by apply (Hn (name, f)), dict_get_in|]. intros tr p _ _.
  destruct (successor g name (merge_state s p)) as [next|]; [|apply guarded_calls, calls_ret].
  destruct (String.eqb next END); [apply guarded_calls, calls_ret | apply IH].
Qed.

Lemma swap_node_guarded deps s : guarded (prepare_swap_transaction settings deps s).
Proof.
  unfold prepare_swap_transaction. apply guarded_bind.
  - repeat (apply guarded_bind_exn; [first [apply prepare_swap_guarded | apply guarded_calls, calls_pure] | intros]).
    apply guarded_calls, calls_ret_ok.
  - intros tr [[p payload]|e] _ _; apply guarded_calls; [apply calls_pure | apply calls_ret_ok].
Qed.

Lemma nodes_guarded deps kind : Forall (fun nf => forall s, guarded (nf.2 s)) (sg_nodes (wallet_graph settings deps kind)).
Proof.
  destruct kind; repeat (apply Forall_cons_2; [intros s; cbn [snd]|]); try apply Forall_nil_2;
    try apply swap_node_guarded; apply guarded_calls;
    unfold prepare_erc20_transaction, prepare_native_transaction, or_preparation_error, native_prepared, prepare_native_transfer,
      get_wallet_address, resolve_nonce, populate_gas_node, simulate_transaction, evaluate_policy, request_approval_node,
      check_idempotency, sign_transaction_node, broadcast_transaction, monitor_receipt, reject_transaction,
      _release_idempotency_after_pre_broadcast_failure, _finalize_idempotency_after_monitor_failure, sign_executable_transaction,
      resolve_chain_id, lookup_nonce, populate_gas, simulate, broadcast, wait_for_receipt, sign_transaction, request_approval,
      release, complete;
    no_swap_calls.
Qed.

(** Every call of a run of a wallet graph is one a provider may rely on, as long as the answers are good. *)
Lemma wallet_run_guarded {G : LangGraph effect MercuryState} {GL : LangGraphLaws merge_state G} deps kind s :
  guarded (invoke (wallet_graph settings deps kind) s).
Proof.
  intros tr a Hm. apply (invoke_runs merge_state _ _ (wallet_graph_sequential settings deps kind)) in Hm.
  by apply (run_graph_guarded _ _ _ (nodes_guarded deps kind)) in Hm.
Qed.
End spec.
