(* ===== verification/ServiceSpec.v ===== *)
(** The whole service: a request, answered down to HTTP and the nodes, sends nothing but the authorized transaction of its
    validated intent. *)
From stdpp Require Import base tactics option list sets strings gmap.
From Stdlib Require Import ZArith Lia Ascii String.
From S2P Require Import Prelude Python Values Exceptions Amounts Redaction Errors Addresses Chains Models SwapModels Policy Prog Effects.
From S2P Require Import Idempotency Intents TokenTransactions TokenSpec Swaps SwapSpec Graph State Transactions Pipeline Preparation PipelineSpec PreparationSpec.
From S2P Require Import Execution EndToEnd Io Custody Backend BackendSpec Deployment Web Ens InvokeIntent InvokeIntentSpec ReadGraph Runtime RuntimeSpec.
From S2P Require Import Http AlchemyClients Tools Floats SwapAdapters ToolsSpec AdapterSpec Service SwapCalls.

Local Open Scope string_scope.
Local Open Scope Z_scope.

#[local] Opaque get_chain_by_name get_chain_by_id.

(** What is left to assume of the answers: a node answers a raw transaction with the hex of a hash, and the store completes
    a key it reserved. *)
Definition service_good (ev : webevent) : Prop :=
  match ev_call ev as c return ans c -> Prop with
  | NodeIO (SendRawTransaction _ _) => fun r => forall b, r = Ok b -> hex_blob b
  | NodeIO (Outside (Complete _ _)) => fun r => is_ok r = true
  | _ => fun _ => True
  end (ev_answer ev).

Definition web_sends (ev : webevent) : bool :=
  match ev_call ev with NodeIO (SendRawTransaction _ _) => true | _ => false end.

(** A call of the node as a call of the client. *)
Definition node_event (ev : ioevent) : webevent := Ev (E := web) (NodeIO (ev_call ev)) (ev_answer ev).

Lemma elem_of_filtered ev tr : ev ∈ tr -> web_sends ev = true -> ev ∈ List.filter web_sends tr.
Proof. intros H Hs. apply list_elem_of_In, List.filter_In. split; [by apply list_elem_of_In | done]. Qed.

Lemma one_send l1 ev l2 :
  Forall (fun ev => sends ev = false) l1 -> Forall (fun ev => sends ev = false) l2 -> sends ev = true ->
  List.filter sends (l1 ++ ev :: l2) = [ev].
Proof.
  assert (forall l, Forall (fun ev => sends ev = false) l -> List.filter sends l = []) as Hno
    by (induction 1 as [|x l Hx _ IH]; [done | simpl; by rewrite Hx]).
  intros H1 H2 He. rewrite List.filter_app. simpl. by rewrite He, (Hno l1), (Hno l2).
Qed.

Definition node_of (ev : webevent) : option ioevent := match ev with Ev (NodeIO c) a => Some (Ev c a) | _ => None end.

(** An event of the node below is one above. *)
Lemma sent_above c a N : Ev (E := web) (NodeIO c) a ∈ map node_event (List.filter sends N) -> Ev (E := io) c a ∈ N.
Proof.
  intros ([c' a'] & E & Hin)%list_elem_of_fmap. apply (f_equal node_of) in E.
  change (Some (Ev (E := io) c a) = Some (Ev c' a')) in E. apply (inj Some) in E.
  refine (eq_ind_r (fun ev => ev ∈ N) _ E). apply list_elem_of_In in Hin. apply List.filter_In in Hin as [Hin _].
  by apply list_elem_of_In.
Qed.

(** * Realised traces *)

Section realised.
Context {E F : Type} `{!Effects E, !Effects F} (h : forall e : E, prog F (ans e)).

Lemma realises_first ev above below :
  realises h (ev :: above) below ->
  exists tr below', below = (tr ++ below')%list /\ may (h (ev_call ev)) tr (ev_answer ev) /\ realises h above below'.
Proof. intros H. inversion H as [|e a tr above' below' Hm Hr]; subst. by exists tr, below'. Qed.

Lemma realises_app a1 a2 below :
  realises h (a1 ++ a2) below -> exists b1 b2, below = (b1 ++ b2)%list /\ realises h a1 b1 /\ realises h a2 b2.
Proof.
  revert below. induction a1 as [|ev a1 IH]; intros below H; simpl in H.
  - exists [], below. split_and!; [done | constructor | done].
  - apply realises_first in H as (tr & below' & -> & Hm & (b1 & b2 & -> & H1 & H2)%IH).
    exists (tr ++ b1)%list, b2. split_and!; [by rewrite (assoc_L (++)) | destruct ev; by constructor | done].
Qed.

Lemma interp_calls (P : E -> Prop) (Q : F -> Prop) {A} (p : prog E A) :
  calls P p -> (forall e, P e -> calls Q (h e)) -> calls Q (interp h p).
Proof.
  intros Hp Hh tr a (above & Hm%Hp & Hr)%may_interp. apply Forall_forall. intros ev Hin.
  destruct (realises_in _ _ _ _ Hr Hin) as (e & b & t & He & Hmt & Ht). rewrite Forall_forall in Hm.
  apply (Hh e (Hm _ He)) in Hmt. rewrite Forall_forall in Hmt. by apply Hmt.
Qed.
End realised.

(** * What the implementation passes on *)

(** The calls below the backend and the signer, none of a boundary they implement. *)
Definition passed_on (c : io) : Prop :=
  match c with
  | Outside (Reserve _ | Release _ | Complete _ _ | ContractCall _ _ _ _ | Now) => True
  | Outside _ => False
  | _ => True
  end.

Section implementation.
Context `{W : Web3} {PT : PydanticText} {K : EthAccount}.
Context (settings : MercurySettings) (store : OneClawSecretStore) (approve : ApprovalRequest -> result exn ApprovalResult).

Ltac passes := follow_calls ltac:(auto with nocore).

Lemma loop_passed_on fuel rpc d n c : calls passed_on (confirmations_loop fuel rpc d n c).
Proof.
  induction fuel as [|fuel IH]; [apply calls_ret|]. cbn [confirmations_loop]. unfold monotonic, block_number, sleep.
  passes; intros; exact IH.
Qed.

Lemma implement_passed_on e : swap_call e = false -> calls passed_on (implement settings store approve e).
Proof.
  intros He.
  assert (forall path, calls passed_on (store_get_secret store path)) as Hs by (intros; unfold store_get_secret; passes).
  assert (forall name, calls passed_on (create_web3 settings store name)) as Hc
    by (intros; unfold create_web3, Web3ProviderFactory_create, resolve_rpc_url; passes).
  assert (forall w, calls passed_on (_load_private_key store w)) as Hk by (intros; unfold _load_private_key; passes).
  pose proof loop_passed_on. destruct e; try discriminate He; cbn [implement];
    unfold backend_resolve_chain_id, backend_lookup_nonce, backend_populate_gas, backend_simulate, backend_broadcast,
      backend_wait_for_receipt, _wait_for_confirmations, signer_get_wallet_address, signer_sign_transaction, outside,
      get_transaction_count, estimate_gas, max_priority_fee, latest_base_fee, gas_price, eth_call, get_balance,
      send_raw_transaction, wait_for_transaction_receipt, monotonic;
    passes.
Qed.
End implementation.

(** * The service *)

Section service.
Context `{W : Web3} {L : Web3Laws W} {I : IsoFormat} {PT : PydanticText} {PL : PydanticLax} {PLL : PydanticLaxLaws PL} {K : EthAccount}.
Context {G : LangGraph effect MercuryState} {GL : LangGraphLaws merge_state G}.
Context {GR : LangGraph web MercuryState} {GRL : LangGraphLaws merge_state GR}.
Context (settings : MercurySettings) (app : standalone).
Context (Hproviders : forall name, keeps_promise name (sa_providers app name)).

Abbreviation approve := RequestMetadataTransactionApprover.request_approval.
Abbreviation impl := (implement settings (sa_store app) approve).
Abbreviation answer_node := (answer_node app).
Abbreviation answer := (answer settings app).

(** ** What is sent below was sent by the node above *)

Lemma client_secret_harmless vault_id path agent_id : calls harmless (client_get_secret (sa_client app) vault_id path agent_id).
Proof.
  unfold client_get_secret, _get_secret_hosted, _get_secret_legacy_resolve, _bearer_for_agent, _fetch_access_token,
    _invalidate_access_token, _http_get_secret_value, read_payload, urlopen.
  harmless_calls.
Qed.

Lemma over_http_harmless c : harmless c -> calls harmless (over_http (sa_client app) c).
Proof.
  intros Hc. destruct c as [[]| | | | | | |]; try (apply calls_call; [exact Hc | intros; apply calls_ret]).
  simpl. apply calls_bind; [apply client_secret_harmless | intros; apply calls_ret].
Qed.

Lemma harmless_no_sends tr : Forall (fun ev => harmless (ev_call ev)) tr -> List.filter web_sends tr = [].
Proof.
  induction 1 as [|[c a] tr Hc _ IH]; [done|]. simpl. rewrite IH. by destruct c as [[]| | | | | | |].
Qed.

Lemma answered_node c tr a :
  may (answer_node c) tr a -> tr = [node_event (Ev c a)] \/ (sends (Ev c a) = false /\ Forall (fun ev => harmless (ev_call ev)) tr).
Proof using Hproviders.
  assert (forall b tr', may (Call (E := web) (NodeIO c) Ret) tr' b -> tr' = [node_event (Ev c b)]) as Hcall
    by (intros b tr' (b' & tr'' & -> & [-> ->]); done).
  intros Hm. destruct c as [| | | | | | | | | | | | |e]; try (left; by apply Hcall).
  - right. split; [done|]. by apply (over_http_harmless (NodeIO (ClientGetSecret _ _ _)) eq_refl) in Hm.
  - destruct e; try (left; by apply Hcall); right; (split; [done|]).
    + eapply (interp_calls (over_http (sa_client app)) harmless); [|apply over_http_harmless | exact Hm].
      apply (pp_only_reads _ _ (Hproviders provider)).
    + eapply (interp_calls (over_http (sa_client app)) harmless); [|apply over_http_harmless | exact Hm].
      apply (pp_only_reads _ _ (Hproviders provider)).
Qed.

Lemma sends_realised N tr : realises answer_node N tr -> List.filter web_sends tr = map node_event (List.filter sends N).
Proof using Hproviders.
  induction 1 as [|c a tr N below Hm _ IH]; [done|]. rewrite List.filter_app, IH.
  destruct (answered_node c tr a Hm) as [->|[Hs Hh]].
  - simpl. destruct c; try done.
  - rewrite (harmless_no_sends tr Hh). simpl. by rewrite Hs.
Qed.

(** ** Calls of the wallet *)

Lemma realised_wallet T tr :
  realises answer (map lift_event T) tr -> exists N, realises impl T N /\ realises answer_node N tr.
Proof.
  revert tr. induction T as [|[e a] T IH]; intros tr H; simpl in H.
  - inversion H. subst. exists []. split; constructor.
  - apply realises_first in H as (tr' & below & -> & Hm & (N & Hi & Hn)%IH). change (may (answer_wallet settings app e) tr' a) in Hm.
    apply may_interp in Hm as (N' & Hm & Hr). exists (N' ++ N)%list. split; [by constructor|].
    clear -Hr Hn. induction Hr as [|c b t above t2 Hc _ IH]; [done|].
    simpl. rewrite <- List.app_assoc. by constructor.
Qed.

(** Calls without consequence send nothing. *)
Lemma harmless_realised names tr :
  realises answer names tr -> Forall (fun ev => harmless (ev_call ev)) names -> List.filter web_sends tr = [].
Proof using Hproviders.
  induction 1 as [|c a tr names below Hm _ IH]; [done|]. intros [Hc Hn]%Forall_cons.
  rewrite List.filter_app, (IH Hn), app_nil_r. destruct c as [i| | | | | | |]; try by destruct Hm as (b & t & -> & [-> ->]).
  assert (match i with Outside _ => True | _ => may (answer_node i) tr a end) as Hi by (by destruct i).
  destruct i as [| | | | | | | | | | | | |e]; try discriminate Hc;
    try (apply answered_node in Hi as [->|[_ Hh]]; [done | by apply harmless_no_sends]).
  change (may (answer_wallet settings app e) tr a) in Hm. apply may_interp in Hm as (N & Hm & Hr).
  rewrite (sends_realised N tr Hr). pose proof (implement_no_send settings (sa_store app) approve e) as Hno.
  destruct e; try discriminate Hc; apply (no_send_events _ _ _ Hno) in Hm; clear -Hm;
    (induction Hm as [|ev N Hev _ IH]; [done | simpl; by rewrite Hev]).
Qed.

(** ** The answers are good *)

(** A call passed on is answered from below as it is. *)
Lemma passed_on_good c tr a :
  passed_on c -> may (answer_node c) tr a -> Forall service_good tr -> io_good (Ev c a).
Proof.
  intros Hc Hm Hg. destruct c as [| | | | | | | | | | | | |e]; try done.
  - destruct Hm as (b & tr' & -> & [-> ->]). by apply Forall_cons in Hg as [Hg _].
  - destruct e; try done. destruct Hm as (b & tr' & -> & [-> ->]). by apply Forall_cons in Hg as [Hg _].
Qed.

Lemma passed_on_all N tr :
  realises answer_node N tr -> Forall (fun ev => passed_on (ev_call ev)) N -> Forall service_good tr -> Forall io_good N.
Proof.
  induction 1 as [|c a tr N below Hm _ IH]; [constructor|]. intros [Hc HN]%Forall_cons [H1 H2]%Forall_app.
  constructor; [by eapply passed_on_good | by apply IH].
Qed.

(** The answer of a provider to what it may rely on. *)
Lemma provider_good e N tr a :
  swap_call e = true -> asked e -> may (impl e) N a -> realises answer_node N tr -> Forall io_good N.
Proof using Hproviders.
  intros He Ha Hm Hr.
  assert (exists c, N = [Ev (E := io) (Outside e) c] /\ good (Ev e c)) as (c & -> & Hg); [|by repeat constructor].
  destruct e; try discriminate He; destruct Hm as (c & N' & -> & [-> ->]); exists c; (split; [done|]);
    apply realises_first in Hr as (t & t' & -> & Hr & _); apply may_interp in Hr as (above & Hr & _); cbn [ev_call ev_answer] in Hr.
  - intros q E. cbn [ev_answer] in E. subst c. destruct (pp_quotes _ _ (Hproviders provider) _ _ _ Ha Hr). done.
  - intros x E. cbn [ev_answer] in E. subst c. destruct (pp_executions _ _ (Hproviders provider) _ _ _ Ha Hr). done.
Qed.

(** Every call of a run is asked properly, so every answer is good. *)
Lemma answers_good T N tr :
  realises impl T N -> forall pre, Forall good pre ->
  (forall t1 ev t2, (pre ++ T)%list = (t1 ++ ev :: t2)%list -> Forall good t1 -> asked (ev_call ev)) ->
  realises answer_node N tr -> Forall service_good tr -> Forall io_good N.
Proof using Hproviders L.
  intros H. revert tr. induction H as [|e a N1 T N2 Hm _ IH]; intros tr pre Hpre Hask Hr Hg; [constructor|].
  apply realises_app in Hr as (tr1 & tr2 & -> & Hr1 & Hr2). apply Forall_app in Hg as [Hg1 Hg2].
  assert (Forall io_good N1) as Hgood.
  { destruct (swap_call e) eqn:Es.
    - eapply (provider_good e); [done | exact (Hask pre _ T eq_refl Hpre) | done | done].
    - eapply passed_on_all; [done | by eapply (implement_passed_on settings) | done]. }
  apply Forall_app. split; [done|]. apply (IH tr2 (pre ++ [Ev e a])%list); try done.
  - apply Forall_app. split; [done|]. repeat constructor. by eapply implement_good.
  - intros t1 ev t2 E. apply (Hask t1 ev t2). by rewrite <- E, <- List.app_assoc.
Qed.
End service.

(** * The claim *)

Section claim.
Context `{W : Web3} {L : Web3Laws W} {I : IsoFormat} {PT : PydanticText} {PL : PydanticLax} {PLL : PydanticLaxLaws PL} {K : EthAccount}.
Context {G : LangGraph effect MercuryState} {GL : LangGraphLaws merge_state G}.
Context {GR : LangGraph web MercuryState} {GRL : LangGraphLaws merge_state GR}.
Context (compile_read : StateGraph web MercuryState -> InvokableGraph)
        (compile_wallet : StateGraph effect MercuryState -> InvokableGraph).
Context (Hread : forall g, compiled (compile_read g) (invoke g))
        (Hwallet : forall g, compiled (compile_wallet g) (fun s => lift_wallet (invoke g s))).
Context (environ : string -> option string) (settings : MercurySettings).

Lemma built_router store providers :
  get_swap_router settings store = Ok providers -> forall name, keeps_promise name (providers name).
Proof.
  unfold get_swap_router. intros (p1 & H1 & (p2 & H2 & (p3 & H3 & [= <-])%result_bind_ok)%result_bind_ok)%result_bind_ok.
  apply adapters_keep_promise in H1, H2, H3. by intros [].
Qed.

Lemma built_app app :
  build_standalone_graph_runtime compile_read compile_wallet environ settings = Ok app ->
  (forall name, keeps_promise name (sa_providers app name)) /\
  sa_runtime app = build_default_runtime settings compile_read compile_wallet (service_registry settings (sa_store app))
                     default_dependencies service_swap_deps (ms_graph_node_logging settings)
                     (Some (resolve_evm_identifier settings (sa_store app))).
Proof.
  unfold build_standalone_graph_runtime.
  intros ([client store] & _ & (providers & Hp & [= <-])%result_bind_ok)%result_bind_ok.
  split; [|done]. exact (built_router store providers Hp).
Qed.

(** A transaction the graph of an intent asks for is one the intent asks for. *)
Lemma requested_signed (swap_deps : SwapGraphDependencies) state raw' i T t :
  request_only state -> payload_kind_text (unwrap_intent_payload raw') = kind_name (value_moving_kind_of i) ->
  requests settings (graph_kind_for swap_deps (value_moving_kind_of i)) (with_raw_input (AnyValue (VDict raw')) state) T t ->
  exists j, wallet_intent_validate settings (value_moving_kind_of i) (unwrap_intent_payload raw') = Ok j /\
    intent_signed settings swap_deps j T t.
Proof.
  intros Hs Hk Hreq.
  assert (exists msg payload p, payload_from_state msg (with_raw_input (AnyValue (VDict raw')) state) = Ok payload /\
    prepared_for settings (graph_kind_for swap_deps (value_moving_kind_of i)) T payload p /\ carries p t)
    as (msg & payload & p & Hpl & Hp & Hc).
  { destruct i; destruct Hreq as (msg & payload & p & ? & ? & ?); exists msg, payload, p; (split_and!; [done | done |]);
      by eapply executes_carries. }
  apply (request_payload _ _ _ _ Hs) in Hpl as ->.
  destruct (prepared_signed settings swap_deps (value_moving_kind_of i) T _ p t Hp Hc) as (j & _ & Hj & Hsig); [|by exists j].
  intros _. unfold payload_kind_text, py_fold in Hk. unfold payload_kind. by rewrite py_strip_lower.
Qed.

End claim.

(** * A swap served end to end *)

(** 1Claw resolves the paths the service reads. *)
Definition secret_at (r : http_request) : string :=
  match hr_data r with
  | Some (VDict d) => match get d "path" with
                      | VStr path => if String.eqb path "mercury/wallets/w1/private_key" then sample_key else "https://rpc.example/base"
                      | _ => ""
                      end
  | _ => ""
  end.

(** LiFi answers with a quote and its transaction. *)
Definition lifi_swap_body : dict :=
  (lifi_body (VStr "1500000") ++
   [("transactionRequest", VDict [("to", VStr sample_peer); ("data", VStr "0xdeadbeef"); ("value", VStr "0x0")])])%list.

Definition http_handler (r : http_request) : http_answer :=
  if String.eqb (hr_method r) "GET" then HttpBody "" (Some (VDict lifi_swap_body))
  else HttpBody "" (Some (VDict [("value", VStr (secret_at r))])).

(** A token of six decimals, of which the spender may take enough. *)
Definition contract_answer (function_name : string) : result exn abi_value :=
  Ok (AInt (if String.eqb function_name "allowance" then 2000000 else 6)).

(** The node of [Deployment] answers the rest. *)
Definition service_handler (c : web) (σ : InMemoryIdempotencyStore) : InMemoryIdempotencyStore * ans c :=
  match c return InMemoryIdempotencyStore * ans c with
  | NodeIO i =>
      match i return InMemoryIdempotencyStore * ans (NodeIO i) -> InMemoryIdempotencyStore * ans (NodeIO i) with
      | Outside (ContractCall _ _ function_name _) => fun _ => (σ, contract_answer function_name)
      | _ => fun d => d
      end (node_handler i σ)
  | HttpRequest r => (σ, http_handler r)
  | EnsAddress _ _ _ => (σ, EnsRecord None)
  | CallFunction _ _ _ _ _ => (σ, Ok VNone)
  | CacheGet _ _ => (σ, None)
  | CachePut _ _ _ => (σ, tt)
  | TokenGet => (σ, None)
  | TokenPut _ => (σ, tt)
  end.

Definition sample_environ (name : string) : option string :=
  if String.eqb name "MERCURY_ONECLAW_API_KEY" then Some "key" else None.

Definition sample_app : result exn standalone :=
  build_standalone_graph_runtime sample_compile_read sample_compile_wallet sample_environ default_settings.

Definition service_trace (app : standalone) (payload : dict) : list webevent :=
  run_trace service_handler (service_invoke default_settings app (state_of payload)) ∅.
Definition service_result (app : standalone) (payload : dict) : result exn MercuryState :=
  (run_prog service_handler (service_invoke default_settings app (state_of payload)) ∅).2.

Lemma service_may app payload :
  may (service_invoke default_settings app (state_of payload)) (service_trace app payload) (service_result app payload).
Proof. exact (run_may service_handler (service_invoke default_settings app (state_of payload)) ∅). Qed.

Example swap_confirmed :
  (app ← sample_app; r ← service_result app swap_payload; Ok (er_tx_hash <$> execution_result r)) = Ok (Some (Some sample_hash)).
Proof. vm_compute. reflexivity. Qed.

(** Without the key in its environment there is no service. *)
Example no_key :
  build_standalone_graph_runtime sample_compile_read sample_compile_wallet (fun _ => None) default_settings =
  Err (Exn DependencyUnavailableErrorC "1Claw API key source is not configured.").
Proof. reflexivity. Qed.

Ltac solve_service_good :=
  match goal with |- Forall service_good ?tr => eassert (tr = _) as -> by (vm_compute; reflexivity) end;
  repeat first [apply Forall_nil_2 | apply Forall_cons_2]; cbn [service_good ev_call ev_answer];
  try exact I; try (intros b [= <-]; reflexivity); try reflexivity.

