(* ===== verification/Sha256.v ===== *)
(** [hashlib.sha256] and [hmac] of the standard library (FIPS 180-4, FIPS 198-1), over bytes as numbers below 256. *)
From stdpp Require Import base tactics option list strings.
From Stdlib Require Import ZArith Lia Ascii String.
From S2P Require Import Prelude Python.

Local Open Scope Z_scope.

Definition add32 (a b : Z) : Z := (a + b) mod 2 ^ 32.
Definition rotr (n x : Z) : Z := Z.lor (Z.shiftr x n) (Z.land (Z.shiftl x (32 - n)) (2 ^ 32 - 1)).

Definition Ch (x y z : Z) : Z := Z.lxor (Z.land x y) (Z.land (Z.lxor x (2 ^ 32 - 1)) z).
Definition Maj (x y z : Z) : Z := Z.lxor (Z.lxor (Z.land x y) (Z.land x z)) (Z.land y z).
Definition Sigma0 (x : Z) : Z := Z.lxor (Z.lxor (rotr 2 x) (rotr 13 x)) (rotr 22 x).
Definition Sigma1 (x : Z) : Z := Z.lxor (Z.lxor (rotr 6 x) (rotr 11 x)) (rotr 25 x).
Definition sigma0 (x : Z) : Z := Z.lxor (Z.lxor (rotr 7 x) (rotr 18 x)) (Z.shiftr x 3).
Definition sigma1 (x : Z) : Z := Z.lxor (Z.lxor (rotr 17 x) (rotr 19 x)) (Z.shiftr x 10).

(** The constants are the first 32 bits of the fractions of roots of primes. *)
Definition is_prime (n : Z) : bool :=
  (2 <=? n) && forallb (fun d => negb (n mod d =? 0)) (seqZ 2 (Z.sqrt n - 1)).
Definition primes_below (n : Z) : list Z := List.filter is_prime (seqZ 0 n).

(** The largest root below [root + 2 ^ bits], found bit by bit. *)
Fixpoint cube_root (bits : nat) (root n : Z) : Z :=
  match bits with
  | O => root
  | S bits' =>
      let higher := root + 2 ^ Z.of_nat bits' in
      cube_root bits' (if higher ^ 3 <=? n then higher else root) n
  end.

Lemma cube_root_spec bits root n :
  root ^ 3 <= n < (root + 2 ^ Z.of_nat bits) ^ 3 ->
  let r := cube_root bits root n in r ^ 3 <= n < (r + 1) ^ 3.
Proof.
  revert root. induction bits as [|bits IH]; intros root H; [exact H|]. simpl cube_root. apply IH.
  replace (2 ^ Z.of_nat (S bits)) with (2 ^ Z.of_nat bits + 2 ^ Z.of_nat bits) in H
    by (rewrite Nat2Z.inj_succ, Z.pow_succ_r; lia).
  destruct (Z.leb_spec ((root + 2 ^ Z.of_nat bits) ^ 3) n); rewrite ?Z.add_assoc in H; lia.
Qed.

Definition round_constants : list Z :=
  Eval cbv in map (fun p => cube_root 35 0 (p * 2 ^ 96) mod 2 ^ 32) (primes_below 312).
Definition initial_hash : list Z := Eval cbv in map (fun p => Z.sqrt (p * 2 ^ 64) mod 2 ^ 32) (primes_below 20).

Fixpoint big_endian (n : nat) (x : Z) : list Z :=
  match n with O => [] | S n' => (big_endian n' (Z.shiftr x 8) ++ [Z.land x 255])%list end.

(** The message, a one bit, zeros up to eight bytes short of a block, and the length in bits. *)
Definition padded (m : list Z) : list Z :=
  let len := Z.of_nat (List.length m) in
  (m ++ [128] ++ repeat 0%Z (Z.to_nat ((55 - len) mod 64)) ++ big_endian 8 (8 * len))%list.

Fixpoint words (bytes : list Z) : list Z :=
  match bytes with
  | a :: b :: c :: d :: rest => Z.lor (Z.shiftl a 24) (Z.lor (Z.shiftl b 16) (Z.lor (Z.shiftl c 8) d)) :: words rest
  | _ => []
  end.

(** The schedule, latest word first. *)
Fixpoint schedule (n : nat) (w : list Z) : list Z :=
  match n with
  | O => w
  | S n' =>
      let at_ i := List.nth i w 0 in
      schedule n' (add32 (add32 (sigma1 (at_ 1%nat)) (at_ 6%nat)) (add32 (sigma0 (at_ 14%nat)) (at_ 15%nat)) :: w)
  end.

Definition sha_round (h : list Z) (kw : Z * Z) : list Z :=
  match h with
  | [a; b; c; d; e; f; g; h] =>
      let t1 := add32 (add32 h (Sigma1 e)) (add32 (add32 (Ch e f g) kw.1) kw.2) in
      let t2 := add32 (Sigma0 a) (Maj a b c) in
      [add32 t1 t2; a; b; c; add32 d t1; e; f; g]
  | _ => h
  end.

Definition sha_block (h : list Z) (block : list Z) : list Z :=
  zip_with add32 h (foldl sha_round h (zip round_constants (rev (schedule 48 (rev (words block)))))).

Fixpoint sha_blocks (fuel : nat) (h bytes : list Z) : list Z :=
  match fuel, bytes with
  | S fuel', _ :: _ => sha_blocks fuel' (sha_block h (take 64 bytes)) (drop 64 bytes)
  | _, _ => h
  end.

Definition sha256 (m : list Z) : list Z :=
  let p := padded m in mjoin (map (big_endian 4) (sha_blocks (List.length p) initial_hash p)).

Definition hmac_sha256 (key message : list Z) : list Z :=
  let key := if (64 <? List.length key)%nat then sha256 key else key in
  let key := (key ++ repeat 0%Z (64 - List.length key))%list in
  sha256 (map (Z.lxor 0x5c) key ++ sha256 (map (Z.lxor 0x36) key ++ message))%list.

(** [bytes.hex()] *)
Definition hex_of_bytes (bytes : list Z) : string :=
  String.concat "" (map (fun b => hex_fixed 2 b "") bytes).

(** The bytes of a text whose code points are bytes. *)
Definition latin1_bytes (s : string) : list Z := map code (list_ascii_of_string s).

Example sha_abc :
  hex_of_bytes (sha256 (latin1_bytes "abc")) = "ba7816bf8f01cfea414140de5dae2223b00361a396177a9cb410ff61f20015ad"%string.
Proof. vm_compute. reflexivity. Qed.
Example hmac_rfc4231 :
  hex_of_bytes (hmac_sha256 (latin1_bytes "Jefe") (latin1_bytes "what do ya want for nothing?")) =
  "5bdcc146bf60754e6a042426089575c75a003f089d2739839dec58b964ec3843"%string.
Proof. vm_compute. reflexivity. Qed.
Lemma big_endian_length n x : List.length (big_endian n x) = n.
Proof. revert x. induction n as [|n IH]; intros x; simpl; [done|]. rewrite length_app, IH. simpl. lia. Qed.
