(* ===== verification/Webhooks.v ===== *)
(** Alchemy address-activity webhooks: the parsing of payloads ([mercury/webhooks/alchemy_handler.py]), the signature
    ([alchemy_verify.py], [keys.py]), the dedupe store ([alchemy_dedupe.py]), the graph ([mercury/graph/webhook_graph.py])
    and the endpoint ([mercury/service/api.py]). *)
From stdpp Require Import base tactics option list sets strings.
From Stdlib Require Import ZArith Lia Ascii String.
From S2P Require Import Prelude Python Values Exceptions Redaction Errors Addresses Chains Models SwapModels Prog Effects Graph State.
From S2P Require Import Alchemy Io Custody Web Http Service Sha256.

Local Open Scope string_scope.
Local Open Scope Z_scope.
Local Open Scope prog_scope.

(** * alchemy_verify.py *)

Definition is_valid_signature_for_string_body (body signature signing_key : string) : bool :=
  if str_empty signing_key || str_empty signature then false else
  let sig := py_strip signature in
  let sig := if py_startswith (py_lower sig) "0x" then str_drop 2 sig else sig in
  let sig := py_fold sig in
  if str_empty sig || negb (str_forall (in_str "0123456789abcdef") sig) then false else
  let key := mjoin (map utf8_bytes (list_ascii_of_string signing_key)) in
  let digest := hex_of_bytes (hmac_sha256 key (latin1_bytes body)) in
  (str_len sig =? str_len digest) && String.eqb digest sig.

(** * alchemy_handler.py *)

Definition ADDRESS_ACTIVITY : string := "ADDRESS_ACTIVITY".

(** [normalize_evm_address] of this module: lower case and nothing else *)
Definition normalize_address (addr : pyval) : option string :=
  match addr with
  | VStr a => if str_empty (py_strip a) then None else Some (py_fold a)
  | _ => None
  end.

Definition _parse_address_list (raw : option string) : list string :=
  match raw with
  | Some raw => if str_empty (py_strip raw) then [] else omap (fun part => normalize_address (VStr part)) (py_split "," raw)
  | None => []
  end.

(** [if addr not in seen: seen.add(addr); order.append(addr)]; [seen] holds what [order] does. *)
Definition add_address (order : list string) (addr : string) : list string :=
  if bool_decide (addr ∈ order) then order else (order ++ [addr])%list.

Definition merge_watched_addresses (query_csv : option string) (payload : option dict) : list string :=
  let order := foldl add_address [] (_parse_address_list query_csv) in
  match payload with
  | None => order
  | Some payload =>
      match get payload "metadata" with
      | VDict meta =>
          let candidates := match get meta "watched_addresses" with
                            | VStr wa => _parse_address_list (Some wa)
                            | VList wa => omap normalize_address wa
                            | _ => []
                            end in
          foldl add_address order candidates
      | _ => order
      end
  end.

Definition _log_index_for_dedupe (row : dict) : string :=
  let by_trace := match get row "typeTraceAddress" with VNone => "na" | trace => py_str trace end in
  match get row "log" with
  | VDict log => match get log "logIndex" with VNone => by_trace | li => py_lower (py_str li) end
  | _ => by_trace
  end.

Definition row_tx_hash (row : dict) : string :=
  let of_log := match get row "log" with VDict log => as_str (get log "transactionHash") | _ => None end in
  match get row "hash" with
  | VStr (String _ _ as h) => h
  | _ => default "" of_log
  end.

Definition row_contract_address (row : dict) : option string :=
  let of_contract := match get row "rawContract" with VDict c => normalize_address (get c "address") | _ => None end in
  match of_contract, get row "log" with
  | None, VDict log => normalize_address (get log "address")
  | _, _ => of_contract
  end.

Definition row_to_alert (network : string) (row : dict) : dict :=
  let removed := match get row "log" with VDict log => is_true (get log "removed") | _ => false end in
  [("network", VStr network); ("tx_hash", VStr (py_lower (row_tx_hash row)));
   ("from_address", of_opt_str (normalize_address (get row "fromAddress")));
   ("to_address", of_opt_str (normalize_address (get row "toAddress")));
   ("category", match get row "category" with VNone => VNone | c => VStr (py_str c) end);
   ("asset", of_opt_str (as_str (get row "asset"))); ("value", get row "value");
   ("contract_address", of_opt_str (row_contract_address row)); ("removed", VBool removed);
   ("log_index", VStr (_log_index_for_dedupe row))].

Definition normalize_activity_rows (network : string) (activity : option (list pyval)) : list dict :=
  map (row_to_alert network) (omap as_dict (default [] activity)).

Definition filter_incoming_for_watched (alerts : list dict) (watched_lower : list string) : list dict :=
  match watched_lower with
  | [] => alerts
  | _ =>
      match omap (fun raw => normalize_address (VStr raw)) watched_lower with
      | [] => alerts
      | watch => List.filter (fun a => match get a "to_address" with VStr t => bool_decide (t ∈ watch) | _ => false end) alerts
      end
  end.

(** * alchemy_dedupe.py *)

Definition dedupe_key : Type := string * string * string * string.

(** The dict of deadlines in insertion order; times in nanoseconds of the monotonic clock. *)
Record AlchemyWebhookDedupeStore := { dd_ttl : Z; dd_max : Z; dd_expires_at : list (dedupe_key * Z) }.

Definition default_dedupe_store : AlchemyWebhookDedupeStore :=
  {| dd_ttl := 3600 * 1000000000; dd_max := 50000; dd_expires_at := [] |}.

Definition with_expires (s : AlchemyWebhookDedupeStore) (l : list (dedupe_key * Z)) : AlchemyWebhookDedupeStore :=
  {| dd_ttl := dd_ttl s; dd_max := dd_max s; dd_expires_at := l |}.

Fixpoint expiry_of (key : dedupe_key) (l : list (dedupe_key * Z)) : option Z :=
  match l with
  | [] => None
  | (k, d) :: l' => if bool_decide (k = key) then Some d else expiry_of key l'
  end.

Fixpoint set_expiry (key : dedupe_key) (deadline : Z) (l : list (dedupe_key * Z)) : list (dedupe_key * Z) :=
  match l with
  | [] => [(key, deadline)]
  | (k, d) :: l' => if bool_decide (k = key) then (k, deadline) :: l' else (k, d) :: set_expiry key deadline l'
  end.

Definition del_key (key : dedupe_key) (l : list (dedupe_key * Z)) : list (dedupe_key * Z) :=
  List.filter (fun kd => negb (bool_decide (kd.1 = key))) l.

(** [sorted(items, key=deadline)], which is stable *)
Fixpoint insert_by_deadline (kd : dedupe_key * Z) (l : list (dedupe_key * Z)) : list (dedupe_key * Z) :=
  match l with
  | [] => [kd]
  | x :: l' => if kd.2 <=? x.2 then kd :: l else x :: insert_by_deadline kd l'
  end.
Definition sorted_by_deadline (l : list (dedupe_key * Z)) : list (dedupe_key * Z) := foldr insert_by_deadline [] l.

Definition _purge_expired (now : Z) (s : AlchemyWebhookDedupeStore) : AlchemyWebhookDedupeStore :=
  with_expires s (List.filter (fun kd => negb (kd.2 <=? now)) (dd_expires_at s)).

Definition entries (s : AlchemyWebhookDedupeStore) : Z := Z.of_nat (List.length (dd_expires_at s)).

Definition _enforce_max (now : Z) (s : AlchemyWebhookDedupeStore) : AlchemyWebhookDedupeStore :=
  if entries s <=? dd_max s then s else
  let s := _purge_expired now s in
  if entries s <=? dd_max s then s else
  let overflow := Z.to_nat (entries s - dd_max s) in
  with_expires s (foldl (fun l kd => del_key kd.1 l) (dd_expires_at s)
                    (take overflow (sorted_by_deadline (dd_expires_at s)))).

(** [mark_if_new] at a reading of the clock *)
Definition mark_if_new (key : dedupe_key) (now : Z) (s : AlchemyWebhookDedupeStore) : bool * AlchemyWebhookDedupeStore :=
  let s := _purge_expired now s in
  let live := match expiry_of key (dd_expires_at s) with Some deadline => now <? deadline | None => false end in
  if live then (false, s)
  else (true, _enforce_max now (with_expires s (set_expiry key (now + dd_ttl s) (dd_expires_at s)))).

(** * webhook_graph.py *)

(** The dedupe store is an object the nodes share; it is kept with the state. *)
Record AlchemyWebhookState := {
  ws_payload : option dict;
  ws_watched_addresses : option (list string);
  ws_webhook_id : option string;
  ws_event_id : option string;
  ws_network : option string;
  ws_skipped : option bool;
  ws_skip_reason : option (option string);
  ws_normalized_alerts : option (list dict);
  ws_filtered_alerts : option (list dict);
  ws_new_alerts : option (list dict);
  ws_duplicate_count : option Z;
  ws_emit_summary : option dict;
  ws_dedupe_store : option AlchemyWebhookDedupeStore
}.

Definition empty_webhook_state : AlchemyWebhookState :=
  Build_AlchemyWebhookState None None None None None None None None None None None None None.

(** A partial state over a state. *)
Definition merge_webhook_state (s p : AlchemyWebhookState) : AlchemyWebhookState :=
  {| ws_payload := opt_or (ws_payload p) (ws_payload s);
     ws_watched_addresses := opt_or (ws_watched_addresses p) (ws_watched_addresses s);
     ws_webhook_id := opt_or (ws_webhook_id p) (ws_webhook_id s);
     ws_event_id := opt_or (ws_event_id p) (ws_event_id s);
     ws_network := opt_or (ws_network p) (ws_network s);
     ws_skipped := opt_or (ws_skipped p) (ws_skipped s);
     ws_skip_reason := opt_or (ws_skip_reason p) (ws_skip_reason s);
     ws_normalized_alerts := opt_or (ws_normalized_alerts p) (ws_normalized_alerts s);
     ws_filtered_alerts := opt_or (ws_filtered_alerts p) (ws_filtered_alerts s);
     ws_new_alerts := opt_or (ws_new_alerts p) (ws_new_alerts s);
     ws_duplicate_count := opt_or (ws_duplicate_count p) (ws_duplicate_count s);
     ws_emit_summary := opt_or (ws_emit_summary p) (ws_emit_summary s);
     ws_dedupe_store := opt_or (ws_dedupe_store p) (ws_dedupe_store s) |}.

Abbreviation hook := (online (result exn AlchemyWebhookState)).

Definition was_skipped (s : AlchemyWebhookState) : bool := default false (ws_skipped s).

Definition classify (s : AlchemyWebhookState) : hook :=
  let payload := default [] (ws_payload s) in
  let webhook_id := py_str (get_default payload "webhookId" (VStr "")) in
  let event_id := py_str (get_default payload "id" (VStr "")) in
  if eq_str (get payload "type") ADDRESS_ACTIVITY then
    ret_ok (Build_AlchemyWebhookState None None (Some webhook_id) (Some event_id) None (Some false) (Some None)
              None None None None None None)
  else
    let reason := match get payload "type" with VNone => "ignored_type" | t => "ignored_type:" ++ py_str t end in
    ret_ok (Build_AlchemyWebhookState None None (Some webhook_id) (Some event_id) (Some "") (Some true) (Some (Some reason))
              (Some []) (Some []) (Some []) (Some 0) None None).

Definition normalize_activity (s : AlchemyWebhookState) : hook :=
  if was_skipped s then ret_ok empty_webhook_state else
  let alerts_of network alerts :=
    Build_AlchemyWebhookState None None None None (Some network) None None (Some alerts) None None None None None in
  match get (default [] (ws_payload s)) "event" with
  | VDict event =>
      let network := py_str (get_default event "network" (VStr "")) in
      ret_ok (alerts_of network (normalize_activity_rows network (as_list (get event "activity"))))
  | _ => ret_ok (alerts_of "" [])
  end.

Definition filter_incoming (s : AlchemyWebhookState) : hook :=
  if was_skipped s then ret_ok empty_webhook_state else
  let filtered := filter_incoming_for_watched (default [] (ws_normalized_alerts s)) (default [] (ws_watched_addresses s)) in
  ret_ok (Build_AlchemyWebhookState None None None None None None None None (Some filtered) None None None None).

Definition alert_key (wid eid : string) (alert : dict) : dedupe_key :=
  (wid, eid, py_str (get_default alert "tx_hash" (VStr "")), py_str (get_default alert "log_index" (VStr "na"))).

(** The fresh alerts, the number of the others, and the store; every mark reads the clock. *)
Fixpoint dedupe_alerts (wid eid : string) (alerts : list dict) (store : AlchemyWebhookDedupeStore)
    : online (result exn (list dict * Z * AlchemyWebhookDedupeStore)) :=
  match alerts with
  | [] => ret_ok ([], 0, store)
  | alert :: alerts' =>
      now <- lift_node (Call Monotonic (fun t => Ret (Ok t)));;
      let '(is_new, store) := mark_if_new (alert_key wid eid alert) now store in
      rest <- dedupe_alerts wid eid alerts' store;;
      let '(fresh, duplicates, store) := rest in
      ret_ok (if is_new then (alert :: fresh, duplicates, store) else (fresh, duplicates + 1, store))
  end.

Definition dedupe (s : AlchemyWebhookState) : hook :=
  if was_skipped s then ret_ok empty_webhook_state else
  r <- dedupe_alerts (default "" (ws_webhook_id s)) (default "" (ws_event_id s)) (default [] (ws_filtered_alerts s))
         (default default_dedupe_store (ws_dedupe_store s));;
  let '(fresh, duplicates, store) := r in
  ret_ok (Build_AlchemyWebhookState None None None None None None None None None (Some fresh) (Some duplicates) None (Some store)).

Definition emit_alert (s : AlchemyWebhookState) : hook :=
  let new_alerts := default [] (ws_new_alerts s) in
  let count (l : list dict) := VInt (Z.of_nat (List.length l)) in
  ret_ok (Build_AlchemyWebhookState None None None None None None None None None None None
    (Some [("received", VBool true); ("skipped", VBool (was_skipped s));
           ("skip_reason", of_opt_str (default None (ws_skip_reason s))); ("network", of_opt_str (ws_network s));
           ("normalized_count", count (default [] (ws_normalized_alerts s)));
           ("filtered_count", count (default [] (ws_filtered_alerts s)));
           ("processed", count new_alerts); ("duplicate_count", VInt (default 0 (ws_duplicate_count s)));
           ("alerts", VList (map VDict new_alerts))]) None).

Definition route_after_classify (s : AlchemyWebhookState) : string :=
  if was_skipped s then "emit_alert" else "normalize_activity".

Definition build_alchemy_webhook_graph : StateGraph web AlchemyWebhookState :=
  let g := add_node "classify" classify new_graph in
  let g := add_node "normalize_activity" normalize_activity g in
  let g := add_node "filter_incoming" filter_incoming g in
  let g := add_node "dedupe" dedupe g in
  let g := add_node "emit_alert" emit_alert g in
  let g := add_edge START "classify" g in
  let g := add_conditional_edges "classify" route_after_classify
             [("emit_alert", "emit_alert"); ("normalize_activity", "normalize_activity")] g in
  let g := add_edge "normalize_activity" "filter_incoming" g in
  let g := add_edge "filter_incoming" "dedupe" g in
  let g := add_edge "dedupe" "emit_alert" g in
  add_edge "emit_alert" END g.

(** * The endpoint *)

(** What the endpoint reads of a request: the bytes of the body and what [json.loads] makes of them ([None] when it cannot),
    the header [X-Alchemy-Signature], and the query parameter. *)
Record webhook_request := {
  wq_body : string;
  wq_json : option pyval;
  wq_signature : option string;
  wq_watched_addresses : option string
}.

Inductive http_result : Type :=
| Answer (body : dict)
| HTTPException (status_code : Z) (detail : string).

(** The state of the application: the signing key of tests, and the dedupe store. *)
Record app_state := { as_signing_key : option string; as_dedupe : AlchemyWebhookDedupeStore }.

(** [isinstance(overlay, str) and overlay.strip()] *)
Definition overlay_key (app : app_state) : option string :=
  match as_signing_key app with Some k => if str_empty (py_strip k) then None else Some (py_strip k) | None => None end.

Definition resolve_alchemy_webhook_signing_key (app : app_state) (settings : MercurySettings)
    (secret_store : option OneClawSecretStore) : online (result exn string) :=
  match overlay_key app with
  | Some key => ret_ok key
  | None =>
      let path := py_strip (ms_alchemy_webhook_signing_key_secret_path settings) in
      if str_empty path then Ret (Err (ValueError "alchemy_webhook_signing_key_secret_path is empty")) else
      match secret_store with
      | None => Ret (Err (ValueError "secret_store is required when no signing key overlay is configured"))
      | Some store => secret <- lift_node (store_get_secret store path);; ret_ok (reveal secret)
      end
  end.

Section endpoint.
Context {G : LangGraph web AlchemyWebhookState} (environ : string -> option string) (settings : MercurySettings).

(** [secret_store], made only when there is no overlay *)
Definition webhook_secret_store (app : app_state) : result exn (option OneClawSecretStore) :=
  match overlay_key app with
  | Some _ => Ok None
  | None => cs ← get_secret_store environ settings; Ok (Some cs.2)
  end.

(** After the signature: the graph, and its summary. *)
Definition handle_payload (app : app_state) (request : webhook_request) : online (result exn (http_result * app_state)) :=
  match wq_json request with
  | None => ret_ok (HTTPException 400 "Request body is not valid JSON.", app)
  | Some (VDict payload) =>
      let watched := merge_watched_addresses (wq_watched_addresses request) (Some payload) in
      s <- invoke build_alchemy_webhook_graph
             (Build_AlchemyWebhookState (Some payload) (Some watched) None None None None None None None None None None
                (Some (as_dedupe app)));;
      let app := {| as_signing_key := as_signing_key app; as_dedupe := default (as_dedupe app) (ws_dedupe_store s) |} in
      ret_ok (Answer (default [("received", VBool true); ("skipped", VBool false); ("processed", VInt 0); ("alerts", VList [])]
                        (ws_emit_summary s)), app)
  | Some _ => ret_ok (HTTPException 400 "JSON payload must be an object.", app)
  end.

(** [alchemy_address_activity_webhook] *)
Definition alchemy_address_activity_webhook (app : app_state) (request : webhook_request)
    : online (result exn (http_result * app_state)) :=
  match wq_signature request with
  | Some (String _ _ as signature) =>
      match webhook_secret_store app with
      | Err exc => Ret (if has_class DependencyUnavailableErrorC exc
                        then Ok (HTTPException 503 "Secret store is not configured; cannot verify webhook signature.", app)
                        else Err exc)
      | Ok secret_store =>
          prog_bind (resolve_alchemy_webhook_signing_key app settings secret_store) (fun key =>
            match key with
            | Err exc => Ret (if is_value_error exc
                              then Ok (HTTPException 503 "Alchemy webhook signing key is not configured.", app)
                              else if has_class SecretNotFoundErrorC exc
                              then Ok (HTTPException 503 "Alchemy webhook signing key secret is missing.", app) else Err exc)
            | Ok signing_key =>
                if is_valid_signature_for_string_body (wq_body request) signature signing_key
                then handle_payload app request
                else ret_ok (HTTPException 403 "Invalid webhook signature.", app)
            end)
      end
  | _ => ret_ok (HTTPException 401 "Missing X-Alchemy-Signature header.", app)
  end.
End endpoint.
