(* ===== verification/WebhookSpec.v ===== *)
(** Webhooks: the dedupe store against its abstract specification, and what the endpoint answers. *)
From stdpp Require Import base tactics option list sets strings gmap sorting.
From Stdlib Require Import ZArith Lia Ascii String.
From S2P Require Import Prelude Python Values Exceptions Redaction Errors Addresses Chains Models SwapModels Prog Effects Graph State.
From S2P Require Import Alchemy Io Custody Web RuntimeSpec Http Service Sha256 Webhooks.

Local Open Scope string_scope.
Local Open Scope Z_scope.

(** * The dedupe store *)

(** The abstract store is the history of accepted keys with their times: a key is a duplicate when it is among the last [max]
    accepted ones and was accepted less than [ttl] ago. *)
Definition live (ttl now : Z) (h : list (dedupe_key * Z)) : list (dedupe_key * Z) :=
  List.filter (fun kt => now <? kt.2 + ttl) h.
Definition lastn {A} (n : nat) (l : list A) : list A := drop (List.length l - n) l.

Definition recent (ttl : Z) (max : nat) (now : Z) (h : list (dedupe_key * Z)) : list (dedupe_key * Z) :=
  live ttl now (lastn max h).

Definition accept (ttl : Z) (max : nat) (key : dedupe_key) (now : Z) (h : list (dedupe_key * Z)) : bool * list (dedupe_key * Z) :=
  if bool_decide (key ∈ (recent ttl max now h).*1) then (false, h) else (true, (h ++ [(key, now)])%list).

(** A sequence of marks, in a store and in a history. *)
Fixpoint marks (l : list (dedupe_key * Z)) (s : AlchemyWebhookDedupeStore) : list bool * AlchemyWebhookDedupeStore :=
  match l with
  | [] => ([], s)
  | (key, now) :: l' => let '(b, s) := mark_if_new key now s in let '(bs, s) := marks l' s in (b :: bs, s)
  end.
Fixpoint accepts (ttl : Z) (max : nat) (l : list (dedupe_key * Z)) (h : list (dedupe_key * Z)) : list bool * list (dedupe_key * Z) :=
  match l with
  | [] => ([], h)
  | (key, now) :: l' => let '(b, h) := accept ttl max key now h in let '(bs, h) := accepts ttl max l' h in (b :: bs, h)
  end.

(** The elements whose flag is set. *)
Fixpoint picked {A} (flags : list bool) (l : list A) : list A :=
  match flags, l with
  | b :: flags', a :: l' => if b then a :: picked flags' l' else picked flags' l'
  | _, _ => []
  end.

(** The clock does not go back. *)
Fixpoint clocks_from (t : Z) (l : list Z) : Prop := match l with [] => True | now :: l' => t <= now /\ clocks_from now l' end.

Section dedupe.
Context (ttl : Z) (max : nat) (Httl : 0 < ttl) (Hmax : (0 < max)%nat).

Abbreviation live := (live ttl).
Abbreviation recent := (recent ttl max).

Definition deadline (kt : dedupe_key * Z) : dedupe_key * Z := (kt.1, kt.2 + ttl).

(** Accepted in order, the last at [t]. *)
Fixpoint ordered (t : Z) (h : list (dedupe_key * Z)) : Prop :=
  match h with [] => True | kt :: h' => kt.2 <= t /\ Forall (fun kt' => kt.2 <= kt'.2) h' /\ ordered t h' end.

Lemma ordered_bound t h kt : ordered t h -> kt ∈ h -> kt.2 <= t.
Proof.
  induction h as [|x h IH]; [by intros _ ?%not_elem_of_nil|]. intros (? & _ & Hh) [->|Hin]%elem_of_cons; [done | by apply IH].
Qed.

Lemma ordered_snoc t now k h : ordered t h -> t <= now -> ordered now (h ++ [(k, now)]).
Proof.
  induction h as [|x h IH]; simpl; intros H Ht; [by repeat constructor|]. destruct H as (H1 & H2 & H3).
  split_and!; [lia | | by apply IH]. apply Forall_app. split; [done|]. repeat constructor. simpl. lia.
Qed.

Lemma ordered_drop t n h : ordered t h -> ordered t (drop n h).
Proof. revert n. induction h as [|x h IH]; intros [|n]; try done. intros (_ & _ & H). by apply IH. Qed.

Lemma ordered_live t now h : ordered t h -> ordered t (live now h).
Proof.
  induction h as [|x h IH]; [done|]. intros (H1 & H2 & H3%IH). unfold WebhookSpec.live. simpl.
  destruct (now <? _); [|done]. split_and!; [done | | done].
  apply Forall_forall. intros y Hy. apply list_elem_of_In, List.filter_In in Hy as [Hy _].
  rewrite Forall_forall in H2. apply H2. by apply list_elem_of_In.
Qed.

Lemma live_live t now h : t <= now -> live now (live t h) = live now h.
Proof.
  intros Ht. induction h as [|x h IH]; [done|]. unfold WebhookSpec.live in *. simpl.
  destruct (Z.ltb_spec t (x.2 + ttl)); simpl; [by rewrite IH|]. destruct (Z.ltb_spec now (x.2 + ttl)); [lia | done].
Qed.

Lemma purge_live now h : List.filter (fun kd => negb (kd.2 <=? now)) (map deadline h) = map deadline (live now h).
Proof.
  induction h as [|x h IH]; [done|]. unfold WebhookSpec.live in *. simpl. rewrite IH.
  destruct (Z.leb_spec (x.2 + ttl) now), (Z.ltb_spec now (x.2 + ttl)); simpl; try lia; done.
Qed.

(** What follows a live entry is live. *)
Lemma live_all t now x h : ordered t (x :: h) -> now < x.2 + ttl -> live now (x :: h) = x :: h.
Proof.
  intros (_ & Hh & Ho) Hx. unfold WebhookSpec.live. simpl. destruct (Z.ltb_spec now (x.2 + ttl)); [|lia]. f_equal.
  clear Ho. induction Hh as [|y h Hy _ IH]; [done|]. simpl. destruct (Z.ltb_spec now (y.2 + ttl)); [by rewrite IH | lia].
Qed.

(** Accepting one more: the recent ones with it, and without the oldest when there are too many. *)
Lemma recent_snoc t now k h : ordered t h ->
  recent now (h ++ [(k, now)]) =
  (if (List.length (recent now h) <? max)%nat then recent now h ++ [(k, now)] else tail (recent now h) ++ [(k, now)])%list /\
  (List.length (recent now h) <= max)%nat.
Proof using Httl Hmax.
  intros Ho. unfold WebhookSpec.recent, lastn. rewrite length_app. simpl.
  assert (forall l, live now (l ++ [(k, now)]) = (live now l ++ [(k, now)])%list) as Hsnoc.
  { intros l. unfold WebhookSpec.live. rewrite List.filter_app. simpl. destruct (Z.ltb_spec now (now + ttl)); [done | lia]. }
  assert (forall l, (List.length (live now l) <= List.length l)%nat) as Hlen.
  { intros l. unfold WebhookSpec.live. induction l; simpl; [done|]. destruct (now <? _); simpl; lia. }
  destruct (Nat.le_gt_cases max (List.length h)) as [Hge|Hlt].
  - assert (exists x l, drop (List.length h - max) h = x :: l /\ drop (List.length h + 1 - max) h = l /\ List.length l = (max - 1)%nat)
      as (x & l & E1 & E2 & E3).
    { destruct (drop (List.length h - max) h) as [|x l] eqn:E; apply (f_equal List.length) in E as El; rewrite length_drop in El;
        simpl in El; [lia|]. exists x, l. split; [done|].
      replace (List.length h + 1 - max)%nat with (1 + (List.length h - max))%nat by lia.
      rewrite Nat.add_comm, <- drop_drop, E. simpl. rewrite drop_0. split; [done | lia]. }
    rewrite drop_app_le by lia. rewrite E1, E2, Hsnoc.
    destruct (Z.lt_ge_cases now (x.2 + ttl)) as [Hx|Hx].
    + pose proof (ordered_drop t (List.length h - max) h Ho) as Hd. rewrite E1 in Hd. rewrite (live_all t now x l Hd Hx).
      simpl. assert (live now l = l) as Hl.
      { pose proof (live_all t now x l Hd Hx) as E. unfold WebhookSpec.live in *. simpl in E.
        destruct (now <? x.2 + ttl); [by injection E | exfalso]. apply (f_equal List.length) in E. simpl in E.
        pose proof (Hlen l). unfold WebhookSpec.live in *. lia. }
      rewrite Hl. destruct (Nat.ltb_spec (S (List.length l)) max); [lia|]. split; [done | lia].
    + assert (live now (x :: l) = live now l) as E.
      { unfold WebhookSpec.live. simpl. destruct (Z.ltb_spec now (x.2 + ttl)); [lia | done]. }
      rewrite E. pose proof (Hlen l). destruct (Nat.ltb_spec (List.length (live now l)) max); [|lia]. split; [done | lia].
  - replace (List.length h - max)%nat with 0%nat by lia. replace (List.length h + 1 - max)%nat with 0%nat by lia.
    rewrite !drop_0, Hsnoc. pose proof (Hlen h).
    destruct (Nat.ltb_spec (List.length (live now h)) max); [|lia]. split; [done | lia].
Qed.

(** ** The dict *)

Lemma expiry_of_none key l : expiry_of key l = None <-> key ∉ l.*1.
Proof.
  induction l as [|[k d] l IH]; simpl; [split; [intros _; apply not_elem_of_nil | done]|].
  rewrite not_elem_of_cons, <- IH. case_bool_decide; split; try done; intros []; congruence.
Qed.

Lemma expiry_of_in key l d : expiry_of key l = Some d -> (key, d) ∈ l.
Proof.
  induction l as [|[k d'] l IH]; simpl; [done|]. case_bool_decide; [intros [= ->]; subst; by left | intros ?%IH; by right].
Qed.

Lemma set_expiry_new key d l : key ∉ l.*1 -> set_expiry key d l = (l ++ [(key, d)])%list.
Proof.
  induction l as [|[k d'] l IH]; [done|]. simpl. rewrite not_elem_of_cons. intros [Hk Hl].
  case_bool_decide; [congruence | by rewrite IH].
Qed.

Lemma del_first k d l : NoDup (k :: l.*1) -> del_key k ((k, d) :: l) = l.
Proof.
  intros [Hk _]%NoDup_cons. unfold del_key. simpl. rewrite bool_decide_true by done. simpl.
  induction l as [|[k' d'] l IH]; [done|]. simpl in *. apply not_elem_of_cons in Hk as [Hne Hk].
  rewrite bool_decide_false by done. simpl. by rewrite IH.
Qed.

(** In order of acceptance the deadlines are sorted. *)
Lemma sorted_already t h : ordered t h -> sorted_by_deadline (map deadline h) = map deadline h.
Proof.
  induction h as [|x h IH]; [done|]. intros (_ & Hh & Ho). simpl. unfold sorted_by_deadline in *. simpl. rewrite IH by done.
  destruct h as [|y h]; [done|]. simpl. apply Forall_cons in Hh as [Hxy _].
  destruct (Z.leb_spec (x.2 + ttl) (y.2 + ttl)); [done | lia].
Qed.
(** ** The refinement *)

(** The dict holds the recent acceptances, with their deadlines. *)
Record refines (t : Z) (s : AlchemyWebhookDedupeStore) (h : list (dedupe_key * Z)) : Prop := {
  rf_ttl : dd_ttl s = ttl;
  rf_max : dd_max s = Z.of_nat max;
  rf_ordered : ordered t h;
  rf_expires : dd_expires_at s = map deadline (recent t h);
  rf_keys : NoDup (recent t h).*1
}.

Lemma ordered_mono t now h : t <= now -> ordered t h -> ordered now h.
Proof. intros Ht. induction h as [|x h IH]; [done|]. intros (H1 & H2 & H3%IH). split_and!; [lia | done | done]. Qed.

Lemma deadline_keys h : (map deadline h).*1 = h.*1.
Proof. induction h as [|x h IH]; [done|]. exact (f_equal (cons x.1) IH). Qed.

Lemma live_keys now h : NoDup h.*1 -> NoDup (live now h).*1.
Proof.
  induction h as [|x h IH]; [done|]. intros [Hx Hh]%NoDup_cons. unfold WebhookSpec.live in *. simpl.
  destruct (now <? _); [|by apply IH]. apply NoDup_cons. split; [|by apply IH]. intros Hin. apply Hx.
  apply list_elem_of_fmap in Hin as (y & E & Hy). apply list_elem_of_In, List.filter_In in Hy as [Hy _].
  apply list_elem_of_fmap. exists y. split; [done | by apply list_elem_of_In].
Qed.

Lemma recent_later t now h : t <= now -> recent now h = live now (recent t h).
Proof. intros Ht. unfold WebhookSpec.recent. by rewrite live_live. Qed.

Lemma purged t now s h :
  refines t s h -> t <= now -> _purge_expired now s = with_expires s (map deadline (recent now h)).
Proof. intros [_ _ _ He _] Ht. unfold _purge_expired. by rewrite He, purge_live, <- recent_later. Qed.

(** A store whose new entry makes it too large loses the oldest. *)
Lemma enforced now k s L :
  dd_max s = Z.of_nat max -> ordered now (L ++ [(k, now)])%list -> live now L = L -> NoDup (L ++ [(k, now)])%list.*1 -> (List.length L <= max)%nat ->
  _enforce_max now (with_expires s (map deadline (L ++ [(k, now)])%list)) =
  with_expires s (map deadline (if (List.length L <? max)%nat then L ++ [(k, now)] else tail L ++ [(k, now)])%list).
Proof using Httl Hmax.
  intros Hm Ho Hl Hnd Hlen.
  assert (live now (L ++ [(k, now)])%list = (L ++ [(k, now)])%list) as Hlive.
  { unfold WebhookSpec.live in *. rewrite List.filter_app, Hl. simpl. destruct (Z.ltb_spec now (now + ttl)); [done | lia]. }
  unfold _enforce_max, entries, _purge_expired. cbn [dd_expires_at dd_max with_expires]. rewrite purge_live, Hlive, Hm, length_map, length_app.
  cbn [List.length].
  destruct (Nat.ltb_spec (List.length L) max) as [Hlt|Hge].
  - destruct (Z.leb_spec (Z.of_nat (List.length L + 1)) (Z.of_nat max)); [done | lia].
  - destruct (Z.leb_spec (Z.of_nat (List.length L + 1)) (Z.of_nat max)); [lia|].
    replace (Z.to_nat (Z.of_nat (List.length L + 1) - Z.of_nat max)) with 1%nat by lia. rewrite (sorted_already now) by done.
    destruct L as [|x L]; [simpl in *; lia|]. unfold with_expires. cbn [dd_ttl dd_max]. f_equal. simpl.
    rewrite <- deadline_keys in Hnd. exact (del_first _ _ _ Hnd).
Qed.

Lemma mark_refines t now key s h b s' :
  refines t s h -> t <= now -> mark_if_new key now s = (b, s') ->
  exists h', accept ttl max key now h = (b, h') /\ refines now s' h'.
Proof using Httl Hmax.
  intros Hr Ht. pose proof (purged t now s h Hr Ht) as Hp. destruct Hr as [Htt Hm Ho He Hk].
  assert (NoDup (recent now h).*1) as Hk' by (rewrite (recent_later t now h Ht); by apply live_keys).
  unfold mark_if_new, accept. rewrite Hp. cbn [dd_expires_at with_expires dd_ttl].
  pose proof (ordered_mono t now h Ht Ho) as Ho'.
  destruct (expiry_of key (map deadline (recent now h))) as [d|] eqn:Ed.
  - apply expiry_of_in, list_elem_of_fmap in Ed as ([k t'] & E & Hin). injection E as -> ->.
    assert (k ∈ (recent now h).*1) as Hin' by (apply list_elem_of_fmap; by exists (k, t')).
    apply list_elem_of_In, List.filter_In in Hin as [_ Hd]. simpl in Hd. rewrite Hd, bool_decide_true by done.
    intros [= <- <-]. exists h. split; [done|]. by split.
  - apply expiry_of_none in Ed. rewrite deadline_keys in Ed. rewrite bool_decide_false by done.
    rewrite set_expiry_new by (by rewrite deadline_keys).
    change (map deadline (recent now h) ++ [(key, now + dd_ttl s)])%list with (map deadline (recent now h) ++ [(key, now + dd_ttl s)])%list.
    rewrite Htt. change [(key, now + ttl)] with (map deadline [(key, now)]). rewrite <- map_app.
    destruct (recent_snoc now now key h Ho') as [Hsn Hlen].
    assert (NoDup (recent now h ++ [(key, now)])%list.*1) as Hnd.
    { rewrite fmap_app. apply NoDup_app. split_and!; [done | | apply NoDup_singleton].
      intros x Hx Hx'. apply list_elem_of_singleton in Hx'. simpl in Hx'. by subst. }
    assert (ordered now (recent now h ++ [(key, now)])%list) as Hon.
    { apply (ordered_snoc now); [|lia]. unfold WebhookSpec.recent, lastn. by apply ordered_live, ordered_drop. }
    assert (live now (recent now h) = recent now h) as Hll by (by apply live_live).
    change (dd_max (with_expires s (map deadline (recent now h)))) with (dd_max s).
    rewrite (enforced now key (with_expires s (map deadline (recent now h))) (recent now h)) by done.
    intros [= <- <-]. eexists. split; [done|]. rewrite <- Hsn.
    split; [done | done | by apply (ordered_snoc now) | done |].
    rewrite Hsn. destruct (_ <? max)%nat; [done|]. destruct (recent now h); [done|]. by apply NoDup_cons in Hnd as [_ ?].
Qed.

Lemma marks_refine l t s h :
  refines t s h -> clocks_from t l.*2 ->
  (marks l s).1 = (accepts ttl max l h).1 /\ exists t', refines t' (marks l s).2 (accepts ttl max l h).2.
Proof using Httl Hmax.
  revert t s h. induction l as [|[key now] l IH]; intros t s h Hr Hc; simpl; [by split; [|exists t]|].
  destruct Hc as [Ht Hc]. destruct (mark_if_new key now s) as [b s'] eqn:Em.
  destruct (mark_refines t now key s h b s' Hr Ht Em) as (h' & -> & Hr').
  destruct (IH now s' h' Hr' Hc) as [E [t' Hr'']]. destruct (marks l s') as [bs s2], (accepts ttl max l h') as [bs' h2].
  simpl in *. subst. split; [done | by exists t'].
Qed.

(** ** Within one period *)

Lemma recent_all now t h : (List.length h <= max)%nat -> Forall (fun kt => t <= kt.2) h -> now < t + ttl -> recent now h = h.
Proof.
  intros Hl Hh Ht. unfold WebhookSpec.recent, lastn. replace (List.length h - max)%nat with 0%nat by lia. rewrite drop_0.
  unfold WebhookSpec.live. clear Hl. induction Hh as [|x h Hx _ IH]; [done|]. simpl.
  destruct (Z.ltb_spec now (x.2 + ttl)); [by rewrite IH | lia].
Qed.

Lemma accepts_once t l h :
  Forall (fun kt => t <= kt.2) (h ++ l)%list -> Forall (fun kt => kt.2 < t + ttl) l ->
  (List.length h + List.length l <= max)%nat -> NoDup h.*1 ->
  let r := accepts ttl max l h in
  r.2 = (h ++ picked r.1 l)%list /\ NoDup r.2.*1 /\ forall k, k ∈ h.*1 \/ k ∈ l.*1 -> k ∈ r.2.*1.
Proof.
  revert h. induction l as [|[key now] l IH]; intros h Hf Hl Hlen Hnd; cbn [accepts].
  { simpl. rewrite app_nil_r. split_and!; [done | done | by intros k [|?%not_elem_of_nil]]. }
  apply Forall_app in Hf as [Hfh Hf]. apply Forall_cons in Hf as [Hn Hf]. apply Forall_cons in Hl as [Hnow Hl].
  cbn [List.length] in Hlen. unfold accept. rewrite (recent_all now t h) by (done || lia). case_bool_decide as Hin.
  - destruct (IH h) as (E & Hnd' & Hall); [by apply Forall_app | done | lia | done |].
    destruct (accepts ttl max l h) as [bs h2]. cbn [fst snd picked] in *. split_and!; [done | done |].
    intros k [Hk|[->|Hk]%elem_of_cons]; apply Hall; [by left | by left | by right].
  - destruct (IH (h ++ [(key, now)])%list) as (E & Hnd' & Hall).
    + repeat (apply Forall_app; split); try done. by repeat constructor.
    + done.
    + rewrite length_app. simpl. lia.
    + rewrite fmap_app. apply NoDup_app. split_and!; [done | | apply NoDup_singleton].
      intros x Hx Hx'. apply list_elem_of_singleton in Hx'. simpl in Hx'. by subst.
    + destruct (accepts ttl max l _) as [bs h2]. cbn [fst snd picked] in *. split_and!; [by rewrite E, <- app_assoc | done |].
      assert (key ∈ (h ++ [(key, now)])%list.*1) as Hkey by (rewrite fmap_app; apply elem_of_app; right; by left).
      intros k [Hk|[->|Hk]%elem_of_cons]; apply Hall; [left; rewrite fmap_app; apply elem_of_app; by left | by left | by right].
Qed.
End dedupe.

(** * The graph *)

(** The alerts of a payload that may be emitted. *)
Definition activity_alerts (payload : dict) : list dict :=
  match get payload "event" with
  | VDict event => normalize_activity_rows (py_str (get_default event "network" (VStr ""))) (as_list (get event "activity"))
  | _ => []
  end.

Definition candidates (payload : dict) (query_csv : option string) : list dict :=
  filter_incoming_for_watched (activity_alerts payload) (merge_watched_addresses query_csv (Some payload)).

Definition payload_key (payload alert : dict) : dedupe_key :=
  alert_key (py_str (get_default payload "webhookId" (VStr ""))) (py_str (get_default payload "id" (VStr ""))) alert.

Definition clock_event (t : Z) : webevent := Ev (E := web) (NodeIO Monotonic) t.

Lemma dedupe_alerts_marks wid eid alerts store tr r :
  may (dedupe_alerts wid eid alerts store) tr r ->
  exists clocks, tr = map clock_event clocks /\ List.length clocks = List.length alerts /\
    let m := marks (zip (map (alert_key wid eid) alerts) clocks) store in
    r = Ok (picked m.1 alerts, Z.of_nat (List.length (List.filter negb m.1)), m.2).
Proof.
  revert store tr r. induction alerts as [|alert alerts IH]; intros store tr r H; simpl in H.
  { destruct H as [-> ->]. by exists []. }
  destruct H as (now & tr' & -> & H). destruct (mark_if_new _ now store) as [b store'] eqn:Em.
  apply may_bind_exn in H as [(e & (? & _ & _ & [=])%IH & _)|(tr1 & tr2 & [[fresh dups] st] & -> & (clocks & -> & Hl & E)%IH & H)].
  injection E as -> -> ->. exists (now :: clocks). cbn [map zip zip_with marks List.length]. rewrite Em, Hl.
  destruct (marks _ store') as [flags st'] eqn:Ems. cbn [fst snd] in *.
  destruct b, H as [-> ->]; (split; [by rewrite app_nil_r|]); (split; [done|]); [done|].
  simpl. f_equal. f_equal. f_equal. lia.
Qed.

Section graph.
Context {G : LangGraph web AlchemyWebhookState} {GL : LangGraphLaws merge_webhook_state G}.

Lemma webhook_graph_sequential : sequential build_alchemy_webhook_graph.
Proof. unfold sequential. apply (bool_decide_unpack _). reflexivity. Qed.

Definition delivered_state (payload : dict) (watched : list string) (store : AlchemyWebhookDedupeStore) : AlchemyWebhookState :=
  Build_AlchemyWebhookState (Some payload) (Some watched) None None None None None None None None None None (Some store).

(** The summary of a delivery. *)
Definition summary (skip_reason network : option string) (normalized filtered : nat) (alerts : list dict) (duplicates : Z) : dict :=
  [("received", VBool true); ("skipped", VBool (isSome skip_reason)); ("skip_reason", of_opt_str skip_reason);
   ("network", of_opt_str network); ("normalized_count", VInt (Z.of_nat normalized)); ("filtered_count", VInt (Z.of_nat filtered));
   ("processed", VInt (Z.of_nat (List.length alerts))); ("duplicate_count", VInt duplicates); ("alerts", VList (map VDict alerts))].

Definition payload_network (payload : dict) : string :=
  match get payload "event" with VDict event => py_str (get_default event "network" (VStr "")) | _ => "" end.

(** A node without calls. *)
Lemma pure_step limit fuel name f next s p tr r :
  dict_get (sg_nodes build_alchemy_webhook_graph) name = Some f -> f s = ret_ok p ->
  successor build_alchemy_webhook_graph name (merge_webhook_state s p) = Some next -> next <> END ->
  may (run_from merge_webhook_state limit (S fuel) build_alchemy_webhook_graph name s) tr r ->
  may (run_from merge_webhook_state limit fuel build_alchemy_webhook_graph next (merge_webhook_state s p)) tr r.
Proof.
  intros Hf Hp Hn Hne H. rewrite (run_from_step _ _ _ _ name f) in H by done. rewrite Hp in H. unfold bind_exn, ret_ok in H.
  cbn [prog_bind] in H. rewrite Hn in H. by destruct (String.eqb_spec next END).
Qed.

Definition normalized_state (payload : dict) : AlchemyWebhookState :=
  Build_AlchemyWebhookState None None None None (Some (payload_network payload)) None None (Some (activity_alerts payload))
    None None None None None.

Definition classified (payload : dict) : AlchemyWebhookState :=
  Build_AlchemyWebhookState None None (Some (py_str (get_default payload "webhookId" (VStr ""))))
    (Some (py_str (get_default payload "id" (VStr "")))) None (Some false) (Some None) None None None None None None.
Definition deduped (fresh : list dict) (duplicates : Z) (store : AlchemyWebhookDedupeStore) : AlchemyWebhookState :=
  Build_AlchemyWebhookState None None None None None None None None None (Some fresh) (Some duplicates) None (Some store).
Definition ignored (payload : dict) : AlchemyWebhookState :=
  Build_AlchemyWebhookState None None (Some (py_str (get_default payload "webhookId" (VStr ""))))
    (Some (py_str (get_default payload "id" (VStr "")))) (Some "") (Some true)
    (Some (Some match get payload "type" with VNone => "ignored_type" | t => "ignored_type:" ++ py_str t end))
    (Some []) (Some []) (Some []) (Some 0) None None.

Lemma classify_delivered payload watched store :
  classify (delivered_state payload watched store) =
  ret_ok (if eq_str (get payload "type") ADDRESS_ACTIVITY then classified payload else ignored payload).
Proof. unfold classify. cbn [ws_payload delivered_state from_option]. by destruct (eq_str _ _). Qed.

Lemma webhook_graph_run payload watched store tr r :
  may (invoke build_alchemy_webhook_graph (delivered_state payload watched store)) tr r ->
  exists s', r = Ok s' /\
    if eq_str (get payload "type") ADDRESS_ACTIVITY then
      let alerts := filter_incoming_for_watched (activity_alerts payload) watched in
      exists clocks, tr = map clock_event clocks /\ List.length clocks = List.length alerts /\
        let m := marks (zip (map (payload_key payload) alerts) clocks) store in
        ws_dedupe_store s' = Some m.2 /\
        ws_emit_summary s' = Some (summary None (Some (payload_network payload)) (List.length (activity_alerts payload))
          (List.length alerts) (picked m.1 alerts) (Z.of_nat (List.length (List.filter negb m.1))))
    else tr = [] /\ ws_dedupe_store s' = Some store /\ exists reason, ws_emit_summary s' = Some (summary (Some reason) (Some "") 0 0 [] 0).
Proof using GL.
  intros H. apply (invoke_runs merge_webhook_state _ _ webhook_graph_sequential) in H.
  pose proof (recursion_limit_default merge_webhook_state) as Hl.
  destruct recursion_limit as [|[|[|[|[|fuel]]]]]; try lia. clear Hl.
  change (may (run_from merge_webhook_state (S (S (S (S (S fuel))))) (S (S (S (S (S fuel))))) build_alchemy_webhook_graph "classify"
    (delivered_state payload watched store)) tr r) in H.
  pose proof (classify_delivered payload watched store) as Hc.
  destruct (eq_str (get payload "type") ADDRESS_ACTIVITY) eqn:Ety.
  - eapply (pure_step _ _ "classify" _ "normalize_activity") in H; [|reflexivity | exact Hc | reflexivity | done].
    eapply (pure_step _ _ "normalize_activity" _ "filter_incoming" _ (normalized_state payload)) in H;
      [|reflexivity | | reflexivity | done].
    2: { unfold normalize_activity, normalized_state, activity_alerts, payload_network. cbn. by destruct (get payload "event"). }
    eapply (pure_step _ _ "filter_incoming" _ "dedupe") in H; [|reflexivity | reflexivity | reflexivity | done].
    rewrite (run_from_step _ _ _ _ "dedupe" dedupe) in H by reflexivity.
    set (alerts := filter_incoming_for_watched (activity_alerts payload) watched).
    match type of H with may (bind_exn (dedupe ?s) _) _ _ => set (s3 := s) in H end.
    assert (dedupe s3 = bind_exn (dedupe_alerts (py_str (get_default payload "webhookId" (VStr "")))
      (py_str (get_default payload "id" (VStr ""))) alerts store) (fun '(fresh, duplicates, store') => ret_ok (deduped fresh duplicates store')))
      as Hd by reflexivity.
    rewrite Hd in H. clear Hd.
    apply may_bind_exn in H as [(e & [(e' & H & ->)|(? & ? & ? & _ & _ & H)]%may_bind_exn & ->)|(tr1 & tr2 & p & -> & Hp & H)].
    { by apply dedupe_alerts_marks in H as (? & _ & _ & [=]). }
    { destruct x1 as [[? ?] ?]. by destruct H. }
    apply may_bind_ok in Hp as (t1 & t2 & [[fresh dups] st] & -> & Hm & [-> [= ->]]).
    apply dedupe_alerts_marks in Hm as (clocks & -> & Hl & E). injection E as -> -> ->.
    change (may (run_from merge_webhook_state (S (S (S (S (S fuel))))) (S fuel) build_alchemy_webhook_graph "emit_alert"
      (merge_webhook_state s3 (deduped (picked (marks (zip (map (payload_key payload) alerts) clocks) store).1 alerts)
         (Z.of_nat (List.length (List.filter negb (marks (zip (map (payload_key payload) alerts) clocks) store).1)))
         (marks (zip (map (payload_key payload) alerts) clocks) store).2))) tr2 r) in H.
    rewrite (run_from_step _ _ _ _ "emit_alert" emit_alert) in H by reflexivity. destruct H as [-> ->].
    eexists. split; [reflexivity|]. exists clocks. by rewrite !app_nil_r.
  - eapply (pure_step _ _ "classify" _ "emit_alert") in H; [|reflexivity | exact Hc | reflexivity | done].
    rewrite (run_from_step _ _ _ _ "emit_alert" emit_alert) in H by reflexivity. destruct H as [-> ->].
    eexists. split; [reflexivity|]. split; [done|]. split; [done|]. by eexists.
Qed.
End graph.

(** * The claims *)

Definition empty_store (ttl : Z) (max : nat) : AlchemyWebhookDedupeStore := {| dd_ttl := ttl; dd_max := Z.of_nat max; dd_expires_at := [] |}.

Lemma empty_refines ttl max t : refines ttl max t (empty_store ttl max) [].
Proof.
  assert (recent ttl max t [] = []) as E by (unfold recent, lastn; by rewrite drop_nil).
  split; rewrite ?E; try done. constructor.
Qed.

Lemma clocks_after t l : clocks_from t l.*2 -> Forall (fun kt : dedupe_key * Z => t <= kt.2) l.
Proof.
  revert t. induction l as [|x l IH]; intros t; [constructor|]. intros [Ht Hc]. constructor; [done|].
  eapply Forall_impl; [exact (IH _ Hc) | simpl; intros; lia].
Qed.

(** C16. Under a clock that does not go back, a key is new to the dedupe store exactly when it is not among the last [max]
    accepted keys that were accepted less than the period ago; the store never holds more than [max] keys; and of at most
    [max] marks within one period every key is accepted exactly once. *)
Theorem dedupe_accepts_recent (ttl t : Z) (max : nat) (l : list (dedupe_key * Z))
    (Httl : 0 < ttl) (Hmax : (0 < max)%nat) (Hclock : clocks_from t l.*2) :
  let m := marks l (empty_store ttl max) in
  m.1 = (accepts ttl max l []).1 /\ (List.length (dd_expires_at m.2) <= max)%nat /\
  ((List.length l <= max)%nat -> Forall (fun kt => kt.2 < t + ttl) l ->
   NoDup (picked m.1 l).*1 /\ forall k, k ∈ l.*1 -> k ∈ (picked m.1 l).*1).
Proof.
  destruct (marks_refine ttl max Httl Hmax l t _ [] (empty_refines ttl max t) Hclock) as [E [t' [_ _ Ho He _]]].
  cbv zeta. split; [exact E|]. split.
  - rewrite He, length_map. by eapply (recent_snoc ttl max Httl Hmax t' t' ("", "", "", "")).
  - intros Hl Hp. destruct (accepts_once ttl max Hmax t l []) as (E2 & Hnd & Hall); [by apply clocks_after | done | done | constructor |].
    simpl in E2. rewrite E, <- E2. split; [done|]. intros k Hk. apply Hall. by right.
Qed.

Section claims.
Context {G : LangGraph web AlchemyWebhookState} {GL : LangGraphLaws merge_webhook_state G}.
Context (environ : string -> option string) (settings : MercurySettings).

(** The hex digits of a signature. *)
Definition signature_digits (signature : string) : string :=
  let sig := py_strip signature in py_fold (if py_startswith (py_lower sig) "0x" then str_drop 2 sig else sig).

Lemma valid_signature body signature key :
  is_valid_signature_for_string_body body signature key = true ->
  key <> "" /\ signature_digits signature = hex_of_bytes (hmac_sha256 (mjoin (map utf8_bytes (list_ascii_of_string key))) (latin1_bytes body)).
Proof.
  unfold is_valid_signature_for_string_body. fold (signature_digits signature).
  destruct (str_empty key) eqn:Ek; [done|]. apply str_empty_false in Ek. destruct (str_empty signature); [done|]. simpl orb. cbv iota zeta.
  destruct (_ || _); [done|]. intros [_ E%String.eqb_eq]%andb_prop. done.
Qed.

(** C14. Only an authentic delivery is processed: when the endpoint answers with a summary, the signature of the request is the
    hex HMAC-SHA256 of the very bytes of its body under the non-empty key that was resolved for it, and the body is a JSON
    object; with any other answer the state of the application, and so the dedupe store, is as it was. *)
Theorem webhook_authentic (app app' : app_state) (request : webhook_request) (tr : list webevent) (res : http_result)
    (Hrun : may (alchemy_address_activity_webhook environ settings app request) tr (Ok (res, app'))) :
  match res with
  | HTTPException _ _ => app' = app
  | Answer _ =>
      exists signature secret_store key payload tr1 tr2,
        wq_signature request = Some signature /\ tr = (tr1 ++ tr2)%list /\
        may (resolve_alchemy_webhook_signing_key app settings secret_store) tr1 (Ok key) /\ key <> "" /\
        signature_digits signature =
          hex_of_bytes (hmac_sha256 (mjoin (map utf8_bytes (list_ascii_of_string key))) (latin1_bytes (wq_body request))) /\
        wq_json request = Some (VDict payload)
  end.
Proof.
  unfold alchemy_address_activity_webhook in Hrun.
  assert (forall status detail t, may (ret_ok (HTTPException status detail, app)) t (Ok (res, app')) ->
    match res with HTTPException _ _ => app' = app | Answer _ => False end) as Hret by (intros ? ? ? [_ [= -> ->]]; done).
  destruct (wq_signature request) as [[|c signature]|]; [by apply Hret in Hrun; destruct res| |by apply Hret in Hrun; destruct res].
  destruct (webhook_secret_store environ settings app) as [store|e].
  2: { destruct (has_class _ e); [by apply Hret in Hrun; destruct res | by destruct Hrun]. }
  apply may_bind in Hrun as (tr1 & tr2 & [key|e] & -> & Hkey & Hrun).
  2: { destruct (is_value_error e); [by apply Hret in Hrun; destruct res|].
       destruct (has_class _ e); [by apply Hret in Hrun; destruct res | by destruct Hrun]. }
  destruct (is_valid_signature_for_string_body _ _ _) eqn:Ev; [|by apply Hret in Hrun; destruct res].
  apply valid_signature in Ev as [Hne Hsig]. unfold handle_payload in Hrun.
  destruct (wq_json request) as [[| | | | | |payload]|]; try by apply Hret in Hrun; destruct res.
  apply may_bind_ok in Hrun as (t1 & t2 & s & -> & _ & [-> [= -> ->]]).
  exists (String c signature), store, key, payload, tr1, (t1 ++ [])%list. by split_and!.
Qed.

End claims.

(** * A signed delivery and its retry *)

#[export] Instance sample_webhook_langgraph : LangGraph web AlchemyWebhookState := reference_langgraph merge_webhook_state.
#[export] Instance sample_webhook_langgraph_laws : LangGraphLaws merge_webhook_state sample_webhook_langgraph :=
  reference_langgraph_laws merge_webhook_state.

Definition sample_row (hash to : string) : pyval := VDict [("hash", VStr hash); ("toAddress", VStr to)].
Definition sample_payload : dict :=
  [("type", VStr "ADDRESS_ACTIVITY"); ("webhookId", VStr "wh"); ("id", VStr "ev");
   ("event", VDict [("network", VStr "ETH_MAINNET");
                    ("activity", VList [sample_row "0xA1" "0xB1"; sample_row "0xA2" "0xb2"; sample_row "0xA1" "0xB1"])])].
Definition sample_body : string :=
  str_map (fun c => if Ascii.eqb c "'" then dquote_char else c)
    ("{'type':'ADDRESS_ACTIVITY','webhookId':'wh','id':'ev','event':{'network':'ETH_MAINNET','activity':" ++
     "[{'hash':'0xA1','toAddress':'0xB1'},{'hash':'0xA2','toAddress':'0xb2'},{'hash':'0xA1','toAddress':'0xB1'}]}}").

Definition sample_delivery (signature : string) : webhook_request :=
  {| wq_body := sample_body; wq_json := Some (VDict sample_payload); wq_signature := Some signature;
     wq_watched_addresses := Some "0xb1, 0xB3" |}.
Definition sample_signature : string := hex_of_bytes (hmac_sha256 (latin1_bytes "whsec") (latin1_bytes sample_body)).

Definition sample_webhook_app : app_state := {| as_signing_key := Some " whsec "; as_dedupe := default_dedupe_store |}.

(** A clock that stands still; nothing else is called. *)
Definition hook_handler (c : web) (t : Z) : Z * ans c :=
  (t, match c return ans c -> ans c with NodeIO Monotonic => fun _ => t | _ => fun a => a end
        (RuntimeSpec.client_handler c ∅).2).

Definition deliver (app : app_state) (signature : string) : result exn (http_result * app_state) :=
  (run_prog hook_handler (alchemy_address_activity_webhook (fun _ => None) default_settings app (sample_delivery signature)) 5).2.

Definition hook_counts (r : result exn (http_result * app_state)) : option (pyval * pyval) :=
  match r with Ok (Answer body, _) => Some (get body "processed", get body "duplicate_count") | _ => None end.

Example forged : deliver sample_webhook_app "00" = Ok (HTTPException 403 "Invalid webhook signature.", sample_webhook_app).
Proof. vm_compute. reflexivity. Qed.
Example delivered_then_retried :
  (fst_counts ← hook_counts (deliver sample_webhook_app ("0x" ++ py_upper sample_signature));
   match deliver sample_webhook_app sample_signature with
   | Ok (_, app) => snd_counts ← hook_counts (deliver app sample_signature); Some (fst_counts, snd_counts)
   | Err _ => None
   end) = Some ((VInt 1, VInt 1), (VInt 0, VInt 2)).
Proof. vm_compute. reflexivity. Qed.

Lemma dedupe_accepts_recent_witness :
  let l := [(("w", "e", "a", "na"), 5); (("w", "e", "b", "na"), 6); (("w", "e", "a", "na"), 7)] in
  (marks l (empty_store 10 5)).1 = [true; true; false] /\ NoDup (picked (marks l (empty_store 10 5)).1 l).*1.
Proof.
  intros l. split; [reflexivity|].
  refine (proj1 (proj2 (proj2 (dedupe_accepts_recent 10 5 5 l _ _ _)) _ _)); try (simpl; lia).
  repeat constructor; simpl; lia.
Defined.

Lemma webhook_authentic_witness :
  exists body app' signature key, deliver sample_webhook_app sample_signature = Ok (Answer body, app') /\
    wq_signature (sample_delivery sample_signature) = Some signature /\ key <> "" /\
    signature_digits signature =
      hex_of_bytes (hmac_sha256 (mjoin (map utf8_bytes (list_ascii_of_string key))) (latin1_bytes sample_body)).
Proof.
  assert (exists body app', deliver sample_webhook_app sample_signature = Ok (Answer body, app')) as (body & app' & E)
    by (eexists _, _; vm_compute; reflexivity).
  pose proof (run_may hook_handler (alchemy_address_activity_webhook (fun _ => None) default_settings sample_webhook_app
    (sample_delivery sample_signature)) 5) as Hm.
  fold (deliver sample_webhook_app sample_signature) in Hm. rewrite E in Hm.
  pose proof (webhook_authentic (fun _ => None) default_settings sample_webhook_app app' (sample_delivery sample_signature) _ _ Hm)
    as (signature & _ & key & _ & _ & _ & H1 & _ & _ & H2 & H3 & _).
  exists body, app', signature, key. split; [exact E|]. split; [exact H1|]. split; [exact H2 | exact H3].
Defined.

