(* ===== verification/Invoke.v ===== *)
(** The in-process API ([mercury/invoke.py], [mercury/service/models.py]): from a request envelope to the input of the
    runtime, and from its final state to a response. *)
From stdpp Require Import base tactics option list sets strings.
From Stdlib Require Import ZArith Lia Ascii String.
From S2P Require Import Prelude Python Values Exceptions Redaction Errors Addresses Chains Models SwapModels Prog Effects Graph State.
From S2P Require Import Io Custody Web.

Local Open Scope string_scope.
Local Open Scope Z_scope.
Local Open Scope prog_scope.
Local Open Scope validation_scope.

(** * service/models.py *)

(** An intent is an object or a text. *)
Record MercuryInvokeRequest := {
  iq_request_id : option string;
  iq_user_id : string;
  iq_wallet_id : string;
  iq_intent : dict + string;
  iq_chain : option string;
  iq_idempotency_key : option string;
  iq_approval_response : option dict;
  iq_metadata : dict
}.

(** [normalize_chain]: a blank chain is none. *)
Definition v_invoke_chain (chain : option string) : V (option string) :=
  match v_opt (v_min_length "chain" 1) chain with
  | Ok (Some c) => Ok (if str_empty (py_fold c) then None else Some (py_fold c))
  | Ok None => Ok None
  | Err e => Err e
  end.

Definition v_wallet (loc w : string) : V string := x ← v_min_length loc 1 w; vfield loc (validate_wallet_id x).

Definition make_MercuryInvokeRequest (request_id : option string) (user_id wallet_id : string) (intent : dict + string)
    (chain idempotency_key : option string) (approval_response : option dict) (metadata : dict) : result exn MercuryInvokeRequest :=
  v_model "MercuryInvokeRequest"
    ((fun '(a, b, c, d, e) =>
        {| iq_request_id := a; iq_user_id := b; iq_wallet_id := c; iq_intent := intent; iq_chain := d; iq_idempotency_key := e;
           iq_approval_response := approval_response; iq_metadata := metadata |}) <$>
       (v_opt (v_min_length "request_id" 1) request_id ⊛ v_min_length "user_id" 1 user_id ⊛ v_wallet "wallet_id" wallet_id
        ⊛ v_invoke_chain chain ⊛ v_opt (v_min_length "idempotency_key" 1) idempotency_key))
    no_after.

(** [a or b] of optional texts *)
Definition text_or (a b : option string) : option string :=
  match a with Some (String _ _) => a | _ => b end.

(** [uuid4] gives [generated]. *)
Definition effective_request_id (q : MercuryInvokeRequest) (header_request_id : option string) (generated : string) : string :=
  default generated (text_or (iq_request_id q) (text_or header_request_id (Some generated))).
Definition effective_idempotency_key (q : MercuryInvokeRequest) (header_idempotency_key : option string) : option string :=
  text_or (iq_idempotency_key q) header_idempotency_key.

Record MercuryError := {
  me_code : string;
  me_category : string;
  me_message : string;
  me_retryable : bool;
  me_recoverable : bool;
  me_user_action : option string;
  me_llm_action : option string;
  me_details : dict
}.

Record MercuryInvokeResponse := {
  rs_request_id : string;
  rs_status : string;
  rs_chain : option string;
  rs_message : string;
  rs_data : option dict;
  rs_tx_hash : option string;
  rs_receipt : option dict;
  rs_approval_required : bool;
  rs_approval_payload : option dict;
  rs_error : option MercuryError
}.

(** * The request *)

(** The fields of the envelope are defaults of the intent's own. *)
Definition _intent_with_boundary_fields (payload : MercuryInvokeRequest) (idempotency_key : option string) : pyval :=
  match iq_intent payload with
  | inr text => VStr text
  | inl intent =>
      let intent := match iq_chain payload with Some c => dict_setdefault intent "chain" (VStr c) | None => intent end in
      let intent := dict_setdefault intent "wallet_id" (VStr (iq_wallet_id payload)) in
      let intent := match idempotency_key with Some k => dict_setdefault intent "idempotency_key" (VStr k) | None => intent end in
      let metadata := dict_set (iq_metadata payload) "user_id" (VStr (iq_user_id payload)) in
      let metadata := match iq_approval_response payload with
                      | Some a => dict_set metadata "approval_response" (VDict a)
                      | None => metadata
                      end in
      VDict (dict_setdefault intent "metadata" (VDict metadata))
  end.

Definition _state_from_request (payload : MercuryInvokeRequest) (request_id : string) (idempotency_key : option string) : MercuryState :=
  Build_MercuryState [] (Some request_id) (Some (AnyValue (_intent_with_boundary_fields payload idempotency_key)))
    None None None None None None None None None None None None None None None None None None None None.

(** * The response *)

Definition PolicyDecisionStatus_value (s : PolicyDecisionStatus) : string :=
  match s with ALLOWED => "allowed" | NEEDS_APPROVAL => "needs_approval" | POLICY_REJECTED => "rejected" end.

(** [model_dump] of the models a response carries *)
Definition error_dump (e : MercuryErrorInfo) : dict :=
  [("code", VStr (ei_code e)); ("category", VStr (ei_category e)); ("message", VStr (ei_message e));
   ("retryable", VBool (ei_retryable e)); ("recoverable", VBool (ei_recoverable e));
   ("user_action", of_opt_str (ei_user_action e)); ("llm_action", of_opt_str (ei_llm_action e)); ("details", VDict (ei_details e))].

Definition decision_dump (d : PolicyDecision) : dict :=
  [("status", VStr (PolicyDecisionStatus_value (pd_status d))); ("reason", VStr (pd_reason d))].

Definition opt_dict (d : option dict) : pyval := match d with Some d => VDict d | None => VNone end.

Definition execution_dump (e : ExecutionResult) : dict :=
  [("chain", VStr (er_chain e)); ("chain_id", VInt (er_chain_id e)); ("wallet_id", VStr (er_wallet_id e));
   ("wallet_address", of_opt_str (er_wallet_address e)); ("tx_hash", of_opt_str (er_tx_hash e));
   ("status", VStr (ExecutionStatus_value (er_status e))); ("block_number", of_opt_int (er_block_number e));
   ("gas_used", of_opt_int (er_gas_used e)); ("policy_decision", opt_dict (decision_dump <$> er_policy_decision e));
   ("error", opt_dict (error_dump <$> er_error e))].

Definition approval_dump (a : ApprovalResult) : dict :=
  [("status", VStr (ApprovalStatus_value (ar_status a))); ("reason", VStr (ar_reason a)); ("approved_by", of_opt_str (ar_approved_by a))].

(** [redact_value] of an object *)
Definition redacted_dict (d : dict) : dict := default [] (as_dict (redact_value (VDict d))).

Definition _mercury_error_from_info (info : MercuryErrorInfo) : MercuryError :=
  let safe := redacted_dict (error_dump info) in
  let opt_text v := match v with VStr a => Some (redact_error_message a) | _ => None end in
  {| me_code := py_str (get_default safe "code" (VStr "internal_error"));
     me_category := py_str (get_default safe "category" (VStr "internal"));
     me_message := redact_error_message (py_str (get_default safe "message" (VStr "")));
     me_retryable := truthy (get_default safe "retryable" (VBool false));
     me_recoverable := truthy (get_default safe "recoverable" (VBool true));
     me_user_action := opt_text (get safe "user_action"); me_llm_action := opt_text (get safe "llm_action");
     me_details := match get safe "details" with VDict d => redacted_dict d | _ => [] end |}.

Definition _receipt_payload (e : ExecutionResult) : option dict :=
  match er_tx_hash e with
  | None => None
  | Some h =>
      Some ([("tx_hash", VStr h); ("status", VStr (ExecutionStatus_value (er_status e)))] ++
            match er_block_number e with Some n => [("block_number", VInt n)] | None => [] end ++
            match er_gas_used e with Some n => [("gas_used", VInt n)] | None => [] end)%list
  end.

Definition _approval_required (approval : option ApprovalResult) : bool :=
  match approval with Some a => bool_decide (ar_status a = REQUIRED) | None => false end.

Definition _response_message (s : MercuryState) : string :=
  match response_text s with Some (String _ _ as text) => _redact_text text | _ => "Mercury request completed." end.

Definition _message_for_status (status : string) : string :=
  if String.eqb status "approval_required" then "Human approval is required before execution."
  else "Mercury request " ++ status ++ ".".

Definition _chain_name (s : MercuryState) (fallback_chain : option string) : option string :=
  match chain_name s, chain_config s with
  | Some name, _ => Some name
  | None, Some config => Some (cc_name config)
  | None, None => fallback_chain
  end.

(** pydantic's JSON dump of the models in a state, as [_jsonable] collects it. *)
Class StateDump := state_dump : MercuryState -> dict.

Section response.
Context {SD : StateDump} {PT : PydanticText}.

(** [_response_from_state] *)
Definition _response_from_state (s : MercuryState) (request_id : string) (fallback_chain : option string) : MercuryInvokeResponse :=
  let safe_state := redacted_dict (state_dump s) in
  let approval := approval_result s in
  let approval_required := _approval_required approval in
  let approval_payload := if approval_required then (fun a => redacted_dict (approval_dump a)) <$> approval else None in
  match execution_result s, error s with
  | Some execution, _ =>
      let status := if approval_required then "approval_required" else ExecutionStatus_value (er_status execution) in
      {| rs_request_id := request_id; rs_status := status; rs_chain := Some (er_chain execution);
         rs_message := match er_error execution with
                       | Some e => redact_error_message (ei_message e)
                       | None => _message_for_status status
                       end;
         rs_data := Some [("execution_result", redact_value (VDict (execution_dump execution)))];
         rs_tx_hash := er_tx_hash execution; rs_receipt := _receipt_payload execution;
         rs_approval_required := approval_required; rs_approval_payload := approval_payload;
         rs_error := _mercury_error_from_info <$> er_error execution |}
  | None, Some error =>
      let mercury_err := _mercury_error_from_info error in
      {| rs_request_id := request_id; rs_status := "failed"; rs_chain := _chain_name s fallback_chain;
         rs_message := me_message mercury_err; rs_data := Some safe_state; rs_tx_hash := None; rs_receipt := None;
         rs_approval_required := false; rs_approval_payload := None; rs_error := Some mercury_err |}
  | None, None =>
      {| rs_request_id := request_id; rs_status := "succeeded"; rs_chain := _chain_name s fallback_chain;
         rs_message := _response_message s; rs_data := Some safe_state; rs_tx_hash := tx_hash s; rs_receipt := None;
         rs_approval_required := approval_required; rs_approval_payload := approval_payload; rs_error := None |}
  end.

(** [MercuryInvoker.invoke] over a runtime *)
Definition invoke_mercury (runtime : MercuryState -> online (result exn MercuryState)) (payload : MercuryInvokeRequest)
    (x_request_id idempotency_key : option string) (generated : string) : online (result exn MercuryInvokeResponse) :=
  let request_id := effective_request_id payload x_request_id generated in
  let state := _state_from_request payload request_id (effective_idempotency_key payload idempotency_key) in
  prog_bind (runtime state) (fun r =>
    Ret match r with
        | Ok s => Ok (_response_from_state s request_id (iq_chain payload))
        | Err exc => Err (Exn GraphInvocationErrorC (redact_error_message (str_exn exc)))
        end).
End response.
