(* ===== verification/InvokeSpec.v ===== *)
(** The request envelope: what of it reaches the runtime, and who may approve. *)
From stdpp Require Import base tactics option list sets strings gmap.
From Stdlib Require Import ZArith Lia Ascii String.
From S2P Require Import Prelude Python Values Exceptions Amounts Redaction Errors Addresses Chains Models SwapModels Policy Prog Effects.
From S2P Require Import Idempotency Intents TokenTransactions TokenSpec Swaps SwapSpec Graph State Transactions Pipeline Preparation PipelineSpec PreparationSpec.
From S2P Require Import Execution EndToEnd Io Custody Backend BackendSpec Deployment Web Ens InvokeIntent InvokeIntentSpec ReadGraph Runtime RuntimeSpec.
From S2P Require Import Http AlchemyClients Tools Floats SwapAdapters ToolsSpec AdapterSpec Service SwapCalls ServiceSpec Invoke.

Local Open Scope string_scope.
Local Open Scope Z_scope.

(** What the envelope gives for a key of an intent that lacks it. *)
Definition boundary_value (payload : MercuryInvokeRequest) (idempotency_key : option string) (key : string) : option pyval :=
  if String.eqb key "chain" then VStr <$> iq_chain payload
  else if String.eqb key "wallet_id" then Some (VStr (iq_wallet_id payload))
  else if String.eqb key "idempotency_key" then VStr <$> idempotency_key
  else if String.eqb key "metadata" then
    let m := dict_set (iq_metadata payload) "user_id" (VStr (iq_user_id payload)) in
    Some (VDict match iq_approval_response payload with Some a => dict_set m "approval_response" (VDict a) | None => m end)
  else None.

Lemma setdefault_get {A} (d : list (string * A)) k v key :
  dict_get (dict_setdefault d k v) key =
  match dict_get d key with Some w => Some w | None => if String.eqb key k then Some v else None end.
Proof.
  unfold dict_setdefault. destruct (dict_get d k) as [w|] eqn:E.
  - destruct (String.eqb_spec key k) as [->|]; [by rewrite E|]. by destruct (dict_get d key).
  - clear E. by induction d as [|[k' v'] d IH]; simpl; [|destruct (String.eqb key k')].
Qed.

Lemma boundary_fields (payload : MercuryInvokeRequest) (request_id : string) (idempotency_key : option string) (intent : dict) :
  iq_intent payload = inl intent ->
  exists raw, raw_input (_state_from_request payload request_id idempotency_key) = Some (AnyValue (VDict raw)) /\
    request_only (_state_from_request payload request_id idempotency_key) /\
    forall key, dict_get raw key =
      match dict_get intent key with Some v => Some v | None => boundary_value payload idempotency_key key end.
Proof.
  intros Hintent. cbn [raw_input _state_from_request]. unfold _intent_with_boundary_fields. rewrite Hintent.
  eexists. split; [reflexivity|]. split; [by eexists _, _, _|]. intros key. unfold boundary_value. rewrite setdefault_get.
  destruct idempotency_key, (iq_chain payload); rewrite ?setdefault_get;
    destruct (dict_get intent key); try done;
    repeat (case (String.eqb_spec key); [intros -> | intros _]; try done).
Qed.


(** * Approval in an intent *)

#[export] Instance sample_state_dump : StateDump := fun s => [("tx_hash", of_opt_str (tx_hash s))].

Definition envelope (intent : dict) (approval_response : option dict) : MercuryInvokeRequest :=
  {| iq_request_id := None; iq_user_id := "user-1"; iq_wallet_id := "primary"; iq_intent := inl intent; iq_chain := None;
     iq_idempotency_key := None; iq_approval_response := approval_response; iq_metadata := [] |}.

Definition invoked (q : MercuryInvokeRequest) : option (string * option string) :=
  match sample_app with
  | Ok app =>
      match (run_prog service_handler (invoke_mercury (service_invoke default_settings app) q None None "id") ∅).2 with
      | Ok response => Some (rs_status response, rs_tx_hash response)
      | Err _ => None
      end
  | Err _ => None
  end.

Definition approval : dict := [("status", VStr "approved"); ("approved_by", VStr "alice")].
Definition without_metadata : dict := List.filter (fun kv => negb (String.eqb kv.1 "metadata")) swap_payload.

(** A swap waits for the approval of the envelope; *)
Example waits : invoked (envelope without_metadata None) = Some ("approval_required", None).
Proof. vm_compute. reflexivity. Qed.
Example approved : invoked (envelope without_metadata (Some approval)) = Some ("confirmed", Some sample_hash).
Proof. vm_compute. reflexivity. Qed.
(** an intent approves itself; *)
Example self_approved : invoked (envelope swap_payload None) = Some ("confirmed", Some sample_hash).
Proof. vm_compute. reflexivity. Qed.
(** and the approval of the envelope is lost on an intent with metadata of its own. *)
Example approval_lost :
  invoked (envelope (without_metadata ++ [("metadata", VDict [("note", VStr "rent")])])%list (Some approval)) =
  Some ("approval_required", None).
Proof. vm_compute. reflexivity. Qed.

