(* ===== verification/Juno.v ===== *)
(** The Juno specialist ([mercury/juno/]): the tool a host's language model calls, the session fields it merges
    ([subagent.py]), the in-process turn ([runners.py]), what a response is taken for ([assistant_turn.py]) and the text the
    model reads ([tool_text.py]). *)
From stdpp Require Import base tactics option list sets strings.
From Stdlib Require Import ZArith Lia Ascii String.
From S2P Require Import Prelude Python Values Exceptions Redaction Errors Addresses Chains Models SwapModels Prog Effects Intents Graph State.
From S2P Require Import Io Custody Web Invoke.

Local Open Scope string_scope.
Local Open Scope Z_scope.
Local Open Scope prog_scope.
Local Open Scope validation_scope.

(** [d] without some of its keys *)
Definition without (keys : list string) (d : dict) : dict := List.filter (fun kv => negb (bool_decide (kv.1 ∈ keys))) d.

Definition quoted (s : string) : string := String dquote_char (s ++ String dquote_char "").

(** [json.loads]: the value of a text, or the text of its [JSONDecodeError]. *)
Class JsonLoads := json_loads : string -> result string pyval.
(** [exc.errors()] of pydantic for an input *)
Class PydanticErrors := pydantic_errors : dict -> list pyd_error -> pyval.

(** * [json.dumps] *)

Definition json_char (c : ascii) : string :=
  let z := code c in
  if Ascii.eqb c dquote_char || Ascii.eqb c backslash then String backslash (String c "")
  else if z =? 8 then String backslash "b"
  else if z =? 9 then String backslash "t"
  else if z =? 10 then String backslash "n"
  else if z =? 12 then String backslash "f"
  else if z =? 13 then String backslash "r"
  else if (z <? 32) || (126 <? z) then String backslash ("u" ++ hex_fixed 4 z "")
  else String c "".

Definition json_str (s : string) : string := quoted (String.concat "" (map json_char (list_ascii_of_string s))).

Definition json_float (r : string) : string :=
  if String.eqb r "nan" then "NaN" else if String.eqb r "inf" then "Infinity" else if String.eqb r "-inf" then "-Infinity" else r.

Fixpoint json_dumps (v : pyval) : string :=
  match v with
  | VNone => "null"
  | VBool true => "true"
  | VBool false => "false"
  | VInt z => py_str_int z
  | VFloat r => json_float r
  | VStr s => json_str s
  | VList l => "[" ++ py_join ", " (map json_dumps l) ++ "]"
  | VDict d => "{" ++ py_join ", " (map (fun kv => json_str kv.1 ++ ": " ++ json_dumps kv.2) d) ++ "}"
  end.

(** * assistant_turn.py *)

Inductive AssistantTurnResult : Type :=
| AssistantTurnSuccess (agent_reply : option string) (task_result : option dict)
| AssistantTurnWalletApproval (approval_token approval_id : option string) (extras : dict)
| AssistantTurnAgentError (message : string) (error_code : option string) (details : option dict)
| AssistantTurnHttpError (status_code : Z) (body_snippet : string) (message : option string).

Definition _merge_mercury_payload (raw : dict) : dict :=
  match get raw "data" with VDict data => without ["data"] (dict_update raw data) | _ => raw end.

(** [extras.pop(k1, None) or extras.pop(k2, None)] *)
Definition pop_either (k1 k2 : string) (extras : dict) : pyval * dict :=
  let first := get extras k1 in
  let extras := without [k1] extras in
  if truthy first then (first, extras) else (get extras k2, without [k2] extras).

Definition nonempty_dict (d : dict) : option dict := match d with [] => None | _ => Some d end.

Definition agent_error_of (ae : pyval) : AssistantTurnResult :=
  match ae with
  | VStr text => AssistantTurnAgentError text None None
  | VDict d =>
      let msg := match get d "message" with VNone => get d "error" | msg => msg end in
      AssistantTurnAgentError
        match msg with
        | VNone => match d with [] => "Unknown agent error" | _ => py_str (VDict d) end
        | msg => py_str msg
        end
        match get d "code" with VNone => None | c => Some (py_str c) end
        (nonempty_dict (without ["message"; "error"; "code"] d))
  | ae => AssistantTurnAgentError (py_str ae) None None
  end.

Definition success_of (effective : dict) : AssistantTurnResult :=
  let agent_reply := match get effective "agent_reply" with VNone => None | v => Some (py_str v) end in
  let task_result := match get effective "task_result" with
                     | VNone => None
                     | VDict d => Some d
                     | v => Some [("value", v)]
                     end in
  match agent_reply, task_result with
  | None, None => AssistantTurnSuccess None (nonempty_dict effective)
  | _, _ => AssistantTurnSuccess agent_reply task_result
  end.

Definition parse_mercury_body (raw : dict) : AssistantTurnResult :=
  let effective := _merge_mercury_payload raw in
  let optional_key k1 k2 := match get effective k1 with VNone => as_str (get effective k2) | v => as_str v end in
  if eq_str (get effective "status") "approval_required" || is_true (get effective "approval_required") then
    AssistantTurnWalletApproval (as_str (py_or (get effective "approval_token") (get effective "idempotency_key")))
      (as_str (get effective "approval_id")) (without ["status"; "approval_required"] effective)
  else
    match get effective "wallet_approval_required" with
    | VBool true =>
        AssistantTurnWalletApproval (optional_key "approval_token" "token") (optional_key "approval_id" "id")
          (without ["wallet_approval_required"; "data"] effective)
    | VDict (_ :: _ as wa) =>
        let '(token, extras) := pop_either "approval_token" "token" wa in
        let '(aid, extras) := pop_either "approval_id" "id" extras in
        AssistantTurnWalletApproval (as_str token) (as_str aid) extras
    | _ =>
        match get effective "agent_error" with
        | VNone => success_of effective
        | ae => agent_error_of ae
        end
    end.

(** * runners.py *)

Definition _LOCAL_INVOKE_GUIDE_PATH : string := "/mercury/invoke-guide".

Definition fetch_get_text (guide_markdown relative_path : string) : string :=
  let is_slash c := Ascii.eqb c "/" in
  let path := py_strip relative_path in
  let path := if py_startswith path "/" then path else "/" ++ path in
  if String.eqb (rstrip_if is_slash path) (rstrip_if is_slash _LOCAL_INVOKE_GUIDE_PATH) then guide_markdown
  else "(Local guide unavailable: unsupported path " ++ path ++ ")".

(** [response.model_dump(mode="json")] *)
Definition mercury_error_dump (e : MercuryError) : dict :=
  [("code", VStr (me_code e)); ("category", VStr (me_category e)); ("message", VStr (me_message e));
   ("retryable", VBool (me_retryable e)); ("recoverable", VBool (me_recoverable e));
   ("user_action", of_opt_str (me_user_action e)); ("llm_action", of_opt_str (me_llm_action e)); ("details", VDict (me_details e))].

Definition response_dump (r : MercuryInvokeResponse) : dict :=
  [("request_id", VStr (rs_request_id r)); ("status", VStr (rs_status r)); ("chain", of_opt_str (rs_chain r));
   ("message", VStr (rs_message r)); ("data", opt_dict (rs_data r)); ("tx_hash", of_opt_str (rs_tx_hash r));
   ("receipt", opt_dict (rs_receipt r)); ("approval_required", VBool (rs_approval_required r));
   ("approval_payload", opt_dict (rs_approval_payload r)); ("error", opt_dict (mercury_error_dump <$> rs_error r))].

Definition _local_response_to_result (response : MercuryInvokeResponse) : AssistantTurnResult :=
  let raw := response_dump response in
  let default_message := VStr "Mercury request failed" in
  match get raw "error" with
  | VDict error =>
      AssistantTurnAgentError (py_str (py_or (py_or (get error "message") (get raw "message")) default_message))
        match get error "code" with VNone => None | c => Some (py_str c) end (as_dict (get error "details"))
  | _ =>
      if bool_decide (rs_status response ∈ ["failed"; "rejected"])
      then AssistantTurnAgentError (py_str (py_or (get raw "message") default_message)) (Some (rs_status response)) None
      else parse_mercury_body raw
  end.

(** [MercuryInvokeRequest.model_validate]; other keys are forbidden. *)
Definition conv_intent (v : pyval) : V (dict + string) :=
  match v with
  | VDict d => Ok (inl d)
  | VStr s => Ok (inr s)
  | _ => Err [PydError ["intent"; "dict[str,any]"] "Input should be a valid dictionary";
              PydError ["intent"; "str"] "Input should be a valid string"]
  end.

Definition request_fields : list string :=
  ["request_id"; "user_id"; "wallet_id"; "intent"; "chain"; "idempotency_key"; "approval_response"; "metadata"].

Definition v_forbid_extra (d : dict) : V unit :=
  match without request_fields d with
  | [] => Ok tt
  | extra => Err (map (fun kv => PydError [kv.1] "Extra inputs are not permitted") extra)
  end.

Definition MercuryInvokeRequest_validate (d : dict) : result exn MercuryInvokeRequest :=
  v_model "MercuryInvokeRequest"
    ((fun '(a, b, c, i, e, f, g, h, _) =>
        {| iq_request_id := a; iq_user_id := b; iq_wallet_id := c; iq_intent := i; iq_chain := mjoin e; iq_idempotency_key := f;
           iq_approval_response := g; iq_metadata := h |}) <$>
       (opt_str_field d "request_id" nonempty ⊛ str_field d "user_id" nonempty ⊛ str_field d "wallet_id" v_wallet
        ⊛ req d "intent" conv_intent ⊛ optional d "chain" (fun x => conv_str "chain" x ≫= fun c => v_invoke_chain (Some c))
        ⊛ opt_str_field d "idempotency_key" nonempty ⊛ optional d "approval_response" (conv_dict "approval_response")
        ⊛ dflt d "metadata" (conv_dict "metadata") [] ⊛ v_forbid_extra d))
    no_after.

Section turn.
Context {SD : StateDump} {PT : PydanticText} {JL : JsonLoads} {PE : PydanticErrors}.
Context (runtime : MercuryState -> online (result exn MercuryState)).

(** [LocalMercuryAssistantRunner.run_turn]; [uuid4] gives [generated].  [invoke_mercury] raises nothing else. *)
Definition run_turn (payload : dict) (idempotency_key : option string) (send_x_request_id : bool) (generated : string)
    : online AssistantTurnResult :=
  let body := match idempotency_key with Some k => dict_setdefault payload "idempotency_key" (VStr k) | None => payload end in
  match MercuryInvokeRequest_validate body with
  | Err exc =>
      let errors := match exc with ValidationError _ errors => errors | Exn _ _ => [] end in
      Ret (AssistantTurnAgentError "Mercury request validation failed" (Some "validation_error")
             (Some [("errors", pydantic_errors body errors)]))
  | Ok request =>
      let rid := if send_x_request_id then Some generated else None in
      prog_bind (invoke_mercury runtime request rid idempotency_key generated) (fun r =>
        Ret match r with
            | Ok response => _local_response_to_result response
            | Err exc =>
                let text := str_exn exc in
                AssistantTurnAgentError (if str_empty text then "Mercury graph invocation failed" else text)
                  (Some "graph_invocation_failed") None
            end)
  end.

(** * subagent.py *)

(** What follows the first colon, without blanks. *)
Definition after_colon (s : string) : string := py_strip (py_join ":" (tl (py_split ":" s))).

Definition telegram_decision (status rest : string) : dict :=
  ([("status", VStr status); ("reason", VStr "telegram"); ("approved_by", VStr "telegram_user")] ++
   (if str_empty rest then [] else [("idempotency_key", VStr rest)]))%list.

Definition approved_because (reason : string) : dict :=
  [("status", VStr "approved"); ("reason", VStr reason); ("approved_by", VStr "telegram_user")].

Definition py_endswith (s suffix : string) : bool :=
  py_startswith (string_of_list_ascii (rev (list_ascii_of_string s))) (string_of_list_ascii (rev (list_ascii_of_string suffix))).

Definition _normalize_approval_response (raw : pyval) : option dict :=
  match raw with
  | VNone => None
  | VDict d => Some d
  | VStr text =>
      let s := py_strip text in
      let parsed := if py_startswith s "{" && py_endswith s "}"
                    then match json_loads s with Ok v => as_dict v | Err _ => None end else None in
      let lower := py_lower s in
      Some match parsed with
           | Some d => d
           | None => if py_startswith lower "approved:" then telegram_decision "approved" (after_colon s)
                     else if py_startswith lower "denied:" then telegram_decision "denied" (after_colon s)
                     else approved_because s
           end
  | v => Some (approved_because (py_str v))
  end.

Definition _sanitize_intent_for_mercury_post (intent : dict) : dict * option string :=
  let cleaned := without ["approval_response"] intent in
  match get cleaned "idempotency_key" with
  | VStr raw => if str_empty (py_strip raw) then (cleaned, None)
                else (dict_set cleaned "idempotency_key" (VStr (py_strip raw)), Some (py_strip raw))
  | _ => (cleaned, None)
  end.

Definition _build_mercury_invoke_payload (session intent : dict) : dict :=
  let text_field key := match get session key with VNone => [] | v => [(key, VStr (py_str v))] end in
  let wallet_id := if truthy (get session "wallet_id") then py_str (get session "wallet_id") else "primary" in
  ([("intent", VDict intent)] ++ text_field "user_id" ++ [("wallet_id", VStr wallet_id)] ++ text_field "chain" ++
   match _normalize_approval_response (get session "approval_response") with
   | Some ap => [("approval_response", VDict ap)]
   | None => []
   end)%list.

(** * tool_text.py *)

(** The marker is the host's; [details] and the hint are one line. *)
Definition approval_hint : string :=
  "Juno/Telegram: user taps Approve, then sends any message. Juno will call Mercury again with the SAME intent (including the same idempotency_key inside the intent) and top-level approval_response. Do not instruct MetaMask/hardware signing unless this deployment explicitly uses in-wallet signing; the default path is a second Repeat Mercury invoke with approval_response (1Claw-backed signer).".

Definition newline : string := String (chr 10) "".

Definition turn_result_to_tool_text (marker : string) (res : AssistantTurnResult) : string :=
  match res with
  | AssistantTurnSuccess agent_reply task_result =>
      match agent_reply, task_result with
      | Some (String _ _ as reply), _ => reply
      | _, Some task => json_dumps (VDict task)
      | _, None => "Success (no reply or task_result)."
      end
  | AssistantTurnWalletApproval token id extras =>
      let idem := match get extras "idempotency_key" with VStr s => Some s | _ => text_or token id end in
      let details := match extras with [] => [] | _ => ["details=" ++ json_dumps (VDict extras)] end in
      marker ++ newline ++
      py_join newline
        (mjoin [["Wallet approval required (Mercury approval gate)."; "approval_token=" ++ py_repr (of_opt_str token);
                 "approval_id=" ++ py_repr (of_opt_str id)];
                match idem with Some (String _ _ as k) => ["idempotency_key=" ++ quoted k] | _ => [] end;
                [py_join " " (mjoin [details; [approval_hint]])]])
  | AssistantTurnAgentError message error_code details =>
      "Agent error: " ++ message ++
      match error_code with Some (String _ _ as c) => " (code=" ++ c ++ ")" | _ => "" end ++
      match details with Some (_ :: _ as d) => " details=" ++ json_dumps (VDict d) | _ => "" end
  | AssistantTurnHttpError status body message =>
      let msg := match message with Some (String _ _ as m) => m | _ => "HTTP " ++ py_str_int status end in
      "HTTP error " ++ py_str_int status ++ ": " ++ msg ++ newline ++ "Body (snippet): " ++ body
  end.

(** The tool [mercury_invoke] over the state of the session. *)
Definition mercury_invoke (marker intent_json : string) (session : dict) (generated : string) : online string :=
  match json_loads intent_json with
  | Err error => Ret ("Invalid intent JSON: " ++ error)
  | Ok (VDict intent) =>
      if is_none (get intent "kind") then Ret ("Intent must include a string " ++ quoted "kind" ++ " field.") else
      let '(intent_clean, idempotency_key) := _sanitize_intent_for_mercury_post intent in
      prog_bind (run_turn (_build_mercury_invoke_payload session intent_clean) idempotency_key true generated) (fun res =>
        Ret (turn_result_to_tool_text marker res))
  | Ok _ => Ret "Intent must be a JSON object."
  end.
End turn.
