(* ===== verification/JunoSpec.v ===== *)
(** A turn of the specialist: what its request asks for, and what the host is told of the run. *)
From stdpp Require Import base tactics option list sets strings gmap.
From Stdlib Require Import ZArith Lia Ascii String.
From S2P Require Import Prelude Python Values Exceptions Amounts Redaction Errors Addresses Chains Models SwapModels Policy Prog Effects.
From S2P Require Import Idempotency Intents TokenTransactions TokenSpec Swaps SwapSpec Graph State Transactions Pipeline Preparation PipelineSpec PreparationSpec.
From S2P Require Import Execution EndToEnd Io Custody CustodySpec Backend BackendSpec Deployment Web Ens InvokeIntent InvokeIntentSpec ReadGraph Runtime RuntimeSpec.
From S2P Require Import Http AlchemyClients Tools Floats SwapAdapters ToolsSpec AdapterSpec Service SwapCalls ServiceSpec Invoke InvokeSpec Juno.

Local Open Scope string_scope.
Local Open Scope Z_scope.

(** * Dictionaries without keys *)

Lemma get_without keys d key : dict_get (without keys d) key = if bool_decide (key ∈ keys) then None else dict_get d key.
Proof.
  unfold without. induction d as [|[k v] d IH]; [by case_bool_decide|]. cbn [List.filter fst].
  destruct (decide (k ∈ keys)) as [Hk|Hk]; [rewrite (bool_decide_true _ Hk) | rewrite (bool_decide_false _ Hk)];
    cbn [negb dict_get]; rewrite IH; destruct (String.eqb_spec key k) as [->|]; try done; by case_bool_decide.
Qed.

(** * The dump of a state *)

Definition state_keys : list string :=
  ["messages"; "request_id"; "raw_input"; "parsed_intent"; "chain_name"; "chain_config"; "chain_reference";
   "selected_tool_name"; "tool_input"; "tool_result"; "response_text"; "intent"; "read_result"; "policy_decision";
   "prepared_transaction"; "prepared_swap"; "executable_transaction"; "simulation_result"; "approval_result";
   "signed_transaction"; "tx_hash"; "execution_result"; "wallet_address"; "error"].

(** A dump has keys of the state only. *)
Class StateDumpLaws (SD : StateDump) : Prop := {
  dump_keys s k v : dict_get (state_dump s) k = Some v -> k ∈ state_keys
}.

Section turn.
Context {JL : JsonLoads}.

(** * The request of a turn *)

(** What the session gives for a key that the intent lacks. *)
Definition session_value (session : dict) (key : string) : option pyval :=
  if String.eqb key "chain" then
    match get session "chain" with
    | VNone => None
    | v => if str_empty (py_fold (py_str v)) then None else Some (VStr (py_fold (py_str v)))
    end
  else if String.eqb key "wallet_id" then
    Some (VStr (py_strip (if truthy (get session "wallet_id") then py_str (get session "wallet_id") else "primary")))
  else if String.eqb key "metadata" then
    Some (VDict (("user_id", VStr (py_str (get session "user_id"))) ::
                 match _normalize_approval_response (get session "approval_response") with
                 | Some a => [("approval_response", VDict a)]
                 | None => []
                 end))
  else None.

Lemma sanitized intent :
  let '(clean, key) := _sanitize_intent_for_mercury_post intent in
  dict_get clean "approval_response" = None /\
  forall k, key = Some k -> k <> "" /\ dict_get clean "idempotency_key" = Some (VStr k).
Proof.
  unfold _sanitize_intent_for_mercury_post.
  assert (dict_get (without ["approval_response"] intent) "approval_response" = None) as Ha by (by rewrite get_without).
  destruct (get _ "idempotency_key") as [| | | |raw| |]; try by split.
  destruct (str_empty (py_strip raw)) eqn:E; [by split|].
  rewrite !dict_get_set. split; [done|]. intros k [= <-]. split; [by apply str_empty_false | done].
Qed.

Definition opt_text (v : pyval) : option string := match v with VNone => None | v => Some (py_str v) end.

Definition session_wallet (session : dict) : string :=
  if truthy (get session "wallet_id") then py_str (get session "wallet_id") else "primary".

Lemma body_get session intent key :
  let body := match key with
              | Some k => dict_setdefault (_build_mercury_invoke_payload session intent) "idempotency_key" (VStr k)
              | None => _build_mercury_invoke_payload session intent
              end in
  dict_get body "request_id" = None /\ dict_get body "user_id" = VStr <$> opt_text (get session "user_id") /\
  dict_get body "wallet_id" = Some (VStr (session_wallet session)) /\ dict_get body "intent" = Some (VDict intent) /\
  dict_get body "chain" = VStr <$> opt_text (get session "chain") /\ dict_get body "idempotency_key" = VStr <$> key /\
  dict_get body "approval_response" = VDict <$> _normalize_approval_response (get session "approval_response") /\
  dict_get body "metadata" = None.
Proof.
  unfold _build_mercury_invoke_payload. fold (session_wallet session).
  destruct (get session "user_id"), (get session "chain"), (_normalize_approval_response _), key; by split_and!.
Qed.

Lemma opt_text_str v t : opt_text v = Some t -> v <> VNone /\ py_str v = t.
Proof. by destruct v; intros [= <-]. Qed.

Lemma invoke_chain_ok c x : v_invoke_chain (Some c) = Ok x -> x = if str_empty (py_fold c) then None else Some (py_fold c).
Proof.
  unfold v_invoke_chain, v_opt. destruct (v_min_length "chain" 1 c) as [c'|] eqn:E; [|done].
  apply v_min_length_ok in E as [<- _]. by intros [= <-].
Qed.

(** The body of a turn validates to the session's fields. *)
Lemma session_request session intent key request :
  (forall k, key = Some k -> k <> "") ->
  MercuryInvokeRequest_validate
    match key with
    | Some k => dict_setdefault (_build_mercury_invoke_payload session intent) "idempotency_key" (VStr k)
    | None => _build_mercury_invoke_payload session intent
    end = Ok request ->
  iq_request_id request = None /\ iq_intent request = inl intent /\ iq_idempotency_key request = key /\
  forall k, boundary_value request key k = if String.eqb k "idempotency_key" then VStr <$> key else session_value session k.
Proof.
  intros Hkey. destruct (body_get session intent key) as (Hrid & Huid & Hwid & Hint & Hch & Hidem & Hap & Hmd).
  set (body := match key with Some _ => _ | None => _ end) in *. clearbody body. unfold MercuryInvokeRequest_validate.
  intros H. inv_valid. unfold opt_str_field, str_field, req, dflt, optional in *.
  rewrite Hrid, Huid, Hwid, Hint, Hch, Hidem, Hap, Hmd in *.
  simpl in *. simplify_eq.
  assert (s1 = py_str (get session "user_id")) as ->.
  { destruct (opt_text _) as [t|] eqn:Et; [|done]. apply opt_text_str in Et as [_ <-].
    unfold nonempty in *. simpl in *. by inv_valid. }
  assert (s0 = py_strip (session_wallet session)) as ->.
  { unfold v_wallet in *. destruct (v_min_length "wallet_id" 1 _) eqn:Ew; [|done]. simpl in *. inv_valid.
    by match goal with H : validate_wallet_id _ = Ok _ |- _ => apply validate_wallet_id_ok in H as [-> _] end. }
  assert (o0 = key) as ->.
  { destruct key as [k|]; simpl in *; [|congruence]. unfold nonempty in *. inv_valid. by subst. }
  assert (o = _normalize_approval_response (get session "approval_response")) as ->
    by (destruct (_normalize_approval_response _); simpl in *; congruence).
  assert (VStr <$> mjoin o1 = session_value session "chain") as Hchain.
  { unfold session_value. simpl. destruct (get session "chain") eqn:Ec; simpl in *; [by simplify_eq|..].
    all: match goal with H : context [v_invoke_chain (Some ?c)] |- _ =>
           destruct (v_invoke_chain (Some c)) as [x|] eqn:Ei; simpl in H; [|done]; injection H as <-
         end.
    all: apply invoke_chain_ok in Ei as ->; simpl; by destruct (str_empty _). }
  split_and!; [done..|]. intros k. unfold boundary_value. simpl.
  destruct (String.eqb_spec k "chain") as [->|]; [done|].
  destruct (String.eqb_spec k "wallet_id") as [->|]; [done|].
  destruct (String.eqb_spec k "idempotency_key") as [->|]; [done|].
  destruct (String.eqb_spec k "metadata") as [->|Hm]; unfold session_value; simpl.
  - by destruct (_normalize_approval_response _).
  - repeat match goal with H : k <> _ |- _ => apply String.eqb_neq in H; rewrite H; clear H end. done.
Qed.

Section tool.
Context {SD : StateDump} {PT : PydanticText} {PE : PydanticErrors}.
Context (runtime : MercuryState -> online (result exn MercuryState)).

(** What a turn makes of the answer of the runtime. *)
Definition turn_of (chain : option string) (request_id : string) (r : result exn MercuryState) : AssistantTurnResult :=
  match r with
  | Ok s => _local_response_to_result (_response_from_state s request_id chain)
  | Err exc => AssistantTurnAgentError (redact_error_message (str_exn exc)) (Some "graph_invocation_failed") None
  end.

Lemma turn_cases payload key generated tr res :
  let body := match key with Some k => dict_setdefault payload "idempotency_key" (VStr k) | None => payload end in
  may (run_turn runtime payload key true generated) tr res ->
  (tr = [] /\ exists exc details, MercuryInvokeRequest_validate body = Err exc /\
     res = AssistantTurnAgentError "Mercury request validation failed" (Some "validation_error") details) \/
  exists request r, MercuryInvokeRequest_validate body = Ok request /\
    let request_id := effective_request_id request (Some generated) generated in
    may (runtime (_state_from_request request request_id (effective_idempotency_key request key))) tr r /\
    res = turn_of (iq_chain request) request_id r.
Proof.
  intros body. unfold run_turn. fold body. destruct (MercuryInvokeRequest_validate body) as [request|exc].
  - intros (tr1 & tr2 & a & -> & H & [-> ->])%may_bind. right. exists request. rewrite app_nil_r.
    unfold invoke_mercury in H. apply may_bind in H as (tr3 & tr4 & r & -> & H & [-> ->]).
    exists r. rewrite app_nil_r. split; [done|]. split; [exact H|]. destruct r as [s|exc]; [done|]. simpl.
    destruct (str_empty _) eqn:E; [|done]. apply str_empty_true in E. by apply redact_error_message_nonempty in E.
  - intros [-> ->]. left. split; [done|]. by eexists _, _.
Qed.

(** * What the host is told *)

(** The keys of a response a turn looks at. *)
Definition turn_keys : list string :=
  ["status"; "approval_required"; "approval_token"; "idempotency_key"; "approval_id"; "wallet_approval_required";
   "agent_error"; "agent_reply"; "task_result"; "message"].

Lemma merged_get raw d k : k <> "data" -> dict_get d k = None -> get raw "data" = VDict d ->
  get (_merge_mercury_payload raw) k = get raw k.
Proof.
  intros Hk Hd Hraw. unfold _merge_mercury_payload. rewrite Hraw. unfold get at 1. rewrite get_without.
  rewrite bool_decide_false by set_solver. by rewrite dict_get_update_notin.
Qed.

Lemma parsed_response rs d :
  rs_data rs = Some d -> Forall (fun k => dict_get d k = None) turn_keys ->
  if String.eqb (rs_status rs) "approval_required" || rs_approval_required rs
  then exists extras, parse_mercury_body (response_dump rs) = AssistantTurnWalletApproval None None extras
  else exists task, parse_mercury_body (response_dump rs) = AssistantTurnSuccess None (Some task) /\
    forall k, k <> "data" -> dict_get d k = None -> get task k = get (response_dump rs) k.
Proof.
  intros Hdata Hkeys.
  assert (get (response_dump rs) "data" = VDict d) as Hd by (unfold response_dump; rewrite Hdata; reflexivity).
  pose proof (fun k H1 H2 => merged_get (response_dump rs) d k H1 H2 Hd) as Hget.
  unfold turn_keys in Hkeys. decompose_Forall_hyps. unfold parse_mercury_body.
  set (eff := _merge_mercury_payload (response_dump rs)) in *.
  rewrite !Hget by done. cbn [response_dump get dict_get String.eqb Ascii.eqb Bool.eqb eq_str is_true as_str py_or truthy].
  destruct (String.eqb _ _); simpl; [by eexists|]. destruct (rs_approval_required rs); [by eexists|].
  exists eff. split; [|exact Hget]. unfold success_of. rewrite !Hget by done. simpl.
  assert (get eff "message" = VStr (rs_message rs)) as Hm by (by rewrite Hget). by destruct eff.
Qed.

Lemma redacted_dict_none d k : dict_get d k = None -> dict_get (redacted_dict d) k = None.
Proof.
  unfold redacted_dict. simpl. induction d as [|[k' v] d IH]; [done|]. simpl. by destruct (String.eqb k k').
Qed.

(** What a turn over a final state is told as.  The outcome of an execution is the status, the message and the hash of its
    result; but any error, that of an approval still awaited included, is told as an error of the agent. *)
Definition told (s : MercuryState) (res : AssistantTurnResult) : Prop :=
  let waits := _approval_required (approval_result s) in
  let agent_error info :=
    let m := _mercury_error_from_info info in AssistantTurnAgentError (me_message m) (Some (me_code m)) (Some (me_details m)) in
  match execution_result s, error s with
  | Some e, _ =>
      let status := ExecutionStatus_value (er_status e) in
      match er_error e with
      | Some info => res = agent_error info
      | None =>
          if waits then exists extras, res = AssistantTurnWalletApproval None None extras
          else if bool_decide (er_status e = FAILED \/ er_status e = REJECTED)
          then res = AssistantTurnAgentError (_message_for_status status) (Some status) None
          else exists task, res = AssistantTurnSuccess None (Some task) /\
                 get task "status" = VStr status /\ get task "message" = VStr (_message_for_status status) /\
                 get task "chain" = VStr (er_chain e) /\ get task "tx_hash" = of_opt_str (er_tx_hash e)
      end
  | None, Some info => res = agent_error info
  | None, None =>
      if waits then exists extras, res = AssistantTurnWalletApproval None None extras
      else exists task, res = AssistantTurnSuccess None (Some task) /\
             get task "status" = VStr "succeeded" /\ get task "message" = VStr (_response_message s)
  end.

Lemma error_told rs m :
  rs_error rs = Some m -> me_message m <> "" ->
  _local_response_to_result rs = AssistantTurnAgentError (me_message m) (Some (me_code m)) (Some (me_details m)).
Proof.
  intros He Hm. unfold _local_response_to_result, response_dump. rewrite He. simpl. unfold py_or. simpl.
  apply str_empty_false in Hm. unfold mercury_error_dump, get. simpl. rewrite Hm. simpl. by rewrite Hm.
Qed.

Lemma result_parsed rs :
  rs_error rs = None -> rs_status rs ∉ ["failed"; "rejected"] -> _local_response_to_result rs = parse_mercury_body (response_dump rs).
Proof. intros He Hs. unfold _local_response_to_result, response_dump. rewrite He. simpl. by rewrite bool_decide_false. Qed.

Lemma result_failed rs :
  rs_error rs = None -> rs_status rs ∈ ["failed"; "rejected"] -> rs_message rs <> "" ->
  _local_response_to_result rs = AssistantTurnAgentError (rs_message rs) (Some (rs_status rs)) None.
Proof.
  intros He Hs Hm. unfold _local_response_to_result, response_dump. rewrite He. simpl. rewrite bool_decide_true by done.
  apply str_empty_false in Hm. unfold get. simpl. unfold py_or. simpl. by rewrite Hm.
Qed.

Lemma info_message_nonempty info : me_message (_mercury_error_from_info info) <> "".
Proof. apply redact_error_message_nonempty. Qed.

Lemma final_state_told chain request_id s :
  (forall k, k ∈ turn_keys -> dict_get (state_dump s) k = None) -> told s (turn_of chain request_id (Ok s)).
Proof.
  intros Hdump. unfold told, turn_of, _response_from_state. cbv zeta.
  destruct (execution_result s) as [e|]; [destruct (er_error e) as [info|] eqn:He|destruct (error s) as [info|]].
  - apply error_told; [reflexivity | apply info_message_nonempty].
  - set (rs := Build_MercuryInvokeResponse _ _ _ _ _ _ _ _ _ _).
    assert (Forall (fun k => dict_get [("execution_result", redact_value (VDict (execution_dump e)))] k = None) turn_keys) as Hk
      by (repeat constructor).
    pose proof (parsed_response rs _ eq_refl Hk) as Hp. subst rs. simpl rs_status in *. simpl rs_approval_required in *.
    destruct (_approval_required (approval_result s)).
    + destruct Hp as [extras Hp]. exists extras. rewrite result_parsed; [exact Hp | done | set_solver].
    + case_bool_decide as Hf.
      * rewrite result_failed; [done | done | by destruct Hf as [-> | ->]; set_solver |].
        simpl. unfold _message_for_status. by destruct (String.eqb _ _).
      * assert (ExecutionStatus_value (er_status e) <> "approval_required") as Hne by (by destruct (er_status e)).
        apply String.eqb_neq in Hne. rewrite Hne in Hp. destruct Hp as (task & Hp & Hget).
        exists task. rewrite result_parsed; [|done | destruct (er_status e); set_solver].
        split; [exact Hp|]. by rewrite !Hget.
  - apply error_told; [reflexivity | apply info_message_nonempty].
  - set (rs := Build_MercuryInvokeResponse _ _ _ _ _ _ _ _ _ _).
    assert (Forall (fun k => dict_get (redacted_dict (state_dump s)) k = None) turn_keys) as Hk
      by (apply Forall_forall; intros k Hk; by apply redacted_dict_none, Hdump).
    pose proof (parsed_response rs (redacted_dict (state_dump s)) eq_refl Hk) as Hp.
    rewrite Forall_forall in Hk. rewrite result_parsed; [|done | set_solver].
    destruct (_approval_required (approval_result s)); [exact Hp|]. destruct Hp as (task & Hp & Hget).
    exists task. split; [exact Hp|]. rewrite !Hget; try done; apply Hk; set_solver.
Qed.


(** C18. Whatever the model writes, a call of its tool reaches the runtime at most once, and then with a plain request: every
    field of its intent but a top-level approval is the request's (the idempotency key without blanks), only a field it lacks is
    the session's, and a human approval of the session is in the metadata unless the intent brings metadata of its own.  The text
    the model reads is that of the answer. *)
Theorem tool_request (marker intent_json text generated : string) (session : dict) (tr : list webevent)
    (Hrun : may (mercury_invoke runtime marker intent_json session generated) tr text) :
  tr = [] \/
  exists intent raw chain state r,
    json_loads intent_json = Ok (VDict intent) /\ may (runtime state) tr r /\
    request_only state /\ raw_input state = Some (AnyValue (VDict raw)) /\
    (forall key, dict_get raw key =
       match dict_get (_sanitize_intent_for_mercury_post intent).1 key with
       | Some v => Some v
       | None => session_value session key
       end) /\
    dict_get raw "approval_response" = None /\ VStr <$> chain = session_value session "chain" /\
    text = turn_result_to_tool_text marker (turn_of chain generated r).
Proof.
  unfold mercury_invoke in Hrun. destruct (json_loads intent_json) as [[| | | | | |intent]|]; try by left; destruct Hrun.
  destruct (is_none _); [left; by destruct Hrun|].
  pose proof (sanitized intent) as Hs. destruct (_sanitize_intent_for_mercury_post intent) as [clean key] eqn:Es.
  destruct Hs as [Hap Hkey].
  apply may_bind in Hrun as (tr1 & tr2 & res & -> & Hturn & [-> ->]). rewrite app_nil_r.
  apply turn_cases in Hturn as [[-> _]|(request & r & Hv & Hrun & ->)]; [by left|right].
  apply session_request in Hv as (Hid & Hint & Hk & Hb); [|intros k Hk'; by apply Hkey].
  destruct (boundary_fields request (effective_request_id request (Some generated) generated)
              (effective_idempotency_key request key) clean Hint) as (raw & Hraw & Hro & Hget).
  assert (effective_idempotency_key request key = key) as Hek
    by (unfold effective_idempotency_key; rewrite Hk; destruct key as [[]|]; done).
  assert (effective_request_id request (Some generated) generated = generated) as Heid
    by (unfold effective_request_id; rewrite Hid; by destruct generated).
  rewrite Hek in *. rewrite Heid in *.
  assert (forall k, dict_get raw k = match dict_get clean k with Some v => Some v | None => session_value session k end) as Hfields.
  { intros k. rewrite Hget, Hb. destruct (String.eqb_spec k "idempotency_key") as [->|]; [|done].
    destruct key as [k|]; [by rewrite (proj2 (Hkey k eq_refl)) | by destruct (dict_get clean _)]. }
  exists intent, raw, (iq_chain request), (_state_from_request request generated key), r. rewrite Es. split_and!; try done.
  - by rewrite Hfields, Hap.
  - exact (Hb "chain").
Qed.
(** C19. A turn always ends with a result, and the result tells the run: a body that is no request is an error of validation and
    calls nothing; an exception of the runtime is an error; of a run with an execution result, success tells its status, message
    and hash, and only without an error, a failed status or an awaited approval.  An error of the execution is told as an error
    even when a human approval is awaited, so that the approval is not asked for. *)
Theorem turn_tells_run {SDL : StateDumpLaws SD} (payload : dict) (key : option string) (generated : string) (tr : list webevent)
    (res : AssistantTurnResult) (Hrun : may (run_turn runtime payload key true generated) tr res) :
  let body := match key with Some k => dict_setdefault payload "idempotency_key" (VStr k) | None => payload end in
  (tr = [] /\ exists exc details, MercuryInvokeRequest_validate body = Err exc /\
     res = AssistantTurnAgentError "Mercury request validation failed" (Some "validation_error") details) \/
  exists request r, MercuryInvokeRequest_validate body = Ok request /\
    may (runtime (_state_from_request request (effective_request_id request (Some generated) generated)
                    (effective_idempotency_key request key))) tr r /\
    match r with
    | Ok s => told s res
    | Err exc => res = AssistantTurnAgentError (redact_error_message (str_exn exc)) (Some "graph_invocation_failed") None
    end.
Proof.
  intros body. apply turn_cases in Hrun as [Hinvalid|(request & r & Hv & Hrun & ->)]; [by left|right].
  exists request, r. split; [done|]. split; [exact Hrun|]. destruct r as [s|exc]; [|done].
  apply final_state_told. intros k Hk. destruct (dict_get (state_dump s) k) eqn:E; [|done].
  apply dump_keys in E. unfold turn_keys, state_keys in *. set_solver.
Qed.
End tool.
End turn.

(** * Turns of the service *)

#[export] Instance sample_state_dump_laws : StateDumpLaws sample_state_dump.
Proof.
  split. intros s k v. simpl. destruct (String.eqb_spec k "tx_hash") as [->|]; [|done]. intros _. unfold state_keys. set_solver.
Qed.

#[export] Instance sample_json_loads : JsonLoads := fun text =>
  if String.eqb text "swap" then Ok (VDict swap_payload)
  else if String.eqb text "plain swap" then Ok (VDict without_metadata)
  else if String.eqb text "[]" then Ok (VList []) else Err "Expecting value: line 1 column 1 (char 0)".
#[export] Instance sample_pydantic_errors : PydanticErrors := fun _ => errors_value.

Definition session (approval_response : pyval) : dict := [("user_id", VStr "u1"); ("approval_response", approval_response)].

Definition tool_program (app : standalone) (intent_json : string) (approval_response : pyval) : online string :=
  mercury_invoke (service_invoke default_settings app) "MARKER" intent_json (session approval_response) "id".

(** What the turn of a tool call is told as: the status or the code, and the hash. *)
Definition turn_outcome (intent : dict) (approval_response : pyval) : option (string * pyval) :=
  match sample_app with
  | Ok app =>
      let '(clean, key) := _sanitize_intent_for_mercury_post intent in
      match (run_prog service_handler (run_turn (service_invoke default_settings app)
               (_build_mercury_invoke_payload (session approval_response) clean) key true "id") ∅).2 with
      | AssistantTurnSuccess _ (Some task) => Some (py_str (get task "status"), get task "tx_hash")
      | AssistantTurnWalletApproval _ _ _ => Some ("wallet approval", VNone)
      | AssistantTurnAgentError _ (Some c) _ => Some ("error: " ++ c, VNone)
      | _ => None
      end
  | Err _ => None
  end.

(** A swap that waits for its approval is told as an error, and the button to approve it does not appear; *)
Example wait_is_error : turn_outcome without_metadata VNone = Some ("error: approval_denied", VNone).
Proof. vm_compute. reflexivity. Qed.
(** after a tap on the button it is sent; *)
Example tapped : turn_outcome without_metadata (VStr "Approved:") = Some ("confirmed", VStr sample_hash).
Proof. vm_compute. reflexivity. Qed.
Example denied : turn_outcome without_metadata (VStr "Denied:") = Some ("error: approval_denied", VNone).
Proof. vm_compute. reflexivity. Qed.
(** any other answer of the user is taken for an approval; *)
Example no_is_yes : turn_outcome without_metadata (VStr "no, cancel it") = Some ("confirmed", VStr sample_hash).
Proof. vm_compute. reflexivity. Qed.
(** and an approval that the model writes into the metadata of its intent is taken for the human's. *)
Example model_approves : turn_outcome swap_payload VNone = Some ("confirmed", VStr sample_hash).
Proof. vm_compute. reflexivity. Qed.

Definition turn_program (app : standalone) : online AssistantTurnResult :=
  run_turn (service_invoke default_settings app) (_build_mercury_invoke_payload (session (VStr "Approved:")) without_metadata)
    None true "id".
Definition turn_trace (app : standalone) : list webevent := run_trace service_handler (turn_program app) ∅.
Definition turn_result (app : standalone) : AssistantTurnResult := (run_prog service_handler (turn_program app) ∅).2.

Lemma turn_may app : may (turn_program app) (turn_trace app) (turn_result app).
Proof. exact (run_may service_handler (turn_program app) ∅). Qed.

Lemma turn_succeeds :
  match sample_app with
  | Ok app => match turn_result app with AssistantTurnSuccess None (Some _) => true | _ => false end
  | Err _ => false
  end = true.
Proof. vm_compute. reflexivity. Qed.

Lemma turn_tells_run_witness :
  exists app task, sample_app = Ok app /\ turn_result app = AssistantTurnSuccess None (Some task) /\
    exists state s, may (service_invoke default_settings app state) (turn_trace app) (Ok s) /\ told s (turn_result app).
Proof.
  pose proof turn_succeeds as Hok. destruct sample_app as [app|]; [|discriminate].
  pose proof (turn_tells_run (service_invoke default_settings app)
    (_build_mercury_invoke_payload (session (VStr "Approved:")) without_metadata) None "id"
    (turn_trace app) (turn_result app) (turn_may app)) as H. cbv zeta in H.
  destruct (turn_result app) as [[|] [task|]| | |] eqn:Et; try discriminate. exists app, task. rewrite Et.
  split; [reflexivity|]. split; [reflexivity|].
  destruct H as [(_ & exc & details & _ & E)|(request & [s|exc] & _ & Hr & Htold)]; [discriminate| |discriminate].
  exact (ex_intro _ _ (ex_intro _ s (conj Hr Htold))).
Defined.

Definition sample_tool (app : standalone) : online string := tool_program app "plain swap" (VStr "Approved:").
Definition tool_trace (app : standalone) : list webevent := run_trace service_handler (sample_tool app) ∅.
Definition tool_text (app : standalone) : string := (run_prog service_handler (sample_tool app) ∅).2.

Lemma tool_may app : may (sample_tool app) (tool_trace app) (tool_text app).
Proof. exact (run_may service_handler (sample_tool app) ∅). Qed.

Lemma tool_acts :
  match sample_app with Ok app => match tool_trace app with [] => false | _ => true end | Err _ => false end = true.
Proof. vm_compute. reflexivity. Qed.

Lemma tool_request_witness :
  exists app, sample_app = Ok app /\ exists state r raw,
    may (service_invoke default_settings app state) (tool_trace app) r /\
    raw_input state = Some (AnyValue (VDict raw)) /\ dict_get raw "wallet_id" = dict_get without_metadata "wallet_id" /\
    dict_get raw "metadata" =
      Some (VDict [("user_id", VStr "u1"); ("approval_response", VDict (telegram_decision "approved" ""))]).
Proof.
  pose proof tool_acts as Hok. destruct sample_app as [app|]; [|discriminate].
  exists app. split; [reflexivity|].
  pose proof (tool_request (service_invoke default_settings app) "MARKER" "plain swap" (tool_text app) "id"
    (session (VStr "Approved:")) (tool_trace app) (tool_may app)) as H.
  destruct H as [E|(intent & raw & chain & state & r & Hjson & Hr & _ & Hraw & Hget & _)];
    [rewrite E in Hok; discriminate|].
  injection Hjson as <-. exists state, r, raw. split; [exact Hr|]. split; [exact Hraw|].
  rewrite !Hget. split; reflexivity.
Defined.
